(* ===== verification/_CoqProject ===== *)
-Q . S2P
Prelude.v
PyFloat.v
PyValue.v
Json.v
Control.v
Packets.v
Psd.v
State.v
Config.v
Broadcast.v
UdpReceiver.v
SignalGen.v
SignalRange.v
NumpyApi.v
Dsp.v
Waterfall.v
FakeServer.v
ServerSpec.v
ServerTypes.v
Lifecycle.v
ServerTx.v
Golden.v
DeviceClient.v
ClientTasks.v
Probe.v
DebugProbe.v
ControlLink.v
Runtime.v
EventLoop.v
RuntimeSpec.v
RawCapture.v
App.v
WsSession.v
Entry.v
Vitis.v
VitisProbe.v
System.v
