(* ===== verification/Prelude.v ===== *)
(** * The WebSDR protocol, device simulator and Raspberry Pi backend

    The program is a software-defined radio.  A device (an AC920 board with an
    FPGA front end) digitises the antenna signal; it is controlled over TCP by
    JSON lines and sends IQ samples, power spectra (PSD) and status objects in
    UDP datagrams.  A backend on a Raspberry Pi controls the device, receives
    the datagrams, demodulates, and serves a browser over HTTP and WebSockets.
    A simulator replaces the board in tests.  This development models the
    Python of the repository: the shared protocol ([src/common/protocol]), the
    simulated device ([src/simulator/fake_ac920]), the backend
    ([src/rpi/backend/sdr_backend]), the bring-up probes ([src/tools]), the
    reference scripts of the FPGA simulation ([src/fpga]) and the build scripts
    of the board's firmware ([src/ps/baremetal/scripts]).

    ** Conventions

    A Python object is a record with one field per attribute, named after it
    with a short prefix; a method that mutates and may raise is a function in
    the monad [M] (state and exception: assignments made before an exception
    stay); a method that only may raise returns [res].  Exceptions carry their
    class and message, because handlers copy messages into replies.  Python
    ints are [Z] with masks and field widths written out, floats are binary64
    ([PyFloat], executable), JSON-like values are [PyValue.pyval] with
    insertion-ordered dicts.  Clocks are arguments.  Everything is executable;
    witnesses evaluate the definitions.

    ** Files

    - [Prelude] (this file): exceptions, [res], [M] with its triples and kept
      predicates ([holds]), dicts, bytes and two's complement, ranges and slices.
    - [PyFloat], [PyValue], [Json]: the parts of Python and of its [json] module
      the sources use; [Json] proves that printing and parsing are inverse and
      that the parser's fuel (the length of the text) is always enough.
    - [Control]: [control.py] and the reading of a connection by lines.
    - [Packets]: [packets.py]; the class [WireHeader] with its laws is what the
      receivers need of a header type.
    - [Psd], [State], [Broadcast], [UdpReceiver], [Config]: the modules of the
      same names of the backend.
    - [SignalGen], [FakeServer]: [signal_gen.py] and [server.py].  [FakeServer]
      has every command, the three sender loops, and the life cycle ([start],
      [stop]) and the connections as a transition system ([World],
      [world_step], [reachable]).  [SignalRange]: from the documented ranges of
      [math.sin], [math.cos] and [random.uniform] (the class [SignalLaws]) every
      scenario delivers its samples, for any number of packets.
    - [ServerSpec], [ServerTypes], [Lifecycle], [ServerTx]: what the device
      guarantees on the control side, the types of what it stores and the ranges
      it enforces, what starting and stopping it means, and what it guarantees
      on the data side.
    - [NumpyApi]: NumPy and SciPy as interfaces ([Numpy], [NumpyLaws]);
      [Dsp], [Waterfall]: [dsp.py] and [waterfall.py] over them.
    - [DeviceClient]: [device_client.py] over the class [Transport], one
      operation at a time; [ClientTasks]: its requests by concurrent tasks, as
      events of the event loop; [ControlLink] implements [Transport] by the
      simulated device.
    - [Probe], [DebugProbe]: [network_probe.py] and [ac920_debug_probe.py] over
      the classes [ProbeNet] and [DebugNet].
    - [Runtime]: [runtime.py]; [EventLoop]: the receiver threads, the handlers
      they queue and the pieces of the commands, in any interleaving;
      [RuntimeSpec]: the runtime's view of the device.
    - [RawCapture], [App]: [raw_capture.py] and [app.py]; [WsSession]: a
      WebSocket session together with its broadcaster.
    - [Golden]: [gen_vectors.py], [ddc_golden.py], [cic_golden.py] and
      [packet_check.py].
    - [Entry]: [main.py], the ASGI scope dispatch, the simulator's [async_main].
    - [Vitis], [VitisProbe]: [vitis_create_ac920_sdr.py], [vitis_probe.py] and
      [vitis_probe_xsa.py] over the classes [VitisWorld] and [ProbeWorld].
    - [System]: the data paths from the device into the backend.

    ** What is shown

    - Wire formats: headers and control messages decode to exactly what was
      encoded, and packing fails exactly on values that do not fit.
    - The device: every control line is answered under its id, but for a reply
      that UTF-8 cannot encode, a [hello] without one of its ports and infinite
      numbers; at most one client is served and a device without owner is
      silent; in every reachable state its values have their types and the
      ranges its commands check and its senders maintain (settings stored
      unchecked have none); a PSD configuration changes completely or not at
      all; packets are numbered consecutively across deliberate drops, in every
      signal scenario; a PSD frame goes out as eight segments, each stamped with
      the clock of its own sending; after [stop] the device never sends again.
    - The backend's receive path: reassembly in any segment order, accounting
      of every PSD frame, exact loss counts, bounded queues that keep the newest
      items, receivers that survive malformed datagrams; and whatever the
      interleaving of threads, handlers and commands, each channel is handled as
      if it were alone.
    - End to end, in any run of the backend: the waterfall row carries the bins
      the device computed, and the loss statistics count the packets it dropped
      between the first and the last one received.
    - Control: no reply is taken for another request's, whatever the peer does;
      over a working connection a request is a remote procedure call; after
      [set_psd] the backend's state agrees with the device.  However tasks
      interleave, exchanges do not overlap, replies are not crossed, and every
      request ends after a bounded number of steps.
    - Tools: the exit code of the network probe says what was carried out; the
      stimulus vectors read back to the computed samples; the Vitis build makes
      its calls in order and checks the platform file before it uses it.
    - Signal path and web side: audio frames are independent of block
      boundaries, spectra are those of consecutive blocks, one complete HTTP
      response per request with the status of the route's outcome, WebSocket
      clients get a subsequence of what is published, lose only what their
      messages displace and their full queue drops, and leave nothing behind.
    - Where the code does something else than it means to, a theorem says what
      it does: duplicated PSD segments, frames mixed after a restart, rejected
      requests that are applied in part, receivers that cannot be restarted,
      late replies that desynchronise a connection, requests that die of
      [AttributeError] when the client is closed under them, WebSocket items
      displaced by client messages, a packet checker that rejects every packet,
      a status port that ends the status messages for every client, a late frame
      that shows PSD as enabled, a build that leaves without [dispose].

    ** Fuel

    Recursion that is not structural takes fuel, and the theorems state results
    for every sufficient amount: the JSON parser and [read_messages] use the
    length of the text, [frame_loop] one turn more than the number of samples
    (with a frame length of zero the loop of the source does not end, and the
    model says so), [ws_queue_loop] one turn for each item and message,
    [decode_replace] one turn for each byte.

    ** Not modelled

    Timing (sleeps and timeouts are events), sockets and threads beyond their
    event sequences, posting to an event loop that was closed, overlapping calls
    of the simulator's [start] and [stop], lines that arrive on a transport that
    is closing, missing NumPy, CPython's recursion and
    integer-length limits, non-ASCII case conversion and digits, [argparse] (a
    script is modelled from its parsed arguments on) and uvicorn, the names the
    protocol package re-exports, and the parts in other languages (Verilog, C
    firmware, TypeScript). *)

From Stdlib Require Import ZArith Strings.Byte Lia.
From stdpp Require Import base list gmap strings relations.

Open Scope Z_scope.
Set Default Goal Selector "!".

(** ** Exceptions

    The exception classes the sources raise or catch, with the subclass tests
    of the [except] clauses.  A raised exception keeps its message, because
    several handlers copy [str(exc)] into a response. *)

Inductive exn_class :=
  | TypeError | ValueError | KeyError | AttributeError
  | OverflowError | ZeroDivisionError
  | StructError | PacketError
  | JsonLineError | JSONDecodeError | UnicodeDecodeError | UnicodeEncodeError
  | RuntimeError | DeviceClientError | ProbeError
  | OSError | TimeoutError | IncompleteReadError
  | QueueFull | QueueEmpty.

#[export] Instance exn_class_eq_dec : EqDecision exn_class.
Proof. solve_decision. Defined.

Record exn := Exn { exn_cls : exn_class; exn_msg : string }.

#[export] Instance exn_eq_dec : EqDecision exn.
Proof. solve_decision. Defined.

(** The direct base class, for the classes whose base the sources catch. *)
Definition exn_parent (c : exn_class) : option exn_class :=
  match c with
  | PacketError | JsonLineError | JSONDecodeError | UnicodeDecodeError | UnicodeEncodeError =>
      Some ValueError
  | DeviceClientError | ProbeError => Some RuntimeError
  | TimeoutError => Some OSError
  | _ => None
  end.

(** [isinstance(exc, base)]; the hierarchy above is one level deep. *)
Definition exn_isa (c base : exn_class) : bool :=
  bool_decide (c = base) || bool_decide (exn_parent c = Some base).

(** ** Results and the state-and-exception monad *)

Inductive res (A : Type) :=
  | Ok (a : A)
  | Raise (e : exn).
Arguments Ok {A} a.
Arguments Raise {A} e.

#[export] Instance res_ret : MRet res := fun A a => Ok a.
#[export] Instance res_bind : MBind res := fun A B f m =>
  match m with Ok a => f a | Raise e => Raise e end.
#[export] Instance res_fmap : FMap res := fun A B f m =>
  match m with Ok a => Ok (f a) | Raise e => Raise e end.

Definition raise {A} (c : exn_class) (msg : string) : res A := Raise (Exn c msg).

Definition is_ok {A} (r : res A) : bool := match r with Ok _ => true | Raise _ => false end.

(** Python code that mutates an object and may raise: the mutations made
    before the exception stay, so the state is returned in both cases. *)
Definition M (S A : Type) : Type := S -> S * res A.

#[export] Instance M_ret S : MRet (M S) := fun A a s => (s, Ok a).
#[export] Instance M_bind S : MBind (M S) := fun A B f m s =>
  match m s with
  | (s', Ok a) => f a s'
  | (s', Raise e) => (s', Raise e)
  end.

Definition M_get {S} : M S S := fun s => (s, Ok s).
Definition M_put {S} (s : S) : M S unit := fun _ => (s, Ok tt).
Definition M_modify {S} (f : S -> S) : M S unit := fun s => (f s, Ok tt).
Definition M_lift {S A} (r : res A) : M S A := fun s => (s, r).
Definition M_raise {S A} (c : exn_class) (msg : string) : M S A := M_lift (raise c msg).

(** [try: m except ...: h], where [h] gets every exception and re-raises those
    it does not handle. *)
Definition M_try {S A} (m : M S A) (h : exn -> M S A) : M S A := fun s =>
  match m s with
  | (s', Ok a) => (s', Ok a)
  | (s', Raise e) => h e s'
  end.

(** Partial-correctness triples for the monad: from states satisfying [P],
    [m] returns values and states satisfying [Q] or raises with [E]. *)
Definition M_triple {S A} (P : S -> Prop) (m : M S A) (Q : A -> S -> Prop) (E : exn -> S -> Prop) : Prop :=
  forall s, P s -> match m s with (s', Ok a) => Q a s' | (s', Raise e) => E e s' end.

Section Triples.
Context {S A B : Type}.
Implicit Types (P : S -> Prop) (E : exn -> S -> Prop).

Lemma triple_bind P (m : M S A) (f : A -> M S B) R Q E :
  M_triple P m R E -> (forall a, M_triple (R a) (f a) Q E) -> M_triple P (m ≫= f) Q E.
Proof.
  intros Hm Hf s Hs. specialize (Hm s Hs). unfold mbind, M_bind.
  destruct (m s) as [s' [a|e]]; [by apply (Hf a) | done].
Qed.

Lemma triple_ret P (a : A) (Q : A -> S -> Prop) E : (forall s, P s -> Q a s) -> M_triple P (mret a) Q E.
Proof. intros H s Hs. by apply H. Qed.

Lemma triple_lift P (r : res A) (Q : A -> S -> Prop) E :
  (forall s, P s -> match r with Ok a => Q a s | Raise e => E e s end) -> M_triple P (M_lift r) Q E.
Proof. intros H s Hs. unfold M_lift. specialize (H s Hs). by destruct r. Qed.

Lemma triple_get P (Q : S -> S -> Prop) E : (forall s, P s -> Q s s) -> M_triple P M_get Q E.
Proof. intros H s Hs. by apply H. Qed.

Lemma triple_modify P (f : S -> S) (Q : unit -> S -> Prop) E :
  (forall s, P s -> Q tt (f s)) -> M_triple P (M_modify f) Q E.
Proof. intros H s Hs. by apply H. Qed.

Lemma triple_weaken P P' (m : M S A) Q Q' E E' :
  M_triple P' m Q' E' -> (forall s, P s -> P' s) -> (forall a s, Q' a s -> Q a s) ->
  (forall e s, E' e s -> E e s) -> M_triple P m Q E.
Proof.
  intros Hm HP HQ HE s Hs. specialize (Hm s (HP s Hs)). destruct (m s) as [s' [a|e]]; auto.
Qed.
End Triples.

(** [m] keeps [P], whether it returns or raises. *)
Definition holds {S A} (P : S -> Prop) (m : M S A) : Prop := M_triple P m (fun _ => P) (fun _ => P).

Section Holds.
Context {S A B : Type}.
Implicit Types P : S -> Prop.

Lemma holds_bind P (m : M S A) (f : A -> M S B) : holds P m -> (forall a, holds P (f a)) -> holds P (m ≫= f).
Proof. intros Hm Hf. eapply triple_bind; [exact Hm|exact Hf]. Qed.
Lemma holds_ret P (a : A) : holds P (mret a).
Proof. by apply triple_ret. Qed.
Lemma holds_get P : holds P M_get.
Proof. by apply triple_get. Qed.
Lemma holds_lift P (r : res A) : holds P (M_lift r).
Proof. apply triple_lift. intros s Hs. by destruct r. Qed.
Lemma holds_modify P f : (forall s, P s -> P (f s)) -> holds P (M_modify f).
Proof. intros Hf. by apply triple_modify. Qed.
Lemma holds_state P (m : M S A) s : holds P m -> P s -> P (m s).1.
Proof. intros Hm Hs. specialize (Hm s Hs). by destruct (m s) as [s' [a|e]]. Qed.
End Holds.

Create HintDb holds.
#[export] Hint Resolve holds_ret holds_get holds_lift : holds.

(** An invariant of every step holds wherever the steps lead. *)
Lemma rtc_invariant {A} (R : relation A) (P : A -> Prop) x y :
  (forall a b, R a b -> P a -> P b) -> rtc R x y -> P x -> P y.
Proof. intros Hstep. induction 1; eauto. Qed.

(** Runs [f] on every element of [l], in order, collecting the results. *)
Fixpoint res_map {A B} (f : A -> res B) (l : list A) : res (list B) :=
  match l with
  | [] => Ok []
  | x :: l' => y ← f x; ys ← res_map f l'; Ok (y :: ys)
  end.

Lemma res_map_ok {A B} (f : A -> res B) l ys :
  res_map f l = Ok ys <-> Forall2 (fun x y => f x = Ok y) l ys.
Proof.
  revert ys; induction l as [|x l IH]; intros ys; simpl.
  - split; [intros [= <-]; constructor | intros H; inversion H; done].
  - destruct (f x) as [y|e] eqn:Hx; simpl.
    + destruct (res_map f l) as [zs|e] eqn:Hl; simpl.
      * split.
        -- intros [= <-]. constructor; [done|]. by apply IH.
        -- intros H. inversion H as [|? ? ? ys' Hy Hys]; subst.
           apply IH in Hys. congruence.
      * split; [done|]. intros H. inversion H as [|? ? ? ys' Hy Hys]; subst.
        apply IH in Hys. congruence.
    + split; [done|]. intros H. inversion H. congruence.
Qed.

Lemma res_map_length {A B} (f : A -> res B) l ys :
  res_map f l = Ok ys -> length ys = length l.
Proof. intros H%res_map_ok. symmetry. by eapply Forall2_length. Qed.

(** ** Insertion-ordered dictionaries

    A Python [dict] iterates in insertion order and overwriting a key keeps
    its position; that order is visible in the JSON the program emits. *)

Section Dict.
Context {K V : Type} `{EqDecision K}.
Implicit Types (d : list (K * V)) (k : K) (v : V).

Fixpoint dget k d : option V :=
  match d with
  | [] => None
  | (k', v) :: d' => if decide (k = k') then Some v else dget k d'
  end.

Fixpoint dset k v d : list (K * V) :=
  match d with
  | [] => [(k, v)]
  | (k', v') :: d' => if decide (k = k') then (k, v) :: d' else (k', v') :: dset k v d'
  end.

Definition dhas k d : bool := match dget k d with Some _ => true | None => false end.

Definition dkeys d : list K := d.*1.

(** [{**d1, **d2}], and [d1.update(d2)]. *)
Definition dupdate d1 d2 : list (K * V) := foldl (fun acc kv => dset kv.1 kv.2 acc) d1 d2.

Lemma dget_dset_eq k v d : dget k (dset k v d) = Some v.
Proof.
  induction d as [|[k' v'] d IH]; simpl; [by rewrite decide_True|].
  destruct (decide (k = k')) as [->|Hne]; simpl; [by rewrite decide_True|].
  by rewrite decide_False.
Qed.

Lemma dget_dset_ne k k' v d : k <> k' -> dget k (dset k' v d) = dget k d.
Proof.
  intros Hne. induction d as [|[k1 v1] d IH]; simpl; [by rewrite decide_False|].
  destruct (decide (k' = k1)) as [->|Hne1]; simpl; [by rewrite !decide_False|].
  by rewrite IH.
Qed.

Lemma dget_dset k k' v d :
  dget k (dset k' v d) = if decide (k = k') then Some v else dget k d.
Proof.
  destruct (decide (k = k')) as [->|]; [apply dget_dset_eq | by apply dget_dset_ne].
Qed.

Lemma dkeys_dset k v d :
  dkeys (dset k v d) = if dhas k d then dkeys d else dkeys d ++ [k].
Proof.
  unfold dhas. induction d as [|[k' v'] d IH]; simpl; [done|].
  destruct (decide (k = k')) as [->|Hne]; simpl; [done|].
  rewrite IH. by destruct (dget k d).
Qed.

Lemma dget_None k d : dget k d = None <-> k ∉ dkeys d.
Proof.
  induction d as [|[k' v'] d IH]; simpl; [set_solver|].
  destruct (decide (k = k')) as [->|Hne]; [set_solver|].
  rewrite IH. set_solver.
Qed.

Lemma dget_Some_elem k v d : dget k d = Some v -> (k, v) ∈ d.
Proof.
  induction d as [|[k' v'] d IH]; simpl; [done|].
  destruct (decide (k = k')) as [->|Hne]; [intros [= ->]; left | right; auto].
Qed.

Lemma dset_NoDup k v d : NoDup (dkeys d) -> NoDup (dkeys (dset k v d)).
Proof.
  intros Hd. rewrite dkeys_dset. unfold dhas.
  destruct (dget k d) eqn:Hk; [done|]. apply dget_None in Hk.
  apply NoDup_app; split_and!; [done| |apply NoDup_singleton]. set_solver.
Qed.

Lemma dget_dupdate_ne k d1 d2 : k ∉ dkeys d2 -> dget k (dupdate d1 d2) = dget k d1.
Proof.
  unfold dupdate. revert d1; induction d2 as [|[k' v'] d2 IH]; intros d1 Hk; simpl; [done|].
  rewrite IH by set_solver. apply dget_dset_ne. set_solver.
Qed.

Lemma dget_dupdate k d1 d2 :
  NoDup (dkeys d2) ->
  dget k (dupdate d1 d2) = match dget k d2 with Some v => Some v | None => dget k d1 end.
Proof.
  unfold dupdate. revert d1; induction d2 as [|[k' v'] d2 IH]; intros d1 Hnd; simpl; [done|].
  apply NoDup_cons in Hnd as [Hk' Hnd]. rewrite IH by done.
  destruct (decide (k = k')) as [->|Hne].
  - assert (dget k' d2 = None) as -> by (by apply dget_None). apply dget_dset_eq.
  - destruct (dget k d2); [done|]. by apply dget_dset_ne.
Qed.

Lemma dupdate_NoDup d1 d2 : NoDup (dkeys d1) -> NoDup (dkeys (dupdate d1 d2)).
Proof.
  unfold dupdate. revert d1; induction d2 as [|[k' v'] d2 IH]; intros d1 Hnd; simpl; [done|].
  apply IH, dset_NoDup, Hnd.
Qed.

Lemma dset_fresh k v d : k ∉ dkeys d -> dset k v d = d ++ [(k, v)].
Proof.
  induction d as [|[k' v'] d IH]; simpl; [done|]. intros Hk.
  rewrite decide_False by set_solver. rewrite IH by set_solver. done.
Qed.

Lemma dupdate_fresh d1 d2 : NoDup (dkeys (d1 ++ d2)) -> dupdate d1 d2 = d1 ++ d2.
Proof.
  unfold dupdate, dkeys. revert d1; induction d2 as [|[k v] d2 IH]; intros d1 Hnd; simpl.
  - by rewrite app_nil_r.
  - rewrite fmap_app in Hnd. simpl in Hnd. apply NoDup_app in Hnd as (H1 & H12 & H2).
    rewrite dset_fresh.
    + rewrite IH, <- app_assoc; [done|]. rewrite !fmap_app, <- app_assoc. simpl.
      apply NoDup_app. done.
    + intros Hk. apply (H12 _ Hk). left.
Qed.

Lemma dget_fmap k (f : V -> V) d : dget k ((fun kv => (kv.1, f kv.2)) <$> d) = f <$> dget k d.
Proof. induction d as [|[k' v'] d IH]; [done|]. cbn. by case_decide. Qed.

Lemma dset_dset k v w d : dset k w (dset k v d) = dset k w d.
Proof.
  induction d as [|[k' v'] d IH]; cbn [dset]; [by rewrite decide_True|].
  destruct (decide (k = k')) as [->|]; cbn [dset]; [by rewrite decide_True|].
  rewrite decide_False by done. by rewrite IH.
Qed.
End Dict.

Create HintDb pydict.
#[export] Hint Resolve dset_NoDup dupdate_NoDup : pydict.

(** ** Bytes and fixed-width integers *)

Definition byte_to_Z (b : byte) : Z := Z.of_N (Byte.to_N b).

Definition byte_of_Z (z : Z) : byte :=
  match Byte.of_N (Z.to_N (z mod 256)) with Some b => b | None => x00 end.

Lemma byte_to_Z_bound b : 0 <= byte_to_Z b < 256.
Proof. unfold byte_to_Z. pose proof (Byte.to_N_bounded b). lia. Qed.

Lemma byte_to_of_Z z : byte_to_Z (byte_of_Z z) = z mod 256.
Proof.
  unfold byte_to_Z, byte_of_Z.
  pose proof (Z.mod_pos_bound z 256 ltac:(lia)) as Hz.
  destruct (Byte.of_N (Z.to_N (z mod 256))) as [b|] eqn:Hb.
  - apply Byte.to_of_N in Hb. rewrite Hb. lia.
  - apply Byte.of_N_None_iff in Hb. lia.
Qed.

Lemma byte_of_to_Z b : byte_of_Z (byte_to_Z b) = b.
Proof.
  unfold byte_of_Z. rewrite Z.mod_small by apply byte_to_Z_bound.
  unfold byte_to_Z. by rewrite N2Z.id, Byte.of_to_N.
Qed.

(** Little-endian encoding of the low [n] bytes, and its inverse. *)
Fixpoint le_bytes (n : nat) (z : Z) : list byte :=
  match n with
  | O => []
  | S n' => byte_of_Z z :: le_bytes n' (z / 256)
  end.

Fixpoint le_Z (bs : list byte) : Z :=
  match bs with
  | [] => 0
  | b :: bs' => byte_to_Z b + 256 * le_Z bs'
  end.

Definition pow256 (n : nat) : Z := 256 ^ Z.of_nat n.

Lemma pow256_S n : pow256 (S n) = 256 * pow256 n.
Proof. unfold pow256. rewrite Nat2Z.inj_succ, Z.pow_succ_r; lia. Qed.

Lemma pow256_pos n : 0 < pow256 n.
Proof. apply Z.pow_pos_nonneg; lia. Qed.

Lemma le_bytes_length n z : length (le_bytes n z) = n.
Proof. revert z; induction n; intros z; simpl; auto. Qed.

Lemma le_Z_bound bs : 0 <= le_Z bs < pow256 (length bs).
Proof.
  induction bs as [|b bs IH]; simpl; [unfold pow256; simpl; lia|].
  rewrite pow256_S. pose proof (byte_to_Z_bound b). lia.
Qed.

Lemma le_Z_le_bytes n z : 0 <= z < pow256 n -> le_Z (le_bytes n z) = z.
Proof.
  revert z; induction n as [|n IH]; intros z Hz; simpl.
  - unfold pow256 in Hz; simpl in Hz; lia.
  - rewrite pow256_S in Hz. rewrite byte_to_of_Z, IH.
    + pose proof (Z.div_mod z 256 ltac:(lia)). lia.
    + split; [apply Z.div_pos; lia | apply Z.div_lt_upper_bound; lia].
Qed.

Lemma le_bytes_le_Z bs : le_bytes (length bs) (le_Z bs) = bs.
Proof.
  induction bs as [|b bs IH]; simpl; [done|].
  pose proof (byte_to_Z_bound b) as Hb.
  assert ((byte_to_Z b + 256 * le_Z bs) / 256 = le_Z bs) as ->.
  { rewrite Z.mul_comm, Z.div_add, Z.div_small; lia. }
  rewrite IH. f_equal.
  assert (byte_of_Z (byte_to_Z b + 256 * le_Z bs) = byte_of_Z (byte_to_Z b)) as ->.
  { unfold byte_of_Z. by rewrite Z.mul_comm, Z.mod_add by lia. }
  apply byte_of_to_Z.
Qed.

#[global] Arguments le_bytes : simpl never.
#[global] Arguments le_Z : simpl never.

(** Reinterpretation of an unsigned [n]-byte integer as two's complement. *)
Definition to_signed (n : nat) (u : Z) : Z :=
  if decide (2 * u < pow256 n) then u else u - pow256 n.

Definition of_signed (n : nat) (z : Z) : Z := z mod pow256 n.

Lemma to_of_signed n z : - pow256 n <= 2 * z < pow256 n -> to_signed n (of_signed n z) = z.
Proof.
  intros Hz. unfold to_signed, of_signed. pose proof (pow256_pos n).
  destruct (decide (0 <= z)).
  - rewrite Z.mod_small by lia. by rewrite decide_True by lia.
  - assert (z mod pow256 n = z + pow256 n) as ->.
    { rewrite <- (Z.mod_add z 1) by lia. rewrite Z.mod_small; lia. }
    rewrite decide_False by lia. lia.
Qed.

Lemma of_to_signed n u : 0 <= u < pow256 n -> of_signed n (to_signed n u) = u.
Proof.
  intros Hu. unfold to_signed, of_signed. case_decide.
  - apply Z.mod_small; lia.
  - rewrite <- (Z.mod_add (u - pow256 n) 1) by lia.
    rewrite Z.mul_1_l. replace (u - pow256 n + pow256 n) with u by lia.
    apply Z.mod_small; lia.
Qed.

Lemma to_signed_bound n u :
  (0 < n)%nat -> 0 <= u < pow256 n -> - pow256 n <= 2 * to_signed n u < pow256 n.
Proof.
  intros Hn Hu. unfold to_signed. case_decide; [lia|].
  destruct n as [|n]; [lia|]. rewrite pow256_S in *. pose proof (pow256_pos n). lia.
Qed.

(** [z.to_bytes(2, "little", signed=True)] for a 16-bit [z]. *)
Definition i16_bytes (z : Z) : list byte := le_bytes 2 (of_signed 2 z).

Lemma i16_bytes_length z : length (i16_bytes z) = 2%nat.
Proof. apply le_bytes_length. Qed.

Lemma i16_bytes_signed z : - 2 ^ 15 <= z < 2 ^ 15 -> to_signed 2 (le_Z (i16_bytes z)) = z.
Proof.
  intros Hz. unfold i16_bytes. rewrite le_Z_le_bytes by (apply Z.mod_pos_bound; done).
  apply to_of_signed. change (pow256 2) with (2 ^ 16). lia.
Qed.

#[global] Arguments i16_bytes : simpl never.

(** [x & 0xFFFFFFFF] and [x & 0xFFFFFFFFFFFFFFFF]. *)
Definition mask32 (x : Z) : Z := Z.land x 0xFFFFFFFF.
Definition mask64 (x : Z) : Z := Z.land x 0xFFFFFFFFFFFFFFFF.

Lemma mask32_mod x : mask32 x = x mod 2 ^ 32.
Proof. unfold mask32. by rewrite <- (Z.land_ones x 32) by lia. Qed.

Lemma mask64_mod x : mask64 x = x mod 2 ^ 64.
Proof. unfold mask64. by rewrite <- (Z.land_ones x 64) by lia. Qed.

Lemma mask32_bound x : 0 <= mask32 x < 2 ^ 32.
Proof. rewrite mask32_mod. apply Z.mod_pos_bound. lia. Qed.

Lemma mask64_bound x : 0 <= mask64 x < 2 ^ 64.
Proof. rewrite mask64_mod. apply Z.mod_pos_bound. lia. Qed.

(** ** Python sequences

    [range(n)] and the slice [l[a:b]] for non-negative bounds. *)
Definition zrange (n : Z) : list Z := Z.of_nat <$> seq 0 (Z.to_nat n).

Definition slice {A} (a b : Z) (l : list A) : list A :=
  take (Z.to_nat b - Z.to_nat a) (drop (Z.to_nat a) l).

Definition zlen {A} (l : list A) : Z := Z.of_nat (length l).

Lemma zlen_app {A} (l1 l2 : list A) : zlen (l1 ++ l2) = zlen l1 + zlen l2.
Proof. unfold zlen. rewrite length_app. lia. Qed.

Lemma zlen_nonneg {A} (l : list A) : 0 <= zlen l.
Proof. unfold zlen. lia. Qed.

Lemma elem_of_zrange i n : i ∈ zrange n <-> 0 <= i < n.
Proof.
  unfold zrange. rewrite list_elem_of_fmap. split.
  - intros (j & -> & Hj). apply elem_of_seq in Hj. lia.
  - intros Hi. exists (Z.to_nat i). split; [lia|]. apply elem_of_seq. lia.
Qed.

Lemma NoDup_zrange n : NoDup (zrange n).
Proof. apply NoDup_fmap_2; [intros ? ?; lia | apply NoDup_seq]. Qed.

Lemma zrange_length n : length (zrange n) = Z.to_nat n.
Proof. unfold zrange. by rewrite length_fmap, length_seq. Qed.

Lemma zrange_succ n : 0 <= n -> zrange (n + 1) = zrange n ++ [n].
Proof.
  intros Hn. unfold zrange. rewrite Z2Nat.inj_add by lia.
  replace (Z.to_nat n + Z.to_nat 1)%nat with (S (Z.to_nat n)) by lia.
  rewrite seq_S, fmap_app. simpl. by rewrite Z2Nat.id.
Qed.

Lemma zrange_cons n : 0 <= n -> zrange (n + 1) = 0 :: (Z.succ <$> zrange n).
Proof.
  intros Hn. unfold zrange. rewrite Z2Nat.inj_add by lia.
  replace (Z.to_nat n + Z.to_nat 1)%nat with (S (Z.to_nat n)) by lia.
  simpl. f_equal. rewrite <- fmap_S_seq, <- !list_fmap_compose.
  apply list_fmap_ext. intros i x _. simpl. lia.
Qed.

Lemma zrange_add a b : 0 <= a -> 0 <= b -> zrange (a + b) = zrange a ++ (Z.add a <$> zrange b).
Proof.
  intros Ha Hb. unfold zrange. rewrite Z2Nat.inj_add by lia.
  rewrite seq_app, fmap_app. f_equal. rewrite Nat.add_0_l.
  rewrite <- (Nat.add_0_r (Z.to_nat a)) at 1. rewrite <- fmap_add_seq, <- !list_fmap_compose.
  apply list_fmap_ext. intros i x _. cbn. lia.
Qed.

Lemma omap_id_fmap {A B} (f : A -> option B) (l : list A) : omap id (f <$> l) = omap f l.
Proof. induction l as [|x l IH]; [done|]. cbn. unfold id at 1. destruct (f x); cbn; by f_equal. Qed.

(** ** Tactics *)

(** Opens the state-and-exception monad: what is left is the [match]es on the
    results. *)
Ltac open_M := unfold mbind, M_bind, M_get, M_lift, M_raise, M_modify.
