(* ===== verification/PyFloat.v ===== *)
(** Python's [float] as IEEE binary64, on the Standard Library's executable
    [spec_float]: the conversions, operators and the [int()], [round()] and
    [repr()] the sources apply to floats.  Everything evaluates; there is no
    axiom behind it. *)

From Stdlib Require Import ZArith SpecFloat Lia.
From stdpp Require Import base list strings.
From S2P Require Import Prelude.

Open Scope Z_scope.

Abbreviation float := spec_float.

Definition f_prec : Z := 53.
Definition f_emax : Z := 1024.

Definition f_add : float -> float -> float := SFadd f_prec f_emax.
Definition f_sub : float -> float -> float := SFsub f_prec f_emax.
Definition f_mul : float -> float -> float := SFmul f_prec f_emax.
Definition f_ltb : float -> float -> bool := SFltb.
Definition f_abs : float -> float := SFabs.
Definition f_opp : float -> float := SFopp.
Definition f_zero : float := S754_zero false.

#[export] Instance float_eq_dec : EqDecision float.
Proof. solve_decision. Defined.

(** The double nearest to the rational [num / den], ties to even ([den > 0]);
    overflow gives an infinity. *)
Definition f_ratio (num den : Z) : float :=
  match num with
  | 0 => f_zero
  | _ =>
      let '(m, e, l) := SFdiv_core_binary f_prec f_emax (Z.abs num) 0 den 0 in
      binary_round_aux f_prec f_emax (num <? 0) m e l
  end.

Definition f_of_Z (z : Z) : float := f_ratio z 1.

Definition f_is_inf (f : float) : bool :=
  match f with S754_infinity _ => true | _ => false end.

Definition f_is_zero (f : float) : bool :=
  match f with S754_zero _ => true | _ => false end.

(** The implicit [int] to [float] conversion of mixed arithmetic. *)
Definition float_of_int (z : Z) : res float :=
  let f := f_of_Z z in
  if f_is_inf f then raise OverflowError "int too large to convert to float" else Ok f.

(** [a / b] on two ints, correctly rounded, and on two floats. *)
Definition int_truediv (a b : Z) : res float :=
  if decide (b = 0) then raise ZeroDivisionError "division by zero"
  else
    let f := f_ratio (Z.sgn b * a) (Z.abs b) in
    if f_is_inf f then raise OverflowError "integer division result too large for a float"
    else Ok f.

Definition float_div (a b : float) : res float :=
  if f_is_zero b then raise ZeroDivisionError "float division by zero"
  else Ok (SFdiv f_prec f_emax a b).

(** Nearest integer to [num / den], ties to even ([0 <= num], [0 < den]). *)
Definition round_half_even (num den : Z) : Z :=
  let q := num / den in
  let r := num mod den in
  if 2 * r <? den then q
  else if den <? 2 * r then q + 1
  else if Z.even q then q else q + 1.

(** [int(f)]: truncation; [round(f)]: nearest, ties to even. *)
Definition float_to_int (via : Z -> Z -> Z) (f : float) : res Z :=
  match f with
  | S754_zero _ => Ok 0
  | S754_infinity _ => raise OverflowError "cannot convert float infinity to integer"
  | S754_nan => raise ValueError "cannot convert float NaN to integer"
  | S754_finite s m e =>
      let v := via (Z.pos m * 2 ^ Z.max 0 e) (2 ^ Z.max 0 (- e)) in
      Ok (if s then - v else v)
  end.

Definition int_of_float : float -> res Z := float_to_int Z.div.
Definition round_float : float -> res Z := float_to_int round_half_even.

(** [round(f, nd)]: the correctly rounded decimal with [nd] fractional digits,
    read back as a double. *)
Definition round_digits (nd : Z) (f : float) : float :=
  match f with
  | S754_finite s m e =>
      let p := 10 ^ nd in
      let k := round_half_even (Z.pos m * p * 2 ^ Z.max 0 e) (2 ^ Z.max 0 (- e)) in
      if decide (k = 0) then S754_zero s
      else f_ratio (if s then - k else k) p
  | _ => f
  end.

(** [max(a, b)] and [min(a, b)] return the first argument unless the second is
    strictly greater (smaller). *)
Definition f_max (a b : float) : float := if f_ltb a b then b else a.

(** [min(a, b)]: [a] unless [b] is smaller. *)
Definition f_min (a b : float) : float := if f_ltb b a then b else a.

(** [x % y]: the exact remainder of C's [fmod], with the sign of [y]. *)
Definition float_mod (x y : float) : res float :=
  if f_is_zero y then raise ZeroDivisionError "float modulo by zero"
  else
    match x, y with
    | S754_zero _, S754_finite sy _ _ => Ok (S754_zero sy)
    | S754_finite sx mx ex, S754_finite sy my ey =>
        let e := Z.min ex ey in
        let a := Z.pos mx * 2 ^ (ex - e) in
        let r := Z.rem a (Z.pos my * 2 ^ (ey - e)) in
        let signed := if sx then - r else r in
        let f := if e <? 0 then f_ratio signed (2 ^ (- e)) else f_of_Z (signed * 2 ^ e) in
        if r =? 0 then Ok (S754_zero sy)
        else if Bool.eqb sx sy then Ok f else Ok (f_add f y)
    | (S754_zero _ | S754_finite _ _ _), S754_infinity sy =>
        Ok (match x with
            | S754_zero _ => S754_zero sy
            | S754_finite sx _ _ => if Bool.eqb sx sy then x else y
            | _ => x
            end)
    | _, _ => Ok S754_nan
    end.

(** ** Decimal text *)

Definition f_of_dec (m e : Z) : float :=
  if 0 <=? e then f_of_Z (m * 10 ^ e) else f_ratio m (10 ^ (- e)).

(** The smallest [p] with [num / den < 10 ^ p], searched upwards from [p]. *)
Fixpoint dec_point (fuel : nat) (num den p : Z) : Z :=
  match fuel with
  | O => p
  | S fuel' =>
      if num * 10 ^ Z.max 0 (- p) <? den * 10 ^ Z.max 0 p then p
      else dec_point fuel' num den (p + 1)
  end.

(** The shortest decimal that reads back as [f] (a finite positive double with
    value [num / den]), as digits [d] and decimal point [p]: value
    [d * 10 ^ (p - n)] with [n] digits.  [n] runs from [17 - fuel]. *)
Fixpoint shortest_dec (fuel : nat) (f : float) (num den p : Z) : Z * Z :=
  let n := 18 - Z.of_nat fuel in
  let snum := num * 10 ^ Z.max 0 (n - p) in
  let sden := den * 10 ^ Z.max 0 (p - n) in
  let q := snum / sden in
  let ok d := bool_decide (f_of_dec d (p - n) = f) in
  match fuel with
  | O => (q, n)
  | S fuel' =>
      match ok q, ok (q + 1) with
      | true, true => (if 2 * (snum mod sden) <=? sden then q else q + 1, n)
      | true, false => (q, n)
      | false, true => (q + 1, n)
      | false, false => shortest_dec fuel' f num den p
      end
  end.

(** Digits and decimal point of a finite positive double. *)
Definition dec_of_float (m : positive) (e : Z) : Z * Z * Z :=
  let f := S754_finite false m e in
  let num := Z.pos m * 2 ^ Z.max 0 e in
  let den := 2 ^ Z.max 0 (- e) in
  let p0 := (Z.log2 (Z.pos m) + e) * 30103 / 100000 - 1 in
  let p := dec_point 5 num den p0 in
  let '(d, n) := shortest_dec 17 f num den p in
  (d, n, p).

(** ** Rounding facts *)

Lemma round_half_even_close num den :
  0 < den -> 2 * Z.abs (den * round_half_even num den - num) <= den.
Proof.
  intros Hd. unfold round_half_even.
  pose proof (Z.div_mod num den ltac:(lia)). pose proof (Z.mod_pos_bound num den Hd).
  destruct (Z.ltb_spec (2 * (num mod den)) den); [lia|].
  destruct (Z.ltb_spec den (2 * (num mod den))); [lia|].
  destruct (Z.even (num / den)); lia.
Qed.

Lemma round_half_even_nonneg num den : 0 < den -> 0 <= num -> 0 <= round_half_even num den.
Proof.
  intros Hd Hn. pose proof (Z.div_pos num den Hn Hd). unfold round_half_even.
  repeat case_match; lia.
Qed.

(** ** No spurious overflow

    The conversions raise or return an infinity only beyond the range of
    doubles; the bound below is far above every integer of the protocol. *)

Lemma Zdigits2_log2 m : 0 < m -> Zdigits2 m = Z.log2 m + 1.
Proof.
  destruct m as [|p|p]; [lia| |lia]. intros _.
  change (Zdigits2 (Z.pos p)) with (Z.pos (digits2_pos p)).
  induction p as [p IH|p IH|]; simpl digits2_pos; [| |done].
  - change (Z.pos p~1) with (2 * Z.pos p + 1). rewrite Z.log2_succ_double by lia. lia.
  - change (Z.pos p~0) with (2 * Z.pos p). rewrite Z.log2_double by lia. lia.
Qed.

Lemma Zdigits2_mul_pow2 m k : 0 < m -> 0 <= k -> Zdigits2 (m * 2 ^ k) = Zdigits2 m + k.
Proof.
  intros Hm Hk. assert (0 < 2 ^ k) by (apply Z.pow_pos_nonneg; lia).
  rewrite !Zdigits2_log2 by lia. rewrite Z.log2_mul_pow2 by lia. lia.
Qed.

Lemma Zdigits2_le m k : 0 <= m < 2 ^ k -> 0 <= k -> 0 <= Zdigits2 m <= k.
Proof.
  intros Hm Hk. destruct (decide (m = 0)) as [->|]; [simpl; lia|].
  rewrite Zdigits2_log2 by lia. pose proof (Z.log2_nonneg m).
  assert (Z.log2 m < k) by (apply Z.log2_lt_pow2; lia). lia.
Qed.

Lemma shr_1_bound mrs : 0 <= shr_m mrs -> 0 <= shr_m (shr_1 mrs) <= shr_m mrs.
Proof. destruct mrs as [[|[p|p|]|p] ? ?]; simpl; lia. Qed.


Lemma iter_shr_bound p mrs :
  0 <= shr_m mrs -> 0 <= shr_m (SpecFloat.iter_pos shr_1 p mrs) <= shr_m mrs.
Proof.
  revert mrs; induction p as [p IH|p IH|]; intros mrs Hm; simpl.
  - pose proof (shr_1_bound mrs Hm) as H1.
    pose proof (IH (shr_1 mrs) ltac:(lia)) as H2.
    pose proof (IH (SpecFloat.iter_pos shr_1 p (shr_1 mrs)) ltac:(lia)). lia.
  - pose proof (IH mrs Hm) as H2. pose proof (IH (SpecFloat.iter_pos shr_1 p mrs) ltac:(lia)). lia.
  - by apply shr_1_bound.
Qed.

Lemma shr_fexp_bound m e l mrs e' :
  0 <= m -> shr_fexp f_prec f_emax m e l = (mrs, e') ->
  0 <= shr_m mrs <= m /\ e' = Z.max e (Z.max (Zdigits2 m + e - 53) (-1074)).
Proof.
  intros Hm. unfold shr_fexp, shr. intros Hs.
  assert (shr_m (shr_record_of_loc m l) = m) as Hrl by (by destruct l as [|[]]).
  assert (fexp f_prec f_emax (Zdigits2 m + e) = Z.max (Zdigits2 m + e - 53) (-1074)) as Hf by done.
  rewrite Hf in Hs.
  destruct (Z.max (Zdigits2 m + e - 53) (-1074) - e) as [|p|p] eqn:Hn; simplify_eq;
    rewrite ?Hrl; split; try lia.
  pose proof (iter_shr_bound p (shr_record_of_loc m l)) as Hb. rewrite Hrl in Hb. auto.
Qed.

Lemma binary_round_aux_not_inf s m e l k :
  0 <= m < 2 ^ k -> 0 <= k <= 300 -> -300 <= e <= 300 ->
  f_is_inf (binary_round_aux f_prec f_emax s m e l) = false.
Proof.
  intros Hm Hk He. pose proof (Zdigits2_le m k Hm ltac:(lia)) as Hd.
  unfold binary_round_aux.
  destruct (shr_fexp f_prec f_emax m e l) as [mrs1 e1] eqn:H1.
  apply shr_fexp_bound in H1 as [Hm1 He1]; [|lia].
  set (m2 := round_nearest_even _ _).
  assert (0 <= m2 <= shr_m mrs1 + 1) as Hm2.
  { unfold m2, round_nearest_even. destruct (loc_of_shr_record mrs1) as [|[]]; try lia.
    destruct (Z.even _); lia. }
  destruct (shr_fexp f_prec f_emax m2 e1 loc_Exact) as [mrs3 e3] eqn:H3.
  apply shr_fexp_bound in H3 as [Hm3 He3]; [|lia].
  assert (0 <= Zdigits2 m2 <= k + 1) as Hd2.
  { apply Zdigits2_le; [rewrite Z.pow_add_r by lia|]; lia. }
  destruct (shr_m mrs3); [done| |done].
  destruct (Z.leb_spec e3 (f_emax - f_prec)); [done|].
  unfold f_emax, f_prec in *. exfalso. lia.
Qed.

Lemma f_ratio_not_inf a b k :
  Z.abs a < 2 ^ k -> 0 < b < 2 ^ k -> 0 <= k <= 100 -> f_is_inf (f_ratio a b) = false.
Proof.
  intros Ha Hb Hk. unfold f_ratio. destruct (decide (a = 0)) as [->|Hne]; [done|].
  assert (forall X Y : float, match a with 0 => X | _ => Y end = Y) as -> by (by destruct a).
  unfold SFdiv_core_binary.
  pose proof (Zdigits2_le (Z.abs a) k ltac:(lia) ltac:(lia)) as Hd1.
  pose proof (Zdigits2_le b k ltac:(lia) ltac:(lia)) as Hd2.
  set (e' := Z.min _ _). set (mm := match 0 - 0 - e' with 0 => _ | _ => _ end).
  assert (e' = Z.min (Z.max (Zdigits2 (Z.abs a) - Zdigits2 b - 53) (-1074)) 0) as He'.
  { unfold e', fexp, SpecFloat.emin, f_prec, f_emax. lia. }
  assert (mm = Z.abs a * 2 ^ (- e')) as Hmm.
  { unfold mm. destruct (0 - 0 - e') as [|p|p] eqn:Hp.
    - replace (- e') with 0 by lia. simpl. lia.
    - rewrite Z.shiftl_mul_pow2 by lia. f_equal. f_equal. lia.
    - lia. }
  destruct (IntDef.Z.div_eucl mm b) as [q r] eqn:Hq.
  assert (q = mm / b) as -> by (unfold Z.div; change Z.div_eucl with IntDef.Z.div_eucl; by rewrite Hq).
  assert (0 <= mm < 2 ^ (k + 160)) as Hmb.
  { rewrite Hmm, Z.pow_add_r by lia. split; [apply Z.mul_nonneg_nonneg; [lia|apply Z.pow_nonneg; lia]|].
    apply Z.mul_lt_mono_nonneg; [lia|lia|apply Z.pow_nonneg; lia|apply Z.pow_lt_mono_r; lia]. }
  apply (binary_round_aux_not_inf _ _ _ _ (k + 160)); [|lia|lia].
  split; [apply Z.div_pos; lia|]. apply Z.div_lt_upper_bound; [lia|]. nia.
Qed.

Lemma float_of_int_ok z : Z.abs z < 2 ^ 100 -> float_of_int z = Ok (f_of_Z z).
Proof.
  intros Hz. unfold float_of_int, f_of_Z. by rewrite (f_ratio_not_inf z 1 100) by lia.
Qed.

Lemma int_truediv_ok a b :
  Z.abs a < 2 ^ 100 -> 0 < b < 2 ^ 100 -> int_truediv a b = Ok (f_ratio a b).
Proof.
  intros Ha Hb. unfold int_truediv. rewrite decide_False by lia.
  replace (Z.sgn b * a) with a by lia. replace (Z.abs b) with b by lia.
  by rewrite (f_ratio_not_inf a b 100) by lia.
Qed.


Create Rewrite HintDb pyfloat.
#[export] Hint Rewrite float_of_int_ok int_truediv_ok using lia : pyfloat.

(** ** Exact results

    Conversions of integers below 2^53 and divisions by a power of two lose
    nothing; the lemmas give the resulting mantissa and exponent. *)

Lemma round_aux_exact s m e :
  Zdigits2 m = 53 -> 0 < m -> -1074 <= e + 1 <= 971 ->
  binary_round_aux f_prec f_emax s (2 * m) e loc_Exact = S754_finite s (Z.to_pos m) (e + 1).
Proof.
  intros Hd Hm He. destruct m as [|p|p]; [lia| |lia]. unfold binary_round_aux, shr_fexp.
  assert (Zdigits2 (2 * Z.pos p) = 54) as ->.
  { rewrite Z.mul_comm. change (Z.pos p * 2) with (Z.pos p * 2 ^ 1).
    rewrite Zdigits2_mul_pow2; lia. }
  replace (fexp f_prec f_emax (54 + e) - e) with 1
    by (unfold fexp, SpecFloat.emin, f_prec, f_emax; lia).
  change (2 * Z.pos p) with (Z.pos p~0).
  cbn [shr shr_record_of_loc SpecFloat.iter_pos shr_1 Z.mul shr_m shr_r shr_s loc_of_shr_record
       round_nearest_even orb].
  rewrite Hd. replace (fexp f_prec f_emax (53 + (e + 1)) - (e + 1)) with 0
    by (unfold fexp, SpecFloat.emin, f_prec, f_emax; lia).
  cbn. destruct (Z.leb_spec (e + 1) (f_emax - f_prec)); [done|].
  unfold f_emax, f_prec in *. lia.
Qed.

Lemma f_of_Z_exact z :
  0 < Z.abs z < 2 ^ 53 ->
  let d := Zdigits2 (Z.abs z) in
  f_of_Z z = S754_finite (z <? 0) (Z.to_pos (Z.abs z * 2 ^ (53 - d))) (d - 53) /\ 0 < d <= 53.
Proof.
  intros Hz d. assert (0 < d <= 53) as Hd.
  { unfold d. split; [rewrite Zdigits2_log2 by lia; pose proof (Z.log2_nonneg (Z.abs z)); lia|].
    apply Zdigits2_le; lia. }
  split; [|done]. unfold f_of_Z, f_ratio.
  assert (forall X Y : float, match z with 0 => X | _ => Y end = Y) as -> by (destruct z; [lia|done|done]).
  unfold SFdiv_core_binary. fold d. change (Zdigits2 1) with 1.
  replace (Z.min (fexp f_prec f_emax (d + 0 - (1 + 0))) (0 - 0)) with (d - 54)
    by (unfold fexp, SpecFloat.emin, f_prec, f_emax; lia).
  destruct (0 - 0 - (d - 54)) as [|p|p] eqn:Hp; [lia| |lia].
  rewrite Z.shiftl_mul_pow2 by lia.
  replace (Z.pos p) with (1 + (53 - d)) by lia. rewrite Z.pow_add_r by lia.
  rewrite (Z.mul_assoc (Z.abs z)), (Z.mul_comm (Z.abs z)), <- Z.mul_assoc. change (2 ^ 1) with 2.
  assert (forall x, IntDef.Z.div_eucl x 1 = (x, 0)) as ->.
  { intros x. pose proof (Z.div_1_r x) as H1. pose proof (Z.mod_1_r x) as H2.
    unfold Z.div, Z.modulo in H1, H2. change IntDef.Z.div_eucl with Z.div_eucl.
    destruct (Z.div_eucl x 1). congruence. }
  cbn [new_location]. unfold new_location. cbn.
  assert (0 < 2 ^ (53 - d)) by (apply Z.pow_pos_nonneg; lia).
  rewrite round_aux_exact; [f_equal; lia| |nia|lia].
  rewrite Zdigits2_mul_pow2 by lia. unfold d. lia.
Qed.

Lemma div_256_exact s m e :
  Zdigits2 (Z.pos m) = 53 -> -500 <= e <= 500 ->
  SFdiv f_prec f_emax (S754_finite s m e) (f_of_Z 256) = S754_finite s m (e - 8).
Proof.
  intros Hd He. change (f_of_Z 256) with (S754_finite false 4503599627370496 (-44)).
  unfold SFdiv, SFdiv_core_binary. rewrite Hd.
  change (Zdigits2 4503599627370496) with 53.
  replace (Z.min (fexp f_prec f_emax (53 + e - (53 + -44))) (e - -44)) with (e - 9)
    by (unfold fexp, SpecFloat.emin, f_prec, f_emax; lia).
  replace (e - -44 - (e - 9)) with 53 by lia.
  assert (IntDef.Z.div_eucl (Z.shiftl (Z.pos m) 53) 4503599627370496 = (2 * Z.pos m, 0)) as ->.
  { rewrite Z.shiftl_mul_pow2 by lia.
    replace (Z.pos m * 2 ^ 53) with (2 * Z.pos m * 4503599627370496) by lia.
    pose proof (Z.div_mul (2 * Z.pos m) 4503599627370496 ltac:(lia)) as H1.
    pose proof (Z.mod_mul (2 * Z.pos m) 4503599627370496 ltac:(lia)) as H2.
    unfold Z.div, Z.modulo in H1, H2. change IntDef.Z.div_eucl with Z.div_eucl.
    destruct (Z.div_eucl _ _). congruence. }
  unfold new_location. cbn [Z.even new_location_even Z.eqb].
  rewrite xorb_false_r. 
  rewrite round_aux_exact; [|done|lia|lia]. simpl. f_equal. lia.
Qed.

(** Scaling numerator and denominator does not change the rounding. *)
Lemma round_half_even_scale c a b :
  0 < c -> 0 < b -> round_half_even (c * a) (c * b) = round_half_even a b.
Proof.
  intros Hc Hb. unfold round_half_even.
  rewrite Z.div_mul_cancel_l by lia. rewrite Z.mul_mod_distr_l by lia.
  replace (2 * (c * (a mod b)) <? c * b) with (2 * (a mod b) <? b)
    by (apply eq_true_iff_eq; rewrite !Z.ltb_lt; nia).
  replace (c * b <? 2 * (c * (a mod b))) with (b <? 2 * (a mod b))
    by (apply eq_true_iff_eq; rewrite !Z.ltb_lt; nia).
  done.
Qed.

(** ** Magnitudes

    A coarse exponent bound that every operation propagates: [f_mag k f] says
    [f] is finite and [|f| < 2 ^ k].  It rules out overflow and NaN. *)

Definition f_mag (k : Z) (f : float) : Prop :=
  match f with
  | S754_zero _ => True
  | S754_finite _ m e => Zdigits2 (Z.pos m) + e <= k
  | _ => False
  end.

Lemma iter_shr_pow p mrs :
  0 <= shr_m mrs -> 0 <= shr_m (SpecFloat.iter_pos shr_1 p mrs) * 2 ^ Z.pos p <= shr_m mrs.
Proof.
  assert (forall mrs, 0 <= shr_m mrs -> 0 <= 2 * shr_m (shr_1 mrs) <= shr_m mrs) as H1.
  { intros [[|[q|q|]|q] ? ?]; simpl; lia. }
  revert mrs; induction p as [p IH|p IH|]; intros mrs Hm; cbn [SpecFloat.iter_pos].
  - pose proof (H1 mrs Hm) as Ha.
    pose proof (IH (shr_1 mrs) ltac:(lia)) as Hb.
    pose proof (IH (SpecFloat.iter_pos shr_1 p (shr_1 mrs))) as Hc.
    assert (0 < 2 ^ Z.pos p) by (apply Z.pow_pos_nonneg; lia).
    replace (2 ^ Z.pos p~1) with (2 * (2 ^ Z.pos p * 2 ^ Z.pos p)); [nia|].
    rewrite <- Z.pow_add_r, <- Z.pow_succ_r by lia. f_equal. lia.
  - pose proof (IH mrs Hm) as Hb. pose proof (IH (SpecFloat.iter_pos shr_1 p mrs)) as Hc.
    assert (0 < 2 ^ Z.pos p) by (apply Z.pow_pos_nonneg; lia).
    replace (2 ^ Z.pos p~0) with (2 ^ Z.pos p * 2 ^ Z.pos p); [nia|].
    rewrite <- Z.pow_add_r by lia. f_equal. lia.
  - pose proof (H1 mrs Hm). simpl. lia.
Qed.

Lemma Zdigits2_mono a b : 0 <= a <= b -> Zdigits2 a <= Zdigits2 b.
Proof.
  intros H. destruct (decide (a = 0)) as [->|].
  - destruct (decide (b = 0)) as [->|]; [done|]. rewrite (Zdigits2_log2 b) by lia.
    pose proof (Z.log2_nonneg b). simpl. lia.
  - rewrite !Zdigits2_log2 by lia. pose proof (Z.log2_le_mono a b). lia.
Qed.

(** Rounding to the format scales the mantissa down, never up. *)
Lemma shr_fexp_scale m e l mrs e' :
  0 <= m -> shr_fexp f_prec f_emax m e l = (mrs, e') ->
  0 <= shr_m mrs /\ e' = Z.max e (Z.max (Zdigits2 m + e - 53) (-1074)) /\
  shr_m mrs * 2 ^ (e' - e) <= m.
Proof.
  intros Hm Hs. pose proof (shr_fexp_bound _ _ _ _ _ Hm Hs) as [Hb He]. split_and!; [lia|done|].
  revert Hs. unfold shr_fexp, shr.
  assert (shr_m (shr_record_of_loc m l) = m) as Hrl by (by destruct l as [|[]]).
  destruct (fexp f_prec f_emax (Zdigits2 m + e) - e) as [|p|p]; intros [= <- <-];
    rewrite ?Z.sub_diag, ?Hrl; simpl; try lia.
  pose proof (iter_shr_pow p (shr_record_of_loc m l)) as Hp. rewrite Hrl in Hp.
  replace (e + Z.pos p - e) with (Z.pos p) by lia. apply Hp. lia.
Qed.

Lemma shr_fexp_digits m e l mrs e' :
  0 <= m -> shr_fexp f_prec f_emax m e l = (mrs, e') -> shr_m mrs <> 0 ->
  Zdigits2 (shr_m mrs) + e' <= Zdigits2 m + e.
Proof.
  intros Hm Hs Hne. destruct (shr_fexp_scale _ _ _ _ _ Hm Hs) as (H0 & He & Hle).
  pose proof (Zdigits2_mul_pow2 (shr_m mrs) (e' - e) ltac:(lia) ltac:(lia)) as Hd.
  assert (0 < 2 ^ (e' - e)) by (apply Z.pow_pos_nonneg; lia).
  pose proof (Zdigits2_mono (shr_m mrs * 2 ^ (e' - e)) m ltac:(nia)). lia.
Qed.

Lemma binary_round_aux_mag s m e l k :
  0 <= m -> Zdigits2 m + e <= k -> -1074 <= k <= 900 -> e <= 900 ->
  f_mag (k + 1) (binary_round_aux f_prec f_emax s m e l).
Proof.
  intros Hm Hk Hr He. unfold binary_round_aux.
  destruct (shr_fexp f_prec f_emax m e l) as [mrs1 e1] eqn:H1.
  pose proof (shr_fexp_scale _ _ _ _ _ Hm H1) as (Hm1 & He1 & _).
  pose proof (shr_fexp_digits _ _ _ _ _ Hm H1) as Hd1.
  set (m2 := round_nearest_even _ _).
  assert (0 <= m2 <= shr_m mrs1 + 1) as Hm2.
  { unfold m2, round_nearest_even. destruct (loc_of_shr_record mrs1) as [|[]]; try lia.
    destruct (Z.even _); lia. }
  assert (m2 <> 0 -> Zdigits2 m2 + e1 <= k + 1) as Hd2.
  { intros Hne. destruct (decide (shr_m mrs1 = 0)) as [Hz|Hz].
    - replace m2 with 1 by lia. simpl. pose proof (Zdigits2_mono 0 m). simpl in *. lia.
    - specialize (Hd1 Hz). pose proof (Zdigits2_mono m2 (shr_m mrs1 * 2 ^ 1) ltac:(lia)).
      rewrite Zdigits2_mul_pow2 in * by lia. lia. }
  destruct (shr_fexp f_prec f_emax m2 e1 loc_Exact) as [mrs3 e3] eqn:H3.
  pose proof (shr_fexp_bound m2 _ _ _ _ ltac:(lia) H3) as [Hm3 _].
  pose proof (shr_fexp_digits m2 _ _ _ _ ltac:(lia) H3) as Hd3.
  destruct (shr_m mrs3) as [|p|p]; [done| |lia].
  specialize (Hd3 ltac:(done)). specialize (Hd2 ltac:(lia)).
  pose proof (Zdigits2_mono 1 (Z.pos p) ltac:(lia)) as Hp. simpl (Zdigits2 1) in Hp.
  destruct (Z.leb_spec e3 (f_emax - f_prec)) as [|Hover]; [cbn [f_mag]; lia|].
  unfold f_emax, f_prec in Hover. lia.
Qed.

Lemma digits_pos p : 1 <= Zdigits2 (Z.pos p).
Proof. rewrite Zdigits2_log2 by lia. pose proof (Z.log2_nonneg (Z.pos p)). lia. Qed.

Lemma f_mag_mul j k a b :
  f_mag j a -> f_mag k b -> -1074 <= j + k <= 900 -> f_mag (j + k + 1) (f_mul a b).
Proof.
  destruct a as [sa|sa| |sa ma ea], b as [sb|sb| |sb mb eb]; cbn [f_mag]; try done.
  intros Ha Hb Hr. pose proof (digits_pos ma). pose proof (digits_pos mb).
  unfold f_mul, SFmul. apply binary_round_aux_mag; try lia.
  rewrite Pos2Z.inj_mul. rewrite (Zdigits2_log2 (Z.pos ma)) in * by lia.
  rewrite (Zdigits2_log2 (Z.pos mb)) in * by lia. rewrite Zdigits2_log2 by lia.
  pose proof (Z.log2_mul_above (Z.pos ma) (Z.pos mb)). lia.
Qed.

Lemma pos_iter_xO m d : Z.pos (Pos.iter xO m d) = Z.pos m * 2 ^ Z.pos d.
Proof.
  induction d as [|d IH] using Pos.peano_ind; [simpl; lia|].
  rewrite Pos.iter_succ, Pos2Z.inj_succ, Z.pow_succ_r by lia. lia.
Qed.

Lemma shl_align_value m e e' m2 e2 :
  shl_align m e e' = (m2, e2) -> e2 = Z.min e e' /\ Z.pos m2 = Z.pos m * 2 ^ (e - e2).
Proof.
  unfold shl_align. destruct (e' - e) as [|d|d] eqn:Hd; intros [= <- <-];
    rewrite ?Z.sub_diag; [lia..|].
  split; [lia|]. replace (e - e') with (Z.pos d) by lia. apply pos_iter_xO.
Qed.

Lemma binary_round_mag s m e k :
  Zdigits2 (Z.pos m) + e <= k -> -1074 <= k <= 900 -> f_mag (k + 1) (binary_round f_prec f_emax s m e).
Proof.
  intros Hm Hk. unfold binary_round. destruct (shl_align _ _ _) as [m2 e2] eqn:Ha.
  apply shl_align_value in Ha as [He Hv]. pose proof (digits_pos m).
  apply binary_round_aux_mag; try lia. rewrite Hv, Zdigits2_mul_pow2 by lia. lia.
Qed.

Lemma binary_normalize_mag m e k b :
  Z.abs m < 2 ^ (k - e) -> e <= k -> -1074 <= k <= 900 ->
  f_mag (k + 1) (binary_normalize f_prec f_emax m e b).
Proof.
  intros Hm He Hk. destruct m as [|p|p]; cbn [binary_normalize]; [done|..];
    apply binary_round_mag; try lia; pose proof (Zdigits2_le (Z.pos p) (k - e)); lia.
Qed.

Lemma mag_aligned m e ez k :
  Zdigits2 (Z.pos m) + e <= k -> ez <= e -> Z.pos (shl_align m e ez).1 < 2 ^ (k - ez) /\ ez < k.
Proof.
  intros Hm He. destruct (shl_align m e ez) as [m2 e2] eqn:Ha. cbn [fst].
  apply shl_align_value in Ha as [-> Hv]. rewrite Z.min_r in Hv by lia. rewrite Hv.
  pose proof (digits_pos m). rewrite Zdigits2_log2 in * by lia.
  pose proof (Z.log2_spec (Z.pos m) ltac:(lia)) as [_ Hlt]. split; [|lia].
  assert (0 < 2 ^ (e - ez)) by (apply Z.pow_pos_nonneg; lia).
  apply Z.lt_le_trans with (2 ^ Z.succ (Z.log2 (Z.pos m)) * 2 ^ (e - ez)); [nia|].
  rewrite <- Z.pow_add_r by (pose proof (Z.log2_nonneg (Z.pos m)); lia).
  apply Z.pow_le_mono_r; lia.
Qed.

Lemma f_mag_sub k a b :
  f_mag k a -> f_mag k b -> -1074 <= k + 1 <= 900 -> f_mag (k + 2) (f_sub a b).
Proof.
  intros Ha Hb Hk. destruct a as [sa|sa| |sa ma ea], b as [sb|sb| |sb mb eb]; cbn [f_mag] in *; try done;
    try (unfold f_sub, SFsub; cbn [f_mag]; lia).
  - by destruct sa, sb.
  - unfold f_sub, SFsub.
    destruct (mag_aligned ma ea (Z.min ea eb) k) as [H1 ?]; [lia..|].
    destruct (mag_aligned mb eb (Z.min ea eb) k) as [H2 ?]; [lia..|].
    replace (k + 2) with (k + 1 + 1) by lia. apply binary_normalize_mag; [|lia..].
    replace (k + 1 - Z.min ea eb) with (Z.succ (k - Z.min ea eb)) by lia.
    rewrite Z.pow_succ_r by lia. revert H1 H2. unfold cond_Zopp.
    generalize (shl_align ma ea (Z.min ea eb)).1, (shl_align mb eb (Z.min ea eb)).1.
    intros p q H1 H2. destruct sa, sb; lia.
Qed.

(** [int()] and [round()] of a float of known magnitude. *)
Lemma float_to_int_ok via k f : f_mag k f -> exists z, float_to_int via f = Ok z.
Proof. destruct f; cbn; try done; eauto. Qed.

(** *** Non-negative and non-zero results *)

(** A double without a minus sign, its mantissa within the precision. *)
Definition f_pos (f : float) : Prop :=
  match f with
  | S754_zero s | S754_infinity s => s = false
  | S754_nan => True
  | S754_finite s m _ => s = false /\ Zdigits2 (Z.pos m) <= 53
  end.

Lemma round_nearest_even_bound m l : 0 <= m -> m <= round_nearest_even m l <= m + 1.
Proof. intros Hm. unfold round_nearest_even. destruct l as [|[]]; try lia. destruct (Z.even m); lia. Qed.

Lemma binary_round_aux_pos m e l : 0 <= m -> f_pos (binary_round_aux f_prec f_emax false m e l).
Proof.
  intros Hm. unfold binary_round_aux.
  destruct (shr_fexp f_prec f_emax m e l) as [mrs1 e1] eqn:H1.
  pose proof (shr_fexp_scale _ _ _ _ _ Hm H1) as (Hm1 & _).
  pose proof (round_nearest_even_bound _ (loc_of_shr_record mrs1) Hm1) as Hm2.
  set (m2 := round_nearest_even _ _) in *.
  destruct (shr_fexp f_prec f_emax m2 e1 loc_Exact) as [mrs3 e3] eqn:H3.
  pose proof (shr_fexp_scale m2 _ _ _ _ ltac:(lia) H3) as (Hm3 & He3 & _).
  pose proof (shr_fexp_digits m2 _ _ _ _ ltac:(lia) H3) as Hd3.
  destruct (shr_m mrs3) as [|p|p]; [done| |lia]. specialize (Hd3 ltac:(done)).
  case_match; [|done]. split; [done|lia].
Qed.

Lemma iter_shr_lower p mrs :
  0 <= shr_m mrs -> shr_m mrs < (shr_m (SpecFloat.iter_pos shr_1 p mrs) + 1) * 2 ^ Z.pos p.
Proof.
  assert (forall mrs, 0 <= shr_m mrs -> 0 <= shr_m (shr_1 mrs) /\ shr_m mrs < 2 * (shr_m (shr_1 mrs) + 1)) as H1.
  { intros [[|[q|q|]|q] ? ?]; simpl; lia. }
  revert mrs; induction p as [p IH|p IH|]; intros mrs Hm; cbn [SpecFloat.iter_pos].
  - pose proof (H1 mrs Hm) as Ha. pose proof (iter_shr_bound p (shr_1 mrs) ltac:(lia)) as Hb0.
    pose proof (IH (shr_1 mrs) ltac:(lia)) as Hb.
    pose proof (IH (SpecFloat.iter_pos shr_1 p (shr_1 mrs)) ltac:(lia)) as Hc.
    assert (0 < 2 ^ Z.pos p) by (apply Z.pow_pos_nonneg; lia).
    replace (2 ^ Z.pos p~1) with (2 * (2 ^ Z.pos p * 2 ^ Z.pos p)); [nia|].
    rewrite <- Z.pow_add_r, <- Z.pow_succ_r by lia. f_equal. lia.
  - pose proof (IH mrs Hm) as Hb. pose proof (iter_shr_bound p mrs ltac:(lia)) as Hb0.
    pose proof (IH (SpecFloat.iter_pos shr_1 p mrs) ltac:(lia)) as Hc.
    assert (0 < 2 ^ Z.pos p) by (apply Z.pow_pos_nonneg; lia).
    replace (2 ^ Z.pos p~0) with (2 ^ Z.pos p * 2 ^ Z.pos p); [nia|].
    rewrite <- Z.pow_add_r by lia. f_equal. lia.
  - pose proof (H1 mrs Hm). simpl. lia.
Qed.

Lemma shr_fexp_nonzero m e l mrs e' :
  0 < m -> -1074 < Zdigits2 m + e -> shr_fexp f_prec f_emax m e l = (mrs, e') -> 0 < shr_m mrs.
Proof.
  intros Hm Hd Hs. pose proof (shr_fexp_scale m _ _ _ _ ltac:(lia) Hs) as (H0 & He & _).
  revert Hs. unfold shr_fexp, shr.
  assert (shr_m (shr_record_of_loc m l) = m) as Hrl by (by destruct l as [|[]]).
  destruct (fexp f_prec f_emax (Zdigits2 m + e) - e) as [|p|p] eqn:Hp; intros [= <- <-]; rewrite ?Hrl; try lia.
  pose proof (iter_shr_lower p (shr_record_of_loc m l) ltac:(lia)) as Hlow. rewrite Hrl in Hlow.
  destruct (decide (shr_m (SpecFloat.iter_pos shr_1 p (shr_record_of_loc m l)) = 0)) as [Hz|]; [|lia].
  rewrite Hz, Z.mul_1_l in Hlow.
  assert (fexp f_prec f_emax (Zdigits2 m + e) = Z.max (Zdigits2 m + e - 53) (-1074)) as Hf by done.
  rewrite Hf in Hp. clear Hf. rewrite Zdigits2_log2 in * by lia.
  destruct (Z.log2_spec m Hm) as [Hlog _].
  assert (Z.log2 m < Z.pos p) by (apply (Z.pow_lt_mono_r_iff 2); lia). lia.
Qed.

Lemma binary_round_aux_nonzero s m e l :
  0 < m -> -1074 < Zdigits2 m + e -> f_is_zero (binary_round_aux f_prec f_emax s m e l) = false.
Proof.
  intros Hm Hd. unfold binary_round_aux.
  destruct (shr_fexp f_prec f_emax m e l) as [mrs1 e1] eqn:H1.
  pose proof (shr_fexp_nonzero _ _ _ _ _ Hm Hd H1) as Hm1.
  pose proof (shr_fexp_scale m _ _ _ _ ltac:(lia) H1) as (_ & He1 & _).
  pose proof (round_nearest_even_bound (shr_m mrs1) (loc_of_shr_record mrs1) ltac:(lia)) as Hm2.
  set (m2 := round_nearest_even _ _) in *.
  destruct (shr_fexp f_prec f_emax m2 e1 loc_Exact) as [mrs3 e3] eqn:H3.
  assert (0 < shr_m mrs3).
  { eapply (shr_fexp_nonzero m2); [lia| |exact H3].
    pose proof (Zdigits2_mono 1 m2 ltac:(lia)) as Hx. simpl (Zdigits2 1) in Hx. lia. }
  destruct (shr_m mrs3); [lia| |done]. by case_match.
Qed.

Lemma SFdiv_core_spec m1 e1 m2 e2 q e' l :
  0 < m1 -> 0 < m2 -> SFdiv_core_binary f_prec f_emax m1 e1 m2 e2 = (q, e', l) ->
  e' = Z.min (Z.max (Zdigits2 m1 + e1 - (Zdigits2 m2 + e2) - 53) (-1074)) (e1 - e2) /\
  q = m1 * 2 ^ (e1 - e2 - e') / m2.
Proof.
  intros H1 H2. unfold SFdiv_core_binary.
  set (x := Z.min _ _). set (mm := match e1 - e2 - x with 0 => _ | _ => _ end).
  assert (mm = m1 * 2 ^ (e1 - e2 - x)) as Hmm.
  { unfold mm. destruct (e1 - e2 - x) as [|p|p] eqn:Hp; [simpl; lia|by rewrite Z.shiftl_mul_pow2 by lia|lia]. }
  destruct (IntDef.Z.div_eucl mm m2) as [q' r] eqn:Hq. intros [= <- <- _]. split; [done|].
  rewrite <- Hmm. unfold Z.div. change Z.div_eucl with IntDef.Z.div_eucl. by rewrite Hq.
Qed.

Lemma SFdiv_core_nonneg m1 e1 m2 e2 q e' l :
  0 < m1 -> 0 < m2 -> SFdiv_core_binary f_prec f_emax m1 e1 m2 e2 = (q, e', l) -> 0 <= q.
Proof.
  intros H1 H2 H. apply SFdiv_core_spec in H as [He ->]; [|done..].
  apply Z.div_pos; [|lia]. apply Z.mul_nonneg_nonneg; [lia|]. apply Z.pow_nonneg. lia.
Qed.

Definition f_unsigned (f : float) : Prop :=
  match f with S754_zero s | S754_infinity s | S754_finite s _ _ => s = false | S754_nan => True end.

Lemma f_pos_unsigned f : f_pos f -> f_unsigned f.
Proof. destruct f; cbn; naive_solver. Qed.

Lemma f_abs_unsigned f : f_unsigned (f_abs f).
Proof. by destruct f. Qed.

Lemma f_div_pos a b : f_unsigned a -> f_unsigned b -> f_pos (SFdiv f_prec f_emax a b).
Proof.
  destruct a as [sa|sa| |sa ma ea], b as [sb|sb| |sb mb eb]; cbn; try naive_solver.
  intros -> ->. destruct (SFdiv_core_binary _ _ _ _ _ _) as [[q e'] l] eqn:Hd.
  apply binary_round_aux_pos. by eapply SFdiv_core_nonneg in Hd.
Qed.

(** The quotient of positive ints below [2 ^ 100] is a positive double. *)
Lemma f_ratio_pos a b :
  0 < a < 2 ^ 100 -> 0 < b < 2 ^ 100 -> f_pos (f_ratio a b) /\ f_is_zero (f_ratio a b) = false.
Proof.
  intros Ha Hb. unfold f_ratio.
  assert (forall X Y : float, match a with 0 => X | _ => Y end = Y) as -> by (destruct a; done || lia).
  replace (Z.abs a) with a by lia. replace (a <? 0) with false by lia.
  destruct (SFdiv_core_binary _ _ a 0 b 0) as [[q e'] l] eqn:Hd.
  pose proof (SFdiv_core_nonneg _ _ _ _ _ _ _ ltac:(apply Ha) ltac:(apply Hb) Hd) as Hq.
  apply SFdiv_core_spec in Hd as [He Hqe]; [|lia..].
  split; [by apply binary_round_aux_pos|].
  pose proof (Zdigits2_le a 100 ltac:(lia) ltac:(lia)). pose proof (Zdigits2_le b 100 ltac:(lia) ltac:(lia)).
  rewrite (Zdigits2_log2 a), (Zdigits2_log2 b) in * by lia.
  destruct (Z.log2_spec a ltac:(lia)) as [Hla _]. destruct (Z.log2_spec b ltac:(lia)) as [_ Hlb].
  assert (0 < q) as Hq0.
  { rewrite Hqe. apply Z.div_str_pos. split; [lia|].
    apply Z.le_trans with (2 ^ Z.log2 a * 2 ^ (0 - 0 - e')).
    - rewrite <- Z.pow_add_r by (pose proof (Z.log2_nonneg a); lia).
      apply Z.le_trans with (2 ^ Z.succ (Z.log2 b)); [lia|]. apply Z.pow_le_mono_r; lia.
    - apply Z.mul_le_mono_nonneg_r; [apply Z.pow_nonneg; lia|lia]. }
  apply binary_round_aux_nonzero; [done|].
  pose proof (Zdigits2_mono 1 q ltac:(lia)) as Hx. simpl (Zdigits2 1) in Hx. lia.
Qed.

(** A non-negative double below [5.0] is smaller than [2 ^ 3]. *)
Lemma f_pos_lt5 f : f_pos f -> f_ltb f (f_of_Z 5) = true -> f_mag 3 f.
Proof.
  change (f_of_Z 5) with (S754_finite false 5629499534213120 (-50)).
  destruct f as [s|s| |s m e]; cbn [f_pos f_mag]; try done; [by intros ->|].
  intros [-> Hd]. unfold f_ltb, SFltb, SFcompare.
  destruct (Z.compare_spec e (-50)) as [->|?|?]; [|intros _; lia|done]. lia.
Qed.

Lemma f_max_mag k a b : f_mag k a -> f_mag k b -> f_mag k (f_max a b).
Proof. unfold f_max. by case_match. Qed.

(** *** Values of converted floats *)

Lemma f_ratio_mag a b k :
  0 < a < 2 ^ k -> 0 < b < 2 ^ 100 -> 0 <= k <= 100 -> f_mag (k + 1) (f_ratio a b).
Proof.
  intros Ha Hb Hk. unfold f_ratio.
  assert (forall X Y : float, match a with 0 => X | _ => Y end = Y) as -> by (destruct a; done || lia).
  replace (Z.abs a) with a by lia.
  destruct (SFdiv_core_binary _ _ a 0 b 0) as [[q e'] l] eqn:Hd.
  pose proof (SFdiv_core_nonneg a _ b _ _ _ _ ltac:(lia) ltac:(lia) Hd) as Hq.
  apply SFdiv_core_spec in Hd as [He Hqe]; [|lia..].
  pose proof (Zdigits2_le a k ltac:(lia) ltac:(lia)).
  pose proof (Zdigits2_le b 100 ltac:(lia) ltac:(lia)).
  apply binary_round_aux_mag; try lia.
  assert (q <= a * 2 ^ (0 - 0 - e')) as Hle.
  { rewrite Hqe. apply Z.div_le_upper_bound; [lia|].
    assert (0 < 2 ^ (0 - 0 - e')) by (apply Z.pow_pos_nonneg; lia). nia. }
  pose proof (Zdigits2_mono q _ ltac:(split; [exact Hq|exact Hle])) as Hdig.
  rewrite Zdigits2_mul_pow2 in Hdig by lia. lia.
Qed.

Lemma round_half_even_le num den b :
  0 < den -> 0 <= num -> num < den * b -> 0 <= round_half_even num den <= b.
Proof.
  intros Hd Hn Hb. split; [by apply round_half_even_nonneg|].
  pose proof (Z.div_lt_upper_bound num den b Hd Hb). unfold round_half_even.
  repeat case_match; lia.
Qed.

Lemma round_float_bound k f z :
  f_mag k f -> f_unsigned f -> 0 <= k -> round_float f = Ok z -> 0 <= z <= 2 ^ k.
Proof.
  destruct f as [s|s| |s m e]; cbn [f_mag f_unsigned]; try done.
  - intros _ _ Hk. cbn. intros [= <-]. pose proof (Z.pow_pos_nonneg 2 k ltac:(lia) Hk). lia.
  - intros Hm -> Hk. cbn. intros [= <-].
    rewrite Zdigits2_log2 in Hm by lia. destruct (Z.log2_spec (Z.pos m) ltac:(lia)) as [_ Hlt].
    pose proof (Z.log2_nonneg (Z.pos m)).
    assert (0 < 2 ^ Z.max 0 e) by (apply Z.pow_pos_nonneg; lia).
    assert (0 < 2 ^ Z.max 0 (- e)) by (apply Z.pow_pos_nonneg; lia).
    apply round_half_even_le; [done|nia|].
    rewrite <- Z.pow_add_r by lia.
    apply Z.lt_le_trans with (2 ^ Z.succ (Z.log2 (Z.pos m)) * 2 ^ Z.max 0 e).
    { apply Z.mul_lt_mono_pos_r; lia. }
    rewrite <- Z.pow_add_r by lia. apply Z.pow_le_mono_r; lia.
Qed.
