(* ===== verification/PyValue.v ===== *)
(** Dynamically typed Python values, as far as JSON messages carry them, and
    the conversions [int()], [str()] and [bool()] the handlers apply to
    request fields.  A Python [str] is represented by its UTF-8 bytes (lone
    surrogates as their three-byte form). *)

From Stdlib Require Import ZArith SpecFloat Lia Ascii String.
From stdpp Require Import base list strings.
From S2P Require Import Prelude PyFloat.

Open Scope Z_scope.

Inductive pyval :=
  | PNone
  | PBool (b : bool)
  | PInt (z : Z)
  | PFloat (f : float)
  | PStr (s : string)
  | PList (l : list pyval)
  | PDict (d : list (string * pyval)).

Abbreviation pydict := (list (string * pyval)).

(** Structural induction through the nested lists. *)
Section PyvalInd.
Variable P : pyval -> Prop.
Hypothesis HNone : P PNone.
Hypothesis HBool : forall b, P (PBool b).
Hypothesis HInt : forall z, P (PInt z).
Hypothesis HFloat : forall f, P (PFloat f).
Hypothesis HStr : forall s, P (PStr s).
Hypothesis HList : forall l, Forall P l -> P (PList l).
Hypothesis HDict : forall d, Forall (fun kv => P kv.2) d -> P (PDict d).

Fixpoint pyval_nested_ind (v : pyval) : P v :=
  match v with
  | PNone => HNone
  | PBool b => HBool b
  | PInt z => HInt z
  | PFloat f => HFloat f
  | PStr s => HStr s
  | PList l =>
      HList l ((fix go l : Forall P l :=
        match l with
        | [] => Forall_nil_2 _
        | x :: l' => Forall_cons_2 _ _ _ (pyval_nested_ind x) (go l')
        end) l)
  | PDict d =>
      HDict d ((fix go d : Forall (fun kv => P kv.2) d :=
        match d with
        | [] => Forall_nil_2 _
        | kv :: d' => Forall_cons_2 _ _ _ (pyval_nested_ind kv.2) (go d')
        end) d)
  end.
End PyvalInd.

#[export] Instance pyval_eq_dec : EqDecision pyval.
Proof.
  refine (fix go (x y : pyval) {struct x} : Decision (x = y) :=
    match x, y with
    | PNone, PNone => left eq_refl
    | PBool a, PBool b => cast_if (decide (a = b))
    | PInt a, PInt b => cast_if (decide (a = b))
    | PFloat a, PFloat b => cast_if (decide (a = b))
    | PStr a, PStr b => cast_if (decide (a = b))
    | PList a, PList b => cast_if (@decide (a = b) (@list_eq_dec _ go a b))
    | PDict a, PDict b =>
        cast_if (@decide (a = b) (@list_eq_dec _ (@prod_eq_dec _ _ _ go) a b))
    | _, _ => right _
    end); congruence.
Defined.

(** ** Truthiness: [bool(v)] *)

Definition py_bool (v : pyval) : bool :=
  match v with
  | PNone => false
  | PBool b => b
  | PInt z => negb (z =? 0)
  | PFloat f => negb (f_is_zero f)
  | PStr s => negb (String.eqb s "")
  | PList l => match l with [] => false | _ => true end
  | PDict d => match d with [] => false | _ => true end
  end.

(** ** Decimal integers *)

Definition digit_char (d : Z) : ascii := ascii_of_N (Z.to_N (48 + d)).

Definition char_code (c : ascii) : Z := Z.of_N (N_of_ascii c).

Definition is_digit (c : ascii) : bool := (48 <=? char_code c) && (char_code c <=? 57).

Definition digit_val (c : ascii) : Z := char_code c - 48.

(** Decimal digits of [n >= 0], most significant first, in front of [acc]. *)
Fixpoint dec_digits (fuel : nat) (n : Z) (acc : list ascii) : list ascii :=
  match fuel with
  | O => acc
  | S fuel' =>
      let acc' := digit_char (n mod 10) :: acc in
      if n <? 10 then acc' else dec_digits fuel' (n / 10) acc'
  end.

Definition dec_chars (n : Z) : list ascii := dec_digits (S (Z.to_nat (Z.log2 n))) n [].

Definition int_chars (z : Z) : list ascii :=
  if z <? 0 then "-"%char :: dec_chars (- z) else dec_chars z.

Definition int_str (z : Z) : string := string_of_list_ascii (int_chars z).

(** Value of a run of digits. *)
Definition digits_val (acc : Z) (l : list ascii) : Z :=
  foldl (fun a c => 10 * a + digit_val c) acc l.

Lemma char_code_digit d : 0 <= d < 10 -> char_code (digit_char d) = 48 + d.
Proof. intros Hd. unfold char_code, digit_char. rewrite N_ascii_embedding; lia. Qed.

Lemma is_digit_digit d : 0 <= d < 10 -> is_digit (digit_char d) = true.
Proof. intros Hd. unfold is_digit. rewrite char_code_digit by done. lia. Qed.

Lemma digit_val_digit d : 0 <= d < 10 -> digit_val (digit_char d) = d.
Proof. intros Hd. unfold digit_val. rewrite char_code_digit by done. lia. Qed.

Lemma digits_val_app acc l1 l2 : digits_val acc (l1 ++ l2) = digits_val (digits_val acc l1) l2.
Proof. apply foldl_app. Qed.

Lemma dec_digits_spec fuel n acc :
  0 <= n -> n < 2 ^ Z.of_nat fuel ->
  exists ds, dec_digits fuel n acc = ds ++ acc /\ Forall (fun c => is_digit c) ds /\
    digits_val 0 ds = n /\ (1 <= fuel -> ds <> [])%nat /\
    (0 < n -> exists d ds', ds = digit_char d :: ds' /\ 1 <= d < 10) /\ (n < 10 -> (length ds <= 1)%nat).
Proof.
  revert n acc; induction fuel as [|fuel IH]; intros n acc Hn Hlt.
  - exists []. simpl in *. unfold digits_val; simpl.
    split_and!; [done|constructor|lia|lia|lia|intros; simpl; lia].
  - simpl. pose proof (Z.mod_pos_bound n 10 ltac:(lia)) as Hm.
    destruct (Z.ltb_spec n 10) as [Hs|Hs].
    + exists [digit_char (n mod 10)]. rewrite (Z.mod_small n 10) in * by lia.
      split_and!; try done.
      * repeat constructor. rewrite is_digit_digit by lia. done.
      * unfold digits_val; simpl. rewrite digit_val_digit; lia.
      * intros Hpos. eexists _, []. split; [done|lia].
    + rewrite Nat2Z.inj_succ, Z.pow_succ_r in Hlt by lia.
      destruct (IH (n / 10) (digit_char (n mod 10) :: acc)) as (ds & Hds & Hall & Hval & Hne & Hhd & _).
      { apply Z.div_pos; lia. }
      { apply Z.div_lt_upper_bound; lia. }
      exists (ds ++ [digit_char (n mod 10)]). split_and!.
      * rewrite Hds. by rewrite <- app_assoc.
      * apply Forall_app; split; [done|]. repeat constructor. rewrite is_digit_digit by lia. done.
      * rewrite digits_val_app, Hval. unfold digits_val; simpl.
        rewrite digit_val_digit by lia. pose proof (Z.div_mod n 10 ltac:(lia)). lia.
      * intros _. by destruct ds.
      * intros _. destruct Hhd as (d & ds' & -> & Hd).
        { pose proof (Z.div_le_mono 10 n 10 ltac:(lia) ltac:(lia)).
          change (10 / 10) with 1 in *. lia. }
        exists d, (ds' ++ [digit_char (n mod 10)]). done.
      * lia.
Qed.

Lemma dec_chars_spec n :
  0 <= n ->
  Forall (fun c => is_digit c) (dec_chars n) /\ digits_val 0 (dec_chars n) = n /\
  dec_chars n <> [] /\
  (0 < n -> exists d ds', dec_chars n = digit_char d :: ds' /\ 1 <= d < 10) /\
  (n = 0 -> dec_chars n = ["0"%char]).
Proof.
  intros Hn. unfold dec_chars.
  assert (n < 2 ^ Z.of_nat (S (Z.to_nat (Z.log2 n)))) as Hlt.
  { rewrite Nat2Z.inj_succ, Z2Nat.id by apply Z.log2_nonneg.
    destruct (decide (n = 0)) as [->|]; [done|]. apply Z.log2_spec; lia. }
  destruct (dec_digits_spec _ n [] Hn Hlt) as (ds & Hds & Hall & Hval & Hne & Hhd & _).
  rewrite app_nil_r in Hds. rewrite Hds in *. split_and!; auto.
  - apply Hne. lia.
  - intros ->. by vm_compute in Hds.
Qed.

(** ** [str(v)] and [repr(v)] *)

Definition nl_char : ascii := "010".
Definition quote_char : ascii := "034".

Definition hex_digit (d : Z) : ascii :=
  if d <? 10 then digit_char d else ascii_of_N (Z.to_N (87 + d)).

Definition has_char (c : ascii) (s : string) : bool :=
  existsb (Ascii.eqb c) (list_ascii_of_string s).

(** [repr] of a string of ASCII characters; bytes of a multi-byte character
    are taken to be printable. *)
Definition repr_str (s : string) : string :=
  let q : ascii := if has_char "'" s && negb (has_char quote_char s) then quote_char else "'"%char in
  let esc c : list ascii :=
    let n := char_code c in
    if Ascii.eqb c q || Ascii.eqb c "\" then ["\"%char; c]
    else if n =? 10 then ["\"%char; "n"%char]
    else if n =? 13 then ["\"%char; "r"%char]
    else if n =? 9 then ["\"%char; "t"%char]
    else if (n <? 32) || (n =? 127) then
      ["\"%char; "x"%char; hex_digit (n / 16); hex_digit (n mod 16)]
    else [c] in
  string_of_list_ascii ([q] ++ concat (esc <$> list_ascii_of_string s) ++ [q]).

Definition zeros (n : Z) : list ascii := replicate (Z.to_nat n) "0"%char.

(** [repr] of a float: shortest digits, exponent form outside
    [1e-4 <= |x| < 1e16]. *)
Definition float_chars (f : float) : list ascii :=
  match f with
  | S754_zero s => (if s then ["-"%char] else []) ++ list_ascii_of_string "0.0"
  | S754_infinity s => (if s then ["-"%char] else []) ++ list_ascii_of_string "inf"
  | S754_nan => list_ascii_of_string "nan"
  | S754_finite s m e =>
      let '(d, n, p) := dec_of_float m e in
      let ds := dec_chars d in
      let body :=
        if (-4 <? p) && (p <=? 16) then
          if p <=? 0 then ["0"%char; "."%char] ++ zeros (- p) ++ ds
          else if n <=? p then ds ++ zeros (p - n) ++ ["."%char; "0"%char]
          else take (Z.to_nat p) ds ++ ["."%char] ++ drop (Z.to_nat p) ds
        else
          let x := p - 1 in
          let xs := dec_chars (Z.abs x) in
          take 1 ds ++ (match drop 1 ds with [] => [] | t => "."%char :: t end)
            ++ ["e"%char; if x <? 0 then "-"%char else "+"%char]
            ++ (if Z.abs x <? 10 then ["0"%char] else []) ++ xs in
      (if s then ["-"%char] else []) ++ body
  end.

Definition float_str (f : float) : string := string_of_list_ascii (float_chars f).

Fixpoint py_repr (v : pyval) : string :=
  match v with
  | PNone => "None"
  | PBool b => if b then "True" else "False"
  | PInt z => int_str z
  | PFloat f => float_str f
  | PStr s => repr_str s
  | PList l => "[" +:+ String.concat ", " (py_repr <$> l) +:+ "]"
  | PDict d =>
      "{" +:+ String.concat ", " ((fun kv => repr_str kv.1 +:+ ": " +:+ py_repr kv.2) <$> d) +:+ "}"
  end.

Definition py_str (v : pyval) : string :=
  match v with PStr s => s | _ => py_repr v end.

(** [f"{x:.{nd}f}"], for at least one digit. *)
Definition fixed (nd : nat) (x : float) : string :=
  match x with
  | S754_nan => "nan"
  | S754_infinity s => if s then "-inf" else "inf"
  | S754_zero s => (if s then "-0." else "0.") +:+ string_of_list_ascii (replicate nd "0"%char)
  | S754_finite s m e =>
      let p := 10 ^ Z.of_nat nd in
      let k := round_half_even (Z.pos m * p * 2 ^ Z.max 0 e) (2 ^ Z.max 0 (- e)) in
      let frac := list_ascii_of_string (py_str (PInt (k mod p))) in
      (if s then "-" else "") +:+ py_str (PInt (k / p)) +:+ "." +:+
        string_of_list_ascii (replicate (nd - length frac) "0"%char ++ frac)
  end.

(** ** [int(v)] *)

Definition type_name (v : pyval) : string :=
  match v with
  | PNone => "NoneType" | PBool _ => "bool" | PInt _ => "int" | PFloat _ => "float"
  | PStr _ => "str" | PList _ => "list" | PDict _ => "dict"
  end.

Definition is_space (c : ascii) : bool :=
  let n := char_code c in ((9 <=? n) && (n <=? 13)) || ((28 <=? n) && (n <=? 32)).

Fixpoint strip_left (l : list ascii) : list ascii :=
  match l with c :: l' => if is_space c then strip_left l' else l | [] => [] end.

Definition strip (l : list ascii) : list ascii := reverse (strip_left (reverse (strip_left l))).

(** Digits with single underscores between them. *)
Fixpoint underscore_digits (acc : Z) (l : list ascii) : option Z :=
  match l with
  | [] => None
  | c :: l' =>
      if is_digit c then
        let acc' := 10 * acc + digit_val c in
        match l' with
        | [] => Some acc'
        | c' :: l'' => if Ascii.eqb c' "_" then underscore_digits acc' l'' else underscore_digits acc' l'
        end
      else None
  end.

(** [int(s)] for a string: ASCII digits (other Unicode digits are outside the
    model and rejected here), surrounding white space and a sign. *)
Definition int_of_str (s : string) : res Z :=
  let bad := raise ValueError ("invalid literal for int() with base 10: " +:+ repr_str s) in
  let of_opt o := match o with Some z => Ok z | None => bad end in
  match strip (list_ascii_of_string s) with
  | c :: l =>
      if Ascii.eqb c "-" then of_opt (Z.opp <$> underscore_digits 0 l)
      else if Ascii.eqb c "+" then of_opt (underscore_digits 0 l)
      else of_opt (underscore_digits 0 (c :: l))
  | [] => bad
  end.

Definition py_int (v : pyval) : res Z :=
  match v with
  | PInt z => Ok z
  | PBool b => Ok (if b then 1 else 0)
  | PFloat f => int_of_float f
  | PStr s => int_of_str s
  | _ =>
      raise TypeError
        ("int() argument must be a string, a bytes-like object or a real number, not '"
          +:+ type_name v +:+ "'")
  end.

(** ** [v == n] for an int [n]: bools and integral floats compare equal. *)

Definition py_eq_int (v : pyval) (n : Z) : bool :=
  match v with
  | PInt z => z =? n
  | PBool b => (if b then 1 else 0) =? n
  | PFloat f =>
      match f with
      | S754_zero _ => 0 =? n
      | S754_finite s m e =>
          let num := Z.pos m * 2 ^ Z.max 0 e in
          (if s then - num else num) =? n * 2 ^ Z.max 0 (- e)
      | _ => false
      end
  | _ => false
  end.

(** [d.get(k)] and [d.get(k, default)]. *)
Definition pget (k : string) (d : pydict) : pyval := default PNone (dget k d).
Definition pget_def (k : string) (dflt : pyval) (d : pydict) : pyval := default dflt (dget k d).

(** [d[k]] on a dict. *)
Definition pitem (k : string) (d : pydict) : res pyval :=
  match dget k d with Some v => Ok v | None => raise KeyError (repr_str k) end.

(** [a or b]. *)
Definition py_or (a b : pyval) : pyval := if py_bool a then a else b.

(** [s.upper()] and [s.lower()] on ASCII letters. *)
Definition ascii_upper (c : ascii) : ascii :=
  let n := char_code c in if (97 <=? n) && (n <=? 122) then ascii_of_N (Z.to_N (n - 32)) else c.
Definition ascii_lower (c : ascii) : ascii :=
  let n := char_code c in if (65 <=? n) && (n <=? 90) then ascii_of_N (Z.to_N (n + 32)) else c.
Definition str_map (f : ascii -> ascii) (s : string) : string :=
  string_of_list_ascii (f <$> list_ascii_of_string s).
Definition str_upper : string -> string := str_map ascii_upper.
Definition str_lower : string -> string := str_map ascii_lower.
