(* ===== verification/Json.v ===== *)
(** [json.dumps] and [json.loads] as the control protocol uses them: compact
    separators on output, any JSON text on input.  Text is a list of UTF-8
    code units. *)

From Stdlib Require Import ZArith SpecFloat Lia Ascii String.
From stdpp Require Import base list sets strings.
From S2P Require Import Prelude PyFloat PyValue.

Open Scope Z_scope.

Abbreviation text := (list ascii).

Definition chars (s : string) : text := list_ascii_of_string s.

(** ** UTF-8 *)

Definition is_cont (c : ascii) : bool := (128 <=? char_code c) && (char_code c <=? 191).
Definition in_code (lo hi : Z) (c : ascii) : bool := (lo <=? char_code c) && (char_code c <=? hi).

(** Strict UTF-8 (no overlong forms, no surrogates), as [str.encode] produces
    and [bytes.decode] accepts. *)
Fixpoint utf8_ok (l : text) : bool :=
  match l with
  | [] => true
  | a :: l1 =>
      let n := char_code a in
      if n <? 128 then utf8_ok l1
      else match l1 with
      | [] => false
      | b :: l2 =>
          if (194 <=? n) && (n <=? 223) then is_cont b && utf8_ok l2
          else match l2 with
          | [] => false
          | c :: l3 =>
              if n =? 224 then in_code 160 191 b && is_cont c && utf8_ok l3
              else if n =? 237 then in_code 128 159 b && is_cont c && utf8_ok l3
              else if (225 <=? n) && (n <=? 239) then is_cont b && is_cont c && utf8_ok l3
              else match l3 with
              | [] => false
              | d :: l4 =>
                  let tail := is_cont c && is_cont d && utf8_ok l4 in
                  if n =? 240 then in_code 144 191 b && tail
                  else if n =? 244 then in_code 128 143 b && tail
                  else if (241 <=? n) && (n <=? 243) then is_cont b && tail
                  else false
              end
          end
      end
  end.

Definition of_code (n : Z) : ascii := ascii_of_N (Z.to_N n).

(** Code units of one code point (a lone surrogate gets its three-byte form). *)
Definition utf8_encode (u : Z) : text :=
  if u <? 128 then [of_code u]
  else if u <? 2048 then [of_code (192 + u / 64); of_code (128 + u mod 64)]
  else if u <? 65536 then
    [of_code (224 + u / 4096); of_code (128 + u / 64 mod 64); of_code (128 + u mod 64)]
  else
    [of_code (240 + u / 262144); of_code (128 + u / 4096 mod 64); of_code (128 + u / 64 mod 64);
     of_code (128 + u mod 64)].

(** ** [json.dumps(v, separators=(",", ":"), ensure_ascii=False)] *)

Definition backslash : ascii := "\".

Definition esc_char (c : ascii) : text :=
  let n := char_code c in
  if n =? 34 then [backslash; quote_char]
  else if n =? 92 then [backslash; backslash]
  else if n =? 10 then [backslash; "n"%char]
  else if n =? 13 then [backslash; "r"%char]
  else if n =? 9 then [backslash; "t"%char]
  else if n =? 12 then [backslash; "f"%char]
  else if n =? 8 then [backslash; "b"%char]
  else if n <? 32 then
    [backslash; "u"%char; "0"%char; "0"%char; hex_digit (n / 16); hex_digit (n mod 16)]
  else [c].

Definition str_text (s : string) : text :=
  [quote_char] ++ concat (esc_char <$> chars s) ++ [quote_char].

Definition float_text (f : float) : text :=
  match f with
  | S754_nan => chars "NaN"
  | S754_infinity false => chars "Infinity"
  | S754_infinity true => chars "-Infinity"
  | _ => float_chars f
  end.

Fixpoint sep_by (sep : ascii) (l : list text) : text :=
  match l with
  | [] => []
  | x :: l' => x ++ match l' with [] => [] | _ => sep :: sep_by sep l' end
  end.

Fixpoint json_text (v : pyval) : text :=
  match v with
  | PNone => chars "null"
  | PBool b => chars (if b then "true" else "false")
  | PInt z => int_chars z
  | PFloat f => float_text f
  | PStr s => str_text s
  | PList l => ["["%char] ++ sep_by "," (json_text <$> l) ++ ["]"%char]
  | PDict d =>
      ["{"%char] ++ sep_by "," ((fun kv => str_text kv.1 ++ [":"%char] ++ json_text kv.2) <$> d)
        ++ ["}"%char]
  end.

(** [ensure_ascii=True] (the default): the same text with every code point
    from 127 on written as [\uXXXX], a surrogate pair above the BMP. *)
Definition u_escape (u : Z) : text :=
  [backslash; "u"%char; hex_digit (u / 4096); hex_digit (u / 256 mod 16); hex_digit (u / 16 mod 16);
   hex_digit (u mod 16)].

Fixpoint ascii_escape (l : text) : text :=
  match l with
  | [] => []
  | a :: l1 =>
      let n := char_code a in
      if n <? 127 then a :: ascii_escape l1
      else if n <? 192 then u_escape n ++ ascii_escape l1
      else
        match l1 with
        | [] => []
        | b :: l2 =>
            let x := char_code b - 128 in
            if n <? 224 then u_escape ((n - 192) * 64 + x) ++ ascii_escape l2
            else
              match l2 with
              | [] => []
              | c :: l3 =>
                  let y := char_code c - 128 in
                  if n <? 240 then u_escape ((n - 224) * 4096 + x * 64 + y) ++ ascii_escape l3
                  else
                    match l3 with
                    | [] => []
                    | d :: l4 =>
                        let v := (n - 240) * 262144 + x * 4096 + y * 64 + (char_code d - 128) - 65536 in
                        u_escape (55296 + v / 1024) ++ u_escape (56320 + v mod 1024) ++ ascii_escape l4
                    end
              end
        end
  end.

(** ** [json.loads] *)

Definition is_ws (c : ascii) : bool :=
  let n := char_code c in (n =? 32) || (n =? 9) || (n =? 10) || (n =? 13).

Fixpoint skip_ws (l : text) : text :=
  match l with c :: l' => if is_ws c then skip_ws l' else l | [] => [] end.

Definition hex_val (c : ascii) : option Z :=
  let n := char_code c in
  if (48 <=? n) && (n <=? 57) then Some (n - 48)
  else if (97 <=? n) && (n <=? 102) then Some (n - 87)
  else if (65 <=? n) && (n <=? 70) then Some (n - 55)
  else None.

Definition hex4 (a b c d : ascii) : option Z :=
  x ← hex_val a; y ← hex_val b; z ← hex_val c; w ← hex_val d;
  Some (4096 * x + 256 * y + 16 * z + w).

Definition simple_escape (c : ascii) : option ascii :=
  let n := char_code c in
  if n =? 34 then Some quote_char
  else if n =? 92 then Some backslash
  else if n =? 47 then Some "/"%char
  else if n =? 98 then Some (of_code 8)
  else if n =? 102 then Some (of_code 12)
  else if n =? 110 then Some (of_code 10)
  else if n =? 114 then Some (of_code 13)
  else if n =? 116 then Some (of_code 9)
  else None.

Definition is_high (u : Z) : bool := (55296 <=? u) && (u <=? 56319).
Definition is_low (u : Z) : bool := (56320 <=? u) && (u <=? 57343).

(** The characters of a string after its opening quote, and what follows the
    closing quote.  [hi] is a high surrogate still waiting for its pair. *)
Fixpoint parse_string (hi : option Z) (l : text) : option (text * text) :=
  let flush := match hi with Some u => utf8_encode u | None => [] end in
  let emit (t : text) (o : option (text * text)) := '(s, r) ← o; Some (flush ++ t ++ s, r) in
  match l with
  | [] => None
  | c :: l1 =>
      let n := char_code c in
      if n =? 34 then Some (flush, l1)
      else if n =? 92 then
        match l1 with
        | e :: l2 =>
            if char_code e =? 117 then
              match l2 with
              | h1 :: h2 :: h3 :: h4 :: l3 =>
                  u ← hex4 h1 h2 h3 h4;
                  match hi with
                  | Some v =>
                      if is_low u then
                        '(s, r) ← parse_string None l3;
                        Some (utf8_encode (65536 + (v - 55296) * 1024 + (u - 56320)) ++ s, r)
                      else if is_high u then emit [] (parse_string (Some u) l3)
                      else emit (utf8_encode u) (parse_string None l3)
                  | None =>
                      if is_high u then parse_string (Some u) l3
                      else emit (utf8_encode u) (parse_string None l3)
                  end
              | _ => None
              end
            else x ← simple_escape e; emit [x] (parse_string None l2)
        | [] => None
        end
      else if n <? 32 then None
      else emit [c] (parse_string None l1)
  end.

Fixpoint span_digits (l : text) : text * text :=
  match l with
  | c :: l' => if is_digit c then let '(ds, r) := span_digits l' in (c :: ds, r) else ([], l)
  | [] => ([], [])
  end.

(** [(\.[0-9]+)?] *)
Definition parse_frac (l : text) : option text * text :=
  match l with
  | c :: l' =>
      if Ascii.eqb c "." then
        match span_digits l' with
        | ([], _) => (None, l)
        | (ds, r) => (Some ds, r)
        end
      else (None, l)
  | [] => (None, l)
  end.

(** [([eE][-+]?[0-9]+)?] *)
Definition parse_exp (l : text) : option Z * text :=
  match l with
  | c :: l' =>
      if Ascii.eqb c "e" || Ascii.eqb c "E" then
        let '(neg, l2) :=
          match l' with
          | s :: l2 =>
              if Ascii.eqb s "-" then (true, l2) else if Ascii.eqb s "+" then (false, l2) else (false, l')
          | [] => (false, l')
          end in
        match span_digits l2 with
        | ([], _) => (None, l)
        | (ds, r) => let x := digits_val 0 ds in (Some (if neg then - x else x), r)
        end
      else (None, l)
  | [] => (None, l)
  end.

(** An unsigned number: the integer part is [0] or starts with a non-zero
    digit; a fraction or an exponent makes it a float. *)
Definition parse_unsigned (neg : bool) (l : text) : option (pyval * text) :=
  let '(ds, l1) :=
    match l with
    | c :: l' => if Ascii.eqb c "0" then ([c], l') else span_digits l
    | [] => ([], [])
    end in
  match ds with
  | [] => None
  | _ =>
      let '(fr, l2) := parse_frac l1 in
      let '(ex, l3) := parse_exp l2 in
      match fr, ex with
      | None, None => let z := digits_val 0 ds in Some (PInt (if neg then - z else z), l3)
      | _, _ =>
          let fd := default [] fr in
          let f := f_of_dec (digits_val 0 (ds ++ fd)) (default 0 ex - zlen fd) in
          Some (PFloat (if neg then f_opp f else f), l3)
      end
  end.

(** [l] without the prefix [p]. *)
Fixpoint strip_prefix (p l : text) : option text :=
  match p, l with
  | [], _ => Some l
  | x :: p', y :: l' => if Ascii.eqb x y then strip_prefix p' l' else None
  | _, [] => None
  end.

Definition parse_number (l : text) : option (pyval * text) :=
  match l with
  | c :: l' =>
      if Ascii.eqb c "-" then
        match strip_prefix (chars "Infinity") l' with
        | Some r => Some (PFloat (S754_infinity true), r)
        | None => parse_unsigned true l'
        end
      else parse_unsigned false l
  | [] => None
  end.

Definition literals : list (text * pyval) :=
  [(chars "null", PNone); (chars "true", PBool true); (chars "false", PBool false);
   (chars "NaN", PFloat S754_nan); (chars "Infinity", PFloat (S754_infinity false))].

Fixpoint parse_literal (ls : list (text * pyval)) (l : text) : option (pyval * text) :=
  match ls with
  | [] => None
  | (p, v) :: ls' =>
      match strip_prefix p l with Some r => Some (v, r) | None => parse_literal ls' l end
  end.

(** One value from the start of [l].  Every call consumes a character, so fuel
    [length l] is never short. *)
Fixpoint parse_value (fuel : nat) (l : text) {struct fuel} : option (pyval * text) :=
  match fuel with
  | O => None
  | S f =>
      match l with
      | [] => None
      | c :: l' =>
          let n := char_code c in
          if n =? 34 then
            '(s, r) ← parse_string None l'; Some (PStr (string_of_list_ascii s), r)
          else if n =? 123 then
            match skip_ws l' with
            | c2 :: r =>
                if char_code c2 =? 125 then Some (PDict [], r)
                else '(kvs, r) ← parse_members f (c2 :: r); Some (PDict (dupdate [] kvs), r)
            | [] => None
            end
          else if n =? 91 then
            match skip_ws l' with
            | c2 :: r =>
                if char_code c2 =? 93 then Some (PList [], r)
                else '(vs, r) ← parse_items f (c2 :: r); Some (PList vs, r)
            | [] => None
            end
          else
            match parse_literal literals l with
            | Some vr => Some vr
            | None => parse_number l
            end
      end
  end
with parse_members (fuel : nat) (l : text) {struct fuel} : option (pydict * text) :=
  match fuel with
  | O => None
  | S f =>
      match l with
      | q :: l1 =>
          if char_code q =? 34 then
            '(k, l2) ← parse_string None l1;
            match skip_ws l2 with
            | c :: l3 =>
                if char_code c =? 58 then
                  '(v, l4) ← parse_value f (skip_ws l3);
                  match skip_ws l4 with
                  | d :: l5 =>
                      if char_code d =? 44 then
                        '(kvs, r) ← parse_members f (skip_ws l5);
                        Some ((string_of_list_ascii k, v) :: kvs, r)
                      else if char_code d =? 125 then Some ([(string_of_list_ascii k, v)], l5)
                      else None
                  | [] => None
                  end
                else None
            | [] => None
            end
          else None
      | [] => None
      end
  end
with parse_items (fuel : nat) (l : text) {struct fuel} : option (list pyval * text) :=
  match fuel with
  | O => None
  | S f =>
      '(v, l1) ← parse_value f l;
      match skip_ws l1 with
      | d :: l2 =>
          if char_code d =? 44 then '(vs, r) ← parse_items f (skip_ws l2); Some (v :: vs, r)
          else if char_code d =? 93 then Some ([v], l2)
          else None
      | [] => None
      end
  end.

Definition json_loads (l : text) : res pyval :=
  match parse_value (S (length l)) (skip_ws l) with
  | Some (v, r) =>
      match skip_ws r with [] => Ok v | _ => raise JSONDecodeError "Extra data" end
  | None => raise JSONDecodeError "Expecting value"
  end.

(** ** Round trip *)

(** Text after which a number is finished. *)
Definition stops (l : text) : bool :=
  match l with
  | [] => true
  | c :: _ =>
      negb (is_digit c || Ascii.eqb c "." || Ascii.eqb c "e" || Ascii.eqb c "E"
            || Ascii.eqb c "+" || Ascii.eqb c "-")
  end.

(** A float whose printed form reads back as itself. *)
Definition float_readable (f : float) : bool :=
  match f with
  | S754_nan | S754_infinity _ => true
  | _ => bool_decide (parse_number (float_chars f) = Some (PFloat f, []))
  end.

(** Values [json.dumps] prints faithfully: string-keyed dicts without repeated
    keys, readable floats. *)
Fixpoint json_ok (v : pyval) : bool :=
  match v with
  | PFloat f => float_readable f
  | PList l => forallb json_ok l
  | PDict d => bool_decide (NoDup (dkeys d)) && forallb (fun kv => json_ok kv.2) d
  | _ => true
  end.

Lemma parse_string_esc c l :
  parse_string None (esc_char c ++ l) = ('(s, r) ← parse_string None l; Some (c :: s, r)).
Proof. destruct c as [[] [] [] [] [] [] [] []]; reflexivity. Qed.

Lemma parse_string_text s rest :
  parse_string None (concat (esc_char <$> s) ++ quote_char :: rest) = Some (s, rest).
Proof.
  induction s as [|c s IH]; [done|].
  rewrite fmap_cons. cbn [concat]. rewrite <- app_assoc, parse_string_esc, IH. done.
Qed.

Lemma span_digits_app l ds r rest :
  stops rest -> span_digits l = (ds, r) -> span_digits (l ++ rest) = (ds, r ++ rest).
Proof.
  intros Hs. revert ds r; induction l as [|c l IH]; intros ds r; simpl.
  - intros [= <- <-]. destruct rest as [|c rest]; [done|]. simpl in *.
    by destruct (is_digit c).
  - destruct (is_digit c); [|by intros [= <- <-]].
    destruct (span_digits l) as [ds' r'] eqn:Hl. intros [= <- <-].
    by rewrite (IH _ _ eq_refl).
Qed.

Ltac stops_cases Hs :=
  simpl in Hs; repeat match type of Hs with context [Ascii.eqb ?a ?b] =>
    destruct (Ascii.eqb a b) eqn:? end; repeat rewrite ?orb_true_r, ?orb_false_r in Hs; simpl in *; try done.

Lemma parse_frac_app l fr r rest :
  stops rest -> parse_frac l = (fr, r) -> parse_frac (l ++ rest) = (fr, r ++ rest).
Proof.
  intros Hs. unfold parse_frac. destruct l as [|c l]; simpl.
  - intros [= <- <-]. destruct rest as [|c rest]; [done|]. stops_cases Hs.
  - destruct (Ascii.eqb c "."); [|by intros [= <- <-]].
    destruct (span_digits l) as [ds r'] eqn:Hl.
    rewrite (span_digits_app _ _ _ _ Hs Hl).
    destruct ds; intros [= <- <-]; done.
Qed.

Lemma parse_exp_app l ex r rest :
  stops rest -> parse_exp l = (ex, r) -> parse_exp (l ++ rest) = (ex, r ++ rest).
Proof.
  intros Hs. unfold parse_exp. destruct l as [|c l]; simpl.
  - intros [= <- <-]. destruct rest as [|c rest]; [done|]. stops_cases Hs.
  - destruct (Ascii.eqb c "e" || Ascii.eqb c "E"); [|by intros [= <- <-]].
    assert (forall (neg : bool) l2,
      match span_digits l2 with ([], _) => (None, c :: l)
        | (ds, r) => (Some (if neg then - digits_val 0 ds else digits_val 0 ds), r) end = (ex, r) ->
      match span_digits (l2 ++ rest) with ([], _) => (None, c :: l ++ rest)
        | (ds, r) => (Some (if neg then - digits_val 0 ds else digits_val 0 ds), r) end = (ex, r ++ rest))
      as Hspan.
    { intros neg l2. destruct (span_digits l2) as [ds r'] eqn:Hl.
      rewrite (span_digits_app _ _ _ _ Hs Hl). destruct ds; intros [= <- <-]; done. }
    destruct l as [|s l]; simpl.
    + intros [= <- <-]. specialize (Hspan false []). simpl in Hspan.
      destruct rest as [|c' rest]; [done|]. stops_cases Hs. by apply Hspan.
    + destruct (Ascii.eqb s "-"); [apply (Hspan true)|].
      destruct (Ascii.eqb s "+"); [apply (Hspan false)|]. apply (Hspan false (s :: l)).
Qed.

Lemma parse_unsigned_app neg l v r rest :
  stops rest -> parse_unsigned neg l = Some (v, r) -> parse_unsigned neg (l ++ rest) = Some (v, r ++ rest).
Proof.
  intros Hs. unfold parse_unsigned. destruct l as [|c l]; [done|]. cbn [app].
  assert (forall ds l1,
    (let '(ds, l1) := if Ascii.eqb c "0" then ([c], l) else span_digits (c :: l) in (ds, l1)) = (ds, l1) ->
    (if Ascii.eqb c "0" then ([c], l ++ rest) else span_digits (c :: l ++ rest)) = (ds, l1 ++ rest)) as Hhd.
  { intros ds l1. destruct (Ascii.eqb c "0"); [by intros [= <- <-]|].
    destruct (span_digits (c :: l)) as [ds' r'] eqn:Hl. intros [= <- <-].
    apply (span_digits_app _ _ _ _ Hs Hl). }
  destruct (if Ascii.eqb c "0" then ([c], l) else span_digits (c :: l)) as [ds l1].
  rewrite (Hhd _ _ eq_refl). destruct ds as [|d ds]; [done|].
  destruct (parse_frac l1) as [fr l2] eqn:Hf. rewrite (parse_frac_app _ _ _ _ Hs Hf).
  destruct (parse_exp l2) as [ex l3] eqn:He. rewrite (parse_exp_app _ _ _ _ Hs He).
  destruct fr, ex; intros [= <- <-]; done.
Qed.

Definition number_start (c : ascii) : bool := Ascii.eqb c "-" || is_digit c.

Lemma parse_unsigned_start neg c l vr : parse_unsigned neg (c :: l) = Some vr -> is_digit c.
Proof.
  unfold parse_unsigned. destruct (Ascii.eqb_spec c "0") as [->|]; [done|].
  simpl. by destruct (is_digit c).
Qed.

Lemma parse_number_start c l vr : parse_number (c :: l) = Some vr -> number_start c.
Proof.
  unfold parse_number, number_start. destruct (Ascii.eqb c "-"); [done|].
  intros H%parse_unsigned_start. done.
Qed.

Lemma strip_prefix_neq x p c l : Ascii.eqb x c = false -> strip_prefix (x :: p) (c :: l) = None.
Proof. intros H. simpl. by rewrite H. Qed.

Lemma number_start_code c :
  number_start c -> char_code c = 45 \/ 48 <= char_code c <= 57.
Proof.
  unfold number_start, is_digit. destruct (Ascii.eqb_spec c "-") as [->|]; [by left|].
  simpl. intros H. right. apply Is_true_true, andb_true_iff in H. lia.
Qed.

Lemma eqb_code a c : char_code a <> char_code c -> Ascii.eqb a c = false.
Proof. intros H. destruct (Ascii.eqb_spec a c); congruence. Qed.

Lemma parse_value_number fuel c l :
  number_start c -> parse_value (S fuel) (c :: l) = parse_number (c :: l).
Proof.
  intros Hc%number_start_code. cbn [parse_value].
  replace (char_code c =? 34) with false by lia.
  replace (char_code c =? 123) with false by lia.
  replace (char_code c =? 91) with false by lia.
  cbn [parse_literal literals chars list_ascii_of_string].
  rewrite !strip_prefix_neq; [done|..]; apply eqb_code;
    match goal with |- char_code ?a <> _ => let v := eval vm_compute in (char_code a) in change (char_code a) with v end;
    lia.
Qed.

Lemma digit_code c : is_digit c -> 48 <= char_code c <= 57.
Proof. unfold is_digit. intros H%Is_true_true%andb_true_iff. lia. Qed.

Lemma strip_infinity_digit c l : is_digit c -> strip_prefix (chars "Infinity") (c :: l) = None.
Proof.
  intros Hc%digit_code. apply strip_prefix_neq, eqb_code. change (char_code "I") with 73. lia.
Qed.

Lemma parse_number_app l v r rest :
  stops rest -> parse_number l = Some (v, r) -> parse_number (l ++ rest) = Some (v, r ++ rest).
Proof.
  intros Hs. unfold parse_number. destruct l as [|c l]; [done|]. cbn [app].
  destruct (Ascii.eqb c "-"); [|by apply (parse_unsigned_app _ (c :: l))].
  assert (forall p q t, strip_prefix p q = Some t -> strip_prefix p (q ++ rest) = Some (t ++ rest)) as Hpre.
  { induction p as [|x p IH]; intros [|y q] t; simpl; try (by intros [= <-]).
    destruct (Ascii.eqb x y); [apply IH | done]. }
  destruct (strip_prefix (chars "Infinity") l) as [t|] eqn:Hp.
  { intros [= <- <-]. by rewrite (Hpre _ _ _ Hp). }
  intros Hu. destruct l as [|d l]; [done|].
  cbn [app]. rewrite strip_infinity_digit by (by eapply parse_unsigned_start).
  by apply (parse_unsigned_app _ (d :: l)).
Qed.

Lemma span_digits_all ds rest : Forall (fun c => is_digit c) ds -> stops rest -> span_digits (ds ++ rest) = (ds, rest).
Proof.
  intros Hd Hs. apply (span_digits_app _ _ [] _ Hs).
  induction Hd as [|c ds Hc _ IH]; [done|]. simpl. rewrite (Is_true_true_1 _ Hc), IH. done.
Qed.

Lemma parse_unsigned_dec neg n :
  0 <= n -> parse_unsigned neg (dec_chars n) = Some (PInt (if neg then - n else n), []).
Proof.
  intros Hn. destruct (dec_chars_spec n Hn) as (Hall & Hval & Hne & Hpos & Hzero).
  destruct (decide (n = 0)) as [Hn0|Hn0]; [rewrite (Hzero Hn0), Hn0; by destruct neg|].
  destruct (Hpos ltac:(lia)) as (d & ds & Hds & Hd). rewrite Hds in *. unfold parse_unsigned.
  rewrite eqb_code by (rewrite char_code_digit by lia; change (char_code "0") with 48; lia).
  pose proof (span_digits_all _ [] Hall I) as Hspan. rewrite app_nil_r in Hspan.
  rewrite Hspan. simpl parse_frac. simpl parse_exp. cbv beta iota. by rewrite Hval.
Qed.

Lemma parse_number_int z : parse_number (int_chars z) = Some (PInt z, []).
Proof.
  unfold int_chars. destruct (Z.ltb_spec z 0) as [Hz|Hz].
  - unfold parse_number. rewrite Ascii.eqb_refl.
    pose proof (parse_unsigned_dec true (- z) ltac:(lia)) as Hu.
    destruct (dec_chars (- z)) as [|c l] eqn:Hl; [done|].
    rewrite strip_infinity_digit by (by eapply parse_unsigned_start).
    by rewrite Hu, Z.opp_involutive.
  - pose proof (parse_unsigned_dec false z ltac:(lia)) as Hu.
    destruct (dec_chars z) as [|c l] eqn:Hl; [done|]. unfold parse_number.
    rewrite eqb_code; [done|]. apply parse_unsigned_start, digit_code in Hu.
    change (char_code "-") with 45. lia.
Qed.

Lemma parse_number_value fuel l v rest :
  stops rest -> parse_number l = Some (v, []) -> parse_value (S fuel) (l ++ rest) = Some (v, rest).
Proof.
  intros Hs Hl. destruct l as [|c l]; [done|].
  pose proof (parse_number_start _ _ _ Hl). cbn [app]. rewrite parse_value_number by done.
  apply (parse_number_app _ _ _ _ Hs Hl).
Qed.

(** *** Consumption: a successful parse leaves strictly less text *)

Lemma parse_string_shorter l hi s r : parse_string hi l = Some (s, r) -> (length r < length l)%nat.
Proof.
  remember (length l) as n eqn:Hn. assert (length l <= n)%nat as Hle by lia. clear Hn.
  revert l hi s r Hle. induction n as [|n IH]; intros [|c l] hi s r Hle H; simpl in *; try done; try lia.
  repeat (case_match; simplify_eq/=; try lia);
    repeat match goal with
    | H : _ ≫= _ = Some _ |- _ => apply bind_Some in H as (? & ? & ?); simplify_eq/=
    | H : Some _ = Some _ |- _ => simplify_eq
    | p : text * text |- _ => destruct p
    | _ => case_match; simplify_eq/=
    end;
    match goal with H : parse_string _ _ = Some _ |- _ => apply IH in H; simpl in *; lia end.
Qed.

Lemma span_digits_split l ds r : span_digits l = (ds, r) -> l = ds ++ r.
Proof.
  revert ds r; induction l as [|c l IH]; intros ds r; simpl; [by intros [= <- <-]|].
  destruct (is_digit c); [|by intros [= <- <-]].
  destruct (span_digits l) as [ds' r']. intros [= <- <-]. simpl. f_equal. by apply IH.
Qed.

Ltac span_lengths :=
  repeat match goal with
  | H : span_digits _ = _ |- _ => apply span_digits_split in H; subst; simpl in *
  end; rewrite ?length_app in *; simpl in *; try lia.

Lemma parse_frac_shorter l fr r : parse_frac l = (fr, r) -> (length r <= length l)%nat.
Proof. unfold parse_frac. intros H. repeat case_match; simplify_eq/=; span_lengths. Qed.

Lemma parse_exp_shorter l ex r : parse_exp l = (ex, r) -> (length r <= length l)%nat.
Proof. unfold parse_exp. intros H. repeat (case_match; simplify_eq/=); span_lengths. Qed.

Lemma parse_unsigned_shorter neg l v r : parse_unsigned neg l = Some (v, r) -> (length r < length l)%nat.
Proof.
  unfold parse_unsigned. intros H. destruct l as [|c l]; [done|].
  destruct (if Ascii.eqb c "0" then _ else _) as [ds l1] eqn:Hd.
  destruct ds as [|d ds]; [done|].
  assert (length l1 < S (length l))%nat.
  { destruct (Ascii.eqb c "0"); [simplify_eq; lia|]. apply span_digits_split in Hd.
    apply (f_equal length) in Hd. rewrite length_app in Hd. simpl in *. lia. }
  destruct (parse_frac l1) as [fr l2] eqn:Hf. destruct (parse_exp l2) as [ex l3] eqn:He.
  apply parse_frac_shorter in Hf. apply parse_exp_shorter in He.
  repeat case_match; simplify_eq/=; lia.
Qed.

Lemma strip_prefix_split p l r : strip_prefix p l = Some r -> l = p ++ r.
Proof.
  revert l; induction p as [|x p IH]; intros [|y l]; simpl; try (by intros [= ->]).
  destruct (Ascii.eqb_spec x y) as [->|]; [|done]. intros H%IH. by subst.
Qed.

Lemma parse_number_shorter l v r : parse_number l = Some (v, r) -> (length r < length l)%nat.
Proof.
  unfold parse_number. destruct l as [|c l]; [done|].
  destruct (Ascii.eqb c "-"); [|apply parse_unsigned_shorter].
  destruct (strip_prefix (chars "Infinity") l) as [t|] eqn:Hp.
  - apply strip_prefix_split in Hp. intros [= _ <-]. rewrite Hp. cbn [length]. rewrite length_app. lia.
  - intros H%parse_unsigned_shorter. simpl. lia.
Qed.

Lemma parse_literal_shorter l v r : parse_literal literals l = Some (v, r) -> (length r < length l)%nat.
Proof.
  cbn [parse_literal literals]. intros H. repeat case_match; simplify_eq;
    match goal with H : strip_prefix _ _ = Some _ |- _ => apply strip_prefix_split in H; subst end;
    rewrite length_app; simpl; lia.
Qed.

Lemma skip_ws_shorter l : (length (skip_ws l) <= length l)%nat.
Proof. induction l as [|c l IH]; simpl; [lia|]. case_match; simpl; lia. Qed.

(** Fuel equal to the consumed length is enough, whatever fuel found the parse. *)
Definition enough_fuel {A} (p : nat -> text -> option (A * text)) (f : nat) : Prop :=
  forall l v r, p f l = Some (v, r) ->
    (length r < length l)%nat /\
    forall n, (length l - length r <= n)%nat -> p n l = Some (v, r).

Ltac open_parse H :=
  repeat match type of H with
  | _ ≫= _ = Some _ =>
      let p := fresh "p" in let E := fresh "E" in
      apply bind_Some in H as (p & E & H); destruct p
  | Some _ = Some _ => simplify_eq
  | context [match ?x with _ => _ end] => destruct x eqn:?; try done
  end.

Lemma parse_value_fuel f :
  enough_fuel parse_members f -> enough_fuel parse_items f -> enough_fuel parse_value (S f).
Proof.
  intros IHm IHi l v r H. cbn [parse_value] in H. destruct l as [|c l]; [done|].
  destruct (char_code c =? 34) eqn:E34.
  { open_parse H. apply parse_string_shorter in E as Hlt. simpl. split; [lia|].
    intros [|n] Hn; [lia|]. cbn. by rewrite E34, E. }
  destruct (char_code c =? 123) eqn:E123.
  { destruct (skip_ws l) as [|c2 r2] eqn:Hws; [done|].
    pose proof (skip_ws_shorter l) as Hsl. rewrite Hws in Hsl. simpl in Hsl.
    destruct (char_code c2 =? 125) eqn:E125.
    - simplify_eq. simpl. split; [lia|]. intros [|n] Hn; [lia|]. cbn. by rewrite E34, E123, Hws, E125.
    - open_parse H. destruct (IHm _ _ _ E) as [Hlt Hm]. simpl in *. split; [lia|].
      intros [|n] Hn; [lia|]. cbn. rewrite E34, E123, Hws, E125. by rewrite Hm by lia. }
  destruct (char_code c =? 91) eqn:E91.
  { destruct (skip_ws l) as [|c2 r2] eqn:Hws; [done|].
    pose proof (skip_ws_shorter l) as Hsl. rewrite Hws in Hsl. simpl in Hsl.
    destruct (char_code c2 =? 93) eqn:E93.
    - simplify_eq. simpl. split; [lia|]. intros [|n] Hn; [lia|]. cbn. by rewrite E34, E123, E91, Hws, E93.
    - open_parse H. destruct (IHi _ _ _ E) as [Hlt Hi]. simpl in *. split; [lia|].
      intros [|n] Hn; [lia|]. cbn. rewrite E34, E123, E91, Hws, E93. by rewrite Hi by lia. }
  assert (length r < length (c :: l))%nat.
  { destruct (parse_literal literals (c :: l)) as [[v' r']|] eqn:El; simplify_eq.
    - by eapply parse_literal_shorter.
    - by eapply parse_number_shorter. }
  split; [done|]. intros [|n] Hn; [simpl in *; lia|]. cbn [parse_value]. by rewrite E34, E123, E91.
Qed.

Ltac skipped l E := let H := fresh in pose proof (skip_ws_shorter l) as H; rewrite E in H; simpl in H.

Lemma parse_items_fuel f :
  enough_fuel parse_value f -> enough_fuel parse_items f -> enough_fuel parse_items (S f).
Proof.
  intros IHv IHi l v r H. cbn [parse_items] in H.
  apply bind_Some in H as ([v1 l1] & E1 & H). destruct (IHv _ _ _ E1) as [Hlt1 Hv].
  destruct (skip_ws l1) as [|d l2] eqn:Hws; [done|]. skipped l1 Hws.
  destruct (char_code d =? 44) eqn:E44.
  - apply bind_Some in H as ([vs r'] & E2 & H). simplify_eq.
    destruct (IHi _ _ _ E2) as [Hlt2 Hi]. pose proof (skip_ws_shorter l2). split; [lia|].
    intros [|n] Hn; [lia|]. cbn [parse_items]. rewrite Hv by lia. cbn [mbind option_bind].
    rewrite Hws, E44, Hi by lia. done.
  - destruct (char_code d =? 93) eqn:E93; [|done]. simplify_eq. split; [lia|].
    intros [|n] Hn; [lia|]. cbn [parse_items]. rewrite Hv by lia. cbn [mbind option_bind].
    by rewrite Hws, E44, E93.
Qed.

Lemma parse_members_fuel f :
  enough_fuel parse_value f -> enough_fuel parse_members f -> enough_fuel parse_members (S f).
Proof.
  intros IHv IHm l v r H. cbn [parse_members] in H. destruct l as [|q l0]; [done|].
  destruct (char_code q =? 34) eqn:E34; [|done].
  apply bind_Some in H as ([k l1] & Ek & H). apply parse_string_shorter in Ek as Hltk.
  destruct (skip_ws l1) as [|c l2] eqn:Hws1; [done|]. skipped l1 Hws1.
  destruct (char_code c =? 58) eqn:E58; [|done].
  apply bind_Some in H as ([v1 l3] & E1 & H). destruct (IHv _ _ _ E1) as [Hlt1 Hv].
  pose proof (skip_ws_shorter l2).
  destruct (skip_ws l3) as [|d l4] eqn:Hws; [done|]. skipped l3 Hws.
  destruct (char_code d =? 44) eqn:E44.
  - apply bind_Some in H as ([vs r'] & E2 & H). simplify_eq.
    destruct (IHm _ _ _ E2) as [Hlt2 Hi]. pose proof (skip_ws_shorter l4). simpl. split; [lia|].
    intros [|n] Hn; [lia|]. cbn [parse_members]. rewrite E34, Ek. cbn [mbind option_bind].
    rewrite Hws1, E58, Hv by lia. cbn [mbind option_bind]. rewrite Hws, E44, Hi by lia. done.
  - destruct (char_code d =? 125) eqn:E93; [|done]. simplify_eq. simpl. split; [lia|].
    intros [|n] Hn; [lia|]. cbn [parse_members]. rewrite E34, Ek. cbn [mbind option_bind].
    rewrite Hws1, E58, Hv by lia. cbn [mbind option_bind]. by rewrite Hws, E44, E93.
Qed.

Lemma parse_fuel f : enough_fuel parse_value f /\ enough_fuel parse_members f /\ enough_fuel parse_items f.
Proof.
  induction f as [|f (IHv & IHm & IHi)]; [split_and!; intros l v r; done|].
  auto using parse_value_fuel, parse_members_fuel, parse_items_fuel.
Qed.

(** [json_loads] finds every value some fuel finds. *)
Lemma json_loads_fuel f l v r :
  parse_value f (skip_ws l) = Some (v, r) -> skip_ws r = [] -> json_loads l = Ok v.
Proof.
  intros H Hr. destruct (parse_fuel f) as (Hf & _). destruct (Hf _ _ _ H) as [_ Hn].
  unfold json_loads. rewrite Hn by (pose proof (skip_ws_shorter l); lia). by rewrite Hr.
Qed.

(** *** Printed values parse back *)

Definition value_start (c : ascii) : bool :=
  negb (is_ws c) && negb (char_code c =? 93) && negb (char_code c =? 125).

Lemma number_value_start c : number_start c -> value_start c.
Proof.
  intros Hc%number_start_code. apply Is_true_true. unfold value_start, is_ws. lia.
Qed.

Lemma parse_number_head l vr :
  parse_number l = Some vr -> exists c t, l = c :: t /\ value_start c.
Proof.
  destruct l as [|c t]; [done|]. intros H. exists c, t.
  eauto using number_value_start, parse_number_start.
Qed.

Lemma float_text_number f :
  float_readable f -> f <> S754_nan -> f <> S754_infinity false ->
  parse_number (float_text f) = Some (PFloat f, []).
Proof.
  intros Hf Hn Hi. destruct f as [s|s| |s m e]; try done.
  - by apply bool_decide_unpack in Hf.
  - by destruct s.
  - by apply bool_decide_unpack in Hf.
Qed.

Lemma json_text_head v : json_ok v -> exists c t, json_text v = c :: t /\ value_start c.
Proof.
  destruct v as [|[]|z|f|s|l|d]; intros Hok; try (by eexists _, _).
  - eapply parse_number_head, parse_number_int.
  - destruct (decide (f = S754_nan)) as [->|]; [by eexists _, _|].
    destruct (decide (f = S754_infinity false)) as [->|]; [by eexists _, _|].
    eapply parse_number_head, float_text_number; done.
Qed.

Lemma value_start_skip c t : value_start c -> skip_ws (c :: t) = c :: t.
Proof. unfold value_start. simpl. by destruct (is_ws c). Qed.

(** [t] is a text from which [v] is read, with fuel for its length. *)
Definition parses (v : pyval) (t : text) : Prop :=
  forall rest n, stops rest -> (length t <= n)%nat -> parse_value n (t ++ rest) = Some (v, rest).

Lemma parses_number l v : parse_number l = Some (v, []) -> parses v l.
Proof.
  intros H rest [|n] Hs Hn; [|by apply parse_number_value].
  destruct l; [done | simpl in Hn; lia].
Qed.

Lemma parses_literal p v : (p, v) ∈ literals -> parses v p.
Proof.
  intros Hp rest n _ Hn. unfold literals in Hp.
  rewrite !elem_of_cons in Hp.
  destruct n as [|n]; [|by destruct Hp as [[= -> ->]|[[= -> ->]|[[= -> ->]|[[= -> ->]|[[= -> ->]|[]%not_elem_of_nil]]]]]].
  by destruct Hp as [[= -> ->]|[[= -> ->]|[[= -> ->]|[[= -> ->]|[[= -> ->]|[]%not_elem_of_nil]]]]]; simpl in Hn; lia.
Qed.

Lemma parses_string s : parses (PStr s) (str_text s).
Proof.
  intros rest [|n] _ Hn; [unfold str_text in Hn; rewrite length_app in Hn; simpl in Hn; lia|].
  unfold str_text. rewrite <- !app_assoc. cbn [parse_value app].
  change (char_code quote_char =? 34) with true. cbv iota.
  unfold chars. rewrite parse_string_text. cbn. by rewrite string_of_list_ascii_of_string.
Qed.

Lemma parse_items_text l rest n :
  l <> [] -> Forall (fun v => json_ok v /\ parses v (json_text v)) l ->
  (length (sep_by "," (json_text <$> l)) < n)%nat ->
  parse_items n (sep_by "," (json_text <$> l) ++ "]"%char :: rest) = Some (l, rest).
Proof.
  intros Hne Hl. revert n Hne. induction Hl as [|v l [Hok Hv] Hl IH]; intros n Hne Hn; [done|].
  destruct n as [|n]; [lia|]. rewrite fmap_cons in *. cbn [sep_by] in *.
  destruct l as [|v2 l].
  - simpl in Hn. rewrite app_nil_r in *. cbn [parse_items]. rewrite Hv; [done|done|lia].
  - rewrite length_app in Hn. cbn [parse_items]. rewrite <- app_assoc.
    rewrite Hv; [|done|lia]. rewrite fmap_cons in *. cbn [app]. cbn [mbind option_bind skip_ws].
    change (is_ws ",") with false. change (char_code "," =? 44) with true. cbv iota.
    destruct (json_text_head v2) as (c & t & Hct & Hc); [by inversion Hl as [|?? []]|].
    assert (skip_ws (sep_by "," (json_text v2 :: (json_text <$> l)) ++ "]"%char :: rest)
      = sep_by "," (json_text v2 :: (json_text <$> l)) ++ "]"%char :: rest) as ->.
    { cbn [sep_by]. rewrite Hct. cbn [app]. by rewrite value_start_skip. }
    rewrite IH; [done|done|]. cbn [length] in Hn. lia.
Qed.

Definition member_text (kv : string * pyval) : text := str_text kv.1 ++ [":"%char] ++ json_text kv.2.

Lemma parse_members_text d rest n :
  d <> [] -> Forall (fun kv => json_ok kv.2 /\ parses kv.2 (json_text kv.2)) d ->
  (length (sep_by "," (member_text <$> d)) < n)%nat ->
  parse_members n (sep_by "," (member_text <$> d) ++ "}"%char :: rest) = Some (d, rest).
Proof.
  intros Hne Hd. revert n Hne. induction Hd as [|[k v] d [Hok Hv] Hd IH]; intros n Hne Hn; [done|].
  destruct n as [|n]; [lia|]. rewrite fmap_cons in *. cbn [sep_by] in *.
  rewrite length_app in Hn. unfold member_text in Hn at 1. rewrite !length_app in Hn. cbn [length fst snd] in Hn. simpl in Hok, Hv.
  rewrite <- app_assoc. unfold member_text at 1, str_text. cbn [fst snd]. rewrite <- !app_assoc.
  cbn [parse_members app]. change (char_code quote_char =? 34) with true. cbv iota.
  rewrite parse_string_text. cbn [mbind option_bind skip_ws].
  change (is_ws ":") with false. change (char_code ":" =? 58) with true. cbv iota.
  destruct (json_text_head v Hok) as (c & t & Hct & Hc).
  assert (forall u, skip_ws (json_text v ++ u) = json_text v ++ u) as Hskip.
  { intros u. rewrite Hct. by apply (value_start_skip c (t ++ u)). }
  rewrite Hskip. unfold chars. rewrite string_of_list_ascii_of_string. destruct d as [|kv2 d].
  - cbn [app fmap list_fmap]. rewrite Hv; [done|done|lia].
  - rewrite fmap_cons in *. rewrite Hv; [|done|lia]. cbn [app mbind option_bind skip_ws].
    change (is_ws ",") with false. change (char_code "," =? 44) with true. cbv iota.
    assert (forall u, skip_ws (sep_by "," (member_text kv2 :: (member_text <$> d)) ++ u)
      = sep_by "," (member_text kv2 :: (member_text <$> d)) ++ u) as -> by done.
    rewrite IH; [done|done|]. cbn [length] in Hn. lia.
Qed.

Lemma forallb_Forall {A} (p : A -> bool) l : forallb p l <-> Forall (fun x => p x) l.
Proof. induction l; simpl; rewrite ?Forall_cons, ?andb_True; naive_solver. Qed.

Lemma json_text_dict d :
  json_text (PDict d) = ["{"%char] ++ sep_by "," (member_text <$> d) ++ ["}"%char].
Proof. done. Qed.

Lemma parses_list l :
  Forall (fun v => json_ok v /\ parses v (json_text v)) l -> parses (PList l) (json_text (PList l)).
Proof.
  intros Hl rest [|n] Hs Hn; [simpl in Hn; lia|]. destruct l as [|v l]; [done|].
  cbn [json_text] in *. rewrite !length_app in Hn. cbn [length] in Hn. rewrite <- !app_assoc.
  assert (forall r, exists c t, sep_by "," (json_text <$> v :: l) ++ r = c :: t /\ value_start c) as Hhd.
  { intros r. apply Forall_cons in Hl as [[Hv _] _]. destruct (json_text_head v Hv) as (c & t & Hct & Hc).
    rewrite fmap_cons. cbn [sep_by]. rewrite Hct. by eexists _, _. }
  pose proof (parse_items_text (v :: l) rest n ltac:(done) Hl ltac:(lia)) as Hi.
  cbn [parse_value app]. destruct (Hhd ("]"%char :: rest)) as (c & t & Hct & Hc).
  rewrite Hct in *. rewrite value_start_skip by done.
  apply Is_true_true, andb_true_iff in Hc as [[_ Hc]%andb_true_iff _].
  apply negb_true_iff in Hc. rewrite Hc. change (char_code "[" =? 34) with false.
  change (char_code "[" =? 123) with false. change (char_code "[" =? 91) with true. cbv iota.
  by rewrite Hi.
Qed.

Lemma parses_dict d :
  NoDup (dkeys d) -> Forall (fun kv => json_ok kv.2 /\ parses kv.2 (json_text kv.2)) d ->
  parses (PDict d) (json_text (PDict d)).
Proof.
  intros Hnd Hd rest [|n] Hs Hn; [simpl in Hn; lia|]. destruct d as [|kv d]; [done|].
  rewrite json_text_dict in *. rewrite !length_app in Hn. cbn [length] in Hn.
  pose proof (parse_members_text (kv :: d) rest n ltac:(done) Hd ltac:(lia)) as Hm.
  rewrite <- !app_assoc. cbn [parse_value app].
  change (char_code "{" =? 34) with false. change (char_code "{" =? 123) with true. cbv iota.
  assert (forall r, skip_ws (sep_by "," (member_text <$> kv :: d) ++ r)
    = quote_char :: tail (sep_by "," (member_text <$> kv :: d) ++ r)) as -> by done.
  change (char_code quote_char =? 125) with false. cbv iota.
  change (quote_char :: tail (sep_by "," (member_text <$> kv :: d) ++ "}"%char :: rest))
    with (sep_by "," (member_text <$> kv :: d) ++ "}"%char :: rest).
  rewrite Hm. cbn [mbind option_bind]. by rewrite dupdate_fresh.
Qed.

Lemma json_text_parses v : json_ok v -> parses v (json_text v).
Proof.
  induction v as [|b|z|f|s|l IH|d IH] using pyval_nested_ind; intros Hok.
  - apply parses_literal. set_solver.
  - apply parses_literal. destruct b; set_solver.
  - apply parses_number, parse_number_int.
  - destruct (decide (f = S754_nan)) as [->|]; [apply parses_literal; set_solver|].
    destruct (decide (f = S754_infinity false)) as [->|]; [apply parses_literal; set_solver|].
    by apply parses_number, float_text_number.
  - apply parses_string.
  - simpl in Hok. apply forallb_Forall in Hok. apply parses_list.
    apply Forall_forall. intros v Hv. rewrite !Forall_forall in *. auto.
  - simpl in Hok. apply andb_True in Hok as [Hnd%bool_decide_unpack Hok]. apply forallb_Forall in Hok.
    apply parses_dict; [done|]. apply Forall_forall. intros kv Hkv. rewrite !Forall_forall in *. auto.
Qed.

(** [json.loads(json.dumps(v))] is [v], also with white space after the text. *)
Lemma json_loads_text v tail :
  json_ok v -> stops tail -> skip_ws tail = [] -> json_loads (json_text v ++ tail) = Ok v.
Proof.
  intros Hok Hs Ht. destruct (json_text_head v Hok) as (c & t & Hct & Hc).
  apply (json_loads_fuel (length (json_text v)) _ v tail); [|done].
  rewrite Hct at 2. cbn [app]. rewrite value_start_skip by done.
  change (c :: t ++ tail) with ((c :: t) ++ tail). rewrite <- Hct. by apply json_text_parses.
Qed.

(** ** Printed text holds no control character *)

(** Printable characters, and the ASCII ones among them, of which numbers and
    literals are made. *)
Definition printable (c : ascii) : Prop := 32 <= char_code c.
Definition plain (c : ascii) : Prop := 32 <= char_code c < 128.

Lemma plain_printable l : Forall plain l -> Forall printable l.
Proof. intros H. eapply Forall_impl; [exact H|]. unfold plain, printable. simpl. lia. Qed.

Lemma plain_digit d : 0 <= d < 10 -> plain (digit_char d).
Proof. intros Hd. unfold plain. rewrite char_code_digit; lia. Qed.

Lemma dec_digits_plain fuel n acc : Forall plain acc -> Forall plain (dec_digits fuel n acc).
Proof.
  revert n acc; induction fuel as [|fuel IH]; intros n acc Hacc; simpl; [done|].
  assert (Forall plain (digit_char (n mod 10) :: acc)).
  { constructor; [apply plain_digit, Z.mod_pos_bound; lia | done]. }
  case_match; auto.
Qed.

Lemma dec_chars_plain n : Forall plain (dec_chars n).
Proof. by apply dec_digits_plain. Qed.

Lemma zeros_plain n : Forall plain (zeros n).
Proof. apply Forall_replicate. done. Qed.

Create HintDb plain.
#[export] Hint Resolve dec_chars_plain zeros_plain Forall_take Forall_drop : plain.
#[export] Hint Extern 1 (Forall plain (_ :: _)) => constructor; [done|] : plain.
#[export] Hint Extern 1 (Forall plain []) => constructor : plain.
#[export] Hint Extern 1 (Forall plain (_ ++ _)) => apply Forall_app; split : plain.

Lemma float_chars_plain f : Forall plain (float_chars f).
Proof.
  unfold float_chars. destruct f as [s|s| |s m e]; try (by repeat constructor).
  - destruct s; repeat constructor; done.
  - destruct s; repeat constructor; done.
  - destruct (dec_of_float m e) as [[d n] p].
    apply Forall_app. split; [by destruct s; repeat constructor|].
    assert (forall k, Forall plain (drop k (dec_chars d))) as Hdrop by eauto with plain.
    specialize (Hdrop 1%nat).
    repeat case_match; eauto 12 with plain.
Qed.

Lemma int_chars_plain z : Forall plain (int_chars z).
Proof. unfold int_chars. case_match; eauto with plain. Qed.

Lemma float_text_plain f : Forall plain (float_text f).
Proof.
  unfold float_text. repeat case_match; try apply float_chars_plain; by repeat constructor.
Qed.

Lemma esc_char_printable c : Forall printable (esc_char c).
Proof. destruct c as [[] [] [] [] [] [] [] []]; repeat constructor; done. Qed.

Lemma str_text_printable s : Forall printable (str_text s).
Proof.
  unfold str_text. repeat (apply Forall_app; split); [by repeat constructor| |by repeat constructor].
  induction (chars s) as [|c l IH]; simpl; [constructor|].
  apply Forall_app; split; [apply esc_char_printable | done].
Qed.

Lemma sep_by_printable ls : Forall (Forall printable) ls -> Forall printable (sep_by "," ls).
Proof.
  induction 1 as [|x l Hx Hl IH]; cbn [sep_by]; [constructor|].
  apply Forall_app; split; [done|]. destruct l; [constructor|]. by constructor.
Qed.

Lemma json_text_printable v : Forall printable (json_text v).
Proof.
  induction v as [|b|z|f|s|l IH|d IH] using pyval_nested_ind.
  - by repeat constructor.
  - destruct b; by repeat constructor.
  - apply plain_printable, int_chars_plain.
  - apply plain_printable, float_text_plain.
  - apply str_text_printable.
  - cbn [json_text]. repeat (apply Forall_app; split); try (by repeat constructor).
    by apply sep_by_printable, Forall_fmap.
  - rewrite json_text_dict. repeat (apply Forall_app; split); try (by repeat constructor).
    apply sep_by_printable, Forall_fmap. eapply Forall_impl; [exact IH|].
    intros [k v] Hv. unfold member_text. cbn [fst snd] in *.
    apply Forall_app; split; [apply str_text_printable|]. by constructor.
Qed.
