(* ===== verification/Control.v ===== *)
(** The JSON Lines control protocol ([common/protocol/control.py]): message
    builders, the line codec, and the framing of a connection into lines as
    [asyncio.StreamReader.readline] does it. *)

From Stdlib Require Import ZArith SpecFloat Lia Ascii String.
From stdpp Require Import base list sets strings.
From S2P Require Import Prelude PyFloat PyValue Json.

Open Scope Z_scope.

Definition ERROR_CODES : list string :=
  ["invalid_json"; "unsupported_version"; "invalid_command"; "invalid_field"; "out_of_range";
   "busy"; "hardware_fault"; "timeout"; "internal_error"]%string.

(** ** Lines *)

(** The result is the UTF-8 code units; a string with a lone surrogate cannot
    be encoded. *)
Definition encode_json_line (message : pydict) : res text :=
  let line := json_text (PDict message) ++ [nl_char] in
  if utf8_ok line then Ok line
  else raise UnicodeEncodeError "'utf-8' codec can't encode characters: surrogates not allowed".

(** Only [JSONDecodeError] is turned into [JsonLineError]; an undecodable
    [bytes] line raises before the [try]. *)
Definition decode_json_line (line : text) : res pydict :=
  if utf8_ok line then
    match json_loads line with
    | Raise e =>
        if exn_isa (exn_cls e) JSONDecodeError then raise JsonLineError "invalid JSON line" else Raise e
    | Ok (PDict d) => Ok d
    | Ok _ => raise JsonLineError "JSON line must contain an object"
    end
  else raise UnicodeDecodeError "'utf-8' codec can't decode bytes".

(** ** Messages *)

(** A keyword that repeats a positional parameter is a [TypeError]. *)
Definition repeated_keyword {A} (f k : string) : res A :=
  raise TypeError (f +:+ "() got multiple values for argument '" +:+ k +:+ "'").

Definition build_request (request_id : Z) (cmd : string) (fields : pydict) : res pydict :=
  if dhas "request_id"%string fields then repeated_keyword "build_request" "request_id"
  else if dhas "cmd"%string fields then repeated_keyword "build_request" "cmd"
  else Ok (dupdate [("request_id", PInt request_id); ("cmd", PStr cmd)]%string fields).

(** [request_id] is [None] or whatever int-like value the request carried. *)
Definition build_response (request_id : option pyval) (ok : bool) (fields : pydict) : pydict :=
  let message := dupdate [("ok"%string, PBool ok)] fields in
  match request_id with
  | Some i => dupdate [("request_id"%string, i)] message
  | None => message
  end.

Definition build_error (request_id : option pyval) (code message : string) (fields : pydict) : pydict :=
  let code := if decide (code ∈ ERROR_CODES) then code else "internal_error"%string in
  build_response request_id false
    [("error"%string, PDict (dupdate [("code", PStr code); ("message", PStr message)]%string fields))].

(** ** Reading a connection line by line

    [buf] is everything the peer will send before it closes.  [StreamReader]
    refuses a line longer than its 64 KiB limit with [ValueError]. *)

Definition stream_limit : nat := Z.to_nat 65536.

Fixpoint split_nl (buf : text) : option (text * text) :=
  match buf with
  | [] => None
  | c :: l =>
      if Ascii.eqb c nl_char then Some ([], l)
      else '(a, b) ← split_nl l; Some (c :: a, b)
  end.

Definition readline (buf : text) : res (text * text) :=
  match split_nl buf with
  | Some (line, rest) =>
      if (stream_limit <? length line)%nat
      then raise ValueError "Separator is found, but chunk is longer than limit"
      else Ok (line ++ [nl_char], rest)
  | None =>
      if (stream_limit <? length buf)%nat
      then raise ValueError "Separator is not found, and chunk exceed the limit"
      else Ok (buf, [])
  end.

(** [while not at_eof(): line = await readline(); if not line: break; decode]:
    the messages of a connection.  Every line read is non-empty, so fuel
    [length buf] ends at the end of the text. *)
Fixpoint read_messages (fuel : nat) (buf : text) : list (res pydict) :=
  match fuel, buf with
  | O, _ | _, [] => []
  | S f, _ =>
      match readline buf with
      | Raise e => [Raise e]
      | Ok ([], _) => []
      | Ok (line, rest) => decode_json_line line :: read_messages f rest
      end
  end.

(** ** UTF-8 *)

(** One encoded code point: it decides nothing about what follows, and is one
    ASCII character or only bytes above 127. *)
Definition utf8_char (u : text) : Prop :=
  u <> [] /\ (forall r, utf8_ok (u ++ r) = utf8_ok r) /\
  ((exists c, u = [c]) \/ Forall (fun c => 128 <= char_code c) u).

Definition utf8_cut (l : text) : Prop := exists u r, l = u ++ r /\ utf8_char u /\ utf8_ok r.

Lemma is_cont_code c : is_cont c -> 128 <= char_code c <= 191.
Proof. unfold is_cont. rewrite andb_True, !Is_true_true. lia. Qed.

Lemma in_code_cont lo hi c : 128 <= lo -> hi <= 191 -> in_code lo hi c -> is_cont c.
Proof. intros ? ?. unfold in_code, is_cont. rewrite !andb_True, !Is_true_true. lia. Qed.

Lemma utf8_cut_high u l :
  u <> [] -> Forall (fun c => 128 <= char_code c) u -> (forall r, utf8_ok (u ++ r) = utf8_ok r) ->
  utf8_ok l -> utf8_cut (u ++ l).
Proof. intros. exists u, l. unfold utf8_char. eauto 10. Qed.

Lemma utf8_cut3 c1 c2 c3 l b :
  128 <= char_code c1 -> Is_true (b && is_cont c3 && utf8_ok l) -> (b -> is_cont c2) ->
  (forall r, utf8_ok (c1 :: c2 :: c3 :: r) = b && is_cont c3 && utf8_ok r) ->
  utf8_cut (c1 :: c2 :: c3 :: l).
Proof.
  intros H1 Hb Hc Heq. rewrite !andb_True in Hb. destruct Hb as [[Hb1 Hb2] Hb3].
  apply (utf8_cut_high [c1; c2; c3]); try done.
  - apply Hc in Hb1 as ?%is_cont_code. apply is_cont_code in Hb2. repeat constructor; lia.
  - intros r. cbn [app]. by rewrite Heq, (Is_true_true_1 _ Hb1), (Is_true_true_1 _ Hb2).
Qed.

Lemma utf8_cut4 c1 c2 c3 c4 l b :
  128 <= char_code c1 -> Is_true (b && (is_cont c3 && is_cont c4 && utf8_ok l)) -> (b -> is_cont c2) ->
  (forall r, utf8_ok (c1 :: c2 :: c3 :: c4 :: r) = b && (is_cont c3 && is_cont c4 && utf8_ok r)) ->
  utf8_cut (c1 :: c2 :: c3 :: c4 :: l).
Proof.
  intros H1 Hb Hc Heq. rewrite !andb_True in Hb. destruct Hb as (Hb1 & [Hb2 Hb4] & Hb3).
  apply (utf8_cut_high [c1; c2; c3; c4]); try done.
  - apply Hc in Hb1 as ?%is_cont_code. apply is_cont_code in Hb2, Hb4. repeat constructor; lia.
  - intros r. cbn [app].
    by rewrite Heq, (Is_true_true_1 _ Hb1), (Is_true_true_1 _ Hb2), (Is_true_true_1 _ Hb4).
Qed.

Lemma utf8_uncons l : utf8_ok l -> l <> [] -> utf8_cut l.
Proof.
  intros Hl Hne. destruct l as [|c1 l]; [done|]. cbn [utf8_ok] in Hl.
  destruct (char_code c1 <? 128) eqn:E0.
  { exists [c1], l. split; [done|]. split; [|done]. split; [done|]. split; [|left; eauto].
    intros r. cbn [app utf8_ok]. by rewrite E0. }
  assert (128 <= char_code c1) as Hc1 by lia.
  destruct l as [|c2 l]; [done|].
  destruct ((194 <=? char_code c1) && (char_code c1 <=? 223)) eqn:E1.
  { apply andb_True in Hl as [Hc2 Hl]. apply (utf8_cut_high [c1; c2]); try done.
    - apply is_cont_code in Hc2. repeat constructor; lia.
    - intros r. simpl. by rewrite E0, E1, (Is_true_true_1 _ Hc2). }
  destruct l as [|c3 l]; [done|].
  destruct (char_code c1 =? 224) eqn:E2.
  { eapply utf8_cut3; [done|exact Hl|by apply in_code_cont|]. intros r. simpl. by rewrite E0, E1, E2. }
  destruct (char_code c1 =? 237) eqn:E3.
  { eapply utf8_cut3; [done|exact Hl|by apply in_code_cont|]. intros r. simpl. by rewrite E0, E1, E2, E3. }
  destruct ((225 <=? char_code c1) && (char_code c1 <=? 239)) eqn:E4.
  { eapply utf8_cut3; [done|exact Hl|done|]. intros r. simpl. by rewrite E0, E1, E2, E3, E4. }
  destruct l as [|c4 l]; [done|]. cbv zeta in Hl.
  destruct (char_code c1 =? 240) eqn:E5.
  { eapply utf8_cut4; [done|exact Hl|by apply in_code_cont|]. intros r. simpl. by rewrite E0, E1, E2, E3, E4, E5. }
  destruct (char_code c1 =? 244) eqn:E6.
  { eapply utf8_cut4; [done|exact Hl|by apply in_code_cont|]. intros r. simpl.
    by rewrite E0, E1, E2, E3, E4, E5, E6. }
  destruct ((241 <=? char_code c1) && (char_code c1 <=? 243)) eqn:E7; [|done].
  eapply utf8_cut4; [done|exact Hl|done|]. intros r. simpl. by rewrite E0, E1, E2, E3, E4, E5, E6, E7.
Qed.

(** Induction over the code points of a well-formed text. *)
Lemma utf8_ind (P : text -> Prop) :
  P [] -> (forall u r, utf8_char u -> utf8_ok r -> P r -> P (u ++ r)) -> forall l, utf8_ok l -> P l.
Proof.
  intros H0 H1 l. remember (length l) as n eqn:Hn. assert (length l <= n)%nat as Hle by lia. clear Hn.
  revert l Hle. induction n as [|n IH]; intros l Hle Hl.
  - destruct l; [done | simpl in Hle; lia].
  - destruct (decide (l = [])) as [->|Hne]; [done|].
    destruct (utf8_uncons l Hl Hne) as (u & r & -> & Hu & Hr). apply H1; [done|done|].
    apply IH; [|done]. destruct Hu as (Hu & _). rewrite length_app in Hle. destruct u; [done|]. simpl in Hle. lia.
Qed.

Lemma utf8_ok_app a b : utf8_ok a -> utf8_ok b -> utf8_ok (a ++ b).
Proof.
  intros Ha Hb. apply (utf8_ind (fun a => utf8_ok (a ++ b))); [done| |done].
  intros u r (_ & Hu & _) _ IH. by rewrite <- app_assoc, Hu.
Qed.

Lemma utf8_ok_ascii l : Forall (fun c => char_code c < 128) l -> utf8_ok l.
Proof. induction 1 as [|c l Hc _ IH]; [done|]. simpl. by replace (char_code c <? 128) with true by lia. Qed.

(** Escaping keeps a string well formed. *)
Lemma str_text_utf8 s : utf8_ok (chars s) -> utf8_ok (str_text s).
Proof.
  intros Hs. unfold str_text. repeat apply utf8_ok_app; try done.
  apply (utf8_ind (fun l => utf8_ok (concat (esc_char <$> l)))); [done| |done].
  intros u r (_ & Hu & Hshape) _ IH. rewrite fmap_app, concat_app. apply utf8_ok_app; [|done].
  destruct Hshape as [[c ->]|Hhigh].
  - specialize (Hu []). cbn [app utf8_ok] in Hu. cbn [fmap list_fmap concat]. rewrite app_nil_r.
    assert (char_code c < 128) as Hc by (destruct (Z.ltb_spec (char_code c) 128); done).
    apply utf8_ok_ascii. destruct c as [[] [] [] [] [] [] [] []]; try (by repeat constructor);
      vm_compute in Hc; lia.
  - assert (concat (esc_char <$> u) = u) as ->; [|by rewrite <- (app_nil_r u), Hu].
    clear Hu. induction Hhigh as [|c u Hc _ IHu]; [done|]. rewrite fmap_cons. cbn [concat].
    rewrite IHu. unfold esc_char. repeat (case_match; [lia|]). done.
Qed.

(** Every string in [v], keys included, is encodable. *)
Fixpoint encodable (v : pyval) : bool :=
  match v with
  | PStr s => utf8_ok (chars s)
  | PList l => forallb encodable l
  | PDict d => forallb (fun kv => utf8_ok (chars kv.1) && encodable kv.2) d
  | _ => true
  end.

Lemma plain_utf8 l : Forall plain l -> utf8_ok l.
Proof. intros H. apply utf8_ok_ascii. eapply Forall_impl; [exact H|]. unfold plain. simpl. lia. Qed.

Lemma sep_by_utf8 ls : Forall (fun l => utf8_ok l) ls -> utf8_ok (sep_by "," ls).
Proof.
  induction 1 as [|x l Hx Hl IH]; cbn [sep_by]; [done|].
  apply utf8_ok_app; [done|]. destruct l; [done|]. by apply (utf8_ok_app [","%char]).
Qed.

Lemma json_text_utf8 v : encodable v -> utf8_ok (json_text v).
Proof.
  induction v as [|b|z|f|s|l IH|d IH] using pyval_nested_ind; intros Hv.
  - done.
  - by destruct b.
  - apply plain_utf8, int_chars_plain.
  - apply plain_utf8, float_text_plain.
  - by apply str_text_utf8.
  - simpl in Hv. apply forallb_Forall in Hv. cbn [json_text].
    repeat apply utf8_ok_app; try done. apply sep_by_utf8, Forall_fmap, Forall_forall.
    rewrite !Forall_forall in *. auto.
  - simpl in Hv. apply forallb_Forall in Hv. rewrite json_text_dict.
    repeat apply utf8_ok_app; try done. apply sep_by_utf8, Forall_fmap, Forall_forall.
    rewrite !Forall_forall in *. intros [k v] Hkv. specialize (Hv _ Hkv).
    apply andb_True in Hv as [Hk Hv]. unfold member_text.
    apply utf8_ok_app; [by apply str_text_utf8|]. apply utf8_ok_app; [done|]. by apply (IH (k, v)).
Qed.

(** ** The line codec *)

(** A message that survives the wire. *)
Definition wire_ok (d : pydict) : bool := json_ok (PDict d) && encodable (PDict d).

Definition line_of (d : pydict) : text := json_text (PDict d) ++ [nl_char].

Lemma encode_json_line_ok d : encodable (PDict d) -> encode_json_line d = Ok (line_of d).
Proof.
  intros Hd. unfold encode_json_line, line_of. cbv zeta.
  by rewrite (Is_true_true_1 _ (utf8_ok_app _ [nl_char] (json_text_utf8 _ Hd) I)).
Qed.

Lemma encode_json_line_form d line : encode_json_line d = Ok line -> line = line_of d /\ utf8_ok line.
Proof.
  unfold encode_json_line. change (json_text (PDict d) ++ [nl_char]) with (line_of d). cbv zeta.
  destruct (utf8_ok (line_of d)) eqn:E; [|done]. intros [= <-]. rewrite E. done.
Qed.

Lemma decode_encode d line :
  encode_json_line d = Ok line -> json_ok (PDict d) -> decode_json_line line = Ok d.
Proof.
  intros [-> Hu]%encode_json_line_form Hd. unfold decode_json_line.
  rewrite (Is_true_true_1 _ Hu). unfold line_of. by rewrite json_loads_text.
Qed.

(** A line is at most one line: its only newline is the last character. *)
Lemma printable_no_nl l : Forall printable l -> nl_char ∉ l.
Proof. rewrite Forall_forall. intros H Hin. specialize (H _ Hin). unfold printable in H. by vm_compute in H. Qed.

Lemma split_nl_app a rest : nl_char ∉ a -> split_nl (a ++ nl_char :: rest) = Some (a, rest).
Proof.
  induction a as [|c a IH]; intros Ha; simpl; [done|].
  destruct (Ascii.eqb_spec c nl_char) as [->|]; [set_solver|]. rewrite IH by set_solver. done.
Qed.

Lemma readline_line_of d rest :
  (length (json_text (PDict d)) <= stream_limit)%nat ->
  readline (line_of d ++ rest) = Ok (line_of d, rest).
Proof.
  intros Hlen. unfold readline, line_of. rewrite <- app_assoc. cbn [app].
  rewrite split_nl_app by apply printable_no_nl, json_text_printable.
  destruct (Nat.ltb_spec stream_limit (length (json_text (PDict d)))); [lia|done].
Qed.

Lemma read_messages_nil f : read_messages f [] = [].
Proof. by destruct f. Qed.

(** C8: Control-channel framing.  Encode any sequence of messages (string-keyed
    dicts whose floats print faithfully and whose strings are encodable, each
    line within the reader's 64 KiB limit) and concatenate the lines: every
    message encodes, its line ends in a newline that is the only control
    character of the line, and reading the connection line by line decodes
    exactly that sequence of messages. *)
Theorem control_stream_roundtrip (ds : list pydict) :
  Forall (fun d => wire_ok d /\ (length (json_text (PDict d)) <= stream_limit)%nat) ds ->
  exists lines,
    res_map encode_json_line ds = Ok lines /\
    Forall (fun l => exists body, l = body ++ [nl_char] /\ Forall printable body) lines /\
    forall fuel, (length lines <= fuel)%nat -> read_messages fuel (concat lines) = Ok <$> ds.
Proof.
  intros Hds. exists (line_of <$> ds). split_and!.
  - apply res_map_ok. induction Hds as [|d ds [Hd _] _ IH]; simpl; constructor; [|done].
    apply andb_True in Hd as [_ Hd]. by apply encode_json_line_ok.
  - apply Forall_fmap, Forall_forall. intros d _. simpl. eexists. split; [done|]. apply json_text_printable.
  - induction Hds as [|d ds [Hd Hlen] _ IH]; intros fuel Hfuel; [apply read_messages_nil|].
    destruct fuel as [|fuel]; [simpl in Hfuel; lia|]. rewrite fmap_cons in *. cbn [concat length] in *.
    change (read_messages (S fuel) (line_of d ++ concat (line_of <$> ds)))
      with (match readline (line_of d ++ concat (line_of <$> ds)) with
            | Raise e => [Raise e]
            | Ok ([], _) => []
            | Ok (line, rest) => decode_json_line line :: read_messages fuel rest
            end).
    rewrite readline_line_of by done. rewrite fmap_cons. apply andb_True in Hd as [Hj He].
    pose proof (decode_encode d _ (encode_json_line_ok d He) Hj) as Hdec.
    change (line_of d) with ("{"%char :: tail (line_of d)) at 1. cbv iota beta.
    change ("{"%char :: tail (line_of d)) with (line_of d). rewrite Hdec. f_equal. apply IH. lia.
Qed.

Definition sample_message : pydict :=
  [("request_id", PInt 7); ("cmd", PStr "set_rx"); ("gain", PFloat (f_ratio (-3) 2));
   ("udp", PDict [("iq_port", PInt 9001); ("tags", PList [PNone; PBool true; PStr "a\b"])])]%string.

Lemma control_stream_roundtrip_witness :
  exists lines,
    res_map encode_json_line [sample_message; []] = Ok lines /\
    Forall (fun l => exists body, l = body ++ [nl_char] /\ Forall printable body) lines /\
    forall fuel, (length lines <= fuel)%nat ->
      read_messages fuel (concat lines) = Ok <$> [sample_message; []].
Proof.
  apply control_stream_roundtrip.
  unfold stream_limit. apply Forall_cons. split; [split|apply Forall_singleton; split].
  - vm_compute. exact I.
  - match goal with |- (?n <= _)%nat => let v := eval vm_compute in n in change n with v end. lia.
  - vm_compute. exact I.
  - match goal with |- (?n <= _)%nat => let v := eval vm_compute in n in change n with v end. lia.
Defined.

(** What decoding can do.  A decoded line is a JSON object; otherwise the
    line is not UTF-8 ([UnicodeDecodeError]) or is UTF-8 that is no JSON text
    or is JSON but no object ([JsonLineError]).  Every failure is a
    [ValueError], so no other exception leaves the decoder. *)
Lemma decode_json_line_outcomes (line : text) :
  match decode_json_line line with
  | Ok d => utf8_ok line /\ json_loads line = Ok (PDict d)
  | Raise e =>
      exn_isa (exn_cls e) ValueError /\
      (exn_cls e = UnicodeDecodeError <-> utf8_ok line = false) /\
      (exn_cls e = JsonLineError <->
        utf8_ok line /\ forall d, json_loads line <> Ok (PDict d))
  end.
Proof.
  unfold decode_json_line. destruct (utf8_ok line) eqn:Hu.
  - destruct (json_loads line) as [v|e] eqn:Hl.
    + destruct v; try (split_and!; [done|split; done|split; [intros _; split; [done|congruence]|done]]).
      done.
    + assert (exn_isa (exn_cls e) JSONDecodeError) as He.
      { revert Hl. unfold json_loads. repeat case_match; intros [= <-]; done. }
      rewrite (Is_true_true_1 _ He).
      split_and!; [done|split; done|split; [intros _; split; [done|congruence]|done]].
  - split_and!; [done|split; done|split; [done|by intros [? _]]].
Qed.

(** ** Responses *)

Lemma dget_build_response k rid ok fields :
  NoDup (dkeys fields) -> dhas "ok"%string fields = false -> dhas "request_id"%string fields = false ->
  dget k (build_response rid ok fields) =
    if decide (k = "request_id"%string) then rid
    else if decide (k = "ok"%string) then Some (PBool ok) else dget k fields.
Proof.
  intros Hnd Hok Hrid. unfold dhas in *.
  destruct (dget "ok"%string fields) eqn:Eok; [done|].
  destruct (dget "request_id"%string fields) eqn:Erid; [done|].
  assert (forall k, dget k (dupdate [("ok"%string, PBool ok)] fields) =
    if decide (k = "ok"%string) then Some (PBool ok) else dget k fields) as Hm.
  { intros k'. rewrite dget_dupdate by done. cbn [dget].
    destruct (decide (k' = "ok"%string)) as [->|]; [by rewrite Eok | by destruct (dget k' fields)]. }
  assert (NoDup (dkeys (dupdate [("ok"%string, PBool ok)] fields))) as Hndm.
  { apply dupdate_NoDup. apply NoDup_singleton. }
  unfold build_response. destruct rid as [i|].
  - rewrite dget_dupdate, Hm by done. cbn [dget].
    destruct (decide (k = "request_id"%string)) as [->|]; [by rewrite Erid|].
    by destruct (decide (k = "ok"%string)), (dget k fields).
  - rewrite Hm. destruct (decide (k = "request_id"%string)) as [->|]; [by rewrite Erid | done].
Qed.

Lemma build_error_eq rid code msg :
  build_error rid code msg [] =
    build_response rid false [("error"%string, PDict
      [("code", PStr (if decide (code ∈ ERROR_CODES) then code else "internal_error"));
       ("message", PStr msg)])]%string.
Proof. done. Qed.

(** An error reply carries [ok = false], echoes the request id exactly when
    there is one, and its code is one of the nine documented codes: the given
    one when it is documented, [internal_error] otherwise. *)
Lemma build_error_documented (rid : option pyval) (code msg : string) :
  dget "request_id"%string (build_error rid code msg []) = rid /\
  dget "ok"%string (build_error rid code msg []) = Some (PBool false) /\
  exists code',
    dget "error"%string (build_error rid code msg []) =
      Some (PDict [("code", PStr code'); ("message", PStr msg)]%string) /\
    code' ∈ ERROR_CODES /\
    (code ∈ ERROR_CODES -> code' = code) /\
    (code ∉ ERROR_CODES -> code' = "internal_error"%string).
Proof.
  rewrite build_error_eq. rewrite !dget_build_response by (first [done | apply NoDup_singleton]).
  cbn [dget]. split; [done|]. split; [done|]. eexists. split; [done|].
  destruct (decide (code ∈ ERROR_CODES)); split_and!; try done.
  unfold ERROR_CODES. set_solver.
Qed.
