(* ===== verification/Packets.v ===== *)
(** Binary UDP packet headers: src/common/protocol/packets.py.

    [struct.Struct] with a little-endian standard-size format is modelled for
    the format letters the file uses; the two header dataclasses are records
    with one field per attribute, in declaration order.  The class
    [WireHeader] is what the UDP receiver and the simulator rely on. *)

From Stdlib Require Import ZArith Strings.Byte Lia Ascii String.
From stdpp Require Import base list strings.
From S2P Require Import Prelude PyFloat PyValue.

Open Scope Z_scope.

(** ** Constants *)

Definition SDR_PROTOCOL_VERSION : Z := 1.
Definition SDR_IQ_MAGIC : Z := 0x51494453.
Definition SDR_PSD_MAGIC : Z := 0x53504453.
Definition SDR_FRAME_IQ : Z := 1.
Definition SDR_FRAME_PSD : Z := 2.
Definition SDR_SAMPLE_SC16_LE : Z := 1.
Definition SDR_PSD_I16_DBFS_Q8 : Z := 1.
Definition SDR_IQ_FLAG_ADC_OR : Z := Z.shiftl 1 0.
Definition SDR_IQ_FLAG_FIFO_OVERFLOW : Z := Z.shiftl 1 1.
Definition SDR_IQ_FLAG_DISCONTINUITY : Z := Z.shiftl 1 2.
Definition SDR_IQ_FLAG_CONFIG_CHANGED : Z := Z.shiftl 1 3.
Definition SDR_PSD_FLAG_DISCONTINUITY : Z := Z.shiftl 1 0.
Definition SDR_PSD_FLAG_CONFIG_CHANGED : Z := Z.shiftl 1 1.
Definition SDR_PSD_FLAG_OVERFLOW : Z := Z.shiftl 1 2.

(** ** [struct.Struct] *)

Inductive fmt := fmt_I | fmt_H | fmt_h | fmt_Q.

Definition fmt_of_char (c : ascii) : option fmt :=
  if Ascii.eqb c "I" then Some fmt_I
  else if Ascii.eqb c "H" then Some fmt_H
  else if Ascii.eqb c "h" then Some fmt_h
  else if Ascii.eqb c "Q" then Some fmt_Q
  else None.

(** The field codes of a format string; the byte-order mark is not a field. *)
Definition struct_fmt (s : string) : list fmt := omap fmt_of_char (list_ascii_of_string s).

Definition fmt_width (f : fmt) : nat :=
  match f with fmt_H | fmt_h => 2 | fmt_I => 4 | fmt_Q => 8 end.

Definition fmt_lo (f : fmt) : Z := match f with fmt_h => - 2 ^ 15 | _ => 0 end.
Definition fmt_hi (f : fmt) : Z :=
  match f with fmt_h => 2 ^ 15 | fmt_H => 2 ^ 16 | fmt_I => 2 ^ 32 | fmt_Q => 2 ^ 64 end.
Definition fmt_in_range (f : fmt) (z : Z) : bool := (fmt_lo f <=? z) && (z <? fmt_hi f).

Definition fmt_name (f : fmt) : string :=
  match f with fmt_h => "h" | fmt_H => "H" | fmt_I => "I" | fmt_Q => "Q" end.

Definition fmt_encode (f : fmt) (z : Z) : list byte :=
  le_bytes (fmt_width f) (of_signed (fmt_width f) z).

Definition fmt_decode (f : fmt) (bs : list byte) : Z :=
  match f with fmt_h => to_signed 2 (le_Z bs) | _ => le_Z bs end.

Definition struct_size (fs : list fmt) : Z := Z.of_nat (sum_list (fmt_width <$> fs)).

Fixpoint struct_pack (fs : list fmt) (vs : list Z) : res (list byte) :=
  match fs, vs with
  | [], [] => Ok []
  | f :: fs', v :: vs' =>
      if fmt_in_range f v then
        rest ← struct_pack fs' vs'; Ok (fmt_encode f v ++ rest)
      else raise StructError
        ("'" +:+ fmt_name f +:+ "' format requires " +:+ int_str (fmt_lo f)
          +:+ " <= number <= " +:+ int_str (fmt_hi f - 1))
  | _, _ => raise StructError "pack expected another number of items"
  end.

Fixpoint struct_unpack_from (fs : list fmt) (data : list byte) : list Z :=
  match fs with
  | [] => []
  | f :: fs' =>
      fmt_decode f (take (fmt_width f) data) :: struct_unpack_from fs' (drop (fmt_width f) data)
  end.

Lemma fmt_encode_length f z : length (fmt_encode f z) = fmt_width f.
Proof. apply le_bytes_length. Qed.

Lemma fmt_decode_encode f z : fmt_in_range f z = true -> fmt_decode f (fmt_encode f z) = z.
Proof.
  unfold fmt_in_range, fmt_encode, fmt_decode. intros Hr.
  apply andb_true_iff in Hr as [Hlo%Z.leb_le Hhi%Z.ltb_lt].
  destruct f; simpl in *;
    rewrite le_Z_le_bytes by (apply Z.mod_pos_bound; vm_compute; done);
    try (apply Z.mod_small; unfold pow256; simpl; lia).
  apply to_of_signed. unfold pow256. simpl. lia.
Qed.

Lemma fmt_encode_decode f bs : length bs = fmt_width f -> fmt_encode f (fmt_decode f bs) = bs.
Proof.
  intros Hl. unfold fmt_encode, fmt_decode. pose proof (le_Z_bound bs) as Hb. rewrite Hl in Hb.
  assert (of_signed (fmt_width f) (match f with fmt_h => to_signed 2 (le_Z bs) | _ => le_Z bs end)
          = le_Z bs) as ->.
  { destruct f; simpl in *; try (apply Z.mod_small; lia). by apply of_to_signed. }
  rewrite <- Hl. apply le_bytes_le_Z.
Qed.

Lemma fmt_decode_in_range f bs : length bs = fmt_width f -> fmt_in_range f (fmt_decode f bs) = true.
Proof.
  intros Hl. pose proof (le_Z_bound bs) as Hb. rewrite Hl in Hb.
  unfold fmt_in_range, fmt_decode. destruct f; simpl in *.
  1,2,4: unfold pow256 in Hb; simpl in Hb; lia.
  pose proof (to_signed_bound 2 (le_Z bs) ltac:(lia) Hb) as Ht.
  unfold pow256 in Ht. simpl in Ht. lia.
Qed.

Lemma struct_pack_length fs vs bs : struct_pack fs vs = Ok bs -> zlen bs = struct_size fs.
Proof.
  unfold struct_size, zlen. revert vs bs; induction fs as [|f fs IH]; intros [|v vs] bs; csimpl; try done.
  - by intros [= <-].
  - destruct (fmt_in_range f v); [|done].
    destruct (struct_pack fs vs) as [rest|] eqn:Hp; simpl; [|done].
    intros [= <-]. rewrite length_app, fmt_encode_length. apply IH in Hp. lia.
Qed.

Lemma struct_pack_exn fs vs e : struct_pack fs vs = Raise e -> exn_cls e = StructError.
Proof.
  revert vs; induction fs as [|f fs IH]; intros [|v vs]; cbn [struct_pack]; try (by intros [= <-]).
  destruct (fmt_in_range f v); [|by intros [= <-]].
  destruct (struct_pack fs vs) as [rest|e'] eqn:Hp; cbn; [done|]. intros [= <-]. by apply (IH vs).
Qed.

Lemma struct_unpack_pack fs vs bs rest :
  struct_pack fs vs = Ok bs -> struct_unpack_from fs (bs ++ rest) = vs.
Proof.
  revert vs bs; induction fs as [|f fs IH]; intros [|v vs] bs; simpl; try done.
  destruct (fmt_in_range f v) eqn:Hr; [|done].
  destruct (struct_pack fs vs) as [bs'|] eqn:Hp; simpl; [|done].
  intros [= <-]. rewrite <- app_assoc.
  rewrite take_app_length', drop_app_length' by (by rewrite fmt_encode_length).
  rewrite fmt_decode_encode by done. f_equal. by apply IH.
Qed.

Lemma struct_pack_unpack fs data :
  struct_size fs <= zlen data ->
  struct_pack fs (struct_unpack_from fs data) = Ok (take (Z.to_nat (struct_size fs)) data).
Proof.
  unfold struct_size, zlen. rewrite Nat2Z.id.
  revert data; induction fs as [|f fs IH]; intros data Hl; csimpl in *; [done|].
  rewrite fmt_decode_in_range by (rewrite length_take; lia).
  rewrite IH by (rewrite length_drop; lia). simpl.
  rewrite fmt_encode_decode by (rewrite length_take; lia).
  by rewrite take_take_drop.
Qed.

Lemma struct_unpack_length fs data : length (struct_unpack_from fs data) = length fs.
Proof. revert data; induction fs; intros data; simpl; auto. Qed.

(** ** Header formats *)

Definition IQ_STRUCT : list fmt := struct_fmt "<IHHHHIQQIIHHHhIIQ".
Definition PSD_STRUCT : list fmt := struct_fmt "<IHHHHIQQQIHHHHHHHHIQ".

Lemma IQ_STRUCT_eq : IQ_STRUCT =
  [fmt_I; fmt_H; fmt_H; fmt_H; fmt_H; fmt_I; fmt_Q; fmt_Q; fmt_I; fmt_I; fmt_H; fmt_H; fmt_H; fmt_h; fmt_I; fmt_I; fmt_Q].
Proof. reflexivity. Qed.

Lemma PSD_STRUCT_eq : PSD_STRUCT =
  [fmt_I; fmt_H; fmt_H; fmt_H; fmt_H; fmt_I; fmt_Q; fmt_Q; fmt_Q; fmt_I; fmt_H; fmt_H; fmt_H; fmt_H; fmt_H; fmt_H; fmt_H; fmt_H; fmt_I; fmt_Q].
Proof. reflexivity. Qed.

Definition IQ_HEADER_SIZE : Z := struct_size IQ_STRUCT.
Definition PSD_HEADER_SIZE : Z := struct_size PSD_STRUCT.

(** [f"{n:08x}"]. *)
Fixpoint hex_digits (fuel : nat) (n : Z) (acc : list ascii) : list ascii :=
  match fuel with
  | O => acc
  | S fuel' =>
      let acc' := hex_digit (n mod 16) :: acc in
      if n <? 16 then acc' else hex_digits fuel' (n / 16) acc'
  end.

Definition hex08 (n : Z) : string :=
  let ds := hex_digits (S (Z.to_nat (Z.log2 (Z.abs n)))) (Z.abs n) [] in
  let sign := if n <? 0 then ["-"%char] else [] in
  string_of_list_ascii
    (sign ++ replicate (8 - length sign - length ds) "0"%char ++ ds).

(** ** [SdrIqHeader] *)

Record SdrIqHeader := MkIq {
  iq_magic : Z;
  iq_version : Z;
  iq_header_len : Z;
  iq_frame_type : Z;
  iq_stream_id : Z;
  iq_seq : Z;
  iq_adc_timestamp : Z;
  iq_frequency_hz : Z;
  iq_iq_sample_rate_hz : Z;
  iq_bandwidth_hz : Z;
  iq_sample_format : Z;
  iq_sample_count : Z;
  iq_flags : Z;
  iq_gain_db_q8 : Z;
  iq_decimation : Z;
  iq_payload_bytes : Z;
  iq_reserved0 : Z
}.

#[export] Instance SdrIqHeader_eq_dec : EqDecision SdrIqHeader.
Proof. solve_decision. Defined.

(** The dataclass field defaults. *)
Definition iq_default : SdrIqHeader := {|
  iq_magic := SDR_IQ_MAGIC;
  iq_version := SDR_PROTOCOL_VERSION;
  iq_header_len := IQ_HEADER_SIZE;
  iq_frame_type := SDR_FRAME_IQ;
  iq_stream_id := 0;
  iq_seq := 0;
  iq_adc_timestamp := 0;
  iq_frequency_hz := 0;
  iq_iq_sample_rate_hz := 250000;
  iq_bandwidth_hz := 12000;
  iq_sample_format := SDR_SAMPLE_SC16_LE;
  iq_sample_count := 0;
  iq_flags := 0;
  iq_gain_db_q8 := 0;
  iq_decimation := 1000;
  iq_payload_bytes := 0;
  iq_reserved0 := 0
|}.

Definition iq_validate (h : SdrIqHeader) : res unit :=
  if negb (iq_magic h =? SDR_IQ_MAGIC) then
    raise PacketError ("bad IQ magic 0x" +:+ hex08 (iq_magic h))
  else if negb (iq_version h =? SDR_PROTOCOL_VERSION) then
    raise PacketError ("unsupported IQ protocol version " +:+ int_str (iq_version h))
  else if negb (iq_header_len h =? IQ_HEADER_SIZE) then
    raise PacketError ("bad IQ header length " +:+ int_str (iq_header_len h))
  else if negb (iq_frame_type h =? SDR_FRAME_IQ) then
    raise PacketError ("bad IQ frame type " +:+ int_str (iq_frame_type h))
  else if negb (iq_sample_format h =? SDR_SAMPLE_SC16_LE) then
    raise PacketError ("unsupported IQ sample format " +:+ int_str (iq_sample_format h))
  else
    let expected_payload := iq_sample_count h * 4 in
    if negb (iq_payload_bytes h =? expected_payload) then
      raise PacketError
        ("IQ payload_bytes " +:+ int_str (iq_payload_bytes h) +:+ " != sample_count * 4 "
          +:+ int_str expected_payload)
    else Ok tt.

(** The argument list of [_IQ_STRUCT.pack] and [cls]( *values). *)
Definition iq_values (h : SdrIqHeader) : list Z :=
  [iq_magic h; iq_version h; iq_header_len h; iq_frame_type h; iq_stream_id h; iq_seq h;
   iq_adc_timestamp h; iq_frequency_hz h; iq_iq_sample_rate_hz h; iq_bandwidth_hz h;
   iq_sample_format h; iq_sample_count h; iq_flags h; iq_gain_db_q8 h; iq_decimation h;
   iq_payload_bytes h; iq_reserved0 h].

Definition iq_of_values (vs : list Z) : option SdrIqHeader :=
  match vs with
  | [a1; a2; a3; a4; a5; a6; a7; a8; a9; a10; a11; a12; a13; a14; a15; a16; a17] =>
      Some (MkIq a1 a2 a3 a4 a5 a6 a7 a8 a9 a10 a11 a12 a13 a14 a15 a16 a17)
  | _ => None
  end.

Definition iq_pack (h : SdrIqHeader) : res (list byte) :=
  _ ← iq_validate h;
  struct_pack IQ_STRUCT (iq_values h).

Definition iq_too_short (data : list byte) : exn :=
  Exn PacketError ("IQ packet too short for header: " +:+ int_str (zlen data) +:+ " bytes").

(** What [cls]( *values) raises on a wrong number of values; never reached. *)
Definition iq_bad_arity : exn := Exn TypeError "SdrIqHeader.__init__ got a wrong number of arguments".

Definition iq_unpack (data : list byte) : res SdrIqHeader :=
  if zlen data <? IQ_HEADER_SIZE then
    Raise (iq_too_short data)
  else
    match iq_of_values (struct_unpack_from IQ_STRUCT data) with
    | Some h => _ ← iq_validate h; Ok h
    | None => Raise iq_bad_arity
    end.

Definition iq_next_timestamp_delta (h : SdrIqHeader) : Z := iq_decimation h * iq_sample_count h.

(** ** [SdrPsdHeader] *)

Record SdrPsdHeader := MkPsd {
  psd_magic : Z;
  psd_version : Z;
  psd_header_len : Z;
  psd_frame_type : Z;
  psd_psd_id : Z;
  psd_frame_seq : Z;
  psd_adc_timestamp : Z;
  psd_start_frequency_hz : Z;
  psd_bin_spacing_millihz : Z;
  psd_fft_size : Z;
  psd_total_bins : Z;
  psd_segment_index : Z;
  psd_segment_count : Z;
  psd_bin_start : Z;
  psd_bin_count : Z;
  psd_sample_format : Z;
  psd_flags : Z;
  psd_averaging_count : Z;
  psd_payload_bytes : Z;
  psd_stop_frequency_hz : Z
}.

#[export] Instance SdrPsdHeader_eq_dec : EqDecision SdrPsdHeader.
Proof. solve_decision. Defined.

Definition psd_default : SdrPsdHeader := {|
  psd_magic := SDR_PSD_MAGIC;
  psd_version := SDR_PROTOCOL_VERSION;
  psd_header_len := PSD_HEADER_SIZE;
  psd_frame_type := SDR_FRAME_PSD;
  psd_psd_id := 0;
  psd_frame_seq := 0;
  psd_adc_timestamp := 0;
  psd_start_frequency_hz := 0;
  psd_bin_spacing_millihz := 0;
  psd_fft_size := 0;
  psd_total_bins := 0;
  psd_segment_index := 0;
  psd_segment_count := 0;
  psd_bin_start := 0;
  psd_bin_count := 0;
  psd_sample_format := SDR_PSD_I16_DBFS_Q8;
  psd_flags := 0;
  psd_averaging_count := 1;
  psd_payload_bytes := 0;
  psd_stop_frequency_hz := 0
|}.

Definition psd_validate (h : SdrPsdHeader) : res unit :=
  if negb (psd_magic h =? SDR_PSD_MAGIC) then
    raise PacketError ("bad PSD magic 0x" +:+ hex08 (psd_magic h))
  else if negb (psd_version h =? SDR_PROTOCOL_VERSION) then
    raise PacketError ("unsupported PSD protocol version " +:+ int_str (psd_version h))
  else if negb (psd_header_len h =? PSD_HEADER_SIZE) then
    raise PacketError ("bad PSD header length " +:+ int_str (psd_header_len h))
  else if negb (psd_frame_type h =? SDR_FRAME_PSD) then
    raise PacketError ("bad PSD frame type " +:+ int_str (psd_frame_type h))
  else if negb (psd_sample_format h =? SDR_PSD_I16_DBFS_Q8) then
    raise PacketError ("unsupported PSD sample format " +:+ int_str (psd_sample_format h))
  else
    let expected_payload := psd_bin_count h * 2 in
    if negb (psd_payload_bytes h =? expected_payload) then
      raise PacketError
        ("PSD payload_bytes " +:+ int_str (psd_payload_bytes h) +:+ " != bin_count * 2 "
          +:+ int_str expected_payload)
    else Ok tt.

Definition psd_values (h : SdrPsdHeader) : list Z :=
  [psd_magic h; psd_version h; psd_header_len h; psd_frame_type h; psd_psd_id h;
   psd_frame_seq h; psd_adc_timestamp h; psd_start_frequency_hz h; psd_bin_spacing_millihz h;
   psd_fft_size h; psd_total_bins h; psd_segment_index h; psd_segment_count h;
   psd_bin_start h; psd_bin_count h; psd_sample_format h; psd_flags h;
   psd_averaging_count h; psd_payload_bytes h; psd_stop_frequency_hz h].

Definition psd_of_values (vs : list Z) : option SdrPsdHeader :=
  match vs with
  | [a1; a2; a3; a4; a5; a6; a7; a8; a9; a10; a11; a12; a13; a14; a15; a16; a17; a18; a19; a20] =>
      Some (MkPsd a1 a2 a3 a4 a5 a6 a7 a8 a9 a10 a11 a12 a13 a14 a15 a16 a17 a18 a19 a20)
  | _ => None
  end.

Definition psd_pack (h : SdrPsdHeader) : res (list byte) :=
  _ ← psd_validate h;
  struct_pack PSD_STRUCT (psd_values h).

Definition psd_too_short (data : list byte) : exn :=
  Exn PacketError ("PSD packet too short for header: " +:+ int_str (zlen data) +:+ " bytes").

(** What [cls]( *values) raises on a wrong number of values; never reached. *)
Definition psd_bad_arity : exn := Exn TypeError "SdrPsdHeader.__init__ got a wrong number of arguments".

Definition psd_unpack (data : list byte) : res SdrPsdHeader :=
  if zlen data <? PSD_HEADER_SIZE then
    Raise (psd_too_short data)
  else
    match psd_of_values (struct_unpack_from PSD_STRUCT data) with
    | Some h => _ ← psd_validate h; Ok h
    | None => Raise psd_bad_arity
    end.

(** ** The interface the transport code uses *)

Class WireHeader (H : Type) := {
  wh_size : Z;
  wh_pack : H -> res (list byte);
  wh_unpack : list byte -> res H;
  wh_payload_bytes : H -> Z
}.

Class WireHeaderLaws (H : Type) `{WireHeader H} := {
  wh_size_pos : 0 < wh_size;
  wh_pack_size : forall h bs, wh_pack h = Ok bs -> zlen bs = wh_size;
  wh_unpack_pack : forall h bs rest, wh_pack h = Ok bs -> wh_unpack (bs ++ rest) = Ok h;
  wh_pack_unpack : forall data h,
    wh_unpack data = Ok h -> wh_pack h = Ok (take (Z.to_nat wh_size) data);
  wh_unpack_long : forall data h, wh_unpack data = Ok h -> wh_size <= zlen data;
  wh_unpack_error : forall data e, wh_unpack data = Raise e -> exn_cls e = PacketError;
  wh_unpack_payload : forall data h, wh_unpack data = Ok h -> 0 <= wh_payload_bytes h
}.

#[export] Instance iq_wire : WireHeader SdrIqHeader := {|
  wh_size := IQ_HEADER_SIZE;
  wh_pack := iq_pack;
  wh_unpack := iq_unpack;
  wh_payload_bytes := iq_payload_bytes
|}.

#[export] Instance psd_wire : WireHeader SdrPsdHeader := {|
  wh_size := PSD_HEADER_SIZE;
  wh_pack := psd_pack;
  wh_unpack := psd_unpack;
  wh_payload_bytes := psd_payload_bytes
|}.

Lemma iq_of_values_values h : iq_of_values (iq_values h) = Some h.
Proof. by destruct h. Qed.

Lemma psd_of_values_values h : psd_of_values (psd_values h) = Some h.
Proof. by destruct h. Qed.

Lemma iq_of_values_length vs : length vs = 17%nat -> exists h, iq_of_values vs = Some h /\ iq_values h = vs.
Proof.
  intros Hl. do 17 (destruct vs as [|? vs]; [done|]). destruct vs; [|done].
  eexists. split; reflexivity.
Qed.

Lemma psd_of_values_length vs : length vs = 20%nat -> exists h, psd_of_values vs = Some h /\ psd_values h = vs.
Proof.
  intros Hl. do 20 (destruct vs as [|? vs]; [done|]). destruct vs; [|done].
  eexists. split; reflexivity.
Qed.

(** Follows a chain of [if a != b: raise] guards. *)
Ltac step_checks :=
  repeat match goal with
  | |- context [if negb (?a =? ?b) then _ else _] =>
      destruct (Z.eqb_spec a b); simpl; [|reflexivity]
  end.

(** What a successful validation establishes; every failure is a [PacketError]. *)
Lemma iq_validate_spec h :
  match iq_validate h with
  | Ok _ =>
      iq_magic h = SDR_IQ_MAGIC /\ iq_version h = SDR_PROTOCOL_VERSION /\
      iq_header_len h = IQ_HEADER_SIZE /\ iq_frame_type h = SDR_FRAME_IQ /\
      iq_sample_format h = SDR_SAMPLE_SC16_LE /\ iq_payload_bytes h = iq_sample_count h * 4
  | Raise e => exn_cls e = PacketError
  end.
Proof.
  unfold iq_validate.
  step_checks. auto 10.
Qed.

Lemma psd_validate_spec h :
  match psd_validate h with
  | Ok _ =>
      psd_magic h = SDR_PSD_MAGIC /\ psd_version h = SDR_PROTOCOL_VERSION /\
      psd_header_len h = PSD_HEADER_SIZE /\ psd_frame_type h = SDR_FRAME_PSD /\
      psd_sample_format h = SDR_PSD_I16_DBFS_Q8 /\ psd_payload_bytes h = psd_bin_count h * 2
  | Raise e => exn_cls e = PacketError
  end.
Proof.
  unfold psd_validate.
  step_checks. auto 10.
Qed.

(** Field ranges a packed header satisfies, and conversely. *)
Lemma struct_pack_ok_iff fs vs :
  is_ok (struct_pack fs vs) = true <-> Forall2 (fun f v => fmt_in_range f v = true) fs vs.
Proof.
  revert vs; induction fs as [|f fs IH]; intros [|v vs]; simpl.
  - split; [constructor|done].
  - split; [done | intros H; inversion H].
  - split; [done | intros H; inversion H].
  - destruct (fmt_in_range f v) eqn:Hr; simpl.
    + rewrite Forall2_cons. rewrite <- IH. destruct (struct_pack fs vs); simpl; naive_solver.
    + rewrite Forall2_cons. naive_solver.
Qed.

(** The shared argument for both headers: packing is validation followed by
    [struct_pack] of the field list, unpacking reverses it. *)
Section HeaderCodec.
Context {H : Type} (fs : list fmt) (values : H -> list Z) (of_values : list Z -> option H)
  (validate : H -> res unit) (short : list byte -> exn) (arity : exn).
Hypothesis of_values_values : forall h, of_values (values h) = Some h.
Hypothesis of_values_length :
  forall vs, length vs = length fs -> exists h, of_values vs = Some h /\ values h = vs.
Hypothesis validate_error : forall h e, validate h = Raise e -> exn_cls e = PacketError.
Hypothesis short_error : forall data, exn_cls (short data) = PacketError.

Let pack (h : H) : res (list byte) := _ ← validate h; struct_pack fs (values h).
Let unpack (data : list byte) : res H :=
  if zlen data <? struct_size fs then Raise (short data)
  else match of_values (struct_unpack_from fs data) with
       | Some h => _ ← validate h; Ok h
       | None => Raise arity
       end.

Lemma codec_pack_size h bs : pack h = Ok bs -> zlen bs = struct_size fs.
Proof. unfold pack. destruct (validate h); simpl; [apply struct_pack_length|done]. Qed.

Lemma codec_unpack_pack h bs rest : pack h = Ok bs -> unpack (bs ++ rest) = Ok h.
Proof.
  intros Hp. pose proof (codec_pack_size h bs Hp) as Hs. revert Hp.
  unfold pack, unpack. destruct (validate h) as [[]|] eqn:Hv; simpl; [|done]. intros Hp.
  assert ((zlen (bs ++ rest) <? struct_size fs) = false) as ->.
  { apply Z.ltb_ge. unfold zlen in *. rewrite length_app. lia. }
  rewrite (struct_unpack_pack fs (values h)) by done.
  by rewrite of_values_values, Hv.
Qed.

Lemma codec_pack_unpack data h :
  unpack data = Ok h -> pack h = Ok (take (Z.to_nat (struct_size fs)) data).
Proof.
  unfold pack, unpack. destruct (Z.ltb_spec (zlen data) (struct_size fs)); [done|].
  destruct (of_values_length (struct_unpack_from fs data) (struct_unpack_length _ _))
    as (h' & Hh' & Hvs). rewrite Hh'.
  destruct (validate h') as [[]|] eqn:Hv; simpl; [|done]. intros [= <-].
  rewrite Hv. simpl. rewrite Hvs. by apply struct_pack_unpack.
Qed.

Lemma codec_unpack_error data e : unpack data = Raise e -> exn_cls e = PacketError.
Proof.
  unfold unpack. case_match; [intros [= <-]; apply short_error|].
  destruct (of_values_length (struct_unpack_from fs data) (struct_unpack_length _ _))
    as (h' & -> & _).
  destruct (validate h') eqn:Hv; simpl; [done|]. intros [= <-]. by eapply validate_error.
Qed.

Lemma codec_unpack_fields data h :
  unpack data = Ok h -> validate h = Ok tt /\ Forall2 (fun f v => fmt_in_range f v = true) fs (values h).
Proof.
  intros Hu. pose proof (codec_pack_unpack data h Hu) as Hp. unfold pack in Hp.
  destruct (validate h) as [[]|]; simpl in Hp; [|done]. split; [done|].
  apply struct_pack_ok_iff. by rewrite Hp.
Qed.
End HeaderCodec.

Lemma iq_validate_error h e : iq_validate h = Raise e -> exn_cls e = PacketError.
Proof. intros He. pose proof (iq_validate_spec h) as Hs. by rewrite He in Hs. Qed.

Lemma psd_validate_error h e : psd_validate h = Raise e -> exn_cls e = PacketError.
Proof. intros He. pose proof (psd_validate_spec h) as Hs. by rewrite He in Hs. Qed.

Lemma iq_unpack_fields data h :
  iq_unpack data = Ok h ->
  iq_validate h = Ok tt /\ Forall2 (fun f v => fmt_in_range f v = true) IQ_STRUCT (iq_values h).
Proof.
  eapply (codec_unpack_fields IQ_STRUCT iq_values iq_of_values iq_validate iq_too_short iq_bad_arity);
    eauto using iq_of_values_length.
Qed.

Lemma psd_unpack_fields data h :
  psd_unpack data = Ok h ->
  psd_validate h = Ok tt /\ Forall2 (fun f v => fmt_in_range f v = true) PSD_STRUCT (psd_values h).
Proof.
  eapply (codec_unpack_fields PSD_STRUCT psd_values psd_of_values psd_validate psd_too_short psd_bad_arity);
    eauto using psd_of_values_length.
Qed.

(** Turns the [Forall2] of field ranges into one fact per field. *)
Ltac field_ranges Hr :=
  repeat match type of Hr with
  | Forall2 _ _ (_ :: _) =>
      let Hf := fresh "Hf" in
      apply Forall2_cons in Hr as [Hf Hr];
      unfold fmt_in_range, fmt_lo, fmt_hi in Hf
  end.

#[export] Instance iq_wire_laws : WireHeaderLaws SdrIqHeader.
Proof.
  split; simpl.
  - done.
  - intros h bs Hp. by apply (codec_pack_size IQ_STRUCT iq_values iq_validate h).
  - intros h bs rest.
    apply (codec_unpack_pack IQ_STRUCT iq_values iq_of_values iq_validate iq_too_short iq_bad_arity).
    apply iq_of_values_values.
  - intros data h.
    apply (codec_pack_unpack IQ_STRUCT iq_values iq_of_values iq_validate iq_too_short iq_bad_arity).
    apply iq_of_values_length.
  - intros data h. unfold iq_unpack.
    destruct (Z.ltb_spec (zlen data) IQ_HEADER_SIZE); [done|lia].
  - intros data e.
    eapply (codec_unpack_error IQ_STRUCT iq_values iq_of_values iq_validate iq_too_short iq_bad_arity);
      eauto using iq_of_values_length, iq_validate_error.
  - intros data h Hu. apply iq_unpack_fields in Hu as [_ Hr].
    rewrite IQ_STRUCT_eq in Hr; unfold iq_values in Hr. field_ranges Hr. lia.
Qed.

#[export] Instance psd_wire_laws : WireHeaderLaws SdrPsdHeader.
Proof.
  split; simpl.
  - done.
  - intros h bs Hp. by apply (codec_pack_size PSD_STRUCT psd_values psd_validate h).
  - intros h bs rest.
    apply (codec_unpack_pack PSD_STRUCT psd_values psd_of_values psd_validate psd_too_short psd_bad_arity).
    apply psd_of_values_values.
  - intros data h.
    apply (codec_pack_unpack PSD_STRUCT psd_values psd_of_values psd_validate psd_too_short psd_bad_arity).
    apply psd_of_values_length.
  - intros data h. unfold psd_unpack.
    destruct (Z.ltb_spec (zlen data) PSD_HEADER_SIZE); [done|lia].
  - intros data e.
    eapply (codec_unpack_error PSD_STRUCT psd_values psd_of_values psd_validate psd_too_short psd_bad_arity);
      eauto using psd_of_values_length, psd_validate_error.
  - intros data h Hu. apply psd_unpack_fields in Hu as [_ Hr].
    rewrite PSD_STRUCT_eq in Hr; unfold psd_values in Hr. field_ranges Hr. lia.
Qed.

(** ** Properties *)

Lemma wire_unpack_iff {H} `{WireHeaderLaws H} (data : list byte) (h : H) :
  wh_unpack data = Ok h <->
  wh_size <= zlen data /\ wh_pack h = Ok (take (Z.to_nat wh_size) data).
Proof.
  split.
  - intros Hu. split; [by eapply wh_unpack_long | by apply wh_pack_unpack].
  - intros [Hl Hp]. rewrite <- (take_drop (Z.to_nat wh_size) data).
    by apply wh_unpack_pack.
Qed.

(** C7: The header codecs.  [SdrIqHeader.unpack] accepts a datagram exactly when it is at
    least 64 bytes long and its first 64 bytes are what [SdrIqHeader.pack] produces for
    the header returned: decoding inverts encoding, nothing else is accepted, and two
    datagrams with the same header have the same first 64 bytes.  The same holds for
    [SdrPsdHeader], whose header is 72 bytes. *)
Theorem header_codecs (data : list byte) :
  (forall h : SdrIqHeader, iq_unpack data = Ok h <-> 64 <= zlen data /\ iq_pack h = Ok (take 64 data)) /\
  (forall h : SdrPsdHeader, psd_unpack data = Ok h <-> 72 <= zlen data /\ psd_pack h = Ok (take 72 data)).
Proof.
  split; intros h; [exact (wire_unpack_iff (H := SdrIqHeader) data h)|exact (wire_unpack_iff (H := SdrPsdHeader) data h)].
Qed.

Lemma iq_pack_ok_iff h :
  is_ok (iq_pack h) = true <->
  iq_validate h = Ok tt /\ Forall2 (fun f v => fmt_in_range f v = true) IQ_STRUCT (iq_values h).
Proof.
  rewrite <- struct_pack_ok_iff. unfold iq_pack.
  destruct (iq_validate h) as [[]|]; simpl; naive_solver.
Qed.

Lemma psd_pack_ok_iff h :
  is_ok (psd_pack h) = true <->
  psd_validate h = Ok tt /\ Forall2 (fun f v => fmt_in_range f v = true) PSD_STRUCT (psd_values h).
Proof.
  rewrite <- struct_pack_ok_iff. unfold psd_pack.
  destruct (psd_validate h) as [[]|]; simpl; naive_solver.
Qed.

(** The headers that fit the wire. *)
Definition iq_wire_ok (h : SdrIqHeader) : Prop :=
  iq_magic h = SDR_IQ_MAGIC /\ iq_version h = 1 /\ iq_header_len h = 64 /\
  iq_frame_type h = SDR_FRAME_IQ /\ iq_sample_format h = SDR_SAMPLE_SC16_LE /\
  iq_payload_bytes h = 4 * iq_sample_count h /\
  0 <= iq_stream_id h < 2 ^ 16 /\ 0 <= iq_seq h < 2 ^ 32 /\
  0 <= iq_adc_timestamp h < 2 ^ 64 /\ 0 <= iq_frequency_hz h < 2 ^ 64 /\
  0 <= iq_iq_sample_rate_hz h < 2 ^ 32 /\ 0 <= iq_bandwidth_hz h < 2 ^ 32 /\
  0 <= iq_sample_count h < 2 ^ 16 /\ 0 <= iq_flags h < 2 ^ 16 /\
  - 2 ^ 15 <= iq_gain_db_q8 h < 2 ^ 15 /\ 0 <= iq_decimation h < 2 ^ 32 /\
  0 <= iq_reserved0 h < 2 ^ 64.

Definition psd_wire_ok (h : SdrPsdHeader) : Prop :=
  psd_magic h = SDR_PSD_MAGIC /\ psd_version h = 1 /\ psd_header_len h = 72 /\
  psd_frame_type h = SDR_FRAME_PSD /\ psd_sample_format h = SDR_PSD_I16_DBFS_Q8 /\
  psd_payload_bytes h = 2 * psd_bin_count h /\
  0 <= psd_psd_id h < 2 ^ 16 /\ 0 <= psd_frame_seq h < 2 ^ 32 /\
  0 <= psd_adc_timestamp h < 2 ^ 64 /\ 0 <= psd_start_frequency_hz h < 2 ^ 64 /\
  0 <= psd_bin_spacing_millihz h < 2 ^ 64 /\ 0 <= psd_fft_size h < 2 ^ 32 /\
  0 <= psd_total_bins h < 2 ^ 16 /\ 0 <= psd_segment_index h < 2 ^ 16 /\
  0 <= psd_segment_count h < 2 ^ 16 /\ 0 <= psd_bin_start h < 2 ^ 16 /\
  0 <= psd_bin_count h < 2 ^ 16 /\ 0 <= psd_flags h < 2 ^ 16 /\
  0 <= psd_averaging_count h < 2 ^ 16 /\ 0 <= psd_stop_frequency_hz h < 2 ^ 64.

Lemma iq_pack_wire_ok h : is_ok (iq_pack h) = true <-> iq_wire_ok h.
Proof.
  unfold iq_wire_ok. rewrite iq_pack_ok_iff. pose proof (iq_validate_spec h) as Hv. split.
  - intros [Hok Hr]. rewrite Hok in Hv. destruct Hv as (? & ? & ? & ? & ? & ?).
    rewrite IQ_STRUCT_eq in Hr; unfold iq_values in Hr. field_ranges Hr.
    change IQ_HEADER_SIZE with 64 in *. unfold SDR_PROTOCOL_VERSION in *.
    split_and!; try done; lia.
  - intros (Hm & Hver & Hlen & Hft & Hsf & Hpb & Hrest). split.
    + unfold iq_validate. rewrite Hm, Hver, Hlen, Hft, Hsf, Hpb. simpl.
      by rewrite (Z.mul_comm 4), Z.eqb_refl.
    + rewrite IQ_STRUCT_eq; unfold iq_values. rewrite Hm, Hver, Hlen, Hft, Hsf.
      repeat (apply Forall2_cons; split); try done; unfold fmt_in_range, fmt_lo, fmt_hi; lia.
Qed.

Lemma psd_pack_wire_ok h : is_ok (psd_pack h) = true <-> psd_wire_ok h.
Proof.
  unfold psd_wire_ok. rewrite psd_pack_ok_iff. pose proof (psd_validate_spec h) as Hv. split.
  - intros [Hok Hr]. rewrite Hok in Hv. destruct Hv as (? & ? & ? & ? & ? & ?).
    rewrite PSD_STRUCT_eq in Hr; unfold psd_values in Hr. field_ranges Hr.
    change PSD_HEADER_SIZE with 72 in *. unfold SDR_PROTOCOL_VERSION in *.
    split_and!; try done; lia.
  - intros (Hm & Hver & Hlen & Hft & Hsf & Hpb & Hrest). split.
    + unfold psd_validate. rewrite Hm, Hver, Hlen, Hft, Hsf, Hpb. simpl.
      by rewrite (Z.mul_comm 2), Z.eqb_refl.
    + rewrite PSD_STRUCT_eq; unfold psd_values. rewrite Hm, Hver, Hlen, Hft, Hsf.
      repeat (apply Forall2_cons; split); try done; unfold fmt_in_range, fmt_lo, fmt_hi; lia.
Qed.

(** Packing raises [PacketError] from [validate] or [struct.error]. *)
Lemma iq_pack_exn h e : iq_pack h = Raise e -> exn_cls e = PacketError \/ exn_cls e = StructError.
Proof.
  unfold iq_pack. pose proof (iq_validate_spec h) as Hv.
  destruct (iq_validate h) as [[]|e'] eqn:Hval; cbn [mbind res_bind].
  - intros Hs. right. by apply struct_pack_exn in Hs.
  - intros [= <-]. left. revert Hval. unfold iq_validate. repeat case_match; intros [= <-]; done.
Qed.

Lemma psd_pack_exn h e : psd_pack h = Raise e -> exn_cls e = PacketError \/ exn_cls e = StructError.
Proof.
  unfold psd_pack. pose proof (psd_validate_spec h) as Hv.
  destruct (psd_validate h) as [[]|e'] eqn:Hval; cbn [mbind res_bind].
  - intros Hs. right. by apply struct_pack_exn in Hs.
  - intros [= <-]. left. revert Hval. unfold psd_validate. repeat case_match; intros [= <-]; done.
Qed.

(** C35: Exact domain of [pack].  [SdrIqHeader.pack] succeeds precisely for headers with
    the protocol constants in place, [payload_bytes] four times [sample_count], and every
    field within its wire width, [SdrPsdHeader.pack] likewise with [payload_bytes] twice
    [bin_count]; every other header raises [PacketError] or [struct.error]. *)
Theorem pack_domains (h : SdrIqHeader) (h' : SdrPsdHeader) :
  match iq_pack h with
  | Ok _ => iq_wire_ok h
  | Raise e => ~ iq_wire_ok h /\ (exn_cls e = PacketError \/ exn_cls e = StructError)
  end /\
  match psd_pack h' with
  | Ok _ => psd_wire_ok h'
  | Raise e => ~ psd_wire_ok h' /\ (exn_cls e = PacketError \/ exn_cls e = StructError)
  end.
Proof.
  split.
  - pose proof (iq_pack_wire_ok h) as Hw. destruct (iq_pack h) as [bs|e] eqn:Hp; [by apply Hw|].
    split; [rewrite <- Hw; done | by apply (iq_pack_exn h)].
  - pose proof (psd_pack_wire_ok h') as Hw. destruct (psd_pack h') as [bs|e] eqn:Hp; [by apply Hw|].
    split; [rewrite <- Hw; done | by apply (psd_pack_exn h')].
Qed.
