(* ===== verification/Psd.v ===== *)
(** Wideband PSD segment reassembly: src/rpi/backend/sdr_backend/psd.py.

    The reassembler keeps one buffer per [(psd_id, frame_seq)]; a buffer holds
    the header of the first segment seen and the payloads by segment index.
    Both dictionaries are finite maps: the code iterates them only to sum, so
    their insertion order is not observable. *)

From Stdlib Require Import ZArith SpecFloat Strings.Byte Lia.
From stdpp Require Import base list gmap strings.
From S2P Require Import Prelude PyFloat PyValue Packets.

Open Scope Z_scope.

(** ** State *)

Record PsdFrameBuffer := MkFrameBuffer {
  fb_header : SdrPsdHeader;
  fb_segments : gmap Z (list byte)
}.

Record PsdStats := MkPsdStats {
  complete_frames : Z;
  dropped_frame_count : Z;
  missing_segment_count : Z;
  last_frame_seq : option Z
}.

Record PsdReassembler := MkPsdReassembler {
  ra_frames : gmap (Z * Z) PsdFrameBuffer;
  ra_stats : PsdStats
}.

Definition psd_stats_init : PsdStats := MkPsdStats 0 0 0 None.

(** [__init__] and [reset] leave the same state. *)
Definition psd_init : PsdReassembler := MkPsdReassembler ∅ psd_stats_init.

Definition psd_reset (r : PsdReassembler) : PsdReassembler := MkPsdReassembler ∅ psd_stats_init.

(** ** Operations *)

Definition seq_less (left right : Z) : bool :=
  negb (left =? right) && (mask32 (right - left) <? 0x80000000).

(** The loop body of [_drop_older_frames]: [self._frames.pop(key)] and the
    two counters. *)
Definition pop_stale (r : PsdReassembler) (key : Z * Z) : PsdReassembler :=
  match ra_frames r !! key with
  | Some frame =>
      let expected := psd_segment_count (fb_header frame) in
      let missing := Z.max 0 (expected - Z.of_nat (size (fb_segments frame))) in
      let st := ra_stats r in
      MkPsdReassembler (delete key (ra_frames r))
        (MkPsdStats (complete_frames st) (dropped_frame_count st + 1)
           (missing_segment_count st + missing) (last_frame_seq st))
  | None => r
  end.

Definition stale_keys (psd_id frame_seq : Z) (r : PsdReassembler) : list (Z * Z) :=
  filter (fun key => key.1 = psd_id /\ seq_less key.2 frame_seq = true)
    (map_to_list (ra_frames r)).*1.

Definition drop_older_frames (psd_id frame_seq : Z) (r : PsdReassembler) : PsdReassembler :=
  foldl pop_stale r (stale_keys psd_id frame_seq r).

(** [range(0, stop, step)]. *)
Definition range_step (stop step : Z) : list Z :=
  (fun i => i * step) <$> zrange ((stop + step - 1) / step).

(** [round(q8 / 256.0, 2)]. *)
Definition q8_to_dbfs (q8 : Z) : float :=
  round_digits 2 (SFdiv f_prec f_emax (f_of_Z q8) (f_of_Z 256)).

(** [int.from_bytes(bs, "little", signed=True)]. *)
Definition int_from_bytes_signed (bs : list byte) : Z := to_signed (length bs) (le_Z bs).

Definition decode_bins (payload : list byte) : list float :=
  (fun index => q8_to_dbfs (int_from_bytes_signed (slice index (index + 2) payload)))
    <$> range_step (zlen payload - 1) 2.

Definition frequency_bounds (h : SdrPsdHeader) : res (Z * pyval * float) :=
  if psd_start_frequency_hz h <? psd_stop_frequency_hz h then
    let stop_frequency_hz := psd_stop_frequency_hz h in
    spacing ← int_truediv (stop_frequency_hz - psd_start_frequency_hz h) (psd_total_bins h);
    Ok (psd_start_frequency_hz h, PInt stop_frequency_hz, spacing)
  else
    millihz ← float_of_int (psd_bin_spacing_millihz h);
    bin_spacing_hz ← float_div millihz (f_of_Z 1000);
    total ← float_of_int (psd_total_bins h);
    start ← float_of_int (psd_start_frequency_hz h);
    Ok (psd_start_frequency_hz h, PFloat (f_add start (f_mul total bin_spacing_hz)), bin_spacing_hz).

(** [l[:n]]. *)
Definition slice_to {A} (n : Z) (l : list A) : list A :=
  if n <? 0 then take (Z.to_nat (zlen l + n)) l else take (Z.to_nat n) l.

(** The dictionary returned for a complete frame. *)
Definition wideband_frame (h : SdrPsdHeader) (st : PsdStats) (bins : list float)
    (bounds : Z * pyval * float) : pydict :=
  let '(start_frequency_hz, stop_frequency_hz, bin_spacing_hz) := bounds in
  [("type", PStr "wideband_psd");
   ("psd_id", PInt (psd_psd_id h));
   ("frame_seq", PInt (psd_frame_seq h));
   ("start_frequency_hz", PInt start_frequency_hz);
   ("stop_frequency_hz", stop_frequency_hz);
   ("bin_spacing_hz", PFloat bin_spacing_hz);
   ("fft_size", PInt (psd_fft_size h));
   ("total_bins", PInt (psd_total_bins h));
   ("bins_dbfs", PList (PFloat <$> slice_to (psd_total_bins h) bins));
   ("flags", PInt (psd_flags h));
   ("dropped_frame_count", PInt (dropped_frame_count st));
   ("missing_segment_count", PInt (missing_segment_count st))].

Definition psd_key (h : SdrPsdHeader) : Z * Z := (psd_psd_id h, psd_frame_seq h).

Definition psd_ingest (h : SdrPsdHeader) (payload : list byte) : M PsdReassembler (option pydict) :=
  fun r =>
  let r1 := drop_older_frames (psd_psd_id h) (psd_frame_seq h) r in
  let key := psd_key h in
  let frame := default (MkFrameBuffer h ∅) (ra_frames r1 !! key) in
  let segments := <[psd_segment_index h := payload]> (fb_segments frame) in
  let r2 := MkPsdReassembler (<[key := MkFrameBuffer (fb_header frame) segments]> (ra_frames r1))
              (ra_stats r1) in
  if Z.of_nat (size segments) <? psd_segment_count h then (r2, Ok None)
  else
    let ordered := (fun index => segments !! index) <$> zrange (psd_segment_count h) in
    if existsb (fun o => match o with None => true | Some _ => false end) ordered then (r2, Ok None)
    else
      let st := ra_stats r2 in
      let st' := MkPsdStats (complete_frames st + 1) (dropped_frame_count st)
                   (missing_segment_count st) (Some (psd_frame_seq h)) in
      let r3 := MkPsdReassembler (delete key (ra_frames r2)) st' in
      let bins_q8 := decode_bins (concat (omap id ordered)) in
      (r3, bounds ← frequency_bounds h; Ok (Some (wideband_frame h st' bins_q8 bounds))).

(** Feeding a sequence of datagrams, keeping every outcome. *)
Fixpoint psd_run (r : PsdReassembler) (segs : list (SdrPsdHeader * list byte)) :
    PsdReassembler * list (res (option pydict)) :=
  match segs with
  | [] => (r, [])
  | (h, p) :: segs' =>
      let '(r', out) := psd_ingest h p r in
      let '(r'', outs) := psd_run r' segs' in
      (r'', out :: outs)
  end.

(** ** Sequence arithmetic *)

Lemma seq_less_irrefl s : seq_less s s = false.
Proof. unfold seq_less. by rewrite Z.eqb_refl. Qed.

(** ** Dropping stale frames *)

Lemma pop_stale_frames r key : ra_frames (pop_stale r key) = delete key (ra_frames r).
Proof.
  unfold pop_stale. destruct (ra_frames r !! key) eqn:Hk; simpl; [done|].
  by rewrite delete_id.
Qed.

(** [complete + dropped + buffered]: every frame the reassembler ever opened
    is in exactly one of these three. *)
Definition psd_accounted (r : PsdReassembler) : Z :=
  complete_frames (ra_stats r) + dropped_frame_count (ra_stats r) + Z.of_nat (size (ra_frames r)).

Lemma pop_stale_accounted r key : psd_accounted (pop_stale r key) = psd_accounted r.
Proof.
  unfold psd_accounted. rewrite pop_stale_frames. unfold pop_stale.
  destruct (ra_frames r !! key) as [fb|] eqn:Hk; simpl.
  - rewrite map_size_delete, Hk. simpl.
    assert (size (ra_frames r) <> 0%nat).
    { intros H0%map_size_empty_iff. by rewrite H0, lookup_empty in Hk. }
    lia.
  - by rewrite delete_id.
Qed.

Lemma foldl_pop_frames ks r k :
  ra_frames (foldl pop_stale r ks) !! k =
  if decide (k ∈ ks) then None else ra_frames r !! k.
Proof.
  revert r; induction ks as [|k' ks IH]; intros r; cbn [foldl].
  - case_decide; [set_solver|done].
  - rewrite IH, pop_stale_frames.
    destruct (decide (k = k')) as [->|Hne].
    + rewrite lookup_delete_eq. repeat case_decide; set_solver.
    + rewrite lookup_delete_ne by done. repeat case_decide; set_solver.
Qed.

Lemma elem_of_stale_keys psd_id s r k :
  k ∈ stale_keys psd_id s r <->
  k.1 = psd_id /\ seq_less k.2 s = true /\ is_Some (ra_frames r !! k).
Proof.
  unfold stale_keys. rewrite list_elem_of_filter, list_elem_of_fmap. split.
  - intros [[H1 H2] ([k' fb] & -> & Hk%elem_of_map_to_list)]. simpl in *. eauto.
  - intros (H1 & H2 & [fb Hfb]). split; [done|].
    exists (k, fb). split; [done|]. by apply elem_of_map_to_list.
Qed.

(** Which buffers survive [_drop_older_frames]. *)
Lemma drop_older_lookup psd_id s r k :
  ra_frames (drop_older_frames psd_id s r) !! k =
  if bool_decide (k.1 = psd_id) && seq_less k.2 s then None else ra_frames r !! k.
Proof.
  unfold drop_older_frames. rewrite foldl_pop_frames.
  destruct (ra_frames r !! k) as [fb|] eqn:Hk.
  - case_decide as Hin; rewrite elem_of_stale_keys, Hk in Hin; case_bool_decide; simpl;
      destruct (seq_less k.2 s); naive_solver.
  - by case_decide; case_match.
Qed.

Lemma drop_older_accounted psd_id s r : psd_accounted (drop_older_frames psd_id s r) = psd_accounted r.
Proof.
  unfold drop_older_frames. generalize (stale_keys psd_id s r) as ks. intros ks.
  revert r; induction ks as [|k ks IH]; intros r; simpl; [done|].
  by rewrite IH, pop_stale_accounted.
Qed.

Lemma foldl_pop_complete ks r :
  complete_frames (ra_stats (foldl pop_stale r ks)) = complete_frames (ra_stats r).
Proof.
  revert r; induction ks as [|k ks IH]; intros r; simpl; [done|].
  rewrite IH. unfold pop_stale. by case_match.
Qed.

Lemma drop_older_complete psd_id s r :
  complete_frames (ra_stats (drop_older_frames psd_id s r)) = complete_frames (ra_stats r).
Proof. apply foldl_pop_complete. Qed.

Lemma drop_older_key psd_id s r : ra_frames (drop_older_frames psd_id s r) !! (psd_id, s) = ra_frames r !! (psd_id, s).
Proof. rewrite drop_older_lookup. simpl. by rewrite seq_less_irrefl, andb_false_r. Qed.



(** ** The shape of one [ingest] *)

Definition psd_collected (h : SdrPsdHeader) (payload : list byte) (r : PsdReassembler) : gmap Z (list byte) :=
  <[psd_segment_index h := payload]>
    (match ra_frames r !! psd_key h with Some fb => fb_segments fb | None => ∅ end).

Definition psd_full (n : Z) (segs : gmap Z (list byte)) : Prop :=
  n <= Z.of_nat (size segs) /\ forall i, 0 <= i < n -> is_Some (segs !! i).

Lemma existsb_none_false {A} (l : list (option A)) :
  existsb (fun o => match o with None => true | Some _ => false end) l = false <->
  forall o, o ∈ l -> is_Some o.
Proof.
  induction l as [|[a|] l IH]; simpl.
  - split; [set_solver|done].
  - rewrite IH. split; [intros H o [->|Ho]%elem_of_cons; eauto | intros H o Ho; apply H; by right].
  - split; [done|]. intros H. destruct (H None) as [? [=]]. left.
Qed.

Lemma psd_full_Forall n segs :
  psd_full n segs <->
  n <= Z.of_nat (size segs) /\ Forall (fun i => is_Some (segs !! i)) (zrange n).
Proof.
  unfold psd_full. rewrite Forall_forall. by setoid_rewrite elem_of_zrange.
Qed.

#[export] Instance psd_full_dec n segs : Decision (psd_full n segs).
Proof.
  refine (cast_if (decide (n <= Z.of_nat (size segs) /\
                           Forall (fun i => is_Some (segs !! i)) (zrange n))));
    by rewrite psd_full_Forall.
Defined.

(** One [ingest], by whether the buffer is now complete. *)
Lemma psd_ingest_eq h payload r :
  let r1 := drop_older_frames (psd_psd_id h) (psd_frame_seq h) r in
  let segs := psd_collected h payload r in
  let hdr := match ra_frames r !! psd_key h with Some fb => fb_header fb | None => h end in
  let st := ra_stats r1 in
  psd_ingest h payload r =
  if decide (psd_full (psd_segment_count h) segs) then
    let st' := MkPsdStats (complete_frames st + 1) (dropped_frame_count st)
                 (missing_segment_count st) (Some (psd_frame_seq h)) in
    (MkPsdReassembler (delete (psd_key h) (ra_frames r1)) st',
     bounds ← frequency_bounds h;
     Ok (Some (wideband_frame h st'
       (decode_bins (concat (omap (fun i => segs !! i) (zrange (psd_segment_count h))))) bounds)))
  else
    (MkPsdReassembler (<[psd_key h := MkFrameBuffer hdr segs]> (ra_frames r1)) st, Ok None).
Proof.
  intros r1 segs hdr st. unfold psd_ingest. fold r1.
  change (ra_frames r1 !! psd_key h) with (ra_frames (drop_older_frames (psd_psd_id h) (psd_frame_seq h) r) !! (psd_psd_id h, psd_frame_seq h)).
  rewrite drop_older_key. fold (psd_key h).
  assert (fb_segments (default (MkFrameBuffer h ∅) (ra_frames r !! psd_key h)) =
          match ra_frames r !! psd_key h with Some fb => fb_segments fb | None => ∅ end) as ->
    by (by destruct (ra_frames r !! psd_key h)).
  assert (fb_header (default (MkFrameBuffer h ∅) (ra_frames r !! psd_key h)) = hdr) as ->
    by (unfold hdr; by destruct (ra_frames r !! psd_key h)).
  fold (psd_collected h payload r). fold segs. cbn zeta. simpl.
  destruct (Z.ltb_spec (Z.of_nat (size segs)) (psd_segment_count h)) as [Hlt|Hge].
  { rewrite decide_False; [done|]. intros [? _]. lia. }
  destruct (existsb _ _) eqn:Hex.
  { rewrite decide_False; [done|]. intros [_ Hall].
    apply not_false_iff_true in Hex. apply Hex, existsb_none_false.
    intros o (i & -> & Hi%elem_of_zrange)%list_elem_of_fmap. by apply Hall. }
  rewrite decide_True.
  2:{ split; [done|]. intros i Hi. apply (proj1 (existsb_none_false _) Hex).
      apply list_elem_of_fmap. exists i. split; [done|]. by apply elem_of_zrange. }
  rewrite delete_insert_eq. f_equal.
  by rewrite omap_id_fmap.
Qed.

(** ** Well-formed buffers *)

(** Every buffer sits under the key of its own header and holds at least one
    segment; the counters never go negative. *)
Definition psd_wf (r : PsdReassembler) : Prop :=
  (forall k fb, ra_frames r !! k = Some fb -> psd_key (fb_header fb) = k /\ fb_segments fb <> ∅) /\
  0 <= complete_frames (ra_stats r) /\ 0 <= dropped_frame_count (ra_stats r) /\
  0 <= missing_segment_count (ra_stats r).

Lemma pop_stale_wf r k : psd_wf r -> psd_wf (pop_stale r k).
Proof.
  intros (Hf & H1 & H2 & H3). split; [|unfold pop_stale; case_match; simpl; lia].
  intros k' fb. rewrite pop_stale_frames, lookup_delete_Some. intros [_ Hk']. by apply Hf.
Qed.

Lemma drop_older_wf psd_id s r : psd_wf r -> psd_wf (drop_older_frames psd_id s r).
Proof.
  unfold drop_older_frames. generalize (stale_keys psd_id s r) as ks. intros ks.
  revert r; induction ks as [|k ks IH]; intros r Hr; simpl; [done|]. by apply IH, pop_stale_wf.
Qed.

Lemma psd_ingest_wf h p r : psd_wf r -> psd_wf (psd_ingest h p r).1.
Proof.
  intros Hr. rewrite psd_ingest_eq. cbn zeta.
  pose proof (drop_older_wf (psd_psd_id h) (psd_frame_seq h) r Hr) as (Hf & H1 & H2 & H3).
  case_decide; cbn.
  - split; [|simpl; lia]. intros k fb. simpl. rewrite lookup_delete_Some. intros [_ Hk]. by apply Hf.
  - split; [|simpl; lia]. intros k fb. simpl. rewrite lookup_insert_Some.
    intros [[<- <-]|[_ Hk]]; [|by apply Hf]. simpl. split.
    + destruct (ra_frames r !! psd_key h) as [fb|] eqn:Hk; [|done].
      destruct Hr as [Hr _]. by apply Hr.
    + unfold psd_collected. apply insert_non_empty.
Qed.

Lemma psd_run_wf segs r : psd_wf r -> psd_wf (psd_run r segs).1.
Proof.
  revert r; induction segs as [|[h p] segs IH]; intros r Hr; simpl; [done|].
  pose proof (psd_ingest_wf h p r Hr) as Hi.
  destruct (psd_ingest h p r) as [r' out]. specialize (IH r' Hi).
  by destruct (psd_run r' segs).
Qed.

(** ** Accounting *)

Definition psd_buffered (r : PsdReassembler) (k : Z * Z) : bool :=
  match ra_frames r !! k with Some _ => true | None => false end.

Lemma psd_ingest_accounted h p r :
  psd_accounted (psd_ingest h p r).1 =
  psd_accounted r + (if psd_buffered r (psd_key h) then 0 else 1).
Proof.
  rewrite psd_ingest_eq. cbn zeta.
  pose proof (drop_older_accounted (psd_psd_id h) (psd_frame_seq h) r) as Ha.
  pose proof (drop_older_key (psd_psd_id h) (psd_frame_seq h) r) as Hk. fold (psd_key h) in Hk.
  revert Ha Hk. generalize (drop_older_frames (psd_psd_id h) (psd_frame_seq h) r) as r1.
  intros r1 Ha Hk. rewrite <- Ha. unfold psd_accounted, psd_buffered. rewrite <- Hk.
  case_decide as Hfull; cbn -[Z.add].
  - rewrite map_size_delete. destruct (ra_frames r1 !! psd_key h) eqn:E; simpl.
    + assert (size (ra_frames r1) <> 0%nat).
      { intros H0%map_size_empty_iff. by rewrite H0, lookup_empty in E. }
      lia.
    + lia.
  - rewrite map_size_insert. destruct (ra_frames r1 !! psd_key h) eqn:E; simpl.
    + lia.
    + lia.
Qed.

(** Number of segments of a run that found no buffer for their frame. *)
Fixpoint psd_opened (r : PsdReassembler) (segs : list (SdrPsdHeader * list byte)) : Z :=
  match segs with
  | [] => 0
  | (h, p) :: segs' =>
      (if psd_buffered r (psd_key h) then 0 else 1)
      + psd_opened (psd_ingest h p r).1 segs'
  end.

(** C19: Every frame is accounted for.  From the initial state, over any sequence of
    segments whatsoever (out of order, duplicated, inconsistent, or making [ingest]
    raise), the number of frame buffers ever opened equals the number of complete
    frames plus the number of dropped frames plus the number still buffered; buffers
    stay well formed and the counters non-negative. *)
Theorem psd_every_frame_accounted (segs : list (SdrPsdHeader * list byte)) :
  let r := (psd_run psd_init segs).1 in
  complete_frames (ra_stats r) + dropped_frame_count (ra_stats r)
    + Z.of_nat (size (ra_frames r)) = psd_opened psd_init segs /\ psd_wf r.
Proof.
  intros r. split; [|apply psd_run_wf; split; [by intros ? ?|done]].
  fold (psd_accounted r). subst r.
  change (psd_opened psd_init segs) with (psd_accounted psd_init + psd_opened psd_init segs).
  generalize psd_init as r. induction segs as [|[h p] segs IH]; intros r; simpl; [lia|].
  pose proof (psd_ingest_accounted h p r) as Ha.
  destruct (psd_ingest h p r) as [r' out]. specialize (IH r'). simpl in *.
  destruct (psd_run r' segs); simpl in *. lia.
Qed.

(** ** Reassembly *)

Section Reassembly.
Context (hdr : Z -> SdrPsdHeader) (payload : Z -> list byte) (n psd_id s : Z).

(** A frame cut into [n] segments: every segment names the frame, its index
    and the number of segments. *)
Definition psd_frame_cut : Prop :=
  forall i, 0 <= i < n ->
    psd_psd_id (hdr i) = psd_id /\ psd_frame_seq (hdr i) = s /\
    psd_segment_count (hdr i) = n /\ psd_segment_index (hdr i) = i.

Definition psd_datagram (i : Z) : SdrPsdHeader * list byte := (hdr i, payload i).

(** [r] has stored exactly the segments [seen] of the frame. *)
Definition psd_collecting (r : PsdReassembler) (seen : list Z) : Prop :=
  match ra_frames r !! (psd_id, s) with
  | None => seen = []
  | Some fb => forall i, fb_segments fb !! i = if decide (i ∈ seen) then Some (payload i) else None
  end.

Lemma psd_collected_lookup r seen i :
  psd_frame_cut -> 0 <= i < n -> psd_collecting r seen ->
  forall j, psd_collected (hdr i) (payload i) r !! j =
    if decide (j ∈ seen ++ [i]) then Some (payload j) else None.
Proof.
  intros Hcut Hi Hr j. destruct (Hcut i Hi) as (Hid & Hs & _ & Hix).
  unfold psd_collected, psd_collecting, psd_key in *. rewrite Hid, Hs, Hix.
  rewrite lookup_insert.
  destruct (decide (i = j)) as [<-|Hne]; [by rewrite decide_True by set_solver|].
  destruct (ra_frames r !! (psd_id, s)) as [fb|].
  - rewrite Hr. repeat case_decide; set_solver.
  - subst seen. rewrite lookup_empty. rewrite decide_False; [done|]. set_solver.
Qed.

Lemma psd_segments_size (segs : gmap Z (list byte)) (l : list Z) :
  NoDup l -> (forall j, segs !! j = if decide (j ∈ l) then Some (payload j) else None) ->
  size segs = length l.
Proof.
  intros Hnd Hl. rewrite <- size_dom. rewrite <- (size_list_to_set (C := gset Z) l) by done.
  f_equal. apply set_eq. intros j. rewrite elem_of_dom, Hl, elem_of_list_to_set.
  case_decide; [naive_solver|]. split; [by intros [? [=]]|done].
Qed.

Lemma psd_full_iff segs l :
  NoDup l -> (forall j, j ∈ l -> 0 <= j < n) ->
  (forall j, segs !! j = if decide (j ∈ l) then Some (payload j) else None) ->
  0 <= n -> psd_full n segs <-> length l = Z.to_nat n.
Proof.
  intros Hnd Hin Hl Hn. unfold psd_full. rewrite (psd_segments_size segs l) by done.
  assert (length l <= Z.to_nat n)%nat as Hle.
  { rewrite <- zrange_length. apply NoDup_incl_length; [by apply NoDup_ListNoDup|].
    intros j Hj%list_elem_of_In. apply list_elem_of_In, elem_of_zrange. by apply Hin. }
  split; [lia|]. intros Hlen. split; [lia|]. intros i Hi. rewrite Hl.
  rewrite decide_True; [eauto|].
  assert (l ≡ₚ zrange n) as ->; [|by apply elem_of_zrange].
  apply submseteq_length_Permutation; [|rewrite zrange_length; lia].
  apply NoDup_submseteq; [done|]. intros j Hj. apply elem_of_zrange. by apply Hin.
Qed.

(** A segment that does not complete the frame is stored and nothing is emitted. *)
Lemma psd_ingest_more r seen i :
  psd_frame_cut -> 0 <= i < n -> psd_collecting r seen ->
  NoDup (seen ++ [i]) -> (forall j, j ∈ seen -> 0 <= j < n) ->
  length (seen ++ [i]) <> Z.to_nat n ->
  exists r', psd_ingest (hdr i) (payload i) r = (r', Ok None) /\ psd_collecting r' (seen ++ [i]) /\
    complete_frames (ra_stats r') = complete_frames (ra_stats r) /\
    forall k, k.1 <> psd_id -> ra_frames r' !! k = ra_frames r !! k.
Proof.
  intros Hcut Hi Hr Hnd Hseen Hlen. destruct (Hcut i Hi) as (Hid & Hs & Hn & Hix).
  pose proof (psd_collected_lookup r seen i Hcut Hi Hr) as Hcol.
  rewrite psd_ingest_eq. cbn zeta. rewrite Hn.
  rewrite decide_False by (rewrite (psd_full_iff _ (seen ++ [i])); set_solver by lia).
  eexists. split; [done|]. unfold psd_collecting, psd_key. rewrite Hid, Hs. simpl. split_and!.
  - rewrite lookup_insert_eq. done.
  - apply drop_older_complete.
  - intros k Hk. rewrite lookup_insert_ne by (intros <-; done).
    rewrite drop_older_lookup. by rewrite bool_decide_false by done.
Qed.

(** The last missing segment emits the frame, payloads in index order. *)
Lemma psd_ingest_last r seen i bounds :
  psd_frame_cut -> 0 <= i < n -> psd_collecting r seen ->
  NoDup (seen ++ [i]) -> (forall j, j ∈ seen -> 0 <= j < n) ->
  length (seen ++ [i]) = Z.to_nat n -> frequency_bounds (hdr i) = Ok bounds ->
  exists r', psd_ingest (hdr i) (payload i) r =
      (r', Ok (Some (wideband_frame (hdr i) (ra_stats r')
                       (decode_bins (concat (payload <$> zrange n))) bounds))) /\
    ra_frames r' !! (psd_id, s) = None /\
    complete_frames (ra_stats r') = complete_frames (ra_stats r) + 1 /\
    forall k, k.1 <> psd_id -> ra_frames r' !! k = ra_frames r !! k.
Proof.
  intros Hcut Hi Hr Hnd Hseen Hlen Hb. destruct (Hcut i Hi) as (Hid & Hs & Hn & Hix).
  pose proof (psd_collected_lookup r seen i Hcut Hi Hr) as Hcol.
  rewrite psd_ingest_eq. cbn zeta. rewrite Hn.
  assert (psd_full n (psd_collected (hdr i) (payload i) r)) as Hfull
    by (rewrite (psd_full_iff _ (seen ++ [i])); set_solver by lia).
  rewrite decide_True by done.
  assert (omap (fun j => psd_collected (hdr i) (payload i) r !! j) (zrange n) = payload <$> zrange n) as ->.
  { destruct Hfull as [_ Hall].
    assert (forall l : list Z, (forall j, j ∈ l -> 0 <= j < n) ->
      omap (fun j => psd_collected (hdr i) (payload i) r !! j) l = payload <$> l) as Hom.
    { induction l as [|j l IH]; intros Hl; csimpl; [done|].
      destruct (Hall j) as [p Hp]; [apply Hl; left|].
      rewrite Hp. rewrite Hcol in Hp. case_decide; [|done]. injection Hp as <-.
      f_equal. apply IH. intros j' Hj'. apply Hl. by right. }
    apply Hom. intros j. by rewrite elem_of_zrange. }
  rewrite Hb. 
  match goal with |- exists r', (?r3, _) = _ /\ _ => exists r3 end. split; [reflexivity|].
  unfold psd_key. rewrite Hid, Hs. simpl. split_and!.
  - by rewrite lookup_delete_eq.
  - by rewrite drop_older_complete.
  - intros k Hk. rewrite lookup_delete_ne by (intros <-; done).
    rewrite drop_older_lookup. by rewrite bool_decide_false by done.
Qed.

Lemma psd_run_collect rest seen r :
  psd_frame_cut -> psd_collecting r seen -> seen ++ rest ≡ₚ zrange n -> rest <> [] ->
  (forall i, 0 <= i < n -> is_ok (frequency_bounds (hdr i)) = true) ->
  exists r' frame, psd_run r (psd_datagram <$> rest) =
      (r', replicate (length rest - 1) (Ok None) ++ [Ok (Some frame)]) /\
    (exists i bounds, i ∈ rest /\ 0 <= i < n /\ frequency_bounds (hdr i) = Ok bounds /\
      frame = wideband_frame (hdr i) (ra_stats r') (decode_bins (concat (payload <$> zrange n))) bounds) /\
    ra_frames r' !! (psd_id, s) = None /\
    complete_frames (ra_stats r') = complete_frames (ra_stats r) + 1 /\
    forall k, k.1 <> psd_id -> ra_frames r' !! k = ra_frames r !! k.
Proof.
  intros Hcut. revert seen r. induction rest as [|i rest IH]; intros seen r Hr Hperm Hne Hfb; [done|].
  assert (forall j, j ∈ seen ++ i :: rest -> 0 <= j < n) as Hin
    by (intros j; rewrite Hperm; apply elem_of_zrange).
  assert (NoDup (seen ++ i :: rest)) as Hnd by (rewrite Hperm; apply NoDup_zrange).
  assert (length (seen ++ i :: rest) = Z.to_nat n) as Hlen by (by rewrite Hperm, zrange_length).
  replace (seen ++ i :: rest) with ((seen ++ [i]) ++ rest) in * by (by rewrite <- app_assoc).
  assert (0 <= i < n) as Hi by (apply Hin; set_solver).
  apply NoDup_app in Hnd as (Hnd1 & _ & _).
  destruct rest as [|i2 rest]; simpl.
  - rewrite app_nil_r in *. specialize (Hfb i Hi).
    destruct (frequency_bounds (hdr i)) as [bounds|] eqn:Hb; [|done].
    destruct (psd_ingest_last r seen i bounds) as (r' & -> & H1 & H2 & H3); [set_solver..|].
    exists r', (wideband_frame (hdr i) (ra_stats r') (decode_bins (concat (payload <$> zrange n))) bounds).
    split_and!; [done|exists i, bounds; split_and!; set_solver by lia|done..].
  - rewrite length_app in Hlen. simpl in Hlen.
    destruct (psd_ingest_more r seen i) as (r1 & -> & Hr1 & Hc1 & Hk1); [set_solver by lia..|].
    destruct (IH (seen ++ [i]) r1) as (r' & frame & Heq & Hf & Hk & Hc & Hfr); [done..|].
    simpl in Heq. rewrite Heq. exists r', frame.
    split; [simpl; by rewrite Nat.sub_0_r|].
    split; [destruct Hf as (j & b & Hj & Hf); exists j, b; split; [by right|done]|]. split; [done|].
    split; [by rewrite Hc, Hc1|]. intros k Hne'. by rewrite Hfr, Hk1.
Qed.

(** Part of the frame: every segment is stored and nothing is emitted. *)
Lemma psd_run_partial part seen r :
  psd_frame_cut -> psd_collecting r seen -> NoDup (seen ++ part) ->
  (forall j, j ∈ seen ++ part -> 0 <= j < n) -> (length (seen ++ part) < Z.to_nat n)%nat ->
  exists r', psd_run r (psd_datagram <$> part) = (r', replicate (length part) (Ok None)) /\
    psd_collecting r' (seen ++ part).
Proof.
  intros Hcut. revert seen r. induction part as [|i part IH]; intros seen r Hr Hnd Hin Hlen.
  { exists r. by rewrite app_nil_r. }
  replace (seen ++ i :: part) with ((seen ++ [i]) ++ part) in * by (by rewrite <- app_assoc).
  rewrite length_app in Hlen. pose proof Hnd as (Hnd1 & _ & _)%NoDup_app.
  destruct (psd_ingest_more r seen i) as (r1 & Hi & Hr1 & _ & _); [set_solver by lia..|].
  destruct (IH (seen ++ [i]) r1 Hr1 Hnd Hin) as (r' & Hrun & Hr'); [rewrite length_app; lia|].
  exists r'. split; [|done]. rewrite fmap_cons. unfold psd_datagram at 1. cbn [psd_run]. by rewrite Hi, Hrun.
Qed.
End Reassembly.

(** [_frequency_bounds] is defined for every header that came off the wire
    with at least one bin. *)
Lemma frequency_bounds_ok h :
  is_ok (psd_pack h) = true -> 0 < psd_total_bins h -> is_ok (frequency_bounds h) = true.
Proof.
  intros Hp%psd_pack_ok_iff Ht. destruct Hp as [_ Hr].
  rewrite PSD_STRUCT_eq in Hr. unfold psd_values in Hr. field_ranges Hr.
  unfold frequency_bounds. case_match eqn:Hlt.
  - rewrite int_truediv_ok by lia. done.
  - by rewrite !float_of_int_ok by lia.
Qed.

(** The whole frame, from a reassembler that does not buffer it yet. *)
Lemma psd_reassembly hdr payload n psd_id s order r :
  0 < n -> order ≡ₚ zrange n -> psd_frame_cut hdr n psd_id s ->
  (forall i, 0 <= i < n -> is_ok (psd_pack (hdr i)) = true /\ 0 < psd_total_bins (hdr i)) ->
  ra_frames r !! (psd_id, s) = None ->
  exists r' frame,
    psd_run r (psd_datagram hdr payload <$> order) =
      (r', replicate (length order - 1) (Ok None) ++ [Ok (Some frame)]) /\
    (exists i bounds, 0 <= i < n /\ frequency_bounds (hdr i) = Ok bounds /\
      frame = wideband_frame (hdr i) (ra_stats r') (decode_bins (concat (payload <$> zrange n))) bounds) /\
    ra_frames r' !! (psd_id, s) = None /\
    complete_frames (ra_stats r') = complete_frames (ra_stats r) + 1 /\
    forall k, k.1 <> psd_id -> ra_frames r' !! k = ra_frames r !! k.
Proof.
  intros Hn Hperm Hcut Hh Hr.
  destruct (psd_run_collect hdr payload n psd_id s order [] r) as (r' & frame & Hrun & (i & b & _ & Hf) & Hrest); try done.
  - unfold psd_collecting. by rewrite Hr.
  - intros ->. apply Permutation_nil in Hperm.
    apply (f_equal length) in Hperm. rewrite zrange_length in Hperm. simpl in Hperm. lia.
  - intros i Hi. destruct (Hh i Hi). by apply frequency_bounds_ok.
  - exists r', frame. split; [done|]. split; [by exists i, b|done].
Qed.

(** C6: Order-independent reassembly.  Take a frame cut into [n] segments with consistent,
    packable headers and at least one bin, not yet buffered.  Whatever the order in which
    its [n] datagrams arrive, [ingest] returns [None] for all but the last and then one
    frame whose bins are the decoded concatenation of the payloads in index order (cut to
    [total_bins]); the frame is counted once, its buffer is freed, and the buffers of
    other [psd_id]s are untouched. *)
Theorem psd_reassembly_any_order
    (hdr : Z -> SdrPsdHeader) (payload : Z -> list byte) (n psd_id s : Z)
    (order : list Z) (r : PsdReassembler) :
  0 < n -> order ≡ₚ zrange n -> psd_frame_cut hdr n psd_id s ->
  (forall i, 0 <= i < n -> is_ok (psd_pack (hdr i)) = true /\ 0 < psd_total_bins (hdr i)) ->
  ra_frames r !! (psd_id, s) = None ->
  exists r' frame,
    psd_run r (psd_datagram hdr payload <$> order) =
      (r', replicate (length order - 1) (Ok None) ++ [Ok (Some frame)]) /\
    (exists i, 0 <= i < n /\
       dget "psd_id" frame = Some (PInt psd_id) /\ dget "frame_seq" frame = Some (PInt s) /\
       dget "bins_dbfs" frame = Some (PList (PFloat <$>
         slice_to (psd_total_bins (hdr i)) (decode_bins (concat (payload <$> zrange n)))))) /\
    ra_frames r' !! (psd_id, s) = None /\
    complete_frames (ra_stats r') = complete_frames (ra_stats r) + 1 /\
    forall k, k.1 <> psd_id -> ra_frames r' !! k = ra_frames r !! k.
Proof.
  intros Hn Hperm Hcut Hh Hr.
  destruct (psd_reassembly hdr payload n psd_id s order r)
    as (r' & frame & Hrun & (i & bounds & Hi & Hb & ->) & Hrest); [done..|].
  exists r', (wideband_frame (hdr i) (ra_stats r') (decode_bins (concat (payload <$> zrange n))) bounds).
  split; [done|]. split; [|done]. exists i. destruct (Hcut i Hi) as (Hid & Hs & _).
  destruct bounds as [[? ?] ?]. split; [done|]. simpl. by rewrite Hid, Hs.
Qed.

(** A two-segment frame for the witnesses below. *)
Definition sample_psd_header (seq i n bins start : Z) : SdrPsdHeader :=
  {| psd_magic := SDR_PSD_MAGIC; psd_version := 1; psd_header_len := 72;
     psd_frame_type := SDR_FRAME_PSD; psd_psd_id := 0; psd_frame_seq := seq;
     psd_adc_timestamp := 0; psd_start_frequency_hz := start; psd_bin_spacing_millihz := 26245117;
     psd_fft_size := 16384; psd_total_bins := bins; psd_segment_index := i;
     psd_segment_count := n; psd_bin_start := i; psd_bin_count := 1;
     psd_sample_format := 1; psd_flags := 0; psd_averaging_count := 4;
     psd_payload_bytes := 2; psd_stop_frequency_hz := 108000000 |}.

Lemma psd_reassembly_any_order_witness :
  exists r' frame,
    psd_run psd_init (psd_datagram (fun i => sample_psd_header 12 i 2 2 500000) i16_bytes <$> [1; 0]) =
      (r', replicate (length [1; 0] - 1) (Ok None) ++ [Ok (Some frame)]) /\
    ra_frames r' !! (0, 12) = None.
Proof.
  destruct (psd_reassembly_any_order (fun i => sample_psd_header 12 i 2 2 500000) i16_bytes
              2 0 12 [1; 0] psd_init) as (r' & frame & Hrun & _ & Hk & _).
  - lia.
  - apply Permutation_swap.
  - intros i Hi. done.
  - intros i Hi. split; [|done]. assert (i = 0 \/ i = 1) as [->| ->] by lia; by vm_compute.
  - reflexivity.
  - exists r', frame. split; [exact Hrun | exact Hk].
Defined.

(** ** Bin decoding *)

Lemma range_step_2 k : 0 <= k -> range_step (k + 1) 2 = 0 :: ((fun j => j + 2) <$> range_step (k - 1) 2).
Proof.
  intros Hk. unfold range_step.
  replace ((k + 1 + 2 - 1) / 2) with (k / 2 + 1).
  2:{ replace (k + 1 + 2 - 1) with (k + 1 * 2) by lia. by rewrite Z.div_add by lia. }
  rewrite zrange_cons by (apply Z.div_pos; lia). csimpl. f_equal.
  replace (k - 1 + 2 - 1) with k by lia.
  rewrite <- !list_fmap_compose. apply list_fmap_ext. intros i x _. simpl. lia.
Qed.

Lemma decode_bins_cons b0 b1 p :
  decode_bins (b0 :: b1 :: p) = q8_to_dbfs (to_signed 2 (le_Z [b0; b1])) :: decode_bins p.
Proof.
  unfold decode_bins. replace (zlen (b0 :: b1 :: p) - 1) with (zlen p + 1) by (unfold zlen; simpl; lia).
  rewrite range_step_2 by (unfold zlen; lia). csimpl. f_equal.
  rewrite <- list_fmap_compose. apply list_fmap_ext. intros i x Hx. simpl.
  assert (0 <= x) as Hx0.
  { apply list_elem_of_lookup_2 in Hx. unfold range_step in Hx.
    apply list_elem_of_fmap in Hx as (y & -> & Hy%elem_of_zrange). lia. }
  do 2 f_equal. unfold slice.
  replace (Z.to_nat (x + 2)) with (S (S (Z.to_nat x))) by lia.
  replace (Z.to_nat (x + 2 + 2)) with (S (S (Z.to_nat (x + 2)))) by lia. simpl.
  f_equal. lia.
Qed.

(** Decoding inverts the 16-bit encoding the simulator uses. *)
Lemma decode_bins_encode qs :
  Forall (fun q => - 2 ^ 15 <= q < 2 ^ 15) qs ->
  decode_bins (concat (i16_bytes <$> qs)) = q8_to_dbfs <$> qs.
Proof.
  induction 1 as [|q qs Hq Hqs IH]; [done|].
  pose proof (i16_bytes_length q) as Hl. pose proof (i16_bytes_signed q Hq) as Hs.
  change (concat (i16_bytes <$> q :: qs)) with (i16_bytes q ++ concat (i16_bytes <$> qs)).
  destruct (i16_bytes q) as [|b0 [|b1 [|? ?]]]; try done. simpl.
  rewrite decode_bins_cons. by rewrite IH, Hs.
Qed.

(** The double nearest to [k / 100] for [k] hundredths of a dB. *)
Definition centi_db (neg : bool) (k : Z) : float :=
  if decide (k = 0) then S754_zero neg else f_ratio (if neg then - k else k) 100.

Definition q8_centi (q8 : Z) : Z := round_half_even (100 * Z.abs q8) 256.

(** Division by 256 is exact and [round(_, 2)] acts on the exact quotient. *)
Lemma q8_to_dbfs_eq q8 :
  - 2 ^ 15 <= q8 < 2 ^ 15 -> q8_to_dbfs q8 = centi_db (q8 <? 0) (q8_centi q8).
Proof.
  intros Hq. unfold q8_to_dbfs, centi_db, q8_centi.
  destruct (decide (q8 = 0)) as [->|Hne]; [done|].
  destruct (f_of_Z_exact q8 ltac:(lia)) as [Hf Hd]. rewrite Hf.
  set (d := Zdigits2 (Z.abs q8)) in *.
  assert (0 < 2 ^ (53 - d)) as Hp by (apply Z.pow_pos_nonneg; lia).
  assert (Z.pos (Z.to_pos (Z.abs q8 * 2 ^ (53 - d))) = Z.abs q8 * 2 ^ (53 - d)) as Hpos
    by (apply Z2Pos.id; nia).
  rewrite div_256_exact; [|rewrite Hpos, Zdigits2_mul_pow2 by lia; unfold d; lia|lia].
  unfold round_digits. rewrite Hpos.
  replace (Z.max 0 (d - 53 - 8)) with 0 by lia.
  replace (Z.max 0 (- (d - 53 - 8))) with ((53 - d) + 8) by lia.
  rewrite Z.pow_add_r by lia. change (2 ^ 0) with 1. change (2 ^ 8) with 256. change (10 ^ 2) with 100.
  replace (Z.abs q8 * 2 ^ (53 - d) * 100 * 1) with (2 ^ (53 - d) * (100 * Z.abs q8)) by lia.
  by rewrite round_half_even_scale by lia.
Qed.

(** Bin precision.  For each of the 65536 sixteen-bit values, the published bin is the
    double nearest to [k / 100] dB, where [k] is the number of hundredths nearest to
    [q8 / 256] (at most half a hundredth away), with the sign of [q8]. *)
Lemma q8_to_dbfs_precise (q8 : Z) :
  - 2 ^ 15 <= q8 < 2 ^ 15 ->
  exists k, q8_to_dbfs q8 = centi_db (q8 <? 0) k /\ 2 * Z.abs (256 * k - 100 * Z.abs q8) <= 256.
Proof.
  intros Hq. exists (q8_centi q8).
  split; [by apply q8_to_dbfs_eq | by apply round_half_even_close].
Qed.

Lemma q8_to_dbfs_precise_witness :
  exists k, q8_to_dbfs (-23680) = centi_db (-23680 <? 0) k /\
    2 * Z.abs (256 * k - 100 * Z.abs (-23680)) <= 256.
Proof. apply (q8_to_dbfs_precise (-23680)). lia. Defined.

(** ** Buffers under in-order frames *)

(** For [psd_id], nothing but frame [s] is buffered. *)
Definition psd_only (psd_id s : Z) (r : PsdReassembler) : Prop :=
  forall s', is_Some (ra_frames r !! (psd_id, s')) -> s' = s.

(** [s'] is [s] itself or ahead of it in the half-window order. *)
Definition seq_not_before (s s' : Z) : Prop := s' = s \/ seq_less s s' = true.

Lemma psd_ingest_only h p s r :
  psd_only (psd_psd_id h) s r -> seq_not_before s (psd_frame_seq h) ->
  psd_only (psd_psd_id h) (psd_frame_seq h) (psd_ingest h p r).1.
Proof.
  intros Honly Hseq s'. rewrite psd_ingest_eq. cbn zeta.
  assert (is_Some (ra_frames (drop_older_frames (psd_psd_id h) (psd_frame_seq h) r) !! (psd_psd_id h, s')) ->
          s' = psd_frame_seq h) as Hd.
  { rewrite drop_older_lookup. simpl. rewrite bool_decide_true by done. simpl.
    destruct (seq_less s' (psd_frame_seq h)) eqn:Hl; [by intros [? [=]]|].
    intros ->%Honly. destruct Hseq as [->|Hseq]; [done|congruence]. }
  case_decide; cbn.
  - rewrite lookup_delete_is_Some. naive_solver.
  - rewrite lookup_insert_is_Some. unfold psd_key. naive_solver.
Qed.

(** Frames of one [psd_id] arriving in order, segments in any order. *)
Fixpoint psd_in_order (psd_id s : Z) (segs : list (SdrPsdHeader * list byte)) : Prop :=
  match segs with
  | [] => True
  | (h, _) :: segs' =>
      psd_psd_id h = psd_id /\ seq_not_before s (psd_frame_seq h) /\
      psd_in_order psd_id (psd_frame_seq h) segs'
  end.

(** Bounded memory.  While the frames of a [psd_id] arrive in order (each segment
    belongs to the current frame or to one ahead of it in the wrap-around order), the
    reassembler never holds more than one buffer for that [psd_id], whatever segments
    are lost or duplicated. *)
Lemma psd_one_buffer_in_order (psd_id s : Z) (segs : list (SdrPsdHeader * list byte)) :
  psd_in_order psd_id s segs ->
  exists s', forall s1, is_Some (ra_frames (psd_run psd_init segs).1 !! (psd_id, s1)) -> s1 = s'.
Proof.
  intros Hord.
  assert (forall s r, psd_in_order psd_id s segs -> psd_only psd_id s r ->
            exists s', psd_only psd_id s' (psd_run r segs).1) as Hgen.
  { clear. induction segs as [|[h p] segs IH]; intros s r Hord Hr; simpl; [by exists s|].
    destruct Hord as (<- & Hs & Hord).
    pose proof (psd_ingest_only h p s r Hr Hs) as Hi.
    destruct (psd_ingest h p r) as [r' out]. destruct (IH _ r' Hord Hi) as [s' Hs'].
    exists s'. by destruct (psd_run r' segs). }
  destruct (Hgen s psd_init Hord) as [s' Hs']; [by intros ? [? ?]|].
  by exists s'.
Qed.

Lemma psd_one_buffer_in_order_witness :
  exists s', forall s1,
    is_Some (ra_frames (psd_run psd_init
      [(sample_psd_header 0xFFFFFFFF 0 2 2 500000, []); (sample_psd_header 0 1 2 2 500000, [])]).1
      !! (0, s1)) -> s1 = s'.
Proof.
  apply (psd_one_buffer_in_order 0 0xFFFFFFFF). simpl. unfold seq_not_before.
  split_and!; [done|by left|done|by right|done].
Defined.

(** ** Late duplicates and restarted sequences *)

Lemma stale_keys_NoDup psd_id s r : NoDup (stale_keys psd_id s r).
Proof. apply NoDup_filter, NoDup_fst_map_to_list. Qed.

(** With one buffer for [psd_id], older than [s], exactly that one is stale. *)
Lemma stale_keys_single psd_id s0 s r fb :
  ra_frames r !! (psd_id, s0) = Some fb -> psd_only psd_id s0 r -> seq_less s0 s = true ->
  stale_keys psd_id s r = [(psd_id, s0)].
Proof.
  intros Hfb Honly Hless. apply Permutation_singleton_r.
  apply NoDup_Permutation; [apply stale_keys_NoDup | apply NoDup_singleton |].
  intros [i s']. rewrite elem_of_stale_keys, list_elem_of_singleton. simpl. split.
  - intros (-> & _ & Hs'). by rewrite (Honly s' Hs').
  - intros [= -> ->]. eauto.
Qed.

(** A duplicate datagram that arrives after its frame was completed is not recognised:
    it opens a new buffer, and the first segment of the next frame then counts one more
    dropped frame and [segment_count - 1] missing segments although nothing was lost. *)
Theorem psd_late_duplicate_counts_drop
    (h h2 : SdrPsdHeader) (p p2 : list byte) (r : PsdReassembler) :
  (forall s, ra_frames r !! (psd_psd_id h, s) = None) ->
  1 < psd_segment_count h -> psd_psd_id h2 = psd_psd_id h ->
  seq_less (psd_frame_seq h) (psd_frame_seq h2) = true ->
  let r2 := (psd_ingest h2 p2 (psd_ingest h p r).1).1 in
  dropped_frame_count (ra_stats r2) = dropped_frame_count (ra_stats r) + 1 /\
  missing_segment_count (ra_stats r2) =
    missing_segment_count (ra_stats r) + (psd_segment_count h - 1).
Proof.
  intros Hempty Hn Hid Hless.
  assert (stale_keys (psd_psd_id h) (psd_frame_seq h) r = []) as Hstale.
  { apply elem_of_nil_inv. intros [i s'] (Hi & _ & [? Hs'])%elem_of_stale_keys.
    simpl in Hi. subst i. by rewrite Hempty in Hs'. }
  assert (drop_older_frames (psd_psd_id h) (psd_frame_seq h) r = r) as Hdrop
    by (unfold drop_older_frames; by rewrite Hstale).
  assert ((psd_ingest h p r).1 =
    MkPsdReassembler (<[psd_key h := MkFrameBuffer h {[psd_segment_index h := p]}]> (ra_frames r))
      (ra_stats r)) as ->.
  { rewrite psd_ingest_eq. cbn zeta. rewrite Hdrop. unfold psd_collected, psd_key.
    rewrite Hempty. rewrite decide_False; [done|].
    intros [Hsz _]. rewrite insert_empty, map_size_singleton in Hsz. lia. }
  set (r1 := MkPsdReassembler _ _).
  assert (ra_frames r1 !! (psd_psd_id h, psd_frame_seq h) =
          Some (MkFrameBuffer h {[psd_segment_index h := p]})) as Hr1 by apply lookup_insert_eq.
  assert (psd_only (psd_psd_id h) (psd_frame_seq h) r1) as Honly.
  { intros s' [fb Hs']. simpl in Hs'. apply lookup_insert_Some in Hs' as [[[= ->] _]|[_ Hs']]; [done|].
    by rewrite Hempty in Hs'. }
  assert (ra_stats (drop_older_frames (psd_psd_id h2) (psd_frame_seq h2) r1) =
    MkPsdStats (complete_frames (ra_stats r)) (dropped_frame_count (ra_stats r) + 1)
      (missing_segment_count (ra_stats r) + (psd_segment_count h - 1))
      (last_frame_seq (ra_stats r))) as Hst.
  { unfold drop_older_frames. rewrite Hid, (stale_keys_single _ _ _ _ _ Hr1 Honly Hless).
    cbn [foldl]. unfold pop_stale. rewrite Hr1. simpl. rewrite map_size_singleton.
    f_equal. lia. }
  rewrite psd_ingest_eq. cbn zeta. rewrite Hst. case_decide; done.
Qed.

Lemma psd_late_duplicate_counts_drop_witness :
  let r2 := (psd_ingest (sample_psd_header 8 0 8 2 500000) []
              (psd_ingest (sample_psd_header 7 0 8 2 500000) [] psd_init).1).1 in
  dropped_frame_count (ra_stats r2) = 1 /\ missing_segment_count (ra_stats r2) = 7.
Proof.
  apply (psd_late_duplicate_counts_drop (sample_psd_header 7 0 8 2 500000)
           (sample_psd_header 8 0 8 2 500000) [] [] psd_init); [done|done|done|reflexivity].
Defined.

(** A segment of another frame that does not count the frame [(psd_id, s)] as
    older than its own. *)
Definition psd_passes (psd_id s : Z) (seg : SdrPsdHeader * list byte) : Prop :=
  psd_key seg.1 <> (psd_id, s) /\ (psd_psd_id seg.1 = psd_id -> seq_less s (psd_frame_seq seg.1) = false).

Lemma psd_run_passes psd_id s segs r :
  Forall (psd_passes psd_id s) segs -> ra_frames (psd_run r segs).1 !! (psd_id, s) = ra_frames r !! (psd_id, s).
Proof.
  intros Hall. revert r. induction Hall as [|[h p] segs [Hkey Hold] _ IH]; intros r; [done|].
  cbn [psd_run]. specialize (IH (psd_ingest h p r).1).
  assert (ra_frames (psd_ingest h p r).1 !! (psd_id, s) = ra_frames r !! (psd_id, s)) as Hone.
  { assert (ra_frames (drop_older_frames (psd_psd_id h) (psd_frame_seq h) r) !! (psd_id, s) =
      ra_frames r !! (psd_id, s)) as Hd.
    { rewrite drop_older_lookup. cbn [fst snd]. case_bool_decide as Hid; [|done]. pose proof (Hold (eq_sym Hid)) as Hless. cbn [fst] in Hless. by rewrite Hless. }
    rewrite psd_ingest_eq. cbn zeta. case_decide; cbn [fst ra_frames].
    - by rewrite lookup_delete_ne.
    - by rewrite lookup_insert_ne. }
  destruct (psd_ingest h p r) as [r1 out]. cbn [fst] in *. destruct (psd_run r1 segs) as [r2 outs].
  cbn [fst] in *. by rewrite IH.
Qed.

(** Payload of segment [j] when [first] came from one sender configuration and
    the others from the next. *)
Definition mixed_payload (first : list Z) (old new : Z -> list byte) (j : Z) : list byte :=
  if decide (j ∈ first) then old j else new j.

(** C29: Frames of two configurations are mixed.  Let two configurations of the
    same [psd_id] cut a frame number [s] into the same number of segments, as
    happens when the device restarts its frame counter at 0.  Some segments
    [first] of the old frame [s] arrive, not all; then any segments of frames
    that do not count [s] as older (the new configuration's frames below [s]
    among them); then exactly the missing segments [second], of the new frame
    [s].  Nothing removes the old buffer, and the last of [second] completes
    it: one frame is published, under the new configuration's frequency range,
    whose bins are the old payloads at [first] and the new ones at [second]. *)
Theorem psd_restart_mixes_frames
    (old new : Z -> SdrPsdHeader) (old_bins new_bins : Z -> list byte) (n psd_id s : Z)
    (first second : list Z) (between : list (SdrPsdHeader * list byte)) (r : PsdReassembler) :
  psd_frame_cut old n psd_id s -> psd_frame_cut new n psd_id s ->
  (forall i, 0 <= i < n -> is_ok (frequency_bounds (old i)) = true /\ is_ok (frequency_bounds (new i)) = true) ->
  first ++ second ≡ₚ zrange n -> second <> [] -> Forall (psd_passes psd_id s) between ->
  ra_frames r !! (psd_id, s) = None ->
  exists r1 r2 r3 frame i,
    psd_run r (psd_datagram old old_bins <$> first) = (r1, replicate (length first) (Ok None)) /\
    (psd_run r1 between).1 = r2 /\
    psd_run r2 (psd_datagram new new_bins <$> second) =
      (r3, replicate (length second - 1) (Ok None) ++ [Ok (Some frame)]) /\
    i ∈ second /\
    dget "start_frequency_hz" frame = Some (PInt (psd_start_frequency_hz (new i))) /\
    dget "bins_dbfs" frame = Some (PList (PFloat <$> slice_to (psd_total_bins (new i))
      (decode_bins (concat (mixed_payload first old_bins new_bins <$> zrange n))))).
Proof.
  intros Hold Hnew Hfb Hperm Hne Hpass Hr.
  set (hdr := fun j => if decide (j ∈ first) then old j else new j).
  set (pay := mixed_payload first old_bins new_bins).
  assert (NoDup (first ++ second)) as Hnd by (rewrite Hperm; apply NoDup_zrange).
  pose proof Hnd as (Hnd1 & Hdis & _)%NoDup_app.
  assert (forall j, j ∈ first ++ second -> 0 <= j < n) as Hin by (intros j; rewrite Hperm; apply elem_of_zrange).
  assert (length (first ++ second) = Z.to_nat n) as Hlen by (by rewrite Hperm, zrange_length).
  assert (psd_frame_cut hdr n psd_id s) as Hcut by (intros i Hi; unfold hdr; case_decide; auto).
  assert (psd_datagram old old_bins <$> first = psd_datagram hdr pay <$> first) as ->.
  { apply list_fmap_ext. intros k j Hj%list_elem_of_lookup_2. unfold psd_datagram, hdr, pay, mixed_payload.
    by rewrite !decide_True. }
  assert (psd_datagram new new_bins <$> second = psd_datagram hdr pay <$> second) as ->.
  { apply list_fmap_ext. intros k j Hj%list_elem_of_lookup_2. unfold psd_datagram, hdr, pay, mixed_payload.
    by rewrite !decide_False by (intros Hj'; by apply (Hdis j)). }
  destruct (psd_run_partial hdr pay n psd_id s first [] r) as (r1 & Hrun1 & Hcol1); [done|unfold psd_collecting; by rewrite Hr|done|set_solver| |].
  { rewrite length_app in Hlen. simpl. destruct second; [done|]. simpl in Hlen. lia. }
  pose proof (psd_run_passes psd_id s between r1 Hpass) as Hkeep.
  assert (psd_collecting pay psd_id s (psd_run r1 between).1 first) as Hcol2.
  { revert Hcol1. unfold psd_collecting. by rewrite Hkeep. }
  destruct (psd_run_collect hdr pay n psd_id s second first (psd_run r1 between).1)
    as (r3 & frame & Hrun3 & (i & bounds & Hi & Hir & Hb & ->) & _); [done..| |].
  { intros i Hi. destruct (Hfb i Hi). unfold hdr. by case_decide. }
  assert (hdr i = new i) as Hhi by (unfold hdr; rewrite decide_False; [done|]; intros Hj; by apply (Hdis i)).
  rewrite Hhi in *. eexists r1, _, r3, _, i. split_and!; [done|done|exact Hrun3|done|..].
  - assert (bounds.1.1 = psd_start_frequency_hz (new i)) as <-; [|by destruct bounds as [[? ?] ?]].
    revert Hb. unfold frequency_bounds, mbind, res_bind. repeat case_match; intros; by simplify_eq.
  - by destruct bounds as [[? ?] ?].
Qed.

(** Segment 0 of an old frame 5, the new configuration's frame 0, and segment 1
    of its frame 5. *)
Lemma psd_restart_mixes_frames_witness :
  let old := psd_datagram (fun i => sample_psd_header 5 i 2 2 500000) (fun _ => i16_bytes (-256)) in
  let new s := psd_datagram (fun i => sample_psd_header s i 2 2 98000000) (fun _ => i16_bytes 512) in
  exists r1 r2 r3 frame i,
    psd_run psd_init (old <$> [0]) = (r1, [Ok None]) /\
    (psd_run r1 (new 0 <$> [0; 1])).1 = r2 /\
    psd_run r2 (new 5 <$> [1]) = (r3, [Ok (Some frame)]) /\ i ∈ [1] /\
    dget "start_frequency_hz" frame = Some (PInt 98000000) /\
    dget "bins_dbfs" frame = Some (PList [PFloat (q8_to_dbfs (-256)); PFloat (q8_to_dbfs 512)]).
Proof.
  apply (psd_restart_mixes_frames
           (fun i => sample_psd_header 5 i 2 2 500000) (fun i => sample_psd_header 5 i 2 2 98000000)
           (fun _ => i16_bytes (-256)) (fun _ => i16_bytes 512) 2 0 5 [0] [1]
           (psd_datagram (fun i => sample_psd_header 0 i 2 2 98000000) (fun _ => i16_bytes 512) <$> [0; 1]) psd_init).
  - intros i _. done.
  - intros i _. done.
  - intros i Hi. assert (i = 0 \/ i = 1) as [->| ->] by lia; split; by vm_compute.
  - reflexivity.
  - done.
  - repeat constructor; done.
  - reflexivity.
Defined.
