(* ===== verification/State.v ===== *)
(** Runtime state aggregation: src/rpi/backend/sdr_backend/state.py.

    [StreamStats] and [AppState] field by field.  [time.monotonic()] is read
    through the argument [now]. *)

From Stdlib Require Import ZArith SpecFloat Lia.
From stdpp Require Import base list gmap sorting strings.
From S2P Require Import Prelude PyFloat PyValue Packets.

Open Scope Z_scope.

(** ** State *)

Record StreamStats := MkStreamStats {
  ss_stream_id : Z;
  ss_packets : Z;
  ss_lost_packets : Z;
  ss_timestamp_gaps : Z;
  ss_adc_or_count : Z;
  ss_fifo_overflow_count : Z;
  ss_last_seq : option Z;
  ss_last_timestamp : option Z;
  ss_last_frequency_hz : Z;
  ss_last_iq_sample_rate_hz : Z;
  ss_last_bandwidth_hz : Z;
  ss_last_flags : Z
}.

Definition stream_stats_init (stream_id : Z) : StreamStats :=
  MkStreamStats stream_id 0 0 0 0 0 None None 0 0 0 0.

(** [device_host], [frontend] and [rx] are assigned whatever the
    configuration or the device's reply holds. *)
Record AppState := MkAppState {
  as_started_at : float;
  as_connected : bool;
  as_device_host : pyval;
  as_hello : option pydict;
  as_device_status : pyval;
  as_frontend : pyval;
  as_rx : pyval;
  as_psd : pydict;
  as_streams : gmap Z StreamStats;
  as_last_error : option string
}.

Definition app_state_init (now : float) (frontend rx psd : pydict) : AppState :=
  MkAppState now false PNone None PNone (PDict frontend) (PDict rx) psd ∅ None.

(** ** [ingest_iq_header] *)

(** The update of one stream's statistics, from the counters to the [last_*]
    fields. *)
Definition stats_ingest (h : SdrIqHeader) (st : StreamStats) : StreamStats :=
  let lost :=
    match ss_last_seq st with
    | Some last_seq =>
        let expected_seq := mask32 (last_seq + 1) in
        if negb (iq_seq h =? expected_seq)
        then ss_lost_packets st + mask32 (iq_seq h - expected_seq)
        else ss_lost_packets st
    | None => ss_lost_packets st
    end in
  let gaps :=
    match ss_last_timestamp st with
    | Some last_ts =>
        let expected_ts := mask64 (last_ts + iq_next_timestamp_delta h) in
        if negb (iq_adc_timestamp h =? expected_ts)
        then ss_timestamp_gaps st + 1
        else ss_timestamp_gaps st
    | None => ss_timestamp_gaps st
    end in
  let adc_or :=
    if negb (Z.land (iq_flags h) SDR_IQ_FLAG_ADC_OR =? 0)
    then ss_adc_or_count st + 1 else ss_adc_or_count st in
  let fifo :=
    if negb (Z.land (iq_flags h) SDR_IQ_FLAG_FIFO_OVERFLOW =? 0)
    then ss_fifo_overflow_count st + 1 else ss_fifo_overflow_count st in
  {| ss_stream_id := ss_stream_id st;
     ss_packets := ss_packets st + 1;
     ss_lost_packets := lost;
     ss_timestamp_gaps := gaps;
     ss_adc_or_count := adc_or;
     ss_fifo_overflow_count := fifo;
     ss_last_seq := Some (iq_seq h);
     ss_last_timestamp := Some (iq_adc_timestamp h);
     ss_last_frequency_hz := iq_frequency_hz h;
     ss_last_iq_sample_rate_hz := iq_iq_sample_rate_hz h;
     ss_last_bandwidth_hz := iq_bandwidth_hz h;
     ss_last_flags := iq_flags h |}.

Definition with_streams (f : gmap Z StreamStats -> gmap Z StreamStats) (s : AppState) : AppState :=
  {| as_started_at := as_started_at s; as_connected := as_connected s;
     as_device_host := as_device_host s; as_hello := as_hello s;
     as_device_status := as_device_status s; as_frontend := as_frontend s;
     as_rx := as_rx s; as_psd := as_psd s; as_streams := f (as_streams s);
     as_last_error := as_last_error s |}.

(** [self.streams.setdefault(id, StreamStats(id))] and the update in place. *)
Definition ingest_iq_header (h : SdrIqHeader) (s : AppState) : AppState :=
  with_streams (fun m =>
    let st := default (stream_stats_init (iq_stream_id h)) (m !! iq_stream_id h) in
    <[iq_stream_id h := stats_ingest h st]> m) s.

(** ** [snapshot] *)

Definition opt_val {A} (f : A -> pyval) (o : option A) : pyval :=
  match o with Some a => f a | None => PNone end.

Definition stats_dict (st : StreamStats) : pydict :=
  [("packets", PInt (ss_packets st));
   ("lost_packets", PInt (ss_lost_packets st));
   ("timestamp_gaps", PInt (ss_timestamp_gaps st));
   ("adc_or_count", PInt (ss_adc_or_count st));
   ("fifo_overflow_count", PInt (ss_fifo_overflow_count st));
   ("last_seq", opt_val PInt (ss_last_seq st));
   ("last_timestamp", opt_val PInt (ss_last_timestamp st));
   ("last_frequency_hz", PInt (ss_last_frequency_hz st));
   ("last_iq_sample_rate_hz", PInt (ss_last_iq_sample_rate_hz st));
   ("last_bandwidth_hz", PInt (ss_last_bandwidth_hz st));
   ("last_flags", PInt (ss_last_flags st))].

Definition by_id (a b : Z * StreamStats) : Prop := a.1 <= b.1.

#[export] Instance by_id_dec a b : Decision (by_id a b).
Proof. unfold by_id. apply _. Defined.

(** [sorted(self.streams.items())]: the ids are distinct. *)
Definition sorted_streams (m : gmap Z StreamStats) : list (Z * StreamStats) :=
  merge_sort by_id (map_to_list m).

Definition app_snapshot (now : float) (s : AppState) : pydict :=
  [("connected", PBool (as_connected s));
   ("device_host", as_device_host s);
   ("uptime_s", PFloat (round_digits 3 (f_sub now (as_started_at s))));
   ("hello", opt_val PDict (as_hello s));
   ("device_status", as_device_status s);
   ("frontend", as_frontend s);
   ("rx", as_rx s);
   ("psd", PDict (as_psd s));
   ("streams", PDict ((fun kv => (int_str kv.1, PDict (stats_dict kv.2))) <$> sorted_streams (as_streams s)));
   ("last_error", opt_val PStr (as_last_error s))].

(** ** Lemmas *)

Lemma ingest_lookup_eq h s :
  as_streams (ingest_iq_header h s) !! iq_stream_id h =
  Some (stats_ingest h (default (stream_stats_init (iq_stream_id h)) (as_streams s !! iq_stream_id h))).
Proof. apply lookup_insert_eq. Qed.

Lemma ingest_lookup_ne h s sid :
  sid <> iq_stream_id h -> as_streams (ingest_iq_header h s) !! sid = as_streams s !! sid.
Proof. intros Hne. by apply lookup_insert_ne. Qed.

(** Distance from the expected sequence number, the increment of
    [lost_packets]. *)
Lemma stats_ingest_lost h st last :
  ss_last_seq st = Some last ->
  ss_lost_packets (stats_ingest h st) = ss_lost_packets st + (iq_seq h - (last + 1)) mod 2 ^ 32.
Proof.
  intros Hl. unfold stats_ingest. rewrite Hl. simpl. rewrite !mask32_mod.
  destruct (Z.eqb_spec (iq_seq h) ((last + 1) mod 2 ^ 32)) as [Heq|Hne]; simpl.
  - rewrite Heq, Zminus_mod_idemp_l, Z.sub_diag. change (0 mod 2 ^ 32) with 0. lia.
  - by rewrite Zminus_mod_idemp_r.
Qed.

(** [lost_packets] for packets whose unwrapped indices are [a], [a1], ...:
    [seq] is the index modulo 2^32 and no gap spans 2^32 packets. *)
Fixpoint seq_trace (a : Z) (l : list (Z * SdrIqHeader)) : Prop :=
  match l with
  | [] => True
  | (a1, h) :: l' => a < a1 <= a + 2 ^ 32 /\ iq_seq h = a1 mod 2 ^ 32 /\ seq_trace a1 l'
  end.

Definition last_index (a : Z) (l : list (Z * SdrIqHeader)) : Z := default a (last l.*1).

Lemma stats_run_lost l a st :
  ss_last_seq st = Some (a mod 2 ^ 32) -> seq_trace a l ->
  let st' := foldl (fun st ah => stats_ingest ah.2 st) st l in
  ss_lost_packets st' = ss_lost_packets st + (last_index a l - a - zlen l) /\
  ss_packets st' = ss_packets st + zlen l.
Proof.
  revert a st; induction l as [|[a1 h] l IH]; intros a st Hs Ht.
  - unfold last_index, zlen. simpl. lia.
  - destruct Ht as (Ha & Hseq & Ht). cbn [foldl snd].
    destruct (IH a1 (stats_ingest h st)) as [H1 H2]; [simpl; by rewrite Hseq|done|].
    cbn zeta. rewrite H1, H2. rewrite (stats_ingest_lost h st (a mod 2 ^ 32)) by done.
    assert ((iq_seq h - (a mod 2 ^ 32 + 1)) mod 2 ^ 32 = a1 - a - 1) as ->.
    { rewrite Hseq, Zminus_mod_idemp_l. rewrite Z.sub_add_distr.
      rewrite <- (Zminus_mod_idemp_l (a1 - a mod 2 ^ 32)), Zminus_mod_idemp_r, Zminus_mod_idemp_l.
      apply Z.mod_small. lia. }
    assert (last_index a ((a1, h) :: l) = last_index a1 l) as ->.
    { unfold last_index. csimpl. rewrite last_cons. by destruct (last l.*1). }
    unfold zlen. simpl ss_packets. cbn [length]. split; lia.
Qed.

(** Ingesting packets of one stream runs that stream's statistics. *)
Lemma ingest_run_stats sid l st s :
  as_streams s !! sid = Some st -> Forall (fun h => iq_stream_id h = sid) l ->
  as_streams (foldl (fun s h => ingest_iq_header h s) s l) !! sid = Some (foldl (fun st h => stats_ingest h st) st l).
Proof.
  intros Hst Hl. revert st s Hst. induction Hl as [|h l Hid _ IH]; intros st s Hst; [done|]. cbn [foldl].
  apply IH. rewrite <- Hid, ingest_lookup_eq, Hid, Hst. done.
Qed.

Lemma ingest_first sid h s :
  as_streams s !! sid = None -> iq_stream_id h = sid ->
  as_streams (ingest_iq_header h s) !! sid = Some (stats_ingest h (stream_stats_init sid)).
Proof. intros Hs <-. by rewrite ingest_lookup_eq, Hs. Qed.

Lemma foldl_stats_snd (l : list (Z * SdrIqHeader)) st :
  foldl (fun st h => stats_ingest h st) st l.*2 = foldl (fun st ah => stats_ingest ah.2 st) st l.
Proof. revert st; induction l as [|[a h] l IH]; intros st; [done|]. csimpl. apply IH. Qed.

(** The timestamp check compares with the previous timestamp plus this
    packet's own length. *)
Lemma stats_ingest_gaps h st t :
  ss_last_timestamp st = Some t ->
  ss_timestamp_gaps (stats_ingest h st) =
    ss_timestamp_gaps st +
      (if decide (iq_adc_timestamp h = mask64 (t + iq_next_timestamp_delta h)) then 0 else 1).
Proof.
  intros Ht. unfold stats_ingest. rewrite Ht. simpl.
  destruct (Z.eqb_spec (iq_adc_timestamp h) (mask64 (t + iq_next_timestamp_delta h))); simpl;
    [rewrite decide_True by done | rewrite decide_False by done]; lia.
Qed.

(** ** Properties *)

(** C18: Exact loss accounting across wrap-around.  Feed a fresh stream any packets whose true
    indices increase by at most 2^32 from one to the next and whose [seq] is the index
    modulo 2^32.  Then [packets] is the number received and [lost_packets] the number of
    indices skipped between the first and the last one. *)
Theorem iq_loss_exact (a0 : Z) (h0 : SdrIqHeader) (l : list (Z * SdrIqHeader)) (sid : Z) (s : AppState) :
  as_streams s !! sid = None -> iq_seq h0 = a0 mod 2 ^ 32 -> seq_trace a0 l ->
  Forall (fun h => iq_stream_id h = sid) (h0 :: l.*2) ->
  exists st, as_streams (foldl (fun s h => ingest_iq_header h s) s (h0 :: l.*2)) !! sid = Some st /\
    ss_packets st = zlen l + 1 /\
    ss_lost_packets st = last_index a0 l - a0 - zlen l.
Proof.
  intros Hs Hseq Ht [Hid Hids]%Forall_cons. cbn [foldl].
  rewrite (ingest_run_stats sid _ _ _ (ingest_first sid h0 s Hs Hid) Hids), foldl_stats_snd.
  eexists. split; [done|].
  destruct (stats_run_lost l a0 (stats_ingest h0 (stream_stats_init sid))) as [H1 H2];
    [simpl; by rewrite Hseq|done|].
  rewrite H1, H2. simpl. lia.
Qed.

Definition sample_iq_header (sid seq flags : Z) : SdrIqHeader :=
  {| iq_magic := SDR_IQ_MAGIC; iq_version := 1; iq_header_len := 64; iq_frame_type := SDR_FRAME_IQ;
     iq_stream_id := sid; iq_seq := seq; iq_adc_timestamp := 0; iq_frequency_hz := 98500000;
     iq_iq_sample_rate_hz := 1000000; iq_bandwidth_hz := 250000; iq_sample_format := 1;
     iq_sample_count := 256; iq_flags := flags; iq_gain_db_q8 := 0; iq_decimation := 250;
     iq_payload_bytes := 1024; iq_reserved0 := 0 |}.

(** Packet 2^32 - 2, then 2^32 + 1 after the wrap: the two in between are lost. *)
Lemma iq_loss_exact_witness :
  exists st, as_streams (foldl (fun s h => ingest_iq_header h s) (app_state_init f_zero [] [] [])
      [sample_iq_header 0 (2 ^ 32 - 2) 0; sample_iq_header 0 1 0]) !! 0 = Some st /\
    ss_packets st = 2 /\ ss_lost_packets st = 2.
Proof.
  apply (iq_loss_exact (2 ^ 32 - 2) (sample_iq_header 0 (2 ^ 32 - 2) 0)
           [(2 ^ 32 + 1, sample_iq_header 0 1 0)] 0 (app_state_init f_zero [] [] [])).
  - reflexivity.
  - reflexivity.
  - simpl. split_and!; [lia|lia|reflexivity|done].
  - repeat constructor.
Defined.

(** Streams are independent and nothing else of the state changes.  Ingesting a header
    updates the statistics of its own [stream_id] only. *)
Lemma ingest_iq_header_frame (h : SdrIqHeader) (s : AppState) :
  (forall sid, sid <> iq_stream_id h ->
     as_streams (ingest_iq_header h s) !! sid = as_streams s !! sid) /\
  with_streams (fun _ => as_streams s) (ingest_iq_header h s) = s.
Proof. split; [intros sid; apply ingest_lookup_ne | by destruct s]. Qed.

(** A restarted stream is counted as a huge loss.  When the device restarts a stream (new
    [set_rx]: [seq] 0 with the DISCONTINUITY flag) after packet [L], [lost_packets] grows
    by 2^32 - 1 - L although no packet was lost; the flag is not consulted. *)
Theorem iq_restart_counts_lost (h : SdrIqHeader) (st : StreamStats) (L : Z) :
  ss_last_seq st = Some L -> 0 <= L < 2 ^ 32 - 1 -> iq_seq h = 0 ->
  Z.land (iq_flags h) SDR_IQ_FLAG_DISCONTINUITY = SDR_IQ_FLAG_DISCONTINUITY ->
  ss_lost_packets (stats_ingest h st) = ss_lost_packets st + (2 ^ 32 - 1 - L).
Proof.
  intros Hl HL Hs _. rewrite (stats_ingest_lost h st L Hl), Hs. f_equal.
  rewrite <- (Z.mod_add _ 1) by lia. rewrite Z.mod_small; lia.
Qed.

Lemma iq_restart_counts_lost_witness :
  ss_lost_packets (stats_ingest (sample_iq_header 0 0 12)
    (stats_ingest (sample_iq_header 0 99 0) (stream_stats_init 0))) = 0 + (2 ^ 32 - 1 - 99).
Proof.
  apply (iq_restart_counts_lost (sample_iq_header 0 0 12)
           (stats_ingest (sample_iq_header 0 99 0) (stream_stats_init 0)) 99);
    [reflexivity|lia|reflexivity|reflexivity].
Defined.
