(* ===== verification/Config.v ===== *)
(** Backend configuration ([rpi/backend/sdr_backend/config.py]): the section
    dataclasses, the merge of a YAML document into them, and [load_config].

    A configuration file can store a value of any type in a field, so a
    section object is its field dictionary, in declaration order.  PyYAML and
    the file system are parameters: the parsed document arrives as the value
    [yaml.safe_load] returned (mappings with string keys). *)

From Stdlib Require Import ZArith SpecFloat Lia.
From stdpp Require Import base list sets strings.
From S2P Require Import Prelude PyFloat PyValue.

Open Scope Z_scope.

(** ** The dataclasses *)

Definition DeviceConfig : pydict :=
  [("host", PStr "127.0.0.1"); ("control_port", PInt 9000); ("raw_capture_port", PInt 9004);
   ("client_name", PStr "rpi-sdr-backend")]%string.

Definition UdpConfig : pydict :=
  [("bind_host", PStr "0.0.0.0"); ("iq_port", PInt 9001); ("psd_port", PInt 9002);
   ("status_port", PInt 9003)]%string.

Definition FrontendConfig : pydict :=
  [("attenuator_db", PInt 10); ("lna", PStr "bypass"); ("filter", PStr "LPF_108M")]%string.

Definition RxConfig : pydict :=
  [("stream_id", PInt 0); ("adc_channel", PInt 0); ("frequency_hz", PInt 98500000); ("mode", PStr "WFM");
   ("iq_sample_rate_hz", PInt 1000000); ("bandwidth_hz", PInt 250000); ("sample_format", PStr "SC16_LE");
   ("enable", PBool true)]%string.

Definition PsdConfig : pydict :=
  [("psd_id", PInt 0); ("source", PStr "adc0"); ("enable", PBool true);
   ("start_frequency_hz", PInt 500000); ("stop_frequency_hz", PInt 108000000); ("fft_size", PInt 16384);
   ("output_bins", PInt 4096); ("fps", PInt 10); ("sample_format", PStr "I16_DBFS_Q8")]%string.

Definition DspConfig : pydict :=
  [("audio_sample_rate_hz", PInt 48000); ("audio_frame_ms", PInt 20); ("fft_size", PInt 2048);
   ("wfm_deemphasis_us", PFloat (f_of_Z 50)); ("squelch_db", PFloat (f_opp (f_of_Z 80)))]%string.

Definition WebConfig : pydict :=
  [("host", PStr "0.0.0.0"); ("port", PInt 8080); ("static_dir", PStr "rpi/frontend/dist")]%string.

Record AppConfig := MkAppConfig {
  ac_device : pydict;
  ac_udp : pydict;
  ac_frontend : pydict;
  ac_rx : pydict;
  ac_psd : pydict;
  ac_dsp : pydict;
  ac_web : pydict;
}.

Definition app_config_default : AppConfig :=
  MkAppConfig DeviceConfig UdpConfig FrontendConfig RxConfig PsdConfig DspConfig WebConfig.

(** ** Merging *)

(** [for key, value in values.items(): if hasattr(...): setattr(...)]; the
    attributes are the dataclass fields (the special [__x__] attributes every
    object has are outside the model). *)
Fixpoint merge_dataclass (instance values : pydict) : pydict :=
  match values with
  | [] => instance
  | (key, value) :: values' =>
      merge_dataclass (if dhas key instance then dset key value instance else instance) values'
  end.

(** One turn of the loop over the sections. *)
Definition merge_section (data : pydict) (section_name : string) (section : pydict) : pydict :=
  match pget section_name data with
  | PDict values => merge_dataclass section values
  | _ => section
  end.

Definition merge_config (data : pydict) (c : AppConfig) : AppConfig :=
  MkAppConfig (merge_section data "device" (ac_device c)) (merge_section data "udp" (ac_udp c))
    (merge_section data "frontend" (ac_frontend c)) (merge_section data "rx" (ac_rx c))
    (merge_section data "psd" (ac_psd c)) (merge_section data "dsp" (ac_dsp c))
    (merge_section data "web" (ac_web c)).

(** What [load_config] finds on the machine: [exists] and [open]/read by path,
    and the YAML parser when it can be imported. *)
Record ConfigEnv := MkConfigEnv {
  ce_exists : string -> bool;
  ce_read : string -> res string;
  ce_safe_load : option (string -> res pyval);
}.

Definition load_config (env : ConfigEnv) (path : option string) : res AppConfig :=
  match path with
  | None => Ok app_config_default
  | Some path =>
      if negb (ce_exists env path) then Ok app_config_default
      else
        match ce_safe_load env with
        | None => raise RuntimeError "PyYAML is required to load YAML config files"
        | Some safe_load =>
            contents ← ce_read env path;
            data ← safe_load contents;
            match py_or data (PDict []) with
            | PDict data => Ok (merge_config data app_config_default)
            | _ => raise ValueError "config file must contain a mapping"
            end
        end
  end.

(** ** What a merge does *)

Lemma dhas_elem {V} k (d : list (string * V)) : dhas k d = true <-> k ∈ dkeys d.
Proof.
  unfold dhas. destruct (dget k d) eqn:Hk.
  - split; [|done]. intros _. apply dec_stable. intros Hn%dget_None. congruence.
  - apply dget_None in Hk. split; [done|]. by intros Hin%Hk.
Qed.

Lemma merge_dataclass_keys values instance : dkeys (merge_dataclass instance values) = dkeys instance.
Proof.
  revert instance; induction values as [|[k v] values IH]; intros instance; cbn [merge_dataclass]; [done|].
  rewrite IH. destruct (dhas k instance) eqn:Hk; [|done]. by rewrite dkeys_dset, Hk.
Qed.

Lemma merge_dataclass_get values instance k :
  NoDup (dkeys values) -> k ∈ dkeys instance ->
  dget k (merge_dataclass instance values) =
    match dget k values with Some v => Some v | None => dget k instance end.
Proof.
  revert instance; induction values as [|[k' v] values IH]; intros instance Hnd Hk; [done|].
  apply NoDup_cons in Hnd as [Hk' Hnd]. cbn [merge_dataclass dget].
  assert (k ∈ dkeys (if dhas k' instance then dset k' v instance else instance)) as Hin.
  { destruct (dhas k' instance) eqn:Hh; [|done]. by rewrite dkeys_dset, Hh. }
  rewrite IH by done. destruct (decide (k = k')) as [->|Hne].
  - apply dhas_elem in Hk. rewrite Hk, (proj2 (dget_None k' values) Hk'). apply dget_dset_eq.
  - destruct (dget k values); [done|]. case_match; [|done]. by apply dget_dset_ne.
Qed.

(** The sections by name. *)
Definition sections (c : AppConfig) : list (string * pydict) :=
  [("device", ac_device c); ("udp", ac_udp c); ("frontend", ac_frontend c); ("rx", ac_rx c);
   ("psd", ac_psd c); ("dsp", ac_dsp c); ("web", ac_web c)]%string.

(** The value the document [data] gives to field [k] of section [name]. *)
Definition configured (data : pydict) (name k : string) : option pyval :=
  match dget name data with Some (PDict values) => dget k values | _ => None end.

(** Every mapping of a parsed document has distinct keys. *)
Definition distinct_keys (data : pydict) : Prop :=
  forall name values, dget name data = Some (PDict values) -> NoDup (dkeys values).

Lemma merge_section_spec data name section k :
  distinct_keys data -> NoDup (dkeys section) ->
  dkeys (merge_section data name section) = dkeys section /\
  dget k (merge_section data name section) =
    match dget k section with
    | Some v => Some (default v (configured data name k))
    | None => None
    end.
Proof.
  intros Hdata Hnd. unfold merge_section, configured, pget.
  destruct (dget name data) as [[]|] eqn:Hn; cbn [default from_option id];
    try (split; [done|]; by destruct (dget k section)).
  split; [apply merge_dataclass_keys|].
  destruct (dget k section) as [v|] eqn:Hk.
  - rewrite merge_dataclass_get; [|by eapply Hdata|apply dhas_elem; unfold dhas; by rewrite Hk].
    rewrite Hk. by case_match.
  - apply dget_None. rewrite merge_dataclass_keys. by apply dget_None.
Qed.

Lemma sections_merge data c :
  sections (merge_config data c) = (fun nd => (nd.1, merge_section data nd.1 nd.2)) <$> sections c.
Proof. done. Qed.

Lemma default_sections_NoDup : Forall (fun nd => NoDup (dkeys nd.2)) (sections app_config_default).
Proof. apply (bool_decide_unpack _). by vm_compute. Qed.

(** [yaml.safe_load(handle) or {}], when it is a mapping. *)
Definition document (v : pyval) : option pydict :=
  match py_or v (PDict []) with PDict d => Some d | _ => None end.

(** C28: Loading a configuration file.  Given an existing, readable file that the
    YAML parser accepts, [load_config] fails with [ValueError] exactly when the
    document is neither empty nor a mapping; otherwise every section has
    exactly its declared fields in their declared order, and each field is the
    value the document gives for it in that section, or the default: unknown
    sections, unknown keys and sections that are no mappings change nothing. *)
Theorem load_config_merges (env : ConfigEnv) (path contents : string) (safe_load : string -> res pyval) (v : pyval) :
  ce_exists env path = true -> ce_safe_load env = Some safe_load ->
  ce_read env path = Ok contents -> safe_load contents = Ok v ->
  (forall data, document v = Some data -> distinct_keys data) ->
  match document v with
  | None => load_config env (Some path) = raise ValueError "config file must contain a mapping"
  | Some data =>
      exists c,
        load_config env (Some path) = Ok c /\
        dkeys (sections c) = dkeys (sections app_config_default) /\
        forall name section0, dget name (sections app_config_default) = Some section0 ->
          exists section,
            dget name (sections c) = Some section /\ dkeys section = dkeys section0 /\
            forall k, dget k section = (fun dflt => default dflt (configured data name k)) <$> dget k section0
  end.
Proof.
  intros Hex Hload Hread Hparse Hdist. unfold document in *.
  assert (load_config env (Some path) =
    match py_or v (PDict []) with
    | PDict data => Ok (merge_config data app_config_default)
    | _ => raise ValueError "config file must contain a mapping"
    end) as ->.
  { unfold load_config. rewrite Hex, Hload, Hread. cbn. by rewrite Hparse. }
  destruct (py_or v (PDict [])) as [| | | | | |data]; try done. specialize (Hdist data eq_refl).
  eexists. split; [done|]. split; [by rewrite sections_merge|].
  intros name section0 Hname. rewrite sections_merge.
  pose proof (dget_Some_elem _ _ _ Hname) as Hin.
  pose proof (proj1 (Forall_forall _ _) default_sections_NoDup _ Hin) as Hnd. cbn in Hnd.
  exists (merge_section data name section0). split.
  - clear Hin Hnd. revert Hname. generalize (sections app_config_default).
    induction l as [|[n d] l IH]; [done|]. cbn. case_decide; [by intros [= ->]; subst|apply IH].
  - split; [by apply (merge_section_spec data name section0 name)|]. intros k.
    rewrite (proj2 (merge_section_spec data name section0 k Hdist Hnd)). by destruct (dget k section0).
Qed.

(** A document that retunes the receiver and misspells a port. *)
Definition sample_document : pydict :=
  [("rx", PDict [("frequency_hz", PInt 88000000); ("colour", PInt 1)]); ("udp", PInt 9)]%string.

Definition sample_config_env : ConfigEnv :=
  MkConfigEnv (fun _ => true) (fun _ => Ok ""%string) (Some (fun _ => Ok (PDict sample_document))).

Lemma load_config_merges_witness :
  exists c,
    load_config sample_config_env (Some "dev.yaml"%string) = Ok c /\
    dkeys (sections c) = dkeys (sections app_config_default) /\
    exists rx, dget "rx"%string (sections c) = Some rx /\ dkeys rx = dkeys RxConfig /\
      dget "frequency_hz"%string rx = Some (PInt 88000000) /\ dget "mode"%string rx = Some (PStr "WFM").
Proof.
  destruct (load_config_merges sample_config_env "dev.yaml"%string ""%string (fun _ => Ok (PDict sample_document))
              (PDict sample_document)) as (c & Hc & Hkeys & Hsec); try reflexivity.
  - intros data [= <-] name values. unfold sample_document. cbn. repeat case_decide; try done.
    intros [= <-]. apply (bool_decide_unpack _). by vm_compute.
  - exists c. split; [exact Hc|]. split; [exact Hkeys|].
    destruct (Hsec "rx"%string RxConfig eq_refl) as (rx & Hrx & Hk & Hf). exists rx.
    split; [exact Hrx|]. split; [exact Hk|]. split; [exact (Hf _)|exact (Hf _)].
Defined.
