(* ===== verification/Broadcast.v ===== *)
(** The asyncio broadcast helper: src/rpi/backend/sdr_backend/broadcast.py.

    A broadcaster holds the queues of its current subscribers; queues are
    named by a number standing for object identity, and a queue is the list of
    its items, oldest first. *)

From Stdlib Require Import ZArith Lia.
From stdpp Require Import base list gmap strings.
From S2P Require Import Prelude.

Open Scope Z_scope.

Section Broadcast.
Context {A : Type}.

(** ** [asyncio.Queue] *)

Definition queue_full (maxsize : Z) (q : list A) : bool := (0 <? maxsize) && (maxsize <=? zlen q).

Definition put_nowait (maxsize : Z) (item : A) (q : list A) : res (list A) :=
  if queue_full maxsize q then raise QueueFull "" else Ok (q ++ [item]).

Definition get_nowait (q : list A) : res (A * list A) :=
  match q with [] => raise QueueEmpty "" | x :: q' => Ok (x, q') end.

(** ** [Broadcaster] *)

Record Broadcaster := MkBroadcaster {
  bc_max_queue : Z;
  bc_queues : gmap nat (list A)
}.

Definition bc_init (max_queue : Z) : Broadcaster := MkBroadcaster max_queue ∅.

(** Entering and leaving the [subscribe] context with the queue [qid]. *)
Definition bc_subscribe (qid : nat) (b : Broadcaster) : Broadcaster :=
  MkBroadcaster (bc_max_queue b) (<[qid := []]> (bc_queues b)).

Definition bc_unsubscribe (qid : nat) (b : Broadcaster) : Broadcaster :=
  MkBroadcaster (bc_max_queue b) (delete qid (bc_queues b)).

(** The body of the loop of [publish] on one queue: [None] marks the queue as
    stale. *)
Definition publish_one (maxsize : Z) (item : A) (q : list A) : res (option (list A)) :=
  match put_nowait maxsize item q with
  | Ok q' => Ok (Some q')
  | Raise e =>
      if bool_decide (exn_cls e = QueueFull) then
        match get_nowait q with
        | Ok (_, q') => q'' ← put_nowait maxsize item q'; Ok (Some q'')
        | Raise e' =>
            if bool_decide (exn_cls e' = QueueEmpty) then Ok None else Raise e'
        end
      else Raise e
  end.

Fixpoint publish_loop (maxsize : Z) (item : A) (qs : list (nat * list A))
    (m : gmap nat (list A)) (stale : list nat) : res (gmap nat (list A) * list nat) :=
  match qs with
  | [] => Ok (m, stale)
  | (qid, q) :: qs' =>
      o ← publish_one maxsize item q;
      match o with
      | Some q' => publish_loop maxsize item qs' (<[qid := q']> m) stale
      | None => publish_loop maxsize item qs' m (stale ++ [qid])
      end
  end.

Definition publish (item : A) (b : Broadcaster) : res Broadcaster :=
  '(m, stale) ← publish_loop (bc_max_queue b) item (map_to_list (bc_queues b)) (bc_queues b) [];
  Ok (MkBroadcaster (bc_max_queue b) (foldl (fun m qid => delete qid m) m stale)).

(** ** What one [publish] does to a queue *)

Definition queue_push (maxsize : Z) (item : A) (q : list A) : list A :=
  if queue_full maxsize q then drop 1 q ++ [item] else q ++ [item].

(** Queues never exceed their capacity. *)
Definition bc_wf (b : Broadcaster) : Prop :=
  0 < bc_max_queue b /\ forall qid q, bc_queues b !! qid = Some q -> zlen q <= bc_max_queue b.

Lemma publish_one_eq maxsize item q :
  0 < maxsize -> zlen q <= maxsize -> publish_one maxsize item q = Ok (Some (queue_push maxsize item q)).
Proof.
  intros Hm Hq. unfold publish_one, put_nowait, queue_push.
  destruct (queue_full maxsize q) eqn:Hf; [|done].
  simpl. destruct q as [|x q]; simpl.
  - unfold queue_full, zlen in Hf. simpl in Hf. apply andb_true_iff in Hf as [_ Hf%Z.leb_le]. lia.
  - unfold queue_full. destruct (Z.leb_spec maxsize (zlen q)); [|by rewrite andb_false_r].
    unfold zlen in *. simpl in Hq. lia.
Qed.

Lemma queue_push_bound maxsize item q :
  0 < maxsize -> zlen q <= maxsize -> zlen (queue_push maxsize item q) <= maxsize.
Proof.
  intros Hm Hq. unfold queue_push, queue_full, zlen in *. case_match.
  - rewrite length_app, length_drop. simpl. lia.
  - rewrite length_app. simpl. lia.
Qed.

Lemma publish_loop_eq maxsize item qs m stale :
  0 < maxsize -> NoDup qs.*1 -> Forall (fun kv => zlen kv.2 <= maxsize) qs ->
  exists m', publish_loop maxsize item qs m stale = Ok (m', stale) /\
    forall k, m' !! k = match (list_to_map qs : gmap nat (list A)) !! k with
                        | Some q => Some (queue_push maxsize item q)
                        | None => m !! k
                        end.
Proof.
  intros Hm. revert m; induction qs as [|[k q] qs IH]; intros m Hnd Hall.
  - exists m. split; [done|]. intros k. by rewrite list_to_map_nil, lookup_empty.
  - apply NoDup_cons in Hnd as [Hk Hnd]. apply Forall_cons in Hall as [Hq Hall].
    simpl. rewrite publish_one_eq by done. simpl.
    destruct (IH (<[k := queue_push maxsize item q]> m) Hnd Hall) as (m' & -> & Hm').
    exists m'. split; [done|]. intros k'. rewrite Hm'.
    destruct (decide (k = k')) as [<-|]; [rewrite lookup_insert_eq | by rewrite !lookup_insert_ne].
    simpl in Hk. apply (not_elem_of_list_to_map_1 (M := gmap nat)) in Hk.
    by rewrite Hk, lookup_insert_eq.
Qed.

(** [publish] never fails, never unsubscribes anyone, and pushes the item on
    every queue. *)
Lemma publish_eq item b :
  bc_wf b -> publish item b = Ok (MkBroadcaster (bc_max_queue b) (queue_push (bc_max_queue b) item <$> bc_queues b)).
Proof.
  intros [Hm Hq]. unfold publish.
  destruct (publish_loop_eq (bc_max_queue b) item (map_to_list (bc_queues b)) (bc_queues b) [] Hm)
    as (m' & -> & Hm').
  - apply NoDup_fst_map_to_list.
  - apply Forall_forall. intros [k q] Hin%elem_of_map_to_list. by apply (Hq k).
  - simpl. do 2 f_equal. apply map_eq. intros k. rewrite Hm', list_to_map_to_list, lookup_fmap.
    by destruct (bc_queues b !! k).
Qed.

(** ** Runs *)

Inductive bc_event :=
  | EvSubscribe (qid : nat)
  | EvUnsubscribe (qid : nat)
  | EvPublish (item : A)
  | EvReceive (qid : nat) (item : A).

(** [queue.get()] returns the oldest item once there is one. *)
Inductive bc_step (b : Broadcaster) : bc_event -> Broadcaster -> Prop :=
  | step_subscribe qid :
      bc_queues b !! qid = None -> bc_step b (EvSubscribe qid) (bc_subscribe qid b)
  | step_unsubscribe qid : bc_step b (EvUnsubscribe qid) (bc_unsubscribe qid b)
  | step_publish item b' : publish item b = Ok b' -> bc_step b (EvPublish item) b'
  | step_receive qid item q :
      bc_queues b !! qid = Some (item :: q) ->
      bc_step b (EvReceive qid item) (MkBroadcaster (bc_max_queue b) (<[qid := q]> (bc_queues b))).

Inductive bc_steps : Broadcaster -> list bc_event -> Broadcaster -> Prop :=
  | steps_nil b : bc_steps b [] b
  | steps_cons b e b' evs b'' : bc_step b e b' -> bc_steps b' evs b'' -> bc_steps b (e :: evs) b''.

Definition published (evs : list bc_event) : list A :=
  omap (fun e => match e with EvPublish x => Some x | _ => None end) evs.

Definition received (qid : nat) (evs : list bc_event) : list A :=
  omap (fun e => match e with
                 | EvReceive k x => if decide (k = qid) then Some x else None
                 | _ => None
                 end) evs.

(** The subscriber [qid] neither leaves nor re-enters during [evs]. *)
Definition stays (qid : nat) (evs : list bc_event) : Prop :=
  Forall (fun e => e <> EvSubscribe qid /\ e <> EvUnsubscribe qid) evs.

Lemma bc_step_wf b e b' : bc_step b e b' -> bc_wf b -> bc_wf b' /\ bc_max_queue b' = bc_max_queue b.
Proof.
  intros Hs Hwf. pose proof Hwf as [Hm Hq]. destruct Hs as [qid Hn|qid|item b' Hp|qid item q Hl].
  - split; [|done]. split; [done|]. intros k q. simpl. rewrite lookup_insert_Some.
    intros [[_ <-]|[_ Hk]]; [unfold zlen; simpl; lia | by apply (Hq k)].
  - split; [|done]. split; [done|]. intros k q. simpl. rewrite lookup_delete_Some.
    intros [_ Hk]. by apply (Hq k).
  - rewrite publish_eq in Hp by done. injection Hp as <-. split; [|done]. split; [done|].
    intros k q. simpl. rewrite lookup_fmap_Some. intros (q' & <- & Hk).
    apply queue_push_bound; [done|]. by apply (Hq k).
  - split; [|done]. split; [done|]. intros k q'. simpl. rewrite lookup_insert_Some.
    intros [[_ <-]|[_ Hk]]; [|by apply (Hq k)].
    apply Hq in Hl. unfold zlen in *. simpl in Hl. lia.
Qed.

Lemma bc_steps_wf b evs b' :
  bc_steps b evs b' -> bc_wf b -> bc_wf b' /\ bc_max_queue b' = bc_max_queue b.
Proof.
  induction 1 as [|b e b' evs b'' Hs _ IH]; intros Hwf; [done|].
  destruct (bc_step_wf _ _ _ Hs Hwf) as [Hwf' <-]. by apply IH.
Qed.

(** Effect of one step on the queue of a staying subscriber. *)
Lemma bc_step_queue b e b' qid q :
  bc_step b e b' -> bc_wf b -> e <> EvSubscribe qid -> e <> EvUnsubscribe qid ->
  bc_queues b !! qid = Some q ->
  exists q', bc_queues b' !! qid = Some q' /\
    match e with
    | EvPublish x => q' = queue_push (bc_max_queue b) x q
    | EvReceive k x => if decide (k = qid) then q = x :: q' else q' = q
    | _ => q' = q
    end.
Proof.
  intros Hs Hwf Hne1 Hne2 Hq. destruct Hs as [k Hn|k|item b' Hp|k item q0 Hl]; simpl.
  - exists q. split; [|done]. rewrite lookup_insert_ne; [done|]. congruence.
  - exists q. split; [|done]. rewrite lookup_delete_ne; [done|]. congruence.
  - rewrite publish_eq in Hp by done. injection Hp as <-.
    exists (queue_push (bc_max_queue b) item q). split; [|done]. simpl. by rewrite lookup_fmap, Hq.
  - case_decide as Hk.
    + subst k. exists q0. rewrite lookup_insert_eq. split; [done|]. congruence.
    + exists q. by rewrite lookup_insert_ne.
Qed.

(** What a subscriber has seen ([rc] consumed, [q] queued) against what was
    published since it joined. *)
Definition sees (rc q hist : list A) : Prop := rc ++ q `sublist_of` hist /\ q `suffix_of` hist.

Lemma sees_push maxsize x rc q hist : sees rc q hist -> sees rc (queue_push maxsize x q) (hist ++ [x]).
Proof.
  intros [Hsub Hsuf]. unfold sees, queue_push. case_match.
  - split.
    + rewrite app_assoc. apply sublist_app; [|done].
      etrans; [|exact Hsub]. apply sublist_app; [done | apply sublist_drop].
    + apply suffix_app. etrans; [apply suffix_drop | done].
  - split; [rewrite app_assoc; by apply sublist_app | by apply suffix_app].
Qed.

Lemma sees_receive x rc q hist : sees rc (x :: q) hist -> sees (rc ++ [x]) q hist.
Proof.
  intros [Hsub Hsuf]. split; [by rewrite <- app_assoc|]. by eapply suffix_cons_l.
Qed.

Lemma bc_steps_sees b evs b' qid rc q hist :
  bc_steps b evs b' -> bc_wf b -> stays qid evs -> bc_queues b !! qid = Some q -> sees rc q hist ->
  exists q', bc_queues b' !! qid = Some q' /\
    sees (rc ++ received qid evs) q' (hist ++ published evs).
Proof.
  intros Hs. revert rc q hist. induction Hs as [b|b e b1 evs b' Hstep Hs IH];
    intros rc q hist Hwf Hst Hq Hsee.
  - exists q. simpl. by rewrite !app_nil_r.
  - apply Forall_cons in Hst as [[Hne1 Hne2] Hst].
    destruct (bc_step_queue b e b1 qid q) as (q1 & Hq1 & He); [done..|].
    destruct (bc_step_wf b e b1) as [Hwf1 _]; [done..|].
    destruct e as [k|k|x|k x]; simpl in *; try subst q1.
    + by apply IH with q.
    + by apply IH with q.
    + change (hist ++ x :: published evs) with (hist ++ [x] ++ published evs).
      rewrite app_assoc. eapply IH; [done..|]. by apply sees_push.
    + case_decide.
      * subst q. change (rc ++ x :: received qid evs) with (rc ++ [x] ++ received qid evs).
        rewrite app_assoc. eapply IH; [done..|]. by apply sees_receive.
      * subst q1. by apply IH with q.
Qed.

(** While no more items are published than a queue holds, none is dropped. *)
Lemma bc_steps_lossless b evs b' qid q :
  bc_steps b evs b' -> bc_wf b -> stays qid evs -> bc_queues b !! qid = Some q ->
  zlen q + zlen (published evs) <= bc_max_queue b ->
  exists q', bc_queues b' !! qid = Some q' /\ received qid evs ++ q' = q ++ published evs.
Proof.
  intros Hs. revert q. induction Hs as [b|b e b1 evs b' Hstep Hs IH]; intros q Hwf Hst Hq Hlen.
  - exists q. simpl. by rewrite app_nil_r.
  - apply Forall_cons in Hst as [[Hne1 Hne2] Hst].
    destruct (bc_step_queue b e b1 qid q) as (q1 & Hq1 & He); [done..|].
    destruct (bc_step_wf b e b1) as [Hwf1 Hmax]; [done..|].
    rewrite <- Hmax in Hlen. unfold zlen in *.
    destruct e as [k|k|x|k x]; simpl in *; try subst q1.
    + by apply IH.
    + by apply IH.
    + assert (queue_push (bc_max_queue b) x q = q ++ [x]) as Hpush.
      { unfold queue_push, queue_full, zlen. rewrite <- Hmax. case_match; [lia|done]. }
      rewrite Hpush in *. destruct (IH (q ++ [x])) as (q' & Hq' & Heq); [done..| |].
      * rewrite length_app. simpl. lia.
      * exists q'. split; [done|]. rewrite Heq. by rewrite <- app_assoc.
    + case_decide.
      * subst q. simpl in Hlen. destruct (IH q1) as (q' & Hq' & Heq); [done..|lia|].
        exists q'. split; [done|]. simpl. by rewrite Heq.
      * subst q1. by apply IH.
Qed.

(** C23: What a subscriber sees.  Take any interleaving of subscriptions, departures, publications
    and consumptions, from the moment [qid] joins a broadcaster until any later moment
    while it is still subscribed.  [publish] never drops it; its queue never exceeds the
    capacity; what it consumed followed by what is queued is a subsequence of what was
    published since it joined (no reordering, no duplication), the queue is a suffix of it
    (overflow discards the oldest, so the newest items are kept); and nothing is missing
    as long as at most [max_queue] items were published. *)
Theorem broadcast_subscriber_view (b b' : Broadcaster) (qid : nat) (evs : list bc_event) :
  bc_wf b -> bc_queues b !! qid = None -> stays qid evs ->
  bc_steps b (EvSubscribe qid :: evs) b' ->
  exists q, bc_queues b' !! qid = Some q /\ zlen q <= bc_max_queue b /\
    received qid evs ++ q `sublist_of` published evs /\ q `suffix_of` published evs /\
    (zlen (published evs) <= bc_max_queue b -> received qid evs ++ q = published evs).
Proof.
  intros Hwf Hn Hst Hs. inversion Hs as [|? ? b1 ? ? Hstep Hs1]; subst.
  destruct (bc_step_wf _ _ _ Hstep Hwf) as [Hwf1 Hmax].
  inversion Hstep; subst.
  destruct (bc_steps_sees _ evs b' qid [] [] [] Hs1 Hwf1 Hst) as (q & Hq & Hsub & Hsuf).
  { apply lookup_insert_eq. }
  { split; [done|]. by exists []. }
  exists q. split; [done|]. split_and!; [|done|done|].
  - destruct (bc_steps_wf _ _ _ Hs1 Hwf1) as [[_ Hb] Hm]. rewrite <- Hmax, <- Hm. by apply (Hb qid).
  - intros Hlen. destruct (bc_steps_lossless _ evs b' qid [] Hs1 Hwf1 Hst) as (q' & Hq' & Heq).
    + apply lookup_insert_eq.
    + unfold zlen in *. simpl. lia.
    + by rewrite Hq in Hq'; injection Hq' as <-.
Qed.
End Broadcast.

Arguments Broadcaster : clear implicits.
Arguments bc_event : clear implicits.

(** Capacity 2, three items: the oldest is dropped, the second consumed. *)
Lemma broadcast_subscriber_view_witness :
  exists q, (<[0%nat := [3]]> ∅ : gmap nat (list Z)) !! 0%nat = Some q /\
    received 0 [EvPublish 1; EvPublish 2; EvPublish 3; EvReceive 0 2] ++ q `sublist_of` [1; 2; 3].
Proof.
  destruct (broadcast_subscriber_view (bc_init 2) (MkBroadcaster 2 {[0%nat := [3]]}) 0
              [EvPublish 1; EvPublish 2; EvPublish 3; EvReceive 0 2]) as (q & Hq & _ & Hsub & _).
  - split; [done|]. by intros ? ?.
  - reflexivity.
  - repeat constructor; done.
  - eapply steps_cons; [by constructor|].
    do 3 (eapply steps_cons; [constructor; vm_compute; reflexivity|]).
    eapply steps_cons; [|constructor]. exact (step_receive (MkBroadcaster 2 {[0%nat := [2; 3]]}) 0 2 [3] eq_refl).
  - exists q. split; [exact Hq | exact Hsub].
Defined.
