(* ===== verification/UdpReceiver.v ===== *)
(** The UDP receiver threads ([udp_receiver.py]): the three datagram handlers,
    the receive loop with its exception handling, and start/stop.  The handlers
    are stated once over the header interface of [Packets]. *)

From Stdlib Require Import ZArith SpecFloat Lia Ascii String Strings.Byte.
From stdpp Require Import base list sets strings.
From S2P Require Import Prelude PyFloat PyValue Json Control Packets.

Open Scope Z_scope.

(** ** Datagram handlers *)

(** [_handle_iq] and [_handle_psd] up to the callback: nothing for a datagram
    shorter than the header; otherwise the header and the payload slice. *)
Definition recv_datagram {H} `{WireHeader H} (data : list byte) : res (option (H * list byte)) :=
  if zlen data <? wh_size (H := H) then Ok None
  else
    header ← wh_unpack (slice 0 (wh_size (H := H)) data);
    let payload := slice (wh_size (H := H)) (wh_size (H := H) + wh_payload_bytes header) data in
    Ok (Some (header, payload)).

Definition recv_iq (data : list byte) : res (option (SdrIqHeader * list byte)) := recv_datagram data.
Definition recv_psd (data : list byte) : res (option (SdrPsdHeader * list byte)) := recv_datagram data.

Definition text_of_bytes (bs : list byte) : text := (fun b => of_code (byte_to_Z b)) <$> bs.

(** [json.loads(bytes(data[:size]).decode("utf-8"))]: any JSON value is passed
    to the callback. *)
Definition recv_status (data : list byte) : res (option pyval) :=
  let t := text_of_bytes data in
  if utf8_ok t then v ← json_loads t; Ok (Some v)
  else raise UnicodeDecodeError "'utf-8' codec can't decode bytes".

(** ** The receive loop *)

(** What [recvfrom_into] does next. *)
Inductive sock_event :=
  | Datagram (data : list byte)
  | SockTimeout
  | SockError (e : exn).

Inductive callback (A : Type) :=
  | Delivered (a : A)
  | Reported (e : exn).
Arguments Delivered {A} a.
Arguments Reported {A} e.

Section Loop.
Context {A : Type} (handler : list byte -> res (option A)).

(** One turn: the callbacks made and whether the loop goes on. *)
Definition recv_turn (ev : sock_event) : list (callback A) * bool :=
  let r := match ev with
           | Datagram data => handler data
           | SockTimeout => raise TimeoutError "timed out"
           | SockError e => Raise e
           end in
  match r with
  | Ok (Some a) => ([Delivered a], true)
  | Ok None => ([], true)
  | Raise e =>
      if exn_isa (exn_cls e) TimeoutError then ([], true)
      else if exn_isa (exn_cls e) OSError then ([], false)
      else ([Reported e], true)
  end.

(** [_loop] over the socket's events; [stopped] is [self._stop]. *)
Fixpoint recv_loop (stopped : bool) (evs : list sock_event) : list (callback A) :=
  if stopped then []
  else
    match evs with
    | [] => []
    | ev :: evs' =>
        let '(out, go) := recv_turn ev in
        out ++ (if go then recv_loop stopped evs' else [])
    end.
End Loop.

(** ** Start and stop *)

(** The ports are what the configuration has; a socket and its thread are
    named by the port they are bound to. *)
Record UdpReceivers := MkUdpReceivers {
  ur_iq_port : pyval;
  ur_psd_port : pyval;
  ur_status_port : pyval;
  ur_stop : bool;
  ur_threads : list Z;
  ur_sockets : list Z;
}.

Definition udp_init (iq psd status : pyval) : UdpReceivers := MkUdpReceivers iq psd status false [] [].

(** [sock.bind((host, port))]; [free] says which ports the system grants. *)
Definition bind_port (free : Z -> bool) (port : pyval) : res Z :=
  z ← match port with
      | PInt z => Ok z
      | PBool b => Ok (if b then 1 else 0)
      | _ => raise TypeError "an integer is required"
      end;
  if negb ((0 <=? z) && (z <=? 65535)) then raise OverflowError "bind(): port must be 0-65535."
  else if free z then Ok z
  else raise OSError "[Errno 98] Address already in use".

Definition add_thread (port : Z) (u : UdpReceivers) : UdpReceivers :=
  MkUdpReceivers (ur_iq_port u) (ur_psd_port u) (ur_status_port u) (ur_stop u)
    (ur_threads u ++ [port]) (ur_sockets u ++ [port]).

(** A socket that cannot be bound is not kept. *)
Definition start_socket (free : Z -> bool) (port : pyval) : M UdpReceivers unit :=
  z ← M_lift (bind_port free port);
  M_modify (add_thread z).

Definition udp_start (free : Z -> bool) : M UdpReceivers unit :=
  u ← M_get;
  match ur_threads u with
  | [] =>
      start_socket free (ur_iq_port u) ;;
      start_socket free (ur_psd_port u) ;;
      start_socket free (ur_status_port u)
  | _ => mret tt
  end.

Definition udp_stop (u : UdpReceivers) : UdpReceivers :=
  MkUdpReceivers (ur_iq_port u) (ur_psd_port u) (ur_status_port u) true [] [].

(** What the thread of [port] does with its socket's events. *)
Definition thread_run {A} (handler : list byte -> res (option A)) (port : Z) (u : UdpReceivers)
    (evs : list sock_event) : list (callback A) :=
  if decide (port ∈ ur_threads u) then recv_loop handler (ur_stop u) evs else [].

(** ** Lemmas *)

Section Receive.
Context {H : Type} `{WireHeaderLaws H}.

Lemma slice_0 {A} n (l : list A) : slice 0 n l = take (Z.to_nat n) l.
Proof. unfold slice. simpl. by rewrite Nat.sub_0_r. Qed.

(** A packed header followed by its payload (and anything after it) is
    delivered as it was sent. *)
Lemma recv_datagram_sent (h : H) bs payload rest :
  wh_pack h = Ok bs -> zlen payload = wh_payload_bytes h ->
  recv_datagram (bs ++ payload ++ rest) = Ok (Some (h, payload)).
Proof.
  intros Hp Hl. pose proof (wh_pack_size h bs Hp) as Hs. pose proof wh_size_pos.
  unfold recv_datagram, zlen in *. rewrite !length_app.
  destruct (Z.ltb_spec (Z.of_nat (length bs + (length payload + length rest))) wh_size); [lia|].
  rewrite slice_0. rewrite take_app_length' by lia.
  pose proof (wh_unpack_pack h bs [] Hp) as Hu. rewrite app_nil_r in Hu. rewrite Hu. cbn [mbind res_bind].
  do 3 f_equal. unfold slice. rewrite drop_app_length' by lia. rewrite take_app_length' by lia. done.
Qed.

Lemma recv_datagram_exn data e : recv_datagram (H := H) data = Raise e -> exn_cls e = PacketError.
Proof.
  unfold recv_datagram. case_match; [done|].
  destruct (wh_unpack _) eqn:Hu; cbn; [done|]. intros [= <-]. by eapply wh_unpack_error.
Qed.

(** What receiving a datagram must give. *)
Definition recv_spec (data : list byte) (r : res (option (H * list byte))) : Prop :=
  match r with
  | Ok None => zlen data < wh_size (H := H)
  | Ok (Some (h, payload)) =>
      exists bs tail, wh_pack h = Ok bs /\ data = bs ++ payload ++ tail /\
        zlen payload = Z.min (wh_payload_bytes h) (zlen data - wh_size (H := H)) /\
        (forall h', wh_pack h' = Ok bs -> h' = h)
  | Raise e => exn_cls e = PacketError /\ wh_size (H := H) <= zlen data /\
      forall h bs tail, wh_pack h = Ok bs -> data <> bs ++ tail
  end.

Lemma recv_datagram_spec (data : list byte) : recv_spec data (recv_datagram data).
Proof.
  unfold recv_spec. pose proof (wh_size_pos (H := H)) as Hpos.
  destruct (recv_datagram (H := H) data) as [[[h payload]|]|e] eqn:Hr.
  - revert Hr. unfold recv_datagram. destruct (Z.ltb_spec (zlen data) (wh_size (H := H))) as [|Hlen]; [done|].
    destruct (wh_unpack (slice 0 wh_size data)) as [h'|] eqn:Hu; cbn; [|done]. intros [= <- <-].
    pose proof (wh_pack_unpack _ _ Hu) as Hp. pose proof (wh_unpack_payload _ _ Hu) as Hpl.
    rewrite slice_0, take_take, Nat.min_id in Hp. unfold zlen in *.
    exists (take (Z.to_nat wh_size) data),
      (drop (Z.to_nat (wh_payload_bytes h')) (drop (Z.to_nat wh_size) data)).
    split_and!; [done| | |].
    + unfold slice. replace (Z.to_nat (wh_size + wh_payload_bytes h') - Z.to_nat wh_size)%nat
        with (Z.to_nat (wh_payload_bytes h')) by lia.
      by rewrite take_drop, take_drop.
    + unfold slice. rewrite length_take, length_drop. lia.
    + intros h2 Hp2. pose proof (wh_unpack_pack _ _ [] Hp) as Hu1. pose proof (wh_unpack_pack _ _ [] Hp2) as Hu2.
      congruence.
  - revert Hr. unfold recv_datagram. destruct (Z.ltb_spec (zlen data) (wh_size (H := H))); [done|].
    by destruct (wh_unpack _).
  - split; [by eapply recv_datagram_exn|].
    revert Hr. unfold recv_datagram. destruct (Z.ltb_spec (zlen data) (wh_size (H := H))) as [|Hlen]; [done|].
    intros Hr. split; [lia|]. intros h bs tl Hp ->. revert Hr.
    pose proof (wh_pack_size h bs Hp) as Hs. rewrite slice_0.
    rewrite take_app_length' by (unfold zlen in *; lia).
    pose proof (wh_unpack_pack h bs [] Hp) as Hu. rewrite app_nil_r in Hu. by rewrite Hu.
Qed.
End Receive.

(** The callback for one event of the socket. *)
Definition callback_of {A} (handler : list byte -> res (option A)) (ev : sock_event) : option (callback A) :=
  match ev with
  | Datagram data =>
      match handler data with
      | Ok (Some a) => Some (Delivered a)
      | Ok None => None
      | Raise e => Some (Reported e)
      end
  | _ => None
  end.

Lemma recv_loop_callbacks {A} (handler : list byte -> res (option A)) (evs : list sock_event) :
  (forall data e, handler data = Raise e -> exn_isa (exn_cls e) OSError = false) ->
  Forall (fun ev => match ev with SockError _ => False | _ => True end) evs ->
  recv_loop handler false evs = omap (callback_of handler) evs.
Proof.
  intros Hh. induction 1 as [|ev evs Hev _ IH]; [done|]. cbn [recv_loop].
  destruct ev as [data| |e]; [|cbn; by rewrite IH|done]. cbn. unfold recv_turn.
  destruct (handler data) as [[a|]|e] eqn:Hd; cbn; rewrite ?IH; [done|done|].
  specialize (Hh _ _ Hd). assert (exn_isa (exn_cls e) TimeoutError = false) as ->.
  { destruct e as [cls msg]. simpl in *. by destruct cls. }
  by rewrite Hh.
Qed.

(** [start] with three ports that can be bound. *)
Lemma udp_start_bound free u p1 p2 p3 :
  ur_threads u = [] -> ur_sockets u = [] ->
  bind_port free (ur_iq_port u) = Ok p1 -> bind_port free (ur_psd_port u) = Ok p2 ->
  bind_port free (ur_status_port u) = Ok p3 ->
  udp_start free u =
    (MkUdpReceivers (ur_iq_port u) (ur_psd_port u) (ur_status_port u) (ur_stop u) [p1; p2; p3] [p1; p2; p3], Ok tt).
Proof.
  intros Ht Hs H1 H2 H3. unfold udp_start, start_socket; open_M. rewrite Ht, H1, H2, H3. unfold add_thread. cbn.
  by rewrite Ht, Hs.
Qed.

(** However [start] ends, a thread runs for exactly the sockets it opened, and
    these are the first ones of the three. *)
Lemma udp_start_prefix free u :
  ur_threads u = [] -> ur_sockets u = [] ->
  let '(u', r) := udp_start free u in
  ur_threads u' = ur_sockets u' /\ ur_stop u' = ur_stop u /\ (length (ur_threads u') <= 3)%nat /\
  (r = Ok tt <-> length (ur_threads u') = 3%nat).
Proof.
  intros Ht Hs. unfold udp_start, start_socket; open_M. rewrite Ht.
  repeat (destruct (bind_port _ _); cbn; [|rewrite ?Ht, ?Hs; cbn; (split_and!; [done|done|lia|by split])]).
  rewrite Ht, Hs. cbn. by split_and!; [..|lia|].
Qed.

Lemma recv_iq_not_oserror data e : recv_iq data = Raise e -> exn_isa (exn_cls e) OSError = false.
Proof. intros He%recv_datagram_exn. by rewrite He. Qed.

Lemma recv_psd_not_oserror data e : recv_psd data = Raise e -> exn_isa (exn_cls e) OSError = false.
Proof. intros He%recv_datagram_exn. by rewrite He. Qed.

(** C26: The receivers lose nothing and stop at nothing.  For a stream of
    datagrams and timeouts (no socket error) the loop makes, in order, exactly
    one callback per datagram that yields a packet or raises: malformed packets
    are reported and the packets after them are still delivered.  For each
    datagram: one shorter than the header is ignored; one whose first bytes are
    no valid header raises [PacketError]; otherwise the delivered header is the
    unique one that packs to those bytes, and the payload is the following
    [payload_bytes] bytes, or as many of them as the datagram has. *)
Theorem receivers_exact (evs : list sock_event) :
  Forall (fun ev => match ev with SockError _ => False | _ => True end) evs ->
  recv_loop recv_iq false evs = omap (callback_of recv_iq) evs /\
  recv_loop recv_psd false evs = omap (callback_of recv_psd) evs /\
  forall data, recv_spec data (recv_iq data) /\ recv_spec data (recv_psd data).
Proof.
  intros Hev. split_and!; [apply recv_loop_callbacks; [apply recv_iq_not_oserror|done]
    |apply recv_loop_callbacks; [apply recv_psd_not_oserror|done]|].
  intros data. split; apply recv_datagram_spec.
Qed.

(** A runt, a full-size datagram with a bad magic number, a timeout, a runt. *)
Lemma receivers_exact_witness :
  recv_loop recv_iq false [Datagram [x00]; Datagram (replicate 64 x00); SockTimeout; Datagram []] =
    [Reported (Exn PacketError "bad IQ magic 0x00000000")].
Proof.
  rewrite (proj1 (receivers_exact [Datagram [x00]; Datagram (replicate 64 x00); SockTimeout; Datagram []]
    ltac:(repeat constructor))). reflexivity.
Defined.

(** A receiver set cannot be restarted.  After [start] the thread of each
    port serves its socket; after [stop] and another [start] the three threads
    exist again but, the stop flag being never cleared, deliver nothing. *)
Theorem udp_restart_deaf {A} (handler : list byte -> res (option A)) (free : Z -> bool) (iq psd status : pyval)
    (p1 p2 p3 port : Z) (evs : list sock_event) :
  bind_port free iq = Ok p1 -> bind_port free psd = Ok p2 -> bind_port free status = Ok p3 ->
  exists u u',
    udp_start free (udp_init iq psd status) = (u, Ok tt) /\ ur_threads u = [p1; p2; p3] /\
    (port ∈ [p1; p2; p3] -> thread_run handler port u evs = recv_loop handler false evs) /\
    udp_start free (udp_stop u) = (u', Ok tt) /\ ur_threads u' = [p1; p2; p3] /\
    thread_run handler port u' evs = [].
Proof.
  intros H1 H2 H3. eexists _, _. split_and!.
  - by apply udp_start_bound.
  - done.
  - intros Hp. unfold thread_run. cbn. by rewrite decide_True.
  - by apply udp_start_bound.
  - done.
  - unfold thread_run. cbn. case_decide; [|done]. by destruct evs.
Qed.

Lemma udp_restart_deaf_witness :
  exists u u',
    udp_start (fun _ => true) (udp_init (PInt 9001) (PInt 9002) (PInt 9003)) = (u, Ok tt) /\
    ur_threads u = [9001; 9002; 9003] /\
    udp_start (fun _ => true) (udp_stop u) = (u', Ok tt) /\
    thread_run recv_iq 9001 u' [Datagram (replicate 64 x00)] = [].
Proof.
  destruct (udp_restart_deaf recv_iq (fun _ => true) (PInt 9001) (PInt 9002) (PInt 9003) 9001 9002 9003 9001
    [Datagram (replicate 64 x00)] eq_refl eq_refl eq_refl) as (u & u' & H1 & H2 & _ & H3 & _ & H4).
  exists u, u'. exact (conj H1 (conj H2 (conj H3 H4))).
Defined.
