(* ===== verification/SignalGen.v ===== *)
(** The IQ signal generator of the device simulator
    ([simulator/fake_ac920/signal_gen.py]): the oscillator with its two phases,
    the six scenarios, and the SC16 encoder.  [math.sin], [math.cos] (the
    platform's libm) and the [random] generator are parameters. *)

From Stdlib Require Import ZArith SpecFloat Lia Strings.Byte.
From stdpp Require Import base list sets strings.
From S2P Require Import Prelude PyFloat PyValue.

Open Scope Z_scope.

(** [math.pi] and [math.tau]. *)
Definition math_pi : float := S754_finite false 7074237752028440 (-51).
Definition math_tau : float := S754_finite false 7074237752028440 (-50).

Record ComplexOscillator := MkOscillator {
  osc_sample_rate_hz : Z;
  osc_phase : float;
  osc_audio_phase : float;
}.

Definition new_oscillator (rate : Z) : ComplexOscillator := MkOscillator rate f_zero f_zero.

(** A Python [complex]. *)
Abbreviation cplx := (float * float)%type.

Definition set_phase (p : float) (o : ComplexOscillator) : ComplexOscillator :=
  MkOscillator (osc_sample_rate_hz o) p (osc_audio_phase o).
Definition set_audio_phase (p : float) (o : ComplexOscillator) : ComplexOscillator :=
  MkOscillator (osc_sample_rate_hz o) (osc_phase o) p.

(** What the generator takes from outside: sine and cosine, which raise on an
    infinite argument, and [random.uniform(a, b)] with its hidden state. *)
Class SignalEnv (rng : Type) := {
  math_sin : float -> res float;
  math_cos : float -> res float;
  random_uniform : float -> float -> rng -> float * rng;
}.

(** An environment for concrete runs: a constant signal. *)
Definition constant_env : SignalEnv unit := {|
  math_sin := fun _ => Ok (f_of_dec 5 (-1));
  math_cos := fun _ => Ok (f_of_dec 5 (-1));
  random_uniform := fun a b g => (a, g) |}.

Section SignalGen.
Context {rng : Type} `{!SignalEnv rng}.

(** [phase += step; if phase > tau: phase -= tau]. *)
Definition advance (phase step : float) : float :=
  let p := f_add phase step in
  if f_ltb math_tau p then f_sub p math_tau else p.

(** [2.0 * math.pi * freq_hz / sample_rate_hz]. *)
Definition phase_step (freq : float) (rate : Z) : res float :=
  r ← float_of_int rate;
  float_div (f_mul (f_mul (f_of_Z 2) math_pi) freq) r.

(** [n] loop turns from [phase]; [gen] makes the sample of each. *)
Fixpoint osc_loop {A} (gen : float -> res A) (step : float) (n : nat) (phase : float) : res (list A * float) :=
  match n with
  | O => Ok ([], phase)
  | S n' =>
      x ← gen phase;
      '(xs, p) ← osc_loop gen step n' (advance phase step);
      Ok (x :: xs, p)
  end.

Definition step_audio (freq : float) (count : Z) (o : ComplexOscillator) : res (list float * ComplexOscillator) :=
  step ← phase_step freq (osc_sample_rate_hz o);
  '(values, p) ← osc_loop math_sin step (Z.to_nat count) (osc_audio_phase o);
  Ok (values, set_audio_phase p o).

Definition polar (amplitude phase : float) : res cplx :=
  c ← math_cos phase; s ← math_sin phase;
  Ok (f_mul c amplitude, f_mul s amplitude).

Definition complex_tone (freq : float) (count : Z) (amplitude : float) (o : ComplexOscillator) :
    res (list cplx * ComplexOscillator) :=
  step ← phase_step freq (osc_sample_rate_hz o);
  '(out, p) ← osc_loop (polar amplitude) step (Z.to_nat count) (osc_phase o);
  Ok (out, set_phase p o).

Fixpoint modulate_loop (beta : float) (rate : Z) (audio : list float) (phase : float) : res (list cplx * float) :=
  match audio with
  | [] => Ok ([], phase)
  | value :: audio' =>
      r ← float_of_int rate;
      ratio ← float_div r (f_of_Z 48000);
      dp ← float_div (f_mul beta value) (f_max ratio (f_of_Z 1));
      let p := f_add phase dp in
      let p :=
        if f_ltb math_tau p then f_sub p math_tau
        else if f_ltb p (f_opp math_tau) then f_add p math_tau
        else p in
      x ← polar (f_of_dec 55 (-2)) p;
      '(xs, p') ← modulate_loop beta rate audio' p;
      Ok (x :: xs, p')
  end.

Definition phase_modulated (audio : list float) (beta : float) (o : ComplexOscillator) :
    res (list cplx * ComplexOscillator) :=
  '(out, p) ← modulate_loop beta (osc_sample_rate_hz o) audio (osc_phase o);
  Ok (out, set_phase p o).

Fixpoint noise (n : nat) (g : rng) : list cplx * rng :=
  match n with
  | O => ([], g)
  | S n' =>
      let quarter := f_of_dec 25 (-2) in
      let '(re, g1) := random_uniform (f_opp quarter) quarter g in
      let '(im, g2) := random_uniform (f_opp quarter) quarter g1 in
      let '(xs, g3) := noise n' g2 in
      ((re, im) :: xs, g3)
  end.

Definition am_sample (x : float) : cplx :=
  (f_add (f_of_dec 25 (-2))
     (f_mul (f_of_dec 45 (-2)) (f_add (f_of_dec 5 (-1)) (f_mul (f_of_dec 5 (-1)) x))), f_zero).

(** Runs a generator on the oscillator; its new phase is stored only when it
    returns. *)
Definition on_osc {A} (f : ComplexOscillator -> res (A * ComplexOscillator)) : M (ComplexOscillator * rng) A :=
  fun og =>
  match f og.1 with
  | Ok (a, o') => ((o', og.2), Ok a)
  | Raise e => (og, Raise e)
  end.

Definition make_iq (scenario : string) (count : Z) : M (ComplexOscillator * rng) (list cplx) :=
  let scenario := str_lower scenario in
  if decide (scenario = "noise"%string) then
    fun og => let '(iq, g') := noise (Z.to_nat count) og.2 in ((og.1, g'), Ok iq)
  else if decide (scenario = "tone"%string) then
    on_osc (complex_tone (f_of_Z 10000) count (f_of_dec 55 (-2)))
  else
    tone ← on_osc (step_audio (f_of_Z 1000) count);
    if decide (scenario = "am_tone"%string) then mret (am_sample <$> tone)
    else if decide (scenario = "ssb_tone"%string) then
      on_osc (complex_tone (f_of_Z 1000) count (f_of_dec 55 (-2)))
    else if decide (scenario = "nfm_tone"%string) then on_osc (phase_modulated tone (f_of_dec 8 (-1)))
    else if decide (scenario = "wfm_tone"%string) then on_osc (phase_modulated tone (f_of_Z 5))
    else on_osc (complex_tone (f_of_Z 1000) count (f_of_dec 4 (-1))).
End SignalGen.

(** ** SC16 encoding *)

(** [max(-32768, min(32767, z))]. *)
Definition clamp16 (z : Z) : Z := Z.max (-32768) (Z.min 32767 z).

Definition sc16_component (x : float) : res Z :=
  z ← int_of_float (f_mul x (f_of_Z 32767)); Ok (clamp16 z).

Fixpoint complex_to_sc16 (iq : list cplx) : res (list byte) :=
  match iq with
  | [] => Ok []
  | (re, im) :: iq' =>
      i_val ← sc16_component re;
      q_val ← sc16_component im;
      rest ← complex_to_sc16 iq';
      Ok (i16_bytes i_val ++ i16_bytes q_val ++ rest)
  end.

(** ** Lengths and ranges *)

Section SignalGenFacts.
Context {rng : Type} `{!SignalEnv rng}.

Lemma osc_loop_length {A} (gen : float -> res A) step n p xs p' :
  osc_loop gen step n p = Ok (xs, p') -> length xs = n.
Proof.
  revert p xs; induction n as [|n IH]; intros p xs; cbn [osc_loop]; [by intros [= <- _]|].
  destruct (gen p); cbn; [|done].
  destruct (osc_loop gen step n (advance p step)) as [[ys q]|] eqn:Hl; cbn; [|done].
  intros [= <- <-]. simpl. f_equal. by eapply IH.
Qed.

Lemma modulate_loop_length beta rate audio p xs p' :
  modulate_loop beta rate audio p = Ok (xs, p') -> length xs = length audio.
Proof.
  revert p xs; induction audio as [|a audio IH]; intros p xs; cbn [modulate_loop]; [by intros [= <- _]|].
  destruct (float_of_int rate); cbn; [|done].
  destruct (float_div a0 _); cbn; [|done]. destruct (float_div _ _); cbn; [|done].
  set (q := if f_ltb math_tau _ then _ else _).
  destruct (polar _ q); cbn; [|done].
  destruct (modulate_loop beta rate audio q) as [[ys r]|] eqn:Hl; cbn; [|done].
  intros [= <- <-]. simpl. f_equal. by eapply IH.
Qed.

Lemma noise_length n (g : rng) : length (noise n g).1 = n.
Proof.
  revert g; induction n as [|n IH]; intros g; simpl; [done|].
  destruct (random_uniform _ _ g) as [re g1]. destruct (random_uniform _ _ g1) as [im g2].
  specialize (IH g2). destruct (noise n g2). simpl in *. by f_equal.
Qed.

Lemma complex_tone_length freq count amp o iq o' :
  complex_tone freq count amp o = Ok (iq, o') ->
  length iq = Z.to_nat count /\ osc_sample_rate_hz o' = osc_sample_rate_hz o.
Proof.
  unfold complex_tone. destruct (phase_step _ _); cbn; [|done].
  destruct (osc_loop _ _ _ _) as [[xs p]|] eqn:Hl; cbn; [|done].
  intros [= <- <-]. apply osc_loop_length in Hl. done.
Qed.

Lemma step_audio_length freq count o iq o' :
  step_audio freq count o = Ok (iq, o') ->
  length iq = Z.to_nat count /\ osc_sample_rate_hz o' = osc_sample_rate_hz o.
Proof.
  unfold step_audio. destruct (phase_step _ _); cbn; [|done].
  destruct (osc_loop _ _ _ _) as [[xs p]|] eqn:Hl; cbn; [|done].
  intros [= <- <-]. apply osc_loop_length in Hl. done.
Qed.

Lemma phase_modulated_length audio beta o iq o' :
  phase_modulated audio beta o = Ok (iq, o') ->
  length iq = length audio /\ osc_sample_rate_hz o' = osc_sample_rate_hz o.
Proof.
  unfold phase_modulated. destruct (modulate_loop _ _ _ _) as [[xs p]|] eqn:Hl; cbn; [|done].
  intros [= <- <-]. apply modulate_loop_length in Hl. done.
Qed.

Lemma on_osc_ok {A} (f : ComplexOscillator -> res (A * ComplexOscillator)) (og og' : ComplexOscillator * rng) a :
  on_osc f og = (og', Ok a) -> f og.1 = Ok (a, og'.1).
Proof. unfold on_osc. destruct (f og.1) as [[? ?]|]; [by intros [= <- <-]|done]. Qed.

(** Every scenario makes the requested number of samples. *)
Lemma make_iq_length scenario count (og og' : ComplexOscillator * rng) iq :
  make_iq scenario count og = (og', Ok iq) -> length iq = Z.to_nat count.
Proof.
  unfold make_iq. case_decide.
  { pose proof (noise_length (Z.to_nat count) og.2) as Hl.
    destruct (noise (Z.to_nat count) og.2) as [xs g1]. by intros [= <- <-]. }
  case_decide; [intros [Hk _]%on_osc_ok%complex_tone_length; done|].
  open_M.
  destruct (on_osc (step_audio (f_of_Z 1000) count) og) as [og1 [tone|]] eqn:Ht; [|done].
  apply on_osc_ok, step_audio_length in Ht as [Htl _].
  case_decide; [intros [= <- <-]; by rewrite length_fmap|].
  repeat case_decide; intros Hk%on_osc_ok;
    (apply complex_tone_length in Hk || apply phase_modulated_length in Hk);
    destruct Hk as [-> _]; done.
Qed.

(** No scenario changes the oscillator's sample rate, whether it returns or
    raises. *)
Lemma on_osc_rate {A} (f : ComplexOscillator -> res (A * ComplexOscillator)) (og : ComplexOscillator * rng) :
  (forall a o', f og.1 = Ok (a, o') -> osc_sample_rate_hz o' = osc_sample_rate_hz og.1) ->
  osc_sample_rate_hz (on_osc f og).1.1 = osc_sample_rate_hz og.1.
Proof. intros Hf. unfold on_osc. destruct (f og.1) as [[a o']|]; [|done]. by apply (Hf a). Qed.

Lemma make_iq_rate scenario count (og : ComplexOscillator * rng) :
  osc_sample_rate_hz (make_iq scenario count og).1.1 = osc_sample_rate_hz og.1.
Proof.
  assert (forall freq amp (og : ComplexOscillator * rng),
    osc_sample_rate_hz (on_osc (complex_tone freq count amp) og).1.1 = osc_sample_rate_hz og.1) as Htone.
  { intros freq amp og'. apply on_osc_rate. intros a o' [_ Hr]%complex_tone_length. done. }
  assert (forall tone beta (og : ComplexOscillator * rng),
    osc_sample_rate_hz (on_osc (phase_modulated tone beta) og).1.1 = osc_sample_rate_hz og.1) as Hmod.
  { intros tone beta og'. apply on_osc_rate. intros a o' [_ Hr]%phase_modulated_length. done. }
  unfold make_iq. case_decide; [by destruct (noise _ _)|]. case_decide; [apply Htone|]. open_M.
  pose proof (on_osc_rate (step_audio (f_of_Z 1000) count) og) as Hstep.
  destruct (on_osc (step_audio (f_of_Z 1000) count) og) as [og1 [tone|]];
    cbn [fst] in Hstep; rewrite <- Hstep by (intros a o' [_ Hr]%step_audio_length; done); [|done].
  case_decide; [done|]. repeat case_decide; apply Htone || apply Hmod.
Qed.
End SignalGenFacts.

(** The two's-complement 16-bit integers of a payload, in pairs. *)
Fixpoint sc16_samples (bs : list byte) : list (Z * Z) :=
  match bs with
  | a :: b :: c :: d :: bs' =>
      (to_signed 2 (le_Z [a; b]), to_signed 2 (le_Z [c; d])) :: sc16_samples bs'
  | _ => []
  end.

Lemma clamp16_range z : - 2 ^ 15 <= clamp16 z < 2 ^ 15.
Proof. unfold clamp16. lia. Qed.

Lemma i16_bytes_two z : exists a b, i16_bytes z = [a; b].
Proof.
  pose proof (i16_bytes_length z) as H. destruct (i16_bytes z) as [|a [|b [|]]]; try done. eauto.
Qed.

Lemma sc16_samples_cons i q bs :
  - 2 ^ 15 <= i < 2 ^ 15 -> - 2 ^ 15 <= q < 2 ^ 15 ->
  sc16_samples (i16_bytes i ++ i16_bytes q ++ bs) = (i, q) :: sc16_samples bs.
Proof.
  intros Hi Hq. pose proof (i16_bytes_signed i Hi) as Hsi. pose proof (i16_bytes_signed q Hq) as Hsq.
  destruct (i16_bytes_two i) as (a & b & Hab). destruct (i16_bytes_two q) as (c & d & Hcd).
  rewrite Hab, Hcd in *. cbn [app sc16_samples]. by rewrite Hsi, Hsq.
Qed.

Lemma sc16_component_range x z : sc16_component x = Ok z -> - 2 ^ 15 <= z < 2 ^ 15.
Proof. unfold sc16_component. destruct (int_of_float _); cbn; [|done]. intros [= <-]. apply clamp16_range. Qed.

Lemma sc16_length iq payload : complex_to_sc16 iq = Ok payload -> length payload = (4 * length iq)%nat.
Proof.
  revert payload; induction iq as [|[re im] iq IH]; intros payload; cbn [complex_to_sc16]; [by intros [= <-]|].
  destruct (sc16_component re) as [i|]; cbn [mbind res_bind]; [|done].
  destruct (sc16_component im) as [q|]; cbn [mbind res_bind]; [|done].
  destruct (complex_to_sc16 iq) as [bs|]; cbn [mbind res_bind]; [|done].
  intros [= <-]. cbn [length]. rewrite (IH _ eq_refl). lia.
Qed.

(** C27: SC16 encoding is exact.  Either every component of every sample scales
    to a finite float, and then the payload has four bytes per sample and reads
    back, as little-endian signed 16-bit pairs, to the components scaled by
    32767, truncated and clamped to the 16-bit range; or some component is
    infinite or NaN and encoding raises. *)
Theorem sc16_encode_exact (iq : list cplx) :
  match complex_to_sc16 iq with
  | Ok payload =>
      length payload = (4 * length iq)%nat /\
      Forall2 (fun s z => sc16_component s.1 = Ok z.1 /\ sc16_component s.2 = Ok z.2)
        iq (sc16_samples payload)
  | Raise e =>
      exists s x, s ∈ iq /\ (x = s.1 \/ x = s.2) /\ int_of_float (f_mul x (f_of_Z 32767)) = Raise e
  end.
Proof.
  assert (forall x e, sc16_component x = Raise e -> int_of_float (f_mul x (f_of_Z 32767)) = Raise e) as Hexn.
  { intros x e. unfold sc16_component. by destruct (int_of_float _). }
  induction iq as [|[re im] iq IH]; [done|]. cbn [complex_to_sc16].
  destruct (sc16_component re) as [i|e] eqn:Hi; cbn [mbind res_bind].
  2: { exists (re, im), re. split_and!; [left|auto|auto]. }
  destruct (sc16_component im) as [q|e] eqn:Hq; cbn [mbind res_bind].
  2: { exists (re, im), im. split_and!; [left|auto|auto]. }
  destruct (complex_to_sc16 iq) as [bs|e]; cbn [mbind res_bind].
  - destruct IH as [Hlen Hall]. split.
    + rewrite !length_app, !i16_bytes_length, Hlen. simpl. lia.
    + rewrite sc16_samples_cons by (by eapply sc16_component_range). by constructor.
  - destruct IH as (s & x & Hs & Hx). exists s, x. split; [by right|done].
Qed.
