(* ===== verification/SignalRange.v ===== *)
(** The signal generator never fails on the device's own oscillators: from what
    [math.sin], [math.cos] and [random.uniform] document, every scenario of
    [simulator/fake_ac920/signal_gen.py] delivers its samples, packet after
    packet, and the encoder accepts them.  The phases are summed in floating
    point without a bound on the number of packets; they stay finite because a
    sum far above the step is absorbed by rounding. *)

From Stdlib Require Import ZArith SpecFloat Lia Strings.Byte.
From stdpp Require Import base list sets strings.
From S2P Require Import Prelude PyFloat PyValue SignalGen.

Open Scope Z_scope.

(** ** Rounding keeps a sum below a power of two *)

(** The mantissa is within the precision of the format. *)
Definition f_repr (f : float) : Prop :=
  match f with S754_finite _ m _ => Zdigits2 (Z.pos m) <= 53 | _ => True end.

Lemma binary_round_aux_repr s m e l : 0 <= m -> f_repr (binary_round_aux f_prec f_emax s m e l).
Proof.
  intros Hm. pose proof (binary_round_aux_pos m e l Hm) as Hp. revert Hp. unfold binary_round_aux.
  destruct (shr_fexp f_prec f_emax m e l) as [mrs1 e1].
  destruct (shr_fexp f_prec f_emax _ e1 loc_Exact) as [mrs3 e3].
  destruct (shr_m mrs3); try done. by case_match; [intros [_ ?]|].
Qed.

(** [mrs] is [m] shifted right by [j] places: the rest that fell off is below
    one unit, and the round bit says whether it is at least half of one. *)
Definition shifted (m j : Z) (mrs : shr_record) : Prop :=
  exists rest, m = shr_m mrs * 2 ^ j + rest /\ 0 <= rest < 2 ^ j /\
    (0 < j -> shr_r mrs = true -> 2 ^ j <= 2 * rest).

Lemma shifted_1 m j mrs : 0 <= j -> 0 <= shr_m mrs -> shifted m j mrs -> shifted m (j + 1) (shr_1 mrs).
Proof.
  intros Hj H0 (rest & Hm & Hr & _).
  assert (shr_m mrs = 2 * shr_m (shr_1 mrs) + Z.b2z (shr_r (shr_1 mrs))) as Hs.
  { destruct mrs as [[|[q|q|]|q] ? ?]; simpl in *; lia. }
  exists (Z.b2z (shr_r (shr_1 mrs)) * 2 ^ j + rest). rewrite Z.pow_add_r by lia.
  split_and!; [rewrite Hm, Hs; lia|destruct (shr_r (shr_1 mrs)); simpl; lia..|].
  intros _ ->. simpl. lia.
Qed.

Lemma shifted_iter p m j mrs :
  0 <= j -> 0 <= shr_m mrs -> shifted m j mrs -> shifted m (j + Z.pos p) (SpecFloat.iter_pos shr_1 p mrs).
Proof.
  revert j mrs; induction p as [p IH|p IH|]; intros j mrs Hj H0 Hs; cbn [SpecFloat.iter_pos].
  - replace (j + Z.pos p~1) with (j + 1 + Z.pos p + Z.pos p) by lia.
    pose proof (shr_1_bound mrs H0). pose proof (iter_shr_bound p (shr_1 mrs) ltac:(lia)).
    apply IH; [lia..|]. apply IH; [lia..|]. by apply shifted_1.
  - replace (j + Z.pos p~0) with (j + Z.pos p + Z.pos p) by lia.
    pose proof (iter_shr_bound p mrs H0). apply IH; [lia..|]. by apply IH.
  - by apply shifted_1.
Qed.

Lemma round_down mrs : shr_r mrs = false -> round_nearest_even (shr_m mrs) (loc_of_shr_record mrs) = shr_m mrs.
Proof. destruct mrs as [m [] []]; done. Qed.

(** A mantissa less than half a unit above the largest one below [2 ^ k] rounds
    below [2 ^ k]. *)
Lemma binary_round_aux_absorb s m e k j :
  0 < m -> m < 2 ^ (k - e) - 2 ^ (k - 53 - e) + 2 ^ (j - e) -> e <= j <= k - 54 -> 0 <= k <= 900 ->
  f_mag k (binary_round_aux f_prec f_emax s m e loc_Exact).
Proof.
  intros Hm Hlt Hj Hk.
  assert (2 ^ (k - 53 - e) = 2 * 2 ^ (k - 54 - e)) as H53 by (rewrite <- Z.pow_succ_r by lia; f_equal; lia).
  assert (2 ^ (j - e) <= 2 ^ (k - 54 - e)) as Hje by (apply Z.pow_le_mono_r; lia).
  assert (0 < 2 ^ (k - 54 - e)) as Hpos by (apply Z.pow_pos_nonneg; lia).
  pose proof (Zdigits2_le m (k - e) ltac:(lia) ltac:(lia)) as Hd.
  destruct (decide (Zdigits2 m + e <= k - 1)) as [Hsmall|Hbig].
  { replace k with (k - 1 + 1) by lia. apply binary_round_aux_mag; lia. }
  assert (Zdigits2 m + e = k) as Hdig by lia.
  unfold binary_round_aux. destruct (shr_fexp f_prec f_emax m e loc_Exact) as [mrs1 e1] eqn:H1.
  pose proof (shr_fexp_bound m _ _ _ _ ltac:(lia) H1) as [Hb1 He1].
  assert (shifted m (k - 53 - e) mrs1) as (rest & Hmr & Hrest & Hhalf).
  { revert H1. unfold shr_fexp, shr. rewrite Hdig.
    replace (fexp f_prec f_emax k - e) with (k - 53 - e) by (unfold fexp, SpecFloat.emin, f_prec, f_emax; lia).
    destruct (k - 53 - e) as [|p|p] eqn:Hp; [lia| |lia]. intros [= <- <-].
    apply (shifted_iter p m 0 (shr_record_of_loc m loc_Exact)); simpl; [lia..|].
    exists 0. simpl. lia. }
  set (u := 2 ^ (k - 53 - e)) in *.
  assert (2 ^ (k - e) = 2 ^ 53 * u) as Hu by (unfold u; rewrite <- Z.pow_add_r by lia; f_equal; lia).
  pose proof (round_nearest_even_bound (shr_m mrs1) (loc_of_shr_record mrs1) ltac:(lia)) as Hr.
  assert (0 <= round_nearest_even (shr_m mrs1) (loc_of_shr_record mrs1) < 2 ^ 53) as Hm2.
  { assert (shr_m mrs1 < 2 ^ 53) by nia.
    destruct (decide (shr_m mrs1 = 2 ^ 53 - 1)) as [Hmax|]; [|lia].
    destruct (shr_r mrs1) eqn:Hrb; [|rewrite (round_down _ Hrb); lia].
    specialize (Hhalf ltac:(lia) eq_refl). rewrite Hmax in Hmr. lia. }
  destruct (shr_fexp f_prec f_emax _ e1 loc_Exact) as [mrs3 e3] eqn:H3.
  apply shr_fexp_bound in H3 as [Hb3 He3]; [|lia].
  pose proof (Zdigits2_le _ 53 Hm2 ltac:(lia)) as Hd2.
  destruct (shr_m mrs3) as [|p|p] eqn:Hm3; [done| |lia].
  pose proof (Zdigits2_le (Z.pos p) 53 ltac:(lia) ltac:(lia)).
  destruct (Z.leb_spec e3 (f_emax - f_prec)) as [|Hover]; [cbn [f_mag]; lia|].
  unfold f_emax, f_prec in Hover. lia.
Qed.

Lemma binary_normalize_absorb m e k j b :
  Z.abs m < 2 ^ (k - e) - 2 ^ (k - 53 - e) + 2 ^ (j - e) -> e <= j <= k - 54 -> 0 <= k <= 900 ->
  f_mag k (binary_normalize f_prec f_emax m e b) /\ f_repr (binary_normalize f_prec f_emax m e b).
Proof.
  assert (forall s p, Z.pos p < 2 ^ (k - e) - 2 ^ (k - 53 - e) + 2 ^ (j - e) -> e <= j <= k - 54 -> 0 <= k <= 900 ->
    f_mag k (binary_round f_prec f_emax s p e) /\ f_repr (binary_round f_prec f_emax s p e)) as H.
  { intros s p Hp Hj Hk. unfold binary_round. destruct (shl_align _ _ _) as [m2 e2] eqn:Ha.
    apply shl_align_value in Ha as [He Hv]. split; [|by apply binary_round_aux_repr].
    apply (binary_round_aux_absorb _ _ _ _ j); try lia. rewrite Hv.
    assert (0 < 2 ^ (e - e2)) by (apply Z.pow_pos_nonneg; lia).
    replace (k - e2) with (k - e + (e - e2)) by lia. replace (k - 53 - e2) with (k - 53 - e + (e - e2)) by lia.
    replace (j - e2) with (j - e + (e - e2)) by lia. rewrite !Z.pow_add_r by lia. nia. }
  intros Hm Hj Hk. destruct m as [|p|p]; cbn [binary_normalize]; [done|by apply H..].
Qed.

(** The exact sum of two floats, the second far below the bound of the first. *)
Lemma aligned_below m e ez k :
  Zdigits2 (Z.pos m) + e <= k -> Zdigits2 (Z.pos m) <= 53 -> ez <= e -> ez <= k - 53 ->
  Z.pos (shl_align m e ez).1 <= 2 ^ (k - ez) - 2 ^ (k - 53 - ez).
Proof.
  intros Hm Hd He Hk. destruct (shl_align m e ez) as [m2 e2] eqn:Ha. cbn [fst].
  apply shl_align_value in Ha as [-> Hv]. rewrite Z.min_r in Hv by lia. rewrite Hv.
  pose proof (digits_pos m). rewrite Zdigits2_log2 in * by lia. set (l := Z.log2 (Z.pos m)) in *.
  pose proof (Z.log2_spec (Z.pos m) ltac:(lia)) as [_ Hlt]. fold l in Hlt.
  replace (k - ez) with (53 + (k - 53 - ez)) by lia. rewrite Z.pow_add_r by lia.
  destruct (Z.le_gt_cases e (k - 53)) as [Hle|Hgt].
  - replace (k - 53 - ez) with ((e - ez) + (k - 53 - e)) by lia. rewrite Z.pow_add_r by lia.
    assert (0 < 2 ^ (e - ez)) by (apply Z.pow_pos_nonneg; lia).
    assert (0 < 2 ^ (k - 53 - e)) by (apply Z.pow_pos_nonneg; lia).
    assert (Z.pos m <= 2 ^ 53 - 1).
    { assert (2 ^ Z.succ l <= 2 ^ 53) by (apply Z.pow_le_mono_r; lia). lia. }
    nia.
  - replace (e - ez) with ((k - 53 - ez) + (e - (k - 53))) by lia. rewrite Z.pow_add_r by lia.
    assert (0 < 2 ^ (k - 53 - ez)) by (apply Z.pow_pos_nonneg; lia).
    assert (0 < 2 ^ (e - (k - 53))) by (apply Z.pow_pos_nonneg; lia).
    assert ((Z.pos m + 1) * 2 ^ (e - (k - 53)) <= 2 ^ 53).
    { apply Z.le_trans with (2 ^ Z.succ l * 2 ^ (e - (k - 53))); [nia|].
      rewrite <- Z.pow_add_r by lia. apply Z.pow_le_mono_r; lia. }
    nia.
Qed.

(** Below [2 ^ k] and within the precision. *)
Definition f_in (k : Z) (f : float) : Prop := f_mag k f /\ f_repr f.

Lemma f_mag_mono j k f : f_mag j f -> j <= k -> f_mag k f.
Proof. destruct f; cbn; try done. lia. Qed.

(** Adding or subtracting something far below [2 ^ k] stays below [2 ^ k]. *)
Lemma f_add_absorb k j x y :
  f_in k x -> f_in j y -> j <= k - 54 -> 0 <= k <= 900 -> f_in k (f_add x y) /\ f_in k (f_sub x y).
Proof.
  intros [Hx Hrx] [Hy Hry] Hj Hk. pose proof (f_mag_mono _ k _ Hy ltac:(lia)) as Hyk.
  destruct x as [sx|sx| |sx mx ex], y as [sy|sy| |sy my ey]; try done.
  - by destruct sx, sy.
  - cbn [f_mag f_repr] in *. pose proof (digits_pos my).
    pose proof (aligned_below mx ex (Z.min ex ey) k Hx Hrx ltac:(lia) ltac:(lia)) as H1.
    destruct (mag_aligned my ey (Z.min ex ey) j Hy ltac:(lia)) as [H2 H3].
    unfold f_add, f_sub, SFadd, SFsub, f_in.
    split; apply (binary_normalize_absorb _ _ _ j); try lia; revert H1 H2; unfold cond_Zopp;
      generalize (shl_align mx ex (Z.min ex ey)).1, (shl_align my ey (Z.min ex ey)).1;
      intros p q H1 H2; destruct sx, sy; lia.
Qed.

(** A divisor away from zero. *)
Definition f_least (k : Z) (f : float) : Prop :=
  match f with S754_finite _ m e => k <= Zdigits2 (Z.pos m) + e | _ => False end.

Lemma f_div_in k lo a b :
  f_mag k a -> f_least lo b -> -1000 <= k - lo <= 800 ->
  exists q, float_div a b = Ok q /\ f_in (k - lo + 2) q.
Proof.
  intros Ha Hb Hk. destruct b as [sb|sb| |sb mb eb]; cbn [f_least] in Hb; try done.
  unfold float_div. cbn [f_is_zero]. eexists. split; [done|].
  destruct a as [sa|sa| |sa ma ea]; cbn [f_mag] in Ha; try done. cbn [SFdiv].
  destruct (SFdiv_core_binary _ _ _ _ _ _) as [[q e'] l] eqn:Hd.
  pose proof (SFdiv_core_nonneg _ _ _ _ _ _ _ (Pos2Z.is_pos ma) (Pos2Z.is_pos mb) Hd) as Hq.
  split; [|by apply binary_round_aux_repr].
  apply SFdiv_core_spec in Hd as [He Hqe]; [|lia..].
  pose proof (digits_pos ma). pose proof (digits_pos mb).
  replace (k - lo + 2) with (k - lo + 1 + 1) by lia. apply binary_round_aux_mag; try lia.
  destruct (decide (q = 0)) as [->|Hne]; [simpl; lia|].
  assert (q * 2 ^ Z.log2 (Z.pos mb) <= Z.pos ma * 2 ^ (ea - eb - e')) as Hle.
  { destruct (Z.log2_spec (Z.pos mb) ltac:(lia)) as [Hlog _].
    pose proof (Z.mul_div_le (Z.pos ma * 2 ^ (ea - eb - e')) (Z.pos mb) ltac:(lia)) as Hmul.
    rewrite <- Hqe in Hmul. nia. }
  pose proof (Z.pow_nonneg 2 (Z.log2 (Z.pos mb)) ltac:(lia)).
  pose proof (Zdigits2_mono _ _ (conj (Z.mul_nonneg_nonneg q _ Hq ltac:(done)) Hle)) as Hdig.
  rewrite !Zdigits2_mul_pow2 in Hdig by (pose proof (Z.log2_nonneg (Z.pos mb)); lia).
  rewrite (Zdigits2_log2 (Z.pos mb)) in * by lia. lia.
Qed.

Lemma f_mul_in j k a b :
  f_mag j a -> f_mag k b -> -1074 <= j + k <= 900 -> f_in (j + k + 1) (f_mul a b).
Proof.
  intros Ha Hb Hk. split; [by apply f_mag_mul|].
  destruct a, b; try done. cbn [f_mul SFmul]. by apply binary_round_aux_repr.
Qed.

(** ** What the generator takes from outside *)

(** [math.sin] and [math.cos] accept every finite float and return a value of
    magnitude at most 1 (stated as below 2); [random.uniform(a, b)] returns a
    number between [a] and [b], so no larger in magnitude than both. *)
Class SignalLaws (rng : Type) `{!SignalEnv rng} : Prop := {
  math_sin_finite k x : f_mag k x -> exists v, math_sin x = Ok v /\ f_mag 1 v;
  math_cos_finite k x : f_mag k x -> exists v, math_cos x = Ok v /\ f_mag 1 v;
  random_uniform_between k a b g : f_mag k a -> f_mag k b -> f_mag k (random_uniform a b g).1;
}.

Lemma constant_env_laws : @SignalLaws unit constant_env.
Proof. split; intros; [eexists; split; [reflexivity|by vm_compute]..|done]. Qed.

Section Delivers.
Context {rng : Type} `{!SignalEnv rng, !SignalLaws rng}.

(** An oscillator as the device makes it ([new_oscillator] of a positive rate)
    and as its generators leave it. *)
Definition osc_ok (o : ComplexOscillator) : Prop :=
  0 < osc_sample_rate_hz o < 2 ^ 53 /\ f_in 300 (osc_phase o) /\ f_in 300 (osc_audio_phase o).

Lemma new_oscillator_ok rate : 0 < rate < 2 ^ 53 -> osc_ok (new_oscillator rate).
Proof. intros. unfold osc_ok, f_in. cbn. split_and!; done || lia. Qed.

(** A sample that scales to 16 bits without overflow. *)
Definition sample_ok (x : cplx) : Prop := f_mag 400 x.1 /\ f_mag 400 x.2.

Lemma rate_least rate : 0 < rate < 2 ^ 53 -> float_of_int rate = Ok (f_of_Z rate) /\ f_least 1 (f_of_Z rate).
Proof.
  intros Hr. split; [apply float_of_int_ok; lia|].
  destruct (f_of_Z_exact rate) as [-> Hd]; [lia|]. cbn [f_least].
  assert (0 < 2 ^ (53 - Zdigits2 (Z.abs rate))) by (apply Z.pow_pos_nonneg; lia).
  rewrite Z2Pos.id by nia. rewrite Zdigits2_mul_pow2 by lia. lia.
Qed.

Lemma phase_step_ok freq rate :
  0 < rate < 2 ^ 53 -> f_mag 20 freq -> exists step, phase_step freq rate = Ok step /\ f_in 200 step.
Proof.
  intros Hr Hf. destruct (rate_least rate Hr) as [Hok Hl]. unfold phase_step. rewrite Hok. cbn [mbind res_bind].
  destruct (f_div_in 24 1 (f_mul (f_mul (f_of_Z 2) math_pi) freq) (f_of_Z rate)) as (step & Hs & Hi & Hr'); [|done|lia|].
  { apply (f_mag_mul 3 20); [by vm_compute|done|lia]. }
  exists step. split; [done|]. split; [by eapply f_mag_mono; [exact Hi|lia]|done].
Qed.

Lemma advance_in p step : f_in 300 p -> f_in 200 step -> f_in 300 (advance p step).
Proof.
  intros Hp Hs. unfold advance. pose proof (f_add_absorb 300 200 p step Hp Hs ltac:(lia) ltac:(lia)) as [Ha _].
  case_match; [|done]. apply (f_add_absorb 300 3); [done|by vm_compute|lia..].
Qed.

Lemma osc_loop_ok {A} (P : A -> Prop) (gen : float -> res A) step n p :
  (forall q, f_in 300 q -> exists x, gen q = Ok x /\ P x) -> f_in 200 step -> f_in 300 p ->
  exists xs p', osc_loop gen step n p = Ok (xs, p') /\ Forall P xs /\ f_in 300 p'.
Proof.
  intros Hg Hs. revert p. induction n as [|n IH]; intros p Hp; cbn [osc_loop]; [by exists [], p|].
  destruct (Hg p Hp) as (x & -> & Hx). destruct (IH _ (advance_in p step Hp Hs)) as (xs & p' & Hl & Hxs & Hp').
  cbn [mbind res_bind]. rewrite Hl. cbn [mbind res_bind]. exists (x :: xs), p'. split_and!; [done|by constructor|done].
Qed.

Lemma polar_ok amp p : f_mag 1 amp -> f_in 300 p -> exists x, polar amp p = Ok x /\ sample_ok x.
Proof.
  intros Ha [Hp _]. unfold polar.
  destruct (math_cos_finite _ _ Hp) as (c & -> & Hc). destruct (math_sin_finite _ _ Hp) as (s & -> & Hs).
  cbn [mbind res_bind]. eexists. split; [done|].
  split; cbn; (eapply f_mag_mono; [by apply (f_mag_mul 1 1); [| |lia]|lia]).
Qed.

Lemma complex_tone_ok freq count amp o :
  f_mag 20 freq -> f_mag 1 amp -> osc_ok o ->
  exists iq o', complex_tone freq count amp o = Ok (iq, o') /\ Forall sample_ok iq /\ osc_ok o'.
Proof.
  intros Hf Ha (Hr & Hp & Hq). unfold complex_tone.
  destruct (phase_step_ok freq _ Hr Hf) as (step & -> & Hs). cbn [mbind res_bind].
  destruct (osc_loop_ok sample_ok (polar amp) step (Z.to_nat count) _ (fun q => polar_ok amp q Ha) Hs Hp)
    as (xs & p' & -> & Hxs & Hp').
  cbn [mbind res_bind]. eexists _, _. split_and!; try done; lia.
Qed.

Lemma step_audio_ok freq count o :
  f_mag 20 freq -> osc_ok o ->
  exists tone o', step_audio freq count o = Ok (tone, o') /\ Forall (f_mag 1) tone /\ osc_ok o'.
Proof.
  intros Hf (Hr & Hp & Hq). unfold step_audio.
  destruct (phase_step_ok freq _ Hr Hf) as (step & -> & Hs). cbn [mbind res_bind].
  destruct (osc_loop_ok (f_mag 1) math_sin step (Z.to_nat count) (osc_audio_phase o)) as (xs & p' & -> & Hxs & Hp');
    [|done|done|].
  { intros q [Hq' _]. by apply (math_sin_finite 300). }
  cbn [mbind res_bind]. eexists _, _. split_and!; try done; lia.
Qed.

(** [max(ratio, 1.0)] is away from zero. *)
Lemma f_max_one_least ratio : f_mag 100 ratio -> f_pos ratio -> f_least (-60) (f_max ratio (f_of_Z 1)).
Proof.
  intros Hm Hp. unfold f_max. change (f_of_Z 1) with (S754_finite false 4503599627370496 (-52)).
  destruct (f_ltb _ _) eqn:Hlt; [by vm_compute|]. revert Hlt.
  destruct ratio as [s|s| |s m e]; cbn [f_mag f_pos] in *; try done. destruct Hp as [-> _].
  unfold f_ltb, SFltb, SFcompare. pose proof (digits_pos m).
  destruct (Z.compare_spec e (-52)) as [->|?|?]; [intros _; cbn [f_least]; lia|done|intros _; cbn [f_least]; lia].
Qed.

Lemma modulate_loop_ok beta rate audio p :
  0 < rate < 2 ^ 53 -> f_mag 3 beta -> Forall (f_mag 1) audio -> f_in 300 p ->
  exists iq p', modulate_loop beta rate audio p = Ok (iq, p') /\ Forall sample_ok iq /\ f_in 300 p'.
Proof.
  intros Hr Hb Ha. revert p. induction Ha as [|v audio Hv _ IH]; intros p Hp; cbn [modulate_loop]; [by exists [], p|].
  destruct (rate_least rate Hr) as [-> _]. cbn [mbind res_bind].
  destruct (f_div_in 54 16 (f_of_Z rate) (f_of_Z 48000)) as (ratio & Hratio & Hin & _); [|by vm_compute|lia|].
  { apply (f_ratio_mag rate 1 53); lia. }
  assert (f_pos ratio) as Hpos.
  { destruct (f_ratio_pos rate 1) as [H1 _]; [lia..|]. revert Hratio. unfold float_div.
    change (f_is_zero (f_of_Z 48000)) with false. intros [= <-].
    apply f_div_pos; [by apply f_pos_unsigned|by vm_compute]. }
  rewrite Hratio. cbn [mbind res_bind].
  destruct (f_div_in 5 (-60) (f_mul beta v) (f_max ratio (f_of_Z 1))) as (dp & -> & Hdp & Hdr); [| |lia|].
  { by apply (f_mag_mul 3 1); [| |lia]. }
  { apply f_max_one_least; [by eapply f_mag_mono; [exact Hin|lia]|done]. }
  cbn [mbind res_bind].
  pose proof (f_add_absorb 300 67 p dp Hp (conj Hdp Hdr) ltac:(lia) ltac:(lia)) as [Hp1 _].
  pose proof (f_add_absorb 300 3 (f_add p dp) math_tau Hp1 ltac:(by vm_compute) ltac:(lia) ltac:(lia)) as [Hp2 Hp3].
  set (p1 := if f_ltb math_tau (f_add p dp) then _ else _).
  assert (f_in 300 p1) as Hp4 by (unfold p1; by repeat case_match).
  destruct (polar_ok (f_of_dec 55 (-2)) p1) as (x & -> & Hx); [by vm_compute|done|]. cbn [mbind res_bind].
  destruct (IH p1 Hp4) as (xs & p' & -> & Hxs & Hp'). cbn [mbind res_bind].
  exists (x :: xs), p'. split_and!; [done|by constructor|done].
Qed.

Lemma phase_modulated_ok audio beta o :
  f_mag 3 beta -> Forall (f_mag 1) audio -> osc_ok o ->
  exists iq o', phase_modulated audio beta o = Ok (iq, o') /\ Forall sample_ok iq /\ osc_ok o'.
Proof.
  intros Hb Ha (Hr & Hp & Hq). unfold phase_modulated.
  destruct (modulate_loop_ok beta _ audio _ Hr Hb Ha Hp) as (iq & p' & -> & Hiq & Hp'). cbn [mbind res_bind].
  eexists _, _. split_and!; try done; lia.
Qed.

Lemma am_sample_ok x : f_mag 1 x -> sample_ok (am_sample x).
Proof.
  intros Hx. split; [|done]. cbn [am_sample fst].
  pose proof (f_mul_in 0 1 (f_of_dec 5 (-1)) x ltac:(by vm_compute) Hx ltac:(lia)) as H1.
  destruct (f_add_absorb 300 2 (f_of_dec 5 (-1)) _ ltac:(by vm_compute) H1 ltac:(lia) ltac:(lia)) as [[H2 _] _].
  pose proof (f_mul_in (-1) 300 (f_of_dec 45 (-2)) _ ltac:(by vm_compute) H2 ltac:(lia)) as H3.
  by destruct (f_add_absorb 400 300 (f_of_dec 25 (-2)) _ ltac:(by vm_compute) H3 ltac:(lia) ltac:(lia)) as [[H4 _] _].
Qed.

Lemma noise_ok n (g : rng) : Forall sample_ok (noise n g).1.
Proof.
  revert g; induction n as [|n IH]; intros g; cbn [noise]; [constructor|].
  set (q := f_of_dec 25 (-2)).
  assert (forall g', f_mag 400 (random_uniform (f_opp q) q g').1) as Hu.
  { intros g'. by apply random_uniform_between; vm_compute. }
  pose proof (Hu g) as H1. destruct (random_uniform (f_opp q) q g) as [re g1].
  pose proof (Hu g1) as H2. destruct (random_uniform (f_opp q) q g1) as [im g2].
  specialize (IH g2). destruct (noise n g2) as [xs g3]. by constructor.
Qed.

Lemma sc16_ok iq : Forall sample_ok iq -> exists payload, complex_to_sc16 iq = Ok payload.
Proof.
  assert (forall x, f_mag 400 x -> exists z, sc16_component x = Ok z) as Hc.
  { intros x Hx. unfold sc16_component.
    destruct (float_to_int_ok Z.div 416 (f_mul x (f_of_Z 32767))) as (z & Hz).
    - apply (f_mag_mul 400 15); [done|by vm_compute|lia].
    - unfold int_of_float. rewrite Hz. by eexists. }
  induction 1 as [|[re im] iq [Hre Him] _ (rest & Hrest)]; cbn [complex_to_sc16]; [by eexists|].
  destruct (Hc re Hre) as (i & ->). destruct (Hc im Him) as (q & ->). cbn [mbind res_bind]. rewrite Hrest. by eexists.
Qed.

Lemma on_osc_run {A} (f : ComplexOscillator -> res (A * ComplexOscillator)) (P : A -> Prop) (og : ComplexOscillator * rng) :
  (exists a o', f og.1 = Ok (a, o') /\ P a /\ osc_ok o') ->
  exists og' a, on_osc f og = (og', Ok a) /\ P a /\ osc_ok og'.1.
Proof. intros (a & o' & Hf & Ha & Ho). unfold on_osc. rewrite Hf. by exists (o', og.2), a. Qed.

(** Every scenario, by any name, delivers encodable samples and leaves the
    oscillator ready for the next packet. *)
Lemma make_iq_delivers scenario count (og : ComplexOscillator * rng) :
  osc_ok og.1 ->
  exists og' iq payload,
    make_iq scenario count og = (og', Ok iq) /\ complex_to_sc16 iq = Ok payload /\ osc_ok og'.1.
Proof.
  intros Ho.
  assert (exists og' iq, make_iq scenario count og = (og', Ok iq) /\ Forall sample_ok iq /\ osc_ok og'.1) as H.
  2: { destruct H as (og' & iq & Hm & Hiq & Ho'). destruct (sc16_ok iq Hiq) as (payload & Hp). by exists og', iq, payload. }
  unfold make_iq. case_decide.
  { pose proof (noise_ok (Z.to_nat count) og.2) as Hn. destruct (noise (Z.to_nat count) og.2) as [iq g'].
    by exists (og.1, g'), iq. }
  case_decide; [apply on_osc_run, complex_tone_ok; done || by vm_compute|].
  destruct (on_osc_run (step_audio (f_of_Z 1000) count) (Forall (f_mag 1)) og) as (og1 & tone & Ht & Htone & Ho1).
  { by apply step_audio_ok; [vm_compute|]. }
  open_M. rewrite Ht.
  case_decide; [exists og1, (am_sample <$> tone); split_and!; [done| |done];
    apply Forall_fmap; eapply Forall_impl; [exact Htone|apply am_sample_ok]|].
  repeat case_decide; apply on_osc_run;
    (apply phase_modulated_ok || apply complex_tone_ok); done || by vm_compute.
Qed.
End Delivers.
