(* ===== verification/NumpyApi.v ===== *)
(** The NumPy (and SciPy) operations the DSP code calls.  The packages are not
    part of the sources: their arrays and functions are parameters, and
    [NumpyLaws] states the documented behaviour the theorems rely on, which is
    only about sizes, slices and element-wise conversion to bytes. *)

From Stdlib Require Import ZArith SpecFloat Lia Strings.Byte.
From stdpp Require Import base list sets strings.
From S2P Require Import Prelude PyFloat PyValue.

Open Scope Z_scope.

(** [arr] is [numpy.ndarray], [elt] an element of one. *)
Class Numpy (arr elt : Type) := {
  np_frombuffer : list byte -> res arr;       (* np.frombuffer(b, dtype="<i2") *)
  np_pairs : arr -> arr;                      (* a.reshape((-1, 2)) *)
  np_col : Z -> arr -> arr;                   (* a[:, k] *)
  np_size : arr -> Z;                         (* a.size *)
  np_slice : Z -> Z -> arr -> arr;            (* a[i:j] *)
  np_last : arr -> res elt;                   (* a[-1] *)
  np_cons : elt -> arr -> arr;                (* np.concatenate(([x], a)) *)
  np_concatenate : arr -> arr -> arr;         (* np.concatenate((a, b)) *)
  np_float32 : arr -> arr;                    (* a.astype(np.float32) *)
  np_add : arr -> arr -> arr;                 (* a + b *)
  np_mul : arr -> arr -> arr;                 (* a * b *)
  np_adds : float -> arr -> arr;              (* x + a *)
  np_subs : arr -> float -> arr;              (* a - x *)
  np_muls : arr -> float -> arr;              (* a * x *)
  np_divs : arr -> float -> arr;              (* a / x *)
  np_times_j : arr -> arr;                    (* 1j * a *)
  np_abs : arr -> arr;
  np_real : arr -> arr;
  np_conjugate : arr -> arr;
  np_angle : arr -> arr;
  np_exp : arr -> arr;
  np_log10 : arr -> arr;
  np_maximum : arr -> float -> arr;
  np_clip : arr -> float -> float -> arr;
  np_arange : Z -> arr;                       (* np.arange(n, dtype=np.float32) *)
  np_zeros : Z -> arr;                        (* np.zeros(n, dtype=np.float32) *)
  np_linspace : float -> float -> Z -> arr;   (* np.linspace(a, b, num=n, endpoint=False) *)
  np_interp : arr -> arr -> arr -> arr;
  np_hanning : Z -> arr;
  np_fft : arr -> arr;
  np_fftshift : arr -> arr;
  np_sum : arr -> float;                      (* float(a.sum()) *)
  np_mean : arr -> float;                     (* float(np.mean(a)) *)
  np_sqrt : float -> float;                   (* float(np.sqrt(x)) *)
  np_tolist : arr -> list float;              (* [float(x) for x in a] *)
  np_of_floats : list float -> arr;           (* np.empty_like, filled *)
  np_i2_tobytes : arr -> list byte;           (* np.asarray(a, dtype="<i2").tobytes() *)
  sp_resample_poly : option (arr -> Z -> Z -> res arr);  (* None: SciPy is not installed *)
}.

(** One-dimensional arrays are sequences of elements.  [np_pcm] is the 16-bit
    little-endian form of one audio sample scaled by 32767. *)
Class NumpyLaws (arr elt : Type) `{!Numpy arr elt} := {
  np_list : arr -> list elt;
  np_pcm : elt -> list byte;
  np_size_list a : np_size a = zlen (np_list a);
  np_slice_list i j a : 0 <= i -> i <= j -> np_list (np_slice i j a) = slice i j (np_list a);
  np_concatenate_list a b : np_list (np_concatenate a b) = np_list a ++ np_list b;
  np_pcm_length x : length (np_pcm x) = 2%nat;
  np_i2_tobytes_list a : np_i2_tobytes (np_muls a (f_of_Z 32767)) = concat (np_pcm <$> np_list a);
}.

(** Lists of floats as arrays, for concrete runs: sequences and the 16-bit
    conversion are real, the signal-processing functions are stand-ins that
    keep sizes. *)
Definition demo_i16 (x : float) : list byte :=
  match int_of_float x with Ok z => i16_bytes z | Raise _ => i16_bytes 0 end.

Definition demo_i2 (bs : list byte) : list float :=
  (fun i => f_of_Z (to_signed 2 (le_Z (slice (2 * i) (2 * i + 2) bs)))) <$> zrange (zlen bs / 2).

Definition demo_numpy : Numpy (list float) float := {|
  np_frombuffer bs :=
    if zlen bs mod 2 =? 0 then Ok (demo_i2 bs)
    else raise ValueError "buffer size must be a multiple of element size";
  np_pairs a := a;
  np_col k a := (fun i => default f_zero (a !! Z.to_nat (2 * i + k))) <$> zrange (zlen a / 2);
  np_size a := zlen a;
  np_slice i j a := slice i j a;
  np_last a := match last a with Some x => Ok x | None => raise ValueError "index -1 is out of bounds" end;
  np_cons x a := x :: a;
  np_concatenate a b := a ++ b;
  np_float32 a := a;
  np_add a b := zip_with f_add a b;
  np_mul a b := zip_with f_mul a b;
  np_adds x a := f_add x <$> a;
  np_subs a x := (fun y => f_sub y x) <$> a;
  np_muls a x := (fun y => f_mul y x) <$> a;
  np_divs a x := (fun y => match float_div y x with Ok z => z | Raise _ => f_zero end) <$> a;
  np_times_j a := (fun _ => f_zero) <$> a;
  np_abs a := f_abs <$> a;
  np_real a := a;
  np_conjugate a := a;
  np_angle a := a;
  np_exp a := a;
  np_log10 a := a;
  np_maximum a x := f_max x <$> a;
  np_clip a lo hi := (fun y => f_max lo (f_min hi y)) <$> a;
  np_arange n := f_of_Z <$> zrange n;
  np_zeros n := (fun _ => f_zero) <$> zrange n;
  np_linspace lo hi n := (fun _ => lo) <$> zrange n;
  np_interp x xp fp := (fun _ => f_zero) <$> x;
  np_hanning n := (fun _ => f_of_Z 1) <$> zrange n;
  np_fft a := a;
  np_fftshift a := a;
  np_sum a := foldr f_add f_zero a;
  np_mean a := f_zero;
  np_sqrt x := x;
  np_tolist a := a;
  np_of_floats l := l;
  np_i2_tobytes a := concat (demo_i16 <$> a);
  sp_resample_poly := None;
|}.

Lemma demo_i16_length x : length (demo_i16 x) = 2%nat.
Proof. unfold demo_i16. case_match; apply i16_bytes_length. Qed.

Definition demo_numpy_laws : @NumpyLaws (list float) float demo_numpy.
Proof.
  refine (@Build_NumpyLaws _ _ demo_numpy (fun a => a) (fun x => demo_i16 (f_mul x (f_of_Z 32767))) _ _ _ _ _);
    try done.
  - intros x. apply demo_i16_length.
  - intros a. cbn. by rewrite <- list_fmap_compose.
Defined.
