(* ===== verification/Dsp.v ===== *)
(** Streaming demodulation ([rpi/backend/sdr_backend/dsp.py]): the demodulator's
    state, the per-mode detectors, resampling, de-emphasis, level control and
    the framing of audio into fixed-size PCM frames.  The array operations are
    those of [NumpyApi], with NumPy installed. *)

From Stdlib Require Import ZArith SpecFloat Lia Strings.Byte.
From stdpp Require Import base list sets strings.
From S2P Require Import Prelude PyFloat PyValue SignalGen NumpyApi.

Open Scope Z_scope.

Record Demodulator (arr elt : Type) := MkDemodulator {
  dm_audio_sample_rate_hz : Z;
  dm_frame_samples : Z;
  dm_wfm_deemphasis_us : float;
  dm_mode : string;
  dm_input_rate : Z;
  dm_tail : option arr;
  dm_last_iq : option elt;
  dm_cw_phase : float;
  dm_deemph_last : float;
}.
Arguments MkDemodulator {arr elt}.
Arguments dm_audio_sample_rate_hz {arr elt}.
Arguments dm_frame_samples {arr elt}.
Arguments dm_wfm_deemphasis_us {arr elt}.
Arguments dm_mode {arr elt}.
Arguments dm_input_rate {arr elt}.
Arguments dm_tail {arr elt}.
Arguments dm_last_iq {arr elt}.
Arguments dm_cw_phase {arr elt}.
Arguments dm_deemph_last {arr elt}.

Section Dsp.
Context {arr elt : Type} `{!Numpy arr elt}.
Abbreviation demod := (Demodulator arr elt).

Definition demod_init (audio_sample_rate_hz audio_frame_ms : Z) (wfm_deemphasis_us : float) : res demod :=
  frame_samples ← int_truediv (audio_sample_rate_hz * audio_frame_ms) 1000 ≫= int_of_float;
  Ok (MkDemodulator audio_sample_rate_hz frame_samples wfm_deemphasis_us "WFM" 1000000 None None f_zero f_zero).

(** *** Attribute updates *)

Definition with_config (mode : string) (rate : Z) (d : demod) : demod :=
  MkDemodulator (dm_audio_sample_rate_hz d) (dm_frame_samples d) (dm_wfm_deemphasis_us d) mode rate
    (dm_tail d) (dm_last_iq d) (dm_cw_phase d) (dm_deemph_last d).
Definition with_tail (t : option arr) (d : demod) : demod :=
  MkDemodulator (dm_audio_sample_rate_hz d) (dm_frame_samples d) (dm_wfm_deemphasis_us d) (dm_mode d)
    (dm_input_rate d) t (dm_last_iq d) (dm_cw_phase d) (dm_deemph_last d).
Definition with_last_iq (x : option elt) (d : demod) : demod :=
  MkDemodulator (dm_audio_sample_rate_hz d) (dm_frame_samples d) (dm_wfm_deemphasis_us d) (dm_mode d)
    (dm_input_rate d) (dm_tail d) x (dm_cw_phase d) (dm_deemph_last d).
Definition with_cw_phase (p : float) (d : demod) : demod :=
  MkDemodulator (dm_audio_sample_rate_hz d) (dm_frame_samples d) (dm_wfm_deemphasis_us d) (dm_mode d)
    (dm_input_rate d) (dm_tail d) (dm_last_iq d) p (dm_deemph_last d).
Definition with_deemph_last (x : float) (d : demod) : demod :=
  MkDemodulator (dm_audio_sample_rate_hz d) (dm_frame_samples d) (dm_wfm_deemphasis_us d) (dm_mode d)
    (dm_input_rate d) (dm_tail d) (dm_last_iq d) (dm_cw_phase d) x.

(** A change of mode or input rate drops everything carried over. *)
Definition configure (mode : string) (input_rate_hz : Z) (d : demod) : demod :=
  let mode := str_upper mode in
  let d :=
    if negb (String.eqb mode (dm_mode d)) || negb (input_rate_hz =? dm_input_rate d)
    then with_tail None (with_last_iq None (with_cw_phase f_zero (with_deemph_last f_zero d)))
    else d in
  with_config mode input_rate_hz d.

(** *** Detection *)

Definition demod_cw (iq : arr) : M demod arr :=
  d ← M_get;
  let n := np_arange (np_size iq) in
  rate ← M_lift (float_of_int (dm_input_rate d));
  step ← M_lift (float_div (f_mul (f_mul (f_of_Z 2) math_pi) (f_of_Z 700)) rate);
  let osc := np_exp (np_times_j (np_adds (dm_cw_phase d) (np_muls n step))) in
  p ← M_lift (float_mod (f_add (dm_cw_phase d) (f_mul step (f_of_Z (np_size iq)))) math_tau);
  M_modify (with_cw_phase p) ;;
  mret (np_float32 (np_real (np_mul iq osc))).

(** The phase difference of consecutive samples, the last sample of the
    previous block included. *)
Definition demod_fm (iq : arr) : M demod arr :=
  d ← M_get;
  let iq2 := match dm_last_iq d with Some x => np_cons x iq | None => iq end in
  x ← M_lift (np_last iq);
  M_modify (with_last_iq (Some x)) ;;
  if np_size iq2 <? 2 then mret (np_zeros 0)
  else
    let n := np_size iq2 in
    mret (np_float32 (np_angle (np_mul (np_slice 1 n iq2) (np_conjugate (np_slice 0 (n - 1) iq2))))).

Definition demodulate (iq : arr) : M demod arr :=
  d ← M_get;
  let mode := dm_mode d in
  if decide (mode = "AM"%string) then mret (np_float32 (np_abs iq))
  else if decide (mode = "LSB"%string) then mret (np_float32 (np_real (np_conjugate iq)))
  else if decide (mode ∈ ["USB"; "SSB"; "IQ"]%string) then mret (np_float32 (np_real iq))
  else if decide (mode = "CW"%string) then demod_cw iq
  else if decide (mode ∈ ["NFM"; "WFM"]%string) then demod_fm iq
  else mret (np_float32 (np_real iq)).

(** *** Resampling *)

Definition resample (data : arr) (in_rate out_rate : Z) : res arr :=
  if (np_size data =? 0) || (in_rate =? out_rate) then Ok (np_float32 data)
  else
    match sp_resample_poly with
    | Some resample_poly =>
        let gcd := Z.gcd in_rate out_rate in
        out ← resample_poly data (out_rate / gcd) (in_rate / gcd);
        Ok (np_float32 out)
    | None =>
        rate ← float_of_int in_rate;
        duration ← float_div (f_of_Z (np_size data)) rate;
        orate ← float_of_int out_rate;
        n ← int_of_float (f_mul duration orate);
        let out_count := Z.max 1 n in
        let x_old := np_linspace f_zero duration (np_size data) in
        let x_new := np_linspace f_zero duration out_count in
        Ok (np_float32 (np_interp x_new x_old data))
    end.

(** *** De-emphasis: a one-pole low-pass whose state runs across blocks *)

Fixpoint deemph_loop (alpha last : float) (xs : list float) : list float * float :=
  match xs with
  | [] => ([], last)
  | x :: xs' =>
      let last := f_add last (f_mul alpha (f_sub x last)) in
      let '(out, final) := deemph_loop alpha last xs' in (last :: out, final)
  end.

Definition deemphasis (data : arr) : M demod arr :=
  if np_size data =? 0 then mret data
  else
    d ← M_get;
    let tau := f_mul (dm_wfm_deemphasis_us d) (f_of_dec 1 (-6)) in
    rate ← M_lift (float_of_int (dm_audio_sample_rate_hz d));
    dt ← M_lift (float_div (f_of_Z 1) rate);
    alpha ← M_lift (float_div dt (f_add tau dt));
    let '(out, last) := deemph_loop alpha (dm_deemph_last d) (np_tolist data) in
    M_modify (with_deemph_last last) ;;
    mret (np_of_floats out).

(** *** Level control *)

Definition condition_audio (data : arr) : res arr :=
  if np_size data =? 0 then Ok (np_float32 data)
  else
    let data := np_float32 data in
    let data := np_subs data (np_mean data) in
    let rms := np_sqrt (np_mean (np_mul data data)) in
    data ←
      (if f_ltb (f_of_dec 1 (-5)) rms
       then g ← float_div (f_of_dec 18 (-2)) rms; Ok (np_muls data (f_min (f_of_Z 8) g))
       else Ok data);
    Ok (np_clip data (f_opp (f_of_dec 95 (-2))) (f_of_dec 95 (-2))).

(** *** Framing *)

(** The [while] loop from [offset]; [None] when [fuel] turns do not end it. *)
Fixpoint frame_loop (fuel : nat) (n : Z) (audio : arr) (offset : Z) (frames : list (list byte)) :
    option (list (list byte) * Z) :=
  match fuel with
  | O => None
  | S f =>
      if offset + n <=? np_size audio then
        let chunk := np_slice offset (offset + n) audio in
        let pcm := np_i2_tobytes (np_muls chunk (f_of_Z 32767)) in
        frame_loop f n audio (offset + n) (frames ++ [pcm])
      else Some (frames, offset)
  end.

(** Each turn moves the offset by [frame_samples], so [size + 1] turns are
    enough when that is positive; otherwise the loop has no end ([None]). *)
Definition frame_pcm (audio : arr) : M demod (option (list (list byte))) := fun d =>
  let audio :=
    match dm_tail d with
    | Some t => if negb (np_size t =? 0) then np_concatenate t audio else audio
    | None => audio
    end in
  match frame_loop (S (Z.to_nat (np_size audio))) (dm_frame_samples d) audio 0 [] with
  | Some (frames, offset) => (with_tail (Some (np_slice offset (np_size audio) audio)) d, Ok (Some frames))
  | None => (d, Ok None)
  end.

(** *** [process_sc16] *)

Definition process_sc16 (payload : list byte) : M demod (option (list (list byte))) :=
  match payload with
  | [] => mret (Some [])
  | _ =>
      raw ← M_lift (np_frombuffer payload);
      if np_size raw <? 2 then mret (Some [])
      else
        let raw := np_slice 0 (np_size raw - np_size raw mod 2) raw in
        let pairs := np_divs (np_float32 (np_pairs raw)) (f_of_Z 32768) in
        let iq := np_add (np_col 0 pairs) (np_times_j (np_col 1 pairs)) in
        audio ← demodulate iq;
        d ← M_get;
        audio ← M_lift (resample audio (dm_input_rate d) (dm_audio_sample_rate_hz d));
        audio ← (if decide (dm_mode d = "WFM"%string) then deemphasis audio else mret audio);
        audio ← M_lift (condition_audio audio);
        frame_pcm audio
  end.
End Dsp.

(** ** Framing of the audio stream *)

Section Framing.
Context {arr elt : Type} `{!Numpy arr elt} `{!NumpyLaws arr elt}.
Abbreviation demod := (Demodulator arr elt).

(** The PCM frames of [n] samples of a whole stream, and what is left over. *)
Definition frames_of (n : Z) (l : list elt) : list (list byte) :=
  (fun k => concat (np_pcm <$> slice (k * n) (k * n + n) l)) <$> zrange (zlen l / n).

Definition rest_of (n : Z) (l : list elt) : list elt := drop (Z.to_nat (zlen l / n * n)) l.

Lemma slice_app_l {A} a b (l1 l2 : list A) : 0 <= a -> b <= zlen l1 -> slice a b (l1 ++ l2) = slice a b l1.
Proof.
  intros Ha Hb. unfold slice, zlen in *. destruct (decide (Z.to_nat a <= length l1)%nat).
  - rewrite drop_app_le by done. rewrite take_app_le; [done|]. rewrite length_drop. lia.
  - replace (Z.to_nat b - Z.to_nat a)%nat with 0%nat by lia. done.
Qed.

Lemma slice_app_r {A} a b (l1 l2 : list A) :
  zlen l1 <= a -> slice a b (l1 ++ l2) = slice (a - zlen l1) (b - zlen l1) l2.
Proof.
  intros Ha. unfold slice, zlen in *. rewrite drop_app_ge by lia. f_equal; [lia|]. f_equal. lia.
Qed.

Lemma frames_of_app n q l1 l2 :
  0 < n -> zlen l1 = q * n -> frames_of n (l1 ++ l2) = frames_of n l1 ++ frames_of n l2.
Proof.
  intros Hn Hl. pose proof (zlen_nonneg l1). pose proof (zlen_nonneg l2). unfold frames_of.
  assert (0 <= q) by nia.
  rewrite zlen_app, Hl, Z.add_comm, Z.div_add, Z.div_mul by lia. rewrite Z.add_comm.
  rewrite zrange_add, fmap_app by (try apply Z.div_pos; lia). f_equal.
  - apply list_fmap_ext. intros i k Hk%list_elem_of_lookup_2%elem_of_zrange. do 2 f_equal.
    apply slice_app_l; nia.
  - rewrite <- list_fmap_compose. apply list_fmap_ext. intros i k Hk%list_elem_of_lookup_2%elem_of_zrange.
    cbn. do 2 f_equal. rewrite slice_app_r by nia. f_equal; nia.
Qed.

Lemma rest_of_app n q l1 l2 : 0 < n -> zlen l1 = q * n -> rest_of n (l1 ++ l2) = rest_of n l2.
Proof.
  intros Hn Hl. pose proof (zlen_nonneg l1). pose proof (zlen_nonneg l2). unfold rest_of.
  assert (0 <= q) by nia. assert (0 <= zlen l2 / n) by (apply Z.div_pos; lia).
  rewrite zlen_app, Hl, Z.add_comm, Z.div_add by lia.
  rewrite drop_app_ge by (unfold zlen in *; nia). f_equal. unfold zlen in *. nia.
Qed.

Lemma frames_short n l : zlen l < n -> frames_of n l = [] /\ rest_of n l = l.
Proof.
  intros Hl. pose proof (zlen_nonneg l). unfold frames_of, rest_of.
  rewrite Z.div_small by lia. done.
Qed.

(** A stream is its whole frames and a rest shorter than a frame. *)
Lemma rest_of_split n l :
  0 < n -> exists l1, l = l1 ++ rest_of n l /\ zlen l1 = zlen l / n * n /\ zlen (rest_of n l) < n.
Proof.
  intros Hn. pose proof (zlen_nonneg l). pose proof (Z.div_mod (zlen l) n ltac:(lia)).
  pose proof (Z.mod_pos_bound (zlen l) n ltac:(lia)). assert (0 <= zlen l / n) by (apply Z.div_pos; lia).
  exists (take (Z.to_nat (zlen l / n * n)) l). unfold rest_of. split_and!.
  - by rewrite take_drop.
  - unfold zlen at 1. rewrite length_take. unfold zlen in *. nia.
  - unfold zlen at 1. rewrite length_drop. unfold zlen in *. nia.
Qed.

(** Framing a stream in two parts is framing it at once. *)
Lemma frames_of_continue n l1 l2 :
  0 < n ->
  frames_of n (l1 ++ l2) = frames_of n l1 ++ frames_of n (rest_of n l1 ++ l2) /\
  rest_of n (l1 ++ l2) = rest_of n (rest_of n l1 ++ l2).
Proof.
  intros Hn. destruct (rest_of_split n l1 Hn) as (a & Ha & Hal & Hr). set (b := rest_of n l1) in *.
  rewrite Ha, <- app_assoc. rewrite !(frames_of_app n (zlen l1 / n) a) by done.
  rewrite (rest_of_app n (zlen l1 / n) a) by done. split; [|done].
  destruct (frames_short n b Hr) as [-> _]. by rewrite app_nil_r.
Qed.

Lemma frame_loop_spec m n audio : forall fuel k frames,
  0 < n -> 0 <= k -> k + Z.of_nat m = np_size audio / n -> (m < fuel)%nat ->
  frame_loop fuel n audio (k * n) frames =
    Some (frames ++ ((fun i => concat (np_pcm <$> slice ((k + i) * n) ((k + i) * n + n) (np_list audio)))
                       <$> zrange (Z.of_nat m)), np_size audio / n * n).
Proof.
  pose proof (np_size_list audio) as Hsz. pose proof (zlen_nonneg (np_list audio)) as Hnn.
  induction m as [|m IH]; intros [|fuel] k frames Hn Hk Hq Hf; try lia;
    pose proof (Z.div_mod (np_size audio) n ltac:(lia)); pose proof (Z.mod_pos_bound (np_size audio) n ltac:(lia));
    cbn [frame_loop].
  - destruct (Z.leb_spec (k * n + n) (np_size audio)); [nia|]. cbn. rewrite app_nil_r.
    do 2 f_equal. nia.
  - destruct (Z.leb_spec (k * n + n) (np_size audio)); [|nia].
    replace (k * n + n) with ((k + 1) * n) by lia. rewrite IH by lia. f_equal. f_equal.
    rewrite np_i2_tobytes_list, np_slice_list by nia. rewrite <- app_assoc. f_equal.
    replace (Z.of_nat (S m)) with (Z.of_nat m + 1) by lia. rewrite zrange_cons by lia. rewrite fmap_cons. cbn [app].
    f_equal; [do 3 f_equal; lia|]. rewrite <- list_fmap_compose. apply list_fmap_ext. intros i x _. cbn.
    do 3 f_equal; lia.
Qed.

Definition tail_samples (d : demod) : list elt := from_option np_list [] (dm_tail d).

Lemma frame_pcm_spec audio d :
  0 < dm_frame_samples d ->
  let stream := tail_samples d ++ np_list audio in
  exists d',
    frame_pcm audio d = (d', Ok (Some (frames_of (dm_frame_samples d) stream))) /\
    tail_samples d' = rest_of (dm_frame_samples d) stream /\ dm_frame_samples d' = dm_frame_samples d.
Proof.
  intros Hn stream. unfold frame_pcm.
  match goal with |- context [frame_loop _ _ ?a _ _] => set (au := a) end.
  assert (np_list au = stream) as Hau.
  { unfold au, stream, tail_samples. destruct (dm_tail d) as [t|]; [|done]. cbn.
    destruct (Z.eqb_spec (np_size t) 0) as [H0|]; cbn [negb]; [|apply np_concatenate_list].
    rewrite np_size_list in H0. unfold zlen in H0. destruct (np_list t); [done|cbn in H0; lia]. }
  pose proof (np_size_list au) as Hsz. rewrite Hau in Hsz. pose proof (zlen_nonneg stream).
  assert (0 <= zlen stream / dm_frame_samples d) by (apply Z.div_pos; lia).
  assert (zlen stream / dm_frame_samples d <= zlen stream) by (apply Z.div_le_upper_bound; nia).
  pose proof (frame_loop_spec (Z.to_nat (zlen stream / dm_frame_samples d)) (dm_frame_samples d) au
    (S (Z.to_nat (np_size au))) 0 []) as Hloop.
  rewrite Z.mul_0_l in Hloop. rewrite Hloop by (rewrite ?Hsz; lia). eexists. split; [|split].
  - do 3 f_equal. rewrite Hau. cbn [app]. unfold frames_of. rewrite Z2Nat.id by done.
    apply list_fmap_ext. intros i x _. do 3 f_equal; lia.
  - unfold tail_samples at 1. cbn. pose proof (Z.mul_div_le (zlen stream) (dm_frame_samples d) Hn).
    rewrite Hsz, np_slice_list by nia. rewrite Hau. unfold slice, rest_of. apply take_ge.
    rewrite length_drop. unfold zlen in *. lia.
  - done.
Qed.

(** Successive calls of [_frame_pcm], keeping what each returns. *)
Fixpoint frame_run (audios : list arr) (d : demod) : demod * list (res (option (list (list byte)))) :=
  match audios with
  | [] => (d, [])
  | a :: audios' =>
      let '(d1, r) := frame_pcm a d in
      let '(d2, rs) := frame_run audios' d1 in (d2, r :: rs)
  end.

(** C24: Audio framing is independent of the block boundaries.  With a positive
    frame length every call of [_frame_pcm] ends, and over any sequence of audio
    blocks the frames returned are, in order, exactly the frames of the
    concatenated audio (what was carried over first): each frame is the next
    [frame_samples] samples as 16-bit little-endian PCM, no sample is lost,
    repeated or reordered, and what is carried over is the remainder, shorter
    than a frame. *)
Theorem frame_pcm_stream (audios : list arr) (d : demod) :
  0 < dm_frame_samples d -> zlen (tail_samples d) < dm_frame_samples d ->
  let n := dm_frame_samples d in
  let stream := tail_samples d ++ concat (np_list <$> audios) in
  exists d' framess,
    frame_run audios d = (d', (fun fs => Ok (Some fs)) <$> framess) /\
    concat framess = frames_of n stream /\ Forall (fun f => zlen f = 2 * n) (concat framess) /\
    tail_samples d' = rest_of n stream /\ zlen (tail_samples d') < n.
Proof.
  intros Hn Ht n stream.
  enough (exists d' framess, frame_run audios d = (d', (fun fs => Ok (Some fs)) <$> framess) /\
    concat framess = frames_of n stream /\ tail_samples d' = rest_of n stream) as (d' & framess & H1 & H2 & H3).
  { exists d', framess. rewrite H2, H3. split_and!; try done.
    - unfold frames_of. apply Forall_fmap, Forall_forall. intros k Hk%elem_of_zrange. cbn.
      pose proof (Z.mul_div_le (zlen stream) n Hn). assert (k * n + n <= zlen stream) by nia.
      assert (forall l : list elt, zlen (concat (np_pcm <$> l)) = 2 * zlen l) as ->.
      { induction l as [|x l IH]; [done|]. rewrite fmap_cons. cbn [concat]. rewrite zlen_app, IH.
        unfold zlen. rewrite np_pcm_length. cbn [length]. lia. }
      f_equal. unfold slice, zlen in *. rewrite length_take, length_drop. lia.
    - by destruct (rest_of_split n stream Hn) as (_ & _ & _ & ?). }
  unfold stream, n in *. clear stream n. revert d Hn Ht. induction audios as [|a audios IH]; intros d Hn Ht.
  - exists d, []. cbn. rewrite app_nil_r. destruct (frames_short _ _ Ht) as [-> ->]. done.
  - cbn [frame_run]. destruct (frame_pcm_spec a d Hn) as (d1 & H1 & Ht1 & Hn1). rewrite H1.
    destruct (IH d1) as (d2 & framess & Hrun & Hcat & Htail); [by rewrite Hn1| |].
    { rewrite Hn1, Ht1. by destruct (rest_of_split (dm_frame_samples d) (tail_samples d ++ np_list a) Hn) as (_ & _ & _ & ?). }
    rewrite Hrun. eexists d2, (_ :: framess). split; [done|]. rewrite fmap_cons. cbn [concat].
    rewrite Hcat, Htail, Ht1, Hn1, app_assoc.
    destruct (frames_of_continue (dm_frame_samples d) (tail_samples d ++ np_list a) (concat (np_list <$> audios)) Hn)
      as [-> ->]. done.
Qed.

(** With a frame length that is not positive the loop never ends: no number of
    turns is enough. *)
Lemma frame_loop_endless n audio : n <= 0 ->
  forall fuel offset frames, offset <= np_size audio -> frame_loop fuel n audio offset frames = None.
Proof.
  intros Hn. induction fuel as [|fuel IH]; intros offset frames Ho; cbn [frame_loop]; [done|].
  destruct (Z.leb_spec (offset + n) (np_size audio)); [|lia]. apply IH. lia.
Qed.
End Framing.

(** Seven samples in blocks of 3, 0 and 4, framed in threes. *)
Definition demo_demod : Demodulator (list float) float :=
  MkDemodulator 48000 3 (f_of_Z 50) "WFM" 1000000 None None f_zero f_zero.

Lemma frame_pcm_stream_witness :
  let x := f_of_dec 5 (-1) in
  exists d' framess,
    frame_run (Numpy0 := demo_numpy) [[x; x; x]; []; [x; x; x; x]] demo_demod = (d', (fun fs => Ok (Some fs)) <$> framess) /\
    concat framess = frames_of (NumpyLaws0 := demo_numpy_laws) 3 [x; x; x; x; x; x; x] /\
    length (concat framess) = 2%nat /\ tail_samples (NumpyLaws0 := demo_numpy_laws) d' = [x].
Proof.
  destruct (frame_pcm_stream (NumpyLaws0 := demo_numpy_laws)
    [[f_of_dec 5 (-1); f_of_dec 5 (-1); f_of_dec 5 (-1)]; [];
     [f_of_dec 5 (-1); f_of_dec 5 (-1); f_of_dec 5 (-1); f_of_dec 5 (-1)]] demo_demod eq_refl eq_refl)
    as (d' & framess & H1 & H2 & _ & H4 & _).
  exists d', framess. split; [exact H1|]. split; [exact H2|]. split; [|exact H4].
  rewrite H2. reflexivity.
Defined.
