(* ===== verification/Waterfall.v ===== *)
(** Local FFT spectrum ([rpi/backend/sdr_backend/waterfall.py]): the byte buffer
    in front of the FFT and the spectrum message, over the array operations of
    [NumpyApi] (NumPy installed). *)

From Stdlib Require Import ZArith SpecFloat Lia Strings.Byte.
From stdpp Require Import base list sets strings.
From S2P Require Import Prelude PyFloat PyValue NumpyApi.

Open Scope Z_scope.

Record WaterfallEngine := MkWaterfall {
  wf_fft_size : Z;
  wf_buffer : list byte;
}.

Definition waterfall_init (fft_size : Z) : WaterfallEngine := MkWaterfall fft_size [].

Section Waterfall.
Context {arr elt : Type} `{!Numpy arr elt}.

(** From the chunk to the message. *)
Definition local_spectrum (chunk : list byte) (center_frequency_hz sample_rate_hz : Z) : res pydict :=
  raw ← np_frombuffer chunk;
  let pairs := np_float32 (np_pairs raw) in
  let iq := np_divs (np_add (np_col 0 pairs) (np_times_j (np_col 1 pairs))) (f_of_Z 32768) in
  let window := np_float32 (np_hanning (np_size iq)) in
  let spec := np_fftshift (np_fft (np_mul iq window)) in
  let mag := np_divs (np_abs spec) (f_max (np_sum window) (f_of_Z 1)) in
  let dbfs := np_muls (np_log10 (np_maximum mag (f_of_dec 1 (-8)))) (f_of_Z 20) in
  rate ← float_of_int sample_rate_hz;
  spacing ← float_div rate (f_of_Z (np_size iq));
  Ok [("type", PStr "local_spectrum"); ("center_frequency_hz", PInt center_frequency_hz);
      ("sample_rate_hz", PInt sample_rate_hz); ("fft_size", PInt (np_size iq));
      ("bin_spacing_hz", PFloat spacing);
      ("bins_dbfs", PList ((fun x => PFloat (round_digits 2 x)) <$> np_tolist dbfs))]%string.

(** [del buffer[:n]] and [del buffer[:-n]] with Python's meaning of a slice end
    that is not positive or beyond the buffer. *)
Definition del_first (n : Z) (l : list byte) : list byte :=
  if n <? 0 then drop (Z.to_nat (zlen l + n)) l else drop (Z.to_nat n) l.

Definition take_first (n : Z) (l : list byte) : list byte :=
  if n <? 0 then take (Z.to_nat (zlen l + n)) l else take (Z.to_nat n) l.

Definition waterfall_compute (payload : list byte) (center_frequency_hz sample_rate_hz : Z) :
    M WaterfallEngine (option pydict) := fun w =>
  let needed_bytes := wf_fft_size w * 4 in
  let buffer := wf_buffer w ++ payload in
  if zlen buffer <? needed_bytes then (MkWaterfall (wf_fft_size w) buffer, Ok None)
  else
    let chunk := take_first needed_bytes buffer in
    let buffer := del_first needed_bytes buffer in
    let buffer := if needed_bytes * 4 <? zlen buffer then del_first (- needed_bytes) buffer else buffer in
    (MkWaterfall (wf_fft_size w) buffer, Some <$> local_spectrum chunk center_frequency_hz sample_rate_hz).

(** ** The byte stream through the buffer *)

(** A payload with the tuning it arrives under. *)
Abbreviation iq_block := (list byte * (Z * Z))%type.

Fixpoint waterfall_run (ps : list iq_block) (w : WaterfallEngine) :
    WaterfallEngine * list (res (option pydict)) :=
  match ps with
  | [] => (w, [])
  | p :: ps' =>
      let '(w1, r) := waterfall_compute p.1 p.2.1 p.2.2 w in
      let '(w2, rs) := waterfall_run ps' w1 in (w2, r :: rs)
  end.

(** What a call returns when it takes [chunk] out of the buffer, or nothing. *)
Definition block_output (p : iq_block) (chunk : option (list byte)) : res (option pydict) :=
  match chunk with
  | None => Ok None
  | Some bytes => Some <$> local_spectrum bytes p.2.1 p.2.2
  end.

Definition wf_needed (w : WaterfallEngine) : Z := wf_fft_size w * 4.

Lemma del_first_len n l : 0 <= n <= zlen l -> zlen (del_first n l) = zlen l - n.
Proof. intros Hn. unfold del_first, zlen in *. destruct (Z.ltb_spec n 0); [lia|]. rewrite length_drop. lia. Qed.

Lemma del_first_neg_len n l : 0 < n <= zlen l -> zlen (del_first (- n) l) = n.
Proof. intros Hn. unfold del_first, zlen in *. destruct (Z.ltb_spec (- n) 0); [|lia]. rewrite length_drop. lia. Qed.

Lemma take_del_first n l : 0 <= n -> take_first n l ++ del_first n l = l.
Proof. intros Hn. unfold take_first, del_first. destruct (Z.ltb_spec n 0); [lia|]. apply take_drop. Qed.

Lemma take_first_len n l : 0 <= n <= zlen l -> zlen (take_first n l) = n.
Proof. intros Hn. unfold take_first, zlen in *. destruct (Z.ltb_spec n 0); [lia|]. rewrite length_take. lia. Qed.

(** One call: the buffer stays below four FFT lengths and sample-aligned. *)
Lemma compute_bounded p w w' r :
  0 < wf_fft_size w -> waterfall_compute p.1 p.2.1 p.2.2 w = (w', r) ->
  wf_fft_size w' = wf_fft_size w /\ zlen (wf_buffer w') <= 4 * wf_needed w /\
  ((4 | zlen p.1) -> (4 | zlen (wf_buffer w)) -> (4 | zlen (wf_buffer w'))).
Proof.
  intros Hf. unfold waterfall_compute, wf_needed. cbv zeta.
  assert ((4 | wf_fft_size w * 4)) as Hd by apply Z.divide_factor_r.
  set (n := wf_fft_size w * 4) in *. pose proof (zlen_app (wf_buffer w) p.1) as Ha.
  destruct (Z.ltb_spec (zlen (wf_buffer w ++ p.1)) n).
  - intros [= <- _]. cbn. split_and!; [done|lia|]. rewrite Ha. intros. by apply Z.divide_add_r.
  - pose proof (del_first_len n (wf_buffer w ++ p.1) ltac:(lia)) as Hl.
    destruct (Z.ltb_spec (n * 4) (zlen (del_first n (wf_buffer w ++ p.1)))); intros [= <- _]; cbn.
    + rewrite del_first_neg_len by lia. split_and!; [done|lia|done].
    + split_and!; [done|lia|]. rewrite Hl, Ha. intros. by apply Z.divide_sub_r; [apply Z.divide_add_r|].
Qed.

(** One call with a payload of at most one FFT length: nothing is discarded. *)
Lemma compute_lossless p w w' r :
  0 < wf_fft_size w -> zlen (wf_buffer w) < wf_needed w -> zlen p.1 <= wf_needed w ->
  waterfall_compute p.1 p.2.1 p.2.2 w = (w', r) ->
  exists chunk, r = block_output p chunk /\ zlen (wf_buffer w') < wf_needed w /\
    from_option id [] chunk ++ wf_buffer w' = wf_buffer w ++ p.1 /\
    Forall (fun bytes => zlen bytes = wf_needed w) (option_list chunk).
Proof.
  intros Hf Hb Hp. unfold waterfall_compute, wf_needed in *. cbv zeta.
  set (n := wf_fft_size w * 4) in *. pose proof (zlen_app (wf_buffer w) p.1) as Ha.
  destruct (Z.ltb_spec (zlen (wf_buffer w ++ p.1)) n).
  - intros [= <- <-]. exists None. split_and!; [done|cbn; lia|done|constructor].
  - pose proof (del_first_len n (wf_buffer w ++ p.1) ltac:(lia)) as Hl.
    destruct (Z.ltb_spec (n * 4) (zlen (del_first n (wf_buffer w ++ p.1)))); [lia|]. intros [= <- <-].
    exists (Some (take_first n (wf_buffer w ++ p.1))). split_and!; [done|cbn; lia| |].
    + cbn. apply take_del_first. lia.
    + apply Forall_singleton. apply take_first_len. lia.
Qed.

(** C25: The spectrum buffer.  For every sequence of payloads the buffer stays
    within four FFT lengths, and stays on a sample boundary if the payloads are
    whole samples.  If no payload exceeds one FFT length (four bytes per
    point), no byte is ever discarded: the spectra are those of consecutive
    blocks of exactly one FFT length of the byte stream, computed in order,
    each labelled with the tuning of the payload that completed it, and the
    buffer holds the rest, less than one block. *)
Theorem waterfall_blocks (ps : list iq_block) (w w' : WaterfallEngine) (rs : list (res (option pydict))) :
  0 < wf_fft_size w -> zlen (wf_buffer w) < wf_needed w -> waterfall_run ps w = (w', rs) ->
  zlen (wf_buffer w') <= 4 * wf_needed w /\
  (Forall (fun p => (4 | zlen p.1)) ps -> (4 | zlen (wf_buffer w)) -> (4 | zlen (wf_buffer w'))) /\
  (Forall (fun p => zlen p.1 <= wf_needed w) ps ->
     exists chunks,
       Forall2 (fun p rc => rc.1 = block_output p rc.2) ps (zip rs chunks) /\
       concat (omap id chunks) ++ wf_buffer w' = wf_buffer w ++ concat ps.*1 /\
       Forall (fun bytes => zlen bytes = wf_needed w) (omap id chunks) /\
       zlen (wf_buffer w') < wf_needed w).
Proof.
  intros Hf Hb Hrun. split_and!.
  - assert (zlen (wf_buffer w) <= 4 * wf_needed w) as Hb' by (pose proof (zlen_nonneg (wf_buffer w)); lia).
    clear Hb. revert w rs Hf Hb' Hrun. induction ps as [|p ps IH]; intros w rs Hf Hb; cbn [waterfall_run].
    + by intros [= <- _].
    + destruct (waterfall_compute _ _ _ w) as [w1 r] eqn:Hc. destruct (waterfall_run ps w1) as [w2 rs'] eqn:Hr.
      intros [= <- _]. destruct (compute_bounded _ _ _ _ Hf Hc) as (Hf1 & Hb1 & _).
      unfold wf_needed in *. rewrite <- Hf1 in *. by apply (IH w1 rs').
  - clear Hb. intros Hps. revert w rs Hf Hrun. induction Hps as [|p ps Hp _ IH]; intros w rs Hf; cbn [waterfall_run].
    + by intros [= <- _].
    + destruct (waterfall_compute _ _ _ w) as [w1 r] eqn:Hc. destruct (waterfall_run ps w1) as [w2 rs'] eqn:Hr.
      intros [= <- _] Hw. destruct (compute_bounded _ _ _ _ Hf Hc) as (Hf1 & _ & Ha1).
      apply (IH w1 rs'); [by rewrite Hf1|done|auto].
  - intros Hps. revert w rs Hf Hb Hrun Hps. induction ps as [|p ps IH]; intros w rs Hf Hb; cbn [waterfall_run].
    + intros [= <- <-] _. exists []. split_and!; [constructor|by rewrite app_nil_r|constructor|done].
    + destruct (waterfall_compute _ _ _ w) as [w1 r] eqn:Hc. destruct (waterfall_run ps w1) as [w2 rs'] eqn:Hr.
      intros [= <- <-] [Hp Hps]%Forall_cons.
      destruct (compute_bounded _ _ _ _ Hf Hc) as (Hf1 & _ & _).
      destruct (compute_lossless _ _ _ _ Hf Hb Hp Hc) as (chunk & Hout & Hb1 & Hcat & Hlen).
      unfold wf_needed in *. rewrite <- Hf1 in *.
      destruct (IH w1 rs' Hf Hb1 Hr Hps) as (chunks & Hall & Hcats & Hlens & Hb2).
      exists (chunk :: chunks). split_and!; [by constructor| | |done].
      * rewrite fmap_cons. cbn [concat]. rewrite app_assoc, <- Hcat, <- app_assoc, <- Hcats.
        destruct chunk; cbn; by rewrite ?app_assoc.
      * destruct chunk; cbn; [|done]. apply Forall_cons in Hlen as [Hlen _]. by constructor.
Qed.
End Waterfall.

(** Three half-block payloads at one tuning and a fourth after retuning: two
    spectra, the second labelled with the new tuning. *)
Definition demo_block (f : Z) : list byte * (Z * Z) := (replicate 4 x01, (f, 1000000)).

Lemma waterfall_blocks_witness :
  let ps := [demo_block 1; demo_block 1; demo_block 1; demo_block 2] in
  let run := waterfall_run (Numpy0 := demo_numpy) ps (waterfall_init 2) in
  zlen (wf_buffer run.1) <= 32 /\
  exists chunks,
    Forall2 (fun p rc => rc.1 = block_output (Numpy0 := demo_numpy) p rc.2) ps (zip run.2 chunks) /\
    concat (omap id chunks) ++ wf_buffer run.1 = replicate 16 x01.
Proof.
  destruct (waterfall_blocks (Numpy0 := demo_numpy) [demo_block 1; demo_block 1; demo_block 1; demo_block 2]
    (waterfall_init 2) _ _ ltac:(done) ltac:(done) (surjective_pairing _)) as (Hb & _ & Hl).
  split; [exact Hb|].
  destruct Hl as (chunks & H1 & H2 & _); [by repeat constructor|]. exists chunks. split; [exact H1|exact H2].
Defined.
