(* ===== verification/FakeServer.v ===== *)
(** The simulated device ([simulator/fake_ac920/server.py]): the command
    handlers, the ownership of the control connection, and the three periodic
    senders.  A handler is a function on the server's attributes in the
    state-and-exception monad of the prelude: what was assigned before an
    exception stays assigned.  The clock ([time.monotonic()]) is an argument of
    the operations that read it; datagrams handed to the UDP socket are
    appended to [fs_outbox], oldest first. *)

From Stdlib Require Import ZArith SpecFloat Lia Strings.Byte.
From stdpp Require Import base list sets strings relations.
From S2P Require Import Prelude PyFloat PyValue Json Control Packets SignalGen.

Open Scope Z_scope.

(** ** Configuration and state *)

Record FakeAc920Config := MkFakeConfig {
  fc_bind_host : string;
  fc_control_port : Z;
  fc_scenario : string;
  fc_sample_count : Z;
  fc_drop_every : Z;
  fc_inject_adc_or : bool;
  fc_inject_fifo_overflow : bool;
  fc_status_interval_active_s : float;
  fc_status_interval_idle_s : float;
}.

Definition fake_config_default : FakeAc920Config :=
  MkFakeConfig "127.0.0.1" 9000 "wfm_tone" 256 0 false false (f_of_dec 2 (-1)) (f_of_Z 1).

Record StreamState := MkStream {
  sm_stream_id : Z;
  sm_adc_channel : Z;
  sm_frequency_hz : Z;
  sm_mode : string;
  sm_iq_sample_rate_hz : Z;
  sm_bandwidth_hz : Z;
  sm_enabled : bool;
  sm_seq : Z;
  sm_adc_timestamp : Z;
  sm_first_packet : bool;
  sm_fifo_overflow_count : Z;
  sm_oscillator : ComplexOscillator;
}.

Definition new_stream (stream_id : Z) : StreamState := {|
  sm_stream_id := stream_id; sm_adc_channel := 0; sm_frequency_hz := 98500000; sm_mode := "WFM";
  sm_iq_sample_rate_hz := 1000000; sm_bandwidth_hz := 250000; sm_enabled := false; sm_seq := 0;
  sm_adc_timestamp := 0; sm_first_packet := true; sm_fifo_overflow_count := 0;
  sm_oscillator := new_oscillator 1000000 |}.

(** [int(250_000_000 // self.iq_sample_rate_hz)]. *)
Definition decimation (st : StreamState) : res Z :=
  if decide (sm_iq_sample_rate_hz st = 0)
  then raise ZeroDivisionError "integer division or modulo by zero"
  else Ok (250000000 / sm_iq_sample_rate_hz st).

Definition set_stream_fields (adc freq : Z) (mode : string) (rate bw : Z) (st : StreamState) : StreamState :=
  MkStream (sm_stream_id st) adc freq mode rate bw (sm_enabled st) (sm_seq st) (sm_adc_timestamp st)
    (sm_first_packet st) (sm_fifo_overflow_count st) (sm_oscillator st).

Definition set_stream_enabled (b : bool) (st : StreamState) : StreamState :=
  MkStream (sm_stream_id st) (sm_adc_channel st) (sm_frequency_hz st) (sm_mode st)
    (sm_iq_sample_rate_hz st) (sm_bandwidth_hz st) b (sm_seq st) (sm_adc_timestamp st)
    (sm_first_packet st) (sm_fifo_overflow_count st) (sm_oscillator st).

(** The attributes the packet sender changes. *)
Definition set_stream_tx (seq ts : Z) (first : bool) (fifo : Z) (o : ComplexOscillator) (st : StreamState) :
    StreamState :=
  MkStream (sm_stream_id st) (sm_adc_channel st) (sm_frequency_hz st) (sm_mode st)
    (sm_iq_sample_rate_hz st) (sm_bandwidth_hz st) (sm_enabled st) seq ts first fifo o.

Definition reset_for_enable (st : StreamState) : StreamState :=
  set_stream_tx 0 0 true (sm_fifo_overflow_count st) (new_oscillator (sm_iq_sample_rate_hz st)) st.

(** An [asyncio.Task] attribute: [None], pending, cancelled but not yet
    resumed by the event loop, or done. *)
Inductive task := TaskNone | TaskRunning | TaskCancelling | TaskDone.

(** [if t is None or t.done(): t = asyncio.create_task(...)]. *)
Definition task_restart (t : task) : task :=
  match t with TaskNone | TaskDone => TaskRunning | t => t end.

(** [if t: t.cancel()]; the loops are suspended in a [sleep], or have not begun,
    and do not run again. *)
Definition task_cancel (t : task) : task :=
  match t with TaskRunning => TaskCancelling | t => t end.

(** The event loop resumes a cancelled task, which ends. *)
Definition task_cancelled (t : task) : task :=
  match t with TaskCancelling => TaskDone | t => t end.

(** [self._server]: [None], accepting connections, or closed. *)
Inductive listener := NotStarted | Listening | Closed.

Abbreviation dest := (string * Z)%type.

Record FakeServer (rng : Type) := MkServer {
  fs_udp_dest : option dest;
  fs_udp_psd_dest : option dest;
  fs_udp_status_dest : option dest;
  fs_tx_task : task;
  fs_psd_task : task;
  fs_status_seq : Z;
  fs_psd_config : pydict;
  fs_psd_frame_seq : Z;
  fs_psd_first_frame : bool;
  fs_frontend : pydict;
  fs_streams : list (Z * StreamState);
  fs_iq_packets_sent : Z;
  fs_psd_packets_sent : Z;
  fs_boot_time : float;
  fs_random : rng;
  fs_outbox : list (dest * list byte);
  fs_listener : listener;
  fs_status_task : task;
  fs_udp_open : bool;
  fs_status_orphans : nat;
}.
Arguments MkServer {rng}.
Arguments fs_udp_dest {rng}.
Arguments fs_udp_psd_dest {rng}.
Arguments fs_udp_status_dest {rng}.
Arguments fs_tx_task {rng}.
Arguments fs_psd_task {rng}.
Arguments fs_status_seq {rng}.
Arguments fs_psd_config {rng}.
Arguments fs_psd_frame_seq {rng}.
Arguments fs_psd_first_frame {rng}.
Arguments fs_frontend {rng}.
Arguments fs_streams {rng}.
Arguments fs_iq_packets_sent {rng}.
Arguments fs_psd_packets_sent {rng}.
Arguments fs_boot_time {rng}.
Arguments fs_random {rng}.
Arguments fs_outbox {rng}.
Arguments fs_listener {rng}.
Arguments fs_status_task {rng}.
Arguments fs_udp_open {rng}.
Arguments fs_status_orphans {rng}.

Definition psd_config_init : pydict :=
  [("psd_id", PInt 0); ("source", PStr "adc0"); ("enable", PBool false); ("enabled", PBool false);
   ("start_frequency_hz", PInt 500000); ("stop_frequency_hz", PInt 108000000);
   ("fft_size", PInt 16384); ("output_bins", PInt 4096); ("fps", PInt 10);
   ("sample_format", PStr "I16_DBFS_Q8")]%string.

Definition frontend_init : pydict :=
  [("attenuator_db", PInt 10); ("lna", PStr "bypass"); ("filter", PStr "LPF_108M")]%string.

Section Server.
Context {rng : Type} `{!SignalEnv rng}.
Abbreviation server := (FakeServer rng).

Definition server_init (boot : float) (g : rng) : server := {|
  fs_udp_dest := None; fs_udp_psd_dest := None; fs_udp_status_dest := None;
  fs_tx_task := TaskNone; fs_psd_task := TaskNone; fs_status_seq := 0;
  fs_psd_config := psd_config_init; fs_psd_frame_seq := 0; fs_psd_first_frame := true;
  fs_frontend := frontend_init; fs_streams := [(0, new_stream 0); (1, new_stream 1)];
  fs_iq_packets_sent := 0; fs_psd_packets_sent := 0; fs_boot_time := boot; fs_random := g;
  fs_outbox := []; fs_listener := NotStarted; fs_status_task := TaskNone; fs_udp_open := true;
  fs_status_orphans := 0 |}.

(** *** Attribute updates *)

Definition with_dests (a b c : option dest) (s : server) : server :=
  MkServer a b c (fs_tx_task s) (fs_psd_task s) (fs_status_seq s) (fs_psd_config s) (fs_psd_frame_seq s)
    (fs_psd_first_frame s) (fs_frontend s) (fs_streams s) (fs_iq_packets_sent s) (fs_psd_packets_sent s)
    (fs_boot_time s) (fs_random s) (fs_outbox s) (fs_listener s)
    (fs_status_task s) (fs_udp_open s) (fs_status_orphans s).

Definition with_status_seq (n : Z) (s : server) : server :=
  MkServer (fs_udp_dest s) (fs_udp_psd_dest s) (fs_udp_status_dest s) (fs_tx_task s) (fs_psd_task s) n
    (fs_psd_config s) (fs_psd_frame_seq s) (fs_psd_first_frame s) (fs_frontend s) (fs_streams s)
    (fs_iq_packets_sent s) (fs_psd_packets_sent s) (fs_boot_time s) (fs_random s) (fs_outbox s) (fs_listener s)
    (fs_status_task s) (fs_udp_open s) (fs_status_orphans s).

Definition with_tasks (tx psd : task) (s : server) : server :=
  MkServer (fs_udp_dest s) (fs_udp_psd_dest s) (fs_udp_status_dest s) tx psd (fs_status_seq s)
    (fs_psd_config s) (fs_psd_frame_seq s) (fs_psd_first_frame s) (fs_frontend s) (fs_streams s)
    (fs_iq_packets_sent s) (fs_psd_packets_sent s) (fs_boot_time s) (fs_random s) (fs_outbox s) (fs_listener s)
    (fs_status_task s) (fs_udp_open s) (fs_status_orphans s).

Definition with_psd (cfg : pydict) (seq : Z) (first : bool) (s : server) : server :=
  MkServer (fs_udp_dest s) (fs_udp_psd_dest s) (fs_udp_status_dest s) (fs_tx_task s) (fs_psd_task s)
    (fs_status_seq s) cfg seq first (fs_frontend s) (fs_streams s) (fs_iq_packets_sent s)
    (fs_psd_packets_sent s) (fs_boot_time s) (fs_random s) (fs_outbox s) (fs_listener s)
    (fs_status_task s) (fs_udp_open s) (fs_status_orphans s).

Definition with_frontend (f : pydict) (s : server) : server :=
  MkServer (fs_udp_dest s) (fs_udp_psd_dest s) (fs_udp_status_dest s) (fs_tx_task s) (fs_psd_task s)
    (fs_status_seq s) (fs_psd_config s) (fs_psd_frame_seq s) (fs_psd_first_frame s) f (fs_streams s)
    (fs_iq_packets_sent s) (fs_psd_packets_sent s) (fs_boot_time s) (fs_random s) (fs_outbox s) (fs_listener s)
    (fs_status_task s) (fs_udp_open s) (fs_status_orphans s).

Definition with_fs_streams (ss : list (Z * StreamState)) (s : server) : server :=
  MkServer (fs_udp_dest s) (fs_udp_psd_dest s) (fs_udp_status_dest s) (fs_tx_task s) (fs_psd_task s)
    (fs_status_seq s) (fs_psd_config s) (fs_psd_frame_seq s) (fs_psd_first_frame s) (fs_frontend s) ss
    (fs_iq_packets_sent s) (fs_psd_packets_sent s) (fs_boot_time s) (fs_random s) (fs_outbox s) (fs_listener s)
    (fs_status_task s) (fs_udp_open s) (fs_status_orphans s).

Definition with_tx (iq psd : Z) (g : rng) (out : list (dest * list byte)) (s : server) : server :=
  MkServer (fs_udp_dest s) (fs_udp_psd_dest s) (fs_udp_status_dest s) (fs_tx_task s) (fs_psd_task s)
    (fs_status_seq s) (fs_psd_config s) (fs_psd_frame_seq s) (fs_psd_first_frame s) (fs_frontend s)
    (fs_streams s) iq psd (fs_boot_time s) g out (fs_listener s)
    (fs_status_task s) (fs_udp_open s) (fs_status_orphans s).

(** [_server], [_status_task] and whether [_udp_sock] is open. *)
Definition with_lifecycle (l : listener) (status : task) (open : bool) (s : server) : server :=
  MkServer (fs_udp_dest s) (fs_udp_psd_dest s) (fs_udp_status_dest s) (fs_tx_task s) (fs_psd_task s)
    (fs_status_seq s) (fs_psd_config s) (fs_psd_frame_seq s) (fs_psd_first_frame s) (fs_frontend s)
    (fs_streams s) (fs_iq_packets_sent s) (fs_psd_packets_sent s) (fs_boot_time s) (fs_random s) (fs_outbox s)
    l status open (fs_status_orphans s).

(** The number of status tasks a later [start] has left behind, which nothing
    refers to any more. *)
Definition with_orphans (n : nat) (s : server) : server :=
  MkServer (fs_udp_dest s) (fs_udp_psd_dest s) (fs_udp_status_dest s) (fs_tx_task s) (fs_psd_task s)
    (fs_status_seq s) (fs_psd_config s) (fs_psd_frame_seq s) (fs_psd_first_frame s) (fs_frontend s)
    (fs_streams s) (fs_iq_packets_sent s) (fs_psd_packets_sent s) (fs_boot_time s) (fs_random s) (fs_outbox s)
    (fs_listener s) (fs_status_task s) (fs_udp_open s) n.

(** [self._streams[i]] after an in-place update of the stream object. *)
Definition put_stream (i : Z) (st : StreamState) (s : server) : server :=
  with_fs_streams (dset i st (fs_streams s)) s.

(** [self._udp_sock.sendto(data, dest)]: the port must fit 16 bits, and the
    socket must be open. *)
Definition sendto (data : list byte) (d : dest) : M server unit := fun s =>
  if (0 <=? d.2) && (d.2 <=? 65535) then
    if negb (fs_udp_open s) then (s, raise OSError "[Errno 9] Bad file descriptor")
    else (with_tx (fs_iq_packets_sent s) (fs_psd_packets_sent s) (fs_random s) (fs_outbox s ++ [(d, data)]) s, Ok tt)
  else (s, raise OverflowError "sendto(): port must be 0-65535.").

Definition device_time_ms (now : float) (s : server) : res Z :=
  int_of_float (f_mul (f_sub now (fs_boot_time s)) (f_of_Z 1000)).

(** ** Commands *)

Definition as_int (v : pyval) : M server Z := M_lift (py_int v).

Definition hello_device : pydict :=
  [("name", PStr "fake-AC920-ACFL3432"); ("serial", PStr "fake"); ("firmware_version", PStr "0.1.0");
   ("fpga_build_id", PStr "fake")]%string.

Definition hello_limits : pydict :=
  [("adc_sample_rate_hz", PInt 250000000); ("min_frequency_hz", PInt 500000);
   ("max_frequency_hz", PInt 108000000); ("max_iq_streams", PInt 2);
   ("supported_iq_sample_rates_hz", PList [PInt 125000; PInt 250000; PInt 500000; PInt 1000000]);
   ("supported_sample_formats", PList [PStr "SC16_LE"]); ("supported_psd_sources", PList [PStr "adc0"]);
   ("supported_psd_output_bins", PList [PInt 4096]); ("supported_psd_fps", PList [PInt 10]);
   ("supported_psd_sample_formats", PList [PStr "I16_DBFS_Q8"]);
   ("max_psd_segments_per_frame", PInt 8); ("max_psd_bins_per_segment", PInt 512);
   ("min_psd_span_hz", PInt 100000); ("max_psd_span_hz", PInt 107500000);
   ("max_udp_payload_bytes", PInt 1200)]%string.

Definition cmd_hello (rid : pyval) (request : pydict) (peer_ip : string) : M server pydict :=
  if negb (py_eq_int (pget "protocol_version" request) 1)
  then mret (build_error (Some rid) "unsupported_version" "protocol_version must be 1" [])
  else
    match pget "udp" request with
    | PDict udp =>
        let dest_ip := py_str (py_or (pget "destination_ip" udp) (PStr peer_ip)) in
        p1 ← M_lift (pitem "iq_port" udp ≫= py_int);
        M_modify (fun s => with_dests (Some (dest_ip, p1)) (fs_udp_psd_dest s) (fs_udp_status_dest s) s) ;;
        p2 ← M_lift (pitem "psd_port" udp ≫= py_int);
        M_modify (fun s => with_dests (fs_udp_dest s) (Some (dest_ip, p2)) (fs_udp_status_dest s) s) ;;
        p3 ← M_lift (pitem "status_port" udp ≫= py_int);
        M_modify (fun s => with_dests (fs_udp_dest s) (fs_udp_psd_dest s) (Some (dest_ip, p3)) s) ;;
        mret (build_response (Some rid) true
          [("protocol_version", PInt 1); ("device", PDict hello_device); ("limits", PDict hello_limits)]%string)
    | _ => mret (build_error (Some rid) "invalid_field" "udp is required" [])
    end.

Definition set_frontend_key (k : string) (v : pyval) : M server unit :=
  M_modify (fun s => with_frontend (dset k v (fs_frontend s)) s).

(** [mret (Some r)] is the early [return r]. *)
Definition frontend_attenuator (rid : pyval) (request : pydict) : M server (option pydict) :=
  match dget "attenuator_db"%string request with
  | None => mret None
  | Some v =>
      a ← as_int v;
      if decide (a ∈ [0; 10; 20; 30]) then set_frontend_key "attenuator_db" (PInt a) ;; mret None
      else mret (Some (build_error (Some rid) "out_of_range" "attenuator_db must be 0/10/20/30" []))
  end.

Definition frontend_lna (rid : pyval) (request : pydict) : M server (option pydict) :=
  match dget "lna"%string request with
  | None => mret None
  | Some v =>
      let lna := py_str v in
      if decide (lna ∈ ["on"; "bypass"]%string) then set_frontend_key "lna" (PStr lna) ;; mret None
      else mret (Some (build_error (Some rid) "invalid_field" "lna must be on or bypass" []))
  end.

Definition cmd_set_frontend (rid : pyval) (request : pydict) : M server pydict :=
  e ← frontend_attenuator rid request;
  match e with
  | Some r => mret r
  | None =>
      e ← frontend_lna rid request;
      match e with
      | Some r => mret r
      | None =>
          match dget "filter"%string request with
          | Some v => set_frontend_key "filter" (PStr (py_str v))
          | None => mret tt
          end ;;
          s ← M_get;
          mret (build_response (Some rid) true [("applied"%string, PDict (fs_frontend s))])
      end
  end.

Definition IQ_RATES : list Z := [125000; 250000; 500000; 1000000].

(** The five assignments of [set_rx]; each field is stored before the next
    conversion is tried. *)
Definition assign_rx (i : Z) (request : pydict) (st : StreamState) : M server StreamState :=
  let upd (adc freq : Z) (mode : string) (rate bw : Z) : M server unit :=
    M_modify (put_stream i (set_stream_fields adc freq mode rate bw st)) in
  adc ← as_int (pget_def "adc_channel" (PInt (sm_adc_channel st)) request);
  upd adc (sm_frequency_hz st) (sm_mode st) (sm_iq_sample_rate_hz st) (sm_bandwidth_hz st) ;;
  freq ← as_int (pget_def "frequency_hz" (PInt (sm_frequency_hz st)) request);
  upd adc freq (sm_mode st) (sm_iq_sample_rate_hz st) (sm_bandwidth_hz st) ;;
  let mode := py_str (pget_def "mode" (PStr (sm_mode st)) request) in
  upd adc freq mode (sm_iq_sample_rate_hz st) (sm_bandwidth_hz st) ;;
  rate ← as_int (pget_def "iq_sample_rate_hz" (PInt (sm_iq_sample_rate_hz st)) request);
  upd adc freq mode rate (sm_bandwidth_hz st) ;;
  bw ← as_int (pget_def "bandwidth_hz" (PInt (sm_bandwidth_hz st)) request);
  upd adc freq mode rate bw ;;
  mret (set_stream_fields adc freq mode rate bw st).

Definition applied_rx (st : StreamState) (dec : Z) : pydict :=
  [("stream_id", PInt (sm_stream_id st)); ("adc_channel", PInt (sm_adc_channel st));
   ("frequency_hz", PInt (sm_frequency_hz st)); ("mode", PStr (sm_mode st));
   ("iq_sample_rate_hz", PInt (sm_iq_sample_rate_hz st)); ("bandwidth_hz", PInt (sm_bandwidth_hz st));
   ("sample_format", PStr "SC16_LE"); ("decimation", PInt dec); ("enable", PBool true)]%string.

Definition cmd_set_rx (rid : pyval) (request : pydict) : M server pydict :=
  i ← as_int (pget_def "stream_id" (PInt 0) request);
  s ← M_get;
  match dget i (fs_streams s) with
  | None => mret (build_error (Some rid) "out_of_range" "unsupported stream_id" [])
  | Some st =>
      if py_bool (pget_def "enable" (PBool (sm_enabled st)) request) then
        st ← assign_rx i request st;
        if decide (sm_iq_sample_rate_hz st ∈ IQ_RATES) then
          let st := reset_for_enable (set_stream_enabled true st) in
          M_modify (put_stream i st) ;;
          M_modify (fun s => with_tasks (task_restart (fs_tx_task s)) (fs_psd_task s) s) ;;
          dec ← M_lift (decimation st);
          mret (build_response (Some rid) true [("applied"%string, PDict (applied_rx st dec))])
        else mret (build_error (Some rid) "out_of_range" "unsupported iq_sample_rate_hz" [])
      else
        M_modify (put_stream i (set_stream_enabled false st)) ;;
        mret (build_response (Some rid) true
          [("applied"%string, PDict [("stream_id", PInt i); ("enable", PBool false)]%string)])
  end.

Definition psd_disable (cfg : pydict) : pydict :=
  dset "enabled"%string (PBool false) (dset "enable"%string (PBool false) cfg).

(** The checked settings of [set_psd], in the order of the dict display. *)
Record PsdRequest := MkPsdRequest {
  pr_psd_id : Z;
  pr_source : string;
  pr_start : Z;
  pr_stop : Z;
  pr_fft_size : Z;
  pr_output_bins : Z;
  pr_fps : Z;
  pr_sample_format : string;
}.

Definition parse_psd_request (request : pydict) : res PsdRequest :=
  psd_id ← py_int (pget_def "psd_id" (PInt 0) request);
  let source := py_str (pget_def "source" (PStr "adc0") request) in
  start ← py_int (pget_def "start_frequency_hz" (PInt 500000) request);
  stop ← py_int (pget_def "stop_frequency_hz" (PInt 108000000) request);
  fft ← py_int (pget_def "fft_size" (PInt 16384) request);
  bins ← py_int (pget_def "output_bins" (PInt 4096) request);
  fps ← py_int (pget_def "fps" (PInt 10) request);
  Ok (MkPsdRequest psd_id source start stop fft bins fps
        (py_str (pget_def "sample_format" (PStr "I16_DBFS_Q8") request))).

Definition psd_applied (p : PsdRequest) : pydict :=
  [("psd_id", PInt (pr_psd_id p)); ("source", PStr (pr_source p)); ("enable", PBool true);
   ("enabled", PBool true); ("start_frequency_hz", PInt (pr_start p));
   ("stop_frequency_hz", PInt (pr_stop p)); ("fft_size", PInt (pr_fft_size p));
   ("output_bins", PInt (pr_output_bins p)); ("fps", PInt (pr_fps p));
   ("sample_format", PStr (pr_sample_format p))]%string.

Definition check_psd_request (p : PsdRequest) : option string :=
  if negb (String.eqb (pr_source p) "adc0") then Some "fake AC920 only supports adc0 PSD"%string
  else if (pr_start p <? 500000) || (108000000 <? pr_stop p) then
    Some "PSD range must stay within 0.5-108 MHz"%string
  else if pr_stop p - pr_start p <? 100000 then Some "PSD span must be at least 100 kHz"%string
  else if negb (pr_output_bins p =? 4096) then Some "fake AC920 only supports 4096 PSD bins"%string
  else if negb (pr_fps p =? 10) then Some "fake AC920 only supports 10 fps PSD"%string
  else None.

Definition cmd_set_psd (rid : pyval) (request : pydict) : M server pydict :=
  if py_bool (pget_def "enable" (pget_def "enabled" (PBool false) request) request) then
    p ← M_lift (parse_psd_request request);
    match check_psd_request p with
    | Some msg => mret (build_error (Some rid) "out_of_range" msg [])
    | None =>
        M_modify (with_psd (psd_applied p) 0 true) ;;
        M_modify (fun s => with_tasks (fs_tx_task s) (task_restart (fs_psd_task s)) s) ;;
        mret (build_response (Some rid) true [("applied"%string, PDict (psd_applied p))])
    end
  else
    M_modify (fun s => with_psd (psd_disable (fs_psd_config s)) (fs_psd_frame_seq s) (fs_psd_first_frame s) s) ;;
    s ← M_get;
    mret (build_response (Some rid) true [("applied"%string, PDict (fs_psd_config s))]).

Definition stop_all (s : server) : server :=
  with_psd (psd_disable (fs_psd_config s)) (fs_psd_frame_seq s) (fs_psd_first_frame s)
    (with_fs_streams ((fun kv => (kv.1, set_stream_enabled false kv.2)) <$> fs_streams s) s).

(** ** Status *)

Definition status_stream (st : StreamState) : pyval :=
  PDict [("stream_id", PInt (sm_stream_id st)); ("adc_channel", PInt (sm_adc_channel st));
    ("enabled", PBool (sm_enabled st)); ("frequency_hz", PInt (sm_frequency_hz st));
    ("mode", PStr (sm_mode st)); ("iq_sample_rate_hz", PInt (sm_iq_sample_rate_hz st));
    ("bandwidth_hz", PInt (sm_bandwidth_hz st)); ("sample_format", PStr "SC16_LE");
    ("seq", PInt (sm_seq st)); ("fifo_overflow_count", PInt (sm_fifo_overflow_count st))]%string.

Definition status_object (c : FakeAc920Config) (now : float) : M server pydict :=
  M_modify (fun s => with_status_seq (fs_status_seq s + 1) s) ;;
  s ← M_get;
  t ← M_lift (device_time_ms now s);
  let cfg := fs_psd_config s in
  psd_id ← as_int (pget_def "psd_id" (PInt 0) cfg);
  mret [("type", PStr "status"); ("protocol_version", PInt 1); ("seq", PInt (fs_status_seq s));
    ("device_time_ms", PInt t); ("adc_sample_rate_hz", PInt 250000000);
    ("adc", PDict [("channel", PInt 0); ("peak_dbfs", PFloat (f_opp (f_of_dec 145 (-1))));
       ("rms_dbfs", PFloat (f_opp (f_of_dec 312 (-1))));
       ("or_count", PInt (if fc_inject_adc_or c then fs_iq_packets_sent s else 0));
       ("clip_count", PInt 0)]);
    ("frontend", PDict (fs_frontend s));
    ("streams", PList (status_stream <$> filter (fun st => sm_enabled st) (fs_streams s).*2));
    ("psd", PList [PDict
       [("psd_id", PInt psd_id); ("enabled", PBool (py_bool (pget "enable" cfg)));
        ("source", pget_def "source" (PStr "adc0") cfg);
        ("start_frequency_hz", pget "start_frequency_hz" cfg);
        ("stop_frequency_hz", pget "stop_frequency_hz" cfg); ("fft_size", pget "fft_size" cfg);
        ("output_bins", pget "output_bins" cfg); ("fps", pget "fps" cfg);
        ("frame_seq", PInt (fs_psd_frame_seq s)); ("dropped_frame_count", PInt 0);
        ("missing_segment_count", PInt 0); ("overflow_count", PInt 0)]]);
    ("network", PDict [("iq_packets_sent", PInt (fs_iq_packets_sent s));
       ("psd_packets_sent", PInt (fs_psd_packets_sent s));
       ("status_packets_sent", PInt (fs_status_seq s));
       ("iq_fifo_overflow_count",
          PInt (foldr Z.add 0 (sm_fifo_overflow_count <$> (fs_streams s).*2)));
       ("psd_fifo_overflow_count", PInt 0)])]%string.

(** ** Dispatch *)

Definition run_command (c : FakeAc920Config) (now : float) (rid : pyval) (cmd : string) (request : pydict)
    (peer_ip : string) : M server pydict :=
  if decide (cmd = "hello"%string) then cmd_hello rid request peer_ip
  else if decide (cmd = "ping"%string) then
    s ← M_get;
    t ← M_lift (device_time_ms now s);
    mret (build_response (Some rid) true
      [("client_time_ms", pget "client_time_ms" request); ("device_time_ms", PInt t)]%string)
  else if decide (cmd = "get_status"%string) then
    st ← status_object c now;
    mret (build_response (Some rid) true [("status"%string, PDict st)])
  else if decide (cmd = "set_frontend"%string) then cmd_set_frontend rid request
  else if decide (cmd = "set_rx"%string) then cmd_set_rx rid request
  else if decide (cmd = "stop_all"%string) then
    M_modify stop_all ;; mret (build_response (Some rid) true [])
  else if decide (cmd = "set_psd"%string) then cmd_set_psd rid request
  else mret (build_error (Some rid) "invalid_command" ("unknown command " +:+ cmd) []).

(** [isinstance(v, int)]: bools are ints. *)
Definition is_int (v : pyval) : bool := match v with PInt _ | PBool _ => true | _ => false end.

Definition invalid_field_exn (e : exn) : bool :=
  exn_isa (exn_cls e) TypeError || exn_isa (exn_cls e) ValueError.

Definition dispatch (c : FakeAc920Config) (now : float) (line : text) (peer_ip : string) : M server pydict :=
  fun s =>
  match decode_json_line line with
  | Raise _ => (s, Ok (build_error None "invalid_json" "request is not valid JSON" []))
  | Ok request =>
      let rid := pget "request_id" request in
      if negb (is_int rid) then (s, Ok (build_error None "invalid_field" "request_id is required" []))
      else
        match pget "cmd" request with
        | PStr cmd =>
            match run_command c now rid cmd request peer_ip s with
            | (s', Raise e) =>
                if invalid_field_exn e
                then (s', Ok (build_error (Some rid) "invalid_field" (exn_msg e) []))
                else (s', Raise e)
            | r => r
            end
        | _ => (s, Ok (build_error (Some rid) "invalid_field" "cmd is required" []))
        end
  end.

(** ** The IQ sender *)

Definition packet_flags (c : FakeAc920Config) (st : StreamState) : Z :=
  let f := if sm_first_packet st then Z.lor SDR_IQ_FLAG_DISCONTINUITY SDR_IQ_FLAG_CONFIG_CHANGED else 0 in
  let f := if fc_inject_adc_or c then Z.lor f SDR_IQ_FLAG_ADC_OR else f in
  if fc_inject_fifo_overflow c then Z.lor f SDR_IQ_FLAG_FIFO_OVERFLOW else f.

Definition iq_packet_header (c : FakeAc920Config) (st : StreamState) (flags dec payload_bytes : Z) : SdrIqHeader :=
  let d := iq_default in {|
  iq_magic := iq_magic d; iq_version := iq_version d; iq_header_len := iq_header_len d;
  iq_frame_type := iq_frame_type d; iq_stream_id := sm_stream_id st; iq_seq := sm_seq st;
  iq_adc_timestamp := sm_adc_timestamp st; iq_frequency_hz := sm_frequency_hz st;
  iq_iq_sample_rate_hz := sm_iq_sample_rate_hz st; iq_bandwidth_hz := sm_bandwidth_hz st;
  iq_sample_format := iq_sample_format d; iq_sample_count := fc_sample_count c; iq_flags := flags;
  iq_gain_db_q8 := iq_gain_db_q8 d; iq_decimation := dec; iq_payload_bytes := payload_bytes;
  iq_reserved0 := iq_reserved0 d |}.

(** [should_drop], after the packet counter was incremented to [sent]. *)
Definition should_drop (c : FakeAc920Config) (sent : Z) : bool :=
  (0 <? fc_drop_every c) && (sent mod fc_drop_every c =? 0).

Definition with_random (g : rng) (s : server) : server :=
  with_tx (fs_iq_packets_sent s) (fs_psd_packets_sent s) g (fs_outbox s) s.

Definition count_iq_packet (s : server) : server :=
  with_tx (fs_iq_packets_sent s + 1) (fs_psd_packets_sent s) (fs_random s) (fs_outbox s) s.

Definition send_iq_packet (c : FakeAc920Config) (i : Z) (st : StreamState) : M server unit :=
  s ← M_get;
  let '((o, g), r) := make_iq (fc_scenario c) (fc_sample_count c) (sm_oscillator st, fs_random s) in
  let st := set_stream_tx (sm_seq st) (sm_adc_timestamp st) (sm_first_packet st) (sm_fifo_overflow_count st) o st in
  M_modify (fun s => with_random g (put_stream i st s)) ;;
  iq ← M_lift r;
  payload ← M_lift (complex_to_sc16 iq);
  let flags := packet_flags c st in
  let fifo := sm_fifo_overflow_count st + (if fc_inject_fifo_overflow c then 1 else 0) in
  let st := set_stream_tx (sm_seq st) (sm_adc_timestamp st) false fifo o st in
  M_modify (put_stream i st) ;;
  dec ← M_lift (decimation st);
  let header := iq_packet_header c st flags dec (zlen payload) in
  M_modify count_iq_packet ;;
  s ← M_get;
  match should_drop c (fs_iq_packets_sent s), fs_udp_dest s with
  | false, Some d => bytes ← M_lift (iq_pack header); sendto (bytes ++ payload) d
  | _, _ => mret tt
  end ;;
  M_modify (put_stream i
    (set_stream_tx (mask32 (sm_seq st + 1)) (mask64 (sm_adc_timestamp st + iq_next_timestamp_delta header))
       false fifo o st)).

(** [for stream in active: self._send_iq_packet(stream)]: the loop holds the
    stream objects, so each turn works on the stream's current attributes. *)
Fixpoint send_iq_all (c : FakeAc920Config) (ids : list Z) : M server unit :=
  match ids with
  | [] => mret tt
  | i :: ids' =>
      s ← M_get;
      match dget i (fs_streams s) with
      | Some st => send_iq_packet c i st
      | None => mret tt
      end ;;
      send_iq_all c ids'
  end.

Definition active_streams (s : server) : list (Z * StreamState) := filter (fun kv => sm_enabled kv.2) (fs_streams s).

(** One turn of [_iq_loop], up to its [sleep]. *)
Definition iq_loop_turn (c : FakeAc920Config) : M server unit :=
  s ← M_get;
  match active_streams s, fs_udp_dest s with
  | [], _ | _, None => mret tt
  | (_, st) :: active, Some _ =>
      send_iq_all c (active_streams s).*1 ;;
      let rate := foldl Z.max (sm_iq_sample_rate_hz st) (sm_iq_sample_rate_hz <$> active.*2) in
      _ ← M_lift (int_truediv (fc_sample_count c) rate);
      mret tt
  end.

(** ** The PSD sender *)

Definition carriers : list Z := [1000000; 7100000; 14200000; 27000000; 88500000; 98500000].

(** [db = max(db, -38.0 - distance_bins * 4.5)] for the carriers within five
    bins. *)
Fixpoint add_carriers (freq width : float) (cs : list Z) (db : float) : res float :=
  match cs with
  | [] => Ok db
  | k :: cs' =>
      distance ← float_div (f_abs (f_sub freq (f_of_Z k))) width;
      let db :=
        if f_ltb distance (f_of_Z 5)
        then f_max db (f_sub (f_opp (f_of_Z 38)) (f_mul distance (f_of_dec 45 (-1))))
        else db in
      add_carriers freq width cs' db
  end.

Definition noise_floor (index : Z) : res float :=
  x ← float_div (f_mul (f_of_Z 4) (f_of_Z ((index * 17) mod 31))) (f_of_Z 31);
  Ok (f_add (f_opp (f_of_Z 96)) x).

(** [start_hz + (index + 0.5) * span / total_bins]. *)
Definition bin_frequency (total_bins start_hz span index : Z) : res float :=
  i ← float_of_int index;
  sp ← float_of_int span;
  t ← float_of_int total_bins;
  x ← float_div (f_mul (f_add i (f_of_dec 5 (-1))) sp) t;
  st ← float_of_int start_hz;
  Ok (f_add st x).

Definition psd_bin_q8 (total_bins start_hz span index : Z) : res Z :=
  freq ← bin_frequency total_bins start_hz span index;
  db ← noise_floor index;
  width ← int_truediv span total_bins;
  db ← add_carriers freq width carriers db;
  z ← round_float (f_mul db (f_of_Z 256));
  Ok (clamp16 z).

Definition make_psd_bins_q8 (total_bins start_hz stop_hz : Z) : res (list Z) :=
  res_map (psd_bin_q8 total_bins start_hz (stop_hz - start_hz)) (zrange total_bins).

Definition cfg_int (k : string) (cfg : pydict) : M server Z := M_lift (pitem k cfg ≫= py_int).

Definition psd_packet_header (psd_id seq ts start spacing fft total i n bins flags payload_bytes stop : Z) :
    SdrPsdHeader :=
  let d := psd_default in {|
  psd_magic := psd_magic d; psd_version := psd_version d; psd_header_len := psd_header_len d;
  psd_frame_type := psd_frame_type d; psd_psd_id := psd_id; psd_frame_seq := seq; psd_adc_timestamp := ts;
  psd_start_frequency_hz := start; psd_bin_spacing_millihz := spacing; psd_fft_size := fft;
  psd_total_bins := total; psd_segment_index := i; psd_segment_count := n; psd_bin_start := i * bins;
  psd_bin_count := bins; psd_sample_format := psd_sample_format d; psd_flags := flags;
  psd_averaging_count := 4; psd_payload_bytes := payload_bytes; psd_stop_frequency_hz := stop |}.

Definition bins_per_segment : Z := 512.

Definition count_psd_packet (s : server) : server :=
  with_tx (fs_iq_packets_sent s) (fs_psd_packets_sent s + 1) (fs_random s) (fs_outbox s) s.

(** One turn of the segment loop; [now i] is the clock when segment [i] is
    built. *)
Definition send_psd_segment (now : Z -> float) (total n start stop spacing flags : Z) (bins : list Z) (i : Z) :
    M server unit :=
  let bin_start := i * bins_per_segment in
  let payload := concat (i16_bytes <$> slice bin_start (bin_start + bins_per_segment) bins) in
  s ← M_get;
  psd_id ← cfg_int "psd_id" (fs_psd_config s);
  ms ← M_lift (device_time_ms (now i) s);
  fft ← cfg_int "fft_size" (fs_psd_config s);
  let header :=
    psd_packet_header psd_id (fs_psd_frame_seq s) (ms * 250000) start spacing fft total i n
      bins_per_segment flags (zlen payload) stop in
  match fs_udp_psd_dest s with
  | Some d =>
      bytes ← M_lift (psd_pack header);
      sendto (bytes ++ payload) d ;;
      M_modify count_psd_packet
  | None => mret tt
  end.

Fixpoint send_psd_segments (now : Z -> float) (total n start stop spacing flags : Z) (bins : list Z) (is_ : list Z) :
    M server unit :=
  match is_ with
  | [] => mret tt
  | i :: is' =>
      send_psd_segment now total n start stop spacing flags bins i ;;
      send_psd_segments now total n start stop spacing flags bins is'
  end.

Definition send_psd_frame (now : Z -> float) : M server unit :=
  s ← M_get;
  let cfg := fs_psd_config s in
  total ← cfg_int "output_bins" cfg;
  let n := total / bins_per_segment in
  start ← cfg_int "start_frequency_hz" cfg;
  stop ← cfg_int "stop_frequency_hz" cfg;
  spacing ← M_lift (int_truediv ((stop - start) * 1000) total ≫= round_float);
  bins ← M_lift (make_psd_bins_q8 total start stop);
  let flags := if fs_psd_first_frame s then SDR_PSD_FLAG_CONFIG_CHANGED else 0 in
  M_modify (fun s => with_psd (fs_psd_config s) (fs_psd_frame_seq s) false s) ;;
  send_psd_segments now total n start stop spacing flags bins (zrange n) ;;
  M_modify (fun s => with_psd (fs_psd_config s) (mask32 (fs_psd_frame_seq s + 1)) (fs_psd_first_frame s) s).

(** One turn of [_psd_loop], up to its [sleep]. *)
Definition psd_loop_turn (now : Z -> float) : M server unit :=
  s ← M_get;
  if py_bool (pget "enable" (fs_psd_config s)) then
    match fs_udp_psd_dest s with
    | None => mret tt
    | Some _ =>
        send_psd_frame now ;;
        s ← M_get;
        fps ← as_int (pget_def "fps" (PInt 10) (fs_psd_config s));
        f ← M_lift (float_of_int (Z.max fps 1));
        _ ← M_lift (float_div (f_of_Z 1) f);
        mret tt
    end
  else mret tt.

(** [json.dumps(..., separators=(",", ":")).encode("utf-8")], as bytes. *)
Definition bytes_of_text (t : text) : list byte := (fun c => byte_of_Z (char_code c)) <$> t.

Definition server_active (s : server) : bool :=
  existsb (fun kv => sm_enabled kv.2) (fs_streams s) || py_bool (pget "enable" (fs_psd_config s)).

(** One turn of [_status_loop]; the result is the interval it then sleeps. *)
Definition status_loop_turn (c : FakeAc920Config) (now : float) : M server float :=
  s ← M_get;
  let active := server_active s in
  match fs_udp_status_dest s with
  | Some d =>
      st ← status_object c now;
      sendto (bytes_of_text (ascii_escape (json_text (PDict st)))) d
  | None => mret tt
  end ;;
  mret (if active then fc_status_interval_active_s c else fc_status_interval_idle_s c).
End Server.

(** ** Life cycle and connections

    The event loop interleaves the connection handlers and the three loops at
    their [await]s.  A connection is named by a number; [owner] is
    [self._owner], [handlers] are the connections whose handler is in its read
    loop, [closing] those whose transport is closing.  [sent] logs the lines
    written to each connection. *)

Record World (rng : Type) := MkWorld {
  w_server : FakeServer rng;
  w_owner : option nat;
  w_handlers : list nat;
  w_closing : list nat;
  w_sent : list (nat * text);
}.
Arguments MkWorld {rng}.
Arguments w_server {rng}.
Arguments w_owner {rng}.
Arguments w_handlers {rng}.
Arguments w_closing {rng}.
Arguments w_sent {rng}.

Section Connections.
Context {rng : Type} `{!SignalEnv rng}.
Context (c : FakeAc920Config) (peer_ip : nat -> string).
Abbreviation world := (World rng).

Definition busy_error : pydict := build_error None "busy" "device already has an owner" [].

(** Start of [_handle_client]. *)
Definition on_connect (w : nat) (x : world) : world :=
  match w_owner x with
  | Some o =>
      if decide (o ∈ w_closing x)
      then MkWorld (w_server x) (Some w) (w :: w_handlers x) (w_closing x) (w_sent x)
      else
        MkWorld (w_server x) (w_owner x) (w_handlers x) (w :: w_closing x)
          (match encode_json_line busy_error with Ok t => w_sent x ++ [(w, t)] | Raise _ => w_sent x end)
  | None => MkWorld (w_server x) (Some w) (w :: w_handlers x) (w_closing x) (w_sent x)
  end.

(** The [finally] block. *)
Definition on_end (w : nat) (x : world) : world :=
  let rest := filter (fun h => h <> w) (w_handlers x) in
  if decide (w_owner x = Some w) then
    MkWorld (with_dests None None None (stop_all (w_server x))) None rest (w :: w_closing x) (w_sent x)
  else MkWorld (w_server x) (w_owner x) rest (w :: w_closing x) (w_sent x).

(** One turn of the read loop: dispatch, encode and write; an exception from
    either leaves through the [finally]. *)
Definition on_line (now : float) (w : nat) (line : text) (x : world) : world :=
  let '(s, r) := dispatch c now line (peer_ip w) (w_server x) in
  let x' := MkWorld s (w_owner x) (w_handlers x) (w_closing x) (w_sent x) in
  match r ≫= encode_json_line with
  | Ok t => MkWorld s (w_owner x) (w_handlers x) (w_closing x) (w_sent x ++ [(w, t)])
  | Raise _ => on_end w x'
  end.

Definition with_server (s : FakeServer rng) (x : world) : world :=
  MkWorld s (w_owner x) (w_handlers x) (w_closing x) (w_sent x).

(** A turn of a background loop; an exception ends its task. *)
Definition iq_task_turn (s : FakeServer rng) : FakeServer rng :=
  match iq_loop_turn c s with
  | (s', Ok _) => s'
  | (s', Raise _) => with_tasks TaskDone (fs_psd_task s') s'
  end.

Definition psd_task_turn (now : Z -> float) (s : FakeServer rng) : FakeServer rng :=
  match psd_loop_turn now s with
  | (s', Ok _) => s'
  | (s', Raise _) => with_tasks (fs_tx_task s') TaskDone s'
  end.

Definition status_task_turn (now : float) (s : FakeServer rng) : FakeServer rng :=
  match status_loop_turn c now s with
  | (s', Ok _) => s'
  | (s', Raise _) => with_lifecycle (fs_listener s') TaskDone (fs_udp_open s') s'
  end.

(** The same loop in a task left behind. *)
Definition orphan_task_turn (now : float) (s : FakeServer rng) : FakeServer rng :=
  match status_loop_turn c now s with
  | (s', Ok _) => s'
  | (s', Raise _) => with_orphans (pred (fs_status_orphans s')) s'
  end.

(** [start], after the control port was bound; when it cannot be, nothing
    changes.  [_status_task] is overwritten: a task that still runs, because the
    server was closed without [stop], goes on unattended. *)
Definition start (s : FakeServer rng) : FakeServer rng :=
  with_lifecycle Listening TaskRunning (fs_udp_open s)
    (with_orphans (match fs_status_task s with TaskRunning => S (fs_status_orphans s) | _ => fs_status_orphans s end) s).

(** The first part of [stop], and the end of [serve_forever]: the server stops
    accepting connections. *)
Definition close_server (s : FakeServer rng) : FakeServer rng :=
  match fs_listener s with
  | NotStarted => s
  | _ => with_lifecycle Closed (fs_status_task s) (fs_udp_open s) s
  end.

(** The rest of [stop], after [wait_closed]; handlers of clients go on. *)
Definition cancel_and_close (s : FakeServer rng) : FakeServer rng :=
  with_lifecycle (fs_listener s) (task_cancel (fs_status_task s)) false
    (with_tasks (task_cancel (fs_tx_task s)) (task_cancel (fs_psd_task s)) s).

(** The event loop resumes the cancelled tasks [tx], [psd], [status]. *)
Definition resume_cancelled (tx psd status : bool) (s : FakeServer rng) : FakeServer rng :=
  let on (b : bool) (t : task) := if b then task_cancelled t else t in
  with_lifecycle (fs_listener s) (on status (fs_status_task s)) (fs_udp_open s)
    (with_tasks (on tx (fs_tx_task s)) (on psd (fs_psd_task s)) s).

(** What can happen next.  A connection accepted before the server was closed
    may begin its handler afterwards; calls of [start] and [stop] do not
    overlap. *)
Inductive world_step (x : world) : world -> Prop :=
  | step_start :
      fs_listener (w_server x) <> Listening -> world_step x (with_server (start (w_server x)) x)
  | step_close : world_step x (with_server (close_server (w_server x)) x)
  | step_stop :
      fs_listener (w_server x) <> Listening -> world_step x (with_server (cancel_and_close (w_server x)) x)
  | step_resume tx psd status : world_step x (with_server (resume_cancelled tx psd status (w_server x)) x)
  | step_connect w :
      fs_listener (w_server x) <> NotStarted -> w ∉ w_handlers x -> w ∉ w_closing x -> world_step x (on_connect w x)
  | step_line now w line :
      w ∈ w_handlers x -> w ∉ w_closing x -> world_step x (on_line now w line x)
  | step_closing w :
      world_step x (MkWorld (w_server x) (w_owner x) (w_handlers x) (w :: w_closing x) (w_sent x))
  | step_end w : w ∈ w_handlers x -> world_step x (on_end w x)
  | step_iq :
      fs_tx_task (w_server x) = TaskRunning -> world_step x (with_server (iq_task_turn (w_server x)) x)
  | step_psd now :
      fs_psd_task (w_server x) = TaskRunning ->
      world_step x (with_server (psd_task_turn now (w_server x)) x)
  | step_status now :
      fs_status_task (w_server x) = TaskRunning ->
      world_step x (with_server (status_task_turn now (w_server x)) x)
  | step_orphan now :
      (0 < fs_status_orphans (w_server x))%nat ->
      world_step x (with_server (orphan_task_turn now (w_server x)) x).

Definition world_init (boot : float) (g : rng) : world := MkWorld (server_init boot g) None [] [] [].

Definition reachable (boot : float) (g : rng) (x : world) : Prop :=
  rtc world_step (world_init boot g) x.
End Connections.
