(* ===== verification/ServerSpec.v ===== *)
(** What the command handlers and the ownership rule of the simulated device
    guarantee. *)

From Stdlib Require Import ZArith SpecFloat Lia Ascii String Strings.Byte.
From stdpp Require Import base list sets strings relations.
From S2P Require Import Prelude PyFloat PyValue Json Control Packets SignalGen FakeServer.

Open Scope Z_scope.

(** ** Replies *)

(** [d] answers request [rid]: it echoes the id, has a boolean [ok], and an
    error carries a documented code. *)
Definition replies (rid : option pyval) (d : pydict) : Prop :=
  dget "request_id"%string d = rid /\
  exists ok, dget "ok"%string d = Some (PBool ok) /\
    (ok = false -> exists code msg,
       dget "error"%string d = Some (PDict [("code", PStr code); ("message", PStr msg)]%string) /\
       code ∈ ERROR_CODES).

Lemma error_code_known code : (if decide (code ∈ ERROR_CODES) then code else "internal_error"%string) ∈ ERROR_CODES.
Proof. case_decide; [done|]. unfold ERROR_CODES. set_solver. Qed.

Lemma replies_error rid code msg : replies rid (build_error rid code msg []).
Proof.
  unfold replies. rewrite build_error_eq.
  rewrite !dget_build_response by (first [done | apply NoDup_singleton]).
  split; [done|]. exists false. split; [done|]. intros _. cbn [dget].
  eexists _, msg. split; [done|]. apply error_code_known.
Qed.

Lemma replies_response rid fields :
  bool_decide (NoDup (dkeys fields)) = true -> dhas "ok"%string fields = false ->
  dhas "request_id"%string fields = false -> replies rid (build_response rid true fields).
Proof.
  intros Hnd%bool_decide_eq_true Hok Hrid. unfold replies. rewrite !dget_build_response by done.
  split; [done|]. by exists true.
Qed.

(** ** Exceptions of the conversions *)

(** [int()] raises [TypeError] or [ValueError], which the dispatcher answers, or
    [OverflowError] for the reason [why]. *)
Definition conversion_exn (why : Prop) (e : exn) : Prop :=
  exn_cls e ∈ [TypeError; ValueError] \/ (exn_cls e = OverflowError /\ why).

Definition infinite_number (v : pyval) : Prop := exists sign, v = PFloat (S754_infinity sign).

Lemma conversion_weaken (P Q : Prop) e : (P -> Q) -> conversion_exn P e -> conversion_exn Q e.
Proof. unfold conversion_exn. naive_solver. Qed.

Lemma float_to_int_exn via f e : float_to_int via f = Raise e -> conversion_exn (f_is_inf f = true) e.
Proof. unfold conversion_exn. destruct f; cbn; try done; intros [= <-]; [by right|left; set_solver]. Qed.

Lemma invalid_number_exn why cls msg : cls ∈ [TypeError; ValueError] -> conversion_exn why (Exn cls msg).
Proof. by left. Qed.

Lemma int_of_str_exn why str e : int_of_str str = Raise e -> conversion_exn why e.
Proof.
  unfold int_of_str. generalize (repr_str str). intros shown.
  destruct (strip (list_ascii_of_string str)) as [|c l].
  { intros [= <-]. apply invalid_number_exn. set_solver. }
  destruct (Ascii.eqb c "-"), (Ascii.eqb c "+");
    match goal with |- context [underscore_digits 0 ?x] => destruct (underscore_digits 0 x) end; cbn;
    try done; intros [= <-]; apply invalid_number_exn; set_solver.
Qed.

Lemma py_int_exn v e : py_int v = Raise e -> conversion_exn (infinite_number v) e.
Proof.
  destruct v as [|b|z|f|str|l|d]; cbn [py_int]; try done;
    try (intros [= <-]; apply invalid_number_exn; set_solver).
  - intros H%float_to_int_exn. revert H. apply conversion_weaken. destruct f; try done. by eexists.
  - apply int_of_str_exn.
Qed.

(** One of the fields [ks] of [d] is an infinite number. *)
Definition infinite_in (ks : list string) (d : pydict) : Prop :=
  exists k v, k ∈ ks /\ dget k d = Some v /\ infinite_number v.

(** One of the fields [ks] of [d] is missing. *)
Definition missing_in (ks : list string) (d : pydict) : Prop := exists k, k ∈ ks /\ dget k d = None.

Lemma pget_int_infinite k z d ks : k ∈ ks -> infinite_number (pget_def k (PInt z) d) -> infinite_in ks d.
Proof.
  intros Hk [sign Hv]. unfold pget_def in Hv. destruct (dget k d) as [v|] eqn:Hd; [|done].
  exists k, v. split_and!; [done..|]. by exists sign.
Qed.

Lemma pitem_int_exn k d e ks :
  k ∈ ks -> pitem k d ≫= py_int = Raise e ->
  conversion_exn (infinite_in ks d) e \/ (exn_cls e = KeyError /\ missing_in ks d).
Proof.
  intros Hk. unfold pitem. destruct (dget k d) as [v|] eqn:Hd; cbn.
  - intros H%py_int_exn. left. revert H. apply conversion_weaken. intros Hi. by exists k, v.
  - intros [= <-]. right. split; [done|]. by exists k.
Qed.

Section Handlers.
Context {rng : Type} `{!SignalEnv rng}.
Abbreviation server := (FakeServer rng).
Implicit Types (s : server) (request : pydict) (rid : pyval).

(** The triple every handler satisfies. *)
Definition answers (E : exn -> Prop) rid (m : M server pydict) : Prop :=
  M_triple (fun _ => True) m (fun d _ => replies (Some rid) d) (fun e _ => E e).

Lemma answers_ret E rid d : replies (Some rid) d -> answers E rid (mret d).
Proof. intros H. apply triple_ret. auto. Qed.

Lemma answers_bind {A} E rid (m : M server A) f :
  M_triple (fun _ => True) m (fun _ _ => True) (fun e _ => E e) -> (forall a, answers E rid (f a)) ->
  answers E rid (m ≫= f).
Proof. intros Hm Hf. eapply triple_bind; [exact Hm|]. auto. Qed.

Lemma quiet_modify (E : exn -> Prop) (f : server -> server) :
  M_triple (fun _ => True) (M_modify f) (fun _ _ => True) (fun e _ => E e).
Proof. by apply triple_modify. Qed.

Lemma quiet_get (E : exn -> Prop) : M_triple (fun _ : server => True) M_get (fun _ _ => True) (fun e _ => E e).
Proof. by apply triple_get. Qed.

Lemma quiet_lift {A} (E : exn -> Prop) (r : res A) :
  (forall e, r = Raise e -> E e) -> M_triple (fun _ : server => True) (M_lift r) (fun _ _ => True) (fun e _ => E e).
Proof. intros H. apply triple_lift. intros s _. destruct r; auto. Qed.

Lemma quiet_bind {A B} (E : exn -> Prop) (m : M server A) (f : A -> M server B) :
  M_triple (fun _ => True) m (fun _ _ => True) (fun e _ => E e) ->
  (forall a, M_triple (fun _ => True) (f a) (fun _ _ => True) (fun e _ => E e)) ->
  M_triple (fun _ => True) (m ≫= f) (fun _ _ => True) (fun e _ => E e).
Proof. intros Hm Hf. eapply triple_bind; [exact Hm|]. auto. Qed.

Lemma quiet_ret {A} (E : exn -> Prop) (a : A) :
  M_triple (fun _ : server => True) (mret a) (fun _ _ => True) (fun e _ => E e).
Proof. by apply triple_ret. Qed.
End Handlers.

Create HintDb handlers.
#[export] Hint Resolve answers_ret quiet_modify quiet_get quiet_ret replies_error : handlers.
#[export] Hint Extern 2 (answers _ _ (_ ≫= _)) => apply answers_bind; [|intros ?] : handlers.
#[export] Hint Extern 2 (M_triple _ (_ ≫= _) _ _) => apply quiet_bind; [|intros ?] : handlers.
#[export] Hint Extern 2 (M_triple _ (M_lift _) _ _) => apply quiet_lift; intros ? : handlers.
#[export] Hint Extern 3 (replies _ (build_response _ _ _)) => apply replies_response; reflexivity : handlers.

Section HandlerReplies.
Context {rng : Type} `{!SignalEnv rng}.
Abbreviation server := (FakeServer rng).
Implicit Types (s : server) (request : pydict) (rid : pyval).

(** The integer fields each command converts. *)
Definition PORT_FIELDS : list string := ["iq_port"; "psd_port"; "status_port"]%string.
Definition RX_FIELDS : list string :=
  ["stream_id"; "adc_channel"; "frequency_hz"; "iq_sample_rate_hz"; "bandwidth_hz"]%string.
Definition PSD_FIELDS : list string :=
  ["psd_id"; "start_frequency_hz"; "stop_frequency_hz"; "fft_size"; "output_bins"; "fps"]%string.

Lemma quiet_as_int (why : Prop) v :
  (infinite_number v -> why) ->
  M_triple (fun _ : server => True) (as_int v) (fun _ _ => True) (fun e _ => conversion_exn why e).
Proof. intros Hw. apply quiet_lift. intros e H%py_int_exn. by eapply conversion_weaken. Qed.

Lemma quiet_int_field k z ks request :
  bool_decide (k ∈ ks) = true ->
  M_triple (fun _ : server => True) (as_int (pget_def k (PInt z) request)) (fun _ _ => True)
    (fun e _ => conversion_exn (infinite_in ks request) e).
Proof. intros Hk%bool_decide_eq_true. apply quiet_as_int. by apply pget_int_infinite. Qed.
#[local] Hint Extern 1 (M_triple _ (as_int _) _ _) => apply quiet_int_field; reflexivity : handlers.

Lemma cmd_set_frontend_answers rid request :
  answers (conversion_exn (infinite_in ["attenuator_db"%string] request)) rid (cmd_set_frontend (rng := rng) rid request).
Proof.
  unfold cmd_set_frontend.
  eapply triple_bind with (R := fun e _ => match e with Some r => replies (Some rid) r | None => True end).
  { unfold frontend_attenuator. destruct (dget "attenuator_db"%string request) as [v|] eqn:Hv; [|by apply triple_ret].
    eapply triple_bind; [apply quiet_as_int; intros Hi; exists "attenuator_db"%string, v; split_and!; [set_solver|done..]|].
    intros a. cbv beta.
    case_decide; [|apply triple_ret; intros; apply replies_error].
    eapply triple_bind; [apply quiet_modify|]. intros ?. by apply triple_ret. }
  intros [r|]; [by apply triple_ret|].
  eapply triple_bind with (R := fun e _ => match e with Some r => replies (Some rid) r | None => True end).
  { unfold frontend_lna. case_match; [|by apply triple_ret]. cbv zeta.
    case_decide; [|apply triple_ret; intros; apply replies_error].
    eapply triple_bind; [apply quiet_modify|]. intros ?. by apply triple_ret. }
  intros [r|]; [by apply triple_ret|]. cbv beta.
  apply answers_bind; [case_match; [apply quiet_modify|by apply triple_ret]|]. eauto with handlers.
Qed.

Lemma cmd_set_rx_answers rid request :
  answers (conversion_exn (infinite_in RX_FIELDS request)) rid (cmd_set_rx (rng := rng) rid request).
Proof.
  unfold cmd_set_rx. apply answers_bind; [eauto with handlers|]. intros i.
  apply answers_bind; [eauto with handlers|]. intros s.
  destruct (dget i (fs_streams s)) as [st|]; [|eauto with handlers].
  case_match; [|eauto 6 with handlers].
  apply answers_bind; [unfold assign_rx; cbv zeta; eauto 20 with handlers|]. intros st'.
  case_decide as Hr; [|eauto with handlers]. cbv zeta.
  apply answers_bind; [eauto with handlers|]. intros _.
  apply answers_bind; [eauto with handlers|]. intros _.
  apply answers_bind; [|eauto with handlers].
  apply quiet_lift. intros e. unfold decimation. cbn.
  case_decide as H0; [|done]. rewrite H0 in Hr. unfold IQ_RATES in Hr. set_solver.
Qed.

Lemma parse_psd_request_exn request e :
  parse_psd_request request = Raise e -> conversion_exn (infinite_in PSD_FIELDS request) e.
Proof.
  unfold parse_psd_request.
  repeat match goal with |- context [py_int (pget_def ?k (PInt ?z) request) ≫= _] =>
    let E := fresh in destruct (py_int (pget_def k (PInt z) request)) eqn:E; cbn [mbind res_bind];
      [|intros [= <-]; apply py_int_exn in E; revert E; apply conversion_weaken;
        apply pget_int_infinite; unfold PSD_FIELDS; set_solver]
  end. done.
Qed.
#[local] Hint Resolve parse_psd_request_exn : handlers.

Lemma cmd_set_psd_answers rid request :
  answers (conversion_exn (infinite_in PSD_FIELDS request)) rid (cmd_set_psd (rng := rng) rid request).
Proof.
  unfold cmd_set_psd. case_match; [|eauto 10 with handlers].
  apply answers_bind; [eauto with handlers|]. intros p. destruct (check_psd_request p); eauto 10 with handlers.
Qed.

(** What makes [hello] raise: its [udp] object lacks a port, or has an infinite one. *)
Definition hello_exn (request : pydict) (e : exn) : Prop :=
  exn_cls e ∈ [TypeError; ValueError] \/
  exists udp, pget "udp" request = PDict udp /\
    ((exn_cls e = OverflowError /\ infinite_in PORT_FIELDS udp) \/
     (exn_cls e = KeyError /\ missing_in PORT_FIELDS udp)).

Lemma cmd_hello_answers rid request ip : answers (hello_exn request) rid (cmd_hello (rng := rng) rid request ip).
Proof.
  unfold cmd_hello. case_match; [eauto with handlers|].
  destruct (pget "udp" request) as [| | | | | |udp] eqn:Hudp; eauto with handlers. cbv zeta.
  assert (forall k e, bool_decide (k ∈ PORT_FIELDS) = true -> pitem k udp ≫= py_int = Raise e -> hello_exn request e) as Hport.
  { intros k e Hk%bool_decide_eq_true [[Hc|[Hc Hx]]|[Hc Hx]]%(pitem_int_exn _ _ _ PORT_FIELDS); [by left|right; exists udp; naive_solver..|done]. }
  repeat (apply answers_bind; [first [apply quiet_lift; intros e; apply Hport; reflexivity | eauto with handlers]|intros ?]).
  eauto with handlers.
Qed.

(** The device's clock, as a command reads it, is beyond the range of floats. *)
Definition infinite_clock (now : float) (s : server) : Prop :=
  f_is_inf (f_mul (f_sub now (fs_boot_time s)) (f_of_Z 1000)) = true.

(** Why command [cmd] raises in state [s]: a field, the clock, or, for
    [get_status], a stored [psd_id] that no request leaves behind. *)
Definition command_exn (now : float) (cmd : string) (request : pydict) (s : server) (e : exn) : Prop :=
  exn_cls e ∈ [TypeError; ValueError] \/
  (exn_cls e = OverflowError /\
     ((cmd = "hello"%string /\ exists udp, pget "udp" request = PDict udp /\ infinite_in PORT_FIELDS udp) \/
      (cmd = "set_frontend"%string /\ infinite_in ["attenuator_db"%string] request) \/
      (cmd = "set_rx"%string /\ infinite_in RX_FIELDS request) \/
      (cmd = "set_psd"%string /\ infinite_in PSD_FIELDS request) \/
      (cmd ∈ ["ping"; "get_status"]%string /\ infinite_clock now s) \/
      (cmd = "get_status"%string /\ infinite_number (pget_def "psd_id" (PInt 0) (fs_psd_config s))))) \/
  (exn_cls e = KeyError /\ cmd = "hello"%string /\
     exists udp, pget "udp" request = PDict udp /\ missing_in PORT_FIELDS udp).

Lemma device_time_exn now s e : device_time_ms now s = Raise e -> conversion_exn (infinite_clock now s) e.
Proof. apply float_to_int_exn. Qed.

Lemma answers_at (E : exn -> Prop) rid (m : M server pydict) s :
  answers E rid m -> match m s with (_, Ok d) => replies (Some rid) d | (_, Raise e) => E e end.
Proof. intros H. specialize (H s I). by destruct (m s) as [s' [d|e]]. Qed.

(** Every command answers, or raises for one of the reasons above. *)
Lemma run_command_answers c now rid cmd request ip s :
  match run_command (rng := rng) c now rid cmd request ip s with
  | (_, Ok d) => replies (Some rid) d
  | (_, Raise e) => command_exn now cmd request s e
  end.
Proof.
  assert (forall (E : exn -> Prop) m, answers E rid m -> (forall e, E e -> command_exn now cmd request s e) ->
    match m s with (_, Ok d) => replies (Some rid) d | (_, Raise e) => command_exn now cmd request s e end) as Hw.
  { intros E m Hm HE. apply (answers_at _ _ _ s) in Hm. destruct (m s) as [s' [d|e]]; auto. }
  unfold run_command, command_exn in *.
  case_decide. { apply (Hw _ _ (cmd_hello_answers rid request ip)). unfold hello_exn. naive_solver. }
  case_decide.
  { open_M. destruct (device_time_ms now s) as [t|e] eqn:Ht.
    - by apply replies_response.
    - apply device_time_exn in Ht as [Ht|[Ht Hi]]; [by left|]. right. left. set_solver. }
  case_decide.
  { unfold status_object, as_int; open_M. set (s1 := with_status_seq _ s).
    change (device_time_ms now s1) with (device_time_ms now s). change (fs_psd_config s1) with (fs_psd_config s).
    destruct (device_time_ms now s) as [t|e] eqn:Ht.
    2: { apply device_time_exn in Ht as [Ht|[Ht Hi]]; [by left|]. right. left. set_solver. }
    destruct (py_int (pget_def "psd_id" (PInt 0) (fs_psd_config s))) as [i|e] eqn:Hi; [by apply replies_response|].
    apply py_int_exn in Hi as [Hi|[Hc Hi]]; [by left|]. right. left. naive_solver. }
  case_decide. { apply (Hw _ _ (cmd_set_frontend_answers rid request)). unfold conversion_exn. naive_solver. }
  case_decide. { apply (Hw _ _ (cmd_set_rx_answers rid request)). unfold conversion_exn. naive_solver. }
  case_decide; [by apply replies_response|].
  case_decide. { apply (Hw _ _ (cmd_set_psd_answers rid request)). unfold conversion_exn. naive_solver. }
  apply replies_error.
Qed.
End HandlerReplies.

Section Dispatch.
Context {rng : Type} `{!SignalEnv rng}.
Abbreviation server := (FakeServer rng).

(** The id a request line is answered under: none when the line is no JSON
    object or has no integer [request_id]. *)
Definition line_request_id (line : text) : option pyval :=
  match decode_json_line line with
  | Ok request => let rid := pget "request_id" request in if is_int rid then Some rid else None
  | Raise _ => None
  end.

(** The dispatcher's outcome: a reply, or an exception that no reply reports. *)
Lemma dispatch_outcome (c : FakeAc920Config) (now : float) (line : text) (ip : string) (s : server) :
  match dispatch c now line ip s with
  | (_, Ok d) => replies (line_request_id line) d
  | (_, Raise e) =>
      exists request cmd,
        decode_json_line line = Ok request /\ is_int (pget "request_id" request) /\
        pget "cmd" request = PStr cmd /\ command_exn now cmd request s e /\ exn_cls e ∈ [OverflowError; KeyError]
  end.
Proof.
  unfold dispatch, line_request_id. destruct (decode_json_line line) as [request|e]; [|apply replies_error].
  cbv zeta. destruct (is_int (pget "request_id" request)) eqn:Hid; [|apply replies_error]. cbn [negb].
  destruct (pget "cmd" request) as [| | | |cmd| |] eqn:Hcmd; try apply replies_error.
  pose proof (run_command_answers c now (pget "request_id" request) cmd request ip s) as Ha.
  destruct (run_command c now (pget "request_id" request) cmd request ip s) as [s' [d|e]]; [done|].
  destruct (invalid_field_exn e) eqn:He; [apply replies_error|].
  exists request, cmd. split_and!; [done|by rewrite Hid|done|done|].
  unfold invalid_field_exn in He. destruct Ha as [Ha|[[-> _]|[-> _]]]; [|set_solver..].
  exfalso. destruct e as [cls msg]. simpl in *. apply elem_of_cons in Ha as [->|Ha%list_elem_of_singleton]; [done|].
  by subst cls.
Qed.


(** ** [set_psd] *)

(** The limits of the documentation that the device checks. *)
Definition psd_settings_ok (p : PsdRequest) : Prop :=
  pr_source p = "adc0"%string /\ 500000 <= pr_start p /\ pr_stop p <= 108000000 /\
  100000 <= pr_stop p - pr_start p /\ pr_output_bins p = 4096 /\ pr_fps p = 10.

Lemma check_psd_request_ok p : check_psd_request p = None <-> psd_settings_ok p.
Proof.
  unfold check_psd_request, psd_settings_ok.
  destruct (String.eqb_spec (pr_source p) "adc0") as [->|Hs]; cbn [negb]; [|naive_solver].
  destruct (Z.ltb_spec (pr_start p) 500000), (Z.ltb_spec 108000000 (pr_stop p)); cbn [orb];
    try (split; [done|lia]).
  destruct (Z.ltb_spec (pr_stop p - pr_start p) 100000); [split; [done|lia]|].
  destruct (Z.eqb_spec (pr_output_bins p) 4096); cbn [negb]; [|split; [done|lia]].
  destruct (Z.eqb_spec (pr_fps p) 10); cbn [negb]; [|split; [done|lia]].
  split; [|done]. intros _. split_and!; done || lia.
Qed.

Definition wants_psd (request : pydict) : bool :=
  py_bool (pget_def "enable" (pget_def "enabled" (PBool false) request) request).

(** C30: Enabling the PSD is all or nothing.  When every field converts and the
    settings are within the checked limits, the whole configuration is replaced
    by the requested one, the frame counter restarts at 0 with the
    configuration-changed mark, the sender task runs, and the reply repeats the
    configuration; in every other case nothing of the device state changes, and
    the outcome is an [out_of_range] reply or the conversion's exception. *)
Theorem set_psd_all_or_nothing (rid : pyval) (request : pydict) (s : server) :
  wants_psd request ->
  match cmd_set_psd rid request s with
  | (s', r) =>
      (exists p, parse_psd_request request = Ok p /\ psd_settings_ok p /\
         s' = with_tasks (fs_tx_task s) (task_restart (fs_psd_task s)) (with_psd (psd_applied p) 0 true s) /\
         r = Ok (build_response (Some rid) true [("applied"%string, PDict (psd_applied p))])) \/
      (s' = s /\
         ((exists p msg, parse_psd_request request = Ok p /\ ~ psd_settings_ok p /\
             r = Ok (build_error (Some rid) "out_of_range" msg [])) \/
          (exists e, parse_psd_request request = Raise e /\ r = Raise e)))
  end.
Proof.
  intros Hw. unfold cmd_set_psd. unfold wants_psd in Hw. rewrite (Is_true_true_1 _ Hw).
  open_M. destruct (parse_psd_request request) as [p|e] eqn:Hp; [|right; eauto].
  destruct (check_psd_request p) as [msg|] eqn:Hc.
  - right. split; [done|]. left. exists p, msg. split_and!; [done| |done].
    intros Hok%check_psd_request_ok. congruence.
  - apply check_psd_request_ok in Hc. left. by exists p.
Qed.

(** ** [set_rx] *)

Definition wants_rx (request : pydict) (st : StreamState) : bool :=
  py_bool (pget_def "enable" (PBool (sm_enabled st)) request).

(** The requested receiver settings, defaulting to the stream's own. *)
Definition parse_rx (request : pydict) (st : StreamState) : res (Z * Z * string * Z * Z) :=
  adc ← py_int (pget_def "adc_channel" (PInt (sm_adc_channel st)) request);
  freq ← py_int (pget_def "frequency_hz" (PInt (sm_frequency_hz st)) request);
  rate ← py_int (pget_def "iq_sample_rate_hz" (PInt (sm_iq_sample_rate_hz st)) request);
  bw ← py_int (pget_def "bandwidth_hz" (PInt (sm_bandwidth_hz st)) request);
  Ok (adc, freq, py_str (pget_def "mode" (PStr (sm_mode st)) request), rate, bw).

Lemma put_stream_twice i st1 st2 s : put_stream i st2 (put_stream i st1 s) = put_stream (rng := rng) i st2 s.
Proof. unfold put_stream, with_fs_streams. cbn. by rewrite dset_dset. Qed.

Lemma assign_rx_ok i request st s adc freq mode rate bw :
  parse_rx request st = Ok (adc, freq, mode, rate, bw) ->
  assign_rx (rng := rng) i request st s =
    (put_stream i (set_stream_fields adc freq mode rate bw st) s, Ok (set_stream_fields adc freq mode rate bw st)).
Proof.
  unfold parse_rx, assign_rx, as_int. unfold res_bind; open_M.
  destruct (py_int (pget_def "adc_channel" _ request)) as [adc'|]; [|done].
  destruct (py_int (pget_def "frequency_hz" _ request)) as [freq'|]; [|done].
  destruct (py_int (pget_def "iq_sample_rate_hz" _ request)) as [rate'|]; [|done].
  destruct (py_int (pget_def "bandwidth_hz" _ request)) as [bw'|]; [|done].
  intros [= -> -> <- -> ->]. by rewrite !put_stream_twice.
Qed.

Lemma iq_rate_divides rate : rate ∈ IQ_RATES -> rate * (250000000 / rate) = 250000000 /\ 0 < rate.
Proof.
  unfold IQ_RATES. intros H. repeat (apply elem_of_cons in H as [->|H]; [by split|]).
  by apply not_elem_of_nil in H.
Qed.

(** The enabling branch of [set_rx] once the stream id is resolved. *)
Lemma cmd_set_rx_eq rid request (s : server) i st :
  py_int (pget_def "stream_id" (PInt 0) request) = Ok i -> dget i (fs_streams s) = Some st ->
  wants_rx request st ->
  cmd_set_rx rid request s =
    (st ← assign_rx i request st;
     if decide (sm_iq_sample_rate_hz st ∈ IQ_RATES) then
       let st := reset_for_enable (set_stream_enabled true st) in
       M_modify (put_stream i st) ;;
       M_modify (fun s => with_tasks (task_restart (fs_tx_task s)) (fs_psd_task s) s) ;;
       dec ← M_lift (decimation st);
       mret (build_response (Some rid) true [("applied"%string, PDict (applied_rx st dec))])
     else mret (build_error (Some rid) "out_of_range" "unsupported iq_sample_rate_hz" [])) s.
Proof.
  intros Hi Hst Hw. unfold cmd_set_rx, as_int. rewrite Hi. open_M. rewrite Hst.
  unfold wants_rx in Hw. by rewrite (Is_true_true_1 _ Hw).
Qed.

Lemma cmd_set_rx_bad_rate rid request (s : server) i st adc freq mode rate bw :
  py_int (pget_def "stream_id" (PInt 0) request) = Ok i -> dget i (fs_streams s) = Some st ->
  wants_rx request st -> parse_rx request st = Ok (adc, freq, mode, rate, bw) -> rate ∉ IQ_RATES ->
  cmd_set_rx rid request s =
    (put_stream i (set_stream_fields adc freq mode rate bw st) s,
     Ok (build_error (Some rid) "out_of_range" "unsupported iq_sample_rate_hz" [])).
Proof.
  intros Hi Hst Hw Hp Hr. rewrite (cmd_set_rx_eq rid request s i st) by done.
  open_M. rewrite (assign_rx_ok i _ _ s _ _ _ _ _ Hp).
  change (sm_iq_sample_rate_hz (set_stream_fields adc freq mode rate bw st)) with rate.
  by rewrite decide_False by done.
Qed.

(** C31: Enabling a receiver.  For a known stream, convertible fields and a
    supported rate, the stream is enabled with exactly the requested settings,
    its sequence number and timestamp restart at 0, its next packet is marked
    first, the sender task runs, every other stream and the rest of the device
    are untouched, and the reply repeats the settings with a decimation that
    divides the 250 MHz ADC rate exactly.  For an unsupported rate the reply is
    [out_of_range], but the requested settings have already been stored. *)
Theorem set_rx_enable (rid : pyval) (request : pydict) (s : server) (i : Z) (st : StreamState)
    (adc freq : Z) (mode : string) (rate bw : Z) :
  py_int (pget_def "stream_id" (PInt 0) request) = Ok i ->
  dget i (fs_streams s) = Some st ->
  wants_rx request st ->
  parse_rx request st = Ok (adc, freq, mode, rate, bw) ->
  let st1 := set_stream_fields adc freq mode rate bw st in
  if decide (rate ∈ IQ_RATES) then
    exists st' dec,
      rate * dec = 250000000 /\
      st' = set_stream_tx 0 0 true (sm_fifo_overflow_count st) (new_oscillator rate) (set_stream_enabled true st1) /\
      cmd_set_rx rid request s =
        (with_tasks (task_restart (fs_tx_task s)) (fs_psd_task s) (put_stream i st' s),
         Ok (build_response (Some rid) true [("applied"%string, PDict (applied_rx st' dec))]))
  else
    cmd_set_rx rid request s =
      (put_stream i st1 s,
       Ok (build_error (Some rid) "out_of_range" "unsupported iq_sample_rate_hz" [])).
Proof.
  intros Hi Hst Hw Hp st1. pose proof (assign_rx_ok i _ _ s _ _ _ _ _ Hp) as Ha.
  case_decide as Hr; [|by apply cmd_set_rx_bad_rate].
  rewrite (cmd_set_rx_eq rid request s i st) by done.
  open_M. rewrite Ha. change (sm_iq_sample_rate_hz (set_stream_fields adc freq mode rate bw st)) with rate.
  rewrite decide_True by done.
  exists (set_stream_tx 0 0 true (sm_fifo_overflow_count st) (new_oscillator rate) (set_stream_enabled true st1)),
    (250000000 / rate).
  destruct (iq_rate_divides rate Hr) as [Hdiv Hpos]. split_and!; [done|done|].
  unfold M_modify, M_lift, decimation. cbn. rewrite decide_False by lia.
  by rewrite put_stream_twice.
Qed.
End Dispatch.

(** *** Witnesses *)

Definition sample_server : FakeServer unit := server_init (f_of_Z 0) tt.

Definition zoom_request : pydict :=
  [("enable", PBool true); ("start_frequency_hz", PInt 88000000); ("stop_frequency_hz", PStr " 98_000_000 ")]%string.

Lemma set_psd_all_or_nothing_witness :
  match cmd_set_psd (PInt 5) zoom_request sample_server with
  | (s', r) =>
      (exists p, parse_psd_request zoom_request = Ok p /\ psd_settings_ok p /\
         s' = with_tasks (fs_tx_task sample_server) TaskRunning (with_psd (psd_applied p) 0 true sample_server) /\
         r = Ok (build_response (Some (PInt 5)) true [("applied"%string, PDict (psd_applied p))])) \/
      (s' = sample_server /\
         ((exists p msg, parse_psd_request zoom_request = Ok p /\ ~ psd_settings_ok p /\
             r = Ok (build_error (Some (PInt 5)) "out_of_range" msg [])) \/
          (exists e, parse_psd_request zoom_request = Raise e /\ r = Raise e)))
  end.
Proof. apply (set_psd_all_or_nothing (PInt 5) zoom_request sample_server). exact I. Defined.

Definition rx_request : pydict :=
  [("stream_id", PInt 1); ("enable", PInt 1); ("iq_sample_rate_hz", PInt 250000); ("mode", PStr "AM")]%string.

Lemma set_rx_enable_witness :
  let st := new_stream 1 in
  let st1 := set_stream_fields 0 98500000 "AM" 250000 250000 st in
  if decide (250000 ∈ IQ_RATES) then
    exists st' dec,
      250000 * dec = 250000000 /\
      st' = set_stream_tx 0 0 true (sm_fifo_overflow_count st) (new_oscillator 250000)
              (set_stream_enabled true st1) /\
      cmd_set_rx (PInt 6) rx_request sample_server =
        (with_tasks TaskRunning (fs_psd_task sample_server) (put_stream 1 st' sample_server),
         Ok (build_response (Some (PInt 6)) true [("applied"%string, PDict (applied_rx st' dec))]))
  else
    cmd_set_rx (PInt 6) rx_request sample_server =
      (put_stream 1 st1 sample_server,
       Ok (build_error (Some (PInt 6)) "out_of_range" "unsupported iq_sample_rate_hz" [])).
Proof.
  apply (set_rx_enable (PInt 6) rx_request sample_server 1 (new_stream 1) 0 98500000 "AM" 250000 250000);
    reflexivity.
Defined.

(** ** [set_frontend] *)

Section Frontend.
Context {rng : Type}.
Abbreviation server := (FakeServer rng).

(** A rejected front-end request can still change the front end: when the
    attenuator value is legal and the LNA value is not, the reply is an
    [invalid_field] error although the new attenuator value is already
    stored. *)
Theorem set_frontend_rejected_applies (rid : pyval) (request : pydict) (s : server) (a : Z) (v lna : pyval) :
  dget "attenuator_db"%string request = Some v -> py_int v = Ok a -> a ∈ [0; 10; 20; 30] ->
  dget "lna"%string request = Some lna -> py_str lna ∉ ["on"; "bypass"]%string ->
  cmd_set_frontend rid request s =
    (with_frontend (dset "attenuator_db"%string (PInt a) (fs_frontend s)) s,
     Ok (build_error (Some rid) "invalid_field" "lna must be on or bypass" [])).
Proof.
  intros Ha Hv Hin Hl Hbad. unfold cmd_set_frontend, frontend_attenuator, frontend_lna.
  rewrite Ha, Hl. unfold as_int, set_frontend_key. rewrite Hv.
  open_M. rewrite decide_True by done. cbn [mret M_ret].
  by rewrite decide_False by done.
Qed.
End Frontend.

Lemma set_frontend_rejected_applies_witness :
  cmd_set_frontend (PInt 3) [("attenuator_db", PInt 20); ("lna", PStr "off")]%string sample_server =
    (with_frontend (dset "attenuator_db"%string (PInt 20) (fs_frontend sample_server)) sample_server,
     Ok (build_error (Some (PInt 3)) "invalid_field" "lna must be on or bypass" [])).
Proof.
  apply (set_frontend_rejected_applies _ _ _ 20 (PInt 20) (PStr "off")); try reflexivity; set_solver.
Defined.

(** ** Ownership *)

Section Ownership.
Context {rng : Type} `{!SignalEnv rng}.
Context (c : FakeAc920Config) (peer_ip : nat -> string).
Abbreviation world := (World rng).

(** No destination, no enabled stream, PSD off. *)
Definition idle (s : FakeServer rng) : Prop :=
  fs_udp_dest s = None /\ fs_udp_psd_dest s = None /\ fs_udp_status_dest s = None /\
  Forall (fun kv => sm_enabled kv.2 = false) (fs_streams s) /\
  py_bool (pget "enable" (fs_psd_config s)) = false.

Definition owner_inv (x : world) : Prop :=
  (forall h, h ∈ w_handlers x -> h ∉ w_closing x -> w_owner x = Some h) /\
  (forall o, w_owner x = Some o -> o ∈ w_handlers x) /\
  (w_owner x = None -> idle (w_server x)).

Lemma stop_all_idle (s : FakeServer rng) : idle (with_dests None None None (stop_all s)).
Proof.
  unfold idle, stop_all, psd_disable, pget. cbn. split_and!; try done.
  - apply Forall_fmap, Forall_true. done.
  - rewrite dget_dset_ne by done. by rewrite dget_dset_eq.
Qed.

Lemma idle_iq_turn (s : FakeServer rng) : fs_udp_dest s = None -> iq_loop_turn c s = (s, Ok tt).
Proof.
  intros Hd. unfold iq_loop_turn; open_M. rewrite Hd.
  by destruct (active_streams s) as [|[]].
Qed.

Lemma idle_psd_turn now (s : FakeServer rng) : fs_udp_psd_dest s = None -> psd_loop_turn now s = (s, Ok tt).
Proof. intros Hd. unfold psd_loop_turn; open_M. rewrite Hd. by case_match. Qed.

Lemma idle_status_turn now (s : FakeServer rng) : fs_udp_status_dest s = None -> status_task_turn c now s = s.
Proof. intros Hd. unfold status_task_turn, status_loop_turn; open_M. by rewrite Hd. Qed.

Lemma idle_orphan_turn now (s : FakeServer rng) : fs_udp_status_dest s = None -> orphan_task_turn c now s = s.
Proof. intros Hd. unfold orphan_task_turn, status_loop_turn; open_M. by rewrite Hd. Qed.

Lemma idle_turns x now now' :
  owner_inv x -> w_owner x = None ->
  iq_task_turn c (w_server x) = w_server x /\ psd_task_turn now (w_server x) = w_server x /\
  status_task_turn c now' (w_server x) = w_server x /\ orphan_task_turn c now' (w_server x) = w_server x.
Proof.
  intros (_ & _ & Hidle) Ho. destruct (Hidle Ho) as (H1 & H2 & H3 & _).
  unfold iq_task_turn, psd_task_turn. rewrite idle_iq_turn, idle_psd_turn, idle_status_turn, idle_orphan_turn by done. done.
Qed.

Lemma owner_inv_server s x :
  owner_inv x -> w_owner x <> None \/ (idle (w_server x) -> idle s) -> owner_inv (with_server s x).
Proof.
  intros (H1 & H2 & H3) Hs. split_and!; [done|done|]. cbn. intros Ho.
  destruct Hs as [Hs|Hs]; [done|auto].
Qed.

(** The life cycle of the server touches nothing a client configured. *)
Lemma idle_lifecycle l t o (s : FakeServer rng) : idle s -> idle (with_lifecycle l t o s).
Proof. done. Qed.
Lemma idle_close (s : FakeServer rng) : idle s -> idle (close_server s).
Proof. unfold close_server. by case_match. Qed.

Lemma owner_inv_end w x : owner_inv x -> owner_inv (on_end w x).
Proof.
  intros (H1 & H2 & H3). unfold on_end. case_decide as Ho; split_and!; cbn.
  - intros h Hh Hc. apply list_elem_of_filter in Hh as [Hne Hh].
    assert (w_owner x = Some h) by (apply H1; [done|set_solver]). congruence.
  - done.
  - intros _. apply stop_all_idle.
  - intros h Hh Hc. apply list_elem_of_filter in Hh as [Hne Hh]. apply H1; [done|set_solver].
  - intros o Hx. apply list_elem_of_filter. split; [congruence|auto].
  - done.
Qed.

Lemma owner_inv_connect w x : w ∉ w_closing x -> owner_inv x -> owner_inv (on_connect w x).
Proof.
  intros Hw (H1 & H2 & H3). unfold on_connect. destruct (w_owner x) as [o|] eqn:Ho.
  - case_decide as Hc; split_and!; cbn; try done.
    + intros h Hh Hnc. apply elem_of_cons in Hh as [->|Hh]; [done|].
      specialize (H1 h Hh Hnc). congruence.
    + intros o' [= <-]. left.
    + intros h Hh Hnc. apply H1; [done|set_solver].
  - split_and!; cbn; try done.
    + intros h Hh Hnc. apply elem_of_cons in Hh as [->|Hh]; [done|].
      specialize (H1 h Hh Hnc). congruence.
    + intros o' [= <-]. left.
Qed.

Lemma owner_inv_step x x' : owner_inv x -> world_step c peer_ip x x' -> owner_inv x'.
Proof.
  intros Hx Hs. destruct Hs as [?| |?|tx psd status|w Hl Hh Hc|now w line Hh Hc|w|w Hh|Ht|now Ht|now Ht|now Ht].
  - apply owner_inv_server; [done|]. by right.
  - apply owner_inv_server; [done|]. right. apply idle_close.
  - apply owner_inv_server; [done|]. by right.
  - apply owner_inv_server; [done|]. by right.
  - by apply owner_inv_connect.
  - assert (forall s, owner_inv (with_server s x)) as Hany.
    { intros s. apply owner_inv_server; [done|]. left. destruct Hx as (H1 & _). by rewrite (H1 w). }
    unfold on_line. destruct (dispatch c now line (peer_ip w) (w_server x)) as [s r].
    destruct (r ≫= encode_json_line); [apply Hany|]. apply owner_inv_end, Hany.
  - destruct Hx as (H1 & H2 & H3). split_and!; try done. cbn. intros h Hh Hc. apply H1; [done|set_solver].
  - by apply owner_inv_end.
  - apply owner_inv_server; [done|]. destruct (w_owner x) eqn:Ho; [by left|]. right.
    destruct (idle_turns x (fun _ => f_zero) f_zero Hx Ho) as (E1 & E2 & E3 & E4). by rewrite ?E1, ?E2, ?E3, ?E4.
  - apply owner_inv_server; [done|]. destruct (w_owner x) eqn:Ho; [by left|]. right.
    destruct (idle_turns x now f_zero Hx Ho) as (E1 & E2 & E3 & E4). by rewrite ?E1, ?E2, ?E3, ?E4.
  - apply owner_inv_server; [done|]. destruct (w_owner x) eqn:Ho; [by left|]. right.
    destruct (idle_turns x (fun _ => f_zero) now Hx Ho) as (E1 & E2 & E3 & E4). by rewrite ?E1, ?E2, ?E3, ?E4.
  - apply owner_inv_server; [done|]. destruct (w_owner x) eqn:Ho; [by left|]. right.
    destruct (idle_turns x (fun _ => f_zero) now Hx Ho) as (E1 & E2 & E3 & E4). by rewrite ?E1, ?E2, ?E3, ?E4.
Qed.

(** C5: Single owner and release.  In every reachable state at most one
    connection with a live transport is being served, and it is the owner; the
    owner is always being served; and whenever there is no owner the device is
    idle: no UDP destination, every stream disabled, PSD off, so that no step
    at all puts a datagram on the network. *)
Theorem single_owner_released (boot : float) (g : rng) (x : world) :
  reachable c peer_ip boot g x ->
  (forall h1 h2, h1 ∈ w_handlers x -> h1 ∉ w_closing x -> h2 ∈ w_handlers x -> h2 ∉ w_closing x ->
     h1 = h2 /\ w_owner x = Some h1) /\
  (forall o, w_owner x = Some o -> o ∈ w_handlers x) /\
  (w_owner x = None ->
     idle (w_server x) /\
     forall x', world_step c peer_ip x x' -> fs_outbox (w_server x') = fs_outbox (w_server x)).
Proof.
  intros Hr. assert (owner_inv x) as Hx.
  { apply (rtc_invariant _ owner_inv _ _ (fun y z Hyz Hy => owner_inv_step y z Hy Hyz) Hr). unfold owner_inv, world_init. cbn. split_and!; [set_solver|done|].
    intros _. unfold idle. cbn. split_and!; try done. by repeat constructor. }
  pose proof Hx as (H1 & H2 & H3). split_and!; [|done|].
  - intros h1 h2 Ha Hb Hc Hd. pose proof (H1 _ Ha Hb). pose proof (H1 _ Hc Hd). split; congruence.
  - intros Ho. split; [auto|]. intros x' Hs.
    destruct Hs as [?| |?|tx psd status|w Hl Hh Hc|now w line Hh Hc|w|w Hh|Ht|now Ht|now Ht|now Ht]; cbn.
    + done.
    + unfold close_server. by case_match.
    + done.
    + done.
    + unfold on_connect. by rewrite Ho.
    + rewrite (H1 w Hh Hc) in Ho. done.
    + done.
    + unfold on_end. by rewrite decide_False by congruence.
    + by destruct (idle_turns x (fun _ => f_zero) f_zero Hx Ho) as (-> & _).
    + by destruct (idle_turns x now f_zero Hx Ho) as (_ & -> & _).
    + by destruct (idle_turns x (fun _ => f_zero) now Hx Ho) as (_ & _ & -> & _).
    + by destruct (idle_turns x (fun _ => f_zero) now Hx Ho) as (_ & _ & _ & ->).
Qed.
End Ownership.

Definition localhost (w : nat) : string := "127.0.0.1".

(** Two clients: the second is refused, then the first leaves. *)
Lemma single_owner_released_witness :
  let x := on_end 1 (on_connect 2 (on_connect 1 (with_server (start sample_server) (world_init (f_of_Z 0) tt)))) in
  (forall h1 h2, h1 ∈ w_handlers x -> h1 ∉ w_closing x -> h2 ∈ w_handlers x -> h2 ∉ w_closing x ->
     h1 = h2 /\ w_owner x = Some h1) /\
  (forall o, w_owner x = Some o -> o ∈ w_handlers x) /\
  (w_owner x = None ->
     idle (w_server x) /\
     forall x', world_step (SignalEnv0 := constant_env) fake_config_default localhost x x' ->
       fs_outbox (w_server x') = fs_outbox (w_server x)).
Proof.
  apply (single_owner_released (SignalEnv0 := constant_env) fake_config_default localhost (f_of_Z 0) tt).
  eapply rtc_l; [by apply step_start|].
  eapply rtc_l; [apply (step_connect _ _ _ 1); [done|set_solver..]|].
  eapply rtc_l; [apply (step_connect _ _ _ 2); [done|set_solver..]|].
  eapply rtc_l; [apply (step_end _ _ _ 1); cbn; set_solver|].
  apply rtc_refl.
Defined.
