(* ===== verification/ServerTypes.v ===== *)
(** The types of the simulated device's state.  Python gives the attributes of
    [FakeAc920Server] no types; this file states them, with the ranges that the
    commands check and the senders maintain, and shows that every operation
    keeps them, raising or not, so that they hold in every reachable state.
    Values that a command stores unchecked (a stream's sample rate, frequency and
    bandwidth, the UDP ports, [psd_id] and [fft_size]) are integers of any size;
    what that leads to is said elsewhere ([ServerTx], [Lifecycle]). *)

From Stdlib Require Import ZArith SpecFloat Lia Ascii String Strings.Byte.
From stdpp Require Import base list sets strings relations.
From S2P Require Import Prelude PyFloat PyValue Json Control Packets SignalGen FakeServer ServerSpec.

Open Scope Z_scope.

(** ** Well-typed states *)

(** [_psd_config]: the entries of the constructor, with settings within the
    checked limits and one value for both enable flags. *)
Definition psd_entries (p : PsdRequest) (on : bool) : pydict :=
  [("psd_id", PInt (pr_psd_id p)); ("source", PStr (pr_source p)); ("enable", PBool on);
   ("enabled", PBool on); ("start_frequency_hz", PInt (pr_start p));
   ("stop_frequency_hz", PInt (pr_stop p)); ("fft_size", PInt (pr_fft_size p));
   ("output_bins", PInt (pr_output_bins p)); ("fps", PInt (pr_fps p));
   ("sample_format", PStr (pr_sample_format p))]%string.

Definition psd_config_wf (cfg : pydict) : Prop :=
  exists p on, psd_settings_ok p /\ cfg = psd_entries p on.

Definition frontend_wf (f : pydict) : Prop :=
  exists att lna flt,
    f = [("attenuator_db", PInt att); ("lna", PStr lna); ("filter", PStr flt)]%string /\
    att ∈ [0; 10; 20; 30] /\ lna ∈ ["on"; "bypass"]%string.

(** The oscillator is made with the constructor's rate, or with the stream's
    once that has been checked. *)
Definition stream_wf (i : Z) (st : StreamState) : Prop :=
  sm_stream_id st = i /\ 0 <= sm_seq st < 2 ^ 32 /\ 0 <= sm_adc_timestamp st < 2 ^ 64 /\
  0 <= sm_fifo_overflow_count st /\ osc_sample_rate_hz (sm_oscillator st) ∈ 1000000 :: IQ_RATES.

Section Types.
Context {rng : Type} `{!SignalEnv rng}.
Abbreviation server := (FakeServer rng).

Record server_wf (s : server) : Prop := {
  wf_streams : dkeys (fs_streams s) = [0; 1];
  wf_stream i st : dget i (fs_streams s) = Some st -> stream_wf i st;
  wf_psd_config : psd_config_wf (fs_psd_config s);
  wf_psd_seq : 0 <= fs_psd_frame_seq s < 2 ^ 32;
  wf_frontend : frontend_wf (fs_frontend s);
  wf_counters : 0 <= fs_status_seq s /\ 0 <= fs_iq_packets_sent s /\ 0 <= fs_psd_packets_sent s;
}.

(** [m] keeps the types, whether it returns or raises; what it returns
    satisfies [Q]. *)
Definition keeps {A} (Q : A -> Prop) (m : M server A) : Prop :=
  M_triple server_wf m (fun a s => server_wf s /\ Q a) (fun _ s => server_wf s).

Lemma keeps_bind {A B} (R : A -> Prop) (Q : B -> Prop) (m : M server A) (f : A -> M server B) :
  keeps R m -> (forall a, R a -> keeps Q (f a)) -> keeps Q (m ≫= f).
Proof.
  intros Hm Hf. eapply triple_bind; [exact Hm|]. intros a s [Hs Ha]. exact (Hf a Ha s Hs).
Qed.

Lemma keeps_ret {A} (Q : A -> Prop) (a : A) : Q a -> keeps Q (mret a).
Proof. intros Ha. apply triple_ret. auto. Qed.

Lemma keeps_get : keeps server_wf M_get.
Proof. apply triple_get. auto. Qed.

Lemma keeps_lift {A} (r : res A) : keeps (fun a => r = Ok a) (M_lift r).
Proof. apply triple_lift. intros s Hs. by destruct r. Qed.

Lemma keeps_modify (f : server -> server) : (forall s, server_wf s -> server_wf (f s)) -> keeps (fun _ => True) (M_modify f).
Proof. intros Hf. apply triple_modify. auto. Qed.

Lemma keeps_weaken {A} (Q R : A -> Prop) (m : M server A) : keeps R m -> (forall a, R a -> Q a) -> keeps Q m.
Proof. intros Hm HQ. eapply triple_weaken; [exact Hm|done| |done]. naive_solver. Qed.

(** ** Updates *)

Lemma put_stream_wf i st s : stream_wf i st -> i ∈ [0; 1] -> server_wf s -> server_wf (put_stream i st s).
Proof.
  intros Hst Hi [H1 H2 H3 H4 H5 H6]. split; try done.
  - change (dkeys (dset i st (fs_streams s)) = [0; 1]). rewrite dkeys_dset. unfold dhas.
    destruct (dget i (fs_streams s)) eqn:E; [done|]. apply dget_None in E. by rewrite H1 in E.
  - intros j st'. change (dget j (dset i st (fs_streams s)) = Some st' -> stream_wf j st').
    rewrite dget_dset. case_decide; [by intros [= <-]; subst|apply H2].
Qed.

Lemma dget_stream_key i st s : server_wf s -> dget i (fs_streams s) = Some st -> i ∈ [0; 1] /\ stream_wf i st.
Proof.
  intros Hs Hi. split; [|by apply Hs]. rewrite <- (wf_streams s Hs). apply dget_Some_elem in Hi.
  unfold dkeys. apply list_elem_of_fmap. by exists (i, st).
Qed.

Lemma with_dests_wf a b c s : server_wf s -> server_wf (with_dests a b c s).
Proof. intros []. by split. Qed.
Lemma with_tasks_wf a b s : server_wf s -> server_wf (with_tasks a b s).
Proof. intros []. by split. Qed.
Lemma with_lifecycle_wf l t o s : server_wf s -> server_wf (with_lifecycle l t o s).
Proof. intros []. by split. Qed.
Lemma with_orphans_wf n s : server_wf s -> server_wf (with_orphans n s).
Proof. intros []. by split. Qed.
Lemma with_status_seq_wf n s : 0 <= n -> server_wf s -> server_wf (with_status_seq n s).
Proof. intros Hn [? ? ? ? ? (? & ? & ?)]. by split. Qed.
Lemma with_tx_wf iq psd g out s : 0 <= iq -> 0 <= psd -> server_wf s -> server_wf (with_tx iq psd g out s).
Proof. intros ? ? [? ? ? ? ? (? & ? & ?)]. by split. Qed.
Lemma with_psd_wf cfg seq first s :
  psd_config_wf cfg -> 0 <= seq < 2 ^ 32 -> server_wf s -> server_wf (with_psd cfg seq first s).
Proof. intros ? ? []. by split. Qed.
Lemma with_frontend_wf f s : frontend_wf f -> server_wf s -> server_wf (with_frontend f s).
Proof. intros ? []. by split. Qed.

Lemma psd_disable_wf cfg : psd_config_wf cfg -> psd_config_wf (psd_disable cfg).
Proof. intros (p & on & Hp & ->). by exists p, false. Qed.

Lemma set_enabled_wf i b st : stream_wf i st -> stream_wf i (set_stream_enabled b st).
Proof. done. Qed.
Lemma set_fields_wf i adc freq mode rate bw st : stream_wf i st -> stream_wf i (set_stream_fields adc freq mode rate bw st).
Proof. done. Qed.
Lemma reset_wf i st :
  sm_iq_sample_rate_hz st ∈ IQ_RATES -> stream_wf i st -> stream_wf i (reset_for_enable st).
Proof.
  unfold stream_wf. cbn -[IQ_RATES]. intros Hr (H1 & _ & _ & H4 & _). split_and!; [done|lia..|]. by right.
Qed.

Lemma stop_all_wf s : server_wf s -> server_wf (stop_all s).
Proof.
  intros Hs. unfold stop_all. apply with_psd_wf; [apply psd_disable_wf, Hs|apply Hs|].
  destruct Hs as [H1 H2 H3 H4 H5 H6]. split; try done.
  - cbn. rewrite <- H1. unfold dkeys. rewrite <- list_fmap_compose. by apply list_fmap_ext.
  - intros i st. cbn [fs_streams with_fs_streams]. rewrite dget_fmap.
    destruct (dget i (fs_streams s)) eqn:E; [|done]. intros [= <-]. by apply set_enabled_wf, H2.
Qed.

Lemma frontend_att_wf a f : a ∈ [0; 10; 20; 30] -> frontend_wf f -> frontend_wf (dset "attenuator_db"%string (PInt a) f).
Proof. intros Ha (att & lna & flt & -> & _ & Hl). by exists a, lna, flt. Qed.
Lemma frontend_lna_wf l f : l ∈ ["on"; "bypass"]%string -> frontend_wf f -> frontend_wf (dset "lna"%string (PStr l) f).
Proof. intros Hl (att & lna & flt & -> & Ha & _). by exists att, l, flt. Qed.
Lemma frontend_filter_wf v f : frontend_wf f -> frontend_wf (dset "filter"%string (PStr v) f).
Proof. intros (att & lna & flt & -> & Ha & Hl). by exists att, lna, v. Qed.

(** ** Commands *)

Create HintDb keeps.
#[local] Hint Resolve keeps_get keeps_lift keeps_ret keeps_modify : keeps.
#[local] Hint Resolve put_stream_wf with_dests_wf with_tasks_wf with_psd_wf with_frontend_wf stop_all_wf psd_disable_wf
  set_enabled_wf set_fields_wf reset_wf frontend_att_wf frontend_lna_wf frontend_filter_wf
  wf_psd_config wf_psd_seq wf_frontend : keeps.

Lemma keeps_get_any {A} (Q : A -> Prop) f : (forall s : server, server_wf s -> keeps Q (f s)) -> keeps Q (M_get ≫= f).
Proof. intros Hf. eapply keeps_bind; [apply keeps_get|exact Hf]. Qed.
Lemma keeps_lift_any {A B} (Q : B -> Prop) (r : res A) f :
  (forall a, r = Ok a -> keeps Q (f a)) -> keeps Q ((M_lift r : M server A) ≫= f).
Proof. intros Hf. eapply keeps_bind; [apply keeps_lift|exact Hf]. Qed.
Lemma keeps_modify_any {A} (Q : A -> Prop) (g : server -> server) f :
  (forall s, server_wf s -> server_wf (g s)) -> keeps Q (f tt) -> keeps Q (M_modify g ≫= f).
Proof. intros Hg Hf. eapply keeps_bind; [by apply keeps_modify|]. by intros []. Qed.

(** Walks through a handler: reads, conversions, updates. *)
Ltac keep_step :=
  first
    [ apply keeps_get_any; intros ? ?
    | apply keeps_lift_any; intros ? ?
    | apply keeps_modify_any; [solve [intros; eauto 6 with keeps]|]
    | apply keeps_ret; exact I ].

Definition any {A} (_ : A) : Prop := True.

Lemma cmd_hello_keeps rid request ip : keeps any (cmd_hello (rng := rng) rid request ip).
Proof.
  unfold cmd_hello. case_match; [by repeat keep_step|]. case_match; by repeat keep_step.
Qed.

Lemma cmd_set_frontend_keeps rid request : keeps any (cmd_set_frontend (rng := rng) rid request).
Proof.
  unfold cmd_set_frontend. eapply (keeps_bind any).
  { unfold frontend_attenuator, set_frontend_key, as_int. case_match; [|by keep_step]. keep_step.
    case_decide; by repeat keep_step. }
  intros [r|] _; [by keep_step|]. eapply (keeps_bind any).
  { unfold frontend_lna, set_frontend_key. case_match; [|by keep_step]. cbv zeta. case_decide; by repeat keep_step. }
  intros [r|] _; [by keep_step|]. unfold set_frontend_key.
  case_match; [by repeat keep_step|]. eapply (keeps_bind any); [by keep_step|]. intros _ _. by repeat keep_step.
Qed.

Lemma cmd_set_rx_keeps rid request : keeps any (cmd_set_rx (rng := rng) rid request).
Proof.
  unfold cmd_set_rx, as_int. keep_step. keep_step. case_match eqn:Hd; [|by keep_step].
  destruct (dget_stream_key _ _ _ H0 Hd) as [Hi Hst]. case_match.
  - eapply (keeps_bind (stream_wf a)).
    + unfold assign_rx, as_int. cbv zeta. repeat keep_step. apply keeps_ret. by apply set_fields_wf.
    + intros st Hst'. case_decide; repeat keep_step.
  - repeat keep_step.
Qed.

Lemma cmd_set_psd_keeps rid request : keeps any (cmd_set_psd (rng := rng) rid request).
Proof.
  unfold cmd_set_psd. case_match.
  - keep_step. destruct (check_psd_request a) eqn:Hc; [by keep_step|]. apply check_psd_request_ok in Hc.
    assert (psd_config_wf (psd_applied a)) by (by exists a, true).
    apply keeps_modify_any; [intros; apply with_psd_wf; [done|lia|done]|]. repeat keep_step.
  - repeat keep_step.
Qed.

Lemma status_object_keeps c now : keeps any (status_object (rng := rng) c now).
Proof.
  unfold status_object, as_int. apply keeps_modify_any.
  { intros s Hs. apply with_status_seq_wf; [|done]. pose proof (wf_counters s Hs). lia. }
  repeat keep_step.
Qed.

#[local] Hint Resolve cmd_hello_keeps cmd_set_frontend_keeps cmd_set_rx_keeps cmd_set_psd_keeps status_object_keeps : keeps.

Lemma run_command_keeps c now rid cmd request ip : keeps any (run_command (rng := rng) c now rid cmd request ip).
Proof.
  unfold run_command. case_decide; [auto with keeps|]. case_decide; [by repeat keep_step|].
  case_decide; [eapply keeps_bind; [apply status_object_keeps|intros; by keep_step]|].
  case_decide; [auto with keeps|]. case_decide; [auto with keeps|]. case_decide; [by repeat keep_step|].
  case_decide; [auto with keeps|]. by keep_step.
Qed.

Lemma dispatch_keeps c now line ip : keeps any (dispatch (rng := rng) c now line ip).
Proof.
  intros s Hs. unfold dispatch. destruct (decode_json_line line) as [request|]; [|by split].
  cbv zeta. destruct (negb _); [by split|]. destruct (pget "cmd" request); try (by split).
  pose proof (run_command_keeps c now (pget "request_id" request) s0 request ip s Hs) as Hr.
  destruct (run_command _ _ _ _ _ _ _) as [s' [d|e]]; [done|]. by destruct (invalid_field_exn e).
Qed.

(** ** Senders *)

Lemma sendto_keeps data d : keeps any (sendto (rng := rng) data d).
Proof.
  intros s Hs. unfold sendto. pose proof (wf_counters s Hs). destruct (_ && _), (fs_udp_open s); try done. split; [|done].
  apply with_tx_wf; [lia|lia|done].
Qed.

Lemma set_tx_wf i seq ts first fifo o st :
  stream_wf i st -> 0 <= seq < 2 ^ 32 -> 0 <= ts < 2 ^ 64 -> 0 <= fifo ->
  osc_sample_rate_hz o = osc_sample_rate_hz (sm_oscillator st) -> stream_wf i (set_stream_tx seq ts first fifo o st).
Proof. unfold stream_wf. cbn -[IQ_RATES]. intros (? & _ & _ & _ & H) ? ? ? Ho. by rewrite Ho. Qed.

Lemma count_iq_wf s : server_wf s -> server_wf (count_iq_packet s).
Proof. intros Hs. pose proof (wf_counters s Hs). apply with_tx_wf; [lia|lia|done]. Qed.
Lemma count_psd_wf s : server_wf s -> server_wf (count_psd_packet s).
Proof. intros Hs. pose proof (wf_counters s Hs). apply with_tx_wf; [lia|lia|done]. Qed.
Lemma with_random_wf g s : server_wf s -> server_wf (with_random g s).
Proof. intros Hs. pose proof (wf_counters s Hs). apply with_tx_wf; [lia|lia|done]. Qed.
#[local] Hint Resolve count_iq_wf count_psd_wf with_random_wf : keeps.

Lemma send_iq_packet_keeps c i st : stream_wf i st -> i ∈ [0; 1] -> keeps any (send_iq_packet (rng := rng) c i st).
Proof.
  intros Hst Hi. unfold send_iq_packet. keep_step.
  match goal with |- context [make_iq ?n ?k ?og] => pose proof (make_iq_rate n k og) as Ho end.
  destruct (make_iq _ _ _) as [[o g] r]. cbn [fst] in Ho. cbv zeta. pose proof Hst as (Hid & Hseq & Hts & Hfifo & _).
  assert (forall first fifo, 0 <= fifo -> stream_wf i (set_stream_tx (sm_seq st) (sm_adc_timestamp st) first fifo o st)) as Hw.
  { intros. by apply set_tx_wf. }
  apply keeps_modify_any; [intros; apply with_random_wf; auto using put_stream_wf|]. keep_step. keep_step.
  cbn [sm_seq sm_adc_timestamp sm_fifo_overflow_count set_stream_tx].
  apply keeps_modify_any; [intros; apply put_stream_wf; [apply set_tx_wf; [by apply Hw|done|done|case_match; lia|done]|done|done]|].
  keep_step. keep_step. keep_step. eapply (keeps_bind any).
  { destruct (should_drop _ _), (fs_udp_dest s0); try (by keep_step). keep_step. apply sendto_keeps. }
  intros _ _. eapply keeps_weaken; [apply keeps_modify|done]. intros s' Hs'. apply put_stream_wf; [|done|done].
  apply set_tx_wf; [|apply mask32_bound|apply mask64_bound|case_match; lia|done].
  apply set_tx_wf; [by apply Hw|done|done|case_match; lia|done].
Qed.

Lemma send_iq_all_keeps c ids : keeps any (send_iq_all (rng := rng) c ids).
Proof.
  induction ids as [|i ids IH]; cbn [send_iq_all]; [by keep_step|]. keep_step.
  eapply (keeps_bind any); [|by intros _ _]. case_match eqn:Hd; [|by keep_step].
  destruct (dget_stream_key _ _ _ H Hd). by apply send_iq_packet_keeps.
Qed.

Lemma iq_loop_turn_keeps c : keeps any (iq_loop_turn (rng := rng) c).
Proof.
  unfold iq_loop_turn. keep_step. destruct (active_streams _) as [|[k st] active]; [by keep_step|].
  case_match; [|by keep_step]. eapply keeps_bind; [apply send_iq_all_keeps|]. intros _ _. cbv zeta. by repeat keep_step.
Qed.

Lemma send_psd_segments_keeps now total n start stop spacing flags bins is_ :
  keeps any (send_psd_segments (rng := rng) now total n start stop spacing flags bins is_).
Proof.
  induction is_ as [|i is_ IH]; cbn [send_psd_segments]; [by keep_step|].
  eapply (keeps_bind any); [|by intros _ _]. unfold send_psd_segment, cfg_int. cbv zeta. do 4 keep_step.
  case_match; [|by keep_step]. keep_step. eapply keeps_bind; [apply sendto_keeps|]. intros _ _.
  eapply keeps_weaken; [apply keeps_modify|done]. auto with keeps.
Qed.

Lemma send_psd_frame_keeps now : keeps any (send_psd_frame (rng := rng) now).
Proof.
  unfold send_psd_frame, cfg_int. cbv zeta. repeat keep_step.
  eapply keeps_bind; [apply send_psd_segments_keeps|]. intros _ _.
  eapply keeps_weaken; [apply keeps_modify|done]. intros s' Hs'. apply with_psd_wf; [apply Hs'|apply mask32_bound|done].
Qed.

Lemma psd_loop_turn_keeps now : keeps any (psd_loop_turn (rng := rng) now).
Proof.
  unfold psd_loop_turn, as_int. keep_step. case_match; [|by keep_step]. case_match; [|by keep_step].
  eapply keeps_bind; [apply send_psd_frame_keeps|]. intros _ _. by repeat keep_step.
Qed.

Lemma status_loop_turn_keeps c now : keeps any (status_loop_turn (rng := rng) c now).
Proof.
  unfold status_loop_turn. keep_step. cbv zeta. eapply (keeps_bind any).
  - case_match; [|by keep_step]. eapply keeps_bind; [apply status_object_keeps|]. intros d _. apply sendto_keeps.
  - intros _ _. by keep_step.
Qed.

(** The state after [m], whatever it returns. *)
Lemma keeps_state {A} (Q : A -> Prop) (m : M server A) s : keeps Q m -> server_wf s -> server_wf (m s).1.
Proof. intros Hm Hs. specialize (Hm s Hs). destruct (m s) as [s' [a|e]]; [by destruct Hm|done]. Qed.

Lemma server_init_wf boot g : server_wf (server_init boot g).
Proof.
  split; try done.
  - intros i st. cbn. repeat case_decide; try done; intros [= <-]; subst; unfold stream_wf; cbn -[IQ_RATES]; split_and!; try done; by left.
  - exists (MkPsdRequest 0 "adc0" 500000 108000000 16384 4096 10 "I16_DBFS_Q8"), false.
    split; [unfold psd_settings_ok; cbn; split_and!; (done || lia)|done].
  - exists 10, "bypass"%string, "LPF_108M"%string. split_and!; [done|set_solver|set_solver].
Qed.

(** ** Every step *)

Context (c : FakeAc920Config) (peer_ip : nat -> string).

Lemma on_end_wf w (x : World rng) : server_wf (w_server x) -> server_wf (w_server (on_end w x)).
Proof. intros Hs. unfold on_end. case_decide; [|done]. cbn. by apply with_dests_wf, stop_all_wf. Qed.

Lemma world_step_wf (x x' : World rng) : world_step c peer_ip x x' -> server_wf (w_server x) -> server_wf (w_server x').
Proof.
  intros Hstep Hs. destruct Hstep as [?| |?|tx psd status|w ? ? ?|now w line ? ?|w|w ?|Ht|now Ht|now Ht|now Ht].
  - by apply with_lifecycle_wf, with_orphans_wf.
  - cbn. unfold close_server. case_match; [done|by apply with_lifecycle_wf..].
  - by apply with_lifecycle_wf, with_tasks_wf.
  - by apply with_lifecycle_wf, with_tasks_wf.
  - unfold on_connect. by repeat case_match.
  - unfold on_line. pose proof (keeps_state _ _ _ (dispatch_keeps c now line (peer_ip w)) Hs) as Hd.
    destruct (dispatch _ _ _ _ _) as [s r]. cbn in Hd. case_match; [done|by apply on_end_wf].
  - done.
  - by apply on_end_wf.
  - cbn. unfold iq_task_turn. pose proof (keeps_state _ _ _ (iq_loop_turn_keeps c) Hs) as Hd.
    destruct (iq_loop_turn c _) as [s' [[]|e]]; [done|by apply with_tasks_wf].
  - cbn. unfold psd_task_turn. pose proof (keeps_state _ _ _ (psd_loop_turn_keeps now) Hs) as Hd.
    destruct (psd_loop_turn now _) as [s' [[]|e]]; [done|by apply with_tasks_wf].
  - cbn. unfold status_task_turn. pose proof (keeps_state _ _ _ (status_loop_turn_keeps c now) Hs) as Hd.
    destruct (status_loop_turn c now _) as [s' [?|e]]; [done|by apply with_lifecycle_wf].
  - cbn. unfold orphan_task_turn. pose proof (keeps_state _ _ _ (status_loop_turn_keeps c now) Hs) as Hd.
    destruct (status_loop_turn c now _) as [s' [?|e]]; [done|by apply with_orphans_wf].
Qed.

Lemma status_object_ok now s t :
  server_wf s -> device_time_ms now s = Ok t -> exists d, (status_object c now s).2 = Ok d.
Proof.
  intros Hs Ht. destruct (wf_psd_config s Hs) as (p & on & _ & Hcfg).
  unfold status_object, as_int; open_M. cbn.
  change (device_time_ms now (with_status_seq (fs_status_seq s + 1) s)) with (device_time_ms now s). rewrite Ht, Hcfg.
  cbn. by eexists.
Qed.

Lemma phase_step_supported freq rate : rate ∈ 1000000 :: IQ_RATES -> exists step, phase_step freq rate = Ok step.
Proof.
  unfold IQ_RATES. intros Hr. unfold phase_step, float_div.
  repeat (apply elem_of_cons in Hr as [->|Hr]; [by eexists|]). by apply not_elem_of_nil in Hr.
Qed.

(** C12: Types and enforced ranges in every reachable state.  However clients
    connect, leave and send lines, and however the sender loops interleave with
    them, raising or not: the two streams 0 and 1 exist, with their ids, 32-bit
    sequence numbers, 64-bit timestamps, counters and an oscillator of a
    supported rate; the PSD configuration has exactly its ten entries with their
    types, source, range, bins and frame rate within the checked limits and
    equal enable flags; the front end has an attenuation of 0, 10, 20 or 30 dB
    and a known LNA state; counters are not negative.  Hence a status object can
    always be built at a representable time, the sender's settings always
    convert, and the signal generator never divides by zero.  A stream's own
    sample rate, frequency and bandwidth, the UDP ports, [psd_id] and [fft_size]
    are not in this list: they are stored unchecked. *)
Theorem reachable_typed (boot : float) (g : rng) (x : World rng) :
  reachable c peer_ip boot g x ->
  server_wf (w_server x) /\
  (forall now t, device_time_ms now (w_server x) = Ok t -> exists d, (status_object c now (w_server x)).2 = Ok d) /\
  (forall k, k ∈ ["psd_id"; "output_bins"; "start_frequency_hz"; "stop_frequency_hz"; "fft_size"; "fps"]%string ->
     exists z, (pitem k (fs_psd_config (w_server x)) ≫= py_int) = Ok z) /\
  (forall i st freq, dget i (fs_streams (w_server x)) = Some st ->
     exists step, phase_step freq (osc_sample_rate_hz (sm_oscillator st)) = Ok step).
Proof.
  intros Hreach.
  assert (server_wf (w_server x)) as Hwf.
  { apply (rtc_invariant _ (fun x => server_wf (w_server x)) _ _ world_step_wf Hreach), server_init_wf. }
  split_and!; [done|intros; by eapply status_object_ok| |].
  2: { intros i st freq Hst. by apply phase_step_supported, (wf_stream _ Hwf i st Hst). }
  intros k Hk. destruct (wf_psd_config _ Hwf) as (p & on & _ & ->).
  repeat (apply elem_of_cons in Hk as [->|Hk]; [by eexists|]). by apply not_elem_of_nil in Hk.
Qed.
End Types.

Lemma reachable_typed_witness :
  let x := on_end 1 (on_connect 2 (on_connect 1 (with_server (start sample_server) (world_init (f_of_Z 0) tt)))) in
  server_wf (w_server x) /\
  (exists d, (status_object fake_config_default (f_of_Z 1) (w_server x)).2 = Ok d).
Proof.
  destruct (reachable_typed (SignalEnv0 := constant_env) fake_config_default localhost (f_of_Z 0) tt
    (on_end 1 (on_connect 2 (on_connect 1 (with_server (start sample_server) (world_init (f_of_Z 0) tt)))))) as (H1 & H2 & _).
  - eapply rtc_l; [by apply step_start|].
    eapply rtc_l; [apply (step_connect _ _ _ 1); [done|set_solver..]|].
    eapply rtc_l; [apply (step_connect _ _ _ 2); [done|set_solver..]|].
    eapply rtc_l; [apply (step_end _ _ _ 1); cbn; set_solver|]. apply rtc_refl.
  - split; [exact H1|]. apply (H2 (f_of_Z 1) 1000). by vm_compute.
Defined.
