(* ===== verification/Lifecycle.v ===== *)
(** The life cycle of the simulated device: what [start] and [stop] of
    [simulator/fake_ac920/server.py] mean for the datagrams it sends.

    The commands and the sender loops never touch the listening socket, the
    status task or the UDP socket; that is shown once, for every predicate on
    the state that the attribute updates keep ([stable]). *)

From Stdlib Require Import ZArith SpecFloat Lia Strings.Byte.
From stdpp Require Import base list sets strings relations.
From S2P Require Import Prelude PyFloat PyValue Json Control Packets SignalGen FakeServer ServerSpec.

Open Scope Z_scope.

Section Stable.
Context {rng : Type} `{!SignalEnv rng}.
Abbreviation server := (FakeServer rng).

(** ** Predicates every handler keeps *)

Record stable (P : server -> Prop) : Prop := {
  stable_dests a b c s : P s -> P (with_dests a b c s);
  stable_status_seq n s : P s -> P (with_status_seq n s);
  stable_tasks tx psd s : P s -> P (with_tasks tx psd s);
  stable_psd cfg seq first s : P s -> P (with_psd cfg seq first s);
  stable_frontend f s : P s -> P (with_frontend f s);
  stable_streams ss s : P s -> P (with_fs_streams ss s);
  stable_tx iq psd g s : P s -> P (with_tx iq psd g (fs_outbox s) s);
  stable_sendto data d s : P s -> P (sendto data d s).1;
}.

Lemma holds_sendto P data d : stable P -> holds P (sendto data d).
Proof.
  intros HP s Hs. pose proof (stable_sendto P HP data d s Hs) as H.
  by destruct (sendto data d s) as [s' [[]|e]].
Qed.

Context (P : server -> Prop) (HP : stable P).

Create HintDb stable.
#[local] Hint Resolve holds_sendto : stable.
#[local] Hint Extern 1 (P _) =>
  first [ apply (stable_dests P HP) | apply (stable_status_seq P HP) | apply (stable_tasks P HP)
        | apply (stable_psd P HP) | apply (stable_frontend P HP) | apply (stable_streams P HP) ] : stable.

Lemma put_stream_stable i st s : P s -> P (put_stream i st s).
Proof. unfold put_stream. auto with stable. Qed.
Lemma stop_all_stable s : P s -> P (stop_all s).
Proof. unfold stop_all. auto with stable. Qed.
Lemma count_iq_stable s : P s -> P (count_iq_packet s).
Proof. apply (stable_tx P HP). Qed.
Lemma count_psd_stable s : P s -> P (count_psd_packet s).
Proof. apply (stable_tx P HP). Qed.
Lemma with_random_stable g s : P s -> P (with_random g s).
Proof. apply (stable_tx P HP). Qed.
#[local] Hint Resolve put_stream_stable stop_all_stable count_iq_stable count_psd_stable with_random_stable : stable.

(** Walks through a handler, both ways at every test. *)
Ltac walk :=
  repeat first
    [ progress cbv zeta
    | solve [auto with stable holds]
    | apply holds_modify; intros; solve [auto 6 with stable]
    | apply holds_bind; [|intros ?]
    | case_decide
    | case_match ].

Lemma as_int_stable v : holds P (as_int v).
Proof. apply holds_lift. Qed.
Lemma cfg_int_stable k cfg : holds P (cfg_int k cfg).
Proof. apply holds_lift. Qed.
#[local] Hint Resolve as_int_stable cfg_int_stable : stable.

(** ** Commands and loops *)

Lemma cmd_hello_stable rid request ip : holds P (cmd_hello rid request ip).
Proof. unfold cmd_hello. walk. Qed.

Lemma cmd_set_frontend_stable rid request : holds P (cmd_set_frontend rid request).
Proof. unfold cmd_set_frontend, frontend_attenuator, frontend_lna, set_frontend_key. walk. Qed.

Lemma cmd_set_rx_stable rid request : holds P (cmd_set_rx rid request).
Proof. unfold cmd_set_rx, assign_rx. walk. Qed.

Lemma cmd_set_psd_stable rid request : holds P (cmd_set_psd rid request).
Proof. unfold cmd_set_psd. walk. Qed.

Lemma status_object_stable c now : holds P (status_object c now).
Proof. unfold status_object. walk. Qed.
#[local] Hint Resolve cmd_hello_stable cmd_set_frontend_stable cmd_set_rx_stable cmd_set_psd_stable status_object_stable : stable.

Lemma run_command_stable c now rid cmd request ip : holds P (run_command c now rid cmd request ip).
Proof. unfold run_command. walk. Qed.

Lemma dispatch_stable c now line ip : holds P (dispatch c now line ip).
Proof.
  intros s Hs. unfold dispatch. destruct (decode_json_line line) as [request|]; [|done].
  cbv zeta. destruct (negb _); [done|]. destruct (pget "cmd" request); try done.
  pose proof (run_command_stable c now (pget "request_id" request) s0 request ip s Hs) as Hr.
  destruct (run_command _ _ _ _ _ _ _) as [s' [d|e]]; [done|]. by destruct (invalid_field_exn e).
Qed.

Lemma send_iq_all_stable c ids : holds P (send_iq_all c ids).
Proof. induction ids as [|i ids IH]; cbn [send_iq_all]; [walk|]. unfold send_iq_packet. walk. Qed.

Lemma iq_loop_turn_stable c : holds P (iq_loop_turn c).
Proof. pose proof send_iq_all_stable. unfold iq_loop_turn. walk. Qed.

Lemma send_psd_segments_stable now total n start stop spacing flags bins is_ :
  holds P (send_psd_segments now total n start stop spacing flags bins is_).
Proof. induction is_ as [|i is_ IH]; cbn [send_psd_segments]; [walk|]. unfold send_psd_segment. walk. Qed.

Lemma psd_loop_turn_stable now : holds P (psd_loop_turn now).
Proof. pose proof send_psd_segments_stable. unfold psd_loop_turn, send_psd_frame. walk. Qed.

Lemma status_loop_turn_stable c now : holds P (status_loop_turn c now).
Proof. unfold status_loop_turn. walk. Qed.

Lemma iq_task_turn_stable c s : P s -> P (iq_task_turn c s).
Proof.
  intros Hs. unfold iq_task_turn. pose proof (holds_state _ _ _ (iq_loop_turn_stable c) Hs) as Hd.
  destruct (iq_loop_turn c s) as [s' [|]]; auto with stable.
Qed.

Lemma psd_task_turn_stable now s : P s -> P (psd_task_turn now s).
Proof.
  intros Hs. unfold psd_task_turn. pose proof (holds_state _ _ _ (psd_loop_turn_stable now) Hs) as Hd.
  destruct (psd_loop_turn now s) as [s' [|]]; auto with stable.
Qed.

Lemma on_end_stable w (x : World rng) : P (w_server x) -> P (w_server (on_end w x)).
Proof. intros Hs. unfold on_end. case_decide; cbn; auto with stable. Qed.

Lemma on_line_stable c peer_ip now w line (x : World rng) :
  P (w_server x) -> P (w_server (on_line c peer_ip now w line x)).
Proof.
  intros Hs. unfold on_line. pose proof (holds_state _ _ _ (dispatch_stable c now line (peer_ip w)) Hs) as Hd.
  destruct (dispatch _ _ _ _ _) as [s r]. case_match; [done|by apply on_end_stable].
Qed.

(** A step that is not one of the life cycle's keeps [P]. *)
Lemma world_step_stable c peer_ip (x x' : World rng) :
  (forall s, P s -> P (start s) /\ P (close_server s) /\ P (cancel_and_close s) /\
     (forall tx psd st, P (resume_cancelled tx psd st s)) /\
     (forall now, fs_status_task s = TaskRunning -> P (status_task_turn c now s)) /\
     (forall now, P (orphan_task_turn c now s))) ->
  world_step c peer_ip x x' -> P (w_server x) -> P (w_server x').
Proof.
  intros Hlife Hstep Hs. destruct (Hlife _ Hs) as (H1 & H2 & H3 & H4 & H5 & H6).
  destruct Hstep as [?| |?|tx psd status|w ? ? ?|now w line ? ?|w|w ?|Ht|now Ht|now Ht|now Ht]; try (by cbn; auto).
  - unfold on_connect. by repeat case_match.
  - by apply on_line_stable.
  - by apply on_end_stable.
  - by apply iq_task_turn_stable.
  - by apply psd_task_turn_stable.
Qed.
End Stable.

(** ** [start] and [stop] *)

Section Lifecycle.
Context {rng : Type} `{!SignalEnv rng}.
Context (c : FakeAc920Config) (peer_ip : nat -> string).
Abbreviation server := (FakeServer rng).
Abbreviation world := (World rng).

(** The UDP socket is closed and [out] is all that was ever sent. *)
Definition silenced (out : list (dest * list byte)) (s : server) : Prop :=
  fs_udp_open s = false /\ fs_outbox s = out.

Lemma silenced_stable out : stable (silenced out).
Proof.
  split; try done.
  intros data d s [Ho Hs]. unfold sendto. rewrite Ho. by destruct (_ && _).
Qed.

Lemma silenced_step out (x x' : world) :
  world_step c peer_ip x x' -> silenced out (w_server x) -> silenced out (w_server x').
Proof.
  apply world_step_stable; [apply silenced_stable|]. intros s Hs. pose proof Hs as [Ho Hout].
  split_and!; [by split| |by split|by split| |].
  - unfold close_server. by case_match.
  - intros now _. unfold status_task_turn.
    pose proof (holds_state _ _ _ (status_loop_turn_stable _ (silenced_stable out) c now) Hs) as Hd.
    by destruct (status_loop_turn c now s) as [s' [|]].
  - intros now. unfold orphan_task_turn.
    pose proof (holds_state _ _ _ (status_loop_turn_stable _ (silenced_stable out) c now) Hs) as Hd.
    by destruct (status_loop_turn c now s) as [s' [|]].
Qed.

(** C13: After [stop] the device is silent for good.  Once [stop] has closed the
    UDP socket, no later event puts another datagram on the network: not the
    commands of clients that are still connected, although they can start the
    sender tasks again, not the loops, and not a second [start], since the
    socket is made in the constructor only. *)
Theorem stopped_device_silent (x x' : world) :
  rtc (world_step c peer_ip) (with_server (cancel_and_close (w_server x)) x) x' ->
  fs_outbox (w_server x') = fs_outbox (w_server x).
Proof.
  intros Hsteps.
  by apply (rtc_invariant _ (fun y => silenced (fs_outbox (w_server x)) (w_server y)) _ _ (silenced_step _)) in Hsteps
    as [_ H].
Qed.

(** *** The status task *)

(** The listening socket, the status task and the tasks left behind. *)
Definition at_stage (l : listener) (t : task) (n : nat) (s : server) : Prop :=
  fs_listener s = l /\ fs_status_task s = t /\ fs_status_orphans s = n.

Lemma at_stage_stable l t n : stable (at_stage l t n).
Proof.
  split; try done. intros data d s Hs. unfold sendto. by destruct (_ && _), (fs_udp_open s).
Qed.

(** A step that leaves the server listening. *)
Definition listening_step (x x' : world) : Prop :=
  world_step c peer_ip x x' /\ fs_listener (w_server x') = Listening.

(** While the server listens, nothing starts a status task that has ended, and
    none is left behind. *)
Lemma status_stays_done (x x' : world) :
  listening_step x x' -> fs_listener (w_server x) = Listening -> fs_status_task (w_server x) = TaskDone ->
  fs_status_task (w_server x') = TaskDone /\
  (fs_status_orphans (w_server x') <= fs_status_orphans (w_server x))%nat.
Proof.
  intros [Hstep Hl'] Hl Hd. set (n := fs_status_orphans (w_server x)).
  assert (at_stage Listening TaskDone n (w_server x)) as Hx by done.
  assert (at_stage Listening TaskDone n (w_server x') ->
    fs_status_task (w_server x') = TaskDone /\ (fs_status_orphans (w_server x') <= n)%nat) as Hgoal
    by (by intros (_ & -> & ->)).
  pose proof (at_stage_stable Listening TaskDone n) as HP.
  destruct Hstep as [?| |?|tx psd status|w ? ? ?|now w line ? ?|w|w ?|Ht|now Ht|now Ht|now Ht]; try congruence.
  - cbn in Hl'. unfold close_server in Hl'. by rewrite Hl in Hl'.
  - cbn. rewrite Hd. by destruct status.
  - unfold on_connect. by repeat case_match.
  - by apply Hgoal, (on_line_stable _ HP).
  - done.
  - by apply Hgoal, (on_end_stable _ HP).
  - by apply Hgoal, (iq_task_turn_stable _ HP).
  - by apply Hgoal, (psd_task_turn_stable _ HP).
  - cbn. unfold orphan_task_turn.
    pose proof (holds_state _ _ _ (status_loop_turn_stable _ HP c now) Hx) as (_ & Ht' & Hn).
    destruct (status_loop_turn c now (w_server x)) as [s' [|]]; cbn in *; split; (done || lia).
Qed.

Lemma status_turn_bad_port now (s : server) d :
  fs_udp_status_dest s = Some d -> ~ 0 <= d.2 <= 65535 -> fs_status_task (status_task_turn c now s) = TaskDone.
Proof.
  intros Hd Hp. unfold status_task_turn, status_loop_turn; open_M. rewrite Hd.
  destruct (status_object c now s) as [s1 [st|e]]; [|done]. unfold sendto.
  by replace ((0 <=? d.2) && (d.2 <=? 65535)) with false by lia.
Qed.

(** The listener does not change in a turn of the status loop. *)
Lemma status_turn_listener now (s : server) : fs_listener (status_task_turn c now s) = fs_listener s.
Proof.
  unfold status_task_turn.
  pose proof (holds_state _ _ s
    (status_loop_turn_stable _ (at_stage_stable (fs_listener s) (fs_status_task s) (fs_status_orphans s)) c now)) as Hd.
  destruct (status_loop_turn c now s) as [s' [|]]; by destruct Hd as (? & _).
Qed.

Definition hello_accepted (rid : pyval) : pydict :=
  build_response (Some rid) true
    [("protocol_version", PInt 1); ("device", PDict hello_device); ("limits", PDict hello_limits)]%string.

(** C38: One bad status port ends the status messages for every client.  A
    [hello] whose [status_port] is an integer but not a port number is accepted
    like any other; the next turn of the status loop then raises on the send
    and the status task ends.  As long as the server keeps listening nothing
    starts that task again, whichever clients leave, connect and say [hello]
    with valid ports afterwards, and the status tasks that an earlier [start]
    may have left behind, none in a server started once, do not become more. *)
Theorem bad_status_port_ends_status (rid : pyval) (request udp : pydict) (ip : string) (p1 p2 p3 : Z)
    (now : float) (s : server) (x x' : world) :
  py_eq_int (pget "protocol_version" request) 1 = true -> pget "udp" request = PDict udp ->
  pitem "iq_port" udp ≫= py_int = Ok p1 -> pitem "psd_port" udp ≫= py_int = Ok p2 ->
  pitem "status_port" udp ≫= py_int = Ok p3 -> ~ 0 <= p3 <= 65535 ->
  fs_listener s = Listening ->
  (cmd_hello rid request ip s).2 = Ok (hello_accepted rid) /\
  (w_server x = status_task_turn c now (cmd_hello rid request ip s).1 -> rtc listening_step x x' ->
   fs_status_task (w_server x') = TaskDone /\
   (fs_status_orphans (w_server x') <= fs_status_orphans (w_server x))%nat).
Proof.
  intros Hv Hu H1 H2 H3 Hp Hl. unfold cmd_hello. rewrite Hv, Hu. cbn [negb]. cbv zeta.
  rewrite H1, H2, H3. open_M. split; [done|]. cbn [fst]. set (s1 := with_dests _ _ _ _). intros Hx Hsteps.
  apply (rtc_invariant _ (fun y => fs_listener (w_server y) = Listening /\ fs_status_task (w_server y) = TaskDone /\
      (fs_status_orphans (w_server y) <= fs_status_orphans (w_server x))%nat)) in Hsteps as [_ H]; [exact H| |].
  - intros y z Hyz (Hy1 & Hy2 & Hy3). destruct (status_stays_done y z Hyz Hy1 Hy2) as [H4 H5].
    split_and!; [apply Hyz|done|lia].
  - rewrite Hx. split_and!; [by rewrite status_turn_listener|by eapply status_turn_bad_port|done].
Qed.
End Lifecycle.

(** *** Witnesses *)

Definition running_world : World unit := with_server (start sample_server) (world_init (f_of_Z 0) tt).

(** A client connects after the device was stopped, and then [start] is called
    again. *)
Lemma stopped_device_silent_witness :
  let x := with_server (close_server (w_server running_world)) running_world in
  let y := on_connect 1 (with_server (cancel_and_close (w_server x)) x) in
  fs_outbox (w_server (with_server (start (w_server y)) y)) = [].
Proof.
  apply (stopped_device_silent (SignalEnv0 := constant_env) fake_config_default localhost
           (with_server (close_server (w_server running_world)) running_world)).
  eapply rtc_l; [apply (step_connect _ _ _ 1); [done|apply not_elem_of_nil..]|].
  eapply rtc_l; [by apply step_start|]. apply rtc_refl.
Defined.

Definition bad_hello : pydict :=
  [("protocol_version", PInt 1);
   ("udp", PDict [("iq_port", PInt 9001); ("psd_port", PInt 9002); ("status_port", PInt 90003)])]%string.

(** The client with the bad port leaves and another one connects. *)
Lemma bad_status_port_ends_status_witness :
  let s := w_server running_world in
  let x := MkWorld (status_task_turn fake_config_default (f_of_Z 1)
                      (cmd_hello (PInt 1) bad_hello "10.0.0.2" s).1) (Some 1%nat) [1%nat] [] [] in
  (cmd_hello (PInt 1) bad_hello "10.0.0.2" s).2 = Ok (hello_accepted (PInt 1)) /\
  fs_status_task (w_server (on_connect 2 (on_end 1 x))) = TaskDone /\
  (fs_status_orphans (w_server (on_connect 2 (on_end 1 x))) <= fs_status_orphans (w_server x))%nat.
Proof.
  cbv zeta. set (s := w_server running_world).
  set (x := MkWorld (status_task_turn _ _ _) _ _ _ _).
  assert (fs_listener (w_server x) = Listening) as Hl by apply status_turn_listener.
  destruct (bad_status_port_ends_status (SignalEnv0 := constant_env) fake_config_default localhost (PInt 1) bad_hello
    [("iq_port", PInt 9001); ("psd_port", PInt 9002); ("status_port", PInt 90003)]%string "10.0.0.2" 9001 9002 90003
    (f_of_Z 1) s x (on_connect 2 (on_end 1 x))) as [H1 H2]; [reflexivity..|lia|reflexivity|].
  split; [exact H1|]. apply H2; [reflexivity|].
  eapply rtc_l; [split; [apply (step_end _ _ _ 1); by left|exact Hl]|].
  eapply rtc_l; [split; [apply (step_connect _ _ _ 2)|exact Hl]|apply rtc_refl].
  - change (fs_listener (w_server x) <> NotStarted). by rewrite Hl.
  - apply not_elem_of_nil.
  - cbn. set_solver.
Defined.
