(* ===== verification/ServerTx.v ===== *)
(** What the simulated device puts on the network: the numbering of IQ packets
    under deliberate drops, the cut of a PSD frame into segments, and what ends
    a sender task. *)

From Stdlib Require Import ZArith SpecFloat Lia Ascii String Strings.Byte.
From stdpp Require Import base list sets strings.
From S2P Require Import Prelude PyFloat PyValue Json Control Packets SignalGen SignalRange FakeServer ServerSpec.

Open Scope Z_scope.

(** ** IQ packets *)

Section Iq.
Context {rng : Type} `{!SignalEnv rng}.
Abbreviation server := (FakeServer rng).
Context (c : FakeAc920Config).

(** Settings that fit the header fields. *)
Definition sendable (st : StreamState) : Prop :=
  0 <= sm_stream_id st < 2 ^ 16 /\ 0 <= sm_frequency_hz st < 2 ^ 64 /\
  0 < sm_iq_sample_rate_hz st < 2 ^ 32 /\ 0 <= sm_bandwidth_hz st < 2 ^ 32 /\
  0 <= fc_sample_count c < 2 ^ 16.

Definition iq_delta (st : StreamState) : Z := 250000000 / sm_iq_sample_rate_hz st * fc_sample_count c.

(** The stream as it is before its packet number [k], its oscillator fit to go
    on. *)
Definition at_packet (k : Z) (st st' : StreamState) : Prop :=
  sm_stream_id st' = sm_stream_id st /\ sm_adc_channel st' = sm_adc_channel st /\
  sm_frequency_hz st' = sm_frequency_hz st /\ sm_mode st' = sm_mode st /\
  sm_iq_sample_rate_hz st' = sm_iq_sample_rate_hz st /\ sm_bandwidth_hz st' = sm_bandwidth_hz st /\
  sm_enabled st' = sm_enabled st /\
  sm_seq st' = k mod 2 ^ 32 /\ sm_adc_timestamp st' = (k * iq_delta st) mod 2 ^ 64 /\
  sm_first_packet st' = bool_decide (k = 0) /\ osc_ok (sm_oscillator st').

(** Header of packet [k] of the stream. *)
Definition numbered_header (st : StreamState) (k : Z) : SdrIqHeader :=
  iq_packet_header c
    (set_stream_tx (k mod 2 ^ 32) ((k * iq_delta st) mod 2 ^ 64) false 0 (sm_oscillator st) st)
    (packet_flags c (set_stream_tx 0 0 (bool_decide (k = 0)) 0 (sm_oscillator st) st))
    (250000000 / sm_iq_sample_rate_hz st) (4 * fc_sample_count c).

Lemma packet_flags_range st : 0 <= packet_flags c st < 2 ^ 16.
Proof.
  unfold packet_flags. destruct (sm_first_packet st), (fc_inject_adc_or c), (fc_inject_fifo_overflow c);
    vm_compute; done.
Qed.

Lemma numbered_header_wire st k : sendable st -> 0 <= k -> iq_wire_ok (numbered_header st k).
Proof.
  intros (H1 & H2 & H3 & H4 & H5) Hk. unfold iq_wire_ok, numbered_header, iq_packet_header. cbn -[Z.pow].
  pose proof (Z.mod_pos_bound k (2 ^ 32) ltac:(lia)).
  pose proof (Z.mod_pos_bound (k * iq_delta st) (2 ^ 64) ltac:(lia)).
  pose proof (packet_flags_range (set_stream_tx 0 0 (bool_decide (k = 0)) 0 (sm_oscillator st) st)).
  assert (0 <= 250000000 / sm_iq_sample_rate_hz st <= 250000000).
  { split; [apply Z.div_pos; lia|]. apply Z.div_le_upper_bound; [lia|]. nia. }
  split_and!; try done; lia.
Qed.

Lemma payload_length og og' iq payload :
  make_iq (rng := rng) (fc_scenario c) (fc_sample_count c) og = (og', Ok iq) -> complex_to_sc16 iq = Ok payload ->
  0 <= fc_sample_count c -> zlen payload = 4 * fc_sample_count c.
Proof.
  intros Hm Hp Hc. apply make_iq_length in Hm. unfold zlen. rewrite (sc16_length _ _ Hp). lia.
Qed.

(** The socket is open and can send to [d]. *)
Definition reaches (s : server) (d : dest) : Prop := 0 <= d.2 <= 65535 /\ fs_udp_open s = true.

Lemma sendto_ok (s : server) data d :
  reaches s d ->
  sendto data d s =
    (with_tx (fs_iq_packets_sent s) (fs_psd_packets_sent s) (fs_random s) (fs_outbox s ++ [(d, data)]) s, Ok tt).
Proof. intros [Hp Ho]. unfold sendto. rewrite Ho. by replace ((0 <=? d.2) && (d.2 <=? 65535)) with true by lia. Qed.

(** The datagram of packet [k]: its packed header and its samples. *)
Definition iq_datagram (st : StreamState) (d : dest) (k : Z) (out : dest * list byte) : Prop :=
  exists bytes payload, iq_pack (numbered_header st k) = Ok bytes /\
    zlen payload = 4 * fc_sample_count c /\ out = (d, bytes ++ payload).

Lemma numbered_header_eq base st k fifo o :
  at_packet k base st ->
  iq_packet_header c (set_stream_tx (sm_seq st) (sm_adc_timestamp st) false fifo o st) (packet_flags c st)
    (250000000 / sm_iq_sample_rate_hz st) (4 * fc_sample_count c) = numbered_header base k.
Proof.
  intros (H1 & H2 & H3 & H4 & H5 & H6 & H7 & H8 & H9 & H10 & _).
  unfold numbered_header, iq_packet_header, packet_flags. cbn -[Z.pow Z.div Z.modulo].
  by rewrite H1, H3, H5, H6, H8, H9, H10.
Qed.

Lemma next_seq k : mask32 (k mod 2 ^ 32 + 1) = (k + 1) mod 2 ^ 32.
Proof. by rewrite mask32_mod, Zplus_mod_idemp_l. Qed.

Lemma next_timestamp k d : mask64 ((k * d) mod 2 ^ 64 + d) = ((k + 1) * d) mod 2 ^ 64.
Proof. rewrite mask64_mod, Zplus_mod_idemp_l. f_equal. lia. Qed.

(** One packet: it is sent unless dropped, and the stream moves on to the next
    number either way. *)
Lemma send_iq_packet_ok `{!SignalLaws rng} (s : server) i base st k d :
  sendable base -> 0 <= k -> at_packet k base st -> fs_udp_dest s = Some d -> reaches s d ->
  exists st' g out,
    send_iq_packet c i st s =
      (put_stream i st'
         (with_tx (fs_iq_packets_sent s + 1) (fs_psd_packets_sent s) g (fs_outbox s ++ out) s), Ok tt) /\
    at_packet (k + 1) base st' /\
    if should_drop c (fs_iq_packets_sent s + 1) then out = []
    else exists x, out = [x] /\ iq_datagram base d k x.
Proof.
  intros Hs Hk Hat Hd Hport.
  pose proof Hat as (H1 & H2 & H3 & H4 & H5 & H6 & H7 & H8 & H9 & H10 & Ho).
  destruct (make_iq_delivers (fc_scenario c) (fc_sample_count c) (sm_oscillator st, fs_random s) Ho)
    as ([o g] & iq & payload & Hm & Hp & Ho').
  pose proof (payload_length _ _ _ _ Hm Hp ltac:(apply Hs)) as Hlen.
  assert (sm_iq_sample_rate_hz st <> 0) as Hrate by (rewrite H5; destruct Hs as (_ & _ & ? & _); lia).
  pose proof (proj2 (iq_pack_wire_ok _) (numbered_header_wire base k Hs Hk)) as Hpack.
  destruct (iq_pack (numbered_header base k)) as [bytes|] eqn:Hb; [clear Hpack|done].
  set (fifo := sm_fifo_overflow_count st + (if fc_inject_fifo_overflow c then 1 else 0)).
  exists (set_stream_tx ((k + 1) mod 2 ^ 32) (((k + 1) * iq_delta base) mod 2 ^ 64) false fifo o st), g,
    (if should_drop c (fs_iq_packets_sent s + 1) then [] else [(d, bytes ++ payload)]).
  split_and!; [|unfold at_packet; cbn -[Z.pow]; split_and!; try done; by rewrite bool_decide_false by lia|].
  2: { case_match; [done|]. eexists. split; [done|]. by exists bytes, payload. }
  unfold send_iq_packet. unfold mbind at 1, M_bind at 1, M_get at 1. rewrite Hm.
  open_M. rewrite Hp.
  set (st1 := set_stream_tx (sm_seq st) (sm_adc_timestamp st) (sm_first_packet st) (sm_fifo_overflow_count st) o st).
  change (packet_flags c st1) with (packet_flags c st).
  change (set_stream_tx (sm_seq st1) (sm_adc_timestamp st1) false
    (sm_fifo_overflow_count st1 + (if fc_inject_fifo_overflow c then 1 else 0)) o st1)
    with (set_stream_tx (sm_seq st) (sm_adc_timestamp st) false fifo o st).
  unfold decimation at 1. cbn [sm_iq_sample_rate_hz set_stream_tx]. rewrite decide_False by done.
  rewrite Hlen, (numbered_header_eq base st k fifo o Hat). unfold M_get.
  set (s1 := put_stream i (set_stream_tx _ _ false fifo o st) _).
  change (fs_iq_packets_sent (count_iq_packet s1)) with (fs_iq_packets_sent s + 1).
  change (fs_udp_dest (count_iq_packet s1)) with (fs_udp_dest s). rewrite Hd, H8, H9.
  assert (mask64 ((k * iq_delta base) mod 2 ^ 64 + iq_next_timestamp_delta (numbered_header base k)) =
    ((k + 1) * iq_delta base) mod 2 ^ 64) as Hts by apply next_timestamp.
  destruct (should_drop c (fs_iq_packets_sent s + 1)).
  - cbn [mret M_ret sm_seq sm_adc_timestamp set_stream_tx]. rewrite next_seq, Hts, app_nil_r. unfold s1, put_stream, with_fs_streams. cbn.
    by rewrite !dset_dset.
  - rewrite Hb, sendto_ok by done. cbn [sm_seq sm_adc_timestamp set_stream_tx]. rewrite next_seq, Hts. unfold s1, put_stream, with_fs_streams. cbn.
    by rewrite !dset_dset.
Qed.

(** The packet that is counted as number [count] is not dropped on purpose. *)
Definition survives (count : Z) : Prop := fc_drop_every c <= 0 \/ Z.rem count (fc_drop_every c) <> 0.

#[global] Instance survives_dec count : Decision (survives count).
Proof. unfold survives. apply _. Defined.

(** Of the packets [k], ..., [k + n - 1] of a stream those that are sent, when
    [sent0] packets were counted before its packet 0. *)
Definition kept (sent0 : Z) (k n : nat) : list Z :=
  filter (fun j => survives (sent0 + j + 1)) (Z.of_nat <$> seq k n).

Lemma should_drop_false sent :
  should_drop c sent = false <-> survives sent.
Proof.
  unfold should_drop, survives. rewrite andb_false_iff, Z.ltb_ge, Z.eqb_neq.
  destruct (Z.le_gt_cases (fc_drop_every c) 0) as [|Hd]; [tauto|].
  rewrite Z.rem_divide, Z.mod_divide by lia. intuition lia.
Qed.

Lemma send_iq_run `{!SignalLaws rng} n k sent0 (s : server) i base st d :
  sendable base -> at_packet (Z.of_nat k) base st -> dget i (fs_streams s) = Some st ->
  fs_iq_packets_sent s = sent0 + Z.of_nat k -> fs_udp_dest s = Some d -> reaches s d ->
  exists s' outs st',
    send_iq_all c (replicate n i) s = (s', Ok tt) /\ fs_outbox s' = fs_outbox s ++ outs /\
    Forall2 (iq_datagram base d) (kept sent0 k n) outs /\
    dget i (fs_streams s') = Some st' /\ at_packet (Z.of_nat (k + n)) base st' /\
    (forall j, j <> i -> dget j (fs_streams s') = dget j (fs_streams s)).
Proof.
  intros Hs. revert k s st. induction n as [|n IH]; intros k s st Hat Hi Hsent Hd Hport.
  - exists s, [], st. rewrite app_nil_r, Nat.add_0_r. split_and!; try done.
  - destruct (send_iq_packet_ok s i base st (Z.of_nat k) d) as (st1 & g & out & Hone & Hat1 & Hout); [(done || lia)..|].
    set (s1 := put_stream i st1 (with_tx (fs_iq_packets_sent s + 1) (fs_psd_packets_sent s) g (fs_outbox s ++ out) s)) in *.
    destruct (IH (S k) s1 st1) as (s' & outs & st' & Hrun & Hbox & Hall & Hi' & Hat' & Hother).
    { by replace (Z.of_nat (S k)) with (Z.of_nat k + 1) by lia. }
    { unfold s1. cbn. apply dget_dset_eq. }
    { unfold s1. cbn. lia. }
    { done. }
    { done. }
    exists s', (out ++ outs), st'. split_and!.
    + cbn [replicate send_iq_all]. unfold mbind at 1, M_bind at 1, M_get at 1. rewrite Hi.
      open_M. rewrite Hone. exact Hrun.
    + rewrite Hbox. unfold s1. cbn. by rewrite app_assoc.
    + unfold kept in *. cbn [seq]. rewrite fmap_cons, filter_cons. rewrite Hsent in Hout.
      case_decide as Hdrop.
      * apply should_drop_false in Hdrop. rewrite Hdrop in Hout. destruct Hout as (x & -> & Hx). by constructor.
      * destruct (should_drop c (sent0 + Z.of_nat k + 1)) eqn:Hd'; [by subst out|].
        by apply should_drop_false in Hd'.
    + done.
    + by replace (Z.of_nat (k + S n)) with (Z.of_nat (S k + n)) by lia.
    + intros j Hj. rewrite Hother by done. unfold s1. cbn. by apply dget_dset_ne.
Qed.

(** C15: Packet numbering under deliberate drops.  Start from a freshly enabled
    stream (sequence and timestamp 0, first-packet mark set, an oscillator with a
    positive rate and finite phases) with settings that fit the header and a
    destination, in any of the signal scenarios; of [math.sin], [math.cos] and
    [random.uniform] only their documented ranges are assumed.  Then [n] calls of the packet sender succeed and put on the network, in order,
    exactly the packets [k < n] whose running count is not a multiple of
    [drop_every]; packet [k] carries sequence [k mod 2^32], timestamp
    [k * decimation * sample_count mod 2^64], the discontinuity and
    configuration-changed flags iff [k = 0], and four payload bytes per sample.
    Dropped packets consume their numbers. *)
Theorem iq_stream_numbering `{!SignalLaws rng} (n : nat) (s : server) (i : Z) (st : StreamState) (d : dest) :
  sendable st -> at_packet 0 st st -> dget i (fs_streams s) = Some st ->
  fs_udp_dest s = Some d -> reaches s d ->
  exists s' outs st',
    send_iq_all c (replicate n i) s = (s', Ok tt) /\ fs_outbox s' = fs_outbox s ++ outs /\
    Forall2 (iq_datagram st d) (kept (fs_iq_packets_sent s) 0 n) outs /\
    dget i (fs_streams s') = Some st' /\ at_packet (Z.of_nat n) st st' /\
    (forall j, j <> i -> dget j (fs_streams s') = dget j (fs_streams s)).
Proof. intros. apply (send_iq_run n 0 (fs_iq_packets_sent s) s i st st d); try done. lia. Qed.

(** *** What ends the sender task *)

Lemma send_iq_packet_zero_rate (s : server) i st :
  sm_iq_sample_rate_hz st = 0 -> is_ok (send_iq_packet c i st s).2 = false.
Proof.
  intros Hr. unfold send_iq_packet; open_M.
  destruct (make_iq (fc_scenario c) (fc_sample_count c) (sm_oscillator st, fs_random s)) as [[o g] [iq|e]];
    unfold M_modify, M_lift; [|done].
  destruct (complex_to_sc16 iq); [|done]. unfold decimation. cbn. by rewrite Hr.
Qed.

(** Sending for one stream leaves the others alone. *)
Lemma send_iq_packet_other (s : server) i j st :
  j <> i -> dget j (fs_streams (send_iq_packet c i st s).1) = dget j (fs_streams s).
Proof.
  intros Hne. set (x := dget j (fs_streams s)).
  set (P := fun s : server => dget j (fs_streams s) = x).
  assert (forall A (m : M server A) (f : A -> M server unit), M_triple P m (fun _ => P) (fun _ => P) ->
    (forall a, M_triple P (f a) (fun _ => P) (fun _ => P)) -> M_triple P (m ≫= f) (fun _ => P) (fun _ => P)) as Hbind.
  { intros A m f Hm Hf. eapply triple_bind; [exact Hm|]. auto. }
  assert (forall st, M_triple P (M_modify (put_stream i st)) (fun _ => P) (fun _ => P)) as Hput.
  { intros st'. apply triple_modify. intros s0 Hs0. unfold P. cbn. by rewrite dget_dset_ne. }
  assert (forall A (r : res A), M_triple P (M_lift r) (fun _ => P) (fun _ => P)) as Hlift.
  { intros A r. apply triple_lift. intros s0 Hs0. by destruct r. }
  assert (M_triple P (send_iq_packet c i st) (fun _ => P) (fun _ => P)) as H.
  { unfold send_iq_packet. apply Hbind; [by apply triple_get|]. intros s0.
    destruct (make_iq _ _ _) as [[o g] r].
    apply Hbind; [apply triple_modify; intros s1 Hs1; unfold P; cbn; by rewrite dget_dset_ne|]. intros ?.
    apply Hbind; [done|]. intros iq. apply Hbind; [done|]. intros payload.
    apply Hbind; [done|]. intros ?. apply Hbind; [done|]. intros dec.
    apply Hbind; [by apply triple_modify|]. intros ?. apply Hbind; [by apply triple_get|]. intros s1.
    apply Hbind; [|done].
    destruct (should_drop _ _), (fs_udp_dest s1); try (by apply triple_ret).
    apply Hbind; [done|]. intros bytes s2 Hs2. unfold sendto. destruct (_ && _), (fs_udp_open s2); exact Hs2. }
  specialize (H s eq_refl). destruct (send_iq_packet c i st s) as [s' [|]]; done.
Qed.

Lemma send_iq_all_zero_rate ids (s : server) i st :
  i ∈ ids -> dget i (fs_streams s) = Some st -> sm_iq_sample_rate_hz st = 0 ->
  is_ok (send_iq_all c ids s).2 = false.
Proof.
  revert s. induction ids as [|j ids IH]; intros s Hin Hi Hr; [by apply not_elem_of_nil in Hin|].
  cbn [send_iq_all]. unfold mbind at 1, M_bind at 1, M_get at 1.
  destruct (decide (j = i)) as [->|Hne].
  - rewrite Hi. open_M. pose proof (send_iq_packet_zero_rate s i st Hr) as Hz.
    by destruct (send_iq_packet c i st s) as [s' [|]].
  - apply elem_of_cons in Hin as [->|Hin]; [done|]. open_M.
    destruct (dget j (fs_streams s)) as [st'|]; [|by apply IH].
    pose proof (send_iq_packet_other s j i st' ltac:(done)) as Ho.
    destruct (send_iq_packet c j st' s) as [s' [|]]; [|done]. apply IH; [done| |done]. cbn in Ho. congruence.
Qed.

(** C32: A rejected rate stops every IQ stream.  On an enabled stream, a [set_rx]
    asking for rate 0 is answered with [out_of_range] but stored; the next turn
    of the IQ loop with a destination then divides by it and the sender task
    ends, whatever the other streams are. *)
Theorem rejected_rate_ends_sender (rid : pyval) (request : pydict) (s : server) (i : Z) (st : StreamState)
    (adc freq bw : Z) (mode : string) (d : dest) :
  py_int (pget_def "stream_id" (PInt 0) request) = Ok i -> dget i (fs_streams s) = Some st ->
  wants_rx request st -> parse_rx request st = Ok (adc, freq, mode, 0, bw) ->
  sm_enabled st = true -> fs_udp_dest s = Some d ->
  (cmd_set_rx rid request s).2 =
    Ok (build_error (Some rid) "out_of_range" "unsupported iq_sample_rate_hz" []) /\
  fs_tx_task (iq_task_turn c (cmd_set_rx rid request s).1) = TaskDone.
Proof.
  intros Hi Hst Hw Hp Hen Hd.
  rewrite (cmd_set_rx_bad_rate rid request s i st adc freq mode 0 bw) by (done || unfold IQ_RATES; set_solver).
  split; [done|]. cbn [fst]. set (st1 := set_stream_fields adc freq mode 0 bw st). set (s1 := put_stream i st1 s).
  assert ((i, st1) ∈ active_streams s1) as Hact.
  { apply list_elem_of_filter. split; [change (Is_true (sm_enabled st)); by rewrite Hen|]. apply dget_Some_elem. apply dget_dset_eq. }
  unfold iq_task_turn, iq_loop_turn. unfold mbind at 1, M_bind at 1, M_get at 1.
  destruct (active_streams s1) as [|[k0 st0] active] eqn:Ha; [by apply not_elem_of_nil in Hact|].
  change (fs_udp_dest s1) with (fs_udp_dest s). rewrite Hd.
  pose proof (send_iq_all_zero_rate (((k0, st0) :: active).*1) s1 i st1) as Hz.
  open_M. destruct (send_iq_all c _ s1) as [s2 [|]]; [|done].
  exfalso. assert (is_ok (Ok tt) = false) as Hf; [|done].
  destruct a. apply Hz; [|apply dget_dset_eq|done]. apply (list_elem_of_fmap_2 fst _ (i, st1)), Hact.
Qed.
End Iq.

(** ** PSD frames *)

Definition f_magb (k : Z) (f : float) : bool :=
  match f with
  | S754_zero _ => true
  | S754_finite _ m e => Zdigits2 (Z.pos m) + e <=? k
  | _ => false
  end.

Lemma f_magb_spec k f : f_magb k f = true -> f_mag k f.
Proof. destruct f; cbn; try done. intros H. by apply Z.leb_le. Qed.

Lemma noise_floor_ok index : exists db, noise_floor index = Ok db /\ f_mag 9 db.
Proof.
  unfold noise_floor, float_div. change (f_is_zero (f_of_Z 31)) with false. cbn [mbind res_bind].
  eexists. split; [done|]. apply f_magb_spec.
  assert (forallb (fun k => f_magb 9 (f_add (f_opp (f_of_Z 96))
    (SFdiv f_prec f_emax (f_mul (f_of_Z 4) (f_of_Z k)) (f_of_Z 31)))) (zrange 31) = true) as Hall
    by (vm_compute; reflexivity).
  rewrite forallb_forall in Hall. apply Hall, list_elem_of_In, elem_of_zrange, Z.mod_pos_bound. lia.
Qed.

Lemma add_carriers_ok freq width cs db :
  f_unsigned width -> f_is_zero width = false -> f_mag 9 db ->
  exists db', add_carriers freq width cs db = Ok db' /\ f_mag 9 db'.
Proof.
  intros Hw Hz. revert db. induction cs as [|k cs IH]; intros db Hdb; cbn [add_carriers]; [by exists db|].
  unfold float_div. rewrite Hz. cbn [mbind res_bind]. apply IH.
  destruct (f_ltb _ _) eqn:Hlt; [|done]. apply f_max_mag; [done|].
  apply (f_mag_sub 7); [by vm_compute| |lia].
  apply (f_mag_mul 3 3); [|by vm_compute|lia].
  apply f_pos_lt5; [|done]. apply f_div_pos; [apply f_abs_unsigned|done].
Qed.

Lemma psd_bin_ok start stop index :
  500000 <= start -> stop <= 108000000 -> 100000 <= stop - start -> 0 <= index < 4096 ->
  exists z, psd_bin_q8 4096 start (stop - start) index = Ok z /\ - 2 ^ 15 <= z < 2 ^ 15.
Proof.
  intros H1 H2 H3 Hi. unfold psd_bin_q8, bin_frequency.
  rewrite !float_of_int_ok by lia. cbn [mbind res_bind]. unfold float_div at 1.
  change (f_is_zero (f_of_Z 4096)) with false. cbn [mbind res_bind].
  destruct (noise_floor_ok index) as (db & -> & Hdb). cbn [mbind res_bind].
  rewrite int_truediv_ok by lia. cbn [mbind res_bind].
  destruct (f_ratio_pos (stop - start) 4096) as [Hpos Hz]; [lia..|].
  match goal with |- context [add_carriers ?f _ _ _] =>
    destruct (add_carriers_ok f (f_ratio (stop - start) 4096) carriers db) as (db' & -> & Hdb') end;
    [by apply f_pos_unsigned|done|done|]. cbn [mbind res_bind].
  destruct (float_to_int_ok round_half_even 19 (f_mul db' (f_of_Z 256))) as (z & Hr).
  { apply (f_mag_mul 9 9); [done|by vm_compute|lia]. }
  unfold round_float. rewrite Hr. cbn [mbind res_bind]. eexists. split; [done|]. apply clamp16_range.
Qed.

(** Every bin of a frame within the band fits its 16 bits. *)
Lemma make_psd_bins_ok start stop :
  500000 <= start -> stop <= 108000000 -> 100000 <= stop - start ->
  exists bins, make_psd_bins_q8 4096 start stop = Ok bins /\ zlen bins = 4096 /\
    Forall (fun z => - 2 ^ 15 <= z < 2 ^ 15) bins.
Proof.
  intros H1 H2 H3. unfold make_psd_bins_q8.
  assert (forall l, Forall (fun i => 0 <= i < 4096) l ->
    exists bins, res_map (psd_bin_q8 4096 start (stop - start)) l = Ok bins /\
      Forall (fun z => - 2 ^ 15 <= z < 2 ^ 15) bins) as Hmap.
  { induction 1 as [|i l Hi _ (bins & Hb & Hr)]; [by exists []|].
    destruct (psd_bin_ok start stop i) as (z & Hz & Hzr); [done..|].
    exists (z :: bins). cbn [res_map]. rewrite Hz, Hb. split; [done|]. by constructor. }
  destruct (Hmap (zrange 4096)) as (bins & Hb & Hr).
  { apply Forall_forall. intros i. by rewrite elem_of_zrange. }
  exists bins. split_and!; [done| |done]. apply res_map_length in Hb. unfold zlen. rewrite Hb, zrange_length. lia.
Qed.

(** Dividing by the 4096 bins is exact, so the bin spacing is the span in
    millihertz over 4096, rounded once to the nearest integer, ties to even. *)
Lemma f_ratio_4096 a :
  0 < a < 2 ^ 53 ->
  let d := Zdigits2 a in
  f_ratio a 4096 = S754_finite false (Z.to_pos (a * 2 ^ (53 - d))) (d - 65) /\ 0 < d <= 53.
Proof.
  intros Ha d. assert (0 < d <= 53) as Hd.
  { unfold d. split; [rewrite Zdigits2_log2 by lia; pose proof (Z.log2_nonneg a); lia|]. apply Zdigits2_le; lia. }
  split; [|done]. unfold f_ratio.
  assert (forall X Y : float, match a with 0 => X | _ => Y end = Y) as -> by (destruct a; [lia|done|done]).
  replace (Z.abs a) with a by lia. replace (a <? 0) with false by lia.
  unfold SFdiv_core_binary. fold d. change (Zdigits2 4096) with 13.
  replace (Z.min (fexp f_prec f_emax (d + 0 - (13 + 0))) (0 - 0)) with (d - 66)
    by (unfold fexp, SpecFloat.emin, f_prec, f_emax; lia).
  destruct (0 - 0 - (d - 66)) as [|p|p] eqn:Hp; [lia| |lia].
  assert (IntDef.Z.div_eucl (Z.shiftl a (Z.pos p)) 4096 = (2 * (a * 2 ^ (53 - d)), 0)) as ->.
  { rewrite Z.shiftl_mul_pow2 by lia. replace (Z.pos p) with (13 + (53 - d)) by lia. rewrite Z.pow_add_r by lia.
    replace (a * (2 ^ 13 * 2 ^ (53 - d))) with (2 * (a * 2 ^ (53 - d)) * 4096) by lia.
    pose proof (Z.div_mul (2 * (a * 2 ^ (53 - d))) 4096 ltac:(lia)) as H1.
    pose proof (Z.mod_mul (2 * (a * 2 ^ (53 - d))) 4096 ltac:(lia)) as H2.
    unfold Z.div, Z.modulo in H1, H2. change IntDef.Z.div_eucl with Z.div_eucl.
    destruct (Z.div_eucl _ _). congruence. }
  unfold new_location. cbn [Z.even new_location_even Z.eqb].
  assert (0 < 2 ^ (53 - d)) by (apply Z.pow_pos_nonneg; lia).
  rewrite round_aux_exact; [f_equal; lia| |nia|lia].
  rewrite Zdigits2_mul_pow2 by lia. unfold d. lia.
Qed.

Lemma bin_spacing_exact a :
  0 < a < 2 ^ 53 -> round_float (f_ratio a 4096) = Ok (round_half_even a 4096).
Proof.
  intros Ha. destruct (f_ratio_4096 a Ha) as [-> Hd]. set (d := Zdigits2 a) in *.
  assert (0 < 2 ^ (53 - d)) by (apply Z.pow_pos_nonneg; lia).
  unfold round_float, float_to_int. rewrite Z2Pos.id by nia.
  replace (Z.max 0 (d - 65)) with 0 by lia. replace (Z.max 0 (- (d - 65))) with (12 + (53 - d)) by lia.
  rewrite Z.pow_add_r by lia. rewrite Z.mul_1_r, (Z.mul_comm a), (Z.mul_comm (2 ^ 12)).
  by rewrite round_half_even_scale by lia.
Qed.

Section Psd.
Context {rng : Type}.
Abbreviation server := (FakeServer rng).
Context (p : PsdRequest) (seq boot_flags spacing : Z) (bins : list Z) (ms : Z -> Z) (d : dest).

(** Header and payload of segment [i] of a frame. *)
Definition segment_header (i : Z) : SdrPsdHeader :=
  psd_packet_header (pr_psd_id p) seq (ms i * 250000) (pr_start p) spacing (pr_fft_size p) 4096 i 8
    bins_per_segment boot_flags 1024 (pr_stop p).

Definition segment_payload (i : Z) : list byte :=
  concat (i16_bytes <$> slice (i * bins_per_segment) (i * bins_per_segment + bins_per_segment) bins).

Definition segment_datagram (i : Z) (out : dest * list byte) : Prop :=
  exists bytes, psd_pack (segment_header i) = Ok bytes /\ out = (d, bytes ++ segment_payload i).

(** Settings and counters that fit the header fields. *)
Definition psd_sendable : Prop :=
  psd_settings_ok p /\ 0 <= pr_psd_id p < 2 ^ 16 /\ 0 <= pr_fft_size p < 2 ^ 32 /\
  0 <= seq < 2 ^ 32 /\ (boot_flags = 0 \/ boot_flags = SDR_PSD_FLAG_CONFIG_CHANGED) /\
  0 <= spacing < 2 ^ 64 /\ zlen bins = 4096 /\ forall i, 0 <= i < 8 -> 0 <= ms i * 250000 < 2 ^ 64.

Lemma i16_concat_length l : length (concat (i16_bytes <$> l)) = (2 * length l)%nat.
Proof. induction l as [|z l IH]; [done|]. rewrite fmap_cons. cbn [concat length]. rewrite length_app, i16_bytes_length, IH. lia. Qed.

Lemma segment_payload_length i : zlen bins = 4096 -> 0 <= i < 8 -> zlen (segment_payload i) = 1024.
Proof.
  unfold zlen, segment_payload, bins_per_segment. intros Hl Hi. rewrite i16_concat_length.
  unfold slice. rewrite length_take, length_drop. lia.
Qed.

Lemma segment_header_packs i : psd_sendable -> 0 <= i < 8 -> is_ok (psd_pack (segment_header i)) = true.
Proof.
  intros ((Hsrc & Hst & Hsp & Hspan & _) & Hid & Hfft & Hseq & Hfl & Hspc & _ & Hms) Hi.
  apply psd_pack_wire_ok. specialize (Hms i Hi).
  unfold psd_wire_ok, segment_header, psd_packet_header, bins_per_segment. cbn -[Z.pow Z.mul].
  assert (0 <= boot_flags < 2 ^ 16) by (destruct Hfl as [->| ->]; done).
  split_and!; try done; lia.
Qed.

(** What the segment loop reads of the device. *)
Definition psd_view (now : Z -> float) (s : server) : Prop :=
  fs_psd_config s = psd_applied p /\ fs_psd_frame_seq s = seq /\ fs_udp_psd_dest s = Some d /\
  forall i, 0 <= i < 8 -> device_time_ms (now i) s = Ok (ms i).

Lemma send_psd_segment_ok now (s : server) i :
  psd_sendable -> psd_view now s -> reaches s d -> 0 <= i < 8 ->
  exists out,
    send_psd_segment now 4096 8 (pr_start p) (pr_stop p) spacing boot_flags bins i s =
      (with_tx (fs_iq_packets_sent s) (fs_psd_packets_sent s + 1) (fs_random s) (fs_outbox s ++ [out]) s, Ok tt) /\
    segment_datagram i out.
Proof.
  intros Hs (Hcfg & Hseq & Hd & Hclk) Hport Hi.
  pose proof (segment_header_packs i Hs Hi) as Hpack.
  destruct (psd_pack (segment_header i)) as [bytes|] eqn:Hb; [|done].
  exists (d, bytes ++ segment_payload i). split; [|by exists bytes].
  unfold send_psd_segment, cfg_int; open_M. fold (segment_payload i).
  rewrite Hcfg, Hseq, Hd, (Hclk i Hi). unfold mbind, res_bind.
  change (pitem "psd_id" (psd_applied p)) with (Ok (PInt (pr_psd_id p))).
  change (pitem "fft_size" (psd_applied p)) with (Ok (PInt (pr_fft_size p))). cbn [py_int]. cbv zeta.
  assert (zlen (segment_payload i) = 1024) as -> by (apply segment_payload_length; [apply Hs|done]).
  fold (segment_header i). rewrite Hb, sendto_ok by done. done.
Qed.

Lemma send_psd_segments_ok now is_ (s : server) :
  psd_sendable -> psd_view now s -> reaches s d -> Forall (fun i => 0 <= i < 8) is_ ->
  exists outs,
    send_psd_segments now 4096 8 (pr_start p) (pr_stop p) spacing boot_flags bins is_ s =
      (with_tx (fs_iq_packets_sent s) (fs_psd_packets_sent s + zlen is_) (fs_random s) (fs_outbox s ++ outs) s,
       Ok tt) /\
    Forall2 segment_datagram is_ outs.
Proof.
  intros Hs Hv Hport His. revert s Hv Hport. induction His as [|i is_ Hi _ IH]; intros s Hv Hport.
  - exists []. rewrite app_nil_r. cbn. split; [|constructor]. rewrite Z.add_0_r. by destruct s.
  - destruct (send_psd_segment_ok now s i Hs Hv Hport Hi) as (out & Hone & Hout).
    destruct (IH (with_tx (fs_iq_packets_sent s) (fs_psd_packets_sent s + 1) (fs_random s) (fs_outbox s ++ [out]) s))
      as (outs & Hrest & Houts); [done..|].
    exists (out :: outs). split; [|by constructor]. cbn [send_psd_segments]. open_M.
    rewrite Hone, Hrest. cbn. unfold with_tx, zlen. cbn. rewrite <- app_assoc. cbn.
    by replace (fs_psd_packets_sent s + 1 + Z.of_nat (length is_))
      with (fs_psd_packets_sent s + Z.pos (Pos.of_succ_nat (length is_))) by lia.
Qed.
End Psd.

Section PsdFrame.
Context {rng : Type}.
Abbreviation server := (FakeServer rng).

(** A frame of configuration [p] sent in state [s]: its bins, and the eight
    datagrams added to the network. *)
Definition psd_frame_wire (now : Z -> float) (s : server) (p : PsdRequest) (ms : Z -> Z) (d : dest)
    (bins : list Z) (spacing : Z) (outs : list (dest * list byte)) : Prop :=
  let flags := if fs_psd_first_frame s then SDR_PSD_FLAG_CONFIG_CHANGED else 0 in
  make_psd_bins_q8 4096 (pr_start p) (pr_stop p) = Ok bins /\ zlen bins = 4096 /\
  Forall (fun z => - 2 ^ 15 <= z < 2 ^ 15) bins /\
  spacing = round_half_even ((pr_stop p - pr_start p) * 1000) 4096 /\
  psd_sendable p (fs_psd_frame_seq s) flags spacing bins ms /\
  Forall2 (segment_datagram p (fs_psd_frame_seq s) flags spacing bins ms d) (zrange 8) outs /\
  send_psd_frame now s =
    (with_psd (fs_psd_config s) ((fs_psd_frame_seq s + 1) mod 2 ^ 32) false
       (with_tx (fs_iq_packets_sent s) (fs_psd_packets_sent s + 8) (fs_random s) (fs_outbox s ++ outs) s),
     Ok tt).

(** When a frame can be sent: checked settings whose id and FFT size fit the
    header, a destination, a frame counter and a clock within range. *)
Definition psd_frame_ready (now : Z -> float) (s : server) (p : PsdRequest) (ms : Z -> Z) (d : dest) : Prop :=
  fs_psd_config s = psd_applied p /\ psd_settings_ok p /\
  0 <= pr_psd_id p < 2 ^ 16 /\ 0 <= pr_fft_size p < 2 ^ 32 /\ 0 <= fs_psd_frame_seq s < 2 ^ 32 /\
  fs_udp_psd_dest s = Some d /\ reaches s d /\
  forall i, 0 <= i < 8 -> device_time_ms (now i) s = Ok (ms i) /\ 0 <= ms i * 250000 < 2 ^ 64.

Lemma send_psd_frame_ok now s p ms d :
  psd_frame_ready now s p ms d -> exists bins spacing outs, psd_frame_wire now s p ms d bins spacing outs.
Proof.
  intros (Hcfg & Hp & Hid & Hfft & Hseq & Hd & Hport & Hclk). pose proof Hp as (_ & H1 & H2 & H3 & Hb & _).
  destruct (make_psd_bins_ok (pr_start p) (pr_stop p)) as (bins & Hbins & Hlen & Hrange); [done..|].
  pose proof (int_truediv_ok ((pr_stop p - pr_start p) * 1000) 4096 ltac:(lia) ltac:(lia)) as Hdiv.
  pose proof (f_ratio_mag ((pr_stop p - pr_start p) * 1000) 4096 40 ltac:(lia) ltac:(lia) ltac:(lia)) as Hmag.
  destruct (f_ratio_pos ((pr_stop p - pr_start p) * 1000) 4096 ltac:(lia) ltac:(lia)) as [Hpos _].
  pose proof (bin_spacing_exact ((pr_stop p - pr_start p) * 1000) ltac:(lia)) as Hsp.
  set (spacing := round_half_even ((pr_stop p - pr_start p) * 1000) 4096) in *.
  pose proof (round_float_bound _ _ _ Hmag (f_pos_unsigned _ Hpos) ltac:(lia) Hsp) as Hspb.
  set (flags := if fs_psd_first_frame s then SDR_PSD_FLAG_CONFIG_CHANGED else 0).
  assert (psd_sendable p (fs_psd_frame_seq s) flags spacing bins ms) as Hsend.
  { unfold psd_sendable. split_and!; try done; try lia.
    - unfold flags. case_match; auto.
    - intros i Hi. by apply Hclk. }
  set (s1 := with_psd (fs_psd_config s) (fs_psd_frame_seq s) false s).
  destruct (send_psd_segments_ok p (fs_psd_frame_seq s) flags spacing bins ms d now (zrange 8) s1)
    as (outs & Hrun & Houts); [done| |done| |].
  { split_and!; try done. intros i Hi. by apply Hclk. }
  { apply Forall_forall. intros i. by rewrite elem_of_zrange. }
  exists bins, spacing, outs. unfold psd_frame_wire. fold flags. split_and!; try done.
  unfold send_psd_frame, cfg_int. unfold mbind at 1, M_bind at 1, M_get at 1. rewrite Hcfg.
  change (pitem "output_bins" (psd_applied p)) with (Ok (PInt (pr_output_bins p))).
  change (pitem "start_frequency_hz" (psd_applied p)) with (Ok (PInt (pr_start p))).
  change (pitem "stop_frequency_hz" (psd_applied p)) with (Ok (PInt (pr_stop p))).
  unfold res_bind; open_M. cbn [py_int]. rewrite Hb, Hdiv.
  rewrite Hsp, Hbins. unfold M_modify. fold flags s1.
  change (4096 / bins_per_segment) with 8. rewrite Hrun. rewrite mask32_mod. cbn. by rewrite Hcfg.
Qed.

(** C17: A PSD frame on the wire.  With checked settings whose id and FFT size fit
    the header, a destination, a frame counter and a clock within range, sending
    a frame succeeds: it computes 4096 bins that all fit 16 bits and a bin
    spacing, the span in millihertz over 4096 rounded to the nearest integer (ties
    to even), and puts exactly eight datagrams on the network, segment 0 to 7,
    each a packed header that names the frame, its index, the count 8, its first
    bin and the spacing, followed by 512 bins; the first frame after [set_psd]
    carries the configuration-changed flag; the frame counter advances modulo
    2^32.  Segment [i] is stamped with the clock as read when that segment is
    built ([ms i] milliseconds), so the eight [adc_timestamp]s of a frame agree
    only if the clock does not advance meanwhile; the protocol document asks for
    one timestamp per frame. *)
Theorem psd_frame_sent (now : Z -> float) (s : server) (p : PsdRequest) (ms : Z -> Z) (d : dest) :
  psd_frame_ready now s p ms d -> exists bins spacing outs, psd_frame_wire now s p ms d bins spacing outs.
Proof. apply send_psd_frame_ok. Qed.
End PsdFrame.

(** *** Witnesses *)

(** Two samples of the default scenario per packet, every third packet dropped. *)
Definition sample_config : FakeAc920Config :=
  MkFakeConfig "127.0.0.1" 9000 "wfm_tone" 2 3 true false (f_of_dec 2 (-1)) (f_of_Z 1).

Definition owned_server : FakeServer unit :=
  with_dests (Some ("10.0.0.2"%string, 9001)) (Some ("10.0.0.2"%string, 9002)) None sample_server.

Lemma sample_sendable : sendable sample_config (new_stream 0).
Proof. unfold sendable. cbn. lia. Qed.

Lemma sample_fresh : at_packet sample_config 0 (new_stream 0) (new_stream 0).
Proof. unfold at_packet. split_and!; [reflexivity..|]. by apply new_oscillator_ok. Qed.

Lemma sample_kept : kept sample_config 0 0 5 = [0; 1; 3; 4].
Proof. reflexivity. Qed.

Lemma iq_stream_numbering_witness :
  exists s' outs st',
    send_iq_all (SignalEnv0 := constant_env) sample_config (replicate 5 0) owned_server = (s', Ok tt) /\
    fs_outbox s' = [] ++ outs /\
    Forall2 (iq_datagram sample_config (new_stream 0) ("10.0.0.2"%string, 9001)) [0; 1; 3; 4] outs /\
    dget 0 (fs_streams s') = Some st' /\ at_packet sample_config 5 (new_stream 0) st' /\
    (forall j, j <> 0 -> dget j (fs_streams s') = dget j (fs_streams owned_server)).
Proof.
  rewrite <- sample_kept.
  apply (iq_stream_numbering (SignalEnv0 := constant_env) (SignalLaws0 := constant_env_laws) sample_config 5 owned_server 0 (new_stream 0)
           ("10.0.0.2"%string, 9001)).
  - exact sample_sendable.
  - exact sample_fresh.
  - reflexivity.
  - reflexivity.
  - split; [cbn; lia|reflexivity].
Defined.

Definition sample_psd : PsdRequest := MkPsdRequest 3 "adc0" 88000000 108000000 16384 4096 10 "I16_DBFS_Q8".

Definition psd_server : FakeServer unit := with_psd (psd_applied sample_psd) (2 ^ 32 - 1) false owned_server.

Lemma sample_psd_ready :
  psd_frame_ready (fun _ => f_of_Z 1) psd_server sample_psd (fun _ => 1000) ("10.0.0.2"%string, 9002).
Proof.
  unfold psd_frame_ready, psd_settings_ok, reaches. cbn -[Z.pow device_time_ms].
  split_and!; try reflexivity; try lia. intros i _. split; [reflexivity|lia].
Qed.

Lemma psd_frame_sent_witness :
  exists bins spacing outs,
    psd_frame_wire (fun _ => f_of_Z 1) psd_server sample_psd (fun _ => 1000) ("10.0.0.2"%string, 9002)
      bins spacing outs.
Proof. apply psd_frame_sent. exact sample_psd_ready. Defined.

Definition streaming_server : FakeServer unit :=
  with_tasks TaskRunning TaskNone (put_stream 0 (set_stream_enabled true (new_stream 0)) owned_server).

Lemma rejected_rate_ends_sender_witness :
  (cmd_set_rx (PInt 9) [("iq_sample_rate_hz", PInt 0)]%string streaming_server).2 =
    Ok (build_error (Some (PInt 9)) "out_of_range" "unsupported iq_sample_rate_hz" []) /\
  fs_tx_task (iq_task_turn (SignalEnv0 := constant_env) sample_config
    (cmd_set_rx (PInt 9) [("iq_sample_rate_hz", PInt 0)]%string streaming_server).1) = TaskDone.
Proof.
  apply (rejected_rate_ends_sender (SignalEnv0 := constant_env) sample_config (PInt 9) _ streaming_server 0
           (set_stream_enabled true (new_stream 0)) 0 98500000 250000 "WFM" ("10.0.0.2"%string, 9001));
    reflexivity.
Defined.
