(* ===== verification/Golden.v ===== *)
(** The reference scripts of the FPGA simulation ([fpga/scripts/gen_vectors.py],
    [fpga/sim/golden/ddc_golden.py], [cic_golden.py] and [packet_check.py]).

    A script is its [main] after [argparse]: the parsed arguments are its
    parameters, what it prints and the files it writes are its state, an
    uncaught exception is an exception.  Creating directories and opening files
    is taken to succeed.  [math.sin], [math.log2] and the power with a negative
    exponent are the C library's and are parameters. *)

From Stdlib Require Import ZArith SpecFloat Lia Ascii String Strings.Byte.
From stdpp Require Import base list sets strings.
From S2P Require Import Prelude PyFloat PyValue Json Packets SignalGen.

Open Scope Z_scope.

(** ** A product with a factor of at most one *)

(** [-1 <= f <= 1]. *)
Definition f_unit (f : float) : Prop :=
  match f with
  | S754_zero _ => True
  | S754_finite _ m e => Z.pos m * 2 ^ Z.max 0 e <= 2 ^ Z.max 0 (- e)
  | _ => False
  end.

Lemma round_half_even_near num den a : 0 < den -> 0 <= num -> 2 * num < (2 * a + 1) * den -> round_half_even num den <= a.
Proof.
  intros Hd Hn Hlt. unfold round_half_even. pose proof (Z.div_mod num den ltac:(lia)) as Hdm.
  pose proof (Z.mod_pos_bound num den Hd). set (q := num / den) in *. set (r := num mod den) in *.
  destruct (Z.ltb_spec (2 * r) den); [nia|]. assert (q < a) by nia. repeat case_match; lia.
Qed.

(** The first rounding step of a product adds less than half a unit. *)
Lemma round_step_near m e a mrs e1 k :
  0 < m -> 0 <= a < 2 ^ 31 -> k = Z.max 0 (- e) -> m * 2 ^ (e + k) <= a * 2 ^ k ->
  shr_fexp f_prec f_emax m e loc_Exact = (mrs, e1) ->
  0 <= shr_m mrs /\ e <= e1 /\
  2 * (round_nearest_even (shr_m mrs) (loc_of_shr_record mrs) * 2 ^ (e1 + k)) < (2 * a + 1) * 2 ^ k.
Proof.
  intros Hm Ha Hk Hle Hs. assert (Hpk : 0 < 2 ^ k) by (apply Z.pow_pos_nonneg; lia).
  destruct (shr_fexp_scale m e loc_Exact mrs e1 ltac:(lia) Hs) as (H0 & He1 & Hsc).
  assert (Hdig : Zdigits2 m + e <= 31).
  { pose proof (Zdigits2_mul_pow2 m (e + k) ltac:(lia) ltac:(lia)) as Hd.
    assert (m * 2 ^ (e + k) < 2 ^ (31 + k)) by (rewrite (Z.pow_add_r 2 31 k) by lia; nia).
    pose proof (Zdigits2_le (m * 2 ^ (e + k)) (31 + k) ltac:(split; [apply Z.mul_nonneg_nonneg; [lia|apply Z.pow_nonneg; lia]|done]) ltac:(lia)). lia. }
  split_and!; [done|lia|]. destruct (decide (e1 = e)) as [->|Hne].
  - assert (Heq : round_nearest_even (shr_m mrs) (loc_of_shr_record mrs) = m).
    { revert Hs. unfold shr_fexp, shr. destruct (fexp f_prec f_emax (Zdigits2 m + e) - e) as [|p|p] eqn:Ef; intros Hs;
        pose proof (f_equal snd Hs); pose proof (f_equal fst Hs); simpl in *; subst mrs; cbn; try done. lia. }
    rewrite Heq. lia.
  - assert (Hk' : k = - e) by lia. pose proof (round_nearest_even_bound (shr_m mrs) (loc_of_shr_record mrs) H0) as Hr.
    assert (Hx : shr_m mrs * 2 ^ (e1 + k) <= a * 2 ^ k).
    { replace (e1 + k) with (e1 - e) by lia. replace (e + k) with 0 in Hle by lia. rewrite Z.pow_0_r in Hle. lia. }
    assert (Hu : 2 * 2 ^ (e1 + k) < 2 ^ k).
    { rewrite <- Z.pow_succ_r by lia. apply Z.pow_lt_mono_r; lia. }
    assert (0 < 2 ^ (e1 + k)) by (apply Z.pow_pos_nonneg; lia). nia.
Qed.

Lemma round_aux_near s m e a :
  0 < m -> 0 <= a < 2 ^ 31 -> m * 2 ^ Z.max 0 e <= a * 2 ^ Z.max 0 (- e) ->
  exists z, round_float (binary_round_aux f_prec f_emax s m e loc_Exact) = Ok z /\ - a <= z <= a.
Proof.
  intros Hm Ha Hle. set (k := Z.max 0 (- e)) in *. replace (Z.max 0 e) with (e + k) in Hle by lia.
  assert (Hpk : 0 < 2 ^ k) by (apply Z.pow_pos_nonneg; lia).
  unfold binary_round_aux. destruct (shr_fexp f_prec f_emax m e loc_Exact) as [mrs1 e1] eqn:H1.
  destruct (round_step_near m e a mrs1 e1 k Hm Ha ltac:(done) Hle H1) as (Hm1 & He1 & Hn).
  pose proof (round_nearest_even_bound (shr_m mrs1) (loc_of_shr_record mrs1) Hm1) as Hr.
  set (m2 := round_nearest_even _ _) in *.
  destruct (shr_fexp f_prec f_emax m2 e1 loc_Exact) as [mrs3 e3] eqn:H3.
  destruct (shr_fexp_scale m2 e1 loc_Exact mrs3 e3 ltac:(lia) H3) as (Hm3 & He3 & Hsc).
  destruct (shr_m mrs3) as [|p|p]; [exists 0; split; [done|lia]| |lia].
  assert (Hp : 2 * (Z.pos p * 2 ^ (e3 + k)) < (2 * a + 1) * 2 ^ k).
  { replace (e3 + k) with (e3 - e1 + (e1 + k)) by lia. rewrite Z.pow_add_r by lia.
    assert (0 < 2 ^ (e1 + k)) by (apply Z.pow_pos_nonneg; lia). nia. }
  assert (Hsmall : e3 + k < 32 + k).
  { apply (Z.pow_lt_mono_r_iff 2); [lia..|]. rewrite (Z.pow_add_r 2 32 k) by lia.
    assert (0 < 2 ^ (e3 + k)) by (apply Z.pow_pos_nonneg; lia). nia. }
  destruct (Z.leb_spec e3 (f_emax - f_prec)) as [_|Hbig]; [|unfold f_emax, f_prec in Hbig; lia].
  cbn [round_float]. unfold round_float. cbn [float_to_int].
  set (num := Z.pos p * 2 ^ Z.max 0 e3). set (den := 2 ^ Z.max 0 (- e3)).
  assert (Hden : 0 < den) by (apply Z.pow_pos_nonneg; lia).
  assert (Hnum : 0 <= num) by (apply Z.mul_nonneg_nonneg; [lia|apply Z.pow_nonneg; lia]).
  assert (Hfrac : num * 2 ^ k = Z.pos p * 2 ^ (e3 + k) * den).
  { unfold num, den. rewrite <- !Z.mul_assoc, <- !Z.pow_add_r by lia. do 2 f_equal. lia. }
  assert (Hv : round_half_even num den <= a) by (apply round_half_even_near; nia).
  pose proof (round_half_even_nonneg num den Hden Hnum).
  eexists. split; [done|]. destruct s; lia.
Qed.

(** [round(a * f)] for an [int] [a] and [-1 <= f <= 1]. *)
Lemma round_mul_unit a f :
  0 <= a < 2 ^ 31 -> f_unit f -> exists z, round_float (f_mul (f_of_Z a) f) = Ok z /\ - a <= z <= a.
Proof.
  intros Ha Hf. destruct (decide (a = 0)) as [->|Hne].
  { destruct f; cbn in Hf |- *; try done; exists 0; split; (done || lia). }
  destruct (f_of_Z_exact a ltac:(lia)) as [-> Hd]. set (d := Zdigits2 (Z.abs a)) in *.
  destruct f as [s|s| |s m e]; try done; [exists 0; split; [done|lia]|]. cbn [f_unit] in Hf.
  unfold f_mul, SFmul. replace (Z.abs a) with a by lia.
  assert (Hp53 : 0 < 2 ^ (53 - d)) by (apply Z.pow_pos_nonneg; lia).
  rewrite Pos2Z.inj_mul, Z2Pos.id by nia.
  apply round_aux_near; [nia|done|].
  set (k := Z.max 0 (- (d - 53 + e))). replace (Z.max 0 (d - 53 + e)) with (d - 53 + e + k) by lia.
  set (j := Z.max 0 (- e)) in *. replace (Z.max 0 e) with (e + j) in Hf by lia.
  apply (Z.mul_le_mono_pos_r _ _ (2 ^ j)); [apply Z.pow_pos_nonneg; lia|].
  transitivity (a * (Z.pos m * 2 ^ (e + j)) * 2 ^ k).
  - apply Z.eq_le_incl.
    replace (a * 2 ^ (53 - d) * Z.pos m * 2 ^ (d - 53 + e + k) * 2 ^ j)
      with (a * Z.pos m * (2 ^ (53 - d) * 2 ^ (d - 53 + e + k) * 2 ^ j)) by ring.
    replace (a * (Z.pos m * 2 ^ (e + j)) * 2 ^ k) with (a * Z.pos m * (2 ^ (e + j) * 2 ^ k)) by ring.
    rewrite <- !Z.pow_add_r by lia. do 2 f_equal. lia.
  - replace (a * 2 ^ k * 2 ^ j) with (a * 2 ^ j * 2 ^ k) by ring.
    apply Z.mul_le_mono_nonneg_r; [apply Z.pow_nonneg; lia|]. by apply Z.mul_le_mono_nonneg_l; [lia|].
Qed.

(** ** [gen_vectors.py] *)

(** [1 << n]. *)
Definition int_shl1 (n : Z) : res Z := if n <? 0 then raise ValueError "negative shift count" else Ok (2 ^ n).

Definition twos (value width : Z) : res Z :=
  m ← int_shl1 width;
  Ok (Z.land value (m - 1)).

(** [f"{n:0{w}x}"] for [0 <= n]. *)
Definition hex_pad (w n : Z) : text :=
  let ds := hex_digits (S (Z.to_nat (Z.log2 n))) n [] in
  replicate (Z.to_nat w - length ds) "0"%char ++ ds.

Definition vector_line (width value : Z) : res text :=
  u ← twos value width;
  Ok (hex_pad ((width + 3) / 4) u ++ [nl_char]).

Definition tones : list (string * float) :=
  [("tone_1mhz.hex", f_of_Z 1000000); ("tone_10mhz.hex", f_of_Z 10000000); ("tone_98p5mhz.hex", f_of_Z 98500000)]%string.

Definition vector_amp (width : Z) : res Z :=
  full ← int_shl1 (width - 1);
  x ← float_of_int full;
  int_of_float (f_mul x (f_of_dec 65 (-2))).

(** The files written so far, by name. *)
Abbreviation files := (list (string * text)).

Definition open_w (name : string) : M files unit := M_modify (dset name []).

Definition file_write (name : string) (line : text) : M files unit :=
  M_modify (fun fs => dset name (default [] (dget name fs) ++ line) fs).

(** [for n in ns: f.write(line(value(n)))]. *)
Fixpoint write_vectors (name : string) (width : Z) (value : Z -> res Z) (ns : list Z) : M files unit :=
  match ns with
  | [] => mret tt
  | n :: ns' =>
      v ← M_lift (value n);
      line ← M_lift (vector_line width v);
      file_write name line ;;
      write_vectors name width value ns'
  end.

Section GenVectors.
Context (math_sin : float -> res float).

Definition tone_value (amp : Z) (freq fs : float) (n : Z) : res Z :=
  count ← float_of_int n;
  x ← float_div (f_mul (f_mul (f_mul (f_of_Z 2) math_pi) freq) count) fs;
  y ← math_sin x;
  a ← float_of_int amp;
  round_float (f_mul a y).

Definition impulse_value (amp n : Z) : res Z := Ok (if n =? 0 then amp else 0).

Definition write_file (name : string) (width : Z) (value : Z -> res Z) (samples : Z) : M files unit :=
  open_w name ;; write_vectors name width value (zrange samples).

Fixpoint write_tones (ts : list (string * float)) (amp : Z) (fs : float) (samples width : Z) : M files unit :=
  match ts with
  | [] => mret tt
  | (name, freq) :: ts' =>
      write_file name width (tone_value amp freq fs) samples ;; write_tones ts' amp fs samples width
  end.

Definition gen_vectors (fs : float) (samples width : Z) : M files unit :=
  amp ← M_lift (vector_amp width);
  write_tones tones amp fs samples width ;;
  write_file "impulse.hex" width (impulse_value amp) samples.
End GenVectors.

(** ** Reading the vectors back

    What a testbench does with a file of [width]-bit words: one word of a fixed
    number of digits per line, sign-extended. *)

Fixpoint hex_acc (v : Z) (l : text) : option Z :=
  match l with
  | [] => Some v
  | c :: l' => d ← hex_val c; hex_acc (16 * v + d) l'
  end.

Definition sign_extend (width u : Z) : Z := if u <? 2 ^ (width - 1) then u else u - 2 ^ width.

Fixpoint read_vectors (width : Z) (cur : text) (l : text) : option (list Z) :=
  match l with
  | [] => match cur with [] => Some [] | _ => None end
  | c :: l' =>
      if Ascii.eqb c nl_char then
        if Z.of_nat (length cur) =? (width + 3) / 4 then
          u ← hex_acc 0 cur; rest ← read_vectors width [] l'; Some (sign_extend width u :: rest)
        else None
      else read_vectors width (cur ++ [c]) l'
  end.

Lemma hex_val_digit d : 0 <= d < 16 -> hex_val (hex_digit d) = Some d.
Proof.
  intros Hd. assert (Hall : forallb (fun i => bool_decide (hex_val (hex_digit i) = Some i)) (zrange 16)) by done.
  apply Is_true_true, forallb_forall with (x := d) in Hall; [by apply bool_decide_eq_true in Hall|].
  apply list_elem_of_In, elem_of_zrange. lia.
Qed.

Lemma hex_digits_value fuel n acc :
  0 <= n < 16 ^ Z.of_nat fuel -> hex_acc 0 (hex_digits fuel n acc) = hex_acc n acc.
Proof.
  revert n acc; induction fuel as [|fuel IH]; intros n acc Hn; [by replace n with 0 by (cbn in Hn; lia)|].
  rewrite Nat2Z.inj_succ, Z.pow_succ_r in Hn by lia. cbn [hex_digits].
  pose proof (Z.div_mod n 16 ltac:(lia)). pose proof (Z.mod_pos_bound n 16 ltac:(lia)).
  destruct (Z.ltb_spec n 16).
  - cbn. rewrite hex_val_digit by lia. cbn. f_equal. rewrite Z.mod_small; lia.
  - rewrite IH by lia. cbn [hex_acc]. rewrite hex_val_digit by lia. cbn. f_equal. lia.
Qed.

Lemma hex_digits_length fuel n acc (w : nat) :
  0 <= n < 16 ^ Z.of_nat w -> (1 <= w)%nat -> (length (hex_digits fuel n acc) <= w + length acc)%nat.
Proof.
  revert n acc w; induction fuel as [|fuel IH]; intros n acc w Hn Hw; cbn [hex_digits]; [lia|].
  destruct (Z.ltb_spec n 16); [cbn; lia|]. destruct w as [|[|w]]; [lia|cbn in Hn; lia|].
  rewrite Nat2Z.inj_succ, Z.pow_succ_r in Hn by lia. pose proof (Z.div_mod n 16 ltac:(lia)).
  pose proof (Z.mod_pos_bound n 16 ltac:(lia)).
  pose proof (IH (n / 16) (hex_digit (n mod 16) :: acc) (S w) ltac:(lia) ltac:(lia)) as H'. cbn in H'. lia.
Qed.

Lemma hex_acc_zeros k l : hex_acc 0 (replicate k "0"%char ++ l) = hex_acc 0 l.
Proof. induction k as [|k IH]; [done|]. cbn. apply IH. Qed.

Lemma hex_pad_spec w n :
  1 <= w -> 0 <= n < 16 ^ w -> hex_acc 0 (hex_pad w n) = Some n /\ Z.of_nat (length (hex_pad w n)) = w.
Proof.
  intros Hw Hn. unfold hex_pad. set (ds := hex_digits _ n []). split.
  - rewrite hex_acc_zeros. unfold ds. rewrite hex_digits_value; [done|]. split; [lia|].
    rewrite Nat2Z.inj_succ, Z2Nat.id by apply Z.log2_nonneg.
    destruct (decide (n = 0)) as [->|]; [apply Z.pow_pos_nonneg; [lia|cbn; lia]|].
    destruct (Z.log2_spec n ltac:(lia)) as [_ Hlt]. eapply Z.lt_le_trans; [exact Hlt|].
    apply Z.pow_le_mono_l. lia.
  - pose proof (hex_digits_length (S (Z.to_nat (Z.log2 n))) n [] (Z.to_nat w)) as Hl. fold ds in Hl. cbn [length] in Hl.
    rewrite length_app, length_replicate. rewrite Z2Nat.id in Hl by lia. lia.
Qed.

Lemma hex_acc_no_nl v l u : hex_acc v l = Some u -> nl_char ∉ l.
Proof.
  revert v; induction l as [|c l IH]; intros v; [by intros _ ?%not_elem_of_nil|]. cbn.
  destruct (hex_val c) as [d|] eqn:Hc; [|done]. intros Hl [<-|Hin]%elem_of_cons; [done|]. by eapply IH.
Qed.

Lemma read_vectors_line width cur line l :
  nl_char ∉ line -> read_vectors width cur (line ++ nl_char :: l) = read_vectors width (cur ++ line) (nl_char :: l).
Proof.
  revert cur; induction line as [|c line IH]; intros cur Hn; [by rewrite app_nil_r|].
  apply not_elem_of_cons in Hn as [Hc Hn]. cbn [app read_vectors].
  destruct (Ascii.eqb_spec c nl_char); [congruence|]. rewrite IH by done. by rewrite <- app_assoc.
Qed.

Definition in_width (width v : Z) : Prop := - 2 ^ (width - 1) <= v < 2 ^ (width - 1).

Lemma twos_extend width v :
  1 <= width -> in_width width v -> exists u, twos v width = Ok u /\ 0 <= u < 2 ^ width /\ sign_extend width u = v.
Proof.
  intros Hw [Hlo Hhi]. unfold twos, int_shl1. destruct (Z.ltb_spec width 0); [lia|]. cbn.
  rewrite Z.sub_1_r, <- Z.ones_equiv, Z.land_ones by lia. eexists. split; [done|].
  assert (Hp : 2 ^ width = 2 * 2 ^ (width - 1)) by (rewrite <- Z.pow_succ_r by lia; f_equal; lia).
  split; [apply Z.mod_pos_bound; lia|]. unfold sign_extend.
  destruct (Z.leb_spec 0 v).
  - rewrite Z.mod_small by lia. destruct (Z.ltb_spec v (2 ^ (width - 1))); lia.
  - replace (v mod 2 ^ width) with (v + 2 ^ width).
    + destruct (Z.ltb_spec (v + 2 ^ width) (2 ^ (width - 1))); lia.
    + apply Z.mod_unique with (-1); lia.
Qed.

Lemma vector_line_reads width v :
  1 <= width -> in_width width v ->
  exists line, vector_line width v = Ok line /\
    forall l, read_vectors width [] (line ++ l) = rest ← read_vectors width [] l; Some (v :: rest).
Proof.
  intros Hw Hv. destruct (twos_extend width v Hw Hv) as (u & Hu & Hr & Hx). unfold vector_line. rewrite Hu. cbn.
  eexists. split; [done|]. intros l. set (k := (width + 3) / 4).
  assert (Hk : width <= 4 * k /\ 1 <= k).
  { unfold k. pose proof (Z.div_mod (width + 3) 4 ltac:(lia)). pose proof (Z.mod_pos_bound (width + 3) 4 ltac:(lia)). lia. }
  assert (Hu16 : 0 <= u < 16 ^ k).
  { split; [lia|]. eapply Z.lt_le_trans; [apply Hr|]. change 16 with (2 ^ 4). rewrite <- Z.pow_mul_r by lia.
    apply Z.pow_le_mono_r; lia. }
  destruct (hex_pad_spec k u ltac:(lia) Hu16) as [Hval Hlen].
  rewrite <- app_assoc. cbn [app]. rewrite read_vectors_line by (by eapply hex_acc_no_nl). cbn [app read_vectors].
  rewrite Ascii.eqb_refl. fold k. rewrite Hlen, Z.eqb_refl, Hval. cbn. by rewrite Hx.
Qed.

(** What a run of [write_vectors] leaves in the file. *)
Lemma write_vectors_spec name width value ns s text0 :
  1 <= width -> (forall n v, n ∈ ns -> value n = Ok v -> in_width width v) -> dget name s = Some text0 ->
  match write_vectors name width value ns s with
  | (s', Ok _) =>
      exists vs lines, res_map value ns = Ok vs /\ dget name s' = Some (text0 ++ lines) /\
        read_vectors width [] lines = Some vs /\ (forall name', name' <> name -> dget name' s' = dget name' s)
  | (s', Raise e) => exists n, n ∈ ns /\ value n = Raise e
  end.
Proof.
  intros Hw. revert s text0; induction ns as [|n ns IH]; intros s text0 Hv Hs; cbn.
  { exists [], []. by rewrite app_nil_r. }
  open_M. destruct (value n) as [v|e] eqn:En; [|exists n; split; [left|done]].
  destruct (vector_line_reads width v Hw) as (line & -> & Hread); [apply (Hv n); [left|done]|].
  cbn. rewrite Hs. cbn.
  specialize (IH (dset name (text0 ++ line) s) (text0 ++ line)).
  destruct (write_vectors name width value ns _) as [s' [[]|e]].
  - destruct IH as (vs & lines & Hvs & Hg & Hr & Hne); [intros; eapply Hv; [by right|done]|apply dget_dset_eq|].
    exists (v :: vs), (line ++ lines). rewrite Hvs, Hg, Hread, Hr, app_assoc. cbn. split_and!; try done.
    intros name' Hn'. rewrite Hne, dget_dset_ne by done. done.
  - destruct IH as (n' & Hn' & He); [intros; eapply Hv; [by right|done]|apply dget_dset_eq|].
    exists n'. split; [by right|done].
Qed.

(** A file holds the values of [value], readable as [width]-bit words. *)
Definition holds_vectors (fs : files) (width : Z) (value : Z -> res Z) (samples : Z) (name : string) : Prop :=
  exists vs lines, res_map value (zrange samples) = Ok vs /\ dget name fs = Some lines /\
    read_vectors width [] lines = Some vs.

Lemma write_file_spec name width value samples s :
  1 <= width -> (forall n v, 0 <= n < samples -> value n = Ok v -> in_width width v) ->
  match write_file name width value samples s with
  | (s', Ok _) => holds_vectors s' width value samples name /\ (forall name', name' <> name -> dget name' s' = dget name' s)
  | (s', Raise e) => exists n, 0 <= n < samples /\ value n = Raise e
  end.
Proof.
  intros Hw Hv. unfold write_file; open_M. cbn.
  pose proof (write_vectors_spec name width value (zrange samples) (dset name [] s) [] Hw) as H.
  destruct (write_vectors _ _ _ _ _) as [s' [[]|e]].
  - destruct H as (vs & lines & Hvs & Hg & Hr & Hne);
      [intros n v Hn%elem_of_zrange; by apply Hv|apply dget_dset_eq|].
    split; [by exists vs, lines|]. intros name' Hn'. by rewrite Hne, dget_dset_ne by done.
  - destruct H as (n & Hn%elem_of_zrange & He); [intros n v Hn%elem_of_zrange; by apply Hv|apply dget_dset_eq|].
    by exists n.
Qed.

(** Amplitudes, for every width of at most 32 bits. *)
Definition amp_ok (w : Z) : bool :=
  match vector_amp w with Ok a => (0 <=? a) && (a <? 2 ^ (w - 1)) | Raise _ => false end.

Lemma vector_amp_bound width :
  1 <= width <= 32 -> exists amp, vector_amp width = Ok amp /\ 0 <= amp < 2 ^ (width - 1).
Proof.
  intros Hw. assert (Hall : forallb amp_ok (Z.succ <$> zrange 32) = true) by (vm_compute; reflexivity).
  rewrite forallb_forall in Hall. assert (Ha : amp_ok width = true).
  { apply Hall, list_elem_of_In, list_elem_of_fmap. exists (width - 1). split; [lia|]. apply elem_of_zrange. lia. }
  unfold amp_ok in Ha. destruct (vector_amp width) as [amp|]; [|done].
  apply andb_true_iff in Ha as [H1%Z.leb_le H2%Z.ltb_lt]. by exists amp.
Qed.

(** [math.sin] on the reals: the result is in [-1, 1]. *)
Definition sin_like (math_sin : float -> res float) : Prop := forall x y, math_sin x = Ok y -> f_unit y.

Lemma tone_value_bound math_sin amp freq fs n v width :
  sin_like math_sin -> 1 <= width <= 32 -> 0 <= amp < 2 ^ (width - 1) ->
  tone_value math_sin amp freq fs n = Ok v -> in_width width v.
Proof.
  intros Hsin Hw Ha. unfold tone_value.
  destruct (float_of_int n) as [count|]; [cbn|done]. destruct (float_div _ fs) as [x|]; [cbn|done].
  destruct (math_sin x) as [y|] eqn:Ey; [cbn|done].
  assert (Hp : 2 ^ (width - 1) <= 2 ^ 31) by (apply Z.pow_le_mono_r; lia).
  rewrite float_of_int_ok by (change (2 ^ 100) with (2 ^ 31 * 2 ^ 69); lia). cbn.
  destruct (round_mul_unit amp y ltac:(lia) (Hsin x y Ey)) as (z & -> & Hz). intros [= <-]. unfold in_width. lia.
Qed.

(** The ways a tone can fail. *)
Definition tone_failure (math_sin : float -> res float) (fs : float) (e : exn) : Prop :=
  (f_is_zero fs = true /\ exn_cls e = ZeroDivisionError) \/ exists x, math_sin x = Raise e.

Lemma tone_value_error math_sin amp freq fs n e :
  0 <= n < 2 ^ 53 -> 0 <= amp < 2 ^ 31 -> sin_like math_sin -> tone_value math_sin amp freq fs n = Raise e ->
  tone_failure math_sin fs e.
Proof.
  intros Hn Ha Hsin. unfold tone_value, tone_failure.
  rewrite (float_of_int_ok n) by (change (2 ^ 100) with (2 ^ 53 * 2 ^ 47); lia).
  rewrite (float_of_int_ok amp) by (change (2 ^ 100) with (2 ^ 31 * 2 ^ 69); lia). cbn [mbind res_bind].
  unfold float_div. destruct (f_is_zero fs) eqn:Hz; cbn [mbind res_bind raise]; [intros [= <-]; by left|].
  set (x := SFdiv _ _ _ _). destruct (math_sin x) as [y|e'] eqn:Ey; cbn [mbind res_bind].
  - by destruct (round_mul_unit amp y Ha (Hsin x y Ey)) as (z & -> & _).
  - intros [= <-]. right. by exists x.
Qed.

Lemma holds_vectors_get s s' width value samples name :
  dget name s' = dget name s -> holds_vectors s width value samples name -> holds_vectors s' width value samples name.
Proof. intros Hg (vs & lines & H1 & H2 & H3). exists vs, lines. by rewrite Hg. Qed.

Lemma write_tones_spec math_sin ts amp fs samples width s :
  sin_like math_sin -> 1 <= width <= 32 -> 0 <= amp < 2 ^ (width - 1) -> samples <= 2 ^ 53 -> NoDup ts.*1 ->
  match write_tones math_sin ts amp fs samples width s with
  | (s', Ok _) =>
      (forall name freq, (name, freq) ∈ ts -> holds_vectors s' width (tone_value math_sin amp freq fs) samples name) /\
      (forall name, name ∉ ts.*1 -> dget name s' = dget name s)
  | (s', Raise e) => tone_failure math_sin fs e
  end.
Proof.
  intros Hsin Hw Ha Hs. revert s; induction ts as [|[name freq] ts IH]; intros s Hnd; cbn.
  { split; [by intros ? ? ?%not_elem_of_nil|done]. }
  apply NoDup_cons in Hnd as [Hnew Hnd]. open_M.
  pose proof (write_file_spec name width (tone_value math_sin amp freq fs) samples s ltac:(lia)) as Hf.
  destruct (write_file _ _ _ _ _) as [s1 [[]|e]].
  - destruct Hf as [Hf Hother]; [intros n v _; by apply tone_value_bound|].
    specialize (IH s1 Hnd). destruct (write_tones _ _ _ _ _ _) as [s2 [[]|e]]; [|done].
    destruct IH as [IH1 IH2]. split.
    + intros name' freq' [[= -> ->]|Hin]%elem_of_cons; [|by apply IH1].
      eapply holds_vectors_get; [by apply IH2|done].
    + intros name' [Hne Hn]%not_elem_of_cons. rewrite IH2 by done. by apply Hother.
  - destruct Hf as (n & Hn & He); [intros n v _; by apply tone_value_bound|].
    eapply tone_value_error, He; [lia| |done].
    assert (2 ^ (width - 1) <= 2 ^ 31) by (apply Z.pow_le_mono_r; lia). lia.
Qed.

(** C37: for every width up to 32 bits, the vector files hold what was computed:
    read back one word per line, a fixed number of hexadecimal digits each and
    sign-extended, [impulse.hex] and the three tones give exactly the [samples]
    values of the loops, none of which leaves the width.  The script fails only
    on a zero sample rate or when [math.sin] fails. *)
Theorem vectors_read_back math_sin fs samples width s :
  sin_like math_sin -> 1 <= width <= 32 -> samples <= 2 ^ 53 ->
  match gen_vectors math_sin fs samples width s with
  | (s', Ok _) =>
      exists amp, vector_amp width = Ok amp /\
        (forall name freq, (name, freq) ∈ tones ->
           holds_vectors s' width (tone_value math_sin amp freq fs) samples name) /\
        holds_vectors s' width (impulse_value amp) samples "impulse.hex"
  | (_, Raise e) => tone_failure math_sin fs e
  end.
Proof.
  intros Hsin Hw Hs. unfold gen_vectors; open_M.
  destruct (vector_amp_bound width Hw) as (amp & -> & Ha).
  pose proof (write_tones_spec math_sin tones amp fs samples width s Hsin Hw Ha Hs) as Ht.
  destruct (write_tones _ _ _ _ _ _ _) as [s1 [[]|e]]; [|apply Ht; by apply (bool_decide_unpack _); vm_compute].
  destruct Ht as [Ht1 Ht2]; [by apply (bool_decide_unpack _); vm_compute|].
  assert (Hi : forall n v, 0 <= n < samples -> impulse_value amp n = Ok v -> in_width width v).
  { intros n v _ [= <-]. unfold in_width. assert (0 < 2 ^ (width - 1)) by (apply Z.pow_pos_nonneg; lia).
    destruct (n =? 0); lia. }
  pose proof (write_file_spec "impulse.hex" width (impulse_value amp) samples s1 ltac:(lia) Hi) as Hf.
  destruct (write_file _ _ _ _ _) as [s2 [[]|e]]; [|by destruct Hf as (? & _ & [=])].
  destruct Hf as [Hf Hother]. exists amp. split_and!; [done| |done].
  intros name freq Hin. eapply holds_vectors_get; [apply Hother|by apply Ht1].
  intros ->. unfold tones in Hin. rewrite !elem_of_cons in Hin. set_solver.
Qed.

Lemma vectors_read_back_witness :
  exists files vs, gen_vectors (fun _ => Ok (f_of_dec 5 (-1))) (f_of_Z 250000000) 3 14 [] = (files, Ok tt) /\
    holds_vectors files 14 (impulse_value 5324) 3 "impulse.hex" /\
    dget "tone_1mhz.hex"%string files = Some vs /\ read_vectors 14 [] vs = Some [2662; 2662; 2662].
Proof.
  pose proof (vectors_read_back (fun _ => Ok (f_of_dec 5 (-1))) (f_of_Z 250000000) 3 14 []) as H.
  destruct (gen_vectors _ _ _ _ _) as [files r] eqn:E. vm_compute in E. injection E as <- <-.
  eexists _, _. split; [reflexivity|]. split; [|split; [vm_compute; reflexivity|vm_compute; reflexivity]].
  destruct H as (amp & Ha & _ & Hi); [intros x y [= <-]; vm_compute; discriminate|lia|lia|].
  vm_compute in Ha. injection Ha as <-. exact Hi.
Defined.

(** ** [ddc_golden.py] *)

Definition freq_word (freq_hz fs_hz : float) (phase_width : Z) : res Z :=
  ratio ← float_div freq_hz fs_hz;
  full ← int_shl1 phase_width;
  scale ← float_of_int full;
  r ← round_float (f_mul ratio scale);
  Ok (Z.land r (full - 1)).

Definition print_line (line : string) : M (list string) unit := M_modify (fun out => out ++ [line]).

(** [math.ceil(f)]. *)
Definition ceil_float : float -> res Z := fun f =>
  match f with
  | S754_finite s m e =>
      let num := Z.pos m * 2 ^ Z.max 0 e in
      let den := 2 ^ Z.max 0 (- e) in
      Ok (- (Z.div (if s then num else - num) den))
  | _ => float_to_int Z.div f
  end.

Section Golden.
Context (math_log2 : pyval -> res float) (negative_pow : Z -> Z -> res float).

Definition ddc_main (freq_hz fs : float) (decim : Z) : M (list string) unit :=
  word ← M_lift (freq_word freq_hz fs 32);
  d ← M_lift (float_of_int decim);
  out_rate ← M_lift (float_div fs d);
  lg ← M_lift (math_log2 (PInt (decim ^ 3)));
  gain_shift ← M_lift (ceil_float lg);
  print_line ("freq_word_dec=" +:+ py_str (PInt word)) ;;
  print_line ("freq_word_hex=0x" +:+ hex08 word) ;;
  print_line ("iq_sample_rate_hz=" +:+ fixed 3 out_rate) ;;
  print_line ("recommended_gain_shift=" +:+ py_str (PInt gain_shift)).

(** ** [cic_golden.py] *)

(** [decim ** stages]: an [int], or a [float] for a negative exponent. *)
Definition int_pow (a b : Z) : res pyval :=
  if b <? 0 then
    if a =? 0 then raise ZeroDivisionError "0.0 cannot be raised to a negative power"
    else x ← negative_pow a b; Ok (PFloat x)
  else Ok (PInt (a ^ b)).

Definition cic_main (decim stages : Z) (fs : float) : M (list string) unit :=
  gain ← M_lift (int_pow decim stages);
  d ← M_lift (float_of_int decim);
  rate ← M_lift (float_div fs d);
  print_line ("output_rate_hz=" +:+ fixed 3 rate) ;;
  print_line ("cic_gain=" +:+ py_str gain) ;;
  lg ← M_lift (math_log2 gain);
  bits ← M_lift (ceil_float lg);
  print_line ("gain_bits=" +:+ py_str (PInt bits)).
End Golden.

(** ** [packet_check.py] *)

Definition CORE_ID : Z := 0x53445231.

(** The lines printed and the exit code; [data] is the file named by the one
    argument.  [struct.unpack("<" + "I" * n, data[:n * 4])] reads [n] words. *)
Definition packet_check (argc : Z) (data : list byte) : list string * Z :=
  if negb (argc =? 2) then (["usage: packet_check.py packet_words.bin"%string], 2)
  else
    let n := (length data / 4)%nat in
    let words := struct_unpack_from (replicate n fmt_I) (take (n * 4) data) in
    match words with
    | [] => (["bad magic"%string], 1)
    | w0 :: _ =>
        if negb (w0 =? CORE_ID) then (["bad magic"%string], 1)
        else
          let seq := match words !! 3%nat with Some w => py_str (PInt w) | None => "n/a"%string end in
          (["magic=0x" +:+ hex08 w0 +:+ " words=" +:+ py_str (PInt (zlen words)) +:+ " seq=" +:+ seq], 0)
    end.

(** The words are the little-endian 32-bit words of the file. *)
Lemma packet_check_magic data w :
  (4 <= length data)%nat -> le_Z (take 4 data) = w -> w <> CORE_ID -> packet_check 2 data = (["bad magic"%string], 1).
Proof.
  intros Hl Hw Hne. unfold packet_check. cbn [negb Z.eqb Pos.eqb].
  destruct (length data / 4)%nat as [|n] eqn:Hn.
  { pose proof (Nat.div_str_pos (length data) 4). lia. }
  cbn [replicate struct_unpack_from fmt_width fmt_decode].
  rewrite take_take, Nat.min_l by lia. rewrite Hw. by destruct (Z.eqb_spec w CORE_ID).
Qed.

Lemma iq_unpack_magic data h : iq_unpack data = Ok h -> (4 <= length data)%nat /\ le_Z (take 4 data) = SDR_IQ_MAGIC.
Proof.
  unfold iq_unpack. destruct (Z.ltb_spec (zlen data) IQ_HEADER_SIZE) as [|Hl]; [done|].
  change IQ_HEADER_SIZE with 64 in Hl. unfold zlen in Hl. split; [lia|].
  destruct (iq_of_values_length (struct_unpack_from IQ_STRUCT data)) as (h' & Hv & Heq);
    [by rewrite struct_unpack_length|].
  rewrite Hv in *. pose proof (iq_validate_spec h') as Hs. destruct (iq_validate h'); [|done].
  destruct Hs as [Hm _]. rewrite <- Hm. rewrite IQ_STRUCT_eq in Heq. by injection Heq as ->.
Qed.

Lemma psd_unpack_magic data h : psd_unpack data = Ok h -> (4 <= length data)%nat /\ le_Z (take 4 data) = SDR_PSD_MAGIC.
Proof.
  unfold psd_unpack. destruct (Z.ltb_spec (zlen data) PSD_HEADER_SIZE) as [|Hl]; [done|].
  change PSD_HEADER_SIZE with 72 in Hl. unfold zlen in Hl. split; [lia|].
  destruct (psd_of_values_length (struct_unpack_from PSD_STRUCT data)) as (h' & Hv & Heq);
    [by rewrite struct_unpack_length|].
  rewrite Hv in *. pose proof (psd_validate_spec h') as Hs. destruct (psd_validate h'); [|done].
  destruct Hs as [Hm _]. rewrite <- Hm. rewrite PSD_STRUCT_eq in Heq. by injection Heq as ->.
Qed.

(** [packet_check.py] compares the first word of a packet with the FPGA's
    [CORE_ID] register value, which is no packet's magic: it reports
    ["bad magic"] and exits with 1 on every packet that the protocol's own
    decoders accept. *)
Theorem packet_check_rejects_packets data :
  is_ok (iq_unpack data) = true \/ is_ok (psd_unpack data) = true ->
  packet_check 2 data = (["bad magic"%string], 1).
Proof.
  intros [H|H]; [destruct (iq_unpack data) as [h|] eqn:E; [|done]; apply iq_unpack_magic in E as [Hl Hm]
                |destruct (psd_unpack data) as [h|] eqn:E; [|done]; apply psd_unpack_magic in E as [Hl Hm]];
    by eapply packet_check_magic.
Qed.

Lemma packet_check_rejects_packets_witness :
  exists bytes, iq_pack iq_default = Ok bytes /\ packet_check 2 bytes = (["bad magic"%string], 1).
Proof.
  eexists. split; [vm_compute; reflexivity|]. apply packet_check_rejects_packets. left. vm_compute. reflexivity.
Defined.

(** ** The printed tuning word *)

Lemma freq_word_range freq fs width w : freq_word freq fs width = Ok w -> 0 <= w < 2 ^ width.
Proof.
  unfold freq_word, int_shl1. destruct (float_div freq fs) as [x|]; [cbn|done].
  destruct (Z.ltb_spec width 0); [done|]. cbn. destruct (float_of_int _) as [y|]; [cbn|done].
  destruct (round_float _) as [r|]; [cbn|done]. intros [= <-].
  rewrite Z.sub_1_r, <- Z.ones_equiv, Z.land_ones by lia. apply Z.mod_pos_bound, Z.pow_pos_nonneg; lia.
Qed.

Lemma hex08_pad n : 0 <= n -> hex08 n = string_of_list_ascii (hex_pad 8 n).
Proof. intros Hn. unfold hex08, hex_pad. replace (Z.abs n) with n by lia. by destruct (Z.ltb_spec n 0); [lia|]. Qed.

(** [ddc_golden.py] prints all four lines or, when a computation fails,
    nothing; the word it prints is a 32-bit number, and its hexadecimal form
    has exactly eight digits and denotes it. *)
Lemma ddc_word_printed math_log2 freq fs decim out :
  match ddc_main math_log2 freq fs decim out with
  | (out', Ok _) =>
      exists word digits rate shift,
        freq_word freq fs 32 = Ok word /\ 0 <= word < 2 ^ 32 /\
        out' = out ++ ["freq_word_dec=" +:+ py_str (PInt word);
                       "freq_word_hex=0x" +:+ string_of_list_ascii digits;
                       "iq_sample_rate_hz=" +:+ fixed 3 rate;
                       "recommended_gain_shift=" +:+ py_str (PInt shift)] /\
        length digits = 8%nat /\ hex_acc 0 digits = Some word
  | (out', Raise _) => out' = out
  end.
Proof.
  unfold ddc_main; open_M. destruct (freq_word freq fs 32) as [word|] eqn:Ew; [|done].
  destruct (float_of_int decim) as [d|]; [|done]. destruct (float_div fs d) as [rate|]; [|done].
  destruct (math_log2 _) as [lg|]; [|done]. destruct (ceil_float lg) as [shift|]; [|done].
  pose proof (freq_word_range _ _ _ _ Ew) as Hr. destruct (hex_pad_spec 8 word) as [Hv Hl]; [lia|cbn; lia|].
  cbn. exists word, (hex_pad 8 word), rate, shift. rewrite <- hex08_pad by lia. rewrite <- !app_assoc.
  split_and!; try done; lia.
Qed.
