(* ===== verification/DeviceClient.v ===== *)
(** The control-plane client of the backend
    ([rpi/backend/sdr_backend/device_client.py]).

    The TCP connection is an interface, [Transport]: what [open_connection],
    [write]/[drain], [readline] and [close] do is decided by the peer and the
    network.  [_reader] and [_writer] are assigned and cleared together and are
    one flag here.  The lock makes a request one uninterrupted exchange, so an
    operation is a function on the client's attributes; what another task may
    do while an operation waits is a separate operation before or after it. *)

From Stdlib Require Import ZArith SpecFloat Lia Ascii String.
From stdpp Require Import base list sets strings.
From S2P Require Import Prelude PyFloat PyValue Json Control Config.

Open Scope Z_scope.

(** ** The connection *)

(** [tr_open] and [tr_recv] are under [asyncio.wait_for(..., timeout=5.0)]. *)
Class Transport (net : Type) := {
  tr_open : pyval -> pyval -> M net unit;
  tr_send : text -> M net unit;
  tr_recv : M net text;
  tr_close : net -> net;
  tr_is_closing : net -> bool;
}.

Record DeviceClient (net : Type) := MkDeviceClient {
  dc_device : pydict;
  dc_udp : pydict;
  dc_open : bool;
  dc_request_id : Z;
  dc_heartbeat : bool;
  dc_net : net;
}.
Arguments MkDeviceClient {net}.
Arguments dc_device {net}.
Arguments dc_udp {net}.
Arguments dc_open {net}.
Arguments dc_request_id {net}.
Arguments dc_heartbeat {net}.
Arguments dc_net {net}.

(** [f(...positional..., **fields)]: a key of [fields] that names one of the
    positional parameters is a [TypeError], the first one in dict order. *)
Fixpoint check_keywords (f : string) (params : list string) (fields : pydict) : res unit :=
  match fields with
  | [] => Ok tt
  | (k, _) :: fields' =>
      if decide (k ∈ params) then repeated_keyword f k else check_keywords f params fields'
  end.

Section Client.
Context {net : Type} `{!Transport net}.
Abbreviation client := (DeviceClient net).

Definition client_init (device udp : pydict) (n : net) : client := MkDeviceClient device udp false 0 false n.

Definition dc_connected (s : client) : bool := dc_open s && negb (tr_is_closing (dc_net s)).

(** *** Attribute updates *)

Definition with_net (n : net) (s : client) : client :=
  MkDeviceClient (dc_device s) (dc_udp s) (dc_open s) (dc_request_id s) (dc_heartbeat s) n.
Definition with_open (b : bool) (s : client) : client :=
  MkDeviceClient (dc_device s) (dc_udp s) b (dc_request_id s) (dc_heartbeat s) (dc_net s).
Definition with_request_id (i : Z) (s : client) : client :=
  MkDeviceClient (dc_device s) (dc_udp s) (dc_open s) i (dc_heartbeat s) (dc_net s).
Definition with_heartbeat (b : bool) (s : client) : client :=
  MkDeviceClient (dc_device s) (dc_udp s) (dc_open s) (dc_request_id s) b (dc_net s).
Definition with_host (h : string) (s : client) : client :=
  MkDeviceClient (dset "host"%string (PStr h) (dc_device s)) (dc_udp s) (dc_open s) (dc_request_id s)
    (dc_heartbeat s) (dc_net s).

Definition on_net {A} (m : M net A) : M client A := fun s =>
  let '(n, r) := m (dc_net s) in (with_net n s, r).

(** *** [request] *)

(** [f"{error.get('code', 'error')}: {error.get('message', '')}"]; [get] exists
    on a dict only. *)
Definition reply_error {A} (response : pydict) : res A :=
  match py_or (pget "error" response) (PDict []) with
  | PDict error =>
      raise DeviceClientError
        (py_str (pget_def "code" (PStr "error") error) +:+ ": " +:+ py_str (pget_def "message" (PStr "") error))
  | v => raise AttributeError ("'" +:+ type_name v +:+ "' object has no attribute 'get'")
  end.

(** The checks on the line that came back for [request_id]. *)
Definition accept_reply (request_id : Z) (line : text) : res pydict :=
  match line with
  | [] => raise DeviceClientError "device closed control connection"
  | _ =>
      response ← decode_json_line line;
      if negb (py_eq_int (pget "request_id" response) request_id)
      then raise DeviceClientError "response request_id mismatch"
      else if negb (py_bool (pget_def "ok" (PBool false) response)) then reply_error response
      else Ok response
  end.

Definition dc_request (cmd : string) (fields : pydict) : M client pydict :=
  M_lift (check_keywords "DeviceClient.request" ["self"; "cmd"]%string fields) ;;
  s ← M_get;
  if negb (dc_open s) then M_raise DeviceClientError "device is not connected"
  else
    let request_id := dc_request_id s + 1 in
    M_modify (with_request_id request_id) ;;
    message ← M_lift (build_request request_id cmd fields);
    line ← M_lift (encode_json_line message);
    on_net (tr_send line) ;;
    reply ← on_net tr_recv;
    M_lift (accept_reply request_id reply).

Definition dc_set_frontend (fields : pydict) : M client pydict :=
  M_lift (check_keywords "DeviceClient.set_frontend" ["self"%string] fields) ;; dc_request "set_frontend" fields.
Definition dc_set_rx (fields : pydict) : M client pydict :=
  M_lift (check_keywords "DeviceClient.set_rx" ["self"%string] fields) ;; dc_request "set_rx" fields.
Definition dc_set_psd (fields : pydict) : M client pydict :=
  M_lift (check_keywords "DeviceClient.set_psd" ["self"%string] fields) ;; dc_request "set_psd" fields.
Definition dc_stop_all : M client pydict := dc_request "stop_all" [].
Definition dc_get_status : M client pydict := dc_request "get_status" [].

(** *** [close], [connect] and the heartbeat *)

(** The heartbeat task is cancelled (or is the caller and ends); errors of
    [wait_closed] are swallowed. *)
Definition dc_close (s : client) : client :=
  let s := with_heartbeat false s in
  if dc_open s then with_open false (with_net (tr_close (dc_net s)) s) else s.

Definition hello_fields (s : client) : pydict :=
  [("protocol_version", PInt 1); ("client_name", pget "client_name" (dc_device s));
   ("udp", PDict [("iq_port", pget "iq_port" (dc_udp s)); ("psd_port", pget "psd_port" (dc_udp s));
                  ("status_port", pget "status_port" (dc_udp s))])]%string.

Definition connect_error (s : client) (e : exn) : string :=
  "could not connect to " +:+ py_str (pget "host" (dc_device s)) +:+ ":" +:+
    py_str (pget "control_port" (dc_device s)) +:+ ": " +:+ exn_msg e.

Definition dc_connect (host : option string) : M client pydict :=
  match host with
  | Some h => if String.eqb h "" then mret tt else M_modify (with_host h)
  | None => mret tt
  end ;;
  M_modify dc_close ;;
  hello ← M_try
    (s ← M_get;
     on_net (tr_open (pget "host" (dc_device s)) (pget "control_port" (dc_device s))) ;;
     M_modify (with_open true) ;;
     dc_request "hello" (hello_fields s))
    (fun e =>
       M_modify dc_close ;;
       s ← M_get;
       if exn_isa (exn_cls e) OSError || exn_isa (exn_cls e) TimeoutError
       then M_raise DeviceClientError (connect_error s e)
       else M_lift (Raise e));
  M_modify (with_heartbeat true) ;;
  mret hello.

(** What the heartbeat task does after each [sleep(2.0)]. *)
Definition heartbeat_turn (s : client) : client :=
  if dc_connected s then
    match dc_request "ping" [("client_time_ms"%string, PInt 0)] s with
    | (s', Ok _) => s'
    | (s', Raise _) => dc_close s'
    end
  else s.
End Client.

(** ** Histories of a client *)

Section History.
Context {net : Type} `{!Transport net}.
Abbreviation client := (DeviceClient net).

Inductive client_op :=
  | OpConnect (host : option string)
  | OpClose
  | OpRequest (cmd : string) (fields : pydict)
  | OpHeartbeat.

(** The reply a caller got, if any. *)
Definition accepted (r : res pydict) : list pydict := match r with Ok d => [d] | Raise _ => [] end.

Definition client_step (op : client_op) (s : client) : client * list pydict :=
  match op with
  | OpConnect host => let '(s', r) := dc_connect host s in (s', accepted r)
  | OpClose => (dc_close s, [])
  | OpRequest cmd fields => let '(s', r) := dc_request cmd fields s in (s', accepted r)
  | OpHeartbeat => (heartbeat_turn s, [])
  end.

Fixpoint client_run (ops : list client_op) (s : client) : client * list pydict :=
  match ops with
  | [] => (s, [])
  | op :: ops' =>
      let '(s1, l1) := client_step op s in
      let '(s2, l2) := client_run ops' s1 in (s2, l1 ++ l2)
  end.

Lemma accept_reply_ok i line d :
  accept_reply i line = Ok d ->
  decode_json_line line = Ok d /\ py_eq_int (pget "request_id" d) i /\ py_bool (pget_def "ok" (PBool false) d).
Proof.
  unfold accept_reply. destruct line as [|c line]; [done|].
  destruct (decode_json_line (c :: line)) as [response|e]; [|done]. cbn [mbind res_bind].
  destruct (py_eq_int _ i) eqn:Hi; [|done]. cbn [negb].
  destruct (py_bool _) eqn:Hok; cbn [negb].
  - intros [= <-]. by rewrite Hi, Hok.
  - unfold reply_error. by case_match.
Qed.

(** What a request does to the client: the flags stay, the id advances by at
    most one, and by one for an accepted reply, which carries the new id. *)
Definition request_effect (s s' : client) (r : res pydict) : Prop :=
  dc_open s' = dc_open s /\ dc_heartbeat s' = dc_heartbeat s /\
  dc_request_id s <= dc_request_id s' /\
  forall d, r = Ok d ->
    dc_open s = true /\ dc_request_id s' = dc_request_id s + 1 /\ py_eq_int (pget "request_id" d) (dc_request_id s').

Lemma dc_request_effect cmd fields s :
  request_effect s (dc_request cmd fields s).1 (dc_request cmd fields s).2.
Proof.
  unfold request_effect, dc_request; open_M.
  destruct (check_keywords _ _ _); [|by split_and!].
  destruct (dc_open s) eqn:Ho; [|by split_and!]. cbn [negb].
  destruct (build_request _ _ _) as [msg|e]; [|cbn; split_and!; (done || lia)].
  destruct (encode_json_line msg) as [line|e]; [|cbn; split_and!; (done || lia)].
  unfold on_net. destruct (tr_send line _) as [n1 [[]|e]]; [|cbn; split_and!; (done || lia)].
  cbn. destruct (tr_recv n1) as [n2 [reply|e]]; cbn; split_and!; try (done || lia).
  intros d Hd%accept_reply_ok. naive_solver.
Qed.

Lemma dc_close_flags s :
  dc_open (dc_close s) = false /\ dc_heartbeat (dc_close s) = false /\ dc_request_id (dc_close s) = dc_request_id s.
Proof. unfold dc_close. cbn. destruct (dc_open s) eqn:E; cbn; by rewrite ?E. Qed.

(** The connection behind [connect]: closed and retried, then either open with
    a running heartbeat or closed without one. *)
Lemma dc_connect_effect host s s' r :
  dc_connect host s = (s', r) ->
  dc_request_id s <= dc_request_id s' /\
  match r with
  | Ok d =>
      dc_open s' = true /\ dc_heartbeat s' = true /\ dc_request_id s' = dc_request_id s + 1 /\
      py_eq_int (pget "request_id" d) (dc_request_id s')
  | Raise _ => dc_open s' = false /\ dc_heartbeat s' = false
  end.
Proof.
  unfold dc_connect.
  assert (forall h, exists s0, (match h with Some h => if String.eqb h "" then mret tt else M_modify (with_host h)
            | None => mret tt end : M client unit) s = (s0, Ok tt) /\ dc_request_id s0 = dc_request_id s) as Hhost.
  { intros [h|]; [destruct (String.eqb h "")|]; eexists; split; done. }
  destruct (Hhost host) as (s0 & Hs0 & <-). unfold mbind at 1, M_bind at 1. rewrite Hs0. clear Hs0 Hhost.
  pose proof (dc_close_flags s0) as (Hc1 & Hc2 & <-).
  unfold M_try, on_net; open_M.
  cbv beta iota zeta. revert Hc1 Hc2. generalize (dc_close s0) as s1. intros s1 Hc1 Hc2.
  destruct (tr_open _ _ _) as [n1 [[]|e]].
  - set (s2 := with_open true (with_net n1 s1)).
    pose proof (dc_request_effect "hello" (hello_fields s1) s2) as (Ho & Hh & Hi & Hok).
    destruct (dc_request "hello" (hello_fields s1) s2) as [s3 [d|e]]; cbn [fst snd] in *.
    + intros [= <- <-]. destruct (Hok d eq_refl) as (_ & Hid & Heq). cbn in *. split_and!; (done || lia).
    + pose proof (dc_close_flags s3) as (Hf1 & Hf2 & Hf3). change (dc_request_id s2) with (dc_request_id s1) in Hi.
      unfold M_lift. destruct (_ || _); cbn; intros [= <- <-]; split_and!; (done || lia).
  - pose proof (dc_close_flags (with_net n1 s1)) as (Hf1 & Hf2 & Hf3). cbn in Hf3.
    unfold M_lift. destruct (_ || _); cbn; intros [= <- <-]; split_and!; (done || lia).
Qed.

Definition client_inv (s : client) : Prop := dc_heartbeat s = true -> dc_open s = true.

Lemma heartbeat_turn_effect s :
  client_inv s -> client_inv (heartbeat_turn s) /\ dc_request_id s <= dc_request_id (heartbeat_turn s).
Proof.
  intros Hs. unfold heartbeat_turn. destruct (dc_connected s); [|by split].
  pose proof (dc_request_effect "ping" [("client_time_ms"%string, PInt 0)] s) as (Ho & Hh & Hi & _).
  destruct (dc_request _ _ s) as [s1 [d|e]]; cbn [fst snd] in *.
  - split; [|done]. unfold client_inv. by rewrite Ho, Hh.
  - pose proof (dc_close_flags s1) as (Hc1 & Hc2 & ->). split; [|done]. unfold client_inv. by rewrite Hc2.
Qed.

(** The replies of [log] answer requests numbered [lo < i1 < i2 < ... <= hi]. *)
Fixpoint answered (lo hi : Z) (log : list pydict) : Prop :=
  match log with
  | [] => lo <= hi
  | d :: log' => exists i, lo < i <= hi /\ py_eq_int (pget "request_id" d) i /\ answered i hi log'
  end.

Lemma answered_weaken lo lo' hi log : lo' <= lo -> answered lo hi log -> answered lo' hi log.
Proof. intros Hle. destruct log as [|d log]; cbn; [lia|]. intros (i & Hi & Hd). exists i. split; [lia|done]. Qed.

Lemma answered_app lo mid hi l1 l2 : answered lo mid l1 -> answered mid hi l2 -> answered lo hi (l1 ++ l2).
Proof.
  revert lo; induction l1 as [|d l1 IH]; intros lo H1 H2; cbn in *; [by eapply answered_weaken|].
  assert (mid <= hi) as Hm by (destruct l2; cbn in H2; [lia|destruct H2 as (j & Hj & _); lia]).
  destruct H1 as (i & Hi & Hd & H1). exists i. split; [lia|]. split; [done|]. by apply IH.
Qed.

Lemma client_step_effect op s s' log :
  client_inv s -> client_step op s = (s', log) ->
  client_inv s' /\ answered (dc_request_id s) (dc_request_id s') log.
Proof.
  intros Hs. destruct op as [host| |cmd fields|]; cbn [client_step].
  - destruct (dc_connect host s) as [s1 r] eqn:Hc. intros [= <- <-]. apply dc_connect_effect in Hc as [Hi Hr].
    destruct r as [d|e]; cbn; [|by split; [intros ?; destruct Hr; congruence|]].
    destruct Hr as (Ho & Hh & Hid & Hd). split; [by intros _|]. exists (dc_request_id s1). cbn. split_and!; (done || lia).
  - intros [= <- <-]. pose proof (dc_close_flags s) as (_ & Hc & ->). split; [intros ?; congruence|cbn; lia].
  - pose proof (dc_request_effect cmd fields s) as (Ho & Hh & Hi & Hok).
    destruct (dc_request cmd fields s) as [s1 r]; cbn [fst snd] in *. intros [= <- <-].
    split; [unfold client_inv; by rewrite Ho, Hh|].
    destruct r as [d|e]; cbn; [|done]. destruct (Hok d eq_refl) as (_ & Hid & Hd).
    exists (dc_request_id s1). cbn. split_and!; (done || lia).
  - intros [= <- <-]. by apply heartbeat_turn_effect.
Qed.

(** C14: No reply is taken for another request's.  In any history of a client
    (connections, disconnections, requests, heartbeats, in any order, against a
    peer and a network that do whatever they like), the replies handed to
    callers carry strictly increasing request ids, all of them issued in that
    history: a late, duplicated or forged reply to an earlier request is never
    returned for a later one, reconnections included.  Throughout, the
    heartbeat runs only while a connection is open. *)
Theorem client_history (ops : list client_op) (s s' : client) (log : list pydict) :
  client_inv s -> client_run ops s = (s', log) ->
  client_inv s' /\ answered (dc_request_id s) (dc_request_id s') log.
Proof.
  revert s s' log. induction ops as [|op ops IH]; intros s s' log Hs; cbn [client_run].
  - intros [= <- <-]. cbn. split; [done|lia].
  - destruct (client_step op s) as [s1 l1] eqn:H1. destruct (client_run ops s1) as [s2 l2] eqn:H2.
    intros [= <- <-]. destruct (client_step_effect _ _ _ _ Hs H1) as [Hs1 Ha1].
    destruct (IH _ _ _ Hs1 H2) as [Hs2 Ha2]. split; [done|by eapply answered_app].
Qed.
End History.

(** A peer that answers the first request and the hello of a reconnection, and
    in between repeats its first reply. *)
Definition scripted_reply (i : Z) : text := line_of (build_response (Some (PInt i)) true []).

#[export] Instance scripted_transport : Transport (list text) := {
  tr_open _ _ := fun n => (n, Ok tt);
  tr_send _ := fun n => (n, Ok tt);
  tr_recv := fun n => match n with [] => ([], Ok []) | line :: n' => (n', Ok line) end;
  tr_close n := n;
  tr_is_closing _ := false;
}.

Definition scripted_client : DeviceClient (list text) :=
  client_init DeviceConfig UdpConfig [scripted_reply 1; scripted_reply 1; scripted_reply 3].

Definition scripted_ops : list client_op :=
  [OpConnect None; OpRequest "get_status" []; OpClose; OpConnect (Some "10.0.0.2"%string)].

(** The repeated reply is refused. *)
Lemma client_history_witness :
  let '(s', log) := client_run scripted_ops scripted_client in
  (pget "request_id" <$> log) = [PInt 1; PInt 3] /\
  client_inv s' /\ answered 0 (dc_request_id s') log.
Proof.
  split; [by vm_compute|].
  apply (client_history scripted_ops scripted_client); [done|by vm_compute].
Defined.
