(* ===== verification/ClientTasks.v ===== *)
(** Concurrent requests on one control client
    ([rpi/backend/sdr_backend/device_client.py]).

    HTTP handlers and the heartbeat call [DeviceClient.request] from different
    asyncio tasks; [self._lock] queues them.  A task runs uninterrupted between
    two [await]s, so a request has four places to be: waiting for the lock, in
    [drain], in [readline], ended.  [task_event] is what the event loop may do
    next, and [run_event] what it does, [None] when it cannot.  [close] and
    [connect] take the connection away, or replace it, between any two of
    them. *)

From Stdlib Require Import ZArith SpecFloat Lia Ascii String.
From stdpp Require Import base list gmap sets strings.
From S2P Require Import Prelude PyFloat PyValue Json Control Config DeviceClient.

Open Scope Z_scope.

(** ** State *)

Inductive outcome :=
  | Returned (r : res pydict)
  | Cancelled.

Inductive phase :=
  | Waiting
  | Draining (id : Z)
  | Reading (id : Z)
  | Ended (o : outcome).

Record request_task := MkTask {
  rq_cmd : string;
  rq_fields : pydict;
  rq_phase : phase;
}.

(** What happens on the wire: a request is written, an exchange is over. *)
Inductive log_entry :=
  | Wrote (t : nat) (id : Z) (line : text)
  | Finished (t : nat).

(** [ts_open]: [_reader] and [_writer] are not [None].  [ts_lock] is the task
    in the [async with] block, [ts_queue] the waiters of the lock, in order. *)
Record client_tasks := MkTasks {
  ts_open : bool;
  ts_request_id : Z;
  ts_lock : option nat;
  ts_queue : list nat;
  ts_tasks : gmap nat request_task;
  ts_log : list log_entry;
}.

Definition tasks_init : client_tasks := MkTasks false 0 None [] ∅ [].

Definition set_phase_of (p : phase) (q : request_task) : request_task := MkTask (rq_cmd q) (rq_fields q) p.

(** [t] ends and, if it holds the lock, releases it. *)
Definition finish (t : nat) (q : request_task) (o : outcome) (s : client_tasks) : client_tasks :=
  MkTasks (ts_open s) (ts_request_id s) None (ts_queue s) (<[t := set_phase_of (Ended o) q]> (ts_tasks s))
    (ts_log s ++ [Finished t]).

Definition no_attribute (name : string) : outcome :=
  Returned (raise AttributeError ("'NoneType' object has no attribute '" +:+ name +:+ "'")).

(** The block from the acquired lock to [await self._writer.drain()]: the next
    id, [self._writer.write] (which needs a writer) of the encoded request. *)
Definition enter (t : nat) (q : request_task) (s : client_tasks) : client_tasks :=
  let id := ts_request_id s + 1 in
  let ended o :=
    MkTasks (ts_open s) id None (ts_queue s) (<[t := set_phase_of (Ended o) q]> (ts_tasks s)) (ts_log s) in
  if ts_open s then
    match build_request id (rq_cmd q) (rq_fields q) ≫= encode_json_line with
    | Ok line =>
        MkTasks (ts_open s) id (Some t) (ts_queue s) (<[t := set_phase_of (Draining id) q]> (ts_tasks s))
          (ts_log s ++ [Wrote t id line])
    | Raise e => ended (Returned (Raise e))
    end
  else ended (no_attribute "write").

(** ** Events *)

Inductive task_event :=
  | EvStart (t : nat) (cmd : string) (fields : pydict)
  | EvWake (t : nat)
  | EvDrained (t : nat)
  | EvReply (t : nat) (line : text)
  | EvFail (t : nat) (e : exn)
  | EvCancel (t : nat)
  | EvClose
  | EvOpen.

Definition set_open (b : bool) (s : client_tasks) : client_tasks :=
  MkTasks b (ts_request_id s) (ts_lock s) (ts_queue s) (ts_tasks s) (ts_log s).

Definition put_task (t : nat) (q : request_task) (s : client_tasks) : client_tasks :=
  MkTasks (ts_open s) (ts_request_id s) (ts_lock s) (ts_queue s) (<[t := q]> (ts_tasks s)) (ts_log s).

Definition set_queue (l : list nat) (s : client_tasks) : client_tasks :=
  MkTasks (ts_open s) (ts_request_id s) (ts_lock s) l (ts_tasks s) (ts_log s).

(** A call of [request]: refused for a keyword that is a parameter's name and
    without a connection; the lock is taken at once when it is free and nobody
    waits for it. *)
Definition ev_start (t : nat) (cmd : string) (fields : pydict) (s : client_tasks) : option client_tasks :=
  match ts_tasks s !! t with
  | Some _ => None
  | None =>
      let q := MkTask cmd fields Waiting in
      let refused e := Some (put_task t (set_phase_of (Ended (Returned e)) q) s) in
      match check_keywords "DeviceClient.request" ["self"; "cmd"]%string fields with
      | Raise e => refused (Raise e)
      | Ok _ =>
          if negb (ts_open s) then refused (raise DeviceClientError "device is not connected")
          else
            match ts_lock s, ts_queue s with
            | None, [] => Some (enter t q s)
            | _, _ => Some (set_queue (ts_queue s ++ [t]) (put_task t q s))
            end
      end
  end.

(** The first waiter gets the free lock. *)
Definition ev_wake (t : nat) (s : client_tasks) : option client_tasks :=
  match ts_lock s, ts_queue s with
  | None, t' :: queue =>
      if decide (t = t') then q ← ts_tasks s !! t; Some (enter t q (set_queue queue s)) else None
  | _, _ => None
  end.

(** [drain] returns and [self._reader.readline] is called. *)
Definition ev_drained (t : nat) (s : client_tasks) : option client_tasks :=
  q ← ts_tasks s !! t;
  match rq_phase q with
  | Draining id =>
      if ts_open s then Some (put_task t (set_phase_of (Reading id) q) s)
      else Some (finish t q (no_attribute "readline") s)
  | _ => None
  end.

Definition ev_reply (t : nat) (line : text) (s : client_tasks) : option client_tasks :=
  q ← ts_tasks s !! t;
  match rq_phase q with
  | Reading id => Some (finish t q (Returned (accept_reply id line)) s)
  | _ => None
  end.

(** [drain] or [readline] raises: a lost connection, or the five seconds are
    over. *)
Definition ev_fail (t : nat) (e : exn) (s : client_tasks) : option client_tasks :=
  q ← ts_tasks s !! t;
  match rq_phase q with
  | Draining _ | Reading _ => Some (finish t q (Returned (Raise e)) s)
  | _ => None
  end.

(** [task.cancel()], as [close] does to the heartbeat: a waiter leaves the
    queue, the holder leaves the block. *)
Definition ev_cancel (t : nat) (s : client_tasks) : option client_tasks :=
  q ← ts_tasks s !! t;
  match rq_phase q with
  | Waiting => Some (set_queue (filter (fun u => u <> t) (ts_queue s)) (put_task t (set_phase_of (Ended Cancelled) q) s))
  | Draining _ | Reading _ => Some (finish t q Cancelled s)
  | Ended _ => None
  end.

Definition run_event (ev : task_event) (s : client_tasks) : option client_tasks :=
  match ev with
  | EvStart t cmd fields => ev_start t cmd fields s
  | EvWake t => ev_wake t s
  | EvDrained t => ev_drained t s
  | EvReply t line => ev_reply t line s
  | EvFail t e => ev_fail t e s
  | EvCancel t => ev_cancel t s
  | EvClose => Some (set_open false s)
  | EvOpen => Some (set_open true s)
  end.

Fixpoint run_events (evs : list task_event) (s : client_tasks) : option client_tasks :=
  match evs with
  | [] => Some s
  | ev :: evs' => s' ← run_event ev s; run_events evs' s'
  end.

(** ** The lock discipline *)

Definition active (p : phase) : Prop := match p with Draining _ | Reading _ => True | _ => False end.

Definition in_phase (P : phase -> Prop) (t : nat) (s : client_tasks) : Prop :=
  exists q, ts_tasks s !! t = Some q /\ P (rq_phase q).

(** The log of an exchange in progress by [cur], with ids above [lo]: every
    request is finished before the next is written. *)
Fixpoint serialised (cur : option nat) (lo : Z) (log : list log_entry) : option (option nat * Z) :=
  match log, cur with
  | [], _ => Some (cur, lo)
  | Wrote t id _ :: log', None => if lo <? id then serialised (Some t) id log' else None
  | Finished t :: log', Some t' => if decide (t = t') then serialised None lo log' else None
  | _, _ => None
  end.

Record tasks_wf (s : client_tasks) : Prop := {
  tw_lock t : ts_lock s = Some t <-> in_phase active t s;
  tw_queue t : t ∈ ts_queue s <-> in_phase (eq Waiting) t s;
  tw_nodup : NoDup (ts_queue s);
  tw_log : exists id, serialised None 0 (ts_log s) = Some (ts_lock s, id) /\ id <= ts_request_id s;
}.

Lemma serialised_app cur lo l1 l2 :
  serialised cur lo (l1 ++ l2) = '(cur', lo') ← serialised cur lo l1; serialised cur' lo' l2.
Proof.
  revert cur lo; induction l1 as [|[t id line|t] l1 IH]; intros cur lo; [by destruct l2|..]; cbn.
  - destruct cur; [done|]. destruct (lo <? id); [apply IH|done].
  - destruct cur as [t'|]; [|done]. case_decide; [apply IH|done].
Qed.

Lemma in_phase_insert P t u q s s' :
  ts_tasks s' = <[t := q]> (ts_tasks s) ->
  in_phase P u s' <-> (u = t /\ P (rq_phase q)) \/ (u <> t /\ in_phase P u s).
Proof.
  intros Ht. unfold in_phase. rewrite Ht. destruct (decide (u = t)) as [->|Hne].
  - rewrite lookup_insert_eq. naive_solver.
  - rewrite lookup_insert_ne by done. naive_solver.
Qed.

Lemma in_phase_functional t s p q : in_phase (eq p) t s -> ts_tasks s !! t = Some q -> rq_phase q = p.
Proof. intros (q' & Hq & ->) Hq'. by simplify_eq. Qed.

Definition log_ok (s : client_tasks) : Prop :=
  exists id, serialised None 0 (ts_log s) = Some (ts_lock s, id) /\ id <= ts_request_id s.

(** Every event changes one task: the invariant is checked at it alone. *)
Lemma wf_update t q s s' :
  tasks_wf s -> ts_tasks s' = <[t := q]> (ts_tasks s) ->
  (forall u, u <> t -> ts_lock s' = Some u <-> ts_lock s = Some u) ->
  (ts_lock s' = Some t <-> active (rq_phase q)) ->
  (forall u, u <> t -> u ∈ ts_queue s' <-> u ∈ ts_queue s) ->
  (t ∈ ts_queue s' <-> Waiting = rq_phase q) -> NoDup (ts_queue s') -> log_ok s' -> tasks_wf s'.
Proof.
  intros [Hl Hq Hn _] Ht Hlu Hlt Hqu Hqt Hn' Hlog. split; try done; intros u; rewrite (in_phase_insert _ t u q s s' Ht);
    destruct (decide (u = t)) as [->|Hu]; [naive_solver| |naive_solver|].
  - rewrite Hlu, Hl by done. naive_solver.
  - rewrite Hqu, Hq by done. naive_solver.
Qed.

Lemma wf_same_tasks b s : tasks_wf s -> tasks_wf (set_open b s).
Proof. intros [Hl Hq Hn Hlog]. by split. Qed.

Lemma wf_log s : tasks_wf s -> log_ok s.
Proof. by destruct 1. Qed.

Lemma log_ok_wrote t line s s' :
  log_ok s -> ts_lock s = None -> ts_lock s' = Some t -> ts_request_id s' = ts_request_id s + 1 ->
  ts_log s' = ts_log s ++ [Wrote t (ts_request_id s') line] -> log_ok s'.
Proof.
  intros (id & Hs & Hid) Hn Hl Hr Hlog. exists (ts_request_id s'). rewrite Hlog, serialised_app, Hs, Hn, Hl. cbn.
  rewrite (proj2 (Z.ltb_lt _ _)) by lia. split; [done|lia].
Qed.

Lemma log_ok_finished t s s' :
  log_ok s -> ts_lock s = Some t -> ts_lock s' = None -> ts_request_id s' = ts_request_id s ->
  ts_log s' = ts_log s ++ [Finished t] -> log_ok s'.
Proof.
  intros (id & Hs & Hid) Hl Hn Hr Hlog. exists id. rewrite Hlog, serialised_app, Hs, Hn, Hl, Hr. cbn.
  by rewrite decide_True.
Qed.

Lemma log_ok_same s s' :
  log_ok s -> ts_lock s' = ts_lock s -> ts_log s' = ts_log s -> ts_request_id s <= ts_request_id s' -> log_ok s'.
Proof. intros (id & Hs & Hid) Hl Hlog Hr. exists id. rewrite Hlog, Hl. split; [done|lia]. Qed.

(** What [enter] does, without its two ways of ending the task. *)
Lemma enter_cases t q s :
  (exists o, enter t q s = MkTasks (ts_open s) (ts_request_id s + 1) None (ts_queue s)
     (<[t := set_phase_of (Ended o) q]> (ts_tasks s)) (ts_log s)) \/
  (exists line, enter t q s = MkTasks (ts_open s) (ts_request_id s + 1) (Some t) (ts_queue s)
     (<[t := set_phase_of (Draining (ts_request_id s + 1)) q]> (ts_tasks s))
     (ts_log s ++ [Wrote t (ts_request_id s + 1) line])).
Proof.
  unfold enter. destruct (ts_open s); [|left; by eexists].
  destruct (_ ≫= _); [right|left]; by eexists.
Qed.

Lemma enter_wf t q s s0 :
  tasks_wf s0 -> ts_lock s0 = None -> ts_tasks s = ts_tasks s0 -> ts_lock s = None ->
  ts_log s = ts_log s0 -> ts_request_id s = ts_request_id s0 ->
  (forall u, u <> t -> u ∈ ts_queue s <-> u ∈ ts_queue s0) -> t ∉ ts_queue s -> NoDup (ts_queue s) ->
  tasks_wf (enter t q s).
Proof.
  intros Hwf Hl0 Ht Hl Hlog Hr Hqu Hqt Hn.
  destruct (enter_cases t q s) as [[o ->]|[line ->]]; (eapply (wf_update t); [exact Hwf|cbn; by rewrite Ht|..]; cbn).
  all: try done; try (intros; split; congruence).
  - eapply log_ok_same; [by apply wf_log|cbn; congruence|done|cbn; lia].
  - eapply (log_ok_wrote t line s0); [by apply wf_log|done|done|cbn; congruence|cbn; congruence].
Qed.

Lemma finish_wf t q o s : tasks_wf s -> ts_tasks s !! t = Some q -> active (rq_phase q) -> tasks_wf (finish t q o s).
Proof.
  intros Hwf Hq Ha. assert (Hl : ts_lock s = Some t) by (apply (tw_lock s Hwf); by exists q).
  assert (Hnq : t ∉ ts_queue s).
  { rewrite (tw_queue s Hwf). intros (q' & Hq' & He). simplify_eq. by rewrite <- He in Ha. }
  eapply (wf_update t); [exact Hwf|done|cbn; intros; split; congruence|done|done|done|exact (tw_nodup s Hwf)|].
  eapply (log_ok_finished t s); [by apply wf_log|..]; done.
Qed.

Lemma holder_or_waiter t s : tasks_wf s -> ts_tasks s !! t = None -> ts_lock s <> Some t /\ t ∉ ts_queue s.
Proof.
  intros Hwf Hn. split; [rewrite (tw_lock s Hwf)|rewrite (tw_queue s Hwf)]; intros (q & Hq & _); congruence.
Qed.

Lemma ev_start_wf t cmd fields s s' : tasks_wf s -> ev_start t cmd fields s = Some s' -> tasks_wf s'.
Proof.
  intros Hwf. unfold ev_start. destruct (ts_tasks s !! t) eqn:Ht; [done|].
  destruct (holder_or_waiter t s Hwf Ht) as [Hl Hq].
  assert (Hr : forall r, tasks_wf (put_task t (set_phase_of (Ended r) (MkTask cmd fields Waiting)) s)).
  { intros r. eapply (wf_update t); [exact Hwf|done|done|done|done|done|exact (tw_nodup s Hwf)|].
    by eapply log_ok_same; [apply wf_log, Hwf|..]. }
  destruct (check_keywords _ _ _); [|by intros [= <-]]. destruct (negb _); [by intros [= <-]|].
  assert (Hw : tasks_wf (set_queue (ts_queue s ++ [t]) (put_task t (MkTask cmd fields Waiting) s))).
  { eapply (wf_update t); [exact Hwf|done|done|done|..]; cbn.
    - intros u Hu. rewrite elem_of_app, list_elem_of_singleton. naive_solver.
    - rewrite elem_of_app, list_elem_of_singleton. naive_solver.
    - apply NoDup_app. split_and!; [exact (tw_nodup s Hwf)| |apply NoDup_singleton].
      intros u Hu ->%list_elem_of_singleton. done.
    - by eapply log_ok_same; [apply wf_log, Hwf|..]. }
  destruct (ts_lock s) eqn:El; [by intros [= <-]|]. destruct (ts_queue s) eqn:Eq; [|by intros [= <-]].
  intros [= <-]. eapply (enter_wf t _ s s); try done; rewrite Eq; [done|apply NoDup_nil_2].
Qed.

Lemma ev_wake_wf t s s' : tasks_wf s -> ev_wake t s = Some s' -> tasks_wf s'.
Proof.
  intros Hwf. unfold ev_wake. destruct (ts_lock s) eqn:El; [done|]. destruct (ts_queue s) as [|t' queue] eqn:Eq; [done|].
  case_decide as He; [subst t'|done]. destruct (ts_tasks s !! t) as [q|]; [|done]. intros [= <-].
  pose proof (tw_nodup s Hwf) as Hn. rewrite Eq in Hn. apply NoDup_cons in Hn as [Hn1 Hn2].
  eapply (enter_wf t q _ s); try done. intros u Hu. cbn. rewrite Eq, elem_of_cons. naive_solver.
Qed.

Lemma ev_drained_wf t s s' : tasks_wf s -> ev_drained t s = Some s' -> tasks_wf s'.
Proof.
  intros Hwf. unfold ev_drained. destruct (ts_tasks s !! t) as [q|] eqn:Ht; [cbn|done].
  destruct (rq_phase q) as [|id| |] eqn:Ep; try done.
  assert (Ha : active (rq_phase q)) by (by rewrite Ep).
  destruct (ts_open s); intros [= <-]; [|by apply finish_wf].
  assert (Hl : ts_lock s = Some t) by (apply (tw_lock s Hwf); by exists q).
  eapply (wf_update t); [exact Hwf|done|done|done|done| |exact (tw_nodup s Hwf)|]; cbn.
  - rewrite (tw_queue s Hwf). split; [|done]. intros Hp. by rewrite (in_phase_functional _ _ _ _ Hp Ht) in Ha.
  - by eapply log_ok_same; [apply wf_log, Hwf|..].
Qed.

Lemma ev_reply_wf t line s s' : tasks_wf s -> ev_reply t line s = Some s' -> tasks_wf s'.
Proof.
  intros Hwf. unfold ev_reply. destruct (ts_tasks s !! t) as [q|] eqn:Ht; [cbn|done].
  destruct (rq_phase q) eqn:Ep; try done. intros [= <-]. apply finish_wf; [done..|by rewrite Ep].
Qed.

Lemma ev_fail_wf t e s s' : tasks_wf s -> ev_fail t e s = Some s' -> tasks_wf s'.
Proof.
  intros Hwf. unfold ev_fail. destruct (ts_tasks s !! t) as [q|] eqn:Ht; [cbn|done].
  destruct (rq_phase q) eqn:Ep; try done; intros [= <-]; (apply finish_wf; [done..|by rewrite Ep]).
Qed.

Lemma ev_cancel_wf t s s' : tasks_wf s -> ev_cancel t s = Some s' -> tasks_wf s'.
Proof.
  intros Hwf. unfold ev_cancel. destruct (ts_tasks s !! t) as [q|] eqn:Ht; [cbn|done].
  destruct (rq_phase q) eqn:Ep; try done; intros [= <-]; try (apply finish_wf; [done..|by rewrite Ep]).
  assert (Hl : ts_lock s <> Some t).
  { rewrite (tw_lock s Hwf). intros (q' & Hq' & Ha). simplify_eq. by rewrite Ep in Ha. }
  eapply (wf_update t); [exact Hwf|done|done|done|..]; cbn.
  - intros u Hu. rewrite list_elem_of_filter. naive_solver.
  - rewrite list_elem_of_filter. naive_solver.
  - apply NoDup_filter, (tw_nodup s Hwf).
  - by eapply log_ok_same; [apply wf_log, Hwf|..].
Qed.

Lemma run_event_wf ev s s' : tasks_wf s -> run_event ev s = Some s' -> tasks_wf s'.
Proof.
  intros Hwf. destruct ev; cbn; eauto using ev_start_wf, ev_wake_wf, ev_drained_wf, ev_reply_wf, ev_fail_wf, ev_cancel_wf;
    intros [= <-]; by apply wf_same_tasks.
Qed.

Lemma run_events_wf evs s s' : tasks_wf s -> run_events evs s = Some s' -> tasks_wf s'.
Proof.
  revert s; induction evs as [|ev evs IH]; intros s Hwf; cbn; [by intros [= <-]|].
  destruct (run_event ev s) eqn:E; [|done]. eapply IH, run_event_wf; eauto.
Qed.

Lemma tasks_init_wf : tasks_wf tasks_init.
Proof.
  assert (Hn : forall P t, ~ in_phase P t tasks_init) by (intros P t (q & Hq & _); by apply (lookup_empty_Some (M := gmap nat) t q)).
  split; [|..|apply NoDup_nil_2|by exists 0]; intros t; (split; [|by intros ?%Hn]); cbn; [done|by intros ?%not_elem_of_nil].
Qed.

(** ** Whose reply it is *)

(** [t] has written its request under [id]. *)
Definition wrote_as (t : nat) (q : request_task) (id : Z) (log : list log_entry) : Prop :=
  exists line, build_request id (rq_cmd q) (rq_fields q) ≫= encode_json_line = Ok line /\ Wrote t id line ∈ log.

Definition owns (log : list log_entry) (t : nat) (q : request_task) : Prop :=
  match rq_phase q with
  | Draining id | Reading id => wrote_as t q id log
  | Ended (Returned (Ok r)) =>
      exists id, wrote_as t q id log /\ py_eq_int (pget "request_id" r) id /\ py_bool (pget_def "ok" (PBool false) r)
  | _ => True
  end.

Definition all_own (s : client_tasks) : Prop := map_Forall (owns (ts_log s)) (ts_tasks s).

Lemma owns_app log l t q : owns log t q -> owns (log ++ l) t q.
Proof.
  assert (Hw : forall id, wrote_as t q id log -> wrote_as t q id (log ++ l)).
  { intros id (line & Hl & Hin). exists line. split; [done|]. apply elem_of_app; by left. }
  unfold owns. destruct (rq_phase q) as [|id|id|[[r|e]|]]; auto. intros (id & Hr & H1 & H2). eauto.
Qed.

Lemma all_own_update t q l s s' :
  all_own s -> ts_tasks s' = <[t := q]> (ts_tasks s) -> ts_log s' = ts_log s ++ l -> owns (ts_log s') t q -> all_own s'.
Proof.
  intros Hs Ht Hl Hq. unfold all_own. rewrite Ht. apply map_Forall_insert_2; [done|].
  rewrite Hl. intros u q' Hu. apply owns_app, (Hs u q' Hu).
Qed.

Lemma all_own_enter t q s : all_own s -> rq_phase q = Waiting -> all_own (enter t q s).
Proof.
  intros Hs Hq. assert (Hend : forall e s', ts_tasks s' = <[t := set_phase_of (Ended (Returned (Raise e))) q]> (ts_tasks s) ->
    ts_log s' = ts_log s -> all_own s').
  { intros e s' Ht Hl. by eapply (all_own_update t _ [] s); [..|rewrite Hl, app_nil_r|]. }
  unfold enter. destruct (ts_open s); [|by eapply Hend]. destruct (_ ≫= _) as [line|e] eqn:E; [|by eapply Hend].
  eapply all_own_update; [done|done|done|]. exists line. cbn. split; [done|]. apply elem_of_app. right. by left.
Qed.

Lemma all_own_finish t q o s :
  all_own s -> (owns (ts_log s) t (set_phase_of (Ended o) q)) -> all_own (finish t q o s).
Proof. intros Hs Ho. eapply all_own_update; [done..|]. by apply owns_app. Qed.

Lemma all_own_put t q s : all_own s -> owns (ts_log s) t q -> all_own (put_task t q s).
Proof. intros Hs Ho. by apply map_Forall_insert_2. Qed.

Lemma all_own_queue l s : all_own (set_queue l s) <-> all_own s.
Proof. done. Qed.

Lemma run_event_own ev s s' : tasks_wf s -> all_own s -> run_event ev s = Some s' -> all_own s'.
Proof.
  intros Hwf Hs. destruct ev as [t cmd fields|t|t|t line|t e|t| |]; cbn; [..|by intros [= <-]|by intros [= <-]].
  - unfold ev_start. destruct (ts_tasks s !! t); [done|].
    repeat case_match; intros [= <-]; (try by apply all_own_enter); try (apply all_own_queue); by apply all_own_put.
  - unfold ev_wake. destruct (ts_lock s); [done|]. destruct (ts_queue s) as [|t' queue] eqn:Eq; [done|].
    case_decide as He; [subst t'|done]. destruct (ts_tasks s !! t) as [q|] eqn:Ht; [|done]. intros [= <-].
    apply all_own_enter; [done|]. apply (in_phase_functional t s); [|done]. apply (tw_queue s Hwf). rewrite Eq. by left.
  - unfold ev_drained. destruct (ts_tasks s !! t) as [q|] eqn:Ht; [cbn|done]. pose proof (Hs t q Ht) as Ho.
    unfold owns in Ho. destruct (rq_phase q); try done.
    destruct (ts_open s); intros [= <-]; [by apply all_own_put|by apply all_own_finish].
  - unfold ev_reply. destruct (ts_tasks s !! t) as [q|] eqn:Ht; [cbn|done]. pose proof (Hs t q Ht) as Ho.
    unfold owns in Ho. destruct (rq_phase q) as [| |id|]; try done. intros [= <-]. apply all_own_finish; [done|].
    unfold owns. cbn. destruct (accept_reply id line) as [r|] eqn:E; [|done]. apply accept_reply_ok in E as (_ & H1 & H2).
    exists id. done.
  - unfold ev_fail. destruct (ts_tasks s !! t) as [q|]; [cbn|done].
    destruct (rq_phase q); try done; intros [= <-]; by apply all_own_finish.
  - unfold ev_cancel. destruct (ts_tasks s !! t) as [q|]; [cbn|done].
    destruct (rq_phase q); try done; intros [= <-]; try (apply all_own_queue, all_own_put; done); by apply all_own_finish.
Qed.

Lemma run_events_own evs s s' : tasks_wf s -> all_own s -> run_events evs s = Some s' -> all_own s'.
Proof.
  revert s; induction evs as [|ev evs IH]; intros s Hwf Hs; cbn; [by intros [= <-]|].
  destruct (run_event ev s) eqn:E; [|done]. eapply IH; eauto using run_event_wf, run_event_own.
Qed.

(** In a well-bracketed log the ids grow, so no two requests share one. *)
Lemma serialised_above cur lo log r t id line :
  serialised cur lo log = Some r -> Wrote t id line ∈ log -> lo < id.
Proof.
  revert cur lo; induction log as [|[u i l|u] log IH]; intros cur lo; [by intros _ ?%not_elem_of_nil|..]; cbn.
  - destruct cur; [done|]. destruct (Z.ltb_spec lo i); [|done]. intros Hs [?|Hin]%elem_of_cons; simplify_eq; [done|].
    specialize (IH _ _ Hs Hin). lia.
  - destruct cur; [|done]. case_decide; [|done]. intros Hs [[=]|Hin]%elem_of_cons. eauto.
Qed.

Lemma serialised_once cur lo log r t u id line line' :
  serialised cur lo log = Some r -> Wrote t id line ∈ log -> Wrote u id line' ∈ log -> t = u.
Proof.
  revert cur lo; induction log as [|[v i l|v] log IH]; intros cur lo; [by intros _ ?%not_elem_of_nil|..]; cbn.
  - destruct cur; [done|]. destruct (Z.ltb_spec lo i); [|done]. intros Hs.
    intros [?|Hin]%elem_of_cons [?|Hin']%elem_of_cons; simplify_eq; [done|..|by eapply IH].
    + pose proof (serialised_above _ _ _ _ _ _ _ Hs Hin'). lia.
    + pose proof (serialised_above _ _ _ _ _ _ _ Hs Hin). lia.
  - destruct cur; [|done]. case_decide; [|done]. intros Hs [[=]|Hin]%elem_of_cons [[=]|Hin']%elem_of_cons. by eapply IH.
Qed.

Lemma py_eq_int_functional v n m : py_eq_int v n -> py_eq_int v m -> n = m.
Proof.
  destruct v as [| | |f| | |]; cbn [py_eq_int]; try done; try (rewrite !Is_true_true, !Z.eqb_eq; congruence).
  destruct f as [| | |sg mm e]; try done; rewrite !Is_true_true, !Z.eqb_eq; [congruence|].
  intros -> H. apply Z.mul_cancel_r in H; [done|]. pose proof (Z.pow_pos_nonneg 2 (Z.max 0 (- e))). lia.
Qed.

Lemma reachable_own evs s : run_events evs tasks_init = Some s -> tasks_wf s /\ all_own s.
Proof.
  intros Hr. split; [by eapply run_events_wf, Hr; apply tasks_init_wf|].
  eapply run_events_own, Hr; [apply tasks_init_wf|]. apply map_Forall_empty.
Qed.

(** C10: however requests, cancellations, time-outs, closes and reconnects
    interleave, the lock keeps the exchanges apart: at most one task is between
    its write and its reply, the waiters are exactly the queue, and in the log
    of the wire each request is over before the next is written, under a larger
    id.  So a reply that a request returns answers that request: it carries the
    id under which the task's own line was written, and no other task has
    written a line under that id. *)
Theorem exchanges_serialised evs s :
  run_events evs tasks_init = Some s ->
  (forall t u, in_phase active t s -> in_phase active u s -> t = u) /\
  (forall t, t ∈ ts_queue s <-> in_phase (eq Waiting) t s) /\ NoDup (ts_queue s) /\
  (exists id, serialised None 0 (ts_log s) = Some (ts_lock s, id) /\ id <= ts_request_id s) /\
  (forall t q r, ts_tasks s !! t = Some q -> rq_phase q = Ended (Returned (Ok r)) ->
   exists id, wrote_as t q id (ts_log s) /\ py_eq_int (pget "request_id" r) id /\
     forall u id' line', Wrote u id' line' ∈ ts_log s -> py_eq_int (pget "request_id" r) id' -> u = t).
Proof.
  intros [Hwf Hown]%reachable_own. split_and!; [|apply Hwf..|].
  - intros t u Ht%(tw_lock s Hwf) Hu%(tw_lock s Hwf). congruence.
  - intros t q r Hq Hp. pose proof (Hown t q Hq) as Ho. unfold owns in Ho. rewrite Hp in Ho.
    destruct Ho as (id & Hw & Hid & _). exists id. split_and!; [done..|]. intros u id' line' Hu Hid'.
    pose proof (py_eq_int_functional _ _ _ Hid Hid') as <-. destruct Hw as (line & _ & Ht).
    destruct (tw_log s Hwf) as (lo & Hs & _). by eapply serialised_once.
Qed.

(** ** Every request ends *)

Definition weight (p : phase) : nat :=
  match p with Waiting => 3 | Draining _ => 2 | Reading _ => 1 | Ended _ => 0 end.

(** The steps the tasks of [s] can still make. *)
Definition measure (s : client_tasks) : nat := map_fold (fun _ q n => (weight (rq_phase q) + n)%nat) 0%nat (ts_tasks s).

(** What happens to the calls already made. *)
Definition progress (ev : task_event) : Prop :=
  match ev with EvStart _ _ _ | EvClose | EvOpen => False | _ => True end.

Definition settled (s : client_tasks) : Prop := forall t q, ts_tasks s !! t = Some q -> weight (rq_phase q) = 0%nat.

(** The event loop can go on: a waiter is due, [drain] returns, or the time of
    [readline] is up. *)
Definition can_go_on (s : client_tasks) : Prop :=
  exists u, is_Some (run_event (EvWake u) s) \/ is_Some (run_event (EvDrained u) s) \/
    is_Some (run_event (EvFail u (Exn TimeoutError "")) s).

Lemma measure_update t q q' s s' :
  ts_tasks s !! t = Some q -> ts_tasks s' = <[t := q']> (ts_tasks s) ->
  (measure s' + weight (rq_phase q) = measure s + weight (rq_phase q'))%nat.
Proof.
  intros Hq Ht. unfold measure. rewrite Ht. rewrite <- (insert_delete_id _ _ _ Hq) at 2.
  rewrite <- insert_delete_eq, !map_fold_insert_L; try apply lookup_delete_eq; intros; lia.
Qed.

Lemma progress_decreases ev s s' :
  tasks_wf s -> progress ev -> run_event ev s = Some s' -> (measure s' < measure s)%nat.
Proof.
  intros Hwf Hp. assert (Hupd : forall t q q' s', ts_tasks s !! t = Some q -> ts_tasks s' = <[t := q']> (ts_tasks s) ->
    (weight (rq_phase q') < weight (rq_phase q))%nat -> (measure s' < measure s)%nat).
  { intros t q q' s1 Hq Ht Hw. pose proof (measure_update t q q' s s1 Hq Ht). lia. }
  destruct ev as [|t|t|t line|t e|t| |]; try done; cbn.
  1: { unfold ev_wake. destruct (ts_lock s); [done|]. destruct (ts_queue s) as [|t' queue] eqn:Eq; [done|].
    case_decide as He; [subst t'|done]. destruct (ts_tasks s !! t) as [q|] eqn:Ht; [|done]. intros [= <-].
    assert (Hq : rq_phase q = Waiting).
    { apply (in_phase_functional t s); [|done]. apply (tw_queue s Hwf). rewrite Eq. by left. }
    destruct (enter_cases t q (set_queue queue s)) as [[o ->]|[line ->]];
      (eapply Hupd; [exact Ht|done|rewrite Hq; cbn; lia]). }
  all: unfold ev_drained, ev_reply, ev_fail, ev_cancel; destruct (ts_tasks s !! t) as [q|] eqn:Ht; [cbn|done];
    destruct (rq_phase q) eqn:Ep; try done; try destruct (ts_open s); intros [= <-];
    (eapply Hupd; [exact Ht|done|rewrite Ep; cbn; lia]).
Qed.

Lemma progress_bounded evs s s' :
  tasks_wf s -> Forall progress evs -> run_events evs s = Some s' -> (length evs + measure s' <= measure s)%nat.
Proof.
  revert s; induction evs as [|ev evs IH]; intros s Hwf Hp; cbn; [intros [= <-]; lia|].
  apply Forall_cons in Hp as [Hev Hp]. destruct (run_event ev s) as [s1|] eqn:E; [|done]. intros Hr. cbn in Hr.
  pose proof (progress_decreases _ _ _ Hwf Hev E). pose proof (IH s1 (run_event_wf _ _ _ Hwf E) Hp Hr). lia.
Qed.

Lemma not_stuck s : tasks_wf s -> settled s \/ can_go_on s.
Proof.
  intros Hwf. destruct (ts_lock s) as [u|] eqn:El; [right; exists u; right|].
  - apply (tw_lock s Hwf) in El as (q & Hq & Ha). cbn. unfold ev_drained, ev_fail. rewrite Hq. cbn.
    destruct (rq_phase q); [done|left|right|done]; [destruct (ts_open s)|]; by eexists.
  - destruct (ts_queue s) as [|u queue] eqn:Eq; [left|right; exists u; left].
    + intros t q Hq. destruct (rq_phase q) eqn:Ep; [|exfalso..|done]; exfalso.
      * assert (Hin : t ∈ ts_queue s) by (apply (tw_queue s Hwf); by exists q). rewrite Eq in Hin.
        by apply not_elem_of_nil in Hin.
      * assert (Hl : ts_lock s = Some t) by (apply (tw_lock s Hwf); exists q; by rewrite Ep). congruence.
      * assert (Hl : ts_lock s = Some t) by (apply (tw_lock s Hwf); exists q; by rewrite Ep). congruence.
    + assert (Hin : u ∈ ts_queue s) by (rewrite Eq; by left). apply (tw_queue s Hwf) in Hin as (q & Hq & _).
      cbn. unfold ev_wake. rewrite El, Eq, decide_True, Hq by done. cbn. by eexists.
Qed.

(** C11: no request hangs and none is starved: from any reachable state, the
    calls already made take at most [measure] further steps, in whatever order
    the event loop takes them, and as long as one of them has not ended, a step
    is possible (the wake-up of the first waiter, the end of the holder's
    [drain], or of the time its [readline] has). *)
Theorem requests_return evs s more s' :
  run_events evs tasks_init = Some s -> Forall progress more -> run_events more s = Some s' ->
  (length more <= measure s)%nat /\ (settled s' \/ can_go_on s').
Proof.
  intros [Hwf _]%reachable_own Hp Hr. pose proof (progress_bounded _ _ _ Hwf Hp Hr).
  split; [lia|]. apply not_stuck. by eapply run_events_wf.
Qed.

(** ** The connection is taken away *)

(** Where a request that waited at [close] can be. *)
Definition overtaken (t : nat) (s : client_tasks) : Prop :=
  ts_open s = false /\ in_phase (fun p => p = Waiting \/ p = Ended (no_attribute "write") \/ p = Ended Cancelled) t s.

Lemma overtaken_step t ev s s' : overtaken t s -> ev <> EvOpen -> run_event ev s = Some s' -> overtaken t s'.
Proof.
  intros [Ho Ht] Hev. unfold overtaken.
  assert (Hupd : forall u q s1, ts_tasks s1 = <[u := q]> (ts_tasks s) ->
    (u = t -> rq_phase q = Waiting \/ rq_phase q = Ended (no_attribute "write") \/ rq_phase q = Ended Cancelled) ->
    in_phase (fun p => p = Waiting \/ p = Ended (no_attribute "write") \/ p = Ended Cancelled) t s1).
  { intros u q s1 Hs1 Hu. apply (in_phase_insert _ u t q s s1 Hs1).
    destruct (decide (t = u)) as [->|Hne]; [left; split; [done|by apply Hu]|by right]. }
  destruct Ht as (q & Hq & Hp).
  assert (Hact : forall u q', ts_tasks s !! u = Some q' -> active (rq_phase q') -> u <> t).
  { intros u q' Hu Ha ->. simplify_eq. destruct (rq_phase q); naive_solver. }
  destruct ev as [u cmd fields|u|u|u line|u e|u| |]; cbn; try done.
  - unfold ev_start. destruct (ts_tasks s !! u) eqn:Eu; [done|]. assert (u <> t) by congruence.
    rewrite Ho. cbn. destruct (check_keywords _ _ _); intros [= <-]; (split; [done|]; by eapply Hupd).
  - unfold ev_wake. destruct (ts_lock s); [done|]. destruct (ts_queue s) as [|t' queue]; [done|].
    case_decide; [|done]. destruct (ts_tasks s !! u) as [q'|]; [|done]. intros [= <-].
    unfold enter. cbn. rewrite Ho. split; [done|]. eapply Hupd; [done|]. intros _. right; by left.
  - unfold ev_drained. destruct (ts_tasks s !! u) as [q'|] eqn:Eu; [cbn|done].
    destruct (rq_phase q') eqn:Ep; try done. rewrite Ho. intros [= <-]. split; [done|]. eapply Hupd; [done|].
    intros ->. by destruct (Hact t q' Eu); [rewrite Ep|].
  - unfold ev_reply. destruct (ts_tasks s !! u) as [q'|] eqn:Eu; [cbn|done].
    destruct (rq_phase q') eqn:Ep; try done. intros [= <-]. split; [done|]. eapply Hupd; [done|].
    intros ->. by destruct (Hact t q' Eu); [rewrite Ep|].
  - unfold ev_fail. destruct (ts_tasks s !! u) as [q'|] eqn:Eu; [cbn|done].
    destruct (rq_phase q') eqn:Ep; try done; intros [= <-]; (split; [done|]; eapply Hupd; [done|]);
    intros ->; (by destruct (Hact t q' Eu); [rewrite Ep|]).
  - unfold ev_cancel. destruct (ts_tasks s !! u) as [q'|] eqn:Eu; [cbn|done].
    destruct (rq_phase q') eqn:Ep; try done; intros [= <-]; (split; [done|]; eapply Hupd; [done|]);
    intros ->; cbn; auto.
  - intros [= <-]. split; [done|]. by exists q.
Qed.

Lemma overtaken_run t evs s s' :
  overtaken t s -> Forall (fun ev => ev <> EvOpen) evs -> run_events evs s = Some s' -> overtaken t s'.
Proof.
  revert s; induction evs as [|ev evs IH]; intros s Hs Hev; cbn; [by intros [= <-]|].
  apply Forall_cons in Hev as [H1 H2]. destruct (run_event ev s) eqn:E; [|done]. eauto using overtaken_step.
Qed.

(** C36: a request that has passed the check for a connection and waits for the
    lock when [close] runs never ends with a [DeviceClientError], as one that
    starts after [close] does: unless it is cancelled or the client reconnects
    first, it gets the lock and dies with an [AttributeError] on
    [self._writer.write]. *)
Theorem close_overtakes_waiter evs s t more s' o q :
  run_events evs tasks_init = Some s -> t ∈ ts_queue s ->
  Forall (fun ev => ev <> EvOpen) more -> run_events (EvClose :: more) s = Some s' ->
  ts_tasks s' !! t = Some q -> rq_phase q = Ended o -> o = no_attribute "write" \/ o = Cancelled.
Proof.
  intros [Hwf _]%reachable_own Ht Hm Hr Hq Hp. apply (tw_queue s Hwf) in Ht as (q0 & Hq0 & Hw).
  assert (Ho : overtaken t (set_open false s)) by (split; [done|]; exists q0; split; [done|by left]).
  destruct (overtaken_run t more _ _ Ho Hm Hr) as (_ & q' & Hq' & Hc). simplify_eq.
  rewrite Hp in Hc. destruct Hc as [[=]|[[= ->]|[= ->]]]; auto.
Qed.

(** ** One request at a time *)

(** The schedule of a request that nobody disturbs, on the transport [n]. *)
Definition undisturbed {net} `{!Transport net} (t : nat) (cmd : string) (fields : pydict) (n : net) (s : client_tasks) :
    list task_event :=
  EvStart t cmd fields ::
  match ev_start t cmd fields s with
  | Some s1 =>
      match rq_phase <$> ts_tasks s1 !! t, build_request (ts_request_id s1) cmd fields ≫= encode_json_line with
      | Some (Draining _), Ok line =>
          match tr_send line n with
          | (_, Raise e) => [EvFail t e]
          | (n1, Ok _) =>
              [EvDrained t; match (tr_recv n1).2 with Ok reply => EvReply t reply | Raise e => EvFail t e end]
          end
      | _, _ => []
      end
  | None => []
  end.

(** The run is over and the state is explicit. *)
Ltac ended :=
  cbn; eexists _, _; split_and!; [reflexivity|cbn; apply lookup_insert_eq|reflexivity|..]; cbn; congruence.

(** When no other task uses the client, the interleaved model does what
    the sequential one does: the request ends with the result of
    [dc_request], having taken the same id, and leaves the lock free. *)
Lemma lone_request {net} `{!Transport net} t cmd fields (c : DeviceClient net) s :
  ts_open s = dc_open c -> ts_request_id s = dc_request_id c -> ts_lock s = None -> ts_queue s = [] ->
  ts_tasks s !! t = None ->
  exists s' q, run_events (undisturbed t cmd fields (dc_net c) s) s = Some s' /\
    ts_tasks s' !! t = Some q /\ rq_phase q = Ended (Returned (dc_request cmd fields c).2) /\
    ts_open s' = dc_open (dc_request cmd fields c).1 /\ ts_request_id s' = dc_request_id (dc_request cmd fields c).1 /\
    ts_lock s' = None /\ ts_queue s' = [].
Proof.
  intros Ho Hi Hl Hq Ht. unfold undisturbed, dc_request; open_M.
  cbn [run_events run_event]. unfold ev_start. rewrite Ht.
  destruct (check_keywords _ _ _) as [[]|e];
    [|cbn; rewrite lookup_insert_eq; ended].
  rewrite Ho. destruct (dc_open c) eqn:Eo; cbn [negb];
    [|cbn; rewrite lookup_insert_eq; ended].
  rewrite Hl, Hq. unfold enter. rewrite Ho, Hi. cbn [rq_cmd rq_fields].
  destruct (build_request _ _ _) as [msg|e] eqn:Eb; cbn [mbind res_bind];
    [|cbn; rewrite lookup_insert_eq; ended].
  destruct (encode_json_line msg) as [line|e] eqn:Ee;
    [|cbn; rewrite lookup_insert_eq; ended].
  cbn [ts_tasks ts_request_id]. rewrite lookup_insert_eq. cbn. rewrite Eb. cbn. rewrite Ee.
  unfold on_net. cbn. destruct (tr_send line (dc_net c)) as [n1 [[]|e]]; cbn.
  - destruct (tr_recv n1) as [n2 [reply|e]]; cbn; unfold ev_drained, ev_reply, ev_fail; cbn;
      rewrite lookup_insert_eq; cbn; rewrite ?Ho; cbn; rewrite lookup_insert_eq; cbn;
      ended.
  - unfold ev_fail; cbn. rewrite lookup_insert_eq. cbn.
    ended.
Qed.

(** ** Witnesses *)

(** Two requests: the second waits, the first is answered. *)
Definition two_requests : list task_event :=
  [EvOpen; EvStart 1 "ping" []; EvStart 2 "stop_all" []; EvDrained 1;
   EvReply 1 (line_of [("ok"%string, PBool true); ("request_id"%string, PInt 1)])].

Definition two_requests_end : client_tasks := default tasks_init (run_events two_requests tasks_init).

Lemma two_requests_run : run_events two_requests tasks_init = Some two_requests_end.
Proof. vm_compute. reflexivity. Qed.

(** The first request has its reply, the second is still in the queue. *)
Lemma exchanges_serialised_witness :
  ts_queue two_requests_end = [2%nat] /\
  exists r, rq_phase <$> (ts_tasks two_requests_end !! 1%nat) = Some (Ended (Returned (Ok r))) /\
    exists id, py_eq_int (pget "request_id" r) id /\
      forall u id' line', Wrote u id' line' ∈ ts_log two_requests_end -> py_eq_int (pget "request_id" r) id' -> u = 1%nat.
Proof.
  split; [reflexivity|]. eexists. split; [vm_compute; reflexivity|].
  destruct (exchanges_serialised two_requests two_requests_end two_requests_run) as (_ & _ & _ & _ & Hown).
  edestruct (Hown 1%nat) as (id & _ & Hid); [vm_compute; reflexivity|reflexivity|]. exists id. exact Hid.
Defined.

Lemma requests_return_witness :
  exists s', run_events [EvWake 2; EvDrained 2] two_requests_end = Some s' /\
    (2 <= measure two_requests_end)%nat /\ (settled s' \/ can_go_on s').
Proof.
  eexists. split; [vm_compute; reflexivity|].
  eapply (requests_return two_requests two_requests_end [EvWake 2; EvDrained 2]);
    [exact two_requests_run|repeat constructor|vm_compute; reflexivity].
Defined.

Lemma close_overtakes_waiter_witness :
  exists s' q o, run_events [EvClose; EvWake 2] two_requests_end = Some s' /\
    ts_tasks s' !! 2%nat = Some q /\ rq_phase q = Ended o /\ (o = no_attribute "write" \/ o = Cancelled).
Proof.
  eexists _, _, _. split; [vm_compute; reflexivity|]. split; [vm_compute; reflexivity|]. split; [reflexivity|].
  eapply (close_overtakes_waiter two_requests two_requests_end 2 [EvWake 2]);
    [exact two_requests_run|left|repeat constructor; done|vm_compute; reflexivity|vm_compute; reflexivity|reflexivity].
Defined.

(** On a connection whose peer says [ok] to the first request. *)
Lemma lone_request_witness :
  exists s' q r,
    run_events (undisturbed 1 "stop_all" [] [line_of [("ok"%string, PBool true); ("request_id"%string, PInt 1)]]
                  (set_open true tasks_init)) (set_open true tasks_init) = Some s' /\
    ts_tasks s' !! 1%nat = Some q /\ rq_phase q = Ended (Returned r) /\ is_ok r = true.
Proof.
  destruct (lone_request 1 "stop_all" []
    (with_open true (client_init [] [] [line_of [("ok"%string, PBool true); ("request_id"%string, PInt 1)]]))
    (set_open true tasks_init)) as (s' & q & Hr & Hq & Hp & _); try reflexivity.
  eexists s', q, _. split; [exact Hr|]. split; [exact Hq|]. split; [exact Hp|]. vm_compute. reflexivity.
Defined.
