(* ===== verification/Probe.v ===== *)
(** The command-line probe ([tools/network_probe.py]).

    The sockets are an interface, [ProbeNet].  The state is the sockets, what
    was printed, and a history of what went over them, which the code does not
    keep and the theorems speak about.  [args] is the namespace [parse_args]
    returns. *)

From Stdlib Require Import ZArith SpecFloat Lia Ascii String Strings.Byte.
From stdpp Require Import base list sets strings.
From S2P Require Import Prelude PyFloat PyValue Json Control Packets SignalGen FakeServer DeviceClient.

Open Scope Z_scope.

(** ** Sockets and state *)

Inductive udp_sock := IqSock | PsdSock | StatusSock.

(** [_udp_socket], [socket.create_connection], [sendall], [readline],
    [settimeout] with [recvfrom(65535)], and leaving the [with] block. *)
Class ProbeNet (net : Type) := {
  pn_bind : udp_sock -> string -> Z -> M net unit;
  pn_connect : string -> Z -> float -> M net unit;
  pn_sendall : text -> M net unit;
  pn_readline : M net text;
  pn_recvfrom : udp_sock -> float -> M net (list byte * (string * Z));
  pn_close : net -> net;
}.

Inductive probe_event :=
  | Sent (line : text)
  | Got (line : text)
  | Datagram (sock : udp_sock) (data : list byte).

Record probe_state (net : Type) := MkProbe {
  pr_net : net;
  pr_out : list string;
  pr_log : list probe_event;
}.
Arguments MkProbe {net}.
Arguments pr_net {net}.
Arguments pr_out {net}.
Arguments pr_log {net}.

Record probe_args := MkArgs {
  pa_host : string;
  pa_control_port : Z;
  pa_bind_host : string;
  pa_destination_ip : option string;
  pa_iq_port : Z;
  pa_psd_port : Z;
  pa_status_port : Z;
  pa_timeout : float;
  pa_skip_rx : bool;
  pa_skip_psd : bool;
  pa_skip_status : bool;
  pa_adc_channel : Z;
  pa_frequency_hz : Z;
  pa_iq_rate : Z;
  pa_bandwidth_hz : Z;
  pa_mode : string;
}.

(** [parse_args([host])]. *)
Definition default_args (host : string) : probe_args := {|
  pa_host := host; pa_control_port := 9000; pa_bind_host := "0.0.0.0"; pa_destination_ip := None;
  pa_iq_port := 9001; pa_psd_port := 9002; pa_status_port := 9003; pa_timeout := f_of_Z 3;
  pa_skip_rx := false; pa_skip_psd := false; pa_skip_status := false; pa_adc_channel := 0;
  pa_frequency_hz := 98500000; pa_iq_rate := 1000000; pa_bandwidth_hz := 250000; pa_mode := "WFM" |}.

(** ** Checking a reply *)

Definition probe_reply_error {A} (cmd : string) (response : pydict) : res A :=
  match py_or (pget "error" response) (PDict []) with
  | PDict error =>
      raise ProbeError
        (cmd +:+ ": " +:+ py_str (pget_def "code" (PStr "error") error) +:+ ": " +:+
           py_str (pget_def "message" (PStr "") error))
  | v => raise AttributeError ("'" +:+ type_name v +:+ "' object has no attribute 'get'")
  end.

(** The part of [_request] after [readline]. *)
Definition probe_accept (cmd : string) (request_id : Z) (line : text) : res pydict :=
  match line with
  | [] => raise ProbeError (cmd +:+ ": device closed TCP control connection")
  | _ =>
      response ← decode_json_line line;
      if negb (py_eq_int (pget "request_id" response) request_id)
      then raise ProbeError
             (cmd +:+ ": response request_id " +:+ py_str (pget "request_id" response) +:+ " != " +:+
                py_str (PInt request_id))
      else if negb (py_bool (pget_def "ok" (PBool false) response)) then probe_reply_error cmd response
      else Ok response
  end.

(** [sorted] on strings. *)
Fixpoint insert_sorted (s : string) (l : list string) : list string :=
  match l with
  | [] => [s]
  | x :: l' => if String.leb s x then s :: l else x :: insert_sorted s l'
  end.

Definition sorted_strings (l : list string) : list string := foldr insert_sorted [] l.

Definition summary_line (prefix : string) (response : pydict) : string :=
  let keys := String.concat ", "
    (sorted_strings (filter (fun k => k ∉ ["ok"; "request_id"]%string) (dkeys response))) in
  "OK " +:+ prefix +:+ ": request_id=" +:+ py_str (pget "request_id" response) +:+ " fields=[" +:+ keys +:+ "]".

Definition hello_udp (args : probe_args) : pydict :=
  let udp := [("iq_port", PInt (pa_iq_port args)); ("psd_port", PInt (pa_psd_port args));
              ("status_port", PInt (pa_status_port args))]%string in
  match pa_destination_ip args with
  | Some ip => if String.eqb ip "" then udp else dset "destination_ip"%string (PStr ip) udp
  | None => udp
  end.

Definition hello_request (args : probe_args) : pydict :=
  [("protocol_version", PInt 1); ("client_name", PStr "network-probe"); ("udp", PDict (hello_udp args))]%string.

Definition set_rx_request (args : probe_args) : pydict :=
  [("stream_id", PInt 0); ("adc_channel", PInt (pa_adc_channel args)); ("frequency_hz", PInt (pa_frequency_hz args));
   ("mode", PStr (pa_mode args)); ("iq_sample_rate_hz", PInt (pa_iq_rate args));
   ("bandwidth_hz", PInt (pa_bandwidth_hz args)); ("sample_format", PStr "SC16_LE"); ("enable", PBool true)]%string.

Definition set_psd_request : pydict :=
  [("psd_id", PInt 0); ("source", PStr "adc0"); ("enable", PBool true); ("start_frequency_hz", PInt 500000);
   ("stop_frequency_hz", PInt 108000000); ("fft_size", PInt 16384); ("output_bins", PInt 4096); ("fps", PInt 10);
   ("sample_format", PStr "I16_DBFS_Q8")]%string.

Definition udp_line (prefix : string) (data : list byte) (addr : string * Z) : string :=
  "OK " +:+ prefix +:+ " UDP: " +:+ py_str (PInt (zlen data)) +:+ " bytes from " +:+ addr.1 +:+ ":" +:+ py_str (PInt addr.2).

Definition iq_line (data : list byte) (addr : string * Z) (h : SdrIqHeader) : string :=
  udp_line "IQ" data addr +:+ " seq=" +:+ py_str (PInt (iq_seq h)) +:+ " samples=" +:+ py_str (PInt (iq_sample_count h)) +:+
    " rate=" +:+ py_str (PInt (iq_iq_sample_rate_hz h)) +:+ " payload=" +:+ py_str (PInt (iq_payload_bytes h)).

Definition psd_line (data : list byte) (addr : string * Z) (h : SdrPsdHeader) : string :=
  udp_line "PSD" data addr +:+ " frame=" +:+ py_str (PInt (psd_frame_seq h)) +:+ " segment=" +:+
    py_str (PInt (psd_segment_index h + 1)) +:+ "/" +:+ py_str (PInt (psd_segment_count h)) +:+
    " bins=" +:+ py_str (PInt (psd_bin_count h)) +:+ "/" +:+ py_str (PInt (psd_total_bins h)).

(** ** The run *)

Section Probe.
Context {net : Type} `{!ProbeNet net}.
Abbreviation state := (probe_state net).

Definition on_sockets {A} (m : M net A) : M state A := fun s =>
  let '(n, r) := m (pr_net s) in (MkProbe n (pr_out s) (pr_log s), r).

Definition probe_print (line : string) : M state unit :=
  M_modify (fun s => MkProbe (pr_net s) (pr_out s ++ [line]) (pr_log s)).

Definition note (ev : probe_event) : M state unit :=
  M_modify (fun s => MkProbe (pr_net s) (pr_out s) (pr_log s ++ [ev])).

Definition probe_request (request_id : Z) (cmd : string) (fields : pydict) : M state pydict :=
  message ← M_lift (build_request request_id cmd fields);
  line ← M_lift (encode_json_line message);
  on_sockets (pn_sendall line) ;;
  note (Sent line) ;;
  reply ← on_sockets pn_readline;
  note (Got reply) ;;
  M_lift (probe_accept cmd request_id reply).

Definition probe_recv (sock : udp_sock) (label : string) (timeout_s : float) : M state (list byte * (string * Z)) :=
  packet ← M_try (on_sockets (pn_recvfrom sock timeout_s))
    (fun e => if exn_isa (exn_cls e) TimeoutError
              then M_raise ProbeError (label +:+ ": timed out waiting for UDP packet")
              else M_lift (Raise e));
  note (Datagram sock packet.1) ;;
  mret packet.

(** [_request] followed by [_print_json_summary]. *)
Definition ask (request_id : Z) (cmd : string) (fields : pydict) : M state unit :=
  response ← probe_request request_id cmd fields;
  probe_print (summary_line cmd response).

Definition probe_status (args : probe_args) : M state unit :=
  '(data, addr) ← probe_recv StatusSock "status" (pa_timeout args);
  probe_print (udp_line "status" data addr).

Definition probe_iq (args : probe_args) : M state unit :=
  '(data, addr) ← probe_recv IqSock "IQ" (pa_timeout args);
  header ← M_lift (iq_unpack (take (Z.to_nat IQ_HEADER_SIZE) data));
  probe_print (iq_line data addr header).

Definition probe_psd (args : probe_args) : M state unit :=
  '(data, addr) ← probe_recv PsdSock "PSD" (pa_timeout args);
  header ← M_lift (psd_unpack (take (Z.to_nat PSD_HEADER_SIZE) data));
  probe_print (psd_line data addr header).

(** The [try] block; [request_id] is the code's variable. *)
Definition probe_session (args : probe_args) : M state Z :=
  let request_id := 1 in
  ask request_id "hello" (hello_request args) ;;
  let request_id := request_id + 1 in
  ask request_id "ping" [("client_time_ms"%string, PInt 0)] ;;
  let request_id := request_id + 1 in
  (if pa_skip_status args then mret tt else probe_status args) ;;
  (if pa_skip_rx args then mret tt else ask request_id "set_rx" (set_rx_request args) ;; probe_iq args) ;;
  let request_id := if pa_skip_rx args then request_id else request_id + 1 in
  (if pa_skip_psd args then mret tt else ask request_id "set_psd" set_psd_request ;; probe_psd args) ;;
  let request_id := if pa_skip_psd args then request_id else request_id + 1 in
  probe_request request_id "stop_all" [] ;;
  probe_print "OK stop_all" ;;
  mret 0.

(** [except (OSError, ValueError, ProbeError)]. *)
Definition probe_caught (e : exn) : bool :=
  exn_isa (exn_cls e) OSError || exn_isa (exn_cls e) ValueError || exn_isa (exn_cls e) ProbeError.

Definition closing {A} (m : M state A) : M state A := fun s =>
  let '(s', r) := m s in (MkProbe (pn_close (pr_net s')) (pr_out s') (pr_log s'), r).

Definition run_probe (args : probe_args) : M state Z :=
  on_sockets (pn_bind IqSock (pa_bind_host args) (pa_iq_port args)) ;;
  on_sockets (pn_bind PsdSock (pa_bind_host args) (pa_psd_port args)) ;;
  on_sockets (pn_bind StatusSock (pa_bind_host args) (pa_status_port args)) ;;
  connected ← M_try
    (probe_print ("TCP connect " +:+ pa_host args +:+ ":" +:+ py_str (PInt (pa_control_port args)) +:+ " ...") ;;
     on_sockets (pn_connect (pa_host args) (pa_control_port args) (pa_timeout args)) ;;
     mret true)
    (fun e =>
       if exn_isa (exn_cls e) OSError then
         probe_print ("FAIL tcp: " +:+ exn_msg e) ;;
         probe_print "Hint: this board must run a PS-side TCP JSON server on port 9000." ;;
         mret false
       else M_lift (Raise e));
  if negb connected then mret 1
  else
    closing
      (M_try (probe_session args)
         (fun e => if probe_caught e then probe_print ("FAIL probe: " +:+ exn_msg e) ;; mret 1
                   else M_lift (Raise e))).

(** ** The plan of a run *)

Inductive probe_step :=
  | Ask (cmd : string) (fields : pydict)
  | Listen (sock : udp_sock).

Definition probe_plan (args : probe_args) : list probe_step :=
  [Ask "hello" (hello_request args); Ask "ping" [("client_time_ms"%string, PInt 0)]] ++
  (if pa_skip_status args then [] else [Listen StatusSock]) ++
  (if pa_skip_rx args then [] else [Ask "set_rx" (set_rx_request args); Listen IqSock]) ++
  (if pa_skip_psd args then [] else [Ask "set_psd" set_psd_request; Listen PsdSock]) ++
  [Ask "stop_all" []].

(** The id a step's successor has. *)
Definition next_id (id : Z) (st : probe_step) : Z := match st with Ask _ _ => id + 1 | Listen _ => id end.

(** The request line of [cmd] under [id] and an answer to it. *)
Definition asked (id : Z) (cmd : string) (fields : pydict) (line : text) : Prop :=
  build_request id cmd fields ≫= encode_json_line = Ok line.

Definition header_ok (sock : udp_sock) (data : list byte) : bool :=
  match sock with
  | IqSock => is_ok (iq_unpack (take (Z.to_nat IQ_HEADER_SIZE) data))
  | PsdSock => is_ok (psd_unpack (take (Z.to_nat PSD_HEADER_SIZE) data))
  | StatusSock => true
  end.

(** The events of a step that succeeds and, below, of one that fails. *)
Definition step_done (id : Z) (st : probe_step) (evs : list probe_event) : Prop :=
  match st with
  | Ask cmd fields =>
      exists line reply, evs = [Sent line; Got reply] /\ asked id cmd fields line /\ is_ok (accept_reply id reply) = true
  | Listen sock => exists data, evs = [Datagram sock data] /\ header_ok sock data = true
  end.

Definition step_failed (id : Z) (st : probe_step) (evs : list probe_event) : Prop :=
  evs = [] \/
  match st with
  | Ask cmd fields =>
      exists line, asked id cmd fields line /\
        (evs = [Sent line] \/ exists reply, evs = [Sent line; Got reply] /\ is_ok (accept_reply id reply) = false)
  | Listen sock => exists data, evs = [Datagram sock data] /\ header_ok sock data = false
  end.

Fixpoint plan_done (id : Z) (plan : list probe_step) (evs : list probe_event) : Prop :=
  match plan with
  | [] => evs = []
  | st :: plan' => exists e1 e2, evs = e1 ++ e2 /\ step_done id st e1 /\ plan_done (next_id id st) plan' e2
  end.

Fixpoint plan_failed (id : Z) (plan : list probe_step) (evs : list probe_event) : Prop :=
  match plan with
  | [] => False
  | st :: plan' =>
      step_failed id st evs \/
      exists e1 e2, evs = e1 ++ e2 /\ step_done id st e1 /\ plan_failed (next_id id st) plan' e2
  end.
End Probe.

(** ** The checks agree with the backend's *)

(** The probe's outcome for a line on which the backend's client has [r]. *)
Definition same_verdict (r r' : res pydict) : Prop :=
  match r, r' with
  | Ok d, Ok d' => d = d'
  | Raise e, Raise e' => e = e' \/ (exn_cls e = DeviceClientError /\ exn_cls e' = ProbeError)
  | _, _ => False
  end.

(** The probe judges a reply as the backend's client does: it accepts the same
    lines with the same contents, and where it refuses one it raises the same
    exception, with [ProbeError] in the place of [DeviceClientError]. *)
Lemma accept_verdict cmd id line : same_verdict (accept_reply id line) (probe_accept cmd id line).
Proof.
  unfold accept_reply, probe_accept. destruct line as [|c line]; [by right|].
  destruct (decode_json_line (c :: line)) as [d|e]; [|by left]. cbn [mbind res_bind].
  destruct (py_eq_int _ id); [|by right]. cbn [negb]. destruct (py_bool _); [done|]. cbn [negb].
  unfold reply_error, probe_reply_error. destruct (py_or _ _); try (by left). by right.
Qed.

Lemma accept_is_ok cmd id line : is_ok (probe_accept cmd id line) = is_ok (accept_reply id line).
Proof. pose proof (accept_verdict cmd id line) as H. by destruct (accept_reply id line), (probe_accept cmd id line). Qed.

(** ** The session follows the plan *)

Section Follows.
Context {net : Type} `{!ProbeNet net}.
Abbreviation state := (probe_state net).

Definition follows {A} (id : Z) (plan : list probe_step) (m : M state A) : Prop :=
  forall s, exists evs, pr_log (m s).1 = pr_log s ++ evs /\
    match (m s).2 with Ok _ => plan_done id plan evs | Raise _ => plan_failed id plan evs end.

Definition end_id (id : Z) (plan : list probe_step) : Z := foldl next_id id plan.

Lemma plan_done_app id p1 p2 e1 e2 :
  plan_done id p1 e1 -> plan_done (end_id id p1) p2 e2 -> plan_done id (p1 ++ p2) (e1 ++ e2).
Proof.
  revert id e1; induction p1 as [|st p1 IH]; intros id e1; cbn; [by intros ->|].
  intros (a & b & -> & Hs & Hp) H2. exists a, (b ++ e2). rewrite app_assoc. split_and!; [done..|]. by apply IH.
Qed.

Lemma plan_failed_app id p1 p2 e : plan_failed id p1 e -> plan_failed id (p1 ++ p2) e.
Proof.
  revert id e; induction p1 as [|st p1 IH]; intros id e; [done|]. cbn.
  intros [H|(a & b & -> & Hs & Hp)]; [by left|]. right. exists a, b. auto.
Qed.

Lemma plan_failed_later id p1 p2 e1 e2 :
  plan_done id p1 e1 -> plan_failed (end_id id p1) p2 e2 -> plan_failed id (p1 ++ p2) (e1 ++ e2).
Proof.
  revert id e1; induction p1 as [|st p1 IH]; intros id e1; cbn; [by intros ->|].
  intros (a & b & -> & Hs & Hp) H2. right. exists a, (b ++ e2). rewrite app_assoc. split_and!; [done..|]. by apply IH.
Qed.

Lemma follows_bind {A B} id p1 p2 (m : M state A) (f : A -> M state B) :
  follows id p1 m -> (forall a, follows (end_id id p1) p2 (f a)) -> follows id (p1 ++ p2) (m ≫= f).
Proof.
  intros Hm Hf s. open_M. specialize (Hm s). destruct (m s) as [s1 [a|e]]; cbn in Hm.
  - destruct Hm as (e1 & Hl1 & H1). destruct (Hf a s1) as (e2 & Hl2 & H2). exists (e1 ++ e2).
    rewrite Hl2, Hl1, app_assoc. split; [done|].
    destruct (f a s1) as [s2 [b|e]]; [by apply plan_done_app|by apply plan_failed_later].
  - destruct Hm as (e1 & Hl1 & H1). exists e1. split; [done|]. by apply plan_failed_app.
Qed.

Lemma follows_silent {A} id (m : M state A) :
  (forall s, pr_log (m s).1 = pr_log s /\ is_ok (m s).2 = true) -> follows id [] m.
Proof.
  intros Hm s. destruct (Hm s) as [Hl Ho]. exists []. rewrite app_nil_r. split; [done|]. by destruct (m s) as [s' []].
Qed.

Lemma follows_then {A B} id p (m : M state A) (f : A -> M state B) :
  follows id p m -> (forall a id', follows id' [] (f a)) -> follows id p (m ≫= f).
Proof. intros Hm Hf. rewrite <- (app_nil_r p). apply follows_bind; auto. Qed.

Lemma follows_skip {A} id (b : bool) p (a : A) (m : M state A) :
  follows id p m -> follows id (if b then [] else p) (if b then mret a else m).
Proof. destruct b; [|done]. intros _. by apply follows_silent. Qed.

Lemma follows_print id line : follows id [] (probe_print line).
Proof. by apply follows_silent. Qed.

Lemma follows_request id cmd fields : follows id [Ask cmd fields] (probe_request id cmd fields).
Proof.
  intros s. unfold probe_request; open_M.
  assert (Hnil : exists evs, pr_log s = pr_log s ++ evs /\ plan_failed id [Ask cmd fields] evs).
  { exists []. rewrite app_nil_r. split; [done|]. left. by left. }
  destruct (build_request id cmd fields) as [msg|e] eqn:Eb; [|exact Hnil].
  destruct (encode_json_line msg) as [line|e] eqn:Ee; [|exact Hnil].
  assert (Hask : asked id cmd fields line) by (unfold asked; rewrite Eb; exact Ee).
  unfold on_sockets. destruct (pn_sendall line (pr_net s)) as [n1 [[]|e]]; cbn; [|exact Hnil].
  destruct (pn_readline n1) as [n2 [reply|e]]; cbn.
  - exists [Sent line; Got reply]. rewrite <- app_assoc. split; [done|].
    pose proof (accept_is_ok cmd id reply) as Hok. destruct (probe_accept cmd id reply).
    + exists [Sent line; Got reply], []. split_and!; [done| |done]. by exists line, reply.
    + left. right. exists line. split; [done|]. right. by exists reply.
  - exists [Sent line]. split; [done|]. left. right. exists line. auto.
Qed.

Lemma follows_ask id cmd fields : follows id [Ask cmd fields] (ask id cmd fields).
Proof. apply follows_then; [apply follows_request|]. intros d id'. apply follows_print. Qed.

(** A datagram, its header check and the line about it. *)
Lemma follows_listen {A} id sock label timeout (check : list byte -> res A) (report : list byte -> string * Z -> A -> string) :
  (forall data, is_ok (check data) = header_ok sock data) ->
  follows id [Listen sock]
    (packet ← probe_recv sock label timeout;
     header ← M_lift (check packet.1);
     probe_print (report packet.1 packet.2 header)).
Proof.
  intros Hc s. unfold probe_recv, M_try, on_sockets; open_M.
  destruct (pn_recvfrom sock timeout (pr_net s)) as [n1 [[data addr]|e]]; cbn.
  - exists [Datagram sock data]. pose proof (Hc data) as Hd. destruct (check data); cbn in *.
    + split; [done|]. exists [Datagram sock data], []. split_and!; [done| |done]. by exists data.
    + split; [done|]. left. right. by exists data.
  - exists []. rewrite app_nil_r. destruct (exn_isa _ _); cbn; (split; [done|]; left; by left).
Qed.

Lemma follows_ext {A} id p (m m' : M state A) : (forall s, m s = m' s) -> follows id p m -> follows id p m'.
Proof. intros He Hm s. rewrite <- He. apply Hm. Qed.

Lemma follows_status id args : follows id [Listen StatusSock] (probe_status args).
Proof.
  eapply follows_ext, (follows_listen id StatusSock "status" (pa_timeout args) (fun data => Ok tt)
    (fun data addr _ => udp_line "status" data addr)); [|done].
  intros s. unfold probe_status; open_M. by destruct (probe_recv _ _ _ s) as [s' [[data addr]|e]].
Qed.

Lemma follows_iq id args : follows id [Listen IqSock] (probe_iq args).
Proof.
  eapply follows_ext, (follows_listen id IqSock "IQ" (pa_timeout args)
    (fun data => iq_unpack (take (Z.to_nat IQ_HEADER_SIZE) data)) iq_line); [|done].
  intros s. unfold probe_iq; open_M. by destruct (probe_recv _ _ _ s) as [s' [[data addr]|e]].
Qed.

Lemma follows_psd id args : follows id [Listen PsdSock] (probe_psd args).
Proof.
  eapply follows_ext, (follows_listen id PsdSock "PSD" (pa_timeout args)
    (fun data => psd_unpack (take (Z.to_nat PSD_HEADER_SIZE) data)) psd_line); [|done].
  intros s. unfold probe_psd; open_M. by destruct (probe_recv _ _ _ s) as [s' [[data addr]|e]].
Qed.

Lemma follows_session args : follows 1 (probe_plan args) (probe_session args).
Proof.
  unfold probe_session, probe_plan. cbv zeta.
  apply (follows_bind 1 [Ask "hello" (hello_request args)]); [apply follows_ask|intros _].
  apply (follows_bind 2 [_]); [apply follows_ask|intros _].
  apply follows_bind; [apply follows_skip, follows_status|intros _].
  assert (H3 : end_id (end_id 2 [Ask "ping" [("client_time_ms"%string, PInt 0)]])
    (if pa_skip_status args then [] else [Listen StatusSock]) = 3) by (by destruct (pa_skip_status args)).
  rewrite H3. apply follows_bind.
  { apply follows_skip, (follows_bind 3 [_] [_]); [apply follows_ask|intros _; apply follows_iq]. }
  intros _. assert (H4 : end_id 3 (if pa_skip_rx args then [] else [Ask "set_rx" (set_rx_request args); Listen IqSock]) =
    if pa_skip_rx args then 3 else 4) by (by destruct (pa_skip_rx args)).
  rewrite H4. set (i := if pa_skip_rx args then 3 else 4). apply follows_bind.
  { apply follows_skip, (follows_bind i [_] [_]); [apply follows_ask|intros _; apply follows_psd]. }
  intros _. assert (H5 : end_id i (if pa_skip_psd args then [] else [Ask "set_psd" set_psd_request; Listen PsdSock]) =
    if pa_skip_psd args then i else i + 1) by (by destruct (pa_skip_psd args)).
  rewrite H5. apply follows_then; [apply follows_request|]. intros d id'. by apply follows_silent.
Qed.
End Follows.

(** ** The exit code *)

Section Outcome.
Context {net : Type} `{!ProbeNet net}.
Abbreviation state := (probe_state net).

(** [s'] has printed a line that starts with ["FAIL "]. *)
Definition failure_printed (s' : state) : Prop := exists why, ("FAIL " +:+ why) ∈ pr_out s'.

Definition probe_result (args : probe_args) (s : state) (out : state * res Z) : Prop :=
  exists evs, pr_log out.1 = pr_log s ++ evs /\
    match out.2 with
    | Ok code =>
        (code = 0 /\ plan_done 1 (probe_plan args) evs) \/
        (code = 1 /\ plan_failed 1 (probe_plan args) evs /\ failure_printed out.1)
    | Raise e => plan_failed 1 (probe_plan args) evs /\ (evs = [] \/ probe_caught e = false)
    end.

Lemma plan_not_started args : plan_failed 1 (probe_plan args) [].
Proof. left. by left. Qed.

(** Nothing went over the sockets. *)
Lemma probe_result_early args s s' r :
  pr_log s' = pr_log s -> match r with Ok code => code = 1 /\ failure_printed s' | Raise _ => True end ->
  probe_result args s (s', r).
Proof.
  intros Hl Hr. exists []. rewrite app_nil_r. split; [done|]. pose proof (plan_not_started args).
  destruct r as [code|e]; cbn; [right|]; naive_solver.
Qed.

Lemma returns_bind {A B} (P : B -> Prop) (m : M state A) (f : A -> M state B) :
  (forall a s s' b, f a s = (s', Ok b) -> P b) -> forall s s' b, (m ≫= f) s = (s', Ok b) -> P b.
Proof. intros Hf s s' b. open_M. destruct (m s) as [s1 [a|e]]; [apply Hf|done]. Qed.

Lemma session_result args s :
  probe_result args s
    (closing (M_try (probe_session args)
       (fun e => if probe_caught e then probe_print ("FAIL probe: " +:+ exn_msg e) ;; mret 1 else M_lift (Raise e))) s).
Proof.
  unfold closing, M_try. destruct (follows_session args s) as (evs & Hl & Hr).
  assert (Hcode : forall s0 s' code, probe_session args s0 = (s', Ok code) -> code = 0).
  { unfold probe_session. cbv zeta. do 7 (apply (returns_bind (fun code => code = 0)); intros _). by intros ? ? ? [= _ <-]. }
  destruct (probe_session args s) as [s' [code|e]] eqn:E; cbn in *; exists evs.
  - split; [done|]. left. split; [by eapply Hcode|done].
  - destruct (probe_caught e) eqn:Ec; cbn; (split; [done|]); [right|by auto].
    split_and!; [done..|]. exists ("probe: " +:+ exn_msg e). cbn. apply elem_of_app. right. left.
Qed.

Lemma on_sockets_log {A} (m : M net A) (s : state) :
  exists n, (on_sockets m s).1 = MkProbe n (pr_out s) (pr_log s).
Proof. unfold on_sockets. destruct (m (pr_net s)) as [n r]. by exists n. Qed.

(** C22: the exit code says what happened: with 0, the whole plan was
    carried out (hello, ping, the status datagram, [set_rx] and an IQ packet,
    [set_psd] and a PSD packet, [stop_all], less the parts that are skipped),
    the requests numbered from 1 without gaps, each answered with its id and a
    true [ok], each datagram with a valid header; with 1, a step of the plan
    failed after those before it, and a ["FAIL"] line says why; an exception escapes only
    before the first request or when it is of no class that is caught. *)
Theorem probe_exit_code args s : probe_result args s (run_probe args s).
Proof.
  unfold run_probe; open_M.
  destruct (on_sockets (pn_bind IqSock _ _) s) as [s1 r1] eqn:E1.
  destruct (on_sockets_log (pn_bind IqSock (pa_bind_host args) (pa_iq_port args)) s) as (n1 & H1).
  rewrite E1 in H1. cbn in H1. subst s1. destruct r1 as [[]|e]; [|by apply probe_result_early].
  destruct (on_sockets (pn_bind PsdSock _ _) _) as [s2 r2] eqn:E2.
  edestruct (on_sockets_log (pn_bind PsdSock (pa_bind_host args) (pa_psd_port args))) as (n2 & H2).
  rewrite E2 in H2. cbn in H2. subst s2. destruct r2 as [[]|e]; [|by apply probe_result_early].
  destruct (on_sockets (pn_bind StatusSock _ _) _) as [s3 r3] eqn:E3.
  edestruct (on_sockets_log (pn_bind StatusSock (pa_bind_host args) (pa_status_port args))) as (n3 & H3).
  rewrite E3 in H3. cbn in H3. subst s3. destruct r3 as [[]|e]; [|by apply probe_result_early].
  unfold M_try at 1. cbn. destruct (on_sockets (pn_connect _ _ _) _) as [s4 r4] eqn:E4.
  edestruct (on_sockets_log (pn_connect (pa_host args) (pa_control_port args) (pa_timeout args))) as (n4 & H4).
  rewrite E4 in H4. cbn in H4. subst s4. destruct r4 as [[]|e]; cbn.
  - exact (session_result args _).
  - destruct (exn_isa (exn_cls e) OSError); [|by apply probe_result_early]. apply probe_result_early; [done|].
    split; [done|]. exists ("tcp: " +:+ exn_msg e). cbn. set_solver.
Qed.
End Outcome.

(** ** A run against the simulated device

    The simulator's own [dispatch] answers the requests; the datagrams are the
    ones its loops send to the ports of the [hello]. *)

#[local] Existing Instance constant_env.

Definition sim_ip : string := "10.0.0.2".

(** The device and the replies not read yet. *)
Record sim_net := MkSim { sim_server : FakeServer unit; sim_replies : list text }.

Definition sim_port (sock : udp_sock) : Z :=
  match sock with IqSock => 9001 | PsdSock => 9002 | StatusSock => 9003 end.

Definition sim_turn (sock : udp_sock) (s : FakeServer unit) : FakeServer unit :=
  match sock with
  | IqSock => iq_task_turn fake_config_default s
  | PsdSock => psd_task_turn (fun _ => f_of_Z 2) s
  | StatusSock => (status_loop_turn fake_config_default (f_of_Z 2) s).1
  end.

#[local] Instance sim_probe_net : ProbeNet sim_net := {
  pn_bind sock host port := mret tt;
  pn_connect host port timeout := mret tt;
  pn_sendall line := fun n =>
    match dispatch fake_config_default (f_of_Z 1) line sim_ip (sim_server n) with
    | (s', Ok reply) => (MkSim s' (sim_replies n ++ [line_of reply]), Ok tt)
    | (s', Raise _) => (MkSim s' (sim_replies n), Ok tt)
    end;
  pn_readline := fun n =>
    match sim_replies n with
    | line :: lines => (MkSim (sim_server n) lines, Ok line)
    | [] => (n, Ok [])
    end;
  pn_recvfrom sock timeout := fun n =>
    let s' := sim_turn sock (sim_server n) in
    match list_find (fun out => out.1.2 = sim_port sock) (fs_outbox s') with
    | Some (_, (_, data)) => (MkSim s' (sim_replies n), Ok (data, ("10.0.0.1"%string, 9000)))
    | None => (MkSim s' (sim_replies n), raise TimeoutError "timed out")
    end;
  pn_close n := n;
}.

Definition sim_start : probe_state sim_net := MkProbe (MkSim (server_init (f_of_Z 0) tt) []) [] [].

(** Without the PSD part (eight segments of computed bins) the probe passes. *)
Definition sim_args : probe_args :=
  let a := default_args "10.0.0.1" in
  MkArgs (pa_host a) (pa_control_port a) (pa_bind_host a) (pa_destination_ip a) (pa_iq_port a) (pa_psd_port a)
    (pa_status_port a) (pa_timeout a) (pa_skip_rx a) true (pa_skip_status a) (pa_adc_channel a) (pa_frequency_hz a)
    (pa_iq_rate a) (pa_bandwidth_hz a) (pa_mode a).

Example probe_passes_on_simulator :
  let out := run_probe sim_args sim_start in out.2 = Ok 0 /\ length (pr_out out.1) = 7%nat.
Proof. vm_compute. split; reflexivity. Qed.
