(* ===== verification/DebugProbe.v ===== *)
(** The debug probe ([tools/ac920_debug_probe.py]).

    Same sockets as the network probe, without its checks: replies are printed
    and not looked at.  The receive loops run until a deadline; what their
    [recvfrom] calls returned before it is an input, [dn_window]. *)

From Stdlib Require Import ZArith SpecFloat Lia Ascii String Strings.Byte.
From stdpp Require Import base list sets strings.
From S2P Require Import Prelude PyFloat PyValue Json Control.

Open Scope Z_scope.

(** ** Printing *)

(** [sorted(d.items())]: by key; the keys of a dict are distinct. *)
Fixpoint insert_item {V} (kv : string * V) (l : list (string * V)) : list (string * V) :=
  match l with
  | [] => [kv]
  | x :: l' => if String.leb kv.1 x.1 then kv :: l else x :: insert_item kv l'
  end.

Definition sorted_items {V} (d : list (string * V)) : list (string * V) := foldr insert_item [] d.

Fixpoint sep_lines (sep : text) (l : list text) : text :=
  match l with
  | [] => []
  | x :: l' => x ++ match l' with [] => [] | _ => ["," %char] ++ sep ++ sep_lines sep l' end
  end.

(** A newline and the indentation of nesting level [n]. *)
Definition new_line (n : nat) : text := nl_char :: replicate (2 * n) " "%char.

(** [json.dumps(v, indent=2, sort_keys=True)] before its ASCII escapes; [n] is
    the nesting level. *)
Fixpoint pretty (n : nat) (v : pyval) : text :=
  match v with
  | PList [] => chars "[]"
  | PList l =>
      ["["%char] ++ new_line (S n) ++ sep_lines (new_line (S n)) (pretty (S n) <$> l) ++ new_line n ++ ["]"%char]
  | PDict [] => chars "{}"
  | PDict d =>
      ["{"%char] ++ new_line (S n) ++
        sep_lines (new_line (S n))
          ((fun kt => str_text kt.1 ++ chars ": " ++ kt.2) <$>
             sorted_items ((fun kv => (kv.1, pretty (S n) kv.2)) <$> d)) ++
        new_line n ++ ["}"%char]
  | _ => json_text v
  end.

Definition dumps_indent (v : pyval) : string := string_of_list_ascii (ascii_escape (pretty 0 v)).

Example pretty_layout :
  pretty 0 (PList [PInt 1; PList []; PDict []]) =
    chars "[" ++ new_line 1 ++ chars "1," ++ new_line 1 ++ chars "[]," ++ new_line 1 ++ chars "{}" ++ new_line 0 ++ chars "]".
Proof. reflexivity. Qed.

(** U+FFFD. *)
Definition replacement : text := utf8_encode 65533.

(** The length of the well-formed sequence at the start of [l], or of the part
    of one that is replaced by a single U+FFFD. *)
Definition utf8_step (l : text) : bool * nat :=
  match l with
  | [] => (true, 1%nat)
  | a :: l1 =>
      let n := char_code a in
      let second b :=
        if n =? 224 then in_code 160 191 b
        else if n =? 237 then in_code 128 159 b
        else if n =? 240 then in_code 144 191 b
        else if n =? 244 then in_code 128 143 b
        else is_cont b in
      let width := if n <? 128 then 1 else if n <? 194 then 0 else if n <? 224 then 2 else if n <? 240 then 3
                   else if n <? 245 then 4 else 0 in
      if width =? 0 then (false, 1%nat)
      else if width =? 1 then (true, 1%nat)
      else
        match l1 with
        | b :: l2 =>
            if negb (second b) then (false, 1%nat)
            else if width =? 2 then (true, 2%nat)
            else
              match l2 with
              | c :: l3 =>
                  if negb (is_cont c) then (false, 2%nat)
                  else if width =? 3 then (true, 3%nat)
                  else
                    match l3 with
                    | d :: _ => if is_cont d then (true, 4%nat) else (false, 3%nat)
                    | [] => (false, 3%nat)
                    end
              | [] => (false, 2%nat)
              end
        | [] => (false, 1%nat)
        end
  end.

(** [data.decode("utf-8", errors="replace")]; a step takes a byte at least. *)
Fixpoint decode_replace (fuel : nat) (l : text) : text :=
  match fuel, l with
  | S f, _ :: _ =>
      let '(ok, k) := utf8_step l in
      (if ok then take k l else replacement) ++ decode_replace f (drop k l)
  | _, _ => []
  end.

Definition text_of_bytes (data : list byte) : text := (fun b => ascii_of_N (Byte.to_N b)) <$> data.

Definition decode_utf8_replace (data : list byte) : text := decode_replace (length data) (text_of_bytes data).

(** [data[:96].hex()]. *)
Definition hex_dump (data : list byte) : string :=
  string_of_list_ascii
    (concat ((fun b => [hex_digit (byte_to_Z b / 16); hex_digit (byte_to_Z b mod 16)]) <$> take 96 data)).

(** What is printed below the line about a packet. *)
Definition packet_text (data : list byte) : res string :=
  let t := decode_utf8_replace data in
  match t with
  | c :: _ =>
      if Ascii.eqb c "{"%char then
        match json_loads t with
        | Ok v => Ok (dumps_indent v)
        | Raise e => if exn_isa (exn_cls e) JSONDecodeError then Ok (string_of_list_ascii t) else Raise e
        end
      else Ok (hex_dump data)
  | [] => Ok (hex_dump data)
  end.

(** *** Decoding with replacement *)

(** Decides the comparisons of a byte with the limits of the ranges. *)
Ltac byte_cases :=
  repeat (match goal with
  | |- context [?x <? ?y] => destruct (Z.ltb_spec x y); try lia
  | |- context [?x <=? ?y] => destruct (Z.leb_spec x y); try lia
  | |- context [?x =? ?y] => destruct (Z.eqb_spec x y); try lia
  end; cbn [andb negb]).

Lemma utf8_ok_step a l1 : utf8_ok (a :: l1) = true -> exists k, utf8_step (a :: l1) = (true, S k) /\ utf8_ok (drop k l1) = true.
Proof.
  cbn [utf8_ok utf8_step]. generalize (char_code a); intros n. destruct (Z.ltb_spec n 128); [intros Hok; by exists 0%nat|].
  destruct l1 as [|b l2]; [done|]. destruct ((194 <=? n) && (n <=? 223)) eqn:E2.
  { byte_cases. intros [-> Hok]%andb_true_iff. by exists 1%nat. }
  destruct l2 as [|c l3]; [done|]. destruct (Z.ltb_spec n 194); [destruct l3; byte_cases; done|]. destruct (Z.ltb_spec n 240).
  - byte_cases; (intros [[Hb Hc]%andb_true_iff Hok]%andb_true_iff; rewrite Hb, Hc; by exists 2%nat).
  - destruct l3 as [|d l4]; [byte_cases; done|].
    byte_cases; (intros [Hb [[Hc Hd]%andb_true_iff Hok]%andb_true_iff]%andb_true_iff; rewrite Hb, Hc, Hd; by exists 3%nat) || done.
Qed.

(** A well-formed text is decoded to itself. *)
Lemma decode_replace_ok fuel l : utf8_ok l = true -> (length l <= fuel)%nat -> decode_replace fuel l = l.
Proof.
  revert l; induction fuel as [|fuel IH]; intros [|a l1] Hok Hf; cbn in Hf; try done; [lia|].
  destruct (utf8_ok_step a l1 Hok) as (k & Hk & Hrest). cbn [decode_replace]. rewrite Hk. cbn [take drop app].
  rewrite IH by (rewrite ?length_drop; (done || lia)). by rewrite take_drop.
Qed.

Lemma decode_utf8_replace_ok data : utf8_ok (text_of_bytes data) = true -> decode_utf8_replace data = text_of_bytes data.
Proof. intros Hok. apply decode_replace_ok; [done|]. unfold text_of_bytes. by rewrite length_fmap. Qed.

(** ** Sockets *)

(** One [recvfrom] of a receive loop. *)
Inductive recv_outcome :=
  | RecvTimeout
  | RecvPacket (data : list byte) (host : string) (port : Z)
  | RecvError (e : exn).

(** The two UDP sockets, [create_connection], [sendall], [readline], the
    [recvfrom] calls that a loop of the given duration makes, and leaving the
    [with] blocks. *)
Class DebugNet (net : Type) := {
  dn_bind : Z -> M net unit;
  dn_connect : string -> Z -> float -> M net unit;
  dn_sendall : text -> M net unit;
  dn_readline : M net text;
  dn_window : Z -> float -> net -> net * list recv_outcome;
  dn_close : net -> net;
}.

(** The sockets, what was printed, and the request lines sent. *)
Record debug_state (net : Type) := MkDebug {
  ds_net : net;
  ds_out : list string;
  ds_sent : list text;
}.
Arguments MkDebug {net}.
Arguments ds_net {net}.
Arguments ds_out {net}.
Arguments ds_sent {net}.

Section Debug.
Context {net : Type} `{!DebugNet net}.
Abbreviation state := (debug_state net).

Definition on_debug_net {A} (m : M net A) : M state A := fun s =>
  let '(n, r) := m (ds_net s) in (MkDebug n (ds_out s) (ds_sent s), r).

Definition debug_print (line : string) : M state unit :=
  M_modify (fun s => MkDebug (ds_net s) (ds_out s ++ [line]) (ds_sent s)).

Definition debug_request (request_id : Z) (cmd : string) (fields : pydict) : M state pydict :=
  message ← M_lift (build_request request_id cmd fields);
  line ← M_lift (encode_json_line message);
  on_debug_net (dn_sendall line) ;;
  M_modify (fun s => MkDebug (ds_net s) (ds_out s) (ds_sent s ++ [line])) ;;
  reply ← on_debug_net dn_readline;
  match reply with
  | [] => M_raise RuntimeError (cmd +:+ ": device closed TCP connection")
  | _ =>
      response ← M_lift (decode_json_line reply);
      debug_print ("TCP " +:+ cmd +:+ ":") ;;
      debug_print (dumps_indent (PDict response)) ;;
      mret response
  end.

(** The [while] loop of [recv_udp]; the result is [count]. *)
Fixpoint recv_window (label : string) (count : Z) (outcomes : list recv_outcome) : M state Z :=
  match outcomes with
  | [] => mret count
  | RecvTimeout :: rest => recv_window label count rest
  | RecvPacket data host port :: rest =>
      let count := count + 1 in
      debug_print ("UDP " +:+ label +:+ " #" +:+ py_str (PInt count) +:+ ": " +:+ py_str (PInt (zlen data)) +:+
                   " bytes from " +:+ host +:+ ":" +:+ py_str (PInt port)) ;;
      t ← M_lift (packet_text data);
      debug_print t ;;
      recv_window label count rest
  | RecvError e :: _ => M_lift (Raise e)
  end.

Definition debug_window (port : Z) (duration_s : float) : M state (list recv_outcome) := fun s =>
  let '(n, l) := dn_window port duration_s (ds_net s) in (MkDebug n (ds_out s) (ds_sent s), Ok l).

Definition recv_udp (port : Z) (label : string) (duration_s : float) : M state unit :=
  outcomes ← debug_window port duration_s;
  count ← recv_window label 0 outcomes;
  if count =? 0 then debug_print ("UDP " +:+ label +:+ ": no packets in " +:+ fixed 1 duration_s +:+ "s") else mret tt.

Definition debug_hello (destination_ip : string) : pydict :=
  [("protocol_version", PInt 1); ("client_name", PStr "ac920-debug-probe");
   ("udp", PDict [("destination_ip", PStr destination_ip); ("iq_port", PInt 9001); ("psd_port", PInt 9002);
                  ("status_port", PInt 9003)])]%string.

Definition debug_set_rx : pydict :=
  [("stream_id", PInt 0); ("adc_channel", PInt 0); ("frequency_hz", PInt 98500000); ("mode", PStr "WFM");
   ("iq_sample_rate_hz", PInt 1000000); ("bandwidth_hz", PInt 250000); ("sample_format", PStr "SC16_LE");
   ("enable", PBool true)]%string.

(** The inner [with] block. *)
Definition debug_session (destination_ip : string) : M state unit :=
  let request_id := 1 in
  debug_request request_id "hello" (debug_hello destination_ip) ;;
  let request_id := request_id + 1 in
  recv_udp 9003 "status before rx" (f_of_Z 1) ;;
  debug_request request_id "get_status" [] ;;
  let request_id := request_id + 1 in
  debug_request request_id "set_rx" debug_set_rx ;;
  let request_id := request_id + 1 in
  recv_udp 9003 "status after rx" (f_of_Z 4) ;;
  recv_udp 9001 "iq" (f_of_Z 4) ;;
  debug_request request_id "get_status" [] ;;
  let request_id := request_id + 1 in
  debug_request request_id "stop_all" [] ;;
  mret tt.

Definition debug_closing {A} (m : M state A) : M state A := fun s =>
  let '(s', r) := m s in (MkDebug (dn_close (ds_net s')) (ds_out s') (ds_sent s'), r).

Definition debug_main (host destination_ip : string) (timeout : float) : M state Z :=
  on_debug_net (dn_bind 9003) ;;
  on_debug_net (dn_bind 9001) ;;
  on_debug_net (dn_connect host 9000 timeout) ;;
  debug_closing (debug_session destination_ip) ;;
  mret 0.

(** The five requests of a run. *)
Definition debug_requests (destination_ip : string) : list (string * pydict) :=
  [("hello", debug_hello destination_ip); ("get_status", []); ("set_rx", debug_set_rx); ("get_status", []);
   ("stop_all", [])]%string.

(** The lines of [reqs], numbered from [id]. *)
Fixpoint numbered_lines (id : Z) (reqs : list (string * pydict)) : res (list text) :=
  match reqs with
  | [] => Ok []
  | (cmd, fields) :: reqs' =>
      line ← (build_request id cmd fields ≫= encode_json_line);
      lines ← numbered_lines (id + 1) reqs';
      Ok (line :: lines)
  end.

(** [m] sends the lines of a beginning of [reqs], numbered from [id], and all of
    them if it returns. *)
Definition sends {A} (id : Z) (reqs : list (string * pydict)) (m : M state A) : Prop :=
  forall s, exists sent, ds_sent (m s).1 = ds_sent s ++ sent /\
    (length sent <= length reqs)%nat /\ numbered_lines id (take (length sent) reqs) = Ok sent /\
    (is_ok (m s).2 = true -> length sent = length reqs).

Lemma numbered_lines_app id r1 r2 l1 l2 :
  numbered_lines id r1 = Ok l1 -> numbered_lines (id + zlen r1) r2 = Ok l2 -> numbered_lines id (r1 ++ r2) = Ok (l1 ++ l2).
Proof.
  revert id l1; induction r1 as [|[cmd fields] r1 IH]; intros id l1.
  - cbn. unfold zlen. cbn. rewrite Z.add_0_r. by intros [= <-].
  - cbn. destruct (_ ≫= encode_json_line) as [line|]; [cbn|done].
    destruct (numbered_lines (id + 1) r1) as [lines|] eqn:E; [cbn|done]. intros [= <-] H2.
    rewrite (IH (id + 1) lines E); [done|]. unfold zlen in *. rewrite <- H2. f_equal. cbn. lia.
Qed.

Lemma sends_bind {A B} id r1 r2 (m : M state A) (f : A -> M state B) :
  sends id r1 m -> (forall a, sends (id + zlen r1) r2 (f a)) -> sends id (r1 ++ r2) (m ≫= f).
Proof.
  intros Hm Hf s. open_M. specialize (Hm s). destruct (m s) as [s1 [a|e]]; cbn in Hm.
  - destruct Hm as (e1 & Hl1 & Hle1 & Hn1 & Hall1). specialize (Hall1 eq_refl).
    rewrite Hall1, firstn_all in Hn1. destruct (Hf a s1) as (e2 & Hl2 & Hle2 & Hn2 & Hall2).
    exists (e1 ++ e2). rewrite Hl2, Hl1, <- app_assoc, !length_app. split_and!; [done|lia| |intros Ho; specialize (Hall2 Ho); lia].
    rewrite take_app_ge by lia. replace (length e1 + length e2 - length r1)%nat with (length e2) by lia.
    by apply numbered_lines_app.
  - destruct Hm as (e1 & Hl1 & Hle1 & Hn1 & _). exists e1. rewrite length_app, take_app_le by lia.
    split_and!; [done|lia|done|done].
Qed.

(** Operations that send nothing. *)
Lemma sends_nothing {A} id (m : M state A) : (forall s, ds_sent (m s).1 = ds_sent s) -> sends id [] m.
Proof. intros Hm s. exists []. rewrite app_nil_r. by split_and!. Qed.

Lemma recv_window_sends label count outcomes s : ds_sent (recv_window label count outcomes s).1 = ds_sent s.
Proof.
  revert count s; induction outcomes as [|[|data host port|e] rest IH]; intros count s; cbn; try done.
  open_M. cbn. destruct (packet_text data); [|done]. cbn. by rewrite IH.
Qed.

Lemma recv_udp_sends id port label duration : sends id [] (recv_udp port label duration).
Proof.
  apply sends_nothing. intros s. unfold recv_udp, debug_window; open_M.
  destruct (dn_window port duration (ds_net s)) as [n l].
  pose proof (recv_window_sends label 0 l (MkDebug n (ds_out s) (ds_sent s))) as Hw.
  destruct (recv_window _ _ _ _) as [s' [count|e]]; cbn in *; [|done]. by destruct (count =? 0).
Qed.

Lemma debug_request_sends id cmd fields : sends id [(cmd, fields)] (debug_request id cmd fields).
Proof.
  intros s. unfold debug_request, on_debug_net; open_M.
  assert (Hnil : exists sent, ds_sent s = ds_sent s ++ sent /\ (length sent <= 1)%nat /\
    numbered_lines id (take (length sent) [(cmd, fields)]) = Ok sent /\ (false = true -> length sent = 1%nat)).
  { exists []. rewrite app_nil_r. split_and!; (done || cbn; lia). }
  destruct (build_request id cmd fields) as [msg|e] eqn:Eb; [|exact Hnil].
  destruct (encode_json_line msg) as [line|e] eqn:Ee; [|exact Hnil].
  destruct (dn_sendall line (ds_net s)) as [n1 [[]|e]]; [|exact Hnil]. cbn.
  assert (Hone : numbered_lines id [(cmd, fields)] = Ok [line]) by (cbn; rewrite Eb; cbn; by rewrite Ee).
  destruct (dn_readline n1) as [n2 [[|c reply]|e]]; cbn; [by exists [line]| |by exists [line]].
  destruct (decode_json_line (c :: reply)); by exists [line].
Qed.

Lemma debug_session_sends ip : sends 1 (debug_requests ip) (debug_session ip).
Proof.
  unfold debug_session, debug_requests. cbv zeta.
  apply (sends_bind 1 [_]); [apply debug_request_sends|intros _].
  apply (sends_bind 2 []); [apply recv_udp_sends|intros _].
  apply (sends_bind 2 [_]); [apply debug_request_sends|intros _].
  apply (sends_bind 3 [_]); [apply debug_request_sends|intros _].
  apply (sends_bind 4 []); [apply recv_udp_sends|intros _].
  apply (sends_bind 4 []); [apply recv_udp_sends|intros _].
  apply (sends_bind 4 [_]); [apply debug_request_sends|intros _].
  apply (sends_bind 5 [_] []); [apply debug_request_sends|intros _]. by apply sends_nothing.
Qed.

(** A run of the debug probe sends a beginning of its five requests, numbered
    from 1 without gaps, whatever the replies say, and all five if it returns. *)
Lemma debug_main_sends host ip timeout : sends 1 (debug_requests ip) (debug_main host ip timeout).
Proof.
  assert (Hnet : forall A (m : M net A), sends 1 [] (on_debug_net m)).
  { intros A m. apply sends_nothing. intros s. unfold on_debug_net. by destruct (m (ds_net s)). }
  unfold debug_main. do 3 (apply (sends_bind 1 [] (debug_requests ip)); [apply Hnet|intros _]).
  rewrite <- (app_nil_r (debug_requests ip)). apply sends_bind; [|intros _; by apply sends_nothing].
  intros s. pose proof (debug_session_sends ip s) as Hs. unfold debug_closing.
  by destruct (debug_session ip s) as [s' r].
Qed.
End Debug.
