(* ===== verification/ControlLink.v ===== *)
(** The control exchange between the backend's client and the simulated device:
    the [Transport] of [DeviceClient] implemented by the device's connection
    handler, and what a request of the client does to the device. *)

From Stdlib Require Import ZArith SpecFloat Lia Ascii String.
From stdpp Require Import base list sets strings.
From S2P Require Import Prelude PyFloat PyValue Json Control Config SignalGen FakeServer ServerSpec DeviceClient.

Open Scope Z_scope.

(** One TCP connection to the device.  [lk_inbox] is what the device has
    written and the client not yet read; the [n]-th reply is late (not there
    within the client's five seconds) when [lk_stalls] says so; [lk_clock] is
    the device's clock at its [n]-th request. *)
Record Link (rng : Type) := MkLink {
  lk_world : World rng;
  lk_conn : option nat;
  lk_next : nat;
  lk_inbox : text;
  lk_stalls : list bool;
  lk_clock : nat -> float;
  lk_served : nat;
}.
Arguments MkLink {rng}.
Arguments lk_world {rng}.
Arguments lk_conn {rng}.
Arguments lk_next {rng}.
Arguments lk_inbox {rng}.
Arguments lk_stalls {rng}.
Arguments lk_clock {rng}.
Arguments lk_served {rng}.

Section Link.
Context {rng : Type} `{!SignalEnv rng}.
Context (c : FakeAc920Config) (peer_ip : nat -> string).
Abbreviation link := (Link rng).

(** The lines the device has just written to connection [w]. *)
Definition new_lines (w : nat) (before after : World rng) : text :=
  concat ((filter (fun l => l.1 = w) (drop (length (w_sent before)) (w_sent after))).*2).

Definition link_open (_ _ : pyval) : M link unit := fun k =>
  match fs_listener (w_server (lk_world k)) with
  | Listening =>
      let w := lk_next k in
      let x := on_connect w (lk_world k) in
      (MkLink x (Some w) (S w) (new_lines w (lk_world k) x) (lk_stalls k) (lk_clock k) (lk_served k), Ok tt)
  | _ => (k, raise OSError "[Errno 111] Connect call failed")
  end.

(** The device's handler reads the line, unless it has ended. *)
Definition link_send (line : text) : M link unit := fun k =>
  match lk_conn k with
  | Some w =>
      if decide (w ∈ w_handlers (lk_world k) /\ w ∉ w_closing (lk_world k)) then
        let x :=
          match readline line with
          | Ok (line, _) => on_line c peer_ip (lk_clock k (lk_served k)) w line (lk_world k)
          | Raise _ => on_end w (lk_world k)
          end in
        (MkLink x (Some w) (lk_next k) (lk_inbox k ++ new_lines w (lk_world k) x) (lk_stalls k) (lk_clock k)
           (S (lk_served k)), Ok tt)
      else (k, Ok tt)
  | None => (k, raise OSError "Connection lost")
  end.

Definition link_recv : M link text := fun k =>
  let k1 := MkLink (lk_world k) (lk_conn k) (lk_next k) (lk_inbox k) (tail (lk_stalls k)) (lk_clock k) (lk_served k) in
  let waiting := bool_decide (nl_char ∉ lk_inbox k) &&
    match lk_conn k with Some w => bool_decide (w ∉ w_closing (lk_world k)) | None => false end in
  if default false (head (lk_stalls k)) || waiting then (k1, raise TimeoutError "")
  else
    match readline (lk_inbox k) with
    | Ok (line, rest) =>
        (MkLink (lk_world k1) (lk_conn k1) (lk_next k1) rest (lk_stalls k1) (lk_clock k1) (lk_served k1), Ok line)
    | Raise e => (k1, Raise e)
    end.

(** The handler sees the end of the stream and leaves. *)
Definition link_close (k : link) : link :=
  match lk_conn k with
  | Some w =>
      let x := if decide (w ∈ w_handlers (lk_world k)) then on_end w (lk_world k) else lk_world k in
      MkLink x None (lk_next k) [] (lk_stalls k) (lk_clock k) (lk_served k)
  | None => k
  end.

#[local] Instance link_transport : Transport link := {
  tr_open := link_open;
  tr_send := link_send;
  tr_recv := link_recv;
  tr_close := link_close;
  tr_is_closing k := match lk_conn k with Some _ => false | None => true end;
}.

Abbreviation client := (DeviceClient link).

(** What the device does with a request it has parsed: the command, with
    [TypeError] and [ValueError] turned into an [invalid_field] reply. *)
Definition serve (now : float) (i : Z) (cmd : string) (msg : pydict) (ip : string) : M (FakeServer rng) pydict :=
  M_try (run_command c now (PInt i) cmd msg ip)
    (fun e =>
       if invalid_field_exn e then mret (build_error (Some (PInt i)) "invalid_field" (exn_msg e) [])
       else M_lift (Raise e)).

Definition fits (d : pydict) : Prop := (length (json_text (PDict d)) <= stream_limit)%nat.

(** The client is connected over [w] to a device that listens, and the unread
    replies are [pending]. *)
Record linked (w : nat) (pending : list pydict) (s : client) : Prop := {
  ln_open : dc_open s = true;
  ln_conn : lk_conn (dc_net s) = Some w;
  ln_handler : w ∈ w_handlers (lk_world (dc_net s));
  ln_live : w ∉ w_closing (lk_world (dc_net s));
  ln_inbox : lk_inbox (dc_net s) = concat (line_of <$> pending);
}.

Definition client_server (s : client) : FakeServer rng := w_server (lk_world (dc_net s)).

(** The reply of the device to the client's next request [cmd] with [fields]. *)
Definition next_reply (s : client) (w : nat) (cmd : string) (msg : pydict) : FakeServer rng * res pydict :=
  serve (lk_clock (dc_net s) (lk_served (dc_net s))) (dc_request_id s + 1) cmd msg (peer_ip w) (client_server s).

Definition stalled (s : client) : bool := default false (head (lk_stalls (dc_net s))).

(** ** One exchange *)

Lemma build_request_keys i cmd fields msg :
  build_request i cmd fields = Ok msg ->
  dget "request_id"%string msg = Some (PInt i) /\ dget "cmd"%string msg = Some (PStr cmd).
Proof.
  unfold build_request, repeated_keyword, raise. destruct (dhas "request_id" fields) eqn:H1; [done|].
  destruct (dhas "cmd" fields) eqn:H2; [done|]. intros [= <-].
  assert (forall k, dhas k fields = false -> k ∉ dkeys fields) as Hk.
  { intros k Hk Hin%dhas_elem. congruence. }
  rewrite !dget_dupdate_ne by auto. done.
Qed.

Lemma dispatch_line now i cmd fields msg ip s :
  build_request i cmd fields = Ok msg -> wire_ok msg ->
  dispatch c now (line_of msg) ip s = serve now i cmd msg ip s.
Proof.
  intros [Hid Hcmd]%build_request_keys [Hj He]%andb_True. unfold dispatch, serve, M_try, mret, M_ret, M_lift.
  rewrite (decode_encode msg _ (encode_json_line_ok msg He) Hj). cbv zeta.
  assert (pget "request_id" msg = PInt i) as -> by (unfold pget; by rewrite Hid).
  assert (pget "cmd" msg = PStr cmd) as -> by (unfold pget; by rewrite Hcmd). cbn [is_int negb].
  destruct (run_command _ _ _ _ _ _ _) as [s' [d|e]]; [done|]. by destruct (invalid_field_exn e).
Qed.

Lemma serve_echoes now i cmd msg ip s s' reply :
  serve now i cmd msg ip s = (s', Ok reply) -> replies (Some (PInt i)) reply.
Proof.
  unfold serve, M_try, mret, M_ret, M_lift.
  pose proof (run_command_answers c now (PInt i) cmd msg ip s) as Ha.
  destruct (run_command _ _ _ _ _ _ _) as [s1 [d|e]].
  - by intros [= <- <-].
  - destruct (invalid_field_exn e); [|done].
    intros [= _ <-]. apply (replies_error (Some (PInt i)) "invalid_field" (exn_msg e)).
Qed.

Lemma new_lines_one w (x : World rng) srv t :
  new_lines w x (MkWorld srv (w_owner x) (w_handlers x) (w_closing x) (w_sent x ++ [(w, t)])) = t.
Proof.
  unfold new_lines. cbn [w_sent]. rewrite drop_app_length. rewrite filter_cons_True by done.
  rewrite filter_nil. cbn. apply app_nil_r.
Qed.

Lemma line_of_nl msg : nl_char ∈ line_of msg.
Proof. unfold line_of. set_solver. Qed.

Lemma readline_line_exact msg : fits msg -> readline (line_of msg) = Ok (line_of msg, []).
Proof. intros Hf. rewrite <- (app_nil_r (line_of msg)) at 1. by apply readline_line_of. Qed.

(** What the link does when the client writes [msg] and the device answers. *)
Lemma link_send_served w pending s cmd fields msg srv reply :
  linked w pending s -> build_request (dc_request_id s + 1) cmd fields = Ok msg -> wire_ok msg -> fits msg ->
  next_reply s w cmd msg = (srv, Ok reply) -> wire_ok reply ->
  let k := dc_net s in
  let x := lk_world k in
  link_send (line_of msg) k =
    (MkLink (MkWorld srv (w_owner x) (w_handlers x) (w_closing x) (w_sent x ++ [(w, line_of reply)]))
       (Some w) (lk_next k) (concat (line_of <$> pending ++ [reply])) (lk_stalls k) (lk_clock k) (S (lk_served k)),
     Ok tt).
Proof.
  intros Hl Hb Hw Hf Hr [_ He]%andb_True k x. destruct Hl as [Ho Hc Hh Hlv Hi].
  unfold link_send. fold k. fold k in Hc, Hh, Hlv, Hi. rewrite Hc. rewrite decide_True by done.
  rewrite readline_line_exact by done. unfold on_line.
  rewrite (dispatch_line _ _ _ _ _ _ _ Hb Hw). unfold next_reply, client_server in Hr. fold k in Hr.
  rewrite Hr. cbn [mbind res_bind]. rewrite encode_json_line_ok by done.
  fold x. cbv zeta iota beta. rewrite new_lines_one. rewrite Hi, fmap_app, concat_app. cbn. by rewrite app_nil_r.
Qed.

(** The unread replies once the answer to a request has arrived, and what the
    client makes of the exchange: the oldest unread reply is taken for the
    answer, unless the wait for it ran out. *)
Definition read_next (stall : bool) (i : Z) (pending : list pydict) : list pydict * res pydict :=
  match stall, pending with
  | false, p :: ps => (ps, accept_reply i (line_of p))
  | _, _ => (pending, raise TimeoutError "")
  end.

Lemma link_recv_next k w pending :
  lk_conn k = Some w -> lk_inbox k = concat (line_of <$> pending) -> Forall fits pending -> pending <> [] ->
  exists k', link_recv k =
      (k', match default false (head (lk_stalls k)), pending with
           | false, p :: _ => Ok (line_of p)
           | _, _ => raise TimeoutError ""
           end) /\
    lk_inbox k' = concat (line_of <$> if default false (head (lk_stalls k)) then pending else tail pending) /\
    lk_conn k' = lk_conn k /\ lk_world k' = lk_world k /\ lk_stalls k' = tail (lk_stalls k).
Proof.
  intros Hc Hi Hf Hne. destruct pending as [|p ps]; [done|]. apply Forall_cons in Hf as [Hp _].
  unfold link_recv. destruct (default false (head (lk_stalls k))) eqn:Hst; cbn [orb].
  - eexists. split; [done|]. by split_and!.
  - rewrite Hi, fmap_cons. cbn [concat].
    rewrite bool_decide_false by (pose proof (line_of_nl p); set_solver). cbn [andb].
    rewrite readline_line_of by done. eexists. split; [done|]. by split_and!.
Qed.

(** The exchange, whatever is still unread from earlier ones. *)
Lemma dc_request_exchange w pending s cmd fields msg srv reply :
  linked w pending s -> check_keywords "DeviceClient.request" ["self"; "cmd"]%string fields = Ok tt ->
  build_request (dc_request_id s + 1) cmd fields = Ok msg -> wire_ok msg -> fits msg ->
  next_reply s w cmd msg = (srv, Ok reply) -> wire_ok reply -> Forall fits (pending ++ [reply]) ->
  exists s',
    dc_request cmd fields s = (s', (read_next (stalled s) (dc_request_id s + 1) (pending ++ [reply])).2) /\
    linked w (read_next (stalled s) (dc_request_id s + 1) (pending ++ [reply])).1 s' /\
    dc_request_id s' = dc_request_id s + 1 /\ client_server s' = srv /\
    lk_stalls (dc_net s') = tail (lk_stalls (dc_net s)).
Proof.
  intros Hl Hk Hb Hw Hf Hr Hrw Hfs.
  pose proof (link_send_served _ _ _ _ _ _ _ _ Hl Hb Hw Hf Hr Hrw) as Hsend. cbv zeta in Hsend.
  apply andb_True in Hw as [Hj He]. destruct Hl as [Ho Hc Hh Hlv Hi].
  unfold dc_request; open_M.
  rewrite Hk, Ho. cbn [negb]. rewrite Hb, (encode_json_line_ok msg He).
  unfold on_net. cbn [dc_net with_request_id tr_send link_transport]. rewrite Hsend. clear Hsend.
  cbn [dc_net with_net tr_recv link_transport].
  match goal with |- context [link_recv ?k] => set (k1 := k) end.
  destruct (link_recv_next k1 w (pending ++ [reply])) as (k' & Hrecv & Hin & Hconn & Hworld & Hst);
    [done|done|done|by destruct pending|].
  rewrite Hrecv. change (lk_stalls k1) with (lk_stalls (dc_net s)) in *. unfold stalled, read_next.
  destruct (default false (head (lk_stalls (dc_net s)))).
  - eexists. split; [by destruct (pending ++ [reply])|]. cbn. unfold client_server. cbn. rewrite Hworld.
    split_and!; try done. constructor; cbn; rewrite ?Hworld, ?Hconn; try done.
  - destruct (pending ++ [reply]) as [|p ps] eqn:Hp; [by destruct pending|].
    eexists. split; [done|]. cbn. unfold client_server. cbn. rewrite Hworld.
    split_and!; try done. constructor; cbn; rewrite ?Hworld, ?Hconn; try done.
Qed.
(** What the client's caller gets for a reply of the device. *)
Definition reply_outcome (reply : pydict) (r : res pydict) : Prop :=
  match dget "ok"%string reply with
  | Some (PBool true) => r = Ok reply
  | _ => exists code message,
      dget "error"%string reply = Some (PDict [("code", PStr code); ("message", PStr message)]%string) /\
      code ∈ ERROR_CODES /\ r = raise DeviceClientError (code +:+ ": " +:+ message)
  end.

Lemma pget_Some k (d : pydict) v : dget k d = Some v -> pget k d = v /\ forall dflt, pget_def k dflt d = v.
Proof. intros Hk. unfold pget, pget_def. by rewrite Hk. Qed.

Lemma line_of_decodes d : wire_ok d -> decode_json_line (line_of d) = Ok d.
Proof. intros [Hj He]%andb_True. exact (decode_encode d _ (encode_json_line_ok d He) Hj). Qed.

Lemma accept_own_reply i reply :
  replies (Some (PInt i)) reply -> wire_ok reply -> reply_outcome reply (accept_reply i (line_of reply)).
Proof.
  intros (Hid & ok & Hok & Herr) Hw%line_of_decodes. unfold accept_reply, reply_outcome.
  change (line_of reply) with ("{"%char :: tail (line_of reply)). cbv iota beta.
  change ("{"%char :: tail (line_of reply)) with (line_of reply). rewrite Hw. cbn [mbind res_bind].
  rewrite (proj1 (pget_Some _ _ _ Hid)), (proj2 (pget_Some _ _ _ Hok)), Hok. cbn [py_eq_int]. rewrite Z.eqb_refl.
  destruct ok; cbn [negb py_bool]; [done|]. destruct (Herr eq_refl) as (code & message & He & Hcode).
  exists code, message. split_and!; [done|done|]. unfold reply_error.
  by rewrite (proj1 (pget_Some _ _ _ He)).
Qed.

Lemma accept_other_reply i j reply :
  dget "request_id"%string reply = Some (PInt j) -> j <> i -> wire_ok reply ->
  accept_reply i (line_of reply) = raise DeviceClientError "response request_id mismatch".
Proof.
  intros Hid Hne Hw%line_of_decodes. unfold accept_reply.
  change (line_of reply) with ("{"%char :: tail (line_of reply)). cbv iota beta.
  change ("{"%char :: tail (line_of reply)) with (line_of reply). rewrite Hw. cbn [mbind res_bind].
  rewrite (proj1 (pget_Some _ _ _ Hid)). cbn [py_eq_int]. by rewrite (proj2 (Z.eqb_neq j i) Hne).
Qed.

(** An unread reply to a request up to number [i]. *)
Definition stale (i : Z) (p : pydict) : Prop :=
  wire_ok p /\ exists j, dget "request_id"%string p = Some (PInt j) /\ j <= i.

Lemma stale_mono i i' p : i <= i' -> stale i p -> stale i' p.
Proof. intros Hi (Hw & j & Hj & Hle). split; [done|]. exists j. split; [done|lia]. Qed.

(** The exchange over a connection without unread or late replies. *)
Lemma dc_request_answered w s cmd fields msg srv reply :
  linked w [] s -> stalled s = false ->
  check_keywords "DeviceClient.request" ["self"; "cmd"]%string fields = Ok tt ->
  build_request (dc_request_id s + 1) cmd fields = Ok msg -> wire_ok msg -> fits msg ->
  next_reply s w cmd msg = (srv, Ok reply) -> wire_ok reply -> fits reply ->
  exists s' r,
    dc_request cmd fields s = (s', r) /\ reply_outcome reply r /\
    client_server s' = srv /\ linked w [] s' /\ dc_request_id s' = dc_request_id s + 1.
Proof.
  intros Hl Hst Hk Hb Hw Hf Hr Hrw Hrf.
  destruct (dc_request_exchange w [] s cmd fields msg srv reply) as (s' & Hreq & Hl' & Hid & Hsrv & _); try done.
  { by apply Forall_singleton. }
  rewrite Hst in *. cbn [app read_next fst snd] in *. eexists s', _. split; [exact Hreq|].
  split_and!; try done. apply accept_own_reply; [|done]. by eapply serve_echoes.
Qed.

(** When the command raises, the handler leaves and the client reads the end
    of the stream. *)
Lemma dc_request_lost w s cmd fields msg srv e :
  linked w [] s -> stalled s = false ->
  check_keywords "DeviceClient.request" ["self"; "cmd"]%string fields = Ok tt ->
  build_request (dc_request_id s + 1) cmd fields = Ok msg -> wire_ok msg -> fits msg ->
  next_reply s w cmd msg = (srv, Raise e) -> w_owner (lk_world (dc_net s)) = Some w ->
  exists s', dc_request cmd fields s = (s', raise DeviceClientError "device closed control connection") /\
    client_server s' = with_dests None None None (stop_all srv).
Proof.
  intros [Ho Hc Hh Hlv Hi] Hst Hk Hb Hw Hf Hr Hown.
  unfold dc_request; open_M. rewrite Hk, Ho. cbn [negb].
  pose proof Hw as [_ He]%andb_True. rewrite Hb, (encode_json_line_ok msg He).
  unfold on_net. cbn [dc_net with_request_id tr_send link_transport]. unfold link_send at 1.
  rewrite Hc, decide_True by done. rewrite readline_line_exact by done. unfold on_line.
  rewrite (dispatch_line _ _ _ _ _ _ _ Hb Hw). unfold next_reply, client_server in Hr. rewrite Hr.
  cbn [mbind res_bind]. unfold on_end. cbn [w_owner w_server w_handlers w_closing w_sent].
  rewrite Hown, decide_True by done. cbn [dc_net with_net tr_recv link_transport].
  unfold link_recv. cbn [lk_inbox lk_stalls lk_conn lk_world w_closing lk_next lk_clock lk_served].
  unfold stalled in Hst. rewrite Hst, Hi. cbn [fmap list_fmap concat orb app].
  assert (forall x y, w_sent x = w_sent y -> new_lines w x y = []) as Hnew.
  { intros x y Hxy. unfold new_lines. by rewrite Hxy, drop_all. }
  rewrite Hnew by done. rewrite (bool_decide_false (w ∉ w :: _)) by set_solver.
  rewrite andb_false_r. cbn. eexists. split; [done|]. done.
Qed.

(** C4: A request is a remote procedure call.  Over a connection with no unread
    reply and no late answer, a client request whose message and reply are
    JSON-encodable lines within the 64 KiB limit has exactly the effect of the
    device's command on the device's state and returns its reply: the reply
    itself when it is [ok], and otherwise [DeviceClientError] with the
    documented error code and the device's message.  If the command dies of an
    exception the client reports the closed connection, and the device has
    stopped every stream and forgotten the client's destinations. *)
Theorem rpc_transparent (w : nat) (s : client) (cmd : string) (fields msg : pydict) :
  linked w [] s -> stalled s = false -> w_owner (lk_world (dc_net s)) = Some w ->
  check_keywords "DeviceClient.request" ["self"; "cmd"]%string fields = Ok tt ->
  build_request (dc_request_id s + 1) cmd fields = Ok msg -> wire_ok msg -> fits msg ->
  match next_reply s w cmd msg with
  | (srv, Ok reply) =>
      wire_ok reply -> fits reply ->
      exists s' r,
        dc_request cmd fields s = (s', r) /\ reply_outcome reply r /\
        client_server s' = srv /\ linked w [] s' /\ dc_request_id s' = dc_request_id s + 1
  | (srv, Raise _) =>
      exists s',
        dc_request cmd fields s = (s', raise DeviceClientError "device closed control connection") /\
        client_server s' = with_dests None None None (stop_all srv) /\ idle (client_server s')
  end.
Proof.
  intros Hl Hst Hown Hk Hb Hw Hf. destruct (next_reply s w cmd msg) as [srv [reply|e]] eqn:Hr.
  - intros Hrw Hrf. by apply (dc_request_answered w s cmd fields msg).
  - destruct (dc_request_lost w s cmd fields msg srv e) as (s' & Hreq & Hsrv); try done.
    exists s'. split_and!; [done|done|]. rewrite Hsrv. apply stop_all_idle.
Qed.

(** C33: A late reply desynchronises the connection.  Once a request has timed
    out while its reply is still to come, and as long as the connection stays
    open, every further request fails: it consumes an older reply and reports
    [response request_id mismatch], although the device executed the command;
    its own reply stays unread, so the next request is in the same situation.
    (The heartbeat's next ping fails in this way and closes the connection.) *)
Theorem late_reply_desynchronises (w : nat) (s : client) (pending : list pydict) (cmd : string)
    (fields msg : pydict) (srv : FakeServer rng) (reply : pydict) :
  linked w pending s -> Forall (stale (dc_request_id s)) pending -> Forall fits (pending ++ [reply]) ->
  (stalled s = true \/ pending <> []) ->
  check_keywords "DeviceClient.request" ["self"; "cmd"]%string fields = Ok tt ->
  build_request (dc_request_id s + 1) cmd fields = Ok msg -> wire_ok msg -> fits msg ->
  next_reply s w cmd msg = (srv, Ok reply) -> wire_ok reply ->
  exists s' e pending',
    dc_request cmd fields s = (s', Raise e) /\
    (if stalled s then exn_cls e = TimeoutError
     else e = Exn DeviceClientError "response request_id mismatch") /\
    client_server s' = srv /\
    linked w pending' s' /\ Forall (stale (dc_request_id s')) pending' /\ pending' <> [].
Proof.
  intros Hl Hstale Hfits Hcase Hk Hb Hw Hf Hr Hrw.
  destruct (dc_request_exchange w pending s cmd fields msg srv reply) as (s' & Hreq & Hl' & Hid & Hsrv & _); try done.
  assert (Forall (stale (dc_request_id s')) (pending ++ [reply])) as Hstale'.
  { apply Forall_app. split.
    - eapply Forall_impl; [exact Hstale|]. intros p. apply stale_mono. lia.
    - apply Forall_singleton. split; [done|]. exists (dc_request_id s + 1). split; [|lia].
      by apply (serve_echoes _ _ _ _ _ _ _ _ Hr). }
  destruct (stalled s) eqn:Hst; cbn [read_next] in Hreq, Hl'.
  - exists s', (Exn TimeoutError ""), (pending ++ [reply]).
    rewrite Hreq. split_and!; try done. by destruct pending.
  - destruct pending as [|p ps]; [by destruct Hcase|]. cbn [app fst snd] in *.
    apply Forall_cons in Hstale as [(Hpw & j & Hj & Hle) _].
    rewrite (accept_other_reply _ j) in Hreq by (done || lia).
    eexists s', _, (ps ++ [reply]). rewrite Hreq. split_and!; try done.
    + by apply Forall_cons in Hstale' as [_ ?].
    + by destruct ps.
Qed.
End Link.

(** ** A connected client *)

#[local] Existing Instance constant_env.

Definition demo_ip (_ : nat) : string := "10.0.0.2".

#[local] Instance demo_transport : Transport (Link unit) := link_transport fake_config_default demo_ip.

(** A device that was just started, and the client after a successful [connect]. *)
Definition demo_link (stalls : list bool) : Link unit :=
  MkLink (with_server (start sample_server) (world_init (f_of_Z 0) tt)) None 0 [] stalls (fun n => f_of_Z (Z.of_nat n)) 0.

Definition demo_client (stalls : list bool) : DeviceClient (Link unit) :=
  (dc_connect None (client_init DeviceConfig UdpConfig (demo_link (false :: stalls)))).1.

Lemma demo_linked stalls : linked 0 [] (demo_client stalls).
Proof.
  split; [by vm_compute|by vm_compute| | |by vm_compute].
  - assert (w_handlers (lk_world (dc_net (demo_client stalls))) = [0%nat]) as -> by (by vm_compute). set_solver.
  - assert (w_closing (lk_world (dc_net (demo_client stalls))) = []) as -> by (by vm_compute). set_solver.
Qed.

Lemma fits_dec d : Nat.leb (length (json_text (PDict d))) stream_limit = true -> fits d.
Proof. apply Nat.leb_le. Qed.

Definition demo_fields : pydict := [("frequency_hz", PInt 88500000); ("enable", PBool true)]%string.
Definition demo_message : pydict :=
  [("request_id", PInt 2); ("cmd", PStr "set_rx"); ("frequency_hz", PInt 88500000); ("enable", PBool true)]%string.

(** The device's answer to the demo request. *)
Lemma demo_reply stalls :
  exists srv reply,
    next_reply fake_config_default demo_ip (demo_client stalls) 0 "set_rx" demo_message = (srv, Ok reply) /\
    wire_ok reply /\ fits reply /\ dget "ok"%string reply = Some (PBool true) /\
    (sm_frequency_hz <$> dget 0 (fs_streams srv)) = Some 88500000.
Proof.
  eexists _, _. split; [by vm_compute|]. split; [by vm_compute|]. split; [apply fits_dec; by vm_compute|].
  split; by vm_compute.
Qed.

(** Tuning through the client: the device is retuned and its reply returned. *)
Lemma rpc_transparent_witness :
  exists s' reply,
    dc_request "set_rx" demo_fields (demo_client []) = (s', Ok reply) /\
    (sm_frequency_hz <$> dget 0 (fs_streams (client_server s'))) = Some 88500000.
Proof.
  assert (fits demo_message) as Hfits by (apply fits_dec; by vm_compute).
  pose proof (rpc_transparent fake_config_default demo_ip 0 (demo_client []) "set_rx" demo_fields demo_message
    (demo_linked []) ltac:(by vm_compute) ltac:(by vm_compute) ltac:(by vm_compute) ltac:(by vm_compute)
    ltac:(by vm_compute) Hfits) as H.
  destruct (demo_reply []) as (srv & reply & Hr & Hw & Hf & Hok & Hfreq). rewrite Hr in H.
  destruct (H Hw Hf) as (s' & r & Hreq & Hout & Hsrv & _). exists s', reply.
  unfold reply_outcome in Hout. rewrite Hok in Hout. rewrite Hout in Hreq. split; [exact Hreq|].
  rewrite Hsrv. exact Hfreq.
Defined.

(** The first request's reply is late: it times out, although the device is
    retuned, and leaves the client one reply behind. *)
Lemma late_reply_desynchronises_witness :
  exists s' e pending',
    dc_request "set_rx" demo_fields (demo_client [true]) = (s', Raise e) /\ exn_cls e = TimeoutError /\
    (sm_frequency_hz <$> dget 0 (fs_streams (client_server s'))) = Some 88500000 /\
    linked 0 pending' s' /\ Forall (stale (dc_request_id s')) pending' /\ pending' <> [].
Proof.
  assert (fits demo_message) as Hfits by (apply fits_dec; by vm_compute).
  destruct (demo_reply [true]) as (srv & reply & Hr & Hw & Hf & Hok & Hfreq).
  destruct (late_reply_desynchronises fake_config_default demo_ip 0 (demo_client [true]) [] "set_rx" demo_fields
    demo_message srv reply (demo_linked [true]) ltac:(by apply Forall_nil_2) ltac:(by apply Forall_singleton)
    ltac:(left; by vm_compute) ltac:(by vm_compute) ltac:(by vm_compute) ltac:(by vm_compute) Hfits Hr Hw)
    as (s' & e & pending' & Hreq & He & Hsrv & Hrest).
  exists s', e, pending'. split; [exact Hreq|]. split; [exact He|]. split; [|exact Hrest].
  rewrite Hsrv. exact Hfreq.
Defined.
