(* ===== verification/Runtime.v ===== *)
(** The backend runtime ([rpi/backend/sdr_backend/runtime.py]): the object that
    ties the control client, the receive path, the signal processing and the
    broadcasters together.  The event loop runs one handler at a time; each
    operation is a function on the runtime's attributes, with [now] the reading
    of [time.monotonic()] its status snapshots use.

    [config.device] is the client's [device] object, so it is kept there only. *)

From Stdlib Require Import ZArith SpecFloat Lia Ascii String Strings.Byte.
From stdpp Require Import base list gmap sets strings.
From S2P Require Import Prelude PyFloat PyValue Json Control Packets Psd State Config Broadcast UdpReceiver NumpyApi Dsp Waterfall DeviceClient.

Open Scope Z_scope.

Record BackendRuntime (net arr elt : Type) := MkRuntime {
  rt_config : AppConfig;
  rt_state : AppState;
  rt_device : DeviceClient net;
  rt_audio : Broadcaster (list byte);
  rt_status : Broadcaster pydict;
  rt_spectrum : Broadcaster pydict;
  rt_demod : Demodulator arr elt;
  rt_waterfall : WaterfallEngine;
  rt_psd_reassembler : PsdReassembler;
  rt_loop : bool;
  rt_udp : option UdpReceivers;
}.
Arguments MkRuntime {net arr elt}.
Arguments rt_config {net arr elt}.
Arguments rt_state {net arr elt}.
Arguments rt_device {net arr elt}.
Arguments rt_audio {net arr elt}.
Arguments rt_status {net arr elt}.
Arguments rt_spectrum {net arr elt}.
Arguments rt_demod {net arr elt}.
Arguments rt_waterfall {net arr elt}.
Arguments rt_psd_reassembler {net arr elt}.
Arguments rt_loop {net arr elt}.
Arguments rt_udp {net arr elt}.

(** *** Assignments to attributes of [AppState] *)

Definition st_connection (connected : bool) (host : pyval) (error : option string) (s : AppState) : AppState :=
  MkAppState (as_started_at s) connected host (as_hello s) (as_device_status s) (as_frontend s) (as_rx s)
    (as_psd s) (as_streams s) error.
Definition st_connected (b : bool) (s : AppState) : AppState :=
  st_connection b (as_device_host s) (as_last_error s) s.
Definition st_hello (h : pydict) (s : AppState) : AppState :=
  MkAppState (as_started_at s) (as_connected s) (as_device_host s) (Some h) (as_device_status s) (as_frontend s)
    (as_rx s) (as_psd s) (as_streams s) (as_last_error s).
Definition st_device_status (v : pyval) (s : AppState) : AppState :=
  MkAppState (as_started_at s) (as_connected s) (as_device_host s) (as_hello s) v (as_frontend s)
    (as_rx s) (as_psd s) (as_streams s) (as_last_error s).
Definition st_frontend (v : pyval) (s : AppState) : AppState :=
  MkAppState (as_started_at s) (as_connected s) (as_device_host s) (as_hello s) (as_device_status s) v
    (as_rx s) (as_psd s) (as_streams s) (as_last_error s).
Definition st_rx (v : pyval) (s : AppState) : AppState :=
  MkAppState (as_started_at s) (as_connected s) (as_device_host s) (as_hello s) (as_device_status s)
    (as_frontend s) v (as_psd s) (as_streams s) (as_last_error s).
Definition st_psd (d : pydict) (s : AppState) : AppState :=
  MkAppState (as_started_at s) (as_connected s) (as_device_host s) (as_hello s) (as_device_status s)
    (as_frontend s) (as_rx s) d (as_streams s) (as_last_error s).
Definition st_last_error (e : option string) (s : AppState) : AppState :=
  st_connection (as_connected s) (as_device_host s) e s.

(** [v.get(...)] and [{**v}] need a dict. *)
Definition as_dict_get (v : pyval) : res pydict :=
  match v with
  | PDict d => Ok d
  | _ => raise AttributeError ("'" +:+ type_name v +:+ "' object has no attribute 'get'")
  end.
Definition as_mapping (v : pyval) : res pydict :=
  match v with
  | PDict d => Ok d
  | _ => raise TypeError ("'" +:+ type_name v +:+ "' object is not a mapping")
  end.

Section Runtime.
Context {net arr elt : Type} `{!Transport net} `{!Numpy arr elt}.
Abbreviation runtime := (BackendRuntime net arr elt).

Definition upd_state (f : AppState -> AppState) : M runtime unit := M_modify (fun s =>
  MkRuntime (rt_config s) (f (rt_state s)) (rt_device s) (rt_audio s) (rt_status s) (rt_spectrum s) (rt_demod s)
    (rt_waterfall s) (rt_psd_reassembler s) (rt_loop s) (rt_udp s)).

Definition upd_demod (f : Demodulator arr elt -> Demodulator arr elt) : M runtime unit := M_modify (fun s =>
  MkRuntime (rt_config s) (rt_state s) (rt_device s) (rt_audio s) (rt_status s) (rt_spectrum s) (f (rt_demod s))
    (rt_waterfall s) (rt_psd_reassembler s) (rt_loop s) (rt_udp s)).

Definition upd_psd (f : PsdReassembler -> PsdReassembler) : M runtime unit := M_modify (fun s =>
  MkRuntime (rt_config s) (rt_state s) (rt_device s) (rt_audio s) (rt_status s) (rt_spectrum s) (rt_demod s)
    (rt_waterfall s) (f (rt_psd_reassembler s)) (rt_loop s) (rt_udp s)).

Definition upd_udp (loop : bool) (u : option UdpReceivers) : M runtime unit := M_modify (fun s =>
  MkRuntime (rt_config s) (rt_state s) (rt_device s) (rt_audio s) (rt_status s) (rt_spectrum s) (rt_demod s)
    (rt_waterfall s) (rt_psd_reassembler s) loop u).

(** Operations of the parts, run inside the runtime. *)
Definition on_device {A} (m : M (DeviceClient net) A) : M runtime A := fun s =>
  let '(d, r) := m (rt_device s) in
  (MkRuntime (rt_config s) (rt_state s) d (rt_audio s) (rt_status s) (rt_spectrum s) (rt_demod s)
     (rt_waterfall s) (rt_psd_reassembler s) (rt_loop s) (rt_udp s), r).

Definition on_demod {A} (m : M (Demodulator arr elt) A) : M runtime A := fun s =>
  let '(d, r) := m (rt_demod s) in
  (MkRuntime (rt_config s) (rt_state s) (rt_device s) (rt_audio s) (rt_status s) (rt_spectrum s) d
     (rt_waterfall s) (rt_psd_reassembler s) (rt_loop s) (rt_udp s), r).

Definition on_waterfall {A} (m : M WaterfallEngine A) : M runtime A := fun s =>
  let '(w, r) := m (rt_waterfall s) in
  (MkRuntime (rt_config s) (rt_state s) (rt_device s) (rt_audio s) (rt_status s) (rt_spectrum s) (rt_demod s)
     w (rt_psd_reassembler s) (rt_loop s) (rt_udp s), r).

Definition on_reassembler {A} (m : M PsdReassembler A) : M runtime A := fun s =>
  let '(p, r) := m (rt_psd_reassembler s) in
  (MkRuntime (rt_config s) (rt_state s) (rt_device s) (rt_audio s) (rt_status s) (rt_spectrum s) (rt_demod s)
     (rt_waterfall s) p (rt_loop s) (rt_udp s), r).

Definition publish_audio (frame : list byte) : M runtime unit := fun s =>
  match publish frame (rt_audio s) with
  | Ok b => (MkRuntime (rt_config s) (rt_state s) (rt_device s) b (rt_status s) (rt_spectrum s) (rt_demod s)
               (rt_waterfall s) (rt_psd_reassembler s) (rt_loop s) (rt_udp s), Ok tt)
  | Raise e => (s, Raise e)
  end.

Definition publish_spectrum (d : pydict) : M runtime unit := fun s =>
  match publish d (rt_spectrum s) with
  | Ok b => (MkRuntime (rt_config s) (rt_state s) (rt_device s) (rt_audio s) (rt_status s) b (rt_demod s)
               (rt_waterfall s) (rt_psd_reassembler s) (rt_loop s) (rt_udp s), Ok tt)
  | Raise e => (s, Raise e)
  end.

(** [self.status.publish(self.state.snapshot())]. *)
Definition publish_status (now : float) : M runtime unit := fun s =>
  match publish (app_snapshot now (rt_state s)) (rt_status s) with
  | Ok b => (MkRuntime (rt_config s) (rt_state s) (rt_device s) (rt_audio s) b (rt_spectrum s) (rt_demod s)
               (rt_waterfall s) (rt_psd_reassembler s) (rt_loop s) (rt_udp s), Ok tt)
  | Raise e => (s, Raise e)
  end.

Definition device_host (s : runtime) : pyval := pget "host" (dc_device (rt_device s)).

(** ** Construction, start and stop *)

(** [__init__] with the signal-processing objects built from [config.dsp]. *)
Definition runtime_init (now : float) (config : AppConfig) (n : net) (demod : Demodulator arr elt) (fft_size : Z) :
    runtime :=
  let state := app_state_init now (ac_frontend config) (ac_rx config) (ac_psd config) in
  MkRuntime config (st_connection false (pget "host" (ac_device config)) None state)
    (client_init (ac_device config) (ac_udp config) n) (bc_init 128) (bc_init 32) (bc_init 16) demod
    (waterfall_init fft_size) psd_init false None.

(** The receivers are assigned before their sockets are opened one by one: an
    exception leaves those already open.  [free] says which ports the system
    grants. *)
Definition rt_start (free : Z -> bool) : M runtime unit :=
  s ← M_get;
  let udp := ac_udp (rt_config s) in
  let u := udp_init (pget "iq_port" udp) (pget "psd_port" udp) (pget "status_port" udp) in
  upd_udp true (Some u) ;;
  let '(u, r) := udp_start free u in
  upd_udp true (Some u) ;;
  M_lift r.

Definition rt_stop : M runtime unit :=
  on_device (M_modify dc_close) ;;
  s ← M_get;
  match rt_udp s with
  | Some u => upd_udp (rt_loop s) (Some (udp_stop u))
  | None => mret tt
  end.

(** ** Commands

    A command waits for the device and then finishes in one piece: the event
    loop runs other handlers only during the exchange.  What comes after the
    reply is a definition of its own, [..._done]. *)

Definition rt_set_frontend_done (now : float) (fields response : pydict) : M runtime pydict :=
  upd_state (st_frontend (pget_def "applied" (PDict fields) response)) ;;
  publish_status now ;;
  mret response.

Definition rt_set_frontend (now : float) (fields : pydict) : M runtime pydict :=
  on_device (dc_set_frontend fields) ≫= rt_set_frontend_done now fields.

Definition rt_set_rx_done (now : float) (fields response : pydict) : M runtime pydict :=
  let applied := pget_def "applied" (PDict fields) response in
  upd_state (st_rx applied) ;;
  applied ← M_lift (as_dict_get applied);
  let mode := py_str (pget_def "mode" (pget_def "mode" (PStr "WFM") fields) applied) in
  rate ← M_lift (py_int (pget_def "iq_sample_rate_hz" (pget_def "iq_sample_rate_hz" (PInt 1000000) fields) applied));
  upd_demod (configure mode rate) ;;
  publish_status now ;;
  mret response.

Definition rt_set_rx (now : float) (fields : pydict) : M runtime pydict :=
  on_device (dc_set_rx fields) ≫= rt_set_rx_done now fields.

Definition psd_disabled_message : string :=
  "hardware PSD is disabled in backend config; using local IQ spectrum".

(** [{key: value for key, value in fields.items() if value is not None}]. *)
Definition not_none (fields : pydict) : pydict := filter (fun kv => kv.2 <> PNone) fields.

Definition rt_set_psd_done (now : float) (defaults response : pydict) : M runtime pydict :=
  applied ← M_lift (as_mapping (pget_def "applied" (PDict defaults) response));
  upd_state (fun st => st_psd (dupdate (as_psd st) applied) st) ;;
  (if py_bool (pget_def "enable" (pget_def "enabled" (PBool false) applied) applied)
   then mret tt else upd_psd psd_reset) ;;
  publish_status now ;;
  mret response.

(** The reply of a backend that is configured without hardware PSD. *)
Definition rt_psd_unsupported (now : float) (defaults : pydict) : M runtime pydict :=
  let applied := dupdate defaults
    [("enable", PBool false); ("enabled", PBool false); ("unsupported", PBool true)]%string in
  upd_state (fun st => st_last_error (Some psd_disabled_message) (st_psd (dupdate (as_psd st) applied) st)) ;;
  publish_status now ;;
  mret [("ok", PBool false);
        ("error", PDict [("code", PStr "invalid_command"); ("message", PStr psd_disabled_message)]);
        ("applied", PDict applied)]%string.

Definition rt_set_psd (now : float) (fields : option pydict) : M runtime pydict :=
  s ← M_get;
  let defaults := dupdate (ac_psd (rt_config s)) (not_none (default [] fields)) in
  if py_bool (pget_def "enable" (PBool true) defaults) && negb (py_bool (pget "enable" (ac_psd (rt_config s))))
  then rt_psd_unsupported now defaults
  else on_device (dc_set_psd defaults) ≫= rt_set_psd_done now defaults.

Definition rt_stop_all_done (now : float) (response : pydict) : M runtime pydict :=
  s ← M_get;
  rx ← M_lift (as_mapping (as_rx (rt_state s)));
  upd_state (st_rx (PDict (dset "enable"%string (PBool false) rx))) ;;
  upd_state (fun st => st_psd (dupdate (as_psd st) [("enable", PBool false); ("enabled", PBool false)]%string) st) ;;
  upd_psd psd_reset ;;
  publish_status now ;;
  mret response.

Definition rt_stop_all (now : float) : M runtime pydict := on_device dc_stop_all ≫= rt_stop_all_done now.

Definition rt_connect_failed (now : float) (e : exn) : M runtime pydict :=
  s ← M_get;
  upd_state (st_connection false (device_host s) (Some (exn_msg e))) ;;
  publish_status now ;;
  M_lift (Raise e).

Definition rt_connected (now : float) (response : pydict) : M runtime unit :=
  s ← M_get;
  upd_state (fun st => st_hello response (st_connection true (device_host s) None st)) ;;
  publish_status now.

Definition rt_auto_psd_failed (now : float) (e : exn) : M runtime unit :=
  upd_state (st_last_error (Some ("auto set_psd failed: " +:+ exn_msg e))) ;; publish_status now.

Definition rt_connect_device (now : float) (host : option string) : M runtime pydict :=
  response ← M_try (on_device (dc_connect host)) (rt_connect_failed now);
  rt_connected now response ;;
  s ← M_get;
  (if py_bool (pget "enable" (ac_psd (rt_config s))) then
     M_try (rt_set_psd now (Some (ac_psd (rt_config s))) ;; mret tt) (rt_auto_psd_failed now)
   else mret tt) ;;
  mret response.

Definition rt_snapshot (now : float) : M runtime pydict :=
  s ← M_get;
  upd_state (st_connected (dc_connected (rt_device s))) ;;
  s ← M_get;
  mret (app_snapshot now (rt_state s)).

(** ** Handlers of what the receiver threads deliver *)

Fixpoint publish_frames (frames : list (list byte)) : M runtime unit :=
  match frames with
  | [] => mret tt
  | f :: frames' => publish_audio f ;; publish_frames frames'
  end.

(** [None]: the demodulator's framing loop does not end. *)
Definition handle_iq (header : SdrIqHeader) (payload : list byte) : M runtime (option unit) :=
  upd_state (ingest_iq_header header) ;;
  s ← M_get;
  rx ← M_lift (as_dict_get (as_rx (rt_state s)));
  upd_demod (configure (py_str (pget_def "mode" (PStr "WFM") rx)) (iq_iq_sample_rate_hz header)) ;;
  frames ← on_demod (process_sc16 payload);
  match frames with
  | None => mret None
  | Some frames =>
      publish_frames frames ;;
      spectrum ← on_waterfall
        (waterfall_compute payload (iq_frequency_hz header) (iq_iq_sample_rate_hz header));
      match spectrum with
      | Some d => publish_spectrum (dset "flags"%string (PInt (iq_flags header)) d) ;; mret (Some tt)
      | None => mret (Some tt)
      end
  end.

Definition handle_psd (header : SdrPsdHeader) (payload : list byte) : M runtime unit :=
  frame ← on_reassembler (psd_ingest header payload);
  match frame with
  | Some frame =>
      seq ← M_lift (pitem "frame_seq" frame);
      dropped ← M_lift (pitem "dropped_frame_count" frame);
      missing ← M_lift (pitem "missing_segment_count" frame);
      upd_state (fun st => st_psd (dupdate (as_psd st)
        [("enabled", PBool true); ("frame_seq", seq); ("dropped_frame_count", dropped);
         ("missing_segment_count", missing)]%string) st) ;;
      publish_spectrum frame
  | None => mret tt
  end.

Definition handle_status (now : float) (status : pyval) : M runtime unit :=
  upd_state (st_device_status status) ;; publish_status now.

Definition handle_error (now : float) (e : exn) : M runtime unit :=
  upd_state (st_last_error (Some (exn_msg e))) ;; publish_status now.

(** What a receiver thread hands to the event loop: [_thread_iq], [_thread_psd],
    [_thread_status] and [_thread_error] schedule the handler once the loop is
    known. *)
Inductive received :=
  | RxIq (header : SdrIqHeader) (payload : list byte)
  | RxPsd (header : SdrPsdHeader) (payload : list byte)
  | RxStatus (status : pyval)
  | RxError (e : exn).

Definition thread_post (ev : received) (s : runtime) : list received := if rt_loop s then [ev] else [].

Definition handle_received (now : float) (ev : received) : M runtime (option unit) :=
  match ev with
  | RxIq header payload => handle_iq header payload
  | RxPsd header payload => handle_psd header payload ;; mret (Some tt)
  | RxStatus status => handle_status now status ;; mret (Some tt)
  | RxError e => handle_error now e ;; mret (Some tt)
  end.

(** [start] knows the event loop from then on and keeps the sockets it could
    open; nothing else of the runtime changes.  [stop] always succeeds and
    leaves the client closed and the receivers stopped. *)
Lemma rt_start_eq free (s : runtime) :
  let udp := ac_udp (rt_config s) in
  let '(u, r) := udp_start free (udp_init (pget "iq_port" udp) (pget "psd_port" udp) (pget "status_port" udp)) in
  rt_start free s =
    (MkRuntime (rt_config s) (rt_state s) (rt_device s) (rt_audio s) (rt_status s) (rt_spectrum s) (rt_demod s)
       (rt_waterfall s) (rt_psd_reassembler s) true (Some u), r).
Proof.
  cbv zeta. unfold rt_start, upd_udp; open_M. by destruct (udp_start free _) as [u r].
Qed.

Lemma rt_stop_ok (s : runtime) :
  exists s', rt_stop s = (s', Ok tt) /\ dc_open (rt_device s') = false /\ rt_udp s' = udp_stop <$> rt_udp s.
Proof.
  unfold rt_stop, on_device, upd_udp, mret, M_ret; open_M. cbn.
  pose proof (dc_close_flags (rt_device s)) as (Ho & _).
  destruct (rt_udp s) eqn:Hu; eexists; split_and!; try done.
Qed.
End Runtime.
