(* ===== verification/EventLoop.v ===== *)
(** The backend's threads and event loop: [UdpReceivers._loop] runs in three
    threads, whose callbacks [BackendRuntime._thread_iq], [_thread_psd],
    [_thread_status] and [_thread_error] only queue a handler with
    [call_soon_threadsafe]; the event loop runs the queued handlers in order,
    one at a time, between the pieces of the commands.

    A run is a sequence of events, in whatever order the threads, the network
    and the commands produce them.  What each thread saw ([th_seen]) and what
    the loop ran ([el_done]) is recorded beside the state. *)

From Stdlib Require Import ZArith SpecFloat Lia Ascii String Strings.Byte.
From stdpp Require Import base list gmap sets strings.
From S2P Require Import Prelude PyFloat PyValue Json Control Packets Psd State Config Broadcast UdpReceiver NumpyApi Dsp Waterfall DeviceClient Runtime.

Open Scope Z_scope.

(** ** Threads *)

Inductive channel := ChIq | ChPsd | ChStatus.

#[export] Instance channel_eq_dec : EqDecision channel.
Proof. solve_decision. Defined.

Record thread := MkThread {
  th_running : bool;
  th_seen : list sock_event;
}.

Definition post_iq (cb : callback (SdrIqHeader * list byte)) : received :=
  match cb with Delivered (h, payload) => RxIq h payload | Reported e => RxError e end.
Definition post_psd (cb : callback (SdrPsdHeader * list byte)) : received :=
  match cb with Delivered (h, payload) => RxPsd h payload | Reported e => RxError e end.
Definition post_status (cb : callback pyval) : received :=
  match cb with Delivered v => RxStatus v | Reported e => RxError e end.

(** One turn of a thread: what it hands over, and whether it goes on. *)
Definition channel_turn (ch : channel) (ev : sock_event) : list received * bool :=
  match ch with
  | ChIq => let '(out, go) := recv_turn recv_iq ev in (post_iq <$> out, go)
  | ChPsd => let '(out, go) := recv_turn recv_psd ev in (post_psd <$> out, go)
  | ChStatus => let '(out, go) := recv_turn recv_status ev in (post_status <$> out, go)
  end.

(** The pieces of the commands between two waits. *)
Inductive command_part :=
  | PartFrontend (fields response : pydict)
  | PartRx (fields response : pydict)
  | PartPsd (defaults response : pydict)
  | PartPsdUnsupported (defaults : pydict)
  | PartStopAll (response : pydict)
  | PartConnected (response : pydict)
  | PartConnectFailed (e : exn)
  | PartAutoPsdFailed (e : exn)
  | PartSnapshot.

(** What the loop has done that concerns the receive path. *)
Inductive loop_entry := Handled (ev : received) | PsdReset.

Record EventLoop (net arr elt : Type) := MkLoop {
  el_rt : BackendRuntime net arr elt;
  el_ready : list received;
  el_done : list loop_entry;
  el_iq : thread;
  el_psd : thread;
  el_status : thread;
}.
Arguments MkLoop {net arr elt}.
Arguments el_rt {net arr elt}.
Arguments el_ready {net arr elt}.
Arguments el_done {net arr elt}.
Arguments el_iq {net arr elt}.
Arguments el_psd {net arr elt}.
Arguments el_status {net arr elt}.

Inductive loop_event (net : Type) :=
  | EvStart (free : Z -> bool)
  | EvStop
  | EvRecv (ch : channel) (ev : sock_event)
  | EvExit (ch : channel)
  | EvRun (now : float)
  | EvDevice (m : M (DeviceClient net) pydict)
  | EvPart (now : float) (part : command_part).
Arguments EvStart {net}.
Arguments EvStop {net}.
Arguments EvRecv {net}.
Arguments EvExit {net}.
Arguments EvRun {net}.
Arguments EvDevice {net}.
Arguments EvPart {net}.

Section Loop.
Context {net arr elt : Type} `{!Transport net} `{!Numpy arr elt}.
Abbreviation runtime := (BackendRuntime net arr elt).
Abbreviation eloop := (EventLoop net arr elt).

Definition el_init (rt : runtime) : eloop :=
  MkLoop rt [] [] (MkThread false []) (MkThread false []) (MkThread false []).

Definition with_rt (rt : runtime) (s : eloop) : eloop :=
  MkLoop rt (el_ready s) (el_done s) (el_iq s) (el_psd s) (el_status s).

Definition el_thread (ch : channel) (s : eloop) : thread :=
  match ch with ChIq => el_iq s | ChPsd => el_psd s | ChStatus => el_status s end.

Definition with_thread (ch : channel) (t : thread) (s : eloop) : eloop :=
  match ch with
  | ChIq => MkLoop (el_rt s) (el_ready s) (el_done s) t (el_psd s) (el_status s)
  | ChPsd => MkLoop (el_rt s) (el_ready s) (el_done s) (el_iq s) t (el_status s)
  | ChStatus => MkLoop (el_rt s) (el_ready s) (el_done s) (el_iq s) (el_psd s) t
  end.

Definition run_part (now : float) (part : command_part) : M runtime pydict :=
  match part with
  | PartFrontend fields response => rt_set_frontend_done now fields response
  | PartRx fields response => rt_set_rx_done now fields response
  | PartPsd defaults response => rt_set_psd_done now defaults response
  | PartPsdUnsupported defaults => rt_psd_unsupported now defaults
  | PartStopAll response => rt_stop_all_done now response
  | PartConnected response => rt_connected now response ;; mret response
  | PartConnectFailed e => rt_connect_failed now e
  | PartAutoPsdFailed e => rt_auto_psd_failed now e ;; mret []
  | PartSnapshot => rt_snapshot now
  end.

(** Whether a piece gets to [self.psd_reassembler.reset()]. *)
Definition part_resets (part : command_part) (s : runtime) : bool :=
  match part with
  | PartPsd defaults response =>
      match as_mapping (pget_def "applied" (PDict defaults) response) with
      | Ok applied => negb (py_bool (pget_def "enable" (pget_def "enabled" (PBool false) applied) applied))
      | Raise _ => false
      end
  | PartStopAll _ => is_ok (as_mapping (as_rx (rt_state s)))
  | _ => false
  end.

(** [call_soon_threadsafe], once the loop is known. *)
Definition el_post (out : list received) (s : eloop) : eloop :=
  MkLoop (el_rt s) (el_ready s ++ (out ≫= fun ev => thread_post ev (el_rt s))) (el_done s) (el_iq s) (el_psd s) (el_status s).

(** One event; [None] when it cannot happen, or when the loop never comes back
    from a handler.  An exception of a handler is logged by the loop and ends
    that handler only.  A thread may have read the stop flag before it was set,
    so it may still receive after [stop].  [start] is called once. *)
Definition loop_step (ev : loop_event net) (s : eloop) : option eloop :=
  match ev with
  | EvStart free =>
      if rt_loop (el_rt s) then None
      else
        let rt := (rt_start free (el_rt s)).1 in
        let n := match rt_udp rt with Some u => length (ur_threads u) | None => 0%nat end in
        Some (MkLoop rt (el_ready s) (el_done s) (MkThread (0 <? n)%nat (th_seen (el_iq s)))
                (MkThread (1 <? n)%nat (th_seen (el_psd s))) (MkThread (2 <? n)%nat (th_seen (el_status s))))
  | EvStop => Some (with_rt (rt_stop (el_rt s)).1 s)
  | EvRecv ch ev =>
      let t := el_thread ch s in
      if th_running t then
        let '(out, go) := channel_turn ch ev in
        Some (el_post out (with_thread ch (MkThread go (th_seen t ++ [ev])) s))
      else None
  | EvExit ch =>
      match rt_udp (el_rt s) with
      | Some u => if ur_stop u then Some (with_thread ch (MkThread false (th_seen (el_thread ch s))) s) else None
      | None => None
      end
  | EvRun now =>
      match el_ready s with
      | [] => None
      | ev :: rest =>
          match handle_received now ev (el_rt s) with
          | (_, Ok None) => None
          | (rt, _) => Some (MkLoop rt rest (el_done s ++ [Handled ev]) (el_iq s) (el_psd s) (el_status s))
          end
      end
  | EvDevice m => Some (with_rt (on_device m (el_rt s)).1 s)
  | EvPart now part =>
      Some (MkLoop (run_part now part (el_rt s)).1 (el_ready s)
              (el_done s ++ (if part_resets part (el_rt s) then [PsdReset] else []))
              (el_iq s) (el_psd s) (el_status s))
  end.

Fixpoint loop_run (evs : list (loop_event net)) (s : eloop) : option eloop :=
  match evs with
  | [] => Some s
  | ev :: evs' => s' ← loop_step ev s; loop_run evs' s'
  end.
End Loop.

(** ** The sequential reading

    Each channel on its own: what its thread hands over for the events it saw,
    and what a sequence of handled items does to the part of the runtime the
    channel feeds. *)

Definition thread_posts (ch : channel) (seen : list sock_event) : list received :=
  match ch with
  | ChIq => post_iq <$> recv_loop recv_iq false seen
  | ChPsd => post_psd <$> recv_loop recv_psd false seen
  | ChStatus => post_status <$> recv_loop recv_status false seen
  end.

Definition of_channel (ch : channel) (r : received) : bool :=
  match ch, r with
  | ChIq, RxIq _ _ | ChPsd, RxPsd _ _ | ChStatus, RxStatus _ => true
  | _, _ => false
  end.

Definition on_channel (ch : channel) (l : list received) : list received := filter (fun r => of_channel ch r) l.

Definition handled (log : list loop_entry) : list received :=
  omap (fun e => match e with Handled r => Some r | PsdReset => None end) log.

Definition iq_after (st : AppState) (r : received) : AppState :=
  match r with RxIq h _ => ingest_iq_header h st | _ => st end.

Definition status_after (v : pyval) (r : received) : pyval := match r with RxStatus v' => v' | _ => v end.

Definition psd_after (r : PsdReassembler) (e : loop_entry) : PsdReassembler :=
  match e with
  | Handled (RxPsd h payload) => (psd_ingest h payload r).1
  | Handled _ => r
  | PsdReset => psd_reset r
  end.

(** ** Threads *)

Lemma recv_loop_snoc {A} (handler : list byte -> res (option A)) evs ev :
  Forall (fun ev => (recv_turn handler ev).2 = true) evs ->
  recv_loop handler false (evs ++ [ev]) = recv_loop handler false evs ++ (recv_turn handler ev).1.
Proof.
  induction 1 as [|ev0 evs Hgo _ IH]; cbn [recv_loop app].
  - destruct (recv_turn handler ev) as [out []]; by rewrite ?app_nil_r.
  - destruct (recv_turn handler ev0) as [out go]. cbn in Hgo. subst go. by rewrite IH, app_assoc.
Qed.

Lemma channel_turn_go ch ev :
  (channel_turn ch ev).2 =
    match ch with
    | ChIq => (recv_turn recv_iq ev).2
    | ChPsd => (recv_turn recv_psd ev).2
    | ChStatus => (recv_turn recv_status ev).2
    end.
Proof. destruct ch; cbn [channel_turn]; by destruct (recv_turn _ ev). Qed.

Lemma thread_posts_snoc ch seen ev :
  Forall (fun ev => (channel_turn ch ev).2 = true) seen ->
  thread_posts ch (seen ++ [ev]) = thread_posts ch seen ++ (channel_turn ch ev).1.
Proof.
  intros Hgo. destruct ch; cbn [thread_posts channel_turn];
    (rewrite recv_loop_snoc; [rewrite fmap_app; by destruct (recv_turn _ ev)|]);
    (eapply Forall_impl; [exact Hgo|]; intros x Hx; exact (eq_trans (eq_sym (channel_turn_go _ x)) Hx)).
Qed.

(** A thread hands over items of its own channel and errors. *)
Lemma channel_turn_other ch ch' ev : ch <> ch' -> on_channel ch (channel_turn ch' ev).1 = [].
Proof.
  intros Hne. unfold on_channel.
  destruct ch'; cbn [channel_turn]; destruct (recv_turn _ ev) as [out go]; cbn;
    induction out as [|cb out IH]; try done; rewrite fmap_cons, filter_cons, IH;
    (destruct cb as [a|e]; [try destruct a as [h p]|]; destruct ch; try done).
Qed.

Lemma on_channel_cons ch r l :
  on_channel ch (r :: l) = if of_channel ch r then r :: on_channel ch l else on_channel ch l.
Proof. unfold on_channel. rewrite filter_cons. by destruct (of_channel ch r). Qed.

Lemma on_channel_app ch l1 l2 : on_channel ch (l1 ++ l2) = on_channel ch l1 ++ on_channel ch l2.
Proof. apply filter_app. Qed.

(** Items of other channels do not matter to a fold that ignores them. *)
Lemma foldl_on_channel {B} ch (f : B -> received -> B) b l :
  (forall b r, of_channel ch r = false -> f b r = b) -> foldl f b (on_channel ch l) = foldl f b l.
Proof.
  intros Hf. revert b. induction l as [|r l IH]; intros b; [done|]. rewrite on_channel_cons. cbn.
  destruct (of_channel ch r) eqn:E; cbn; [apply IH|]. by rewrite Hf, IH.
Qed.

Lemma handled_app l1 l2 : handled (l1 ++ l2) = handled l1 ++ handled l2.
Proof. apply omap_app. Qed.

(** ** What a handler does to the receive path *)

Section View.
Context {net arr elt : Type} `{!Transport net} `{!Numpy arr elt}.
Abbreviation runtime := (BackendRuntime net arr elt).
Abbreviation eloop := (EventLoop net arr elt).

Definition rx_view (s : runtime) : gmap Z StreamStats * pyval * PsdReassembler * bool :=
  (as_streams (rt_state s), as_device_status (rt_state s), rt_psd_reassembler s, rt_loop s).

Definition sees v (s : runtime) : Prop := rx_view s = v.

Lemma upd_state_sees v f :
  (forall st, as_streams (f st) = as_streams st /\ as_device_status (f st) = as_device_status st) ->
  holds (sees v) (upd_state f).
Proof.
  intros Hf. apply holds_modify. unfold sees, rx_view. intros s. cbn. by destruct (Hf (rt_state s)) as [-> ->].
Qed.
Lemma upd_demod_sees v f : holds (sees v) (upd_demod f).
Proof. by apply holds_modify. Qed.
Lemma on_device_sees {A} v (m : M (DeviceClient net) A) : holds (sees v) (on_device m).
Proof. intros s Hs. unfold on_device. by destruct (m (rt_device s)) as [d [a|e]]. Qed.
Lemma on_demod_sees {A} v (m : M (Demodulator arr elt) A) : holds (sees v) (on_demod m).
Proof. intros s Hs. unfold on_demod. by destruct (m (rt_demod s)) as [d [a|e]]. Qed.
Lemma on_waterfall_sees {A} v (m : M WaterfallEngine A) : holds (sees v) (on_waterfall m).
Proof. intros s Hs. unfold on_waterfall. by destruct (m (rt_waterfall s)) as [d [a|e]]. Qed.
Lemma publish_status_sees v now : holds (sees v) (publish_status now).
Proof. intros s Hs. unfold publish_status. by destruct (publish _ _). Qed.
Lemma publish_audio_sees v f : holds (sees v) (publish_audio f).
Proof. intros s Hs. unfold publish_audio. by destruct (publish _ _). Qed.
Lemma publish_spectrum_sees v d : holds (sees v) (publish_spectrum d).
Proof. intros s Hs. unfold publish_spectrum. by destruct (publish _ _). Qed.

Create HintDb sees.
#[local] Hint Resolve upd_demod_sees on_device_sees on_demod_sees on_waterfall_sees publish_status_sees
  publish_audio_sees publish_spectrum_sees : sees.

Ltac look :=
  repeat first
    [ progress cbv zeta
    | solve [auto with sees holds]
    | apply upd_state_sees; intros; by split
    | apply holds_bind; [|intros ?]
    | case_match ].

Lemma publish_frames_sees v frames : holds (sees v) (publish_frames frames).
Proof. induction frames; cbn [publish_frames]; look. Qed.
#[local] Hint Resolve publish_frames_sees : sees.

(** [m] takes the view from [v] to [v'], whether it returns or raises. *)
Definition moves {A} v v' (m : M runtime A) : Prop := M_triple (sees v) m (fun _ => sees v') (fun _ => sees v').

Lemma moves_bind {A B} v v' (m : M runtime A) (f : A -> M runtime B) :
  moves v v' m -> (forall a, holds (sees v') (f a)) -> moves v v' (m ≫= f).
Proof. intros Hm Hf. eapply triple_bind; [exact Hm|exact Hf]. Qed.

Lemma moves_modify v v' (f : runtime -> runtime) :
  (forall s, rx_view s = v -> rx_view (f s) = v') -> moves v v' (M_modify f).
Proof. intros Hf. by apply triple_modify. Qed.

Lemma moves_view {A} v' (m : M runtime A) s : moves (rx_view s) v' m -> rx_view (m s).1 = v'.
Proof. intros Hm. specialize (Hm s eq_refl). by destruct (m s) as [s' [a|e]]. Qed.

Lemma holds_view {A} (m : M runtime A) s : holds (sees (rx_view s)) m -> rx_view (m s).1 = rx_view s.
Proof. apply moves_view. Qed.

Lemma on_reassembler_moves {A} (m : M PsdReassembler A) streams status r loop :
  moves (streams, status, r, loop) (streams, status, (m r).1, loop) (on_reassembler (net := net) (elt := elt) m).
Proof.
  intros s [= <- <- <- <-]. unfold on_reassembler. by destruct (m (rt_psd_reassembler s)) as [r' [a|e]].
Qed.

Definition view_after (r : received) (s : runtime) : gmap Z StreamStats * pyval * PsdReassembler * bool :=
  (as_streams (iq_after (rt_state s) r), status_after (as_device_status (rt_state s)) r,
   psd_after (rt_psd_reassembler s) (Handled r), rt_loop s).

Lemma handle_received_view now r (s : runtime) : rx_view (handle_received now r s).1 = view_after r s.
Proof.
  unfold view_after. destruct r as [h p|h p|v|e]; cbn [handle_received iq_after status_after psd_after].
  - apply moves_view. unfold handle_iq, upd_state. apply moves_bind; [|intros ?; look].
    apply moves_modify. intros s0 [= H1 H2 H3 H4]. unfold rx_view. cbn. by rewrite H1, H2, H3, H4.
  - apply moves_view. unfold handle_psd. apply moves_bind; [|intros ?; look].
    apply moves_bind; [apply on_reassembler_moves|intros ?; look].
  - apply moves_view. unfold handle_status, upd_state. apply moves_bind; [|intros ?; look].
    apply moves_bind; [|intros ?; look]. apply moves_modify. intros s0 [= H1 H2 H3 H4]. unfold rx_view. cbn.
    by rewrite H1, H3, H4.
  - apply holds_view. unfold handle_error. look.
Qed.

(** A command leaves the receive path alone, up to the reassembler's reset. *)
Definition part_view (part : command_part) (s : runtime) : gmap Z StreamStats * pyval * PsdReassembler * bool :=
  (as_streams (rt_state s), as_device_status (rt_state s),
   if part_resets part s then psd_reset (rt_psd_reassembler s) else rt_psd_reassembler s, rt_loop s).

Lemma upd_psd_moves streams status r loop :
  moves (streams, status, r, loop) (streams, status, psd_reset r, loop) (upd_psd (net := net) (elt := elt) psd_reset).
Proof. apply moves_modify. intros s [= <- <- <- <-]. done. Qed.

(** [upd_state] does not raise. *)
Lemma upd_state_moves {A} v v' f (m : M runtime A) :
  (forall st, as_streams (f st) = as_streams st /\ as_device_status (f st) = as_device_status st) ->
  moves v v' m -> moves v v' (upd_state f ;; m).
Proof. intros Hf Hm s Hs. exact (Hm _ (upd_state_sees v f Hf s Hs)). Qed.

Lemma run_part_view now part (s : runtime) : rx_view (run_part now part s).1 = part_view part s.
Proof.
  unfold part_view.
  destruct part as [f r|f r|d r|d|r|r|e|e|]; cbn [run_part part_resets];
    try (apply holds_view; unfold rt_set_frontend_done, rt_set_rx_done, rt_psd_unsupported, rt_connected,
           rt_connect_failed, rt_auto_psd_failed, rt_snapshot; by look).
  - unfold rt_set_psd_done. destruct (as_mapping _) as [applied|e]; [|done].
    change (M_lift (Ok applied) ≫= ?f) with (f applied). cbv beta.
    destruct (py_bool _); cbn [negb]; apply moves_view; (apply upd_state_moves; [done|]).
    + apply (moves_bind _ _ (mret tt)); [apply holds_ret|]. intros _. look.
    + apply moves_bind; [apply upd_psd_moves|]. intros _. look.
  - unfold rt_stop_all_done. destruct (as_mapping _) as [rx|e] eqn:Hrx; cbn [is_ok].
    + change (rx_view ((rx0 ← M_lift (as_mapping (as_rx (rt_state s)));
        upd_state (st_rx (PDict (dset "enable"%string (PBool false) rx0))) ;;
        upd_state (fun st => st_psd (dupdate (as_psd st) [("enable", PBool false); ("enabled", PBool false)]%string) st) ;;
        upd_psd psd_reset ;; publish_status now ;; mret r : M runtime pydict) s).1 =
        (as_streams (rt_state s), as_device_status (rt_state s), psd_reset (rt_psd_reassembler s), rt_loop s)).
      rewrite Hrx. apply moves_view. do 2 (apply upd_state_moves; [done|]).
      apply moves_bind; [apply upd_psd_moves|]. intros _. look.
    + unfold mbind, M_bind, M_get, M_lift. by rewrite Hrx.
Qed.

(** ** The invariant of a run *)

(** A running thread has met no socket error; there is none before [start]. *)
Definition thread_ok (ch : channel) (s : eloop) : Prop :=
  (th_running (el_thread ch s) = true -> Forall (fun ev => (channel_turn ch ev).2 = true) (th_seen (el_thread ch s))) /\
  (rt_loop (el_rt s) = false -> th_running (el_thread ch s) = false /\ th_seen (el_thread ch s) = []).

Definition fifo (ch : channel) (s : eloop) : Prop :=
  on_channel ch (handled (el_done s) ++ el_ready s) = on_channel ch (thread_posts ch (th_seen (el_thread ch s))).

Definition rx_spec (rt : runtime) (log : list loop_entry) (loop : bool) :
    gmap Z StreamStats * pyval * PsdReassembler * bool :=
  (as_streams (foldl iq_after (rt_state rt) (handled log)),
   foldl status_after (as_device_status (rt_state rt)) (handled log),
   foldl psd_after (rt_psd_reassembler rt) log, loop).

Definition loop_inv (rt : runtime) (s : eloop) : Prop :=
  (forall ch, fifo ch s) /\ (forall ch, thread_ok ch s) /\
  rx_view (el_rt s) = rx_spec rt (el_done s) (rt_loop (el_rt s)).

(** A change of the runtime outside the receive path. *)
Lemma loop_inv_rt rt rt' s :
  rx_view rt' = rx_view (el_rt s) -> loop_inv rt s -> loop_inv rt (with_rt rt' s).
Proof.
  intros Hv (Hf & Ht & Hs). assert (rt_loop rt' = rt_loop (el_rt s)) as Hl by (by injection Hv).
  split_and!; [done| |].
  - intros ch. specialize (Ht ch). unfold thread_ok. cbn. by rewrite Hl.
  - cbn. by rewrite Hv, Hs, Hl.
Qed.

Lemma iq_after_streams st st' l :
  as_streams st = as_streams st' -> as_streams (foldl iq_after st l) = as_streams (foldl iq_after st' l).
Proof.
  revert st st'. induction l as [|r l IH]; intros st st' Hst; [done|]. cbn. apply IH.
  destruct r; cbn; by rewrite ?Hst.
Qed.

Lemma loop_inv_handled rt s r rest rt' :
  el_ready s = r :: rest -> rx_view rt' = view_after r (el_rt s) -> loop_inv rt s ->
  loop_inv rt (MkLoop rt' rest (el_done s ++ [Handled r]) (el_iq s) (el_psd s) (el_status s)).
Proof.
  intros Hr Hv (Hf & Ht & Hs). assert (rt_loop rt' = rt_loop (el_rt s)) as Hl by (by injection Hv).
  split_and!.
  - intros ch. specialize (Hf ch). unfold fifo in *. cbn. rewrite handled_app, <- app_assoc. by rewrite Hr in Hf.
  - intros ch. specialize (Ht ch). unfold thread_ok. cbn. by rewrite Hl.
  - cbn. rewrite Hv, Hl. unfold view_after, rx_spec. rewrite handled_app, !foldl_app. cbn.
    injection Hs as H1 H2 H3. rewrite H2, H3. do 3 f_equal.
    by apply (iq_after_streams (rt_state (el_rt s)) (foldl iq_after (rt_state rt) (handled (el_done s))) [r]).
Qed.

Lemma loop_inv_part rt s now part :
  loop_inv rt s ->
  loop_inv rt (MkLoop (run_part now part (el_rt s)).1 (el_ready s)
                 (el_done s ++ (if part_resets part (el_rt s) then [PsdReset] else [])) (el_iq s) (el_psd s) (el_status s)).
Proof.
  intros (Hf & Ht & Hs). pose proof (run_part_view now part (el_rt s)) as Hv.
  assert (rt_loop (run_part now part (el_rt s)).1 = rt_loop (el_rt s)) as Hl by (by injection Hv).
  assert (handled (el_done s ++ (if part_resets part (el_rt s) then [PsdReset] else [])) = handled (el_done s)) as Hh.
  { rewrite handled_app. destruct (part_resets _ _); apply app_nil_r. }
  split_and!.
  - intros ch. unfold fifo. cbn [el_done el_ready]. rewrite Hh. apply Hf.
  - intros ch. specialize (Ht ch). unfold thread_ok. cbn. by rewrite Hl.
  - cbn. rewrite Hv, Hl. unfold part_view, rx_spec. rewrite Hh, foldl_app.
    injection Hs as H1 H2 H3. rewrite H1, H2, H3. by destruct (part_resets _ _).
Qed.

Lemma thread_post_known (l : list received) (s : runtime) : rt_loop s = true -> (l ≫= fun ev => thread_post ev s) = l.
Proof. intros Hl. unfold thread_post. rewrite Hl. induction l as [|x l IH]; [done|]. cbn. by f_equal. Qed.

Lemma loop_inv_recv rt s ch ev :
  th_running (el_thread ch s) = true -> loop_inv rt s ->
  loop_inv rt (el_post (channel_turn ch ev).1
                 (with_thread ch (MkThread (channel_turn ch ev).2 (th_seen (el_thread ch s) ++ [ev])) s)).
Proof.
  intros Hrun (Hf & Ht & Hs).
  assert (rt_loop (el_rt s) = true) as Hl.
  { destruct (rt_loop (el_rt s)) eqn:E; [done|]. destruct (proj2 (Ht ch) E). congruence. }
  pose proof (proj1 (Ht ch) Hrun) as Hgo.
  set (t := MkThread _ _).
  assert (forall ch', el_thread ch' (el_post (channel_turn ch ev).1 (with_thread ch t s)) =
    if decide (ch' = ch) then t else el_thread ch' s) as Hth.
  { intros []; by destruct ch. }
  assert (el_rt (el_post (channel_turn ch ev).1 (with_thread ch t s)) = el_rt s) as Hrt by (by destruct ch).
  assert (el_done (el_post (channel_turn ch ev).1 (with_thread ch t s)) = el_done s) as Hdone by (by destruct ch).
  assert (el_ready (el_post (channel_turn ch ev).1 (with_thread ch t s)) = el_ready s ++ (channel_turn ch ev).1) as Hready.
  { unfold el_post. cbn. assert (el_rt (with_thread ch t s) = el_rt s) as -> by (by destruct ch).
    rewrite thread_post_known by done. by destruct ch. }
  split_and!.
  - intros ch'. specialize (Hf ch'). unfold fifo in *. rewrite Hdone, Hready, Hth, app_assoc, on_channel_app.
    case_decide as Hch; [subst ch'|].
    + unfold t. cbn [th_seen]. by rewrite Hf, thread_posts_snoc, on_channel_app.
    + by rewrite (channel_turn_other ch' ch ev Hch), app_nil_r.
  - intros ch'. unfold thread_ok. rewrite Hrt, Hth. case_decide as Hch; [subst ch'|apply Ht].
    split; [|by rewrite Hl]. intros Hgo'. apply Forall_app. split; [done|]. by apply Forall_singleton.
  - by rewrite Hrt, Hdone.
Qed.

Lemma loop_inv_exit rt s ch :
  loop_inv rt s -> loop_inv rt (with_thread ch (MkThread false (th_seen (el_thread ch s))) s).
Proof.
  intros (Hf & Ht & Hs). split_and!.
  - intros ch'. specialize (Hf ch'). by destruct ch, ch'.
  - intros ch'. specialize (Ht ch'). unfold thread_ok in *. destruct ch, ch'; cbn in *; naive_solver.
  - by destruct ch.
Qed.

Lemma rt_stop_view (s : runtime) : rx_view (rt_stop s).1 = rx_view s.
Proof. unfold rt_stop, on_device, upd_udp; open_M. cbn. by destruct (rt_udp s). Qed.

Lemma loop_inv_start rt s free n :
  rt_loop (el_rt s) = false -> loop_inv rt s ->
  loop_inv rt (MkLoop (rt_start free (el_rt s)).1 (el_ready s) (el_done s) (MkThread (0 <? n)%nat (th_seen (el_iq s)))
                 (MkThread (1 <? n)%nat (th_seen (el_psd s))) (MkThread (2 <? n)%nat (th_seen (el_status s)))).
Proof.
  intros Hl (Hf & Ht & Hs). pose proof (rt_start_eq free (el_rt s)) as He. cbv zeta in He.
  destruct (udp_start free _) as [u r]. rewrite He. split_and!.
  - intros ch. specialize (Hf ch). by destruct ch.
  - intros ch. destruct (proj2 (Ht ch) Hl) as [_ Hnil]. split; [|done]. intros _.
    destruct ch; cbn in *; rewrite Hnil; constructor.
  - cbn. injection Hs as H1 H2 H3. unfold rx_view, rx_spec. cbn. by rewrite H1, H2, H3.
Qed.

Lemma loop_step_inv rt ev s s' : loop_step ev s = Some s' -> loop_inv rt s -> loop_inv rt s'.
Proof.
  intros Hstep Hs. destruct ev as [free| |ch ev|ch|now|m|now part]; cbn [loop_step] in Hstep.
  - destruct (rt_loop (el_rt s)) eqn:Hl; [done|]. injection Hstep as <-. by apply loop_inv_start.
  - injection Hstep as <-. by apply loop_inv_rt; [apply rt_stop_view|].
  - destruct (th_running (el_thread ch s)) eqn:Hrun; [|done]. pose proof (loop_inv_recv rt s ch ev Hrun Hs) as Hinv.
    destruct (channel_turn ch ev) as [out go]. by injection Hstep as <-.
  - destruct (rt_udp (el_rt s)) as [u|]; [|done]. destruct (ur_stop u); [|done]. injection Hstep as <-.
    by apply loop_inv_exit.
  - destruct (el_ready s) as [|r rest] eqn:Hr; [done|]. pose proof (handle_received_view now r (el_rt s)) as Hv.
    destruct (handle_received now r (el_rt s)) as [rt' [[[]|]|e]]; [|done|];
      injection Hstep as <-; by apply loop_inv_handled.
  - injection Hstep as <-. apply loop_inv_rt; [|done]. apply holds_view, on_device_sees.
  - injection Hstep as <-. by apply loop_inv_part.
Qed.

Lemma loop_run_inv rt evs s s' : loop_run evs s = Some s' -> loop_inv rt s -> loop_inv rt s'.
Proof.
  revert s. induction evs as [|ev evs IH]; intros s Hrun Hs; cbn [loop_run] in Hrun; [by injection Hrun as <-|].
  destruct (loop_step ev s) as [s1|] eqn:Hstep; [|done]. eapply IH; [exact Hrun|]. by eapply loop_step_inv.
Qed.

Lemma loop_init_inv rt : loop_inv rt (el_init rt).
Proof.
  split_and!.
  - by intros [].
  - by intros [].
  - done.
Qed.

(** The thread of [ch] received exactly these datagrams, no socket error
    occurred, and the loop has handled everything it delivered. *)
Definition received_all (ch : channel) (datagrams : list (list byte)) (s : eloop) : Prop :=
  omap (fun ev => match ev with Datagram d => Some d | _ => None end) (th_seen (el_thread ch s)) = datagrams /\
  Forall (fun ev => match ev with SockError _ => False | _ => True end) (th_seen (el_thread ch s)) /\
  on_channel ch (el_ready s) = [].

Lemma psd_after_run log r segs :
  PsdReset ∉ log -> on_channel ChPsd (handled log) = (fun seg => RxPsd seg.1 seg.2) <$> segs ->
  foldl psd_after r log = (psd_run r segs).1.
Proof.
  revert r segs. induction log as [|[x|] log IH]; intros r segs Hno Hon; [by destruct segs| |set_solver].
  change (handled (Handled x :: log)) with (x :: handled log) in Hon. rewrite on_channel_cons in Hon. destruct x as [h p|h p|v|e]; cbn in Hon |- *;
    try (apply IH; [set_solver|done]).
  destruct segs as [|[h' p'] segs]; [done|]. injection Hon as <- <- Hon. cbn.
  rewrite (IH _ segs) by (done || set_solver).
  destruct (psd_ingest h p r) as [r' out]. cbn. by destruct (psd_run r' segs).
Qed.

(** What a channel's thread delivers for datagrams that all decode. *)
Lemma on_channel_decoded {A} ch (handler : list byte -> res (option A)) (post : callback A -> received) item seen packets :
  (forall a, post (Delivered a) = item a) -> (forall a, of_channel ch (item a) = true) ->
  Forall2 (fun d a => handler d = Ok (Some a))
    (omap (fun ev => match ev with Datagram d => Some d | _ => None end) seen) packets ->
  on_channel ch (post <$> omap (callback_of handler) seen) = item <$> packets.
Proof.
  intros Hpost Hitem. revert packets. induction seen as [|[d| |e] seen IH]; intros packets Hp.
  - by inversion Hp.
  - cbn in Hp. apply Forall2_cons_inv_l in Hp as (a & ps & Ha & Hps & ->). cbn -[on_channel]. rewrite Ha. cbn -[on_channel]. rewrite Hpost.
    rewrite on_channel_cons, Hitem. f_equal. by apply IH.
  - by apply IH.
  - by apply IH.
Qed.

(** PSD datagrams that all decode leave the reassembler where feeding it the
    segments leaves it. *)
Lemma received_psd_handled rt evs (s : eloop) datagrams segs :
  loop_run evs (el_init rt) = Some s -> received_all ChPsd datagrams s -> PsdReset ∉ el_done s ->
  Forall2 (fun d seg => recv_psd d = Ok (Some seg)) datagrams segs ->
  rt_psd_reassembler (el_rt s) = (psd_run (rt_psd_reassembler rt) segs).1.
Proof.
  intros Hrun (Hd & He & Hq) Hno Hp. destruct (loop_run_inv rt evs _ _ Hrun (loop_init_inv rt)) as (Hf & _ & Hs).
  injection Hs as _ _ H3. specialize (Hf ChPsd). unfold fifo in Hf. rewrite on_channel_app, Hq, app_nil_r in Hf.
  rewrite H3. apply psd_after_run; [done|]. rewrite Hf. cbn [thread_posts el_thread] in *.
  rewrite recv_loop_callbacks by (done || apply recv_psd_not_oserror).
  apply (on_channel_decoded ChPsd recv_psd); [by intros []|done|by rewrite Hd].
Qed.

(** IQ datagrams that all decode are handled as the packets they decode to. *)
Lemma received_iq_handled rt evs (s : eloop) datagrams packets :
  loop_run evs (el_init rt) = Some s -> received_all ChIq datagrams s ->
  Forall2 (fun d hp => recv_iq d = Ok (Some hp)) datagrams packets ->
  as_streams (rt_state (el_rt s)) =
    as_streams (foldl (fun st h => ingest_iq_header h st) (rt_state rt) packets.*1).
Proof.
  intros Hrun (Hd & He & Hq) Hp. destruct (loop_run_inv rt evs _ _ Hrun (loop_init_inv rt)) as (Hf & _ & Hs).
  injection Hs as H1 _ _. specialize (Hf ChIq). unfold fifo in Hf. rewrite on_channel_app, Hq, app_nil_r in Hf.
  rewrite H1, <- (foldl_on_channel ChIq) by (by intros ? []). rewrite Hf. cbn [thread_posts el_thread] in *.
  rewrite recv_loop_callbacks by (done || apply recv_iq_not_oserror).
  rewrite (on_channel_decoded ChIq recv_iq post_iq (fun hp => RxIq hp.1 hp.2) _ packets)
    by (by intros [] || done || by rewrite Hd).
  clear. generalize (rt_state rt). induction packets as [|[h p] ps IH]; intros st; [done|]. apply IH.
Qed.

(** C3: The concurrent receive path is three sequential ones.  Take any run of
    the backend: three receiver threads, an event loop that runs the queued
    handlers between the pieces of the commands, in any order, with malformed
    datagrams, socket errors, handlers that raise, commands, [stop].  For each
    channel, the items the loop has handled, followed by those still queued, are
    exactly what the channel's thread delivers for the datagrams it received,
    in order: nothing is lost, repeated, reordered or crossed.  The stream
    statistics are those of the handled IQ headers one after the other, the PSD
    reassembler that of the handled segments and the resets of the commands in
    between, and the device status the last one handled, whatever the other
    channels did. *)
Theorem receive_path_sequential (rt : runtime) (evs : list (loop_event net)) (s : eloop) :
  loop_run evs (el_init rt) = Some s ->
  (forall ch, on_channel ch (handled (el_done s) ++ el_ready s) =
     on_channel ch (thread_posts ch (th_seen (el_thread ch s)))) /\
  as_streams (rt_state (el_rt s)) = as_streams (foldl iq_after (rt_state rt) (on_channel ChIq (handled (el_done s)))) /\
  rt_psd_reassembler (el_rt s) = foldl psd_after (rt_psd_reassembler rt) (el_done s) /\
  as_device_status (rt_state (el_rt s)) =
    foldl status_after (as_device_status (rt_state rt)) (on_channel ChStatus (handled (el_done s))).
Proof.
  intros Hrun. destruct (loop_run_inv rt evs _ _ Hrun (loop_init_inv rt)) as (Hf & _ & Hs).
  injection Hs as H1 H2 H3. split_and!; [exact Hf| |exact H3|].
  - rewrite H1. by rewrite foldl_on_channel by (by intros ? []).
  - rewrite H2. by rewrite foldl_on_channel by (by intros ? []).
Qed.
End View.

(** ** A frame that is still queued when PSD is switched off *)

Section LateFrame.
Context {net arr elt : Type} `{!Transport net} `{!Numpy arr elt}.
Abbreviation runtime := (BackendRuntime net arr elt).
Abbreviation eloop := (EventLoop net arr elt).

(** What [_handle_psd] writes to [state.psd] for a frame. *)
Definition frame_entries (frame : pydict) : pydict :=
  [("enabled", PBool true); ("frame_seq", pget "frame_seq" frame);
   ("dropped_frame_count", pget "dropped_frame_count" frame);
   ("missing_segment_count", pget "missing_segment_count" frame)]%string.

Definition frame_keys (frame : pydict) : Prop :=
  forall k, k ∈ ["frame_seq"; "dropped_frame_count"; "missing_segment_count"]%string -> dhas k frame = true.

Lemma pitem_has k d : dhas k d = true -> pitem k d = Ok (pget k d).
Proof. unfold dhas, pitem, pget. by destruct (dget k d). Qed.

Lemma handle_psd_frame h p (s : runtime) r' frame :
  psd_ingest h p (rt_psd_reassembler s) = (r', Ok (Some frame)) -> frame_keys frame ->
  rt_state (handle_psd h p s).1 = st_psd (dupdate (as_psd (rt_state s)) (frame_entries frame)) (rt_state s).
Proof.
  intros Hi Hk. unfold handle_psd, on_reassembler, upd_state; open_M. rewrite Hi.
  rewrite !pitem_has by (apply Hk; set_solver). unfold M_modify, publish_spectrum.
  by destruct (publish _ _).
Qed.

(** After [stop_all]: an empty reassembler and both flags off. *)
Lemma stop_all_done_state now response rx (s : runtime) :
  as_rx (rt_state s) = PDict rx ->
  let s' := (rt_stop_all_done now response s).1 in
  ra_frames (rt_psd_reassembler s') = ∅ /\
  dget "enable"%string (as_psd (rt_state s')) = Some (PBool false) /\
  dget "enabled"%string (as_psd (rt_state s')) = Some (PBool false).
Proof.
  intros Hrx. unfold rt_stop_all_done, upd_state, upd_psd; open_M. rewrite Hrx. cbn. unfold M_modify, publish_status.
  destruct (publish _ _); cbn; (split; [done|]); by rewrite dget_dset_ne, !dget_dset_eq by done.
Qed.

(** Running the queued segments of one frame. *)
Lemma run_queued_segments now segs (s : eloop) rest r' frame :
  el_ready s = ((fun seg => RxPsd seg.1 seg.2) <$> segs) ++ rest ->
  psd_run (rt_psd_reassembler (el_rt s)) segs = (r', replicate (length segs - 1) (Ok None) ++ [Ok (Some frame)]) ->
  frame_keys frame -> segs <> [] ->
  exists s', loop_run (replicate (length segs) (EvRun now)) s = Some s' /\ el_ready s' = rest /\
    rt_state (el_rt s') = st_psd (dupdate (as_psd (rt_state (el_rt s))) (frame_entries frame)) (rt_state (el_rt s)).
Proof.
  intros Hready Hrun Hk. revert s Hready Hrun. induction segs as [|[h p] segs IH]; intros s Hready Hrun Hne; [done|].
  cbn [psd_run] in Hrun. destruct (psd_ingest h p (rt_psd_reassembler (el_rt s))) as [r1 out] eqn:Hi.
  destruct (psd_run r1 segs) as [r2 outs] eqn:Hrest. injection Hrun as -> Houts.
  cbn [length replicate loop_run]. unfold mbind, option_bind. cbn [loop_step]. rewrite Hready.
  cbn [fmap list_fmap app fst snd handle_received]. unfold mbind, M_bind. destruct segs as [|seg segs].
  - cbn in Houts. injection Houts as -> _. pose proof (handle_psd_frame h p (el_rt s) r1 frame Hi Hk) as Hst.
    destruct (handle_psd h p (el_rt s)) as [rt' [[]|e]]; by eexists.
  - cbn [length Nat.sub replicate app] in Houts. injection Houts as -> Houts.
    set (rt := el_rt s) in *.
    set (rt1 := MkRuntime (rt_config rt) (rt_state rt) (rt_device rt) (rt_audio rt) (rt_status rt) (rt_spectrum rt)
      (rt_demod rt) (rt_waterfall rt) r1 (rt_loop rt) (rt_udp rt)).
    assert (handle_psd h p rt = (rt1, Ok tt)) as ->.
    { unfold handle_psd, on_reassembler; open_M. by rewrite Hi. }
    apply (IH (MkLoop rt1 _ _ (el_iq s) (el_psd s) (el_status s))); [done| |done].
    cbn -[psd_run]. rewrite Hrest, Houts. cbn. by rewrite Nat.sub_0_r.
Qed.

(** C39: A late frame shows PSD as enabled after it was stopped.  Let all the
    segments of a frame be queued, in any order, when the reply to [stop_all]
    comes in.  The command empties the reassembler and sets both flags of the
    backend's PSD state to false; the queued segments then complete their frame
    in the emptied reassembler, and the state says enabled while it also says
    not to be enabled. *)
Theorem late_frame_shows_enabled (now : float) (s : eloop) (rx response : pydict) (rest : list received)
    (hdr : Z -> SdrPsdHeader) (payload : Z -> list byte) (n psd_id seq : Z) (order : list Z) :
  0 < n -> order ≡ₚ zrange n -> psd_frame_cut hdr n psd_id seq ->
  (forall i, 0 <= i < n -> is_ok (psd_pack (hdr i)) = true /\ 0 < psd_total_bins (hdr i)) ->
  el_ready s = ((fun i => RxPsd (hdr i) (payload i)) <$> order) ++ rest ->
  as_rx (rt_state (el_rt s)) = PDict rx ->
  exists s1 s2,
    loop_run [EvPart now (PartStopAll response)] s = Some s1 /\
    dget "enable"%string (as_psd (rt_state (el_rt s1))) = Some (PBool false) /\
    dget "enabled"%string (as_psd (rt_state (el_rt s1))) = Some (PBool false) /\
    loop_run (replicate (length order) (EvRun now)) s1 = Some s2 /\ el_ready s2 = rest /\
    dget "enable"%string (as_psd (rt_state (el_rt s2))) = Some (PBool false) /\
    dget "enabled"%string (as_psd (rt_state (el_rt s2))) = Some (PBool true).
Proof.
  intros Hn Hperm Hcut Hh Hready Hrx.
  destruct (stop_all_done_state now response rx (el_rt s) Hrx) as (Hre & Henable & Henabled).
  set (s1 := MkLoop (rt_stop_all_done now response (el_rt s)).1 (el_ready s) (el_done s ++ [PsdReset])
               (el_iq s) (el_psd s) (el_status s)).
  destruct (psd_reassembly hdr payload n psd_id seq order (rt_psd_reassembler (el_rt s1)))
    as (r' & frame & Hrun & (i & bounds & Hi & Hb & Hframe) & _); try done.
  { cbn. by rewrite Hre. }
  destruct (run_queued_segments now (psd_datagram hdr payload <$> order) s1 rest r' frame)
    as (s2 & Hrun2 & Hready2 & Hst2).
  - cbn. rewrite Hready, <- list_fmap_compose. done.
  - by rewrite length_fmap.
  - subst frame. destruct bounds as [[? ?] ?]. intros k Hk.
    repeat (apply elem_of_cons in Hk as [->|Hk]; [done|]). by apply not_elem_of_nil in Hk.
  - intros Hnil. apply fmap_nil_inv in Hnil. subst order.
    apply Permutation_nil, (f_equal length) in Hperm. rewrite zrange_length in Hperm. cbn in Hperm. lia.
  - exists s1, s2. rewrite length_fmap in Hrun2. split_and!; try done.
    + cbn [loop_run loop_step part_resets]. rewrite Hrx. done.
    + rewrite Hst2. cbn -[frame_entries]. unfold frame_entries. by rewrite dget_dupdate_ne by set_solver.
    + rewrite Hst2. cbn. by rewrite !dget_dset_ne, dget_dset_eq by done.
Qed.
End LateFrame.

(** *** Witnesses *)

#[local] Existing Instance demo_numpy.

Definition idle_runtime : BackendRuntime (list text) (list float) float :=
  runtime_init f_zero app_config_default [] demo_demod 2048.

(** A status message, a runt and a malformed IQ packet arrive; the loop has
    come to the first. *)
Definition sample_run : list (loop_event (list text)) :=
  [EvStart (fun _ => true); EvRecv ChStatus (Datagram [x7b; x7d]); EvRecv ChPsd (Datagram [x00]);
   EvPart f_zero PartSnapshot; EvRecv ChIq (Datagram (replicate 64 x00)); EvRun f_zero].

Lemma receive_path_sequential_witness :
  exists s,
    loop_run sample_run (el_init idle_runtime) = Some s /\ el_ready s = [RxError (Exn PacketError "bad IQ magic 0x00000000")] /\
    on_channel ChStatus (handled (el_done s) ++ el_ready s) = [RxStatus (PDict [])] /\
    as_device_status (rt_state (el_rt s)) = PDict [].
Proof.
  destruct (loop_run sample_run (el_init idle_runtime)) as [s|] eqn:Hrun; [|by vm_compute in Hrun].
  destruct (receive_path_sequential idle_runtime sample_run s Hrun) as (H1 & _ & _ & H2).
  exists s. split; [reflexivity|]. vm_compute in Hrun. injection Hrun as <-.
  split; [reflexivity|]. split; [rewrite H1|rewrite H2]; reflexivity.
Defined.

Definition queued_frame : EventLoop (list text) (list float) float :=
  MkLoop idle_runtime ((fun i => RxPsd (sample_psd_header 12 i 2 2 500000) (i16_bytes i)) <$> [1; 0]) []
    (MkThread true []) (MkThread true []) (MkThread true []).

Lemma late_frame_shows_enabled_witness :
  exists s1 s2,
    loop_run [EvPart f_zero (PartStopAll [])] queued_frame = Some s1 /\
    dget "enabled"%string (as_psd (rt_state (el_rt s1))) = Some (PBool false) /\
    loop_run [EvRun f_zero; EvRun f_zero] s1 = Some s2 /\
    dget "enable"%string (as_psd (rt_state (el_rt s2))) = Some (PBool false) /\
    dget "enabled"%string (as_psd (rt_state (el_rt s2))) = Some (PBool true).
Proof.
  destruct (late_frame_shows_enabled f_zero queued_frame (ac_rx app_config_default) [] []
    (fun i => sample_psd_header 12 i 2 2 500000) i16_bytes 2 0 12 [1; 0]) as (s1 & s2 & H1 & _ & H2 & H3 & _ & H4 & H5).
  - lia.
  - apply Permutation_swap.
  - intros i Hi. done.
  - intros i Hi. split; [|done]. assert (i = 0 \/ i = 1) as [->| ->] by lia; by vm_compute.
  - reflexivity.
  - reflexivity.
  - exists s1, s2. exact (conj H1 (conj H2 (conj H3 (conj H4 H5)))).
Defined.
