(* ===== verification/RuntimeSpec.v ===== *)
(** The runtime's view of the device: what the commands of [Runtime] leave in
    the backend's state, over the connection of [ControlLink] to the simulated
    device. *)

From Stdlib Require Import ZArith SpecFloat Lia Ascii String Strings.Byte.
From stdpp Require Import base list gmap sets strings.
From S2P Require Import Prelude PyFloat PyValue Json Control Psd State Config Broadcast NumpyApi Dsp Waterfall SignalGen FakeServer ServerSpec DeviceClient ControlLink Runtime.

Open Scope Z_scope.

(** ** The device's side *)

Section DeviceSide.
Context {rng : Type} `{!SignalEnv rng}.
Context (c : FakeAc920Config).

(** A [set_psd] reply: the new configuration, or an error that changed
    nothing. *)
Lemma serve_set_psd now i msg ip (srv srv' : FakeServer rng) reply :
  serve c now i "set_psd" msg ip srv = (srv', Ok reply) ->
  reply = build_response (Some (PInt i)) true [("applied"%string, PDict (fs_psd_config srv'))] \/
  (fs_psd_config srv' = fs_psd_config srv /\ dget "ok"%string reply = Some (PBool false)).
Proof.
  unfold serve, M_try.
  change (run_command c now (PInt i) "set_psd" msg ip) with (cmd_set_psd (rng := rng) (PInt i) msg).
  unfold cmd_set_psd, mret, M_ret; open_M.
  destruct (py_bool _); [|intros [= <- <-]; by left].
  destruct (parse_psd_request msg) as [p|e].
  - destruct (check_psd_request p); intros [= <- <-]; [by right|by left].
  - destruct (invalid_field_exn e); intros [= <- <-]. by right.
Qed.
End DeviceSide.

(** ** The backend's side *)

Section View.
Context {rng : Type} `{!SignalEnv rng}.
Context (c : FakeAc920Config) (peer_ip : nat -> string).
Context {arr elt : Type} `{!Numpy arr elt}.
#[local] Existing Instance link_transport.
#[local] Instance view_transport : Transport (Link rng) := link_transport c peer_ip.
Abbreviation runtime := (BackendRuntime (Link rng) arr elt).

(** Every PSD setting of the device is what the backend's state says. *)
Definition psd_view (s : runtime) : Prop :=
  forall k v, dget k (fs_psd_config (client_server (rt_device s))) = Some v -> dget k (as_psd (rt_state s)) = Some v.

Lemma publish_status_ok now (s : runtime) :
  bc_wf (rt_status s) ->
  exists b, publish_status now s =
    (MkRuntime (rt_config s) (rt_state s) (rt_device s) (rt_audio s) b (rt_spectrum s) (rt_demod s)
       (rt_waterfall s) (rt_psd_reassembler s) (rt_loop s) (rt_udp s), Ok tt).
Proof. intros Hb. unfold publish_status. rewrite publish_eq by done. by eexists. Qed.

Lemma check_keywords_incl f f' params params' fields :
  params ⊆ params' -> check_keywords f' params' fields = Ok tt -> check_keywords f params fields = Ok tt.
Proof.
  intros Hin. induction fields as [|[k v] fields IH]; cbn [check_keywords]; [done|].
  case_decide as Hk; [done|]. rewrite decide_False by set_solver. apply IH.
Qed.

(** An encodable reply that carries a dict carries one with distinct keys. *)
Lemma wire_ok_dict_NoDup d k v : wire_ok d -> dget k d = Some (PDict v) -> NoDup (dkeys v).
Proof.
  intros [Hj _]%andb_True Hk%dget_Some_elem. cbn in Hj. apply andb_True in Hj as [_ Hj].
  apply forallb_Forall in Hj. rewrite Forall_forall in Hj. specialize (Hj _ Hk). cbn in Hj.
  apply andb_True in Hj as [Hnd _]. by apply bool_decide_spec in Hnd.
Qed.

Definition psd_request (fields : option pydict) (s : runtime) : pydict :=
  dupdate (ac_psd (rt_config s)) (not_none (default [] fields)).

(** [set_psd] of a backend with hardware PSD, once the device has answered. *)
Lemma rt_set_psd_eq now fields (s : runtime) d r :
  py_bool (pget "enable" (ac_psd (rt_config s))) = true ->
  check_keywords "DeviceClient.request" ["self"; "cmd"]%string (psd_request fields s) = Ok tt ->
  dc_request "set_psd" (psd_request fields s) (rt_device s) = (d, r) ->
  rt_set_psd now fields s =
    (M_lift r ≫= rt_set_psd_done now (psd_request fields s))
    (MkRuntime (rt_config s) (rt_state s) d (rt_audio s) (rt_status s) (rt_spectrum s) (rt_demod s)
       (rt_waterfall s) (rt_psd_reassembler s) (rt_loop s) (rt_udp s)).
Proof.
  intros Hen Hk Hreq. unfold rt_set_psd. unfold mbind at 1, M_bind at 1, M_get. cbv zeta.
  fold (psd_request fields s). rewrite Hen. cbn [negb]. rewrite andb_false_r.
  unfold mbind at 1, M_bind at 1. unfold on_device, dc_set_psd.
  unfold mbind at 1, M_bind at 1, M_lift at 1.
  rewrite (check_keywords_incl "DeviceClient.set_psd" _ ["self"]%string ["self"; "cmd"]%string _ ltac:(set_solver) Hk).
  rewrite Hreq. by destruct r.
Qed.

(** The end of [set_psd]. *)
Lemma psd_epilogue now (on : bool) (response : pydict) (s : runtime) :
  bc_wf (rt_status s) ->
  exists s',
    ((if on then mret tt else upd_psd psd_reset) ;; publish_status now ;; mret response : M runtime pydict) s =
      (s', Ok response) /\
    rt_device s' = rt_device s /\ rt_state s' = rt_state s /\
    rt_psd_reassembler s' = if on then rt_psd_reassembler s else psd_reset (rt_psd_reassembler s).
Proof.
  intros Hb. destruct on; unfold upd_psd, mret, M_ret; open_M.
  - destruct (publish_status_ok now s Hb) as (b & ->). by eexists.
  - match goal with |- context [publish_status now ?s1] =>
      destruct (publish_status_ok now s1 Hb) as (b & ->) end. by eexists.
Qed.

(** C16: The backend's view of the PSD configuration is the device's.  Let the
    runtime (hardware PSD enabled in its configuration) send [set_psd] over a
    connection with no unread and no late reply, and let the device's reply
    exist and be encodable.  If the runtime's call returns, every PSD setting
    stored in the device, of whatever type, is the one in the backend's state,
    and the reassembler was emptied if PSD is now off.  If it raises, it is a
    [DeviceClientError] with the device's message, and a view that agreed before
    still agrees.  The connection stays usable in both cases. *)
Theorem psd_view_matches_device (now : float) (w : nat) (s : runtime) (fields : option pydict) (msg : pydict)
    (srv : FakeServer rng) (reply : pydict) :
  linked w [] (rt_device s) -> stalled (rt_device s) = false -> bc_wf (rt_status s) ->
  py_bool (pget "enable" (ac_psd (rt_config s))) = true ->
  check_keywords "DeviceClient.request" ["self"; "cmd"]%string (psd_request fields s) = Ok tt ->
  build_request (dc_request_id (rt_device s) + 1) "set_psd" (psd_request fields s) = Ok msg ->
  wire_ok msg -> fits msg ->
  next_reply c peer_ip (rt_device s) w "set_psd" msg = (srv, Ok reply) -> wire_ok reply -> fits reply ->
  exists s' r,
    rt_set_psd now fields s = (s', r) /\ linked w [] (rt_device s') /\
    client_server (rt_device s') = srv /\
    match r with
    | Ok response =>
        response = reply /\ psd_view s' /\
        (wants_psd (fs_psd_config srv) = false -> rt_psd_reassembler s' = psd_reset (rt_psd_reassembler s))
    | Raise e => exn_cls e = DeviceClientError /\ (psd_view s -> psd_view s')
    end.
Proof.
  intros Hl Hst Hb Hen Hk Hbr Hw Hf Hr Hrw Hrf.
  destruct (dc_request_answered c peer_ip w (rt_device s) "set_psd" (psd_request fields s) msg srv reply)
    as (d & r & Hreq & Hout & Hsrv & Hl' & _); try done.
  rewrite (rt_set_psd_eq now fields s d r Hen Hk Hreq). unfold reply_outcome in Hout.
  destruct (serve_set_psd c _ _ _ _ _ _ _ Hr) as [Hrep|[Hsame Hnok]].
  - assert (dget "ok"%string reply = Some (PBool true)) as Hok by (by rewrite Hrep).
    rewrite Hok in Hout. subst r.
    assert (dget "applied"%string reply = Some (PDict (fs_psd_config srv))) as Happ by (by rewrite Hrep).
    pose proof (wire_ok_dict_NoDup _ _ _ Hrw Happ) as Hnd.
    unfold mbind at 1, M_bind at 1, M_lift at 1. unfold rt_set_psd_done.
    unfold mbind at 1, M_bind at 1, M_lift at 1. rewrite (proj2 (pget_Some _ _ _ Happ)). cbn [as_mapping].
    unfold mbind at 1, M_bind at 1, upd_state, M_modify. fold (wants_psd (fs_psd_config srv)).
    edestruct (psd_epilogue now (wants_psd (fs_psd_config srv)) reply) as (s' & Hs' & Hdev & Hstate & Hre);
      [|rewrite Hs'; exists s', (Ok reply); split; [done|]]; [done|].
    rewrite Hdev. split_and!; try done.
    + intros k v. rewrite Hdev, Hstate. cbn. rewrite Hsrv. intros Hv. by rewrite dget_dupdate, Hv by done.
    + intros Hoff. rewrite Hre, Hoff. done.
  - rewrite Hnok in Hout. destruct Hout as (code & message & _ & _ & ->).
    eexists _, _. split; [done|]. cbn. split_and!; try done.
    intros Hv k v. cbn. rewrite Hsrv, Hsame. apply Hv.
Qed.
End View.

(** ** A connected backend *)

#[local] Existing Instance constant_env.
#[local] Existing Instance demo_numpy.

Definition demo_runtime : BackendRuntime (Link unit) (list float) float :=
  let s := runtime_init f_zero app_config_default (demo_link []) demo_demod 2048 in
  MkRuntime (rt_config s) (rt_state s) (demo_client []) (rt_audio s) (rt_status s) (rt_spectrum s) (rt_demod s)
    (rt_waterfall s) (rt_psd_reassembler s) (rt_loop s) (rt_udp s).

Definition zoom_fields : pydict := [("start_frequency_hz", PInt 88000000); ("fps", PNone)]%string.

Definition zoom_message : pydict :=
  [("request_id", PInt 2); ("cmd", PStr "set_psd")]%string ++ dset "start_frequency_hz"%string (PInt 88000000) PsdConfig.

Lemma zoom_reply :
  exists srv reply,
    next_reply fake_config_default demo_ip (rt_device demo_runtime) 0 "set_psd" zoom_message = (srv, Ok reply) /\
    wire_ok reply /\ fits reply /\ dget "start_frequency_hz"%string (fs_psd_config srv) = Some (PInt 88000000) /\
    dget "ok"%string reply = Some (PBool true).
Proof.
  eexists _, _. split; [by vm_compute|]. split; [by vm_compute|]. split; [apply fits_dec; by vm_compute|].
  split; by vm_compute.
Qed.

(** Zooming the waterfall: device and backend agree on the new range. *)
Lemma psd_view_matches_device_witness :
  exists s' r,
    rt_set_psd (Transport0 := view_transport fake_config_default demo_ip) f_zero (Some zoom_fields) demo_runtime = (s', r) /\
    dget "start_frequency_hz"%string (fs_psd_config (client_server (rt_device s'))) = Some (PInt 88000000) /\
    (is_ok r = true -> dget "start_frequency_hz"%string (as_psd (rt_state s')) = Some (PInt 88000000)).
Proof.
  destruct zoom_reply as (srv & reply & Hr & Hw & Hf & Hstart & _).
  assert (fits zoom_message) as Hfits by (apply fits_dec; by vm_compute).
  assert (bc_wf (rt_status demo_runtime)) as Hwf.
  { split; [done|]. intros qid q Hq. change (bc_queues (rt_status demo_runtime)) with (∅ : gmap nat (list pydict)) in Hq. by rewrite lookup_empty in Hq. }
  destruct (psd_view_matches_device fake_config_default demo_ip f_zero 0 demo_runtime (Some zoom_fields) zoom_message
    srv reply (demo_linked []) ltac:(by vm_compute) Hwf ltac:(by vm_compute) ltac:(by vm_compute) ltac:(by vm_compute)
    ltac:(by vm_compute) Hfits Hr Hw Hf) as (s' & r & Hrun & _ & Hsrv & Hres).
  exists s', r. split; [exact Hrun|]. rewrite Hsrv. split; [exact Hstart|].
  destruct r as [response|e]; [|intros Hf'; discriminate Hf'].
  intros _. destruct Hres as (_ & Hview & _). apply Hview. rewrite Hsrv. exact Hstart.
Defined.
