(* ===== verification/RawCapture.v ===== *)
(** Raw ADC capture ([rpi/backend/sdr_backend/raw_capture.py]): a request on a
    connection of its own, the reply line, the announced number of payload
    bytes, and the file.  The connection and the file system are the interface
    [CaptureNet]. *)

From Stdlib Require Import ZArith SpecFloat Lia Ascii String.
From stdpp Require Import base list sets strings.
From S2P Require Import Prelude PyFloat PyValue Json Control.

Open Scope Z_scope.

(** [cn_readline] waits five seconds, [cn_readexactly] ten. *)
Class CaptureNet (cn : Type) := {
  cn_open : pyval -> pyval -> M cn unit;
  cn_send : text -> M cn unit;
  cn_readline : M cn text;
  cn_readexactly : Z -> M cn text;
  cn_write_bytes : string -> text -> M cn unit;
  cn_close : M cn unit;
}.

Section Capture.
Context {cn : Type} `{!CaptureNet cn}.

(** [RuntimeError(response.get("error", {}).get("message", ...))]. *)
Definition capture_error {A} (response : pydict) : res A :=
  match pget_def "error" (PDict []) response with
  | PDict error => raise RuntimeError (py_str (pget_def "message" (PStr "raw capture failed") error))
  | v => raise AttributeError ("'" +:+ type_name v +:+ "' object has no attribute 'get'")
  end.

Definition capture_raw (host port : pyval) (adc_channel sample_count : Z) (output_path : string) : M cn pydict :=
  cn_open host port ;;
  request ← M_lift (build_request 1 "capture_raw"
    [("adc_channel", PInt adc_channel); ("sample_count", PInt sample_count); ("sample_format", PStr "S16_LE")]%string);
  line ← M_lift (encode_json_line request);
  cn_send line ;;
  line ← cn_readline;
  response ← M_lift (decode_json_line line);
  if negb (py_bool (pget "ok" response)) then
    cn_close ;; M_lift (capture_error response)
  else
    payload_bytes ← M_lift (pitem "payload_bytes" response ≫= py_int);
    payload ← cn_readexactly payload_bytes;
    cn_write_bytes output_path payload ;;
    cn_close ;;
    mret (dupdate response [("path"%string, PStr output_path)]).

(** [Path("/tmp") / f"sdr_raw_ch{adc_channel}_{sample_count}.s16"] of
    [BackendRuntime.raw_capture]. *)
Definition capture_path (adc_channel sample_count : Z) : string :=
  "/tmp/sdr_raw_ch" +:+ int_str adc_channel +:+ "_" +:+ int_str sample_count +:+ ".s16".
End Capture.
