(* ===== verification/App.v ===== *)
(** The ASGI application ([rpi/backend/sdr_backend/app.py]): HTTP routing,
    request bodies, responses with their error mapping, static files, lifespan,
    and the WebSocket loops.

    What the ASGI server delivers to [receive] is a list of messages, after
    which it delivers [http.disconnect]; what is passed to [send] is collected
    in a list.  The file system and the query-string parser are interfaces. *)

From Stdlib Require Import ZArith SpecFloat Lia Ascii String Strings.Byte.
From stdpp Require Import base list gmap sets strings.
From S2P Require Import Prelude PyFloat PyValue Json Control State Config Broadcast UdpReceiver NumpyApi Dsp Waterfall DeviceClient Runtime RawCapture.

Open Scope Z_scope.

(** ** Messages *)

Inductive asgi_in :=
  | HttpRequest (body : text) (more_body : bool)
  | HttpOther.

Inductive asgi_out :=
  | ResponseStart (status : Z) (headers : list (string * string))
  | ResponseBody (body : text).

Record http_scope := MkScope {
  sc_method : string;
  sc_path : string;
  sc_query : text;
}.

(** What [_static_response] asks of [pathlib] and [mimetypes], relative to the
    configured directory: [None] when that does not resolve or is no directory. *)
Class StaticFiles := {
  sf_root : string -> option string;
  sf_resolve : string -> string -> res string;
  sf_relative : string -> string -> bool;
  sf_index : string -> string;
  sf_is_file : string -> bool;
  sf_read_bytes : string -> res text;
  sf_name : string -> string;
  sf_guess_type : string -> option string;
  parse_qs : string -> list (string * list string);
}.

(** ** Bodies *)

Fixpoint read_body (msgs : list asgi_in) : text :=
  match msgs with
  | HttpRequest body true :: msgs' => body ++ read_body msgs'
  | HttpRequest body false :: _ => body
  | _ => []
  end.

(** Anything that is no JSON object reads as [{}]. *)
Definition read_json_body (msgs : list asgi_in) : pydict :=
  let body := read_body msgs in
  if utf8_ok body then
    match json_loads body with
    | Ok (PDict d) => d
    | _ => []
    end
  else [].

(** ** Responses *)

Definition cors_headers : list (string * string) :=
  [("access-control-allow-origin", "*"); ("access-control-allow-methods", "GET,POST,OPTIONS");
   ("access-control-allow-headers", "*")]%string.

(** [json.dumps(payload, ...).encode("utf-8")] comes before the first [send]. *)
Definition json_response (status : Z) (payload : pydict) : res (list asgi_out) :=
  let body := json_text (PDict payload) in
  if utf8_ok body then
    Ok [ResponseStart status
          ([("content-type", "application/json; charset=utf-8"); ("content-length", int_str (zlen body))]%string
             ++ cors_headers);
        ResponseBody body]
  else raise UnicodeEncodeError "'utf-8' codec can't encode characters: surrogates not allowed".

Fixpoint lstrip_slash (l : list ascii) : list ascii :=
  match l with
  | c :: l' => if Ascii.eqb c "/" then lstrip_slash l' else l
  | [] => []
  end.

Definition str_prefix (p s : string) : bool := String.prefix p s.

Section App.
Context {net arr elt cn : Type} `{!Transport net} `{!Numpy arr elt} `{!CaptureNet cn} `{!StaticFiles}.
Abbreviation runtime := (BackendRuntime net arr elt).
Abbreviation app := (runtime * cn)%type.

Definition on_runtime {A} (m : M runtime A) : M app A := fun s =>
  let '(rt, r) := m s.1 in ((rt, s.2), r).

Definition on_capture {A} (m : M cn A) : M app A := fun s =>
  let '(c, r) := m s.2 in ((s.1, c), r).

(** [BackendRuntime.raw_capture]. *)
Definition rt_raw_capture (adc_channel sample_count : Z) : M app pydict :=
  s ← M_get;
  let device := dc_device (rt_device s.1) in
  on_capture (capture_raw (pget "host" device) (pget "raw_capture_port" device) adc_channel sample_count
                (capture_path adc_channel sample_count)).

Definition routes : list string :=
  ["/"; "/api/status"; "/api/device/connect"; "/api/frontend"; "/api/rx"; "/api/psd"; "/api/stop";
   "/api/raw-capture"; "/api/debug/routes"; "/ws/status"; "/ws/spectrum"; "/ws/audio"]%string.

(** ** Static files: [None] when the route falls through to 404 *)

Definition static_response (static_dir path : string) : res (option (list asgi_out)) :=
  match sf_root static_dir with
  | None => Ok None
  | Some root =>
      let stripped := string_of_list_ascii (lstrip_slash (list_ascii_of_string path)) in
      let relative := if String.eqb stripped "" then "index.html"%string else stripped in
      candidate ← sf_resolve root relative;
      if negb (sf_relative candidate root) then Ok None
      else
        let serve (file : string) : res (option (list asgi_out)) :=
          body ← sf_read_bytes file;
          let content_type := default "application/octet-stream"%string (sf_guess_type (sf_name file)) in
          Ok (Some [ResponseStart 200
                      [("content-type", content_type +:+ "; charset=utf-8"); ("content-length", int_str (zlen body))]%string;
                    ResponseBody body]) in
        if sf_is_file candidate then serve candidate
        else if has_char "." (sf_name relative) then Ok None
        else if sf_is_file (sf_index root) then serve (sf_index root)
        else Ok None
  end.

(** ** Routing *)

Definition query_of (sc : http_scope) : res (list (string * list string)) :=
  match sc_query sc with
  | [] => Ok []
  | raw =>
      if utf8_ok raw then Ok (parse_qs (string_of_list_ascii raw))
      else raise UnicodeDecodeError "'utf-8' codec can't decode bytes"
  end.

(** [body.get("host") or query.get("host", [None])[0]], then [str(host) if host
    else None]. *)
Definition connect_host (body : pydict) (query : list (string * list string)) : option string :=
  let host := py_or (pget "host" body)
    (match dget "host"%string query with Some (h :: _) => PStr h | _ => PNone end) in
  if py_bool host then Some (py_str host) else None.

(** [{key: body[key] for key in (...) if key in body and body[key] is not None}]. *)
Definition frontend_fields (body : pydict) : pydict :=
  omap (fun key => match dget key body with
                   | Some PNone | None => None
                   | Some v => Some (key, v)
                   end) ["attenuator_db"; "lna"; "filter"]%string.

Definition rx_defaults : pydict :=
  [("stream_id", PInt 0); ("adc_channel", PInt 0); ("frequency_hz", PInt 98500000); ("mode", PStr "WFM");
   ("iq_sample_rate_hz", PInt 1000000); ("bandwidth_hz", PInt 250000); ("sample_format", PStr "SC16_LE");
   ("enable", PBool true)]%string.

Definition rx_fields (body : pydict) : pydict := dupdate rx_defaults (not_none body).

(** A response with status 200. *)
Definition answer (m : M app pydict) : M app (list asgi_out) :=
  payload ← m; M_lift (json_response 200 payload).

Definition not_found : res (list asgi_out) :=
  json_response 404 [("ok", PBool false); ("error", PStr "not found")]%string.

(** The body of the [try]: every branch returns after its response. *)
Definition http_route (now : float) (static_dir : string) (sc : http_scope) (msgs : list asgi_in) : M app (list asgi_out) :=
  let method := str_upper (sc_method sc) in
  let path := sc_path sc in
  let get := bool_decide (method = "GET"%string) in
  let post := bool_decide (method = "POST"%string) in
  let body := read_json_body msgs in
  if get && String.eqb path "/api/status" then answer (on_runtime (rt_snapshot now))
  else if get && String.eqb path "/api/debug/routes" then
    answer (mret [("routes"%string, PList (PStr <$> routes))])
  else if post && String.eqb path "/api/device/connect" then
    query ← M_lift (query_of sc);
    answer (on_runtime (rt_connect_device now (connect_host body query)))
  else if post && String.eqb path "/api/frontend" then
    answer (on_runtime (rt_set_frontend now (frontend_fields body)))
  else if post && String.eqb path "/api/rx" then answer (on_runtime (rt_set_rx now (rx_fields body)))
  else if post && String.eqb path "/api/psd" then answer (on_runtime (rt_set_psd now (Some body)))
  else if post && String.eqb path "/api/stop" then answer (on_runtime (rt_stop_all now))
  else if post && String.eqb path "/api/raw-capture" then
    adc_channel ← M_lift (py_int (pget_def "adc_channel" (PInt 0) body));
    sample_count ← M_lift (py_int (pget_def "sample_count" (PInt 65536) body));
    answer (rt_raw_capture adc_channel sample_count)
  else if get && negb (str_prefix "/api/" path) then
    r ← M_lift (static_response static_dir path);
    match r with
    | Some out => mret out
    | None => M_lift not_found
    end
  else M_lift not_found.

Definition error_payload (code : string) (e : exn) : pydict :=
  [("ok", PBool false); ("error", PDict [("code", PStr code); ("message", PStr (exn_msg e))])]%string.

Definition http (now : float) (static_dir : string) (sc : http_scope) (msgs : list asgi_in) : M app (list asgi_out) :=
  if bool_decide (str_upper (sc_method sc) = "OPTIONS"%string) then M_lift (json_response 200 [("ok"%string, PBool true)])
  else
    M_try (http_route now static_dir sc msgs)
      (fun e =>
         if exn_isa (exn_cls e) DeviceClientError then M_lift (json_response 502 (error_payload "device_error" e))
         else M_lift (json_response 500 (error_payload "internal_error" e))).

(** ** Lifespan *)

Inductive lifespan_in := LsStartup | LsShutdown | LsOther.
Inductive lifespan_out := LsStartupFailed (message : string) | LsStartupComplete | LsShutdownComplete.

(** [_lifespan]: returns after the shutdown, whose [stop] has no way to raise.
    At the end of [msgs] the loop waits. *)
Fixpoint lifespan (free : Z -> bool) (msgs : list lifespan_in) : M runtime (list lifespan_out) :=
  match msgs with
  | [] => mret []
  | LsStartup :: msgs' =>
      out ← M_try (rt_start free ;; mret LsStartupComplete) (fun e => mret (LsStartupFailed (exn_msg e)));
      outs ← lifespan free msgs';
      mret (out :: outs)
  | LsShutdown :: _ => rt_stop ;; mret [LsShutdownComplete]
  | LsOther :: msgs' => lifespan free msgs'
  end.

(** Start and shutdown, even of a backend whose ports cannot all be bound: the
    server is told of the failure, and at the shutdown the sockets that were
    opened are closed and the device client with them. *)
Lemma lifespan_cleans_up (free : Z -> bool) (s : runtime) :
  exists s' out u,
    lifespan free [LsStartup; LsShutdown] s = (s', Ok [out; LsShutdownComplete]) /\
    (out = LsStartupComplete \/ exists message, out = LsStartupFailed message) /\
    rt_udp s' = Some u /\ ur_sockets u = [] /\ ur_threads u = [] /\ ur_stop u = true /\
    dc_open (rt_device s') = false.
Proof.
  pose proof (rt_start_eq free s) as Hs. cbv zeta in Hs. destruct (udp_start free _) as [u r].
  set (s1 := MkRuntime _ _ _ _ _ _ _ _ _ true (Some u)) in Hs.
  destruct (rt_stop_ok s1) as (s2 & Hstop & Hc & Hu). exists s2.
  cbn [lifespan]. unfold M_try, mret, M_ret; open_M. rewrite Hs.
  destruct r as [[]|e]; rewrite Hstop; eexists _, (udp_stop u); (split_and!; [done|by eauto|done..|exact Hc]).
Qed.
End App.

(** ** One response per request *)

(** A complete response: the start with the right content length, then the
    whole body. *)
Definition one_response (status : Z) (out : list asgi_out) : Prop :=
  exists headers body,
    out = [ResponseStart status headers; ResponseBody body] /\ ("content-length"%string, int_str (zlen body)) ∈ headers.

Lemma json_response_one status payload out : json_response status payload = Ok out -> one_response status out.
Proof.
  unfold json_response. cbv zeta. destruct (utf8_ok _); [|done]. intros [= <-].
  eexists _, _. split; [done|]. set_solver.
Qed.

Lemma json_response_ok status payload :
  encodable (PDict payload) -> exists out, json_response status payload = Ok out.
Proof.
  intros He%json_text_utf8. unfold json_response. rewrite (Is_true_true_1 _ He). by eexists.
Qed.

Section Responses.
Context {net arr elt cn : Type} `{!Transport net} `{!Numpy arr elt} `{!CaptureNet cn} `{!StaticFiles}.
Abbreviation runtime := (BackendRuntime net arr elt).
Abbreviation app := (runtime * cn)%type.

(** [m] returns complete responses with a status of [statuses]. *)
Definition responds (statuses : list Z) (m : M app (list asgi_out)) : Prop :=
  M_triple (fun _ => True) m (fun out _ => exists status, status ∈ statuses /\ one_response status out) (fun _ _ => True).

Lemma responds_bind {A} statuses (m : M app A) f : (forall a, responds statuses (f a)) -> responds statuses (m ≫= f).
Proof.
  intros Hf. apply (triple_bind _ _ _ (fun _ _ => True)); [|done].
  intros s _. by destruct (m s) as [s' [a|e]].
Qed.

Lemma responds_lift statuses (r : res (list asgi_out)) :
  (forall out, r = Ok out -> exists status, status ∈ statuses /\ one_response status out) -> responds statuses (M_lift r).
Proof. intros Hr. apply triple_lift. intros s _. destruct r; [by apply Hr|done]. Qed.

Lemma responds_json statuses status payload : status ∈ statuses -> responds statuses (M_lift (json_response status payload)).
Proof. intros Hin. apply responds_lift. intros out Hout%json_response_one. by exists status. Qed.

Lemma responds_answer statuses m : 200 ∈ statuses -> responds statuses (answer m).
Proof. intros Hin. apply responds_bind. intros p. by apply responds_json. Qed.

Lemma responds_not_found : responds [200; 404] (M_lift not_found).
Proof. apply responds_json. set_solver. Qed.

Lemma static_response_one dir path out : static_response dir path = Ok (Some out) -> one_response 200 out.
Proof.
  unfold static_response. destruct (sf_root dir) as [root|]; [|done].
  destruct (sf_resolve root _) as [candidate|e]; [|done]. cbn [mbind res_bind].
  assert (forall file r, (body ← sf_read_bytes file;
      Ok (Some [ResponseStart 200 [("content-type", default "application/octet-stream" (sf_guess_type (sf_name file))
                  +:+ "; charset=utf-8"); ("content-length", int_str (zlen body))]; ResponseBody body]))%string
      = Ok (Some r) -> one_response 200 r) as Hserve.
  { intros file r. destruct (sf_read_bytes file) as [body|e]; [|done]. intros [= <-].
    eexists _, _. split; [done|]. set_solver. }
  destruct (negb _); [done|]. destruct (sf_is_file candidate); [apply Hserve|].
  destruct (has_char _ _); [done|]. destruct (sf_is_file (sf_index root)); [apply Hserve|done].
Qed.

Create HintDb responses.
#[local] Hint Resolve responds_json responds_answer responds_not_found : responses.
#[local] Hint Extern 2 (_ ∈ _) => set_solver : responses.

Lemma http_route_responds now dir sc msgs : responds [200; 404] (http_route now dir sc msgs).
Proof.
  unfold http_route. cbv zeta.
  repeat (case_match; [solve [eauto with responses | repeat (apply responds_bind; intros); eauto with responses]|]).
  case_match; [|apply responds_not_found].
  apply (triple_bind _ _ _ (fun r _ => forall out, r = Some out -> one_response 200 out)).
  - apply triple_lift. intros s _. destruct (static_response _ _) eqn:Hs; [|done].
    intros out ->. by eapply static_response_one.
  - intros [out|]; [|intros s _; exact (responds_not_found s I)].
    apply triple_ret. intros s Hs. exists 200. split; [set_solver|by apply Hs].
Qed.

(** C20: One response per HTTP request.  Whatever the request, the body, the
    state of the backend and the behaviour of the device: OPTIONS is answered
    200 and changes nothing.  For every other method the outcome is the
    route's: if the route returns, its response is sent, with status 200 or 404;
    if it raises, the response is the error object with the exception's message,
    status 502 exactly for [DeviceClientError] and 500 for any other exception.
    Each response is one start and one body with the right content length.  The
    one way to send nothing is an exception whose message UTF-8 cannot encode:
    the error response then raises too. *)
Theorem http_one_response (now : float) (dir : string) (sc : http_scope) (msgs : list asgi_in) (s : app) :
  if decide (str_upper (sc_method sc) = "OPTIONS"%string) then
    exists out, http now dir sc msgs s = (s, Ok out) /\
      json_response 200 [("ok"%string, PBool true)] = Ok out /\ one_response 200 out
  else
    match http_route now dir sc msgs s with
    | (s1, Ok out) =>
        http now dir sc msgs s = (s1, Ok out) /\ (one_response 200 out \/ one_response 404 out)
    | (s1, Raise e) =>
        let '(status, code) := if exn_isa (exn_cls e) DeviceClientError
                               then (502, "device_error"%string) else (500, "internal_error"%string) in
        match json_response status (error_payload code e) with
        | Ok out => http now dir sc msgs s = (s1, Ok out) /\ one_response status out
        | Raise e' => http now dir sc msgs s = (s1, Raise e') /\ utf8_ok (chars (exn_msg e)) = false
        end
    end.
Proof.
  unfold http. case_decide as Hm.
  - rewrite bool_decide_true by done. unfold M_lift.
    destruct (json_response 200 [("ok"%string, PBool true)]) as [out|e] eqn:Hr; [|done].
    exists out. split_and!; [done..|by eapply json_response_one].
  - rewrite bool_decide_false by done. unfold M_try.
    pose proof (http_route_responds now dir sc msgs s I) as Hroute.
    destruct (http_route now dir sc msgs s) as [s1 [out|e]].
    { split; [done|]. destruct Hroute as (status & Hst & Hone). set_solver. }
    assert (forall status code, utf8_ok (chars code) = true ->
      match json_response status (error_payload code e) with
      | Ok out => one_response status out
      | Raise _ => utf8_ok (chars (exn_msg e)) = false
      end) as Herr.
    { intros status code Hc. destruct (json_response status (error_payload code e)) as [out|e'] eqn:Hj;
        [by eapply json_response_one|].
      destruct (utf8_ok (chars (exn_msg e))) eqn:Hmsg; [|done].
      destruct (json_response_ok status (error_payload code e)) as [out Hout]; [|congruence].
      cbn. rewrite Hmsg, Hc. done. }
    destruct (exn_isa (exn_cls e) DeviceClientError); unfold M_lift;
      [specialize (Herr 502 "device_error"%string eq_refl)|specialize (Herr 500 "internal_error"%string eq_refl)];
      by case_match.
Qed.
End Responses.

(** ** WebSockets *)

Inductive ws_in := WsConnect | WsDisconnect | WsReceive.

#[export] Instance ws_in_eq_dec : EqDecision ws_in.
Proof. solve_decision. Defined.

Inductive ws_out :=
  | WsClose (code : Z)
  | WsAccept
  | WsText (payload : text)
  | WsBytes (item : list byte).

(** [json.dumps(payload, ensure_ascii=False, separators=(",", ":"))]. *)
Definition send_ws_json (payload : pydict) : ws_out := WsText (json_text (PDict payload)).

(** What [_ws_queue_loop] sends for an item: a JSON text for a message of the
    status and spectrum channels, the bytes of an audio frame. *)
Definition ws_item_message (item : pydict + list byte) : ws_out :=
  match item with inl payload => send_ws_json payload | inr frame => WsBytes frame end.

Inductive channel := ChStatus | ChSpectrum | ChAudio.

Definition ws_channel (path : string) : option channel :=
  if String.eqb path "/ws/status" then Some ChStatus
  else if String.eqb path "/ws/spectrum" then Some ChSpectrum
  else if String.eqb path "/ws/audio" then Some ChAudio
  else None.

(** [_websocket] up to its queue loop: what is sent, and the channel that is
    then subscribed to. *)
Definition ws_open {net arr elt : Type} `{!Transport net} (now : float) (path : string) (first : ws_in) :
    M (BackendRuntime net arr elt) (list ws_out * option channel) :=
  match ws_channel path with
  | None => mret ([WsClose 1008], None)
  | Some ch =>
      match first with
      | WsConnect =>
          match ch with
          | ChStatus => snap ← rt_snapshot now; mret ([WsAccept; send_ws_json snap], Some ch)
          | _ => mret ([WsAccept], Some ch)
          end
      | _ => mret ([WsClose 1002], None)
      end
  end.

Section QueueLoop.
Context {A : Type}.
Implicit Types (q : list A) (inbox : list ws_in).

(** One turn of [_ws_queue_loop]: both tasks are started, and both have
    completed by the time [asyncio.wait] returns if both can complete at once.
    A message of the client is then the only one of the two results looked
    at. *)
Inductive ws_turn_result :=
  | TurnWaits
  | TurnReturns
  | TurnGoes (sent : list A) (q : list A) (inbox : list ws_in).

Definition ws_turn q inbox : ws_turn_result :=
  let '(item, q') := match q with [] => (None, []) | x :: q' => (Some x, q') end in
  match inbox with
  | WsDisconnect :: _ => TurnReturns
  | _ :: inbox' => TurnGoes [] q' inbox'
  | [] => match item with Some x => TurnGoes [x] q' [] | None => TurnWaits end
  end.

(** The loop on a queue and an inbox that get nothing more: what is sent, and
    whether the loop returned ([true]) or waits. *)
Fixpoint ws_queue_loop (fuel : nat) q inbox : option (list A * bool) :=
  match fuel with
  | O => None
  | S f =>
      match ws_turn q inbox with
      | TurnWaits => Some ([], false)
      | TurnReturns => Some ([], true)
      | TurnGoes sent q' inbox' =>
          '(out, closed) ← ws_queue_loop f q' inbox';
          Some (sent ++ out, closed)
      end
  end.

Lemma ws_drain q fuel : (length q < fuel)%nat -> ws_queue_loop fuel q [] = Some (q, false).
Proof.
  revert q. induction fuel as [|fuel IH]; intros [|x q] Hf; cbn in Hf; try lia; [done|].
  cbn [ws_queue_loop]. cbn. rewrite IH by lia. done.
Qed.

(** C34: Client messages displace queued items.  Whatever the client sends while
    items are queued for it, the WebSocket loop takes one item out of the queue
    with each client message and drops it: with [n] messages waiting, the first
    [n] items of the queue are lost and exactly the others are sent, in order,
    after which the loop waits.  If one of the messages is the disconnect,
    nothing is sent and the loop returns.  The loop always gets there: one turn
    for each item and each message is enough. *)
Theorem ws_messages_displace_items (q : list A) (inbox : list ws_in) (fuel : nat) :
  (length q + length inbox < fuel)%nat ->
  ws_queue_loop fuel q inbox =
    if bool_decide (WsDisconnect ∈ inbox) then Some ([], true)
    else Some (drop (length inbox) q, false).
Proof.
  revert q fuel. induction inbox as [|m inbox IH]; intros q fuel Hf.
  - rewrite bool_decide_false by set_solver. simpl in *. rewrite drop_0. apply ws_drain. lia.
  - destruct fuel as [|fuel]; [lia|]. cbn [ws_queue_loop].
    assert (m = WsDisconnect \/ m <> WsDisconnect) as [->|Hm] by (destruct m; auto).
    + rewrite bool_decide_true by set_solver. unfold ws_turn. by destruct q.
    + assert (ws_turn q (m :: inbox) = TurnGoes [] (tail q) inbox) as ->.
      { unfold ws_turn. by destruct q, m. }
      rewrite IH by (destruct q; cbn in *; lia).
      assert (bool_decide (WsDisconnect ∈ m :: inbox) = bool_decide (WsDisconnect ∈ inbox)) as ->.
      { apply bool_decide_ext. rewrite elem_of_cons. naive_solver. }
      case_bool_decide; [done|]. destruct q; simpl; by rewrite ?drop_nil.
Qed.
End QueueLoop.

(** Two audio frames are queued and the client sends one message: the first
    frame is lost. *)
Lemma ws_messages_displace_items_witness :
  ws_queue_loop 4 [1; 2] [WsReceive] = Some ([2], false).
Proof. rewrite (ws_messages_displace_items [1; 2] [WsReceive] 4); [reflexivity|cbn; lia]. Defined.
