(* ===== verification/WsSession.v ===== *)
(** A WebSocket session against its broadcaster ([app.py] [_websocket] and
    [_ws_queue_loop], [broadcast.py]).

    The session subscribes, its loop takes items out of its queue and the
    client's messages out of its inbox while publishers and other subscribers
    use the same broadcaster, and it leaves the [async with] block, which
    unsubscribes it, when the client disconnects, [send] fails or the task is
    cancelled.  [ws_step] is what can happen next. *)

From Stdlib Require Import ZArith Lia Ascii String.
From stdpp Require Import base list gmap sets strings.
From S2P Require Import Prelude Broadcast App.

Open Scope Z_scope.

Section Session.
Context {A : Type} (qid : nat).

Record ws_session := MkSession {
  ws_bc : Broadcaster A;
  ws_inbox : list ws_in;
  ws_sent : list A;
  ws_live : bool;
}.

Inductive ws_event :=
  | WeBroadcast (e : bc_event A)
  | WeClient (m : ws_in)
  | WeTurn
  | WeEnds.

Definition set_queue_of (q : list A) (b : Broadcaster A) : Broadcaster A :=
  MkBroadcaster (bc_max_queue b) (<[qid := q]> (bc_queues b)).

(** Leaving [async with ... subscribe()]. *)
Definition leave (s : ws_session) : ws_session :=
  MkSession (bc_unsubscribe qid (ws_bc s)) (ws_inbox s) (ws_sent s) false.

(** Publishers and the other subscribers. *)
Definition not_ours (e : bc_event A) : Prop :=
  match e with EvPublish _ => True | EvSubscribe k | EvUnsubscribe k | EvReceive k _ => k <> qid end.

Inductive ws_step (s : ws_session) : ws_event -> ws_session -> Prop :=
  | wss_broadcast e b :
      not_ours e -> bc_step (ws_bc s) e b ->
      ws_step s (WeBroadcast e) (MkSession b (ws_inbox s) (ws_sent s) (ws_live s))
  | wss_client m :
      ws_live s = true -> ws_step s (WeClient m) (MkSession (ws_bc s) (ws_inbox s ++ [m]) (ws_sent s) true)
  | wss_goes q sent q' inbox' :
      ws_live s = true -> bc_queues (ws_bc s) !! qid = Some q -> ws_turn q (ws_inbox s) = TurnGoes sent q' inbox' ->
      ws_step s WeTurn (MkSession (set_queue_of q' (ws_bc s)) inbox' (ws_sent s ++ sent) true)
  | wss_returns q :
      ws_live s = true -> bc_queues (ws_bc s) !! qid = Some q -> ws_turn q (ws_inbox s) = TurnReturns ->
      ws_step s WeTurn (leave s)
  | wss_ends : ws_live s = true -> ws_step s WeEnds (leave s).

(** A publication that finds the session's queue full: its oldest item goes. *)
Definition overflows (s : ws_session) (ev : ws_event) : Z :=
  match ev, bc_queues (ws_bc s) !! qid with
  | WeBroadcast (EvPublish _), Some q => if queue_full (bc_max_queue (ws_bc s)) q then 1 else 0
  | _, _ => 0
  end.

(** A run, with the number of overflows of the session's queue on the way. *)
Inductive ws_steps : ws_session -> list ws_event -> Z -> ws_session -> Prop :=
  | wss_nil s : ws_steps s [] 0 s
  | wss_cons s ev s' evs n s'' :
      ws_step s ev s' -> ws_steps s' evs n s'' -> ws_steps s (ev :: evs) (overflows s ev + n) s''.

(** After [accept]: [subscribe()] has put an empty queue into the broadcaster. *)
Definition session_start (b : Broadcaster A) : ws_session := MkSession (bc_subscribe qid b) [] [] true.

Definition ws_published (evs : list ws_event) : list A :=
  omap (fun e => match e with WeBroadcast (EvPublish x) => Some x | _ => None end) evs.

(** The client's messages. *)
Definition ws_messages (evs : list ws_event) : Z :=
  zlen (omap (fun e => match e with WeClient m => Some m | _ => None end) evs).

(** The invariant, for what was published and how many items messages and
    overflows may have taken. *)
Definition session_inv (pub : list A) (msgs : Z) (s : ws_session) : Prop :=
  bc_wf (ws_bc s) /\ 0 <= msgs /\
  if ws_live s then
    exists q, bc_queues (ws_bc s) !! qid = Some q /\ sees (ws_sent s) q pub /\
      zlen pub + zlen (ws_inbox s) <= zlen (ws_sent s) + zlen q + msgs
  else bc_queues (ws_bc s) !! qid = None /\ ws_sent s `sublist_of` pub.

Lemma sees_drop x rc (q hist : list A) : sees rc (x :: q) hist -> sees rc q hist.
Proof.
  intros [Hsub Hsuf]. split; [|by eapply suffix_cons_l]. etrans; [|exact Hsub].
  apply sublist_app; [done|]. by apply sublist_cons.
Qed.

Lemma bc_wf_set q b : bc_wf b -> zlen q <= bc_max_queue b -> bc_wf (set_queue_of q b).
Proof.
  intros [Hm Hq] Hl. split; [done|]. intros k q'. cbn. destruct (decide (k = qid)) as [->|Hne].
  - rewrite lookup_insert_eq. by intros [= <-].
  - rewrite lookup_insert_ne by done. apply Hq.
Qed.

Lemma leave_inv pub msgs s :
  session_inv pub msgs s -> ws_live s = true -> session_inv pub msgs (leave s).
Proof.
  intros (Hwf & Hm & Hs) Hl. rewrite Hl in Hs. destruct Hs as (q & Hq & [Hsub _] & _).
  split; [|split; [done|]]; cbn.
  - destruct Hwf as [Hm0 Hb]. split; [done|]. intros k q'. cbn. intros [_ Hk]%lookup_delete_Some. by apply (Hb k).
  - split; [apply lookup_delete_eq|]. etrans; [|exact Hsub]. by apply sublist_inserts_r.
Qed.

(** The broadcaster's own steps. *)
Lemma broadcast_inv pub msgs s e b :
  session_inv pub msgs s -> not_ours e -> bc_step (ws_bc s) e b ->
  session_inv (pub ++ ws_published [WeBroadcast e]) (msgs + overflows s (WeBroadcast e)) (MkSession b (ws_inbox s) (ws_sent s) (ws_live s)).
Proof.
  intros (Hwf & Hm & Hs) Hno Hstep. destruct (bc_step_wf _ _ _ Hstep Hwf) as [Hwf' Hmax].
  split; [done|split; [unfold overflows; repeat case_match; lia|]]. cbn. destruct (ws_live s).
  - destruct Hs as (q & Hq & Hsee & Hacc). unfold overflows. rewrite Hq.
    destruct (bc_step_queue (ws_bc s) e b qid q) as (q' & Hq' & He); [done|done|destruct e; naive_solver..|].
    exists q'. split; [done|]. destruct e as [k|k|x|k x]; cbn in *; rewrite ?app_nil_r, ?Z.add_0_r; subst; try done.
    + split; [by apply sees_push|]. unfold queue_push, zlen in *. rewrite length_app. cbn.
      destruct (queue_full _ q); rewrite !length_app, ?length_drop; cbn; lia.
    + rewrite decide_False in He by done. by subst.
  - destruct Hs as [Hn Hsub]. split; [|etrans; [exact Hsub|by apply sublist_inserts_r]].
    destruct Hstep as [k Hk|k|item b' Hp|k item q0 Hl]; cbn in *.
    + by rewrite lookup_insert_ne.
    + by rewrite lookup_delete_ne.
    + rewrite publish_eq in Hp by done. injection Hp as <-. cbn. by rewrite lookup_fmap, Hn.
    + by rewrite lookup_insert_ne.
Qed.

(** A turn takes at most one item: it is sent, or a message is handled. *)
Lemma ws_turn_cases (q : list A) inbox sent q' inbox' :
  ws_turn q inbox = TurnGoes sent q' inbox' ->
  (exists x, q = x :: q' /\ sent = [x] /\ inbox = [] /\ inbox' = []) \/
  (exists m, inbox = m :: inbox' /\ sent = [] /\ (q = q' \/ exists x, q = x :: q')).
Proof.
  unfold ws_turn. destruct q as [|x q0], inbox as [|[] inbox0]; try done; intros [= <- <- <-]; [right..|left|right|right];
    try (eexists; split_and!; eauto; fail).
Qed.

Lemma turn_inv pub msgs s q sent q' inbox' :
  session_inv pub msgs s -> ws_live s = true -> bc_queues (ws_bc s) !! qid = Some q ->
  ws_turn q (ws_inbox s) = TurnGoes sent q' inbox' ->
  session_inv pub msgs (MkSession (set_queue_of q' (ws_bc s)) inbox' (ws_sent s ++ sent) true).
Proof.
  intros (Hwf & Hm & Hs) Hl Hq Ht. rewrite Hl in Hs. destruct Hs as (q0 & Hq0 & Hsee & Hacc).
  rewrite Hq in Hq0. injection Hq0 as <-.
  pose proof (proj2 Hwf qid q Hq) as Hb.
  assert (Hlen : zlen q' <= zlen q).
  { apply ws_turn_cases in Ht as [(x & -> & _)|(m & _ & _ & [->|(x & ->)])]; unfold zlen; cbn; lia. }
  split; [apply bc_wf_set; [done|lia]|split; [done|]]. cbn. exists q'. split; [apply lookup_insert_eq|].
  apply ws_turn_cases in Ht as [(x & -> & -> & Hi & ->)|(m & Hi & -> & Hc)].
  - split; [by apply sees_receive|]. rewrite Hi in Hacc. unfold zlen in *.
    rewrite length_app. cbn in *. lia.
  - rewrite app_nil_r. split; [destruct Hc as [->|(x & ->)]; [done|by eapply sees_drop]|].
    rewrite Hi in Hacc. unfold zlen in *.
    destruct Hc as [->|(x & ->)]; cbn in *; lia.
Qed.

Lemma ws_step_inv pub msgs s ev s' :
  session_inv pub msgs s -> ws_step s ev s' ->
  session_inv (pub ++ ws_published [ev]) (msgs + ws_messages [ev] + overflows s ev) s'.
Proof.
  intros Hi Hstep. destruct Hstep as [e b Hno Hb|m Hl|q sent q' inbox' Hl Hq Ht|q Hl Hq Ht|Hl].
  - change (ws_messages [WeBroadcast e]) with 0. rewrite Z.add_0_r. by apply broadcast_inv.
  - cbn. rewrite app_nil_r. change (ws_messages [WeClient m]) with 1. rewrite Z.add_0_r. destruct Hi as (Hwf & Hm & Hs). rewrite Hl in Hs.
    destruct Hs as (q & Hq & Hsee & Hacc). split; [done|split; [lia|]]. cbn. exists q. split_and!; [done..|].
    unfold zlen in *. rewrite length_app. cbn. lia.
  - cbn. rewrite app_nil_r. change (ws_messages [WeTurn]) with 0. rewrite !Z.add_0_r. by eapply turn_inv.
  - cbn. rewrite app_nil_r. change (ws_messages [WeTurn]) with 0. rewrite !Z.add_0_r. by apply leave_inv.
  - cbn. rewrite app_nil_r. change (ws_messages [WeEnds]) with 0. rewrite !Z.add_0_r. by apply leave_inv.
Qed.

Lemma ws_steps_inv pub msgs s evs n s' :
  session_inv pub msgs s -> ws_steps s evs n s' ->
  session_inv (pub ++ ws_published evs) (msgs + ws_messages evs + n) s'.
Proof.
  intros Hi Hs. revert pub msgs Hi. induction Hs as [s|s ev s1 evs n s' Hstep Hs IH]; intros pub msgs Hi.
  - cbn. rewrite app_nil_r. change (ws_messages []) with 0. by rewrite !Z.add_0_r.
  - specialize (IH _ _ (ws_step_inv _ _ _ _ _ Hi Hstep)). revert IH.
    replace (ws_published (ev :: evs)) with (ws_published [ev] ++ ws_published evs)
      by (unfold ws_published; by rewrite <- omap_app).
    replace (ws_messages (ev :: evs)) with (ws_messages [ev] + ws_messages evs)
      by (unfold ws_messages, zlen; rewrite <- Nat2Z.inj_add, <- length_app, <- omap_app; done).
    rewrite app_assoc. intros IH. by replace (msgs + (ws_messages [ev] + ws_messages evs) + (overflows s ev + n))
      with (msgs + ws_messages [ev] + overflows s ev + ws_messages evs + n) by lia.
Qed.

(** C21: What a WebSocket client gets of what is published while it is
    connected, whatever publishers, other clients and its own messages do.  The
    items sent are a subsequence of the published ones, in order and none twice.
    While the session lives its queue holds the newest published items, never
    more than its capacity, none of them sent yet, and of the published items at
    most one is missing for each message the client sent and one for each
    publication that found the queue full.  When the session is over the
    broadcaster no longer knows its queue. *)
Theorem ws_session_view (b : Broadcaster A) evs overflowed s :
  bc_wf b -> bc_queues b !! qid = None -> ws_steps (session_start b) evs overflowed s ->
  ws_sent s `sublist_of` ws_published evs /\
  (ws_live s = true -> exists q, bc_queues (ws_bc s) !! qid = Some q /\
     ws_sent s ++ q `sublist_of` ws_published evs /\ q `suffix_of` ws_published evs /\
     zlen q <= bc_max_queue (ws_bc s) /\
     zlen (ws_published evs) - ws_messages evs - overflowed <= zlen (ws_sent s) + zlen q) /\
  (ws_live s = false -> bc_queues (ws_bc s) !! qid = None).
Proof.
  intros [Hm Hb] Hn Hs.
  assert (Hi : session_inv [] 0 (session_start b)).
  { split; [|split; [done|]]; cbn.
    - split; [done|]. intros k q. cbn. destruct (decide (k = qid)) as [->|Hne].
      + rewrite lookup_insert_eq. intros [= <-]. unfold zlen. cbn. lia.
      + rewrite lookup_insert_ne by done. apply Hb.
    - exists []. split; [apply lookup_insert_eq|]. split; [|done]. split; [done|]. by exists []. }
  pose proof (ws_steps_inv _ _ _ _ _ _ Hi Hs) as (Hwf & Hm0 & Hcase). rewrite app_nil_l, Z.add_0_l in *.
  destruct (ws_live s).
  - destruct Hcase as (q & Hq & [Hsub Hsuf] & Hacc). split_and!; [|intros _|done].
    + etrans; [|exact Hsub]. by apply sublist_inserts_r.
    + exists q. split_and!; [done..|by apply (proj2 Hwf qid)|]. unfold zlen in *. lia.
  - destruct Hcase as [Hnone Hsub]. by split_and!.
Qed.
End Session.

(** Room for two items, no turn while three are published: the first is lost to
    the overflow; the client's message then takes the second. *)
Definition session_events : list (ws_event (A := Z)) :=
  [WeBroadcast (EvPublish 1); WeBroadcast (EvPublish 2); WeBroadcast (EvPublish 3);
   WeClient WsReceive; WeTurn; WeTurn].

Definition session_end : ws_session (A := Z) := MkSession (MkBroadcaster 2 {[0%nat := []]}) [] [3] true.

Lemma session_runs : ws_steps 0 (session_start 0 (bc_init 2)) session_events 1 session_end.
Proof.
  change 1 with (0 + (0 + (1 + (0 + (0 + (0 + 0)))))).
  do 3 (eapply wss_cons; [by apply wss_broadcast; [|constructor; vm_compute; reflexivity]|]).
  eapply wss_cons; [by apply wss_client|].
  eapply wss_cons; [by eapply (wss_goes _ _ [2; 3] [] [3] []); [|vm_compute|vm_compute]|].
  eapply wss_cons; [by eapply (wss_goes _ _ [3] [3] [] []); [|vm_compute|vm_compute]|]. constructor.
Qed.

Lemma ws_session_view_witness :
  ws_steps 0 (session_start 0 (bc_init 2)) session_events 1 session_end /\
  ws_sent session_end = [3] /\ ws_sent session_end `sublist_of` ws_published session_events /\
  exists q, bc_queues (ws_bc session_end) !! 0%nat = Some q /\
    zlen (ws_published session_events) - ws_messages session_events - 1 <= zlen (ws_sent session_end) + zlen q.
Proof.
  destruct (ws_session_view 0 (bc_init 2) session_events 1 session_end) as (Hsub & Hlive & _).
  - split; [reflexivity|]. by intros ? ?.
  - reflexivity.
  - exact session_runs.
  - destruct (Hlive eq_refl) as (q & Hq & _ & _ & _ & Hacc). split_and!; [exact session_runs|reflexivity|exact Hsub|].
    by exists q.
Defined.
