(* ===== verification/Entry.v ===== *)
(** The entry points: [rpi/backend/sdr_backend/main.py], the scope dispatch of
    the ASGI application and the simulator's [async_main].

    The namespaces [argparse] returns are records; [uvicorn.run] is where the
    backend's [main] hands over, and what it is called with is the result. *)

From Stdlib Require Import ZArith SpecFloat Lia Ascii String.
From stdpp Require Import base list sets strings.
From S2P Require Import Prelude PyFloat PyValue Json Config FakeServer.

Open Scope Z_scope.

(** ** The backend *)

Record backend_args := MkBackendArgs {
  ba_config : string;
  ba_host : option string;
  ba_port : option Z;
}.

(** [parse_args()] without arguments. *)
Definition backend_args_default : backend_args := MkBackendArgs "rpi/backend/config/dev.yaml" None None.

Definition set_web (k : string) (v : pyval) (c : AppConfig) : AppConfig :=
  MkAppConfig (ac_device c) (ac_udp c) (ac_frontend c) (ac_rx c) (ac_psd c) (ac_dsp c) (dset k v (ac_web c)).

(** The configuration the application is made of, and the address it is served
    at; [uvicorn] says whether the package can be imported. *)
Definition backend_main (env : ConfigEnv) (uvicorn : bool) (args : backend_args) : res (AppConfig * pyval * pyval) :=
  config ← load_config env (Some (ba_config args));
  let config := match ba_host args with
                | Some h => if String.eqb h "" then config else set_web "host" (PStr h) config
                | None => config
                end in
  let config := match ba_port args with
                | Some p => if p =? 0 then config else set_web "port" (PInt p) config
                | None => config
                end in
  if negb uvicorn then raise RuntimeError "uvicorn is required to run the backend service"
  else Ok (config, pget "host" (ac_web config), pget "port" (ac_web config)).

(** [SdrAsgiApp.__call__]: which handler a scope goes to. *)
Inductive asgi_handler := OnLifespan | OnHttp | OnWebsocket.

Definition call_handler (scope_type : string) : res asgi_handler :=
  if String.eqb scope_type "lifespan" then Ok OnLifespan
  else if String.eqb scope_type "http" then Ok OnHttp
  else if String.eqb scope_type "websocket" then Ok OnWebsocket
  else raise RuntimeError ("unsupported ASGI scope type " +:+ scope_type).

(** ** The simulator *)

Record fake_args := MkFakeArgs {
  fa_bind : string;
  fa_port : Z;
  fa_scenario : string;
  fa_drop_every : Z;
  fa_adc_or : bool;
  fa_fifo_overflow : bool;
}.

Definition fake_args_default : fake_args := MkFakeArgs "127.0.0.1" 9000 "wfm_tone" 0 false false.

(** The server [async_main] makes, and the line it prints before serving. *)
Definition fake_main (args : fake_args) : FakeAc920Config * string :=
  (MkFakeConfig (fa_bind args) (fa_port args) (fa_scenario args) (fc_sample_count fake_config_default)
     (fa_drop_every args) (fa_adc_or args) (fa_fifo_overflow args)
     (fc_status_interval_active_s fake_config_default) (fc_status_interval_idle_s fake_config_default),
   "fake AC920 listening on " +:+ fa_bind args +:+ ":" +:+ py_str (PInt (fa_port args)) +:+ " scenario=" +:+ fa_scenario args).

Lemma fake_main_default : (fake_main fake_args_default).1 = fake_config_default.
Proof. reflexivity. Qed.

(** An option given on the command line, unless it is empty or zero. *)
Definition override (o : option pyval) (v : pyval) : pyval :=
  match o with Some x => if py_bool x then x else v | None => v end.

Lemma py_bool_str h : py_bool (PStr h) = negb (String.eqb h "").
Proof. by destruct h. Qed.

(** The backend is served at the host and port of the command line where
    they are given, and at those of the configuration file otherwise (an empty
    host and the port 0 count as not given); everything else of the
    configuration is the file's, and a missing [uvicorn] is reported only after
    the configuration was loaded. *)
Lemma backend_served_at env args c :
  load_config env (Some (ba_config args)) = Ok c ->
  backend_main env false args = raise RuntimeError "uvicorn is required to run the backend service" /\
  exists c', backend_main env true args =
      Ok (c', override (PStr <$> ba_host args) (pget "host" (ac_web c)),
              override (PInt <$> ba_port args) (pget "port" (ac_web c))) /\
    (forall name, name <> "web"%string -> dget name (sections c') = dget name (sections c)) /\
    forall k, k <> "host"%string -> k <> "port"%string -> dget k (ac_web c') = dget k (ac_web c).
Proof.
  intros Hc. unfold backend_main. rewrite Hc. cbn [mbind res_bind]. cbv zeta. split; [done|].
  destruct (ba_host args) as [h|], (ba_port args) as [p|]; cbn [fmap option_fmap option_map override];
    rewrite ?py_bool_str; cbn [py_bool]; try destruct (String.eqb h ""); try destruct (p =? 0); cbn [negb];
    eexists; (split; [unfold pget; cbn; repeat first [rewrite dget_dset_eq|rewrite dget_dset_ne by done]; done|]);
    (split; [intros name Hn; cbn; repeat case_decide; congruence|]);
    intros k Hk1 Hk2; cbn; rewrite ?dget_dset_ne by done; done.
Qed.

Lemma backend_served_at_witness :
  exists c', backend_main sample_config_env true (MkBackendArgs "backend.yaml" (Some "127.0.0.1"%string) (Some 0)) =
    Ok (c', PStr "127.0.0.1", PInt 8080).
Proof.
  edestruct (backend_served_at sample_config_env (MkBackendArgs "backend.yaml" (Some "127.0.0.1"%string) (Some 0)))
    as (_ & c' & Hm & _); [vm_compute; reflexivity|].
  exists c'. exact Hm.
Defined.
