(* ===== verification/Vitis.v ===== *)
(** The Vitis build script ([ps/baremetal/scripts/vitis_create_ac920_sdr.py]).

    The script drives two things it does not define: the file system and the
    [vitis] package.  Both are an interface over a world type, and what the
    script does to them is logged as a trace, so that its order of checks, calls
    and clean-up can be stated whatever the world answers. *)

From Stdlib Require Import ZArith Lia Ascii String.
From stdpp Require Import base list strings.
From S2P Require Import Prelude PyValue.

Open Scope Z_scope.

(** ** The world *)

Inductive vitis_call :=
  | CreateClient (workspace : string)
  | CreateAdvancedOptions (sdt_repo : string)
  | CreatePlatform (name hw_design os cpu domain_name : string) (generate_dtb : bool)
  | PlatformReport
  | ListDomains
  | GetDomain (name : string)
  | SetLib (name : string)
  | PlatformBuild
  | AddPlatformRepos (path : string)
  | RescanPlatformRepos (path : string)
  | FindPlatform (name : string)
  | CreateApp (name platform domain template : string)
  | AppReport
  | ImportFiles (from_loc : string) (files : list string) (dest : string)
  | AppBuild
  | Dispose.

#[export] Instance vitis_call_eq_dec : EqDecision vitis_call.
Proof. solve_decision. Defined.

(** [find_platform_in_repos] gives a path or [None]; what the other calls
    return is only printed.  [os_walk] lists the directories with their files. *)
Class VitisWorld (w : Type) := {
  os_isfile : string -> w -> bool;
  os_isdir : string -> w -> bool;
  os_walk : string -> w -> list (string * list string);
  os_join : string -> string -> string;
  os_open : string -> w -> res unit;
  os_read : string -> w -> res string;
  sh_rmtree : string -> M w unit;
  vt_call : vitis_call -> M w pyval;
  vt_find_platform : string -> M w (option string);
}.

(** What the script did, oldest first. *)
Inductive action :=
  | AIsfile (path : string) (b : bool)
  | AIsdir (path : string) (b : bool)
  | AWalk (path : string)
  | AOpen (path : string)
  | ARead (path : string)
  | ARmtree (path : string)
  | APrint (line : string)
  | ACall (c : vitis_call).

(** ** Configuration *)

(** [.replace("\\", "/")]. *)
Definition slashes (s : string) : string :=
  string_of_list_ascii ((fun c => if Ascii.eqb c "\" then "/"%char else c) <$> list_ascii_of_string s).

Definition ends_with (suffix s : string) : bool :=
  let n := String.length s in
  let k := String.length suffix in
  (k <=? n)%nat && String.eqb (String.substring (n - k) k s) suffix.

Record VitisConfig := MkVitisConfig {
  vc_repo : string;
  vc_xsa : string;
  vc_workspace : string;
  vc_sdt_repo : string;
}.

(** [os.environ] with the script's defaults. *)
Definition vitis_config (environ : string -> option string) : VitisConfig :=
  let get k dflt := slashes (default dflt (environ k)) in
  let repo := get "SDR_REPO_DIR"%string "C:/Users/86135/Desktop/SDR"%string in
  MkVitisConfig repo
    (get "AC920_XSA" (repo +:+ "/fpga/build/ac920_vendor_sdr/ac920_sdr.xsa"))%string
    (get "AC920_VITIS_WORKSPACE" (repo +:+ "/fpga/build/ac920_vendor_sdr/vitis_sdr"))%string
    (get "VITIS_SDT_REPO" "E:/vivadoref/Vivado/2024.2/data/embeddedsw")%string.

Definition PLATFORM_NAME : string := "ac920_sdr_platform".
Definition DOMAIN_NAME : string := "standalone_domain".
Definition APP_NAME : string := "ac920_sdr_bridge".
Definition CPU : string := "psu_cortexa53_0".

Definition platform_export (cfg : VitisConfig) : string :=
  vc_workspace cfg +:+ "/" +:+ PLATFORM_NAME +:+ "/export/" +:+ PLATFORM_NAME.

Definition create_platform (cfg : VitisConfig) : vitis_call :=
  CreatePlatform PLATFORM_NAME (vc_xsa cfg) "standalone" CPU DOMAIN_NAME false.
Definition create_app (platform : string) : vitis_call :=
  CreateApp APP_NAME platform DOMAIN_NAME "empty_application".
Definition import_bridge (cfg : VitisConfig) : vitis_call :=
  ImportFiles (vc_repo cfg +:+ "/ps/baremetal/src")
    ["ac920_sdr_main.c"; "sdr_control.c"; "sdr_control.h"; "sdr_hw.h"; "sdr_hw_ac920.c"; "sdr_hw_ac920.h"; "sdr_regs.h"]%string
    "src".
Definition import_vendor (cfg : VitisConfig) : vitis_call :=
  ImportFiles (vc_repo cfg +:+ "/fpga/build/ac920_vendor_sdr/vitis_classic/app_acfl3432/src")
    ["platform.c"; "platform.h"; "platform_config.h"; "platform_zynqmp.c"; "platform_zynq.c"; "platform_mb.c";
     "iic_phyreset.c"; "sfp.c"; "si5324.c"; "lscript.ld"]%string
    "src".

(** ** The script *)

Section Script.
Context {w : Type} `{!VitisWorld w}.
Abbreviation state := (w * list action)%type.

Definition log (a : action) : M state unit := M_modify (fun s => (s.1, s.2 ++ [a])).

Definition isfile (p : string) : M state bool :=
  s ← M_get; log (AIsfile p (os_isfile p s.1)) ;; mret (os_isfile p s.1).
Definition isdir (p : string) : M state bool :=
  s ← M_get; log (AIsdir p (os_isdir p s.1)) ;; mret (os_isdir p s.1).
Definition walk_dirs (p : string) : M state (list (string * list string)) :=
  s ← M_get; log (AWalk p) ;; mret (os_walk p s.1).
Definition open_file (p : string) : M state unit :=
  s ← M_get; log (AOpen p) ;; M_lift (os_open p s.1).
Definition read_file (p : string) : M state string :=
  s ← M_get; log (ARead p) ;; M_lift (os_read p s.1).
Definition print (line : string) : M state unit := log (APrint line).

(** An operation of the world; it is logged whether it raises or not. *)
Definition effect {A} (a : action) (m : M w A) : M state A := fun s =>
  let '(x, r) := m s.1 in ((x, s.2 ++ [a]), r).

Definition rmtree (p : string) : M state unit := effect (ARmtree p) (sh_rmtree p).
Definition call (c : vitis_call) : M state pyval := effect (ACall c) (vt_call c).
Definition find_platform (name : string) : M state (option string) :=
  effect (ACall (FindPlatform name)) (vt_find_platform name).

(** [p and os.path.isfile(p)]. *)
Definition usable (p : option string) : M state bool :=
  match p with
  | Some p => if String.eqb p "" then mret false else isfile p
  | None => mret false
  end.

(** The scan of the workspace for an [.xpfm] file: the first one of a directory
    replaces the path, and the scan ends at a path that is a file. *)
Fixpoint scan_dirs (dirs : list (string * list string)) (found : option string) : M state (option string) :=
  match dirs with
  | [] => mret found
  | (root, files) :: dirs' =>
      found ← match List.find (ends_with ".xpfm") files with
              | Some name =>
                  let p := slashes (os_join root name) in
                  print ("AC920 Vitis: found platform xpfm by scan " +:+ p) ;; mret (Some p)
              | None => mret found
              end;
      ok ← usable found;
      if (ok : bool) then mret found else scan_dirs dirs' found
  end.

(** Lines 70 to 75: the path the platform repositories give. *)
Definition register_export (cfg : VitisConfig) : M state (option string) :=
  exported ← isdir (platform_export cfg);
  (if (exported : bool)
   then call (AddPlatformRepos (platform_export cfg)) ;; call (RescanPlatformRepos (platform_export cfg)) ;; mret tt
   else mret tt) ;;
  find_platform PLATFORM_NAME.

(** Lines 42 to 75. *)
Definition build_platform (cfg : VitisConfig) : M state (option string) :=
  stale ← isdir (vc_workspace cfg);
  (if (stale : bool) then rmtree (vc_workspace cfg) else mret tt) ;;
  call (CreateClient (vc_workspace cfg)) ;;
  print ("AC920 Vitis: workspace " +:+ vc_workspace cfg) ;;
  print ("AC920 Vitis: XSA " +:+ vc_xsa cfg) ;;
  print ("AC920 Vitis: SDT repo " +:+ vc_sdt_repo cfg) ;;
  call (CreateAdvancedOptions (vc_sdt_repo cfg)) ;;
  call (create_platform cfg) ;;
  call PlatformReport ;;
  call ListDomains ;;
  call (GetDomain DOMAIN_NAME) ;;
  print ("AC920 Vitis: enabling lwip220 in " +:+ DOMAIN_NAME) ;;
  call (SetLib "lwip220") ;;
  status ← call PlatformBuild;
  print ("AC920 Vitis: platform build status " +:+ py_str status) ;;
  register_export cfg.

(** Lines 76 to 85. *)
Definition locate_xpfm (cfg : VitisConfig) (xpfm : option string) : M state (option string) :=
  print ("AC920 Vitis: platform xpfm " +:+ default "None"%string xpfm) ;;
  ok ← usable xpfm;
  if (ok : bool) then mret xpfm
  else dirs ← walk_dirs (vc_workspace cfg); scan_dirs dirs xpfm.

(** Lines 88 to 92. *)
Definition report_export (cfg : VitisConfig) : M state unit :=
  let buildstatus := vc_workspace cfg +:+ "/" +:+ PLATFORM_NAME +:+ "/export/.buildstatus" in
  there ← isfile buildstatus;
  if (there : bool) then
    open_file buildstatus ;;
    print "AC920 Vitis: platform export status" ;;
    text ← read_file buildstatus;
    print text
  else mret tt.

(** Lines 95 to 139. *)
Definition build_app (cfg : VitisConfig) (platform : string) : M state unit :=
  call (create_app platform) ;;
  call AppReport ;;
  call (import_bridge cfg) ;;
  call (import_vendor cfg) ;;
  call AppBuild ;;
  print "AC920 Vitis: app component built" ;;
  call Dispose ;;
  mret tt.

(** The module body; [Some message] is [raise SystemExit(message)]. *)
Definition vitis_script (cfg : VitisConfig) : M state (option string) :=
  xsa ← isfile (vc_xsa cfg);
  if negb xsa then mret (Some ("XSA does not exist: " +:+ vc_xsa cfg))
  else
    xpfm ← build_platform cfg;
    xpfm ← locate_xpfm cfg xpfm;
    ok ← usable xpfm;
    match (ok : bool), xpfm with
    | true, Some p => build_app cfg p ;; mret None
    | _, _ => report_export cfg ;; mret (Some "Platform export did not produce an .xpfm file."%string)
    end.

(** The process: its exit code.  [fail_hard] is [sys.excepthook], which the
    interpreter calls for every exception that reaches the top but
    [SystemExit]. *)
Definition fail_hard (s : state) : state * Z := ((call Dispose s).1, 1).

Definition vitis_main (cfg : VitisConfig) (s : state) : state * Z :=
  match vitis_script cfg s with
  | (s', Ok None) => (s', 0)
  | (s', Ok (Some _)) => (s', 1)
  | (s', Raise _) => fail_hard s'
  end.
End Script.

(** ** Traces *)

Definition calls (t : list action) : list vitis_call :=
  omap (fun a => match a with ACall c => Some c | _ => None end) t.

(** The calls of a run that succeeds, by phase. *)
Definition platform_calls (cfg : VitisConfig) : list vitis_call :=
  [CreateClient (vc_workspace cfg); CreateAdvancedOptions (vc_sdt_repo cfg); create_platform cfg; PlatformReport;
   ListDomains; GetDomain DOMAIN_NAME; SetLib "lwip220"; PlatformBuild].
Definition repo_calls (cfg : VitisConfig) (exported : bool) : list vitis_call :=
  (if exported then [AddPlatformRepos (platform_export cfg); RescanPlatformRepos (platform_export cfg)] else []) ++
  [FindPlatform PLATFORM_NAME].
Definition app_calls (cfg : VitisConfig) (p : string) : list vitis_call :=
  [create_app p; AppReport; import_bridge cfg; import_vendor cfg; AppBuild; Dispose].

(** The application is only ever created for a non-empty path that was the last
    thing checked, and found to be a file. *)
Definition guarded (t : list action) : Prop :=
  forall t1 p t2, t = t1 ++ ACall (create_app p) :: t2 -> p <> ""%string /\ exists t0, t1 = t0 ++ [AIsfile p true].

Lemma guarded_snoc t a :
  guarded t -> (forall p, a = ACall (create_app p) -> p <> ""%string /\ exists t0, t = t0 ++ [AIsfile p true]) ->
  guarded (t ++ [a]).
Proof.
  intros Ht Ha t1 p t2 Heq. destruct t2 as [|b t2 _] using rev_ind.
  - apply app_inj_tail in Heq as [-> ->]. by apply Ha.
  - rewrite app_comm_cons, app_assoc in Heq. apply app_inj_tail in Heq as [-> _]. by apply (Ht t1 p t2).
Qed.

Section Emits.
Context {w : Type} `{!VitisWorld w}.
Abbreviation state := (w * list action)%type.

(** [m] makes the calls [L a] when it returns [a], and the first of some
    possible run's calls when it raises. *)
Definition emits {A} (L : A -> list vitis_call -> Prop) (m : M state A) : Prop :=
  (exists a l, L a l) /\
  forall s, let '(s', r) := m s in
    exists new, calls s'.2 = calls s.2 ++ new /\
      match r with Ok a => L a new | Raise _ => exists a more, L a (new ++ more) end.

Lemma emits_weaken {A} (L L' : A -> list vitis_call -> Prop) (m : M state A) :
  emits L m -> (forall a l, L a l -> L' a l) -> emits L' m.
Proof.
  intros [(a0 & l0 & H0) Hm] HL. split; [eauto|]. intros s. specialize (Hm s). destruct (m s) as [s' r].
  destruct Hm as (new & Hnew & Hr). exists new. split; [done|].
  destruct r; [auto|]. destruct Hr as (a & more & H). eauto.
Qed.

Lemma emits_bind {A B} L1 L2 (m : M state A) (f : A -> M state B) :
  emits L1 m -> (forall a, emits (L2 a) (f a)) ->
  emits (fun b l => exists a l1 l2, L1 a l1 /\ L2 a b l2 /\ l = l1 ++ l2) (m ≫= f).
Proof.
  intros [(a0 & l0 & H0) Hm] Hf. split.
  { destruct (Hf a0) as [(b & l & Hl) _]. by exists b, (l0 ++ l), a0, l0, l. }
  intros s. specialize (Hm s). unfold mbind, M_bind. destruct (m s) as [s1 [a|e]].
  - destruct Hm as (l1 & H1 & Ha). destruct (Hf a) as [_ Hfa]. specialize (Hfa s1). destruct (f a s1) as [s2 r].
    destruct Hfa as (l2 & H2 & Hr). exists (l1 ++ l2). rewrite H2, H1, app_assoc. split; [done|].
    destruct r as [b|e]; [by exists a, l1, l2|]. destruct Hr as (b & more & Hmore).
    exists b, more, a, l1, (l2 ++ more). by rewrite app_assoc.
  - destruct Hm as (l1 & H1 & a & more & Ha). exists l1. split; [done|]. destruct (Hf a) as [(b & l & Hl) _].
    exists b, (more ++ l), a, (l1 ++ more), l. by rewrite app_assoc.
Qed.

(** Calls that are known in advance. *)
Definition exactly {A} (l : list vitis_call) (_ : A) (l' : list vitis_call) : Prop := l' = l.

Lemma emits_then {A B} l1 (L2 : B -> list vitis_call -> Prop) (m : M state A) (f : A -> M state B) :
  emits (exactly l1) m -> (forall a, emits L2 (f a)) -> emits (fun b l => exists l2, L2 b l2 /\ l = l1 ++ l2) (m ≫= f).
Proof.
  intros Hm Hf. eapply emits_weaken; [by apply (emits_bind (exactly l1) (fun _ => L2))|].
  intros b l (a & la & l2 & -> & H2 & ->). eauto.
Qed.

(** Nothing but checks, output and deletions. *)
Abbreviation silent m := (emits (exactly []) m).

Lemma silent_bind {A B} (L : B -> list vitis_call -> Prop) (m : M state A) (f : A -> M state B) :
  silent m -> (forall a, emits L (f a)) -> emits L (m ≫= f).
Proof. intros Hm Hf. eapply emits_weaken; [by apply emits_then|]. by intros b l (l2 & H & ->). Qed.

Lemma emits_ret {A} (a : A) : silent (mret a : M state A).
Proof. split; [by exists a, []|]. intros s. exists []. by rewrite app_nil_r. Qed.
Lemma emits_log a : (forall c, a <> ACall c) -> silent (log (w := w) a).
Proof.
  intros Ha. split; [by exists tt, []|]. intros [x t]. exists []. unfold log, M_modify, calls. cbn. rewrite omap_app, app_nil_r.
  split; [|done]. destruct a; cbn; rewrite ?app_nil_r; try done. by destruct (Ha c).
Qed.
Lemma emits_call c : emits (exactly [c]) (call c).
Proof.
  split; [by exists PNone, [c]|]. intros s. unfold call, effect. destruct (vt_call c s.1) as [x' r]. exists [c].
  unfold calls. cbn. rewrite omap_app. split; [done|]. destruct r; [done|]. by exists PNone, [].
Qed.
Lemma emits_find name : emits (exactly [FindPlatform name]) (find_platform name).
Proof.
  split; [by exists None, [FindPlatform name]|]. intros s. unfold find_platform, effect.
  destruct (vt_find_platform name s.1) as [x' r]. exists [FindPlatform name].
  unfold calls. cbn. rewrite omap_app. split; [done|]. destruct r; [done|]. by exists None, [].
Qed.
Lemma emits_rmtree p : silent (rmtree p).
Proof.
  split; [by exists tt, []|]. intros s. unfold rmtree, effect. destruct (sh_rmtree p s.1) as [x' r]. exists [].
  unfold calls. cbn. rewrite omap_app. cbn. split; [done|]. destruct r; [done|]. by exists tt, [].
Qed.

Lemma silent_get {A} (f : state -> M state A) : (forall s, silent (f s)) -> inhabited A -> silent (M_get ≫= f).
Proof.
  intros Hf [a]. split; [by exists a, []|]. intros s. exact (proj2 (Hf s) s).
Qed.

Create HintDb emits.
#[local] Hint Resolve emits_ret emits_call emits_find emits_rmtree : emits.
#[local] Hint Extern 1 (emits (exactly []) (log _)) => apply emits_log; discriminate : emits.
#[local] Hint Extern 1 (emits (exactly []) (print _)) => apply emits_log; discriminate : emits.

Lemma emits_isfile p : silent (isfile p).
Proof. apply silent_get; [|exact (inhabits true)]. intros s. apply silent_bind; [|intros ?]; auto with emits. Qed.
Lemma emits_isdir p : silent (isdir p).
Proof. apply silent_get; [|exact (inhabits true)]. intros s. apply silent_bind; [|intros ?]; auto with emits. Qed.
Lemma emits_walk p : silent (walk_dirs p).
Proof. apply silent_get; [|exact (inhabits [])]. intros s. apply silent_bind; [|intros ?]; auto with emits. Qed.
Lemma emits_read p : silent (read_file p).
Proof.
  apply silent_get; [|exact (inhabits ""%string)]. intros s. apply silent_bind; [auto with emits|intros []].
  split; [by exists ""%string, []|]. intros s'. exists []. rewrite app_nil_r. split; [done|].
  unfold M_lift. destruct (os_read p s.1); [done|]. by exists ""%string, [].
Qed.
Lemma emits_open p : silent (open_file p).
Proof.
  apply silent_get; [|exact (inhabits tt)]. intros s. apply silent_bind; [auto with emits|intros []].
  split; [by exists tt, []|]. intros s'. exists []. rewrite app_nil_r. split; [done|].
  unfold M_lift. destruct (os_open p s.1) as [[]|]; [done|]. by exists tt, [].
Qed.
Lemma emits_usable p : silent (usable p).
Proof. unfold usable. repeat case_match; auto using emits_ret, emits_isfile. Qed.
#[local] Hint Resolve emits_isfile emits_isdir emits_walk emits_read emits_open emits_usable : emits.

(** Walks along a piece of the script. *)
Ltac emit :=
  repeat first
    [ solve [auto with emits]
    | apply silent_bind; [solve [auto with emits]|intros ?]
    | eapply emits_then; [solve [auto with emits]|intros ?]
    | case_match ].

Ltac open_trace :=
  cbv beta in *; repeat match goal with H : exists _, _ |- _ => destruct H as (? & H & ->) end; unfold exactly in *; subst.

Lemma emits_scan dirs found : silent (scan_dirs dirs found).
Proof.
  revert found. induction dirs as [|[root files] dirs IH]; intros found; cbn [scan_dirs]; [emit|].
  apply silent_bind; [emit|]. intros ?. emit.
Qed.
#[local] Hint Resolve emits_scan : emits.

Lemma emits_locate cfg xpfm : silent (locate_xpfm cfg xpfm).
Proof. unfold locate_xpfm. emit. Qed.
Lemma emits_report cfg : silent (report_export cfg).
Proof. unfold report_export. cbv zeta. emit. Qed.
#[local] Hint Resolve emits_locate emits_report : emits.

Lemma emits_app cfg p : emits (exactly (app_calls cfg p)) (build_app cfg p).
Proof.
  eapply emits_weaken; [unfold build_app; emit|]. intros b l H.
  open_trace. done.
Qed.

Lemma emits_register cfg : emits (fun _ l => exists exported, l = repo_calls cfg exported) (register_export cfg).
Proof.
  unfold register_export. apply silent_bind; [emit|]. intros exported.
  eapply emits_weaken.
  - apply (emits_then (if exported then [AddPlatformRepos (platform_export cfg); RescanPlatformRepos (platform_export cfg)]
      else []) (exactly [FindPlatform PLATFORM_NAME])); [|intros ?; emit].
    destruct exported; [|emit]. eapply emits_weaken; [emit|]. intros b l H. open_trace. done.
  - intros b l H. exists exported. open_trace. done.
Qed.
#[local] Hint Resolve emits_register : emits.

Lemma emits_platform cfg :
  emits (fun _ l => exists exported, l = platform_calls cfg ++ repo_calls cfg exported) (build_platform cfg).
Proof.
  unfold build_platform. apply silent_bind; [emit|]. intros stale. apply silent_bind; [emit|]. intros ?.
  eapply emits_weaken; [emit|]. intros b l H. cbv beta in H.
  repeat match goal with H : exists l2, _ /\ _ |- _ => destruct H as (? & H & ->) end.
  destruct H as (exported & ->). by exists exported.
Qed.

(** The calls of the whole script, by how it ends. *)
Definition script_calls (cfg : VitisConfig) (r : option string) (l : list vitis_call) : Prop :=
  match r with
  | None => exists exported p, l = platform_calls cfg ++ repo_calls cfg exported ++ app_calls cfg p
  | Some _ => l = [] \/ exists exported, l = platform_calls cfg ++ repo_calls cfg exported
  end.

Lemma emits_script cfg : emits (script_calls cfg) (vitis_script cfg).
Proof.
  unfold vitis_script. apply silent_bind; [emit|]. intros [|]; cbn [negb].
  - eapply emits_weaken.
    + eapply (emits_bind _ (fun _ r l => match r with None => exists p, l = app_calls cfg p | Some _ => l = [] end));
        [apply emits_platform|]. intros xpfm. apply silent_bind; [emit|]. intros xpfm'. apply silent_bind; [emit|].
      intros ok.
      assert (emits (fun r l => match r with None => exists p, l = app_calls cfg p | Some _ => l = [] end)
        (report_export cfg ;; mret (Some "Platform export did not produce an .xpfm file."%string))) as Hfail.
      { apply silent_bind; [emit|]. intros ?. split; [by exists (Some ""%string), []|]. intros s. exists []. by rewrite app_nil_r. }
      destruct ok, xpfm' as [p|]; try exact Hfail.
      split; [by exists (Some ""%string), []|]. intros s. pose proof (proj2 (emits_app cfg p) s) as Ha.
      unfold mbind, M_bind, mret, M_ret. destruct (build_app cfg p s) as [s' [[]|e]]; destruct Ha as (new & Hn & Hl); exists new.
      * split; [done|]. by exists p.
      * split; [done|]. destruct Hl as (a & more & Hl). exists None, more, p. exact Hl.
    + intros r l (xpfm & l1 & l2 & (exported & ->) & H2 & ->). unfold script_calls. destruct r as [m|].
      * subst l2. right. exists exported. by rewrite app_nil_r.
      * destruct H2 as (p & ->). exists exported, p. by rewrite app_assoc.
  - split; [by exists (Some ""%string), []; left|]. intros s. exists []. rewrite app_nil_r. split; [done|by left].
Qed.
End Emits.

(** ** The theorem *)

Section Order.
Context {w : Type} `{!VitisWorld w}.
Abbreviation state := (w * list action)%type.

Definition guarded_state (s : state) : Prop := guarded s.2.

Lemma log_guarded a : (forall p, a <> ACall (create_app p)) -> holds guarded_state (log (w := w) a).
Proof. intros Ha. apply holds_modify. intros s Hs. apply guarded_snoc; [done|]. intros p Hp. by destruct (Ha p). Qed.

Lemma effect_guarded {A} a (m : M w A) : (forall p, a <> ACall (create_app p)) -> holds guarded_state (effect a m).
Proof.
  intros Ha s Hs. assert (guarded (s.2 ++ [a])) as Hg by (apply guarded_snoc; [done|]; intros p Hp; by destruct (Ha p)).
  unfold effect. by destruct (m s.1) as [x [b|e]].
Qed.

Create HintDb guarded.
#[local] Hint Extern 1 (holds _ (log _)) => apply log_guarded; discriminate : guarded.
#[local] Hint Extern 1 (holds _ (print _)) => apply log_guarded; discriminate : guarded.
#[local] Hint Extern 1 (holds _ (rmtree _)) => apply effect_guarded; discriminate : guarded.
#[local] Hint Extern 1 (holds _ (call _)) => apply effect_guarded; discriminate : guarded.
#[local] Hint Extern 1 (holds _ (find_platform _)) => apply effect_guarded; discriminate : guarded.

Ltac protect :=
  repeat first
    [ progress cbv zeta
    | solve [auto with guarded holds]
    | apply holds_bind; [|intros ?]
    | case_match ].

Lemma isfile_guarded p : holds guarded_state (isfile p).
Proof. unfold isfile. protect. Qed.
Lemma isdir_guarded p : holds guarded_state (isdir p).
Proof. unfold isdir. protect. Qed.
#[local] Hint Resolve isfile_guarded isdir_guarded : guarded.
Lemma usable_guarded p : holds guarded_state (usable p).
Proof. unfold usable. protect. Qed.
#[local] Hint Resolve usable_guarded : guarded.
Lemma scan_guarded dirs found : holds guarded_state (scan_dirs dirs found).
Proof. revert found. induction dirs as [|[root files] dirs IH]; intros found; cbn [scan_dirs]; protect. Qed.
#[local] Hint Resolve scan_guarded : guarded.
Lemma platform_guarded cfg : holds guarded_state (build_platform cfg).
Proof. unfold build_platform, register_export. protect. Qed.
Lemma locate_guarded cfg xpfm : holds guarded_state (locate_xpfm cfg xpfm).
Proof. unfold locate_xpfm, walk_dirs. protect. Qed.
Lemma report_guarded cfg : holds guarded_state (report_export cfg).
Proof. unfold report_export, open_file, read_file. protect. Qed.
#[local] Hint Resolve platform_guarded locate_guarded report_guarded : guarded.

(** A path that was just found usable. *)
Lemma usable_true p (s s' : state) : usable p s = (s', Ok true) -> exists q, p = Some q /\ q <> ""%string /\ s'.2 = s.2 ++ [AIsfile q true].
Proof.
  unfold usable, isfile; open_M. destruct p as [q|]; [|done]. destruct (String.eqb_spec q ""); [done|].
  unfold log, mret, M_ret, M_modify. cbn. intros [= <- Hf]. exists q. by rewrite Hf.
Qed.

Lemma app_guarded cfg p (s : state) :
  guarded_state s -> p <> ""%string -> (exists t0, s.2 = t0 ++ [AIsfile p true]) -> guarded_state (build_app cfg p s).1.
Proof.
  intros Hs Hp Ht. assert (guarded (s.2 ++ [ACall (create_app p)])) as Hg.
  { apply guarded_snoc; [done|]. intros p' [= <-]. done. }
  unfold build_app. unfold mbind at 1, M_bind at 1. unfold call at 1, effect.
  destruct (vt_call (create_app p) s.1) as [x [v|e]]; [|done].
  apply (holds_state guarded_state); [|done]. protect.
Qed.

Lemma script_guarded cfg (s : state) : guarded_state s -> guarded_state (vitis_script cfg s).1.
Proof.
  intros Hs. unfold vitis_script. unfold mbind at 1, M_bind at 1. pose proof (isfile_guarded (vc_xsa cfg) s Hs) as H1.
  destruct (isfile (vc_xsa cfg) s) as [s1 [[]|e]]; [|done..]. cbn [negb].
  unfold mbind at 1, M_bind at 1. pose proof (platform_guarded cfg s1 H1) as H2.
  destruct (build_platform cfg s1) as [s2 [xpfm|e]]; [|done].
  unfold mbind at 1, M_bind at 1. pose proof (locate_guarded cfg xpfm s2 H2) as H3.
  destruct (locate_xpfm cfg xpfm s2) as [s3 [xpfm'|e]]; [|done].
  unfold mbind at 1, M_bind at 1. pose proof (usable_guarded xpfm' s3 H3) as H4.
  destruct (usable xpfm' s3) as [s4 [[]|e]] eqn:Hu; [| |done].
  - destruct (usable_true _ _ _ Hu) as (p & -> & Hp & Ht).
    pose proof (app_guarded cfg p s4 H4 Hp ltac:(by eexists)) as Hg. unfold mbind, M_bind.
    by destruct (build_app cfg p s4) as [s5 [[]|e]].
  - apply (holds_state guarded_state); [|done]. protect.
Qed.

(** C40: The order of the Vitis build, whatever the tools answer or raise.
    Without the hardware description nothing is touched: no workspace is deleted
    and no call is made.  The application is only ever created for a non-empty
    platform path that was found to be a file just before.  Exit code 0 means
    that every call was made, in order: platform, optional registration of the
    export, application, sources, build, [dispose].  After an exception the calls
    made are the first of that sequence, and [dispose] is called last.  But when
    the export has no [.xpfm] file the script leaves with [SystemExit], for which
    the interpreter does not call [sys.excepthook]: all of the platform calls
    were made and [dispose] was not. *)
Theorem vitis_build_order (cfg : VitisConfig) (x : w) :
  let '((x', t), code) := vitis_main cfg (x, []) in
  guarded t /\
  (os_isfile (vc_xsa cfg) x = false -> x' = x /\ t = [AIsfile (vc_xsa cfg) false] /\ code = 1) /\
  match (vitis_script cfg (x, [])).2 with
  | Ok None =>
      code = 0 /\
      exists exported p, calls t = platform_calls cfg ++ repo_calls cfg exported ++ app_calls cfg p
  | Ok (Some _) =>
      code = 1 /\ (calls t = [] \/ exists exported, calls t = platform_calls cfg ++ repo_calls cfg exported)
  | Raise _ =>
      code = 1 /\
      exists exported p made rest,
        platform_calls cfg ++ repo_calls cfg exported ++ app_calls cfg p = made ++ rest /\ calls t = made ++ [Dispose]
  end.
Proof.
  assert (guarded_state (x, [])) as H0 by (intros [|] p t2 Heq; discriminate Heq).
  pose proof (script_guarded cfg (x, []) H0) as Hg. pose proof (proj2 (emits_script cfg) (x, [])) as He.
  assert (os_isfile (vc_xsa cfg) x = false ->
    vitis_script cfg (x, []) = ((x, [AIsfile (vc_xsa cfg) false]), Ok (Some ("XSA does not exist: " +:+ vc_xsa cfg)))) as Hno.
  { intros Hx. unfold vitis_script, isfile; open_M. unfold log, mret, M_ret, M_modify. cbn. by rewrite Hx. }
  unfold vitis_main. destruct (vitis_script cfg (x, [])) as [[x' t] [[m|]|e]]; destruct He as (new & Hnew & Hl);
    cbn [fst snd] in *; change (calls []) with (@nil vitis_call) in Hnew; rewrite app_nil_l in Hnew.
  - split_and!; [done| |done|by rewrite Hnew]. intros Hx. specialize (Hno Hx). by injection Hno as -> ->.
  - split_and!; [done| |done|by rewrite Hnew]. intros Hx. discriminate (Hno Hx).
  - unfold fail_hard. pose proof (effect_guarded (ACall Dispose) (vt_call Dispose) ltac:(discriminate) (x', t) Hg) as Hg'.
    unfold call, effect in *. cbn [fst snd] in *. destruct (vt_call Dispose x') as [x2 r]. cbn [fst].
    split_and!; [by destruct r| |done|].
    + intros Hx. discriminate (Hno Hx).
    + assert (calls (t ++ [ACall Dispose]) = new ++ [Dispose]) as Hc by (unfold calls in *; by rewrite omap_app, Hnew).
      destruct Hl as (r0 & more & Hl). unfold script_calls in Hl. destruct r0 as [m|].
      * destruct Hl as [Hl|(exported & Hl)].
        -- apply app_nil in Hl as [-> ->]. by exists false, ""%string, [], (platform_calls cfg ++ repo_calls cfg false ++ app_calls cfg "").
        -- exists exported, ""%string, new, (more ++ app_calls cfg ""). split; [|done]. by rewrite app_assoc, <- Hl, app_assoc.
      * destruct Hl as (exported & p & Hl). by exists exported, p, new, more.
Qed.
End Order.

(** *** Examples *)

(** A file system that is the list of its files; building the platform adds
    the files of [built] to the workspace, which the repositories do not find. *)
Definition toy_world (built : list string) : VitisWorld (list string) := {|
  os_isfile p fs := bool_decide (p ∈ fs);
  os_isdir p fs := false;
  os_walk p fs := [(p, built)];
  os_join a b := a +:+ "\" +:+ b;
  os_open p fs := Ok tt;
  os_read p fs := Ok "failed"%string;
  sh_rmtree p := mret tt;
  vt_call c := match c with
               | PlatformBuild => M_modify (fun fs => fs ++ ((fun f => "ws/" +:+ f) <$> built)) ;; mret (PInt 0)
               | _ => mret PNone
               end;
  vt_find_platform name := mret None;
|}.

Definition toy_config : VitisConfig := MkVitisConfig "repo" "hw.xsa" "ws" "sdt".

(** The scan finds the platform file. *)
Example vitis_scan_finds :
  let '(s, code) := vitis_main (VitisWorld0 := toy_world ["a.txt"; "p.xpfm"]%string) toy_config (["hw.xsa"]%string, []) in
  code = 0 /\ calls s.2 = platform_calls toy_config ++ repo_calls toy_config false ++ app_calls toy_config "ws/p.xpfm".
Proof. vm_compute. split; reflexivity. Qed.

(** There is none: the client that was created is not disposed of. *)
Example vitis_no_xpfm :
  let '(s, code) := vitis_main (VitisWorld0 := toy_world ["a.txt"]%string) toy_config (["hw.xsa"]%string, []) in
  code = 1 /\ calls s.2 = platform_calls toy_config ++ repo_calls toy_config false.
Proof. vm_compute. split; reflexivity. Qed.
