(* ===== verification/VitisProbe.v ===== *)
(** The two probes of the Vitis package ([ps/baremetal/scripts/vitis_probe.py]
    and [vitis_probe_xsa.py]): scripts that print what the installed package
    offers.  The package and the reflection on it are an interface; the scripts
    are traced as what they print and the clients they create and dispose of. *)

From Stdlib Require Import ZArith Lia String.
From stdpp Require Import base list strings.
From S2P Require Import Prelude PyValue.

Open Scope Z_scope.

(** What [dir], [getattr], [type], [callable] and [inspect.signature] say of an
    attribute. *)
Record attribute := MkAttribute {
  at_name : string;
  at_type : string;
  at_callable : bool;
  at_signature : res string;
}.

(** Values that are only printed are given as the text [print] shows. *)
Class ProbeWorld (w : Type) := {
  pw_module : string;
  pw_module_attrs : list attribute;
  pw_create_client : string -> M w string;
  pw_client_attrs : w -> list attribute;
  pw_get_workspace : M w string;
  pw_exists : string -> w -> bool;
  pw_processors : string -> M w string;
  pw_templates : string -> M w (list string);
  pw_repr : exn -> string;
  pw_dispose : M w unit;
}.

Inductive probe_event := Printed (line : string) | Created (workspace : string) | Disposed.

Section Probe.
Context {w : Type} `{!ProbeWorld w}.
Abbreviation state := (w * list probe_event)%type.

Definition say (line : string) : M state unit := M_modify (fun s => (s.1, s.2 ++ [Printed line])).

Fixpoint say_all (lines : list string) : M state unit :=
  match lines with
  | [] => mret tt
  | l :: lines' => say l ;; say_all lines'
  end.

Definition tool {A} (m : M w A) : M state A := fun s => let '(x, r) := m s.1 in ((x, s.2), r).

Definition create_client (workspace : string) : M state string :=
  client ← tool (pw_create_client workspace);
  M_modify (fun s => (s.1, s.2 ++ [Created workspace])) ;;
  mret client.

Definition dispose : M state unit :=
  tool pw_dispose ;; M_modify (fun s => (s.1, s.2 ++ [Disposed])).

(** *** [vitis_probe.py] *)

Definition attribute_lines (a : attribute) : list string :=
  if String.prefix "_" (at_name a) then []
  else
    ("  " +:+ at_name a +:+ " " +:+ at_type a)%string ::
    (if at_callable a then
       [match at_signature a with
        | Ok sig => "    sig: " +:+ sig
        | Raise e => "    sig: <unavailable> " +:+ exn_msg e
        end]%string
     else []).

Definition probe_workspace : string := "C:/Users/86135/Desktop/SDR/fpga/build/ac920_vendor_sdr/vitis_probe_ws".

Definition vitis_probe : M state unit :=
  say ("vitis module: " +:+ pw_module) ;;
  say "vitis attrs:" ;;
  say_all (pw_module_attrs ≫= attribute_lines) ;;
  say "creating client..." ;;
  client ← create_client probe_workspace;
  say ("client: " +:+ client) ;;
  say "client attrs:" ;;
  s ← M_get;
  say_all (pw_client_attrs s.1 ≫= attribute_lines) ;;
  dispose.

(** *** [vitis_probe_xsa.py] *)

Definition probe_xsa : string := "C:/Users/86135/Desktop/SDR/fpga/build/ac920_vendor_sdr/ac920_sdr.xsa".
Definition probe_xsa_workspace : string := "C:/Users/86135/Desktop/SDR/fpga/build/ac920_vendor_sdr/vitis_probe_xsa_ws".

Definition probe_templates (kind : string) : M state unit :=
  say ("templates " +:+ kind) ;;
  M_try (templates ← tool (pw_templates kind); say_all ((fun t => "  " +:+ t) <$> templates))
    (fun e => say (" failed: " +:+ pw_repr e)).

(** Lines 11 to 27, with the workspace the client names. *)
Definition xsa_queries (ws : string) : M state unit :=
  say ("workspace: " +:+ ws) ;;
  s ← M_get;
  say ("xsa exists: " +:+ (if pw_exists probe_xsa s.1 then "True" else "False") +:+ " " +:+ probe_xsa) ;;
  say "processor/os list:" ;;
  M_try (l ← tool (pw_processors probe_xsa); say_all [l])
    (fun e => say ("get_processor_os_list failed: " +:+ pw_repr e)) ;;
  probe_templates "EMBD_APP" ;;
  probe_templates "ACCL_APP".

Definition vitis_probe_xsa : M state unit :=
  create_client probe_xsa_workspace ;;
  ws ← tool pw_get_workspace;
  xsa_queries ws ;;
  dispose.

(** ** Lemmas *)

Lemma say_all_eq lines (s : state) : say_all lines s = ((s.1, s.2 ++ (Printed <$> lines)), Ok tt).
Proof.
  revert s. induction lines as [|l lines IH]; intros [x t]; cbn [say_all]; [by rewrite app_nil_r|].
  unfold say; open_M. unfold M_modify. rewrite IH. cbn. by rewrite <- app_assoc.
Qed.

(** The listing shows exactly the attributes whose names do not begin with an
    underscore, in order; a signature that cannot be had is no obstacle. *)
Lemma attribute_listing (attrs : list attribute) (s : state) :
  (say_all (attrs ≫= attribute_lines) s).2 = Ok tt /\
  (attrs ≫= attribute_lines) =
    (filter (fun a => String.prefix "_" (at_name a) = false) attrs ≫= attribute_lines).
Proof.
  split; [by rewrite say_all_eq|]. induction attrs as [|a attrs IH]; [done|].
  rewrite filter_cons. cbn. rewrite IH. case_decide as Hp; cbn; [done|].
  unfold attribute_lines at 1. by destruct (String.prefix "_" (at_name a)).
Qed.

(** [m] returns in every state, and all it does is to print. *)
Definition prints (m : M state unit) : Prop :=
  forall s, exists x lines, m s = ((x, s.2 ++ (Printed <$> lines)), Ok tt).

Lemma prints_bind m m' : prints m -> prints m' -> prints (m ;; m').
Proof.
  intros Hm Hm' s. destruct (Hm s) as (x & l & Hs). destruct (Hm' (x, s.2 ++ (Printed <$> l))) as (x' & l' & Hs').
  exists x', (l ++ l'). unfold mbind, M_bind. rewrite Hs, Hs'. cbn. by rewrite fmap_app, app_assoc.
Qed.

Lemma prints_say line : prints (say line).
Proof. intros s. by exists s.1, [line]. Qed.

(** A query whose failure is printed. *)
Lemma prints_query {A} (m : M w A) (f : A -> list string) (g : exn -> string) :
  prints (M_try (a ← tool m; say_all (f a)) (fun e => say (g e))).
Proof.
  intros [x t]. unfold M_try, tool; open_M. cbn [fst snd]. destruct (m x) as [x' [a|e]].
  - rewrite say_all_eq. by exists x', (f a).
  - by exists x', [g e].
Qed.

Lemma prints_templates kind : prints (probe_templates kind).
Proof.
  unfold probe_templates. apply prints_bind; [apply prints_say|].
  apply (prints_query (pw_templates kind) (fun templates => (fun t => "  " +:+ t) <$> templates)).
Qed.

Lemma prints_get (f : state -> M state unit) : (forall s, prints (f s)) -> prints (M_get ≫= f).
Proof. intros Hf s. exact (Hf s s). Qed.

Lemma prints_queries ws : prints (xsa_queries ws).
Proof.
  unfold xsa_queries. apply prints_bind; [apply prints_say|]. apply prints_get. intros s.
  do 2 (apply prints_bind; [apply prints_say|]).
  apply prints_bind; [apply (prints_query (pw_processors probe_xsa) (fun l => [l]))|].
  apply prints_bind; apply prints_templates.
Qed.

(** Once the client exists and names its workspace, nothing the package answers
    or raises to the queries of [vitis_probe_xsa.py] keeps the script from
    getting to [dispose]. *)
Lemma xsa_probe_reaches_dispose (x x1 x2 : w) client ws :
  pw_create_client probe_xsa_workspace x = (x1, Ok client) -> pw_get_workspace x1 = (x2, Ok ws) ->
  exists x3 lines,
    vitis_probe_xsa (x, []) = dispose (x3, Created probe_xsa_workspace :: (Printed <$> lines)).
Proof.
  intros Hc Hw. destruct (prints_queries ws (x2, [Created probe_xsa_workspace])) as (x3 & lines & Hq).
  exists x3, lines. unfold vitis_probe_xsa, create_client, tool, mret, M_ret; open_M. cbn [fst snd]. rewrite Hc.
  unfold M_modify. cbn [fst snd]. rewrite Hw. cbn [fst snd app] in *. by rewrite Hq.
Qed.
End Probe.
