(* ===== verification/System.v ===== *)
(** Device to backend: the datagrams the simulated device sends, through the
    UDP receivers and the event loop, into the backend's reassembler and
    statistics. *)

From Stdlib Require Import ZArith SpecFloat Lia Ascii String Strings.Byte.
From stdpp Require Import base list gmap sets strings.
From S2P Require Import Prelude PyFloat PyValue Json Control Packets Psd State Config Broadcast SignalGen SignalRange NumpyApi Dsp Waterfall FakeServer UdpReceiver ServerSpec ServerTx DeviceClient Runtime EventLoop.

Open Scope Z_scope.

(** ** Slices of a list put together again *)

Lemma concat_slices {A} (l : list A) (k n : nat) :
  concat ((fun i => slice (i * Z.of_nat k) (i * Z.of_nat k + Z.of_nat k) l) <$> zrange (Z.of_nat n)) = take (n * k) l.
Proof.
  induction n as [|n IH]; [done|].
  replace (Z.of_nat (S n)) with (Z.of_nat n + 1) by lia. rewrite zrange_succ by lia.
  rewrite fmap_app, concat_app, IH. cbn [fmap list_fmap concat]. rewrite app_nil_r. unfold slice.
  replace (Z.to_nat (Z.of_nat n * Z.of_nat k + Z.of_nat k) - Z.to_nat (Z.of_nat n * Z.of_nat k))%nat with k by lia.
  replace (Z.to_nat (Z.of_nat n * Z.of_nat k)) with (n * k)%nat by lia.
  replace (S n * k)%nat with (n * k + k)%nat by lia. by rewrite take_take_drop.
Qed.

Lemma concat_fmap_concat {A B} (f : A -> list B) (ls : list (list A)) :
  concat ((fun l => concat (f <$> l)) <$> ls) = concat (f <$> concat ls).
Proof. induction ls as [|l ls IH]; [done|]. rewrite fmap_cons. cbn [concat]. by rewrite fmap_app, concat_app, IH. Qed.

Lemma segments_concat bins :
  zlen bins = 4096 -> concat (segment_payload bins <$> zrange 8) = concat (i16_bytes <$> bins).
Proof.
  intros Hl.
  assert (segment_payload bins <$> zrange 8 = (fun l => concat (i16_bytes <$> l)) <$>
    ((fun i => slice (i * bins_per_segment) (i * bins_per_segment + bins_per_segment) bins) <$> zrange 8)) as ->.
  { by rewrite <- list_fmap_compose. }
  rewrite concat_fmap_concat. f_equal. f_equal.
  pose proof (concat_slices bins 512 8) as Hc. change (Z.of_nat 512) with bins_per_segment in Hc.
  change (Z.of_nat 8) with 8 in Hc. rewrite Hc. apply take_ge. unfold zlen in Hl. lia.
Qed.

(** ** PSD: from the device's bins to the waterfall frame *)

Section PsdPath.
Context {rng : Type}.
Context {net arr elt : Type} `{!Transport net} `{!Numpy arr elt}.
Abbreviation server := (FakeServer rng).

Lemma recv_segment p seq flags spacing bins ms d i out :
  psd_sendable p seq flags spacing bins ms -> 0 <= i < 8 ->
  segment_datagram p seq flags spacing bins ms d i out ->
  recv_psd out.2 = Ok (Some (psd_datagram (segment_header p seq flags spacing ms) (segment_payload bins) i)).
Proof.
  intros Hs Hi (bytes & Hb & ->). cbn [snd].
  rewrite <- (app_nil_r (segment_payload bins i)).
  apply (recv_datagram_sent (H := SdrPsdHeader) (segment_header p seq flags spacing ms i)); [done|].
  rewrite segment_payload_length; [done|apply Hs|done].
Qed.

(** C1: The waterfall shows what the device measured.  Whenever the device can
    send a PSD frame, let the network deliver its eight datagrams in any order.
    Each is received as one segment, and the reassembler, whatever it holds of
    other frames, returns nothing for the first seven and then one frame: the
    device's 4096 bins, each decoded to the nearest hundredth of a dB, with the
    device's frequency range and frame number.  Nothing of it stays buffered.
    However the backend's threads, commands that do not reset the reassembler
    and other traffic interleave, that is where its reassembler is once the loop
    has handled the segments. *)
Theorem psd_waterfall_end_to_end (now : Z -> float) (s : server) (p : PsdRequest) (ms : Z -> Z) (d : dest)
    (rt : BackendRuntime net arr elt) :
  psd_frame_ready now s p ms d ->
  ra_frames (rt_psd_reassembler rt) !! (pr_psd_id p, fs_psd_frame_seq s) = None ->
  exists bins outs s',
    make_psd_bins_q8 4096 (pr_start p) (pr_stop p) = Ok bins /\
    send_psd_frame now s = (s', Ok tt) /\ fs_outbox s' = fs_outbox s ++ outs /\
    forall got, got ≡ₚ outs ->
      exists segs r' frame,
        Forall2 (fun out seg => recv_psd out.2 = Ok (Some seg)) got segs /\
        psd_run (rt_psd_reassembler rt) segs = (r', replicate 7 (Ok None) ++ [Ok (Some frame)]) /\
        dget "bins_dbfs" frame = Some (PList (PFloat <$> (q8_to_dbfs <$> bins))) /\
        dget "frame_seq" frame = Some (PInt (fs_psd_frame_seq s)) /\
        dget "start_frequency_hz" frame = Some (PInt (pr_start p)) /\
        dget "stop_frequency_hz" frame = Some (PInt (pr_stop p)) /\
        ra_frames r' !! (pr_psd_id p, fs_psd_frame_seq s) = None /\
        forall (evs : list (loop_event net)) (e : EventLoop net arr elt),
          loop_run evs (el_init rt) = Some e -> received_all ChPsd got.*2 e -> PsdReset ∉ el_done e ->
          rt_psd_reassembler (el_rt e) = r'.
Proof.
  intros Hready Hr. pose proof Hready as (_ & (_ & Hst & Hsp & Hspan & _) & _).
  destruct (send_psd_frame_ok now s p ms d Hready) as (bins & spacing & outs & Hb & Hl & Hrange & _ & Hs & Houts & Hsend).
  set (flags := if fs_psd_first_frame s then SDR_PSD_FLAG_CONFIG_CHANGED else 0) in *.
  set (hdr := segment_header p (fs_psd_frame_seq s) flags spacing ms).
  eexists bins, outs, _. split_and!; [done|exact Hsend|done|]. intros got Hgot.
  apply Forall2_flip in Houts. symmetry in Hgot.
  destruct (Permutation_Forall2 Hgot Houts) as (order & Horder & Hall). symmetry in Horder.
  destruct (psd_reassembly hdr (segment_payload bins) 8 (pr_psd_id p) (fs_psd_frame_seq s) order (rt_psd_reassembler rt))
    as (r' & frame & Hrun & (i & bounds & Hi & Hbd & ->) & Hk & _); [done|done|done| |done|].
  { intros i Hi. split; [by apply (segment_header_packs _ _ _ _ bins)|done]. }
  exists (psd_datagram hdr (segment_payload bins) <$> order), r',
    (wideband_frame (hdr i) (ra_stats r') (decode_bins (concat (segment_payload bins <$> zrange 8))) bounds).
  rewrite segments_concat, decode_bins_encode in Hrun |- * by done.
  assert (bounds.1 = (pr_start p, PInt (pr_stop p))) as Hbounds.
  { revert Hbd. unfold frequency_bounds. unfold hdr, segment_header, psd_packet_header. cbn -[int_truediv].
    replace (pr_start p <? pr_stop p) with true by lia. rewrite int_truediv_ok by lia. by intros [= <-]. }
  destruct bounds as [[b1 b2] b3]. cbn [fst] in Hbounds. injection Hbounds as -> ->.
  assert (Forall2 (fun out seg => recv_psd out.2 = Ok (Some seg)) got (psd_datagram hdr (segment_payload bins) <$> order))
    as Hrecv.
  { assert (Forall (fun j => 0 <= j < 8) order) as Hin.
    { rewrite Forall_forall. intros j Hj. rewrite Horder in Hj. by apply elem_of_zrange. }
    clear -Hall Hs Hin. induction Hall as [|out j got order Hseg _ IH]; [constructor|].
    apply Forall_cons in Hin as [Hj Hin]. rewrite fmap_cons. constructor; [|by apply IH].
    by apply (recv_segment _ _ _ _ _ _ d). }
  split_and!; try done.
  - rewrite Hrun. by rewrite (Permutation_length Horder).
  - cbn [wideband_frame dget]. cbn. unfold slice_to. cbn. rewrite take_ge; [done|].
    rewrite length_fmap. unfold zlen in Hl. lia.
  - intros evs e Hloop Hall' Hno.
    rewrite (received_psd_handled rt evs e got.*2 (psd_datagram hdr (segment_payload bins) <$> order)); try done.
    + by rewrite Hrun.
    + clear -Hrecv. induction Hrecv; by constructor.
Qed.
End PsdPath.

(** ** IQ: from the device's packet numbers to the backend's statistics *)

(** Places in [a :: ks] where a number is skipped. *)
Fixpoint gaps_in (a : Z) (ks : list Z) : Z :=
  match ks with
  | [] => 0
  | k :: ks' => (if decide (k = a + 1) then 0 else 1) + gaps_in k ks'
  end.

(** Increasing numbers whose steps stay below both wrap-arounds. *)
Fixpoint spaced (delta a : Z) (ks : list Z) : Prop :=
  match ks with
  | [] => True
  | k :: ks' => a < k <= a + 2 ^ 32 /\ (k - a) * delta < 2 ^ 64 /\ spaced delta k ks'
  end.

Lemma mod_eq_step a k delta :
  0 < delta -> a < k -> (k - a) * delta < 2 ^ 64 ->
  (k * delta) mod 2 ^ 64 = mask64 ((a * delta) mod 2 ^ 64 + delta) <-> k = a + 1.
Proof.
  intros Hd Hk Hb. rewrite mask64_mod, Zplus_mod_idemp_l. split; [|intros ->; f_equal; lia].
  intros Heq. replace (k * delta) with ((a * delta + delta) + (k - a - 1) * delta) in Heq by lia.
  assert (((k - a - 1) * delta) mod 2 ^ 64 = 0) as H0.
  { replace ((k - a - 1) * delta) with (((a * delta + delta) + (k - a - 1) * delta) - (a * delta + delta)) by lia.
    rewrite Zminus_mod, Heq, Z.sub_diag. done. }
  rewrite Z.mod_small in H0 by nia. nia.
Qed.

Section IqPath.
Context {rng : Type} `{!SignalEnv rng, !SignalLaws rng}.
Abbreviation server := (FakeServer rng).
Context (c : FakeAc920Config) (st : StreamState).
Context {net arr elt : Type} `{!Transport net} `{!Numpy arr elt}.

(** Ingesting numbered packets: exact counts of packets, losses and gaps. *)
Lemma numbered_run ks a stats :
  0 < iq_delta c st -> spaced (iq_delta c st) a ks ->
  ss_last_seq stats = Some (a mod 2 ^ 32) -> ss_last_timestamp stats = Some ((a * iq_delta c st) mod 2 ^ 64) ->
  let stats' := foldl (fun x h => stats_ingest h x) stats (numbered_header c st <$> ks) in
  ss_packets stats' = ss_packets stats + zlen ks /\
  ss_lost_packets stats' = ss_lost_packets stats + (default a (last ks) - a - zlen ks) /\
  ss_timestamp_gaps stats' = ss_timestamp_gaps stats + gaps_in a ks.
Proof.
  intros Hd. revert a stats. induction ks as [|k ks IH]; intros a stats Hsp Hs Ht; cbn zeta.
  { unfold zlen. simpl. lia. }
  destruct Hsp as (Hk & Hkd & Hsp). rewrite fmap_cons. cbn [foldl].
  set (h := numbered_header c st k).
  assert (iq_seq h = k mod 2 ^ 32) as Hseq by done.
  assert (iq_adc_timestamp h = (k * iq_delta c st) mod 2 ^ 64) as Hts by done.
  assert (iq_next_timestamp_delta h = iq_delta c st) as Hdl by done.
  destruct (IH k (stats_ingest h stats) Hsp) as (H1 & H2 & H3); [done..|].
  rewrite H1, H2, H3. rewrite (stats_ingest_lost h stats _ Hs), (stats_ingest_gaps h stats _ Ht), Hts, Hdl.
  assert ((iq_seq h - (a mod 2 ^ 32 + 1)) mod 2 ^ 32 = k - a - 1) as ->.
  { rewrite Hseq, Zminus_mod_idemp_l. rewrite Z.sub_add_distr.
    rewrite <- (Zminus_mod_idemp_l (k - a mod 2 ^ 32)), Zminus_mod_idemp_r, Zminus_mod_idemp_l.
    apply Z.mod_small. lia. }
  assert (default a (last (k :: ks)) = default k (last ks)) as ->.
  { rewrite last_cons. by destruct (last ks). }
  pose proof (mod_eq_step a k (iq_delta c st) Hd ltac:(lia) Hkd) as Hstep.
  cbn [gaps_in]. unfold zlen. cbn [length].
  change (ss_packets (stats_ingest h stats)) with (ss_packets stats + 1).
  split_and!; [lia|lia|]. repeat case_decide; try tauto; lia.
Qed.

Lemma kept_spaced sent0 delta n k :
  0 < delta -> Z.of_nat (k + n) <= 2 ^ 32 -> Z.of_nat (k + n) * delta < 2 ^ 64 ->
  forall a, 0 <= a < Z.of_nat k -> spaced delta a (kept c sent0 k n).
Proof.
  intros Hd. revert k. induction n as [|n IH]; intros k Hn Hnd a Ha; [done|].
  unfold kept. cbn [seq]. rewrite fmap_cons, filter_cons. fold (kept c sent0 (S k) n).
  case_decide; [|apply IH; lia]. split_and!; [lia|lia|nia|]. apply IH; lia.
Qed.

Lemma kept_sorted sent0 delta n k k0 ks :
  0 < delta -> Z.of_nat (k + n) <= 2 ^ 32 -> Z.of_nat (k + n) * delta < 2 ^ 64 ->
  kept c sent0 k n = k0 :: ks -> spaced delta k0 ks.
Proof.
  intros Hd. revert k. induction n as [|n IH]; intros k Hn Hnd; [done|].
  unfold kept. cbn [seq]. rewrite fmap_cons, filter_cons. fold (kept c sent0 (S k) n).
  case_decide; [|apply IH; lia]. intros [= <- <-]. apply (kept_spaced sent0 delta n (S k)); lia.
Qed.

(** The datagrams of the device decode to its numbered headers. *)
Lemma numbered_packets d ks outs :
  Forall2 (iq_datagram c st d) ks outs ->
  exists packets,
    Forall2 (fun out hp => recv_iq out.2 = Ok (Some hp)) outs packets /\
    packets.*1 = numbered_header c st <$> ks /\
    Forall (fun hp => zlen hp.2 = 4 * fc_sample_count c) packets.
Proof.
  induction 1 as [|k out ks outs Hk _ (packets & Hr & Hh & Hl)]; [by exists []|].
  destruct Hk as (bytes & payload & Hp & Hlen & ->). exists ((numbered_header c st k, payload) :: packets).
  split_and!; [constructor; [|done]|by cbn; rewrite Hh|by constructor].
  pose proof (recv_datagram_sent (H := SdrIqHeader) _ _ payload [] Hp Hlen) as Hrecv.
  by rewrite app_nil_r in Hrecv.
Qed.

(** C2: Loss accounting from device to backend.  Let the device send [n] packets
    of a freshly enabled stream (as in the numbering property; fewer than either
    counter's period), dropping every [drop_every]-th, and deliver the others in
    order to the IQ thread of a backend that has no statistics of the stream.
    Every datagram is received with its full payload.  However the backend's
    threads, commands and other traffic interleave, once the loop has handled
    the packets its statistics are exact: [packets] received, [lost_packets] the
    drops between the first and the last received, and [timestamp_gaps] the
    number of places where packets are missing. *)
Theorem iq_accounting_end_to_end (n : nat) (s : server) (i : Z) (d : dest) :
  sendable c st -> 0 < iq_delta c st ->
  Z.of_nat n <= 2 ^ 32 -> Z.of_nat n * iq_delta c st < 2 ^ 64 ->
  at_packet c 0 st st -> dget i (fs_streams s) = Some st -> fs_udp_dest s = Some d -> reaches s d ->
  exists s' outs,
    send_iq_all c (replicate n i) s = (s', Ok tt) /\ fs_outbox s' = fs_outbox s ++ outs /\
    Forall (fun out => exists h payload, recv_iq out.2 = Ok (Some (h, payload)) /\
                         zlen payload = 4 * fc_sample_count c) outs /\
    forall (rt : BackendRuntime net arr elt) (evs : list (loop_event net)) (e : EventLoop net arr elt),
      as_streams (rt_state rt) !! sm_stream_id st = None ->
      loop_run evs (el_init rt) = Some e -> received_all ChIq outs.*2 e ->
      match kept c (fs_iq_packets_sent s) 0 n with
      | [] => as_streams (rt_state (el_rt e)) = as_streams (rt_state rt)
      | k0 :: ks =>
          exists stats,
            as_streams (rt_state (el_rt e)) !! sm_stream_id st = Some stats /\
            ss_packets stats = 1 + zlen ks /\
            ss_lost_packets stats = default k0 (last ks) - k0 - zlen ks /\
            ss_timestamp_gaps stats = gaps_in k0 ks
      end.
Proof.
  intros Hs Hdelta Hn Hnd Hat Hi Hd Hport.
  destruct (send_iq_run c n 0 (fs_iq_packets_sent s) s i st st d) as (s' & outs & st' & Hrun & Hbox & Hall & _);
    [done..|lia|done|done|].
  destruct (numbered_packets d _ _ Hall) as (packets & Hrecv & Hheads & Hlens).
  exists s', outs. split_and!; [done|done| |].
  { clear -Hrecv Hlens. induction Hrecv as [|out [h p] outs packets Hout _ IH]; [constructor|].
    apply Forall_cons in Hlens as [Hl Hlens]. constructor; [by exists h, p|by apply IH]. }
  intros rt evs e Hb Hrun' Hrecd. rewrite (received_iq_handled rt evs e outs.*2 packets); [|done|done|].
  2: { clear -Hrecv. induction Hrecv; by constructor. }
  rewrite Hheads. destruct (kept c (fs_iq_packets_sent s) 0 n) as [|k0 ks] eqn:Hkept; [done|].
  rewrite fmap_cons. cbn [foldl].
  assert (Forall (fun h => iq_stream_id h = sm_stream_id st) (numbered_header c st <$> ks)) as Hids.
  { apply Forall_fmap, Forall_true. done. }
  rewrite (ingest_run_stats _ _ _ _ (ingest_first _ (numbered_header c st k0) (rt_state rt) Hb eq_refl) Hids).
  eexists. split; [done|].
  destruct (numbered_run ks k0 (stats_ingest (numbered_header c st k0) (stream_stats_init (sm_stream_id st))))
    as (H1 & H2 & H3); [done|by apply (kept_sorted (fs_iq_packets_sent s) _ n 0)|done|done|].
  rewrite H1, H2, H3. cbn. lia.
Qed.
End IqPath.

(** *** Witnesses *)

#[local] Existing Instance demo_numpy.

Lemma psd_waterfall_end_to_end_witness :
  exists bins outs s',
    make_psd_bins_q8 4096 88000000 108000000 = Ok bins /\
    send_psd_frame (fun _ => f_of_Z 1) psd_server = (s', Ok tt) /\ fs_outbox s' = fs_outbox psd_server ++ outs /\
    forall got, got ≡ₚ outs ->
      exists segs r' frame,
        Forall2 (fun out seg => recv_psd out.2 = Ok (Some seg)) got segs /\
        psd_run psd_init segs = (r', replicate 7 (Ok None) ++ [Ok (Some frame)]) /\
        dget "bins_dbfs" frame = Some (PList (PFloat <$> (q8_to_dbfs <$> bins))) /\
        dget "frame_seq" frame = Some (PInt (2 ^ 32 - 1)) /\
        dget "start_frequency_hz" frame = Some (PInt 88000000) /\
        dget "stop_frequency_hz" frame = Some (PInt 108000000) /\
        ra_frames r' !! (3, 2 ^ 32 - 1) = None /\
        forall evs e,
          loop_run evs (el_init idle_runtime) = Some e -> received_all ChPsd got.*2 e -> PsdReset ∉ el_done e ->
          rt_psd_reassembler (el_rt e) = r'.
Proof.
  apply (psd_waterfall_end_to_end (fun _ => f_of_Z 1) psd_server sample_psd (fun _ => 1000)
           ("10.0.0.2"%string, 9002) idle_runtime).
  - exact sample_psd_ready.
  - reflexivity.
Defined.

(** Of five packets number 2 is dropped: four received, one lost, one gap.  A
    status message and a malformed IQ packet's error come in between. *)
Definition sent_datagrams : list (list byte) :=
  (fs_outbox (send_iq_all (SignalEnv0 := constant_env) sample_config (replicate 5 0) owned_server).1).*2.

Definition accounting_run : list (loop_event (list text)) :=
  EvStart (fun _ => true) :: (sent_datagrams ≫= fun d =>
    [EvRecv ChIq (Datagram d); EvRecv ChStatus (Datagram [x00]); EvRun f_zero; EvRecv ChIq SockTimeout; EvRun f_zero]).

Lemma iq_accounting_end_to_end_witness :
  exists e stats,
    loop_run (Numpy0 := demo_numpy) accounting_run (el_init idle_runtime) = Some e /\
    as_streams (rt_state (el_rt e)) !! 0 = Some stats /\
    ss_packets stats = 4 /\ ss_lost_packets stats = 1 /\ ss_timestamp_gaps stats = 1.
Proof.
  destruct (iq_accounting_end_to_end (SignalEnv0 := constant_env) (SignalLaws0 := constant_env_laws) (Numpy0 := demo_numpy) (net := list text)
              sample_config (new_stream 0) 5 owned_server 0 ("10.0.0.2"%string, 9001)) as (s' & outs & H1 & H2 & _ & H4).
  - exact sample_sendable.
  - reflexivity.
  - cbn. lia.
  - reflexivity.
  - exact sample_fresh.
  - reflexivity.
  - reflexivity.
  - split; [cbn; lia|reflexivity].
  - assert (outs.*2 = sent_datagrams) as Houts by (unfold sent_datagrams; rewrite H1; cbn [fst]; by rewrite H2).
    destruct (loop_run (Numpy0 := demo_numpy) accounting_run (el_init idle_runtime)) as [e|] eqn:Hrun;
      [|by vm_compute in Hrun].
    exists e. destruct (H4 idle_runtime accounting_run e) as (stats & H5 & H6 & H7 & H8); [reflexivity|exact Hrun| |].
    + rewrite Houts. vm_compute in Hrun. injection Hrun as <-.
      split; [reflexivity|]. split; [repeat constructor|reflexivity].
    + exists stats. exact (conj eq_refl (conj H5 (conj H6 (conj H7 H8)))).
Defined.
